(* ===== verification/_CoqProject ===== *)
-Q . S2P
Prelude.v
Python.v
PyStr.v
Socket.v
Codec.v
Fastlz.v
Wire.v
Disk.v
DiskTheorems.v
DiskRead.v
Frames.v
ReadSpec.v
ReadLoop.v
ReadInto.v
ReadCorrect.v
ReadTheorems.v
DiskWrite.v
WriteSpec.v
Server.v
WriteTheorems.v
TornWrite.v
BlockDevice.v
Replay.v
OpenDisk.v
NfcTypes.v
World.v
Thumbprint.v
Lab.v
Authd.v
NfcSocket.v
OpenTheorems.v
Vim.v
Session.v
Registry.v
AuthTheorems.v
Handle.v
Scope.v
Lifecycle.v
HandleTheorems.v
Run.v
EndToEnd.v
WholeSession.v
DeviceSession.v
TwoDisks.v
Numerals.v
Vddk.v
Wrapper.v
DropIn.v
ProbeVddk.v
ProbeWrite.v
ProbeSearch.v
ProbeTrace.v
ProbeWorker.v
ProbeVddkWrite.v
ProbeRun.v
