(* ===== verification/Prelude.v ===== *)
(** * A verification of OpenVixDiskLib

    OpenVixDiskLib ([src/openvixdisklib/]) reads and writes VMware virtual
    disks over NFC, the protocol that VDDK speaks to ESXi.  It logs in to
    vCenter with pyVmomi, asks for a ticket, presents the ticket to the authd
    daemon of the ESXi host, takes the TCP connection over for NFC, opens the
    disk and then exchanges AIO messages with the server.  This library models
    those parts as pure functions and proves what makes them correct.

    ** How the program is modelled

    - Values ([Python], [PyStr]): integers are [Z], [bytes] are lists of bytes,
      [str] is a list of code points.  An [outcome] is a value, an exception
      ([exn] has the classes the code raises or catches) or the end of a
      loop's fuel.  A function with effects is [M S A], from a store to an
      outcome and the store it leaves, so what was changed before an exception
      stays changed; [try_finally] and [try_except] are the statements.
      [struct.pack] and [struct.unpack_from] are modelled on the formats the
      code uses, range checks included.
    - Sockets ([Socket]): a socket object is what the peer will deliver, cut
      into segments by an arbitrary network and with errors in between, what
      was sent, and the [sendall] calls that will fail.  [_recvn] and
      [_recvn_into] of [nfc_open.py] are here.
    - Sharing: the caller's buffer is part of the store of [readinto], because
      the code fills it in place.  Socket and disk objects of the outer layers
      are positions in the [world] ([World]), because they are shared,
      duplicated and closed by several functions.
    - The outside: [Env] ([World]) is TLS, the operating system, pyVmomi and
      SHA-1; [PyFastlz] ([Fastlz]) is the pyfastlz extension; [Unicode]
      ([PyStr]) is the case mapping and white space beyond ASCII.  They are
      parameters.  [PyFastlzOk] and [UnicodeOk] are the documented
      behaviour that some theorems need, and each is shown to hold for a
      concrete instance.

    ** Parts, bottom up

    - [Wire]: the constants and the two message formats of [nfc_open.py]
      (classic 264-byte messages, AIO headers).
    - [Codec], [Fastlz]: the interface the disk needs from a compressor, and
      [fastlz.py], which implements it.
    - [Disk], [DiskTheorems]: the class [NfcDisk], its request and reply
      methods and [close].
    - [DiskRead], [Frames], [ReadSpec], [ReadLoop], [ReadInto], [ReadCorrect],
      [ReadTheorems]: [NfcDisk.readinto] and [NfcDisk.read].  [Frames] says what
      the receiving functions leave alone; [ReadSpec] says what a valid sequence
      of replies is and what it determines; [ReadLoop] and [ReadInto] show that
      the receive loop refines it.
    - [DiskWrite], [WriteSpec], [Server], [WriteTheorems]: [NfcDisk.write], a
      server that stores and serves what it is told, and the two together.
    - [TornWrite]: writes that fail part of the way, and their repetition.
    - [BlockDevice]: the contract of an open disk, a block device; the interface
      [BlockOps] is what its proof needs from a read and a write.
    - [Replay]: programs of reads and writes that fail anywhere, in one session
      or in several.
    - [OpenDisk], [NfcSocket], [OpenTheorems]: [open_disk] from the check of
      its arguments to OPEN_FILE, on the socket and on the world.
    - [Lifecycle]: sequences of calls of one disk, with a peer that acts between
      them, as a step relation.
    - [NfcTypes], [Thumbprint], [Authd], [Vim], [Session], [Registry],
      [AuthTheorems]: [nfc_auth.py]; [NfcTypes] is the table of SOAP methods it
      declares to pyVmomi, [Registry] several logins in one process.
    - [Handle], [Scope], [HandleTheorems]: [openvixdisklib.py].  [connect] and
      [open] are generator context managers: their [with] block is an argument.
    - [Run], [EndToEnd], [WholeSession], [DeviceSession]: everything together,
      from the login to the logout.  [Run] has triples over what the code can
      see of the world; [EndToEnd] says what vCenter, authd and the NFC server
      must do; [DeviceSession] runs a program of reads and writes, [TwoDisks]
      one that has two disks open over one connection.
    - The protocol study in [docs/probing_samples/]: [ProbeWrite] has the
      parts of the write probe, which are compared with the library, and
      [ProbeSearch] its search; [ProbeTrace] the reader of [strace] output, and
      [ProbeRun] the program around it, with the numerals of its command lines
      in [Numerals] and its worker in [ProbeWorker]; [ProbeVddk] and
      [ProbeVddkWrite] the drivers of native VDDK.  VDDK, processes, files and
      the lab VM are parameters ([Vddk], [Outside]).
    - [Vddk] and [Wrapper]: the calls of the proprietary VDDK library with the
      order they must be made in, and the ctypes wrapper of it that the tests
      use ([tests/integration/vixdisklib.py]).  [DropIn] has the interface that
      [openvixdisklib.py] shares with it, and compares the two.
    - [Lab]: a concrete environment, on which the theorems are applied.

    ** What is proved

    - The contract: an open disk is a block device, on the disk object
      ([BlockDevice]) and through the whole stack ([DeviceSession]): any program
      of reads and writes returns what the device returns, over any answers a
      correct server may give.
    - Reading: [read] returns the content of the disk for every fragmentation,
      order and compression of the answer and every segmentation of the
      stream; [readinto] refines the specification of replies, never writes
      outside the requested range, always terminates, and in packed mode
      describes exactly what it stored, so that reassembling gives the plain
      read.
    - Writing: a server that decodes the client's messages stores exactly the
      data; the messages keep within the session's buffer; a read gives back
      what a write stored.
    - Failure: a write that fails leaves a prefix of the data at its place; a
      session that fails anywhere leaves what the device has after a prefix of
      the program; and running a program again, in new sessions, until it
      returns leaves what running it once does ([TornWrite], [Replay]).
    - Replacement: a program of reads and writes over the interface of
      [VixDiskLibHandle] returns the same through [openvixdisklib.py] as through
      the VDDK wrapper, over disks with the same content ([DropIn]).
    - Sharing: two disks in nested blocks over one connection do not disturb
      each other, whatever the order of their operations.
    - The disk object: well-formedness is established by [open_disk] and kept
      by every sequence of calls on every outcome; op ids are never reused;
      [close] always releases the socket and is final; the conversations of
      [open_disk], [close] and authd are exactly the documented ones.
    - Resources: [connect_authd], [open_disk], [authenticate] and the blocks of
      [connect], [open] and [NfcAuthSession] leave no socket open and no VIM
      session logged in that they should not, whatever fails, but for the one
      socket whose own setup failed (see the limits).
    - Completion: over peers that answer, a whole session returns what its body
      returns, says exactly what it should to each of them, and leaves nothing
      open.
    - Security: a pinned thumbprint is enforced exactly, and a pinned login
      gives the credentials to nobody before the digest was compared; the ticket asked for
      is that of the disk and access requested; what the flags rule out is
      refused before anything is sent; the NFC type is declared to pyVmomi at
      most once in a process.
    - The study: the write probe's open and its raw message are those of the
      library; the trace reader recovers what [strace -x -s 96] shows of the
      streams and finds exactly the messages in it, ends on every input, and is
      reported as it is by the program that runs the worker; that program gives the worker the
      arguments it means and destroys its lab VM whatever fails.  The search of
      the write probe logs out of every session before the next one, and
      reports success only on the data it read back in that session; the
      drivers of VDDK and the worker of the trace probe keep to the order of its
      calls and the size of its buffers, and the worker leaves no disk and no
      connection open, whatever fails.
    - Limits of the code: overlapping replies as long as the request always
      leave part of the buffer unwritten; a short FASTLZ reply raises
      [struct.error]; [readinto] leaves the body of an error message unread; the
      duplicated socket of a session is leaked if [settimeout], [setsockopt] or
      [create_default_context] fails for it; [write] of the handle does not work
      with sectors larger than 512 bytes; the trace reader does not see calls
      that carry text.

    ** Fuel

    Only the loops have fuel, and no fuel appears in the arguments of a method.
    [_recvn_into] reads at least one byte a round, [readinto] counts at least
    one byte of its request a round, and [write] sends at least one (buffer
    sizes are at least 1, which [open_disk] checks): the number of bytes asked
    for is enough.  [_readline] gives up after 4096 bytes, so 4098 is enough.
    The walk over a trace moves on by at least one byte a round.
    [Total] and the theorems on termination say that no fuel ends.

    ** What is not modelled

    The bytes of TLS records (a TLS socket is a socket object of its own), the
    numbers of timeouts, log messages and the texts of exceptions,
    and exceptions outside [Exception] (an interrupt or a generator that is
    dropped).  The tests need a vSphere host and are not modelled, but for
    [_rebuild_skip] and the VDDK wrapper, without its prototypes and the texts
    of its errors.  Of the protocol study, [nfc_write_probe.py] and
    [vddk_write_trace.py] extend a class that is not in the repository, which is
    a parameter; the hooks in C are left out.

    ** Next

    The results of a program that is continued, after a failure, from the
    operation that failed; the same through the handle, with the login of each
    session. *)
From Stdlib Require Import ZArith Lia.
From stdpp Require Export base list numbers sets.
From coqutil Require Import Byte.

#[export] Set Default Goal Selector "!".

Declare Scope py_scope.
Delimit Scope py_scope with py.
Open Scope Z_scope.

(** * Bytes, lengths and slices *)

Abbreviation byte := Corelib.Init.Byte.byte.
Abbreviation bytes := (list Corelib.Init.Byte.byte).

(** Python's [len]. *)
Definition len {A} (l : list A) : Z := Z.of_nat (length l).

(** [bytearray(n)]: [n] zero bytes. *)
Definition zeros (n : Z) : bytes := replicate (Z.to_nat n) Byte.x00.

(** [l[a:b]] for [0 <= a]; out-of-range bounds are clipped, as in Python. *)
Definition slice {A} (a b : Z) (l : list A) : list A :=
  take (Z.to_nat (b - a)) (drop (Z.to_nat a) l).

(** [l[a:b]] for [0 <= a] and any [b]: a negative bound counts from the end. *)
Definition py_slice {A} (a b : Z) (l : list A) : list A :=
  slice a (if b <? 0 then Z.max 0 (b + len l) else b) l.

(** The list after [l[a : a + len(new)] = new], a slice assignment that keeps
    the length (what a [memoryview] allows). *)
Definition splice {A} (a : Z) (new l : list A) : list A :=
  take (Z.to_nat a) l ++ new ++ drop (Z.to_nat a + length new) l.

(** [l.ljust(n, b"\x00")]. *)
Definition ljust0 (n : Z) (l : bytes) : bytes := l ++ zeros (n - len l).

#[export] Instance byte_eq_dec : EqDecision byte := Byte.byte_eq_dec.

(** * Tactics *)

(** Normalise lengths to [Z] and hand over to [lia]. *)
Create HintDb pylen.
Create Rewrite HintDb pylen_rw.

Ltac len_norm :=
  unfold len in *;
  repeat first
    [ progress rewrite ?length_app, ?length_take, ?length_drop, ?length_replicate,
        ?length_fmap in *
    | progress autorewrite with pylen_rw in * ].

Ltac zlia := len_norm; simpl length in *; lia.

(** * Lemmas on lengths *)

Section Lengths.
Context {A : Type}.
Implicit Types (l k : list A).

Lemma len_nonneg l : 0 <= len l.
Proof. unfold len. lia. Qed.

Lemma len_nil : len (@nil A) = 0.
Proof. done. Qed.

Lemma len_cons x l : len (x :: l) = 1 + len l.
Proof. unfold len. simpl length. lia. Qed.

Lemma len_app l k : len (l ++ k) = len l + len k.
Proof. zlia. Qed.

Lemma len_nil_inv l : len l <= 0 -> l = [].
Proof. destruct l; [done|]. rewrite len_cons. pose proof (len_nonneg l). lia. Qed.

Lemma len_slice a b l : 0 <= a <= b -> b <= len l -> len (slice a b l) = b - a.
Proof. unfold slice. intros. zlia. Qed.

Lemma len_slice_le a b l : a <= b -> len (slice a b l) <= b - a.
Proof. unfold slice. intros. zlia. Qed.

Lemma length_slice a b l :
  0 <= a <= b -> b <= len l -> length (slice a b l) = Z.to_nat (b - a).
Proof. intros Ha Hb. pose proof (len_slice a b l Ha Hb). unfold len in *. lia. Qed.

Lemma len_splice a k l : 0 <= a -> a + len k <= len l -> len (splice a k l) = len l.
Proof. unfold splice. intros. zlia. Qed.

Lemma length_splice a k l :
  0 <= a -> a + len k <= len l -> length (splice a k l) = length l.
Proof. unfold splice. intros. zlia. Qed.
End Lengths.

Lemma len_zeros n : 0 <= n -> len (zeros n) = n.
Proof. unfold zeros. intros. zlia. Qed.

Lemma len_ljust0 n (l : bytes) : len l <= n -> len (ljust0 n l) = n.
Proof. unfold ljust0. intros. rewrite len_app, len_zeros; lia. Qed.

(** * Lemmas on slices and splices *)

Section Slices.
Context {A : Type}.
Implicit Types (l k : list A).

Lemma slice_full l n : n = len l -> slice 0 n l = l.
Proof. intros ->. unfold slice. simpl. rewrite drop_0. apply take_ge. zlia. Qed.

Lemma slice_empty a l : slice a a l = [].
Proof. unfold slice. by rewrite Z.sub_diag. Qed.

Lemma slice_app_l a b l k : 0 <= a <= b -> b <= len l -> slice a b (l ++ k) = slice a b l.
Proof.
  unfold slice. intros. rewrite drop_app_le by zlia. by rewrite take_app_le by zlia.
Qed.

Lemma slice_app_r a b l k :
  len l <= a -> slice a b (l ++ k) = slice (a - len l) (b - len l) k.
Proof.
  unfold slice. intros. pose proof (len_nonneg l).
  rewrite drop_app_ge by zlia. f_equal; [zlia|]. f_equal. zlia.
Qed.

Lemma slice_prefix l k n : n = len l -> slice 0 n (l ++ k) = l.
Proof.
  intros ->. pose proof (len_nonneg l). rewrite slice_app_l by lia. by apply slice_full.
Qed.

Lemma slice_to_end a n l : n = len l -> slice a n l = drop (Z.to_nat a) l.
Proof. intros ->. unfold slice. apply take_ge. zlia. Qed.

Lemma slice_slice a b c d l :
  0 <= a <= b -> 0 <= c <= d -> d <= b - a ->
  slice c d (slice a b l) = slice (a + c) (a + d) l.
Proof.
  unfold slice. intros. rewrite skipn_firstn_comm, take_take, drop_drop.
  f_equal; [lia|]. f_equal. lia.
Qed.

Lemma slice_split a b c l :
  0 <= a <= b -> b <= c -> slice a c l = slice a b l ++ slice b c l.
Proof.
  unfold slice. intros.
  rewrite <- (take_drop (Z.to_nat (b - a)) (take (Z.to_nat (c - a)) _)).
  rewrite take_take, skipn_firstn_comm, drop_drop. f_equal; [f_equal; lia|].
  f_equal; [lia|]. f_equal. lia.
Qed.

Lemma lookup_slice a b l (i : nat) :
  0 <= a -> (i < Z.to_nat (b - a))%nat -> slice a b l !! i = l !! (Z.to_nat a + i)%nat.
Proof. unfold slice. intros. rewrite lookup_take_lt by lia. by rewrite lookup_drop. Qed.

Lemma lookup_splice_in a k l (i : nat) :
  0 <= a -> a + len k <= len l ->
  (Z.to_nat a <= i < Z.to_nat a + length k)%nat ->
  splice a k l !! i = k !! (i - Z.to_nat a)%nat.
Proof.
  unfold splice. intros. rewrite lookup_app_r by zlia.
  rewrite lookup_app_l by zlia. f_equal. zlia.
Qed.

Lemma lookup_splice_out a k l (i : nat) :
  0 <= a -> a + len k <= len l ->
  ~ (Z.to_nat a <= i < Z.to_nat a + length k)%nat ->
  splice a k l !! i = l !! i.
Proof.
  unfold splice. intros ?? Hi. destruct (decide (i < Z.to_nat a)%nat).
  - rewrite lookup_app_l by zlia. by rewrite lookup_take_lt by lia.
  - rewrite lookup_app_r by zlia. rewrite lookup_app_r by zlia.
    rewrite lookup_drop. f_equal. zlia.
Qed.

Lemma splice_nil a l : splice a [] l = l.
Proof. unfold splice. simpl. rewrite Nat.add_0_r. apply take_drop. Qed.

Lemma splice_full k l : len k = len l -> splice 0 k l = k.
Proof.
  unfold splice. intros. simpl. rewrite drop_ge by zlia. apply app_nil_r.
Qed.

(** Two adjacent slice assignments are one. *)
Lemma splice_adjacent a k1 k2 l :
  0 <= a -> a + len k1 + len k2 <= len l ->
  splice (a + len k1) k2 (splice a k1 l) = splice a (k1 ++ k2) l.
Proof.
  intros Ha Hl. pose proof (len_nonneg k1). pose proof (len_nonneg k2).
  apply list_eq. intros i.
  destruct (decide (Z.to_nat (a + len k1) <= i < Z.to_nat (a + len k1) + length k2)%nat) as [Hi|Hi].
  - rewrite lookup_splice_in by (rewrite ?len_splice by lia; lia).
    rewrite lookup_splice_in by (rewrite ?len_app; zlia).
    rewrite lookup_app_r by zlia. f_equal. zlia.
  - rewrite lookup_splice_out by (rewrite ?len_splice by lia; lia).
    destruct (decide (Z.to_nat a <= i < Z.to_nat a + length k1)%nat).
    + rewrite !lookup_splice_in by (rewrite ?len_app; zlia).
      by rewrite lookup_app_l by zlia.
    + rewrite !lookup_splice_out by (rewrite ?len_app; zlia). done.
Qed.

(** What a slice of the result of a slice assignment sees. *)
Lemma slice_splice_same a k l :
  0 <= a -> a + len k <= len l -> slice a (a + len k) (splice a k l) = k.
Proof.
  intros Ha Hl. pose proof (len_nonneg k). apply list_eq. intros i.
  destruct (decide (i < length k)%nat).
  - rewrite lookup_slice by zlia. rewrite lookup_splice_in by zlia. f_equal. lia.
  - rewrite !lookup_ge_None_2; [done|lia|].
    rewrite length_slice by (rewrite ?len_splice by lia; lia). zlia.
Qed.

Lemma slice_splice_disjoint a b c k l :
  0 <= a -> a + len k <= len l -> 0 <= b <= c -> (c <= a \/ a + len k <= b) ->
  slice b c (splice a k l) = slice b c l.
Proof.
  intros Ha Hl Hb Hd. pose proof (len_nonneg k). apply list_eq. intros i.
  destruct (decide (i < Z.to_nat (c - b))%nat).
  - rewrite !lookup_slice by lia. apply lookup_splice_out; [lia..|zlia].
  - rewrite !lookup_ge_None_2; [done| |]; unfold slice; zlia.
Qed.
End Slices.

#[export] Hint Rewrite @len_app @len_cons @len_nil : pylen_rw.
#[export] Hint Resolve len_nonneg : pylen.
