(* ===== verification/Python.v ===== *)
(** Python as the program uses it: exceptions and their classes, a state and
    exception monad with [try]/[finally]/[except], and the [struct] module's
    little-endian [I] and [Q] codes.

    A Python function that reads or changes a store of type [S] is a
    [M S A]: it returns an outcome together with the store, so what was
    changed before an exception stays changed.  [zoom] runs a function on one
    component of a larger store (an attribute of an object, a socket). *)
From Stdlib Require Import ZArith Lia String Ascii.
From stdpp Require Import base list numbers sets.
From coqutil Require Import Byte Word.LittleEndianList.
Import LittleEndianList.
From S2P Require Import Prelude.

(** * Exceptions *)

(** The classes the program raises or catches.  [EOSError] stands for every
    [OSError] of a socket call ([timeout], [ConnectionResetError],
    [ssl.SSLError]...), [EExternal] for whatever else a third-party call
    raises (a vmodl fault, for example).  Messages are left out. *)
Inductive exn :=
  | EOSError
  | EConnectionError
  | ENfcProtocolError
  | EValueError
  | EUnicodeEncodeError
  | ETypeError
  | ERuntimeError
  | ENotImplementedError
  | EStructError
  | EFastlzError
  | EExternal.

#[export] Instance exn_eq_dec : EqDecision exn.
Proof. solve_decision. Defined.

(** [isinstance(exc, OSError)]: [NfcProtocolError] is a [ConnectionError],
    which is an [OSError]. *)
Definition is_oserror (e : exn) : bool :=
  match e with
  | EOSError | EConnectionError | ENfcProtocolError => true
  | _ => false
  end.

(** [isinstance(exc, ValueError)]: [UnicodeEncodeError] is one, and
    [struct.error] is not. *)
Definition is_valueerror (e : exn) : bool :=
  match e with
  | EValueError | EUnicodeEncodeError => true
  | _ => false
  end.

(** * Outcomes and the monad *)

(** [OutOfFuel] is the outcome of a loop that was given too little fuel; it is
    not a Python outcome, and no handler sees it. *)
Inductive outcome (A : Type) :=
  | Ok (a : A)
  | Raise (e : exn)
  | OutOfFuel.
Arguments Ok {A} a.
Arguments Raise {A} e.
Arguments OutOfFuel {A}.

#[export] Instance outcome_fmap : FMap outcome := fun A B f o =>
  match o with Ok a => Ok (f a) | Raise e => Raise e | OutOfFuel => OutOfFuel end.

#[export] Instance outcome_bind : MBind outcome := fun A B f o =>
  match o with Ok a => f a | Raise e => Raise e | OutOfFuel => OutOfFuel end.

#[export] Instance outcome_ret : MRet outcome := fun A => Ok.

Definition M (S A : Type) : Type := S -> outcome A * S.

#[export] Instance M_ret {S} : MRet (M S) := fun A a s => (Ok a, s).

#[export] Instance M_bind {S} : MBind (M S) := fun A B f m s =>
  match m s with
  | (Ok a, s') => f a s'
  | (Raise e, s') => (Raise e, s')
  | (OutOfFuel, s') => (OutOfFuel, s')
  end.

Definition raise {S A} (e : exn) : M S A := fun s => (Raise e, s).

Definition out_of_fuel {S A} : M S A := fun s => (OutOfFuel, s).

(** A computation that does not touch the store. *)
Definition lift {S A} (o : outcome A) : M S A := fun s => (o, s).

(** [if b: raise e] *)
Definition raise_when {S} (b : bool) (e : exn) : M S unit :=
  if b then raise e else mret tt.

Definition gets {S A} (f : S -> A) : M S A := fun s => (Ok (f s), s).

Definition modify {S} (f : S -> S) : M S unit := fun s => (Ok tt, f s).

(** [try: body finally: fin].  An exception of [fin] replaces the outcome. *)
Definition try_finally {S A} (body : M S A) (fin : M S unit) : M S A := fun s =>
  match body s with
  | (OutOfFuel, s1) => (OutOfFuel, s1)
  | (o, s1) =>
      match fin s1 with
      | (Ok _, s2) => (o, s2)
      | (Raise e, s2) => (Raise e, s2)
      | (OutOfFuel, s2) => (OutOfFuel, s2)
      end
  end.

(** [try: body except <classes caught>: handler e]. *)
Definition try_except {S A} (caught : exn -> bool) (body : M S A)
    (handler : exn -> M S A) : M S A := fun s =>
  match body s with
  | (Raise e, s1) => if caught e then handler e s1 else (Raise e, s1)
  | r => r
  end.

(** [except Exception] *)
Definition any_exception (_ : exn) : bool := true.

(** * Components of a store *)

Class Lens (S T : Type) := { lget : S -> T; lput : T -> S -> S }.

Class LensOk (S T : Type) {L : Lens S T} := {
  lget_lput (t : T) (s : S) : lget (lput t s) = t;
  lput_lget (s : S) : lput (lget s) s = s;
  lput_lput (t t' : T) (s : S) : lput t (lput t' s) = lput t s
}.

#[export] Instance lens_self {S} : Lens S S := {| lget s := s; lput t _ := t |}.

#[export] Instance lens_fst {S T R} {L : Lens S T} : Lens (S * R) T | 2 :=
  {| lget p := lget (fst p); lput t p := (lput t (fst p), snd p) |}.

#[export] Instance lens_snd {S T R} {L : Lens S T} : Lens (R * S) T | 3 :=
  {| lget p := lget (snd p); lput t p := (fst p, lput t (snd p)) |}.

Definition zoom {S T A} {L : Lens S T} (m : M T A) : M S A := fun s =>
  let '(o, t) := m (lget s) in (o, lput t s).

(** Run [m] with a local object that starts as [t] and is returned with the
    result; the object is dropped when [m] raises. *)
Definition with_local {S T A} (t : T) (m : M (T * S) A) : M S (A * T) := fun s =>
  let '(o, (t', s')) := m (t, s) in ((fun a => (a, t')) <$> o, s').

(** * The [struct] module *)

Inductive code := CodeI | CodeQ.

(** Sizes with the [<] prefix: standard sizes, no alignment. *)
Definition code_size (c : code) : nat := match c with CodeI => 4 | CodeQ => 8 end.

(** The codes of a format string: an optional [<] and letters [I] and [Q].
    The program uses no other letters. *)
Fixpoint codes (f : string) : list code :=
  match f with
  | EmptyString => []
  | String c f' =>
      if Ascii.eqb c "I" then CodeI :: codes f'
      else if Ascii.eqb c "Q" then CodeQ :: codes f'
      else codes f'
  end.

Definition calcsize (cs : list code) : Z := Z.of_nat (sum_list (code_size <$> cs)).

(** The range a code accepts. *)
Definition code_fits (c : code) (v : Z) : bool :=
  (0 <=? v) && (v <? 2 ^ (8 * Z.of_nat (code_size c))).

Fixpoint pack_codes (cs : list code) (vs : list Z) : outcome bytes :=
  match cs, vs with
  | [], [] => Ok []
  | c :: cs, v :: vs =>
      if code_fits c v
      then app (le_split (code_size c) v) <$> pack_codes cs vs
      else Raise EStructError
  | _, _ => Raise EStructError
  end.

(** The bytes of packed values, one field after the other. *)
Fixpoint fields (cs : list code) (vs : list Z) : bytes :=
  match cs, vs with
  | c :: cs, v :: vs => le_split (code_size c) v ++ fields cs vs
  | _, _ => []
  end.

(** [struct.pack(f, *vs)]: [struct.error] for a value out of range or a wrong
    number of values. *)
Definition struct_pack (f : string) (vs : list Z) : outcome bytes :=
  pack_codes (codes f) vs.

Fixpoint unpack_codes (cs : list code) (l : bytes) : list Z :=
  match cs with
  | [] => []
  | c :: cs => le_combine (take (code_size c) l) :: unpack_codes cs (drop (code_size c) l)
  end.

(** [struct.unpack_from(f, buf, off)] for [0 <= off]: [struct.error] when the
    buffer is too short. *)
Definition struct_unpack_from (f : string) (buf : bytes) (off : Z) : outcome (list Z) :=
  if len buf <? off + calcsize (codes f) then Raise EStructError
  else Ok (unpack_codes (codes f) (drop (Z.to_nat off) buf)).

(** Tuple targets, [a, b = ...]; a wrong arity is Python's [ValueError]. *)
Definition unpack1 (o : outcome (list Z)) : outcome Z :=
  vs ← o; match vs with [a] => Ok a | _ => Raise EValueError end.

Definition unpack2 (o : outcome (list Z)) : outcome (Z * Z) :=
  vs ← o; match vs with [a; b] => Ok (a, b) | _ => Raise EValueError end.

Definition unpack3 (o : outcome (list Z)) : outcome (Z * Z * Z) :=
  vs ← o; match vs with [a; b; c] => Ok (a, b, c) | _ => Raise EValueError end.

Definition unpack4 (o : outcome (list Z)) : outcome (Z * Z * Z * Z) :=
  vs ← o; match vs with [a; b; c; d] => Ok (a, b, c, d) | _ => Raise EValueError end.

(** Little-endian fields of a message, by offset. *)
Definition u32_at (off : Z) (l : bytes) : Z := le_combine (slice off (off + 4) l).

Definition u64_at (off : Z) (l : bytes) : Z := le_combine (slice off (off + 8) l).

(** * Lemmas on the monad *)

Section Monad.
Context {S : Type}.

Lemma bind_ok {A B} (m : M S A) (k : A -> M S B) s a s' :
  m s = (Ok a, s') -> (m ≫= k) s = k a s'.
Proof. unfold mbind, M_bind. by intros ->. Qed.

(** Two bodies that agree statement by statement. *)
Lemma bind_ext {A B} (m m' : M S A) (k k' : A -> M S B) s :
  m s = m' s -> (forall a s1, m s = (Ok a, s1) -> k a s1 = k' a s1) -> (m ≫= k) s = (m' ≫= k') s.
Proof.
  intros Hm Hk. unfold mbind, M_bind. rewrite <- Hm. destruct (m s) as [[a|e|] s1]; [by apply Hk|done..].
Qed.

Lemma bind_raise {A B} (m : M S A) (k : A -> M S B) s e s' :
  m s = (Raise e, s') -> (m ≫= k) s = (Raise e, s').
Proof. unfold mbind, M_bind. by intros ->. Qed.

Lemma bind_inv {A B} (m : M S A) (k : A -> M S B) s o s' :
  (m ≫= k) s = (o, s') ->
  (exists a s1, m s = (Ok a, s1) /\ k a s1 = (o, s')) \/
  (exists e, m s = (Raise e, s') /\ o = Raise e) \/
  (m s = (OutOfFuel, s') /\ o = OutOfFuel).
Proof.
  unfold mbind, M_bind. destruct (m s) as [[a|e|] s1]; intros; simplify_eq; eauto 8.
Qed.

Lemma bind_inv_ok {A B} (m : M S A) (k : A -> M S B) s b s' :
  (m ≫= k) s = (Ok b, s') -> exists a s1, m s = (Ok a, s1) /\ k a s1 = (Ok b, s').
Proof. intros [?|[(?&?&?)|(?&?)]]%bind_inv; naive_solver. Qed.

Lemma ret_run {A} (a : A) (s : S) : (mret a : M S A) s = (Ok a, s).
Proof. done. Qed.

Lemma lift_bind {A B} (o : outcome A) (k : A -> M S B) s a :
  o = Ok a -> (lift o ≫= k) s = k a s.
Proof. by intros ->. Qed.

Lemma raise_when_false (b : bool) e (s : S) :
  b = false -> raise_when b e s = (Ok tt, s).
Proof. by intros ->. Qed.

Lemma raise_when_inv_ok (b : bool) e (s s' : S) x :
  raise_when b e s = (Ok x, s') -> b = false /\ s' = s.
Proof. unfold raise_when, raise, mret, M_ret. destruct b; intros; by simplify_eq. Qed.

Lemma lift_inv_ok {A} (o : outcome A) (s s' : S) a :
  lift o s = (Ok a, s') -> o = Ok a /\ s' = s.
Proof. unfold lift. intros; by simplify_eq. Qed.

Lemma zoom_run {T A} {L : Lens S T} (m : M T A) s o t :
  m (lget s) = (o, t) -> zoom m s = (o, lput t s).
Proof. unfold zoom. by intros ->. Qed.

Lemma zoom_inv {T A} {L : Lens S T} (m : M T A) s o s' :
  zoom m s = (o, s') -> exists t, m (lget s) = (o, t) /\ s' = lput t s.
Proof. unfold zoom. destruct (m (lget s)) as [o' t]. intros. simplify_eq. eauto. Qed.
End Monad.

Lemma ret_inv_ok {S A} (a b : A) (s s' : S) :
  (mret a : M S A) s = (Ok b, s') -> b = a /\ s' = s.
Proof. unfold mret, M_ret. intros; by simplify_eq. Qed.

(** Invert a run that returned: one hypothesis per statement of the code. *)
Ltac minv1 :=
  match goal with
  | H : (_ ≫= _) _ = (Ok _, _) |- _ => apply bind_inv_ok in H as (? & ? & ? & H)
  | H : zoom _ _ = (Ok _, _) |- _ =>
      apply zoom_inv in H as (? & H & ?);
      cbn [lget lput lens_fst lens_snd lens_self fst snd] in *
  | H : lift _ _ = (Ok _, _) |- _ => apply lift_inv_ok in H as [? ?]
  | H : raise_when _ _ _ = (Ok _, _) |- _ => apply raise_when_inv_ok in H as [? ?]
  | H : mret _ _ = (Ok _, _) |- _ => apply ret_inv_ok in H as [? ?]
  | H : raise _ _ = (Ok _, _) |- _ => discriminate H
  | u : unit |- _ => destruct u
  | x : (_ * _)%type |- _ => destruct x
  end; subst; cbv beta iota in *.

Ltac minv := repeat minv1.

(** * Totality and frames *)

(** [m] has an outcome on every store: its loops have enough fuel. *)
Class Total {S A} (m : M S A) : Prop := total s : fst (m s) <> OutOfFuel.

Class TotalO {A} (o : outcome A) : Prop := total_o : o <> OutOfFuel.

(** Whatever the outcome of [m], the store it leaves is related by [R] to the
    one it met. *)
Class Frame {S} (R : relation S) {A} (m : M S A) : Prop := frame s : R s (snd (m s)).

Section Total.
Context {S : Type}.

#[export] Instance total_ret {A} (a : A) : Total (mret a : M S A).
Proof. done. Qed.

#[export] Instance total_raise {A} e : Total (raise e : M S A).
Proof. done. Qed.

#[export] Instance total_lift {A} (o : outcome A) : TotalO o -> Total (lift o : M S A).
Proof. intros Ho s. exact Ho. Qed.

#[export] Instance total_raise_when b e : Total (raise_when b e : M S unit).
Proof. by destruct b. Qed.

#[export] Instance total_gets {A} (f : S -> A) : Total (gets f).
Proof. done. Qed.

#[export] Instance total_modify (f : S -> S) : Total (modify f).
Proof. done. Qed.

#[export] Instance total_bind {A B} (m : M S A) (k : A -> M S B) :
  Total m -> (forall a, Total (k a)) -> Total (m ≫= k).
Proof.
  intros Hm Hk s. specialize (Hm s). unfold mbind, M_bind.
  destruct (m s) as [[a|e|] s']; simpl in *; [apply Hk|done..].
Qed.

#[export] Instance total_zoom {T A} {L : Lens S T} (m : M T A) : Total m -> Total (zoom m).
Proof. intros Hm s. specialize (Hm (lget s)). unfold zoom. by destruct (m (lget s)). Qed.

#[export] Instance total_try_finally {A} (m : M S A) fin :
  Total m -> Total fin -> Total (try_finally m fin).
Proof.
  intros Hm Hf s. specialize (Hm s). unfold try_finally. destruct (m s) as [[a|e|] s1]; simpl in *;
    [specialize (Hf s1); by destruct (fin s1) as [[]]..|done].
Qed.

#[export] Instance total_try_except {A} caught (m : M S A) h :
  Total m -> (forall e, Total (h e)) -> Total (try_except caught m h).
Proof.
  intros Hm Hh s. specialize (Hm s). unfold try_except. destruct (m s) as [[a|e|] s1]; try done.
  destruct (caught e); [apply Hh|done].
Qed.

#[export] Instance with_local_total {T A} (t : T) (m : M (T * S) A) : Total m -> Total (with_local t m).
Proof.
  intros Hm s. specialize (Hm (t, s)). unfold with_local.
  destruct (m (t, s)) as [[a|e|] [t' s']]; done.
Qed.
End Total.

(** A body of the code terminates when the loops it calls do. *)
Ltac total :=
  repeat first
    [ apply _
    | match goal with
      | |- forall _, _ => intros ?
      | |- Total (if ?b then _ else _) => destruct b
      | |- Total (match ?x with _ => _ end) => destruct x
      end
    | apply total_bind ].

Section Frame.
Context {S : Type} {R : relation S} `{!PreOrder R}.

#[export] Instance frame_ret {A} (a : A) : Frame R (mret a).
Proof. intros s. reflexivity. Qed.

#[export] Instance frame_raise {A} e : Frame R (raise e : M S A).
Proof. intros s. reflexivity. Qed.

#[export] Instance frame_lift {A} (o : outcome A) : Frame R (lift o).
Proof. intros s. reflexivity. Qed.

#[export] Instance frame_out_of_fuel {A} : Frame R (out_of_fuel : M S A).
Proof. intros s. reflexivity. Qed.

#[export] Instance frame_raise_when b e : Frame R (raise_when b e).
Proof. intros s. destruct b; simpl; reflexivity. Qed.

#[export] Instance frame_gets {A} (f : S -> A) : Frame R (gets f).
Proof. intros s. reflexivity. Qed.

#[export] Instance frame_bind {A B} (m : M S A) (k : A -> M S B) :
  Frame R m -> (forall a, Frame R (k a)) -> Frame R (m ≫= k).
Proof.
  intros Hm Hk s. specialize (Hm s). unfold mbind, M_bind.
  destruct (m s) as [[a|e|] s']; simpl in *; [|done..]. etrans; [done|apply Hk].
Qed.

(** The frame of a sequence may use what its first part returned. *)
Lemma frame_bind_val {A B} (m : M S A) (k : A -> M S B) s :
  R s (snd (m s)) -> (forall a s', m s = (Ok a, s') -> R s' (snd (k a s'))) ->
  R s (snd ((m ≫= k) s)).
Proof.
  unfold mbind, M_bind. destruct (m s) as [[a|e|] s1]; simpl; intros Hm Hk; try done.
  etrans; [done|]. by apply Hk.
Qed.

#[export] Instance frame_try_finally {A} (m : M S A) fin :
  Frame R m -> Frame R fin -> Frame R (try_finally m fin).
Proof.
  intros Hm Hf s. specialize (Hm s). unfold try_finally.
  destruct (m s) as [[a|e|] s1]; simpl in *; [..|done];
    specialize (Hf s1); destruct (fin s1) as [[] s2]; simpl in *; by etrans.
Qed.

#[export] Instance frame_try_except {A} caught (m : M S A) h :
  Frame R m -> (forall e, Frame R (h e)) -> Frame R (try_except caught m h).
Proof.
  intros Hm Hh s. specialize (Hm s). unfold try_except.
  destruct (m s) as [[a|e|] s1]; simpl in *; try done.
  destruct (caught e); [|done]. etrans; [done|apply Hh].
Qed.
End Frame.

(** Go through a body statement by statement. *)
Ltac frames :=
  repeat first
    [ apply _
    | match goal with
      | |- forall _, _ => intros ?
      | |- Frame _ (if ?b then _ else _) => destruct b
      | |- Frame _ (match ?x with _ => _ end) => destruct x
      end
    | apply frame_bind
    | apply frame_try_except
    | apply frame_try_finally ].

(** * Lemmas on [struct] *)

Lemma code_fits_I v : code_fits CodeI v = true <-> 0 <= v < 2 ^ 32.
Proof. unfold code_fits. change (8 * Z.of_nat (code_size CodeI)) with 32. lia. Qed.

Lemma code_fits_Q v : code_fits CodeQ v = true <-> 0 <= v < 2 ^ 64.
Proof. unfold code_fits. change (8 * Z.of_nat (code_size CodeQ)) with 64. lia. Qed.

Lemma calcsize_cons c cs : calcsize (c :: cs) = Z.of_nat (code_size c) + calcsize cs.
Proof. unfold calcsize. cbn [fmap list_fmap sum_list id]. unfold id. lia. Qed.

Lemma pack_codes_len cs vs l : pack_codes cs vs = Ok l -> len l = calcsize cs.
Proof.
  revert vs l. induction cs as [|c cs IH]; intros [|v vs] l; simpl; intros; simplify_eq; [done|].
  destruct (code_fits c v); [|done].
  destruct (pack_codes cs vs) as [t| |] eqn:E; simplify_eq/=.
  rewrite len_app, (IH _ _ E), calcsize_cons. unfold len. by rewrite length_le_split.
Qed.

(** Packed values are read back. *)
Lemma unpack_pack cs vs l r :
  pack_codes cs vs = Ok l -> unpack_codes cs (l ++ r) = vs.
Proof.
  revert vs l. induction cs as [|c cs IH]; intros [|v vs] l; simpl; intros Hp; simplify_eq; [done|].
  destruct (code_fits c v) eqn:Hf; [|done].
  destruct (pack_codes cs vs) as [t| |] eqn:E; simplify_eq/=.
  assert (length (le_split (code_size c) v) = code_size c) as Hl by apply length_le_split.
  rewrite <- (app_assoc _ t r), take_app_le, take_ge by lia.
  rewrite drop_app_ge, Hl, Nat.sub_diag, drop_0 by lia. f_equal; [|by apply IH].
  rewrite le_combine_split. apply Z.mod_small.
  unfold code_fits in Hf. rewrite Z.mul_comm. lia.
Qed.

(** Packing succeeds exactly when every value is in the range of its code. *)
Lemma pack_codes_iff cs vs l :
  pack_codes cs vs = Ok l <->
  Forall2 (fun c v => code_fits c v = true) cs vs /\ l = fields cs vs.
Proof.
  revert vs l. induction cs as [|c cs IH]; intros [|v vs] l; cbn [pack_codes fields].
  - split; [intros [= <-]; by split|by intros [_ ->]].
  - split; [done|]. intros [H _]. inversion H.
  - split; [done|]. intros [H _]. inversion H.
  - rewrite Forall2_cons. destruct (code_fits c v); [|split; [done|by intros [[]]]].
    specialize (IH vs). destruct (pack_codes cs vs) as [t|e|]; cbn [fmap outcome_fmap].
    + destruct (proj1 (IH t) eq_refl) as [H1 ->].
      split; [by intros [= <-]|by intros [_ ->]].
    + split; [done|]. intros [[_ H] _]. by discriminate (proj2 (IH _) (conj H eq_refl)).
    + split; [done|]. intros [[_ H] _]. by discriminate (proj2 (IH _) (conj H eq_refl)).
Qed.

Lemma pack_codes_raise cs vs e : pack_codes cs vs = Raise e -> e = EStructError.
Proof.
  revert vs. induction cs as [|c cs IH]; intros [|v vs]; simpl; intros; simplify_eq; [done..|].
  destruct (code_fits c v); [|by simplify_eq].
  destruct (pack_codes cs vs) eqn:E; simplify_eq/=. by eapply IH.
Qed.

Lemma pack_codes_fuel cs vs : pack_codes cs vs <> OutOfFuel.
Proof.
  revert vs. induction cs as [|c cs IH]; intros [|v vs]; simpl; try done.
  destruct (code_fits c v); [|done]. specialize (IH vs).
  by destruct (pack_codes cs vs).
Qed.

#[export] Instance struct_pack_total f vs : TotalO (struct_pack f vs).
Proof. apply pack_codes_fuel. Qed.

#[export] Instance struct_unpack_total f l off : TotalO (struct_unpack_from f l off).
Proof. unfold TotalO, struct_unpack_from. by destruct (_ <? _). Qed.

#[export] Instance unpack1_total o : TotalO o -> TotalO (unpack1 o).
Proof. unfold TotalO, unpack1. by destruct o as [[|? []]| |]. Qed.

#[export] Instance unpack2_total o : TotalO o -> TotalO (unpack2 o).
Proof. unfold TotalO, unpack2. by destruct o as [[|? [|? []]]| |]. Qed.

#[export] Instance unpack3_total o : TotalO o -> TotalO (unpack3 o).
Proof. unfold TotalO, unpack3. by destruct o as [[|? [|? [|? []]]]| |]. Qed.

#[export] Instance unpack4_total o : TotalO o -> TotalO (unpack4 o).
Proof. unfold TotalO, unpack4. by destruct o as [[|? [|? [|? [|? []]]]]| |]. Qed.

Lemma fields_len cs vs : length cs = length vs -> len (fields cs vs) = calcsize cs.
Proof.
  revert vs. induction cs as [|c cs IH]; intros [|v vs]; cbn [fields length]; intros; try done.
  rewrite len_app, IH, calcsize_cons by lia. unfold len. by rewrite length_le_split.
Qed.

Lemma le_combine_nonneg l : 0 <= le_combine l.
Proof. pose proof (le_combine_bound l). lia. Qed.

Lemma u32_at_bound off l : 0 <= off -> off + 4 <= len l -> 0 <= u32_at off l < 2 ^ 32.
Proof.
  intros Ho Hl. unfold u32_at. pose proof (le_combine_bound (slice off (off + 4) l)) as Hb.
  rewrite length_slice in Hb by lia. replace (off + 4 - off) with 4 in Hb by lia. exact Hb.
Qed.

Lemma u64_at_bound off l : 0 <= off -> off + 8 <= len l -> 0 <= u64_at off l < 2 ^ 64.
Proof.
  intros Ho Hl. unfold u64_at. pose proof (le_combine_bound (slice off (off + 8) l)) as Hb.
  rewrite length_slice in Hb by lia. replace (off + 8 - off) with 8 in Hb by lia. exact Hb.
Qed.

(** [unpack_from] with the program's format strings, as fields at offsets. *)
Lemma unpack_codes_I l : unpack_codes [CodeI] l = [u32_at 0 l].
Proof. done. Qed.

Lemma slice_drop {A} (off a b : Z) (l : list A) :
  0 <= off -> 0 <= a -> slice a b (drop (Z.to_nat off) l) = slice (off + a) (off + b) l.
Proof. unfold slice. intros. rewrite drop_drop. f_equal; [lia|]. f_equal. lia. Qed.

Lemma unpack_codes_drop c cs (l : bytes) off :
  0 <= off ->
  unpack_codes (c :: cs) (drop (Z.to_nat off) l) =
  le_combine (slice off (off + Z.of_nat (code_size c)) l)
  :: unpack_codes cs (drop (Z.to_nat (off + Z.of_nat (code_size c))) l).
Proof.
  intros. simpl. rewrite drop_drop. f_equal.
  - unfold slice. do 2 f_equal. lia.
  - do 2 f_equal. lia.
Qed.

(** Evaluate the format strings of the goal. *)
Ltac compute_codes :=
  repeat match goal with
  | |- context [codes ?f] =>
      let c := eval vm_compute in (codes f) in change (codes f) with c
  end.

Ltac solve_unpack :=
  intros; unfold struct_unpack_from;
  match goal with |- context [calcsize ?c] =>
    let n := eval vm_compute in (calcsize c) in change (calcsize c) with n end;
  match goal with |- context [len ?b <? ?n] => destruct (Z.ltb_spec (len b) n) end; [lia|];
  compute_codes; rewrite ?unpack_codes_drop by (cbn [code_size]; lia);
  change (Z.of_nat (code_size CodeI)) with 4; change (Z.of_nat (code_size CodeQ)) with 8;
  unfold u32_at, u64_at; cbn [unpack_codes]; repeat (f_equal; try lia).

Lemma unpack_I off l :
  0 <= off -> off + 4 <= len l -> struct_unpack_from "<I" l off = Ok [u32_at off l].
Proof. solve_unpack. Qed.

Lemma unpack_Q off l :
  0 <= off -> off + 8 <= len l -> struct_unpack_from "<Q" l off = Ok [u64_at off l].
Proof. solve_unpack. Qed.

Lemma unpack_II off l :
  0 <= off -> off + 8 <= len l ->
  struct_unpack_from "<II" l off = Ok [u32_at off l; u32_at (off + 4) l].
Proof. solve_unpack. Qed.

Lemma unpack_QII off l :
  0 <= off -> off + 16 <= len l ->
  struct_unpack_from "<QII" l off =
    Ok [u64_at off l; u32_at (off + 8) l; u32_at (off + 12) l].
Proof. solve_unpack. Qed.

Lemma unpack_IIII l :
  16 <= len l ->
  struct_unpack_from "<IIII" l 0 =
    Ok [u32_at 0 l; u32_at 4 l; u32_at 8 l; u32_at 12 l].
Proof. solve_unpack. Qed.

Lemma unpack_short f l off :
  len l < off + calcsize (codes f) -> struct_unpack_from f l off = Raise EStructError.
Proof. intros. unfold struct_unpack_from. by rewrite (proj2 (Z.ltb_lt _ _)). Qed.
