(* ===== verification/PyStr.v ===== *)
(** Python [str] values as lists of code points, with the methods the program
    calls.  Case mapping and white space outside ASCII come from the Unicode
    database of the interpreter: they are the parameters of the class
    [Unicode], whose laws fix the ASCII part. *)
From Stdlib Require Import ZArith Lia String Ascii.
From stdpp Require Import base list numbers sets.
From coqutil Require Import Byte.
From S2P Require Import Prelude Python.

Abbreviation pystr := (list Z).

(** A literal. *)
Definition str (x : string) : pystr :=
  (fun a => Z.of_N (N_of_ascii a)) <$> list_ascii_of_string x.

(** [s == t] *)
Definition str_eqb (s t : pystr) : bool := bool_decide (s = t).

(** * Encoding and decoding *)

(** [s.encode("ascii")] *)
Definition encode_ascii (s : pystr) : outcome bytes :=
  if forallb (fun c => (0 <=? c) && (c <? 128)) s then Ok (byte.of_Z <$> s)
  else Raise EUnicodeEncodeError.

(** The UTF-8 form of one code point; surrogates have none. *)
Definition utf8_char (c : Z) : option bytes :=
  let tail k := byte.of_Z (Z.lor 128 (Z.land (Z.shiftr c (6 * k)) 63)) in
  if c <? 0 then None
  else if c <? 128 then Some [byte.of_Z c]
  else if c <? 2048 then Some [byte.of_Z (Z.lor 192 (Z.shiftr c 6)); tail 0]
  else if (55296 <=? c) && (c <? 57344) then None
  else if c <? 65536 then Some [byte.of_Z (Z.lor 224 (Z.shiftr c 12)); tail 1; tail 0]
  else if c <? 1114112 then
    Some [byte.of_Z (Z.lor 240 (Z.shiftr c 18)); tail 2; tail 1; tail 0]
  else None.

(** [s.encode("utf-8")] *)
Fixpoint encode_utf8 (s : pystr) : outcome bytes :=
  match s with
  | [] => Ok []
  | c :: s' =>
      match utf8_char c with
      | Some b => app b <$> encode_utf8 s'
      | None => Raise EUnicodeEncodeError
      end
  end.

(** [b.decode("ascii", "replace")]: U+FFFD for a byte above 127. *)
Definition decode_ascii_replace (b : bytes) : pystr :=
  (fun x => if byte.unsigned x <? 128 then byte.unsigned x else 65533) <$> b.

(** * Methods of [str] *)

Fixpoint startswith (s p : pystr) {struct p} : bool :=
  match p, s with
  | [], _ => true
  | c :: p', d :: s' => (c =? d) && startswith s' p'
  | _ :: _, [] => false
  end.

Definition endswith (s p : pystr) : bool := startswith (reverse s) (reverse p).

Fixpoint drop_while {A} (f : A -> bool) (s : list A) : list A :=
  match s with
  | [] => []
  | c :: s' => if f c then drop_while f s' else s
  end.

(** [s.rstrip(chars)] *)
Definition rstrip_chars (chars s : pystr) : pystr :=
  reverse (drop_while (fun c => bool_decide (c ∈ chars)) (reverse s)).

(** [s.replace(c, "")] for a one-character [c]. *)
Definition remove_char (c : Z) (s : pystr) : pystr := filter (fun d => d <> c) s.

(** [s.split(c, 1)] when [c] occurs: what stands before and after it. *)
Fixpoint split_once (c : Z) (s : pystr) : option (pystr * pystr) :=
  match s with
  | [] => None
  | d :: s' =>
      if d =? c then Some ([], s')
      else '(a, b) ← split_once c s'; Some (d :: a, b)
  end.

(** [s.split(c)] *)
Fixpoint split_all (c : Z) (s : pystr) : list pystr :=
  match s with
  | [] => [[]]
  | d :: s' =>
      if d =? c then [] :: split_all c s'
      else match split_all c s' with
           | w :: ws => (d :: w) :: ws
           | [] => [[d]]
           end
  end.

(** [c.join(words)] *)
Fixpoint join (c : Z) (ws : list pystr) : pystr :=
  match ws with
  | [] => []
  | [w] => w
  | w :: ws' => w ++ c :: join c ws'
  end.

(** * The Unicode database *)

Definition ascii_upper (c : Z) : Z := if (97 <=? c) && (c <=? 122) then c - 32 else c.
Definition ascii_lower (c : Z) : Z := if (65 <=? c) && (c <=? 90) then c + 32 else c.
Definition ascii_space (c : Z) : bool :=
  ((9 <=? c) && (c <=? 13)) || ((28 <=? c) && (c <=? 32)).

Definition ascii_digit (c : Z) : option Z :=
  if (48 <=? c) && (c <=? 57) then Some (c - 48) else None.

Definition is_ascii (s : pystr) : Prop := Forall (fun c => 0 <= c < 128) s.

Class Unicode := {
  str_upper : pystr -> pystr;
  str_lower : pystr -> pystr;
  is_space : Z -> bool;
  (** the value of a decimal digit *)
  digit_value : Z -> option Z
}.

Class UnicodeOk (U : Unicode) : Prop := {
  str_upper_ascii s : is_ascii s -> str_upper s = ascii_upper <$> s;
  str_lower_ascii s : is_ascii s -> str_lower s = ascii_lower <$> s;
  is_space_ascii c : 0 <= c < 128 -> is_space c = ascii_space c;
  digit_value_ascii c : 0 <= c < 128 -> digit_value c = ascii_digit c
}.

(** [s.lstrip()] *)
Definition lstrip {U : Unicode} (s : pystr) : pystr := drop_while is_space s.

(** An instance that knows ASCII only, for concrete runs. *)
Definition ascii_unicode : Unicode :=
  {| str_upper s := ascii_upper <$> s; str_lower s := ascii_lower <$> s;
     is_space := ascii_space; digit_value := ascii_digit |}.

#[export] Instance ascii_unicode_ok : UnicodeOk ascii_unicode.
Proof. by split. Qed.

(** * Lemmas *)

Lemma str_eqb_eq s t : str_eqb s t = true <-> s = t.
Proof. apply bool_decide_eq_true. Qed.

Lemma str_eqb_neq s t : str_eqb s t = false <-> s <> t.
Proof. apply bool_decide_eq_false. Qed.

Lemma startswith_app s p : startswith s p = true <-> exists r, s = p ++ r.
Proof.
  revert s. induction p as [|c p IH]; intros s; cbn [startswith].
  - split; [intros _; by exists s|done].
  - destruct s as [|d s]; [split; [done|by intros []]|].
    rewrite andb_true_iff, Z.eqb_eq, IH. split.
    + intros [-> [r ->]]. by exists r.
    + intros [r [= -> ->]]. eauto.
Qed.

Lemma endswith_app s p : endswith s p = true <-> exists r, s = r ++ p.
Proof.
  unfold endswith. rewrite startswith_app. split; intros [r Hr].
  - exists (reverse r). by rewrite <- (reverse_involutive s), Hr, reverse_app, reverse_involutive.
  - exists (reverse r). by rewrite Hr, reverse_app.
Qed.

Lemma split_once_app c a b : c ∉ a -> split_once c (a ++ c :: b) = Some (a, b).
Proof.
  induction a as [|d a IH]; simpl; [by rewrite Z.eqb_refl|].
  rewrite not_elem_of_cons. intros [Hne Ha].
  rewrite (proj2 (Z.eqb_neq _ _)) by done. by rewrite IH.
Qed.

Lemma split_once_inv c s a b :
  split_once c s = Some (a, b) -> s = a ++ c :: b /\ c ∉ a.
Proof.
  revert a b. induction s as [|d s IH]; intros a b; simpl; [done|].
  destruct (Z.eqb_spec d c) as [->|Hne].
  - intros [= <- <-]. split; [done|apply not_elem_of_nil].
  - destruct (split_once c s) as [[a' b']|] eqn:E; simpl; [|done].
    intros [= <- <-]. destruct (IH a' b') as [-> ?]; [done|]. split; [done|]. set_solver.
Qed.

Lemma split_once_none c s : split_once c s = None <-> c ∉ s.
Proof.
  induction s as [|d s IH]; simpl; [split; [intros; apply not_elem_of_nil|done]|].
  rewrite not_elem_of_cons. destruct (Z.eqb_spec d c) as [->|Hne].
  - split; [done|]. naive_solver.
  - destruct (split_once c s) as [[]|]; simpl; naive_solver.
Qed.

Lemma split_all_cons c s : exists w ws, split_all c s = w :: ws.
Proof.
  destruct s as [|d s]; simpl; [by eexists _, _|].
  destruct (d =? c); [by eexists _, _|]. destruct (split_all c s); by eexists _, _.
Qed.

(** [split] loses nothing: joining the fields gives the string back. *)
Lemma split_all_none c s : c ∉ s -> split_all c s = [s].
Proof.
  induction s as [|d s IH]; [done|]. intros [Hd Hs]%not_elem_of_cons. cbn [split_all].
  rewrite (proj2 (Z.eqb_neq d c)) by congruence. by rewrite IH.
Qed.

Lemma split_all_app c a b : c ∉ a -> split_all c (a ++ c :: b) = a :: split_all c b.
Proof.
  induction a as [|d a IH]; cbn [app split_all]; [by rewrite Z.eqb_refl|].
  intros [Hd Ha]%not_elem_of_cons. rewrite (proj2 (Z.eqb_neq d c)) by congruence. by rewrite IH.
Qed.

Lemma split_all_join c s : join c (split_all c s) = s.
Proof.
  induction s as [|d s IH]; [done|]. cbn [split_all].
  destruct (split_all_cons c s) as (w & ws & E). rewrite E in *.
  destruct (Z.eqb_spec d c) as [->|Hne].
  - rewrite <- IH. done.
  - rewrite <- IH. by destruct ws.
Qed.

Lemma encode_ascii_len s b : encode_ascii s = Ok b -> len b = len s.
Proof. unfold encode_ascii. destruct (forallb _ s); intros; simplify_eq. zlia. Qed.

Lemma encode_ascii_ok s : is_ascii s -> encode_ascii s = Ok (byte.of_Z <$> s).
Proof.
  intros Hs. unfold encode_ascii. replace (forallb _ s) with true; [done|].
  symmetry. apply forallb_forall. intros c Hc%list_elem_of_In.
  unfold is_ascii in Hs. rewrite Forall_forall in Hs. apply Hs in Hc. lia.
Qed.

Lemma encode_utf8_ascii s : is_ascii s -> encode_utf8 s = Ok (byte.of_Z <$> s).
Proof.
  induction 1 as [|c s Hc _ IH]; [done|]. simpl. unfold utf8_char.
  rewrite (proj2 (Z.ltb_ge _ _)), (proj2 (Z.ltb_lt _ _)) by lia. by rewrite IH.
Qed.

Lemma encode_raise_ascii s e : encode_ascii s = Raise e -> e = EUnicodeEncodeError.
Proof. unfold encode_ascii. destruct (forallb _ s); intros; by simplify_eq. Qed.

#[export] Instance encode_ascii_total s : TotalO (encode_ascii s).
Proof. unfold encode_ascii. by destruct (forallb _ s). Qed.

#[export] Instance encode_utf8_total s : TotalO (encode_utf8 s).
Proof.
  induction s as [|c s IH]; [done|]. unfold TotalO in *. simpl. destruct (utf8_char c); [|done].
  by destruct (encode_utf8 s).
Qed.
