(* ===== verification/Socket.v ===== *)
(** Sockets, and reading exactly [n] bytes from one.

    A [sock] is one Python socket object: what the peer will deliver, cut into
    the segments [recv] happens to return, and what [sendall] was given.
    [_recvn_into] and [_recvn] are the functions of
    [openvixdisklib/nfc_open.py]; [pull] is the specification they refine: it
    sees the peer's bytes only, not the segments.  The relation [seg_eq] on
    sockets forgets the segmentation, and [Indep] says that a function cannot
    observe it. *)
From Stdlib Require Import ZArith Lia.
From stdpp Require Import base list numbers sets.
From S2P Require Import Prelude Python.

(** * Socket objects *)

(** What a [recv] on the socket meets next: some bytes, or an [OSError] (a
    timeout, a reset).  The peer's end of file is the end of the list. *)
Inductive rx_event :=
  | RxData (bs : bytes)
  | RxErr.

(** [tx] holds the buffers given to [sendall], in order.  [tx_plan] says which
    of the next [sendall] calls fail: [Some k] raises after [k] bytes went
    out, [None] and the end of the list succeed. *)
Record sock := Sock {
  rx : list rx_event;
  tx : list bytes;
  tx_plan : list (option nat);
  closed : bool;
  close_fails : bool
}.

Definition set_rx (r : list rx_event) (s : sock) : sock :=
  Sock r (tx s) (tx_plan s) (closed s) (close_fails s).

(** [recv] of at most [n] bytes: the first available segment, cut at [n].
    Empty segments are no events. *)
Fixpoint rx_take (n : nat) (l : list rx_event) : outcome bytes * list rx_event :=
  match l with
  | [] => (Ok [], [])
  | RxErr :: r => (Raise EOSError, r)
  | RxData [] :: r => rx_take n r
  | RxData (b :: bs) :: r => (Ok (take n (b :: bs)), RxData (drop n (b :: bs)) :: r)
  end.

(** [sock.recv(n)]; the empty result is the end of file. *)
Definition recv (n : Z) : M sock bytes := fun s =>
  if closed s then (Raise EOSError, s)
  else let '(o, r) := rx_take (Z.to_nat n) (rx s) in (o, set_rx r s).

(** [sock.sendall(b)] *)
Definition sendall (b : bytes) : M sock unit := fun s =>
  if closed s then (Raise EOSError, s)
  else match tx_plan s with
       | Some k :: p =>
           (Raise EOSError, Sock (rx s) (tx s ++ [take k b]) p (closed s) (close_fails s))
       | None :: p => (Ok tt, Sock (rx s) (tx s ++ [b]) p (closed s) (close_fails s))
       | [] => (Ok tt, Sock (rx s) (tx s ++ [b]) [] (closed s) (close_fails s))
       end.

(** [sock.close()]: the descriptor is released even when it raises, and a
    second call does nothing. *)
Definition sock_close : M sock unit := fun s =>
  if closed s then (Ok tt, s)
  else (if close_fails s then Raise EOSError else Ok tt,
        Sock (rx s) (tx s) (tx_plan s) true (close_fails s)).

(** * Reading exactly [n] bytes *)

(** The loop of [_recvn_into]; [view] is [buf[base : base + n]] and the store
    holds [buf].  Every round reads at least one byte, so fuel [n] is enough. *)
Fixpoint recvn_loop (fuel : nat) (base n filled : Z) : M (bytes * sock) unit :=
  if filled <? n then
    match fuel with
    | O => out_of_fuel
    | S fuel' =>
        got ← zoom (recv (n - filled));
        zoom (modify (splice (base + filled) got));;
        raise_when (len got =? 0) ENfcProtocolError;;
        recvn_loop fuel' base n (filled + len got)
    end
  else mret tt.

(** [_recvn_into(sock, buf[base : base + n])] *)
Definition _recvn_into (base n : Z) : M (bytes * sock) unit :=
  recvn_loop (Z.to_nat n) base n 0.

(** [_recvn(sock, size)] *)
Definition _recvn (size : Z) : M sock bytes :=
  r ← with_local (zeros size) (_recvn_into 0 size);
  mret (snd r).

(** * The specification: a stream of bytes *)

(** The peer's stream with the segment boundaries removed; [None] is an
    [OSError]. *)
Definition flat1 (e : rx_event) : list (option byte) :=
  match e with RxData bs => Some <$> bs | RxErr => [None] end.

Definition flat (l : list rx_event) : list (option byte) := l ≫= flat1.

(** [n] bytes of the stream: the outcome, the bytes obtained before it, and
    the rest of the stream. *)
Fixpoint pull (n : nat) (fl : list (option byte)) : outcome unit * bytes * list (option byte) :=
  match n, fl with
  | O, _ => (Ok tt, [], fl)
  | S _, [] => (Raise ENfcProtocolError, [], [])
  | S _, None :: r => (Raise EOSError, [], r)
  | S n', Some b :: r => let '(o, bs, r') := pull n' r in (o, b :: bs, r')
  end.

(** Between [s] and [s'] the peer's next bytes [bs] were consumed and [out]
    was sent. *)
Record talk (bs : bytes) (out : list bytes) (s s' : sock) : Prop := Talk {
  talk_rx : flat (rx s) = (Some <$> bs) ++ flat (rx s');
  talk_tx : tx s' = tx s ++ out;
  talk_plan : exists k, tx_plan s' = drop k (tx_plan s);
  talk_closed : closed s' = closed s;
  talk_close_fails : close_fails s' = close_fails s
}.

(** [m] reads the bytes [bs], sends [out] and returns [a], on any healthy
    socket whose stream starts with [bs]. *)
Definition exch {A} (m : M sock A) (bs : bytes) (a : A) (out : list bytes) : Prop :=
  forall s r, closed s = false -> Forall (eq None) (tx_plan s) ->
    flat (rx s) = (Some <$> bs) ++ r ->
    exists s', m s = (Ok a, s') /\ talk bs out s s' /\ flat (rx s') = r.

(** The same for an object [d] that owns the socket and becomes [d']. *)
Definition sess {D A} (m : M (D * sock) A) (d : D) (bs : bytes) (a : A) (d' : D)
    (out : list bytes) : Prop :=
  forall s r, closed s = false -> Forall (eq None) (tx_plan s) ->
    flat (rx s) = (Some <$> bs) ++ r ->
    exists s', m (d, s) = (Ok a, (d', s')) /\ talk bs out s s' /\ flat (rx s') = r.

(** Nothing stands in the way of [sendall]. *)
Definition healthy (s : sock) : Prop :=
  closed s = false /\ Forall (eq None) (tx_plan s).

(** * Segmentation *)

(** Sockets that differ only in how the peer's bytes are cut into segments. *)
Definition seg_eq (s1 s2 : sock) : Prop :=
  flat (rx s1) = flat (rx s2) /\ tx s1 = tx s2 /\ tx_plan s1 = tx_plan s2 /\
  closed s1 = closed s2 /\ close_fails s1 = close_fails s2.

(** [m] gives the same outcome on stores related by [R], and related stores. *)
Class Indep {S : Type} (R : relation S) {A : Type} (m : M S A) : Prop :=
  indep s1 s2 : R s1 s2 -> fst (m s1) = fst (m s2) /\ R (snd (m s1)) (snd (m s2)).

(** A lens between stores with such relations. *)
Class LensRel {S T : Type} (R : relation S) (Q : relation T) (L : Lens S T) : Prop := {
  lens_rel_get s1 s2 : R s1 s2 -> Q (lget s1) (lget s2);
  lens_rel_put s1 s2 t1 t2 : R s1 s2 -> Q t1 t2 -> R (lput t1 s1) (lput t2 s2)
}.

(** * Lemmas: the stream *)

Lemma flat_cons e l : flat (e :: l) = flat1 e ++ flat l.
Proof. done. Qed.

Lemma pull_app got m fl :
  pull (length got + m) ((Some <$> got) ++ fl) =
  let '(o, bs, r) := pull m fl in (o, got ++ bs, r).
Proof.
  induction got as [|b got IH].
  - simpl. by destruct (pull m fl) as [[??]?].
  - rewrite fmap_cons. cbn [pull app length Nat.add]. rewrite IH. by destruct (pull m fl) as [[??]?].
Qed.

Lemma pull_all n bs r : n = length bs -> pull n ((Some <$> bs) ++ r) = (Ok tt, bs, r).
Proof.
  intros ->. rewrite <- (Nat.add_0_r (length bs)), pull_app. simpl. by rewrite app_nil_r.
Qed.

(** What a successful [pull] says of the stream. *)
Lemma pull_inv_ok n fl bs r :
  pull n fl = (Ok tt, bs, r) -> fl = (Some <$> bs) ++ r /\ length bs = n.
Proof.
  revert fl bs r. induction n as [|n IH]; intros [|[b|] fl] bs r; simpl; intros;
    simplify_eq/=; [done..|].
  destruct (pull n fl) as [[o bs'] r'] eqn:E. simplify_eq/=.
  destruct (IH _ _ _ E) as [-> <-]. done.
Qed.

Lemma pull_len n fl o bs r : pull n fl = (o, bs, r) -> (length bs <= n)%nat.
Proof.
  revert fl bs r. induction n as [|n IH]; intros [|[b|] fl] bs r; simpl; intros;
    simplify_eq/=; try lia.
  destruct (pull n fl) as [[o' bs'] r'] eqn:E. simplify_eq/=. apply IH in E. lia.
Qed.

(** One [recv] takes a non-empty prefix of the stream. *)
Lemma rx_take_spec n l :
  (0 < n)%nat ->
  match rx_take n l with
  | (Ok [], r) => flat l = [] /\ flat r = []
  | (Ok got, r) => flat l = (Some <$> got) ++ flat r /\ (length got <= n)%nat
  | (Raise e, r) => e = EOSError /\ flat l = None :: flat r
  | (OutOfFuel, _) => False
  end.
Proof.
  intros Hn. induction l as [|[[|b bs]|] l IH]; [done| | |done].
  - rewrite flat_cons. simpl. exact IH.
  - destruct n as [|n]; [lia|]. cbn -[flat]. rewrite !flat_cons. cbn [flat1].
    rewrite app_assoc, <- fmap_app. cbn [app]. rewrite take_drop.
    split; [done|]. cbn [length]. rewrite length_take. lia.
Qed.

Lemma set_rx_set_rx r r' s : set_rx r (set_rx r' s) = set_rx r s.
Proof. done. Qed.

Lemma recv_run n s : closed s = false ->
  recv n s = let '(o, r) := rx_take (Z.to_nat n) (rx s) in (o, set_rx r s).
Proof. unfold recv. by intros ->. Qed.

(** * Lemmas: [_recvn_into] and [_recvn] refine [pull] *)

Lemma recvn_loop_spec fuel base n filled buf s :
  closed s = false -> 0 <= base -> 0 <= filled <= n ->
  n - filled <= Z.of_nat fuel -> base + n <= len buf ->
  exists o got r rx',
    pull (Z.to_nat (n - filled)) (flat (rx s)) = (o, got, r) /\ flat rx' = r /\
    recvn_loop fuel base n filled (buf, s) =
      (o, (splice (base + filled) got buf, set_rx rx' s)).
Proof.
  revert filled buf s. induction fuel as [|fuel IH]; intros filled buf s Hc Hb Hf Hfuel Hl.
  all: cbn [recvn_loop]; destruct (Z.ltb_spec filled n) as [Hlt|Hge];
    [|exists (Ok tt), [], (flat (rx s)), (rx s);
      replace (n - filled) with 0 by lia; rewrite splice_nil; by repeat split; destruct s].
  1: lia.
  unfold zoom, mbind, M_bind, modify. cbn [lget lput lens_fst lens_snd lens_self fst snd].
  rewrite recv_run by done.
  pose proof (rx_take_spec (Z.to_nat (n - filled)) (rx s)) as Hrx.
  destruct (rx_take _ (rx s)) as [[[|b got]|e|] r]; [| | |by destruct Hrx; lia].
  - destruct Hrx as [-> Hr]; [lia|]. exists (Raise ENfcProtocolError), [], [], r.
    destruct (Z.to_nat (n - filled)) eqn:En; [lia|]. by rewrite !splice_nil.
  - destruct Hrx as [Hrx Hg]; [lia|]. set (g := b :: got) in *.
    assert (0 < len g) by (unfold g; rewrite len_cons; pose proof (len_nonneg got); lia).
    assert (len g <= n - filled) by zlia.
    destruct (IH (filled + len g) (splice (base + filled) g buf) (set_rx r s))
      as (o & got' & r' & rx' & Hp & Hr' & Hrun); rewrite ?len_splice; try done; try lia.
    exists o, (g ++ got'), r', rx'. repeat split; [|done|].
    + rewrite Hrx. replace (Z.to_nat (n - filled)) with
        (length g + Z.to_nat (n - (filled + len g)))%nat by zlia.
      cbn [rx set_rx] in Hp. by rewrite pull_app, Hp.
    + cbn [fst snd]. unfold raise_when. rewrite (proj2 (Z.eqb_neq _ _)) by lia.
      cbn [mret M_ret]. rewrite Hrun, set_rx_set_rx. do 2 f_equal.
      apply pull_len in Hp. rewrite Z.add_assoc. rewrite splice_adjacent; [done|lia|zlia].
  - destruct Hrx as [-> Hr]; [lia|]. exists (Raise EOSError), [], (flat r), r.
    rewrite Hr. destruct (Z.to_nat (n - filled)) eqn:En; [lia|]. by rewrite splice_nil.
Qed.

Lemma _recvn_into_spec base n buf s :
  closed s = false -> 0 <= base -> 0 <= n -> base + n <= len buf ->
  exists o got r rx',
    pull (Z.to_nat n) (flat (rx s)) = (o, got, r) /\ flat rx' = r /\
    _recvn_into base n (buf, s) = (o, (splice base got buf, set_rx rx' s)).
Proof.
  intros. destruct (recvn_loop_spec (Z.to_nat n) base n 0 buf s)
    as (o & got & r & rx' & Hp & Hr & Hrun); [done|lia..|].
  rewrite Z.sub_0_r in Hp. rewrite Z.add_0_r in Hrun. eauto 10.
Qed.

Lemma _recvn_spec n s :
  closed s = false -> 0 <= n ->
  exists o got r rx',
    pull (Z.to_nat n) (flat (rx s)) = (o, got, r) /\ flat rx' = r /\
    _recvn n s = ((fun _ => got) <$> o, set_rx rx' s).
Proof.
  intros Hc Hn.
  destruct (_recvn_into_spec 0 n (zeros n) s) as (o & got & r & rx' & Hp & Hr & Hrun);
    rewrite ?len_zeros; [done|lia..|].
  exists o, got, r, rx'. repeat split; [done..|].
  unfold _recvn, with_local, mbind, M_bind. rewrite Hrun.
  destruct o as [[]|e|]; [|done|done].
  unfold mret, M_ret. cbn. rewrite splice_full; [done|].
  apply pull_inv_ok in Hp. rewrite len_zeros by lia. zlia.
Qed.

(** A closed socket raises at the first byte. *)
Lemma recvn_loop_closed fuel base n filled buf s :
  closed s = true -> 
  recvn_loop fuel base n filled (buf, s) =
    (if filled <? n then match fuel with O => OutOfFuel | S _ => Raise EOSError end
     else Ok tt, (buf, s)).
Proof.
  intros Hc. destruct fuel; cbn [recvn_loop]; destruct (filled <? n); try done.
  unfold zoom, mbind, M_bind, recv. cbn. by rewrite Hc.
Qed.

Lemma _recvn_closed n s :
  closed s = true -> _recvn n s = (if 0 <? n then Raise EOSError else Ok (zeros n), s).
Proof.
  intros Hc. unfold _recvn, with_local, _recvn_into, mbind, M_bind.
  rewrite recvn_loop_closed by done. destruct (Z.ltb_spec 0 n); [|done].
  by destruct (Z.to_nat n) eqn:E; [lia|].
Qed.

(** Every outcome of [_recvn]: only the receive side of the socket changes. *)
Lemma _recvn_frame n s o s' : 0 <= n -> _recvn n s = (o, s') -> exists r, s' = set_rx r s.
Proof.
  intros Hn H. destruct (closed s) eqn:Hc.
  - rewrite _recvn_closed in H by done. simplify_eq. exists (rx s'). by destruct s'.
  - destruct (_recvn_spec n s Hc Hn) as (?&?&?&rx'&_&_&E). rewrite E in H.
    simplify_eq. eauto.
Qed.

Lemma pull_raise n fl e got r : pull n fl = (Raise e, got, r) -> is_oserror e = true.
Proof.
  revert fl got r. induction n as [|n IH]; intros [|[b|] fl] got r; simpl; intros;
    simplify_eq/=; try done.
  destruct (pull n fl) as [[o bs'] r'] eqn:E. simplify_eq/=. eauto.
Qed.

Lemma pull_fuel n fl got r : pull n fl <> (OutOfFuel, got, r).
Proof.
  revert fl got r. induction n as [|n IH]; intros [|[b|] fl] got r; simpl; intros ?;
    simplify_eq/=.
  destruct (pull n fl) as [[o bs'] r'] eqn:E. simplify_eq/=. by eapply IH.
Qed.

Lemma _recvn_raise n s e s' :
  0 <= n -> _recvn n s = (Raise e, s') -> is_oserror e = true.
Proof.
  intros Hn H. destruct (closed s) eqn:Hc.
  - rewrite _recvn_closed in H by done. destruct (0 <? n); by simplify_eq.
  - destruct (_recvn_spec n s Hc Hn) as (o&got&r&rx'&Hp&_&E). rewrite E in H.
    destruct o; simplify_eq/=. by eapply pull_raise.
Qed.

Lemma _recvn_fuel n s s' : 0 <= n -> _recvn n s <> (OutOfFuel, s').
Proof.
  intros Hn H. destruct (closed s) eqn:Hc.
  - rewrite _recvn_closed in H by done. destruct (0 <? n); by simplify_eq.
  - destruct (_recvn_spec n s Hc Hn) as (o&got&r&rx'&Hp&_&E). rewrite E in H.
    destruct o; simplify_eq/=. by eapply pull_fuel.
Qed.

(** * Lemmas: exchanges with the peer *)

Lemma talk_refl s : talk [] [] s s.
Proof. split; [done|by rewrite app_nil_r|by exists 0%nat|done..]. Qed.

Lemma talk_trans b1 b2 o1 o2 s1 s2 s3 :
  talk b1 o1 s1 s2 -> talk b2 o2 s2 s3 -> talk (b1 ++ b2) (o1 ++ o2) s1 s3.
Proof.
  intros [Hr1 Ht1 [k1 Hp1] Hc1 Hf1] [Hr2 Ht2 [k2 Hp2] Hc2 Hf2]. split; try congruence.
  - by rewrite Hr1, Hr2, fmap_app, app_assoc.
  - by rewrite Ht2, Ht1, app_assoc.
  - exists (k1 + k2)%nat. by rewrite Hp2, Hp1, drop_drop.
Qed.

Lemma talk_healthy bs out s s' : healthy s -> talk bs out s s' -> healthy s'.
Proof.
  intros [Hc Hp] [_ _ [k Hk] Hc' _]. split; [congruence|]. rewrite Hk. by apply Forall_drop.
Qed.

Lemma set_rx_talk bs s r :
  flat (rx s) = (Some <$> bs) ++ flat r -> talk bs [] s (set_rx r s).
Proof. intros H. split; [done|by rewrite app_nil_r|by exists 0%nat|done..]. Qed.

(** [_recvn] on a stream that holds the bytes. *)
Lemma _recvn_ok n bs r s :
  healthy s -> n = len bs -> flat (rx s) = (Some <$> bs) ++ r ->
  exists s', _recvn n s = (Ok bs, s') /\ talk bs [] s s' /\ flat (rx s') = r.
Proof.
  intros [Hc _] -> Hf.
  destruct (_recvn_spec (len bs) s Hc (len_nonneg _)) as (o&got&r'&rx'&Hp&Hr&E).
  rewrite Hf, pull_all in Hp by zlia. simplify_eq. exists (set_rx rx' s).
  split_and!; [done|by apply set_rx_talk|done].
Qed.

Lemma _recvn_inv n bs s s' :
  0 <= n -> _recvn n s = (Ok bs, s') -> len bs = n /\ talk bs [] s s'.
Proof.
  intros Hn H. destruct (closed s) eqn:Hc.
  - rewrite _recvn_closed in H by done. destruct (Z.ltb_spec 0 n); simplify_eq.
    assert (n = 0) as -> by lia. split; [done|apply talk_refl].
  - destruct (_recvn_spec n s Hc Hn) as (o&got&r&rx'&Hp&Hr&E). rewrite E in H.
    destruct o as [[]| |]; simplify_eq/=. apply pull_inv_ok in Hp as [Hf Hl].
    split; [zlia|]. by apply set_rx_talk.
Qed.

Lemma _recvn_into_ok base n bs r buf s :
  healthy s -> 0 <= base -> base + n <= len buf -> n = len bs ->
  flat (rx s) = (Some <$> bs) ++ r ->
  exists s', _recvn_into base n (buf, s) = (Ok tt, (splice base bs buf, s')) /\
    talk bs [] s s' /\ flat (rx s') = r.
Proof.
  intros [Hc _] Hb Hl -> Hf.
  destruct (_recvn_into_spec base (len bs) buf s Hc Hb (len_nonneg _) Hl)
    as (o&got&r'&rx'&Hp&Hr&E).
  rewrite Hf, pull_all in Hp by zlia. simplify_eq. exists (set_rx rx' s).
  split_and!; [done|by apply set_rx_talk|done].
Qed.

Lemma _recvn_into_inv base n buf s buf' s' :
  0 <= base -> 0 <= n -> base + n <= len buf ->
  _recvn_into base n (buf, s) = (Ok tt, (buf', s')) ->
  exists bs, len bs = n /\ buf' = splice base bs buf /\ talk bs [] s s'.
Proof.
  intros Hb Hn Hl H. destruct (closed s) eqn:Hc.
  - unfold _recvn_into in H. rewrite recvn_loop_closed in H by done.
    destruct (Z.ltb_spec 0 n); [by destruct (Z.to_nat n)|]. simplify_eq.
    exists []. rewrite splice_nil. split; [|split; [done|apply talk_refl]]. rewrite len_nil. lia.
  - destruct (_recvn_into_spec base n buf s Hc Hb Hn Hl) as (o&got&r&rx'&Hp&Hr&E).
    rewrite E in H. simplify_eq. apply pull_inv_ok in Hp as [Hf Hlen].
    exists got. split; [zlia|]. split; [done|]. by apply set_rx_talk.
Qed.

Lemma talk_send b k s p :
  p = drop k (tx_plan s) ->
  talk [] [b] s (Sock (rx s) (tx s ++ [b]) p (closed s) (close_fails s)).
Proof. intros ->. split; try done. by exists k. Qed.

Lemma sendall_ok b s :
  healthy s -> exists s', sendall b s = (Ok tt, s') /\ talk [] [b] s s' /\
    flat (rx s') = flat (rx s).
Proof.
  intros [Hc Hp]. unfold sendall. rewrite Hc.
  destruct (tx_plan s) as [|[k|] p] eqn:E; [|by inversion Hp|]; rewrite <- Hc;
    (eexists; split_and!; [done| |done]).
  - apply (talk_send _ 0). by rewrite E.
  - apply (talk_send _ 1). by rewrite E.
Qed.

Lemma sendall_inv b s s' x : sendall b s = (Ok x, s') -> talk [] [b] s s'.
Proof.
  unfold sendall. destruct (closed s) eqn:Hc; [done|].
  destruct (tx_plan s) as [|[k|] p] eqn:E; intros; simplify_eq; rewrite <- Hc.
  - apply (talk_send _ 0). by rewrite E.
  - apply (talk_send _ 1). by rewrite E.
Qed.

Lemma sendall_raise b s e s' : sendall b s = (Raise e, s') -> e = EOSError.
Proof.
  unfold sendall. destruct (closed s); [intros; by simplify_eq|].
  destruct (tx_plan s) as [|[k|] p]; intros; by simplify_eq.
Qed.

(** Rules for [exch] and [sess]. *)

Lemma exch_ret {A} (a : A) : exch (mret a) [] a [].
Proof. intros s r _ _ Hf. exists s. split_and!; [done|apply talk_refl|done]. Qed.

Lemma exch_lift {A} (o : outcome A) a : o = Ok a -> exch (lift o) [] a [].
Proof. intros ->. apply exch_ret. Qed.

Lemma exch_guard b e : b = false -> exch (raise_when b e) [] tt [].
Proof. intros ->. apply exch_ret. Qed.

Lemma exch_bind {A B} (m : M sock A) (k : A -> M sock B) b1 b2 bs o1 o2 out a b :
  exch m b1 a o1 -> exch (k a) b2 b o2 -> bs = b1 ++ b2 -> out = o1 ++ o2 ->
  exch (m ≫= k) bs b out.
Proof.
  intros Hm Hk -> -> s r Hc Hp Hf. rewrite fmap_app, <- app_assoc in Hf.
  destruct (Hm s _ Hc Hp Hf) as (s1 & E1 & T1 & F1).
  destruct (talk_healthy _ _ _ _ (conj Hc Hp) T1) as [Hc1 Hp1].
  destruct (Hk s1 _ Hc1 Hp1 F1) as (s2 & E2 & T2 & F2).
  exists s2. rewrite (bind_ok _ _ _ _ _ E1). split_and!; [done|by eapply talk_trans|done].
Qed.

Lemma exch_recvn n bs : n = len bs -> exch (_recvn n) bs bs [].
Proof. intros Hn s r Hc Hp Hf. by apply _recvn_ok. Qed.

Lemma exch_sendall b : exch (sendall b) [] tt [b].
Proof.
  intros s r Hc Hp Hf. destruct (sendall_ok b s (conj Hc Hp)) as (s' & ? & ? & E).
  exists s'. by rewrite E.
Qed.

Section Sess.
Context {D : Type}.
Implicit Types d : D.

Lemma sess_ret {A} d (a : A) : sess (mret a) d [] a d [].
Proof. intros s r _ _ Hf. exists s. split_and!; [done|apply talk_refl|done]. Qed.

Lemma sess_lift {A} d (o : outcome A) a : o = Ok a -> sess (lift o) d [] a d [].
Proof. intros ->. apply sess_ret. Qed.

Lemma sess_guard d b e : b = false -> sess (raise_when b e) d [] tt d [].
Proof. intros ->. apply sess_ret. Qed.

Lemma sess_bind {A B} (m : M (D * sock) A) (k : A -> M (D * sock) B) d d1 d2 b1 b2 bs o1 o2 out a b :
  sess m d b1 a d1 o1 -> sess (k a) d1 b2 b d2 o2 -> bs = b1 ++ b2 -> out = o1 ++ o2 ->
  sess (m ≫= k) d bs b d2 out.
Proof.
  intros Hm Hk -> -> s r Hc Hp Hf. rewrite fmap_app, <- app_assoc in Hf.
  destruct (Hm s _ Hc Hp Hf) as (s1 & E1 & T1 & F1).
  destruct (talk_healthy _ _ _ _ (conj Hc Hp) T1) as [Hc1 Hp1].
  destruct (Hk s1 _ Hc1 Hp1 F1) as (s2 & E2 & T2 & F2).
  exists s2. rewrite (bind_ok _ _ _ _ _ E1). split_and!; [done|by eapply talk_trans|done].
Qed.

Lemma sess_sock {A} (m : M sock A) d bs a out : exch m bs a out -> sess (zoom m) d bs a d out.
Proof.
  intros Hm s r Hc Hp Hf. destruct (Hm s r Hc Hp Hf) as (s' & E & T & F).
  exists s'. unfold zoom. cbn. rewrite E. done.
Qed.

Lemma sess_obj {A} (m : M D A) d a d' : m d = (Ok a, d') -> sess (zoom m) d [] a d' [].
Proof.
  intros E s r _ _ Hf. exists s. unfold zoom. cbn. rewrite E.
  split_and!; [done|apply talk_refl|done].
Qed.

Lemma sess_gets {A} d (f : D * sock -> A) a : (forall s, f (d, s) = a) -> sess (gets f) d [] a d [].
Proof. intros Hf s r _ _ Hr. exists s. unfold gets. rewrite Hf. split_and!; [done|apply talk_refl|done]. Qed.
(** A function that works on a local object and the socket. *)
Lemma exch_local {A} (m : M (D * sock) A) d bs a d' out :
  sess m d bs a d' out -> exch (with_local d m) bs (a, d') out.
Proof.
  intros Hm s r Hc Hp Hf. destruct (Hm s r Hc Hp Hf) as (s' & E & T & F).
  exists s'. unfold with_local. rewrite E. done.
Qed.
End Sess.

Lemma sendall_indep_rx b s r :
  sendall b (set_rx r s) = let '(o, s') := sendall b s in (o, set_rx r s').
Proof. unfold sendall. cbn. destruct (closed s); [done|]. by destruct (tx_plan s) as [|[]]. Qed.

Lemma sendall_flat b s o s' : sendall b s = (o, s') -> rx s' = rx s.
Proof.
  unfold sendall. destruct (closed s); [by intros; simplify_eq|].
  destruct (tx_plan s) as [|[]]; by intros; simplify_eq.
Qed.

Lemma sock_close_closed s o s' : sock_close s = (o, s') -> closed s' = true.
Proof. unfold sock_close. destruct (closed s) eqn:E; intros; by simplify_eq. Qed.

Lemma sock_close_tx s o s' :
  sock_close s = (o, s') -> tx s' = tx s /\ o <> OutOfFuel /\ (forall e, o = Raise e -> e = EOSError).
Proof.
  unfold sock_close. destruct (closed s), (close_fails s); intros; simplify_eq; naive_solver.
Qed.

(** * Lemmas: segmentation cannot be observed *)

#[export] Instance seg_eq_equiv : Equivalence seg_eq.
Proof.
  split.
  - done.
  - intros ?? (?&?&?&?&?). repeat split; congruence.
  - intros ??? (?&?&?&?&?) (?&?&?&?&?). repeat split; congruence.
Qed.

#[export] Instance set_rx_proper r : Proper (seg_eq ==> seg_eq) (set_rx r).
Proof. intros ?? (?&?&?&?&?). repeat split; simpl; congruence. Qed.

Lemma set_rx_seg_eq r1 r2 s1 s2 :
  flat r1 = flat r2 -> seg_eq s1 s2 -> seg_eq (set_rx r1 s1) (set_rx r2 s2).
Proof. intros ? (?&?&?&?&?). repeat split; simpl; try done; congruence. Qed.

Section IndepRules.
Context {S : Type} {R : relation S}.

#[export] Instance indep_ret {A} (a : A) : Indep R (mret a : M S A).
Proof. done. Qed.

#[export] Instance indep_lift {A} (o : outcome A) : Indep R (lift o).
Proof. done. Qed.

#[export] Instance indep_raise {A} e : Indep R (raise e : M S A).
Proof. done. Qed.

#[export] Instance indep_out_of_fuel {A} : Indep R (out_of_fuel : M S A).
Proof. done. Qed.

#[export] Instance indep_raise_when b e : Indep R (raise_when b e).
Proof. by destruct b. Qed.

#[export] Instance indep_bind {A B} (m : M S A) (k : A -> M S B) :
  Indep R m -> (forall a, Indep R (k a)) -> Indep R (m ≫= k).
Proof.
  intros Hm Hk s1 s2 Hs. destruct (Hm s1 s2 Hs) as [Ho Hs']. unfold mbind, M_bind.
  destruct (m s1) as [o1 t1], (m s2) as [o2 t2]. simpl in *. subst o2.
  destruct o1; [by apply Hk|done..].
Qed.

(** Two runs of [m] that agree. *)
Definition agree {A} (m : M S A) (s1 s2 : S) : Prop :=
  fst (m s1) = fst (m s2) /\ R (snd (m s1)) (snd (m s2)).

Lemma indep_agree {A} (m : M S A) s1 s2 : Indep R m -> R s1 s2 -> agree m s1 s2.
Proof. intros Hm Hs. by apply Hm. Qed.

(** In a sequence, the rest may use what the first part returned. *)
Lemma agree_bind {A B} (m : M S A) (k : A -> M S B) s1 s2 :
  agree m s1 s2 ->
  (forall a t1 t2, m s1 = (Ok a, t1) -> m s2 = (Ok a, t2) -> R t1 t2 -> agree (k a) t1 t2) ->
  agree (m ≫= k) s1 s2.
Proof.
  unfold agree, mbind, M_bind. destruct (m s1) as [o1 t1], (m s2) as [o2 t2]. simpl.
  intros [-> Hr] Hk. destruct o2; [by apply Hk|done..].
Qed.

(** After a guard, the rest may rely on the guard. *)
Lemma indep_guard {A} (b : bool) e (k : unit -> M S A) :
  (b = false -> Indep R (k tt)) -> Indep R (raise_when b e ≫= k).
Proof. intros Hk. destruct b; [done|]. by apply Hk. Qed.

#[export] Instance indep_gets {A} (f : S -> A) : Proper (R ==> eq) f -> Indep R (gets f).
Proof. intros Hf s1 s2 Hs. simpl. by rewrite (Hf _ _ Hs). Qed.

#[export] Instance indep_modify (f : S -> S) : Proper (R ==> R) f -> Indep R (modify f).
Proof. intros Hf s1 s2 Hs. split; [done|]. by apply Hf. Qed.

#[export] Instance indep_try_finally {A} (m : M S A) fin :
  Indep R m -> Indep R fin -> Indep R (try_finally m fin).
Proof.
  intros Hm Hf s1 s2 Hs. destruct (Hm s1 s2 Hs) as [Ho Hs']. unfold try_finally.
  destruct (m s1) as [o1 t1], (m s2) as [o2 t2]. simpl in *. subst o2.
  destruct (Hf _ _ Hs') as [Ho' Hs''].
  destruct (fin t1) as [o1' u1], (fin t2) as [o2' u2]. simpl in *. subst o2'.
  by destruct o1, o1'.
Qed.

#[export] Instance indep_try_except {A} caught (m : M S A) h :
  Indep R m -> (forall e, Indep R (h e)) -> Indep R (try_except caught m h).
Proof.
  intros Hm Hh s1 s2 Hs. destruct (Hm s1 s2 Hs) as [Ho Hs']. unfold try_except.
  destruct (m s1) as [o1 t1], (m s2) as [o2 t2]. simpl in *. subst o2.
  destruct o1; try done. destruct (caught e); [by apply Hh|done].
Qed.

#[export] Instance indep_zoom {T} {Q : relation T} {L : Lens S T} {A} (m : M T A) :
  LensRel R Q L -> Indep Q m -> Indep R (zoom m).
Proof.
  intros HL Hm s1 s2 Hs. unfold zoom.
  destruct (Hm (lget s1) (lget s2)) as [Ho Ht]; [by apply lens_rel_get|].
  destruct (m (lget s1)) as [o1 t1], (m (lget s2)) as [o2 t2]. simpl in *.
  split; [done|]. by apply lens_rel_put.
Qed.
End IndepRules.

#[export] Instance lens_self_rel {S} (R : relation S) : LensRel R R lens_self.
Proof. by split. Qed.

#[export] Instance lens_fst_rel {S T U} (R : relation S) (Q : relation T) (P : relation U)
    (L : Lens S T) :
  LensRel R Q L -> LensRel (prod_relation R P) Q (@lens_fst S T U L).
Proof.
  intros HL. split.
  - intros [] [] []. by apply (lens_rel_get (R:=R)).
  - intros [] [] ?? [] ?. split; [by apply (lens_rel_put (R:=R) (Q:=Q))|done].
Qed.

#[export] Instance lens_snd_rel {S T U} (R : relation S) (Q : relation T) (P : relation U)
    (L : Lens S T) :
  LensRel R Q L -> LensRel (prod_relation P R) Q (@lens_snd S T U L).
Proof.
  intros HL. split.
  - intros [] [] []. by apply (lens_rel_get (R:=R)).
  - intros [] [] ?? [] ?. split; [done|by apply (lens_rel_put (R:=R) (Q:=Q))].
Qed.

#[export] Instance indep__recvn n : Indep seg_eq (_recvn n).
Proof.
  intros s1 s2 Hs. pose proof Hs as (Hf&_&_&Hc&_). destruct (Z.le_gt_cases 0 n) as [Hn|Hn].
  - destruct (closed s1) eqn:Hc1.
    + rewrite !_recvn_closed by congruence. done.
    + destruct (_recvn_spec n s1) as (o1&g1&r1&x1&Hp1&<-&->); [done..|].
      destruct (_recvn_spec n s2) as (o2&g2&r2&x2&Hp2&<-&->); [congruence|done|].
      rewrite Hf, Hp2 in Hp1. simplify_eq. split; [done|]. by apply set_rx_seg_eq.
  - unfold _recvn, _recvn_into, with_local. rewrite Z2Nat.nonpos by lia.
    cbn [recvn_loop]. rewrite (proj2 (Z.ltb_ge _ _)) by lia. done.
Qed.

#[export] Instance indep_sendall b : Indep seg_eq (sendall b).
Proof.
  intros [] [] (?&?&?&?&?); simpl in *; subst. unfold sendall. simpl.
  destruct closed1; [done|]. by destruct tx_plan1 as [|[]].
Qed.

#[export] Instance indep_sock_close : Indep seg_eq sock_close.
Proof.
  intros [] [] (?&?&?&?&?); simpl in *; subst. unfold sock_close. simpl.
  by destruct closed1, close_fails1.
Qed.

(** Equal buffers of length [L], and sockets up to segmentation. *)
Definition buf_seg (L : Z) : relation (bytes * sock) :=
  prod_relation (fun b1 b2 => b1 = b2 /\ len b1 = L) seg_eq.

Lemma indep__recvn_into L base n :
  0 <= base -> 0 <= n -> base + n <= L -> Indep (buf_seg L) (_recvn_into base n).
Proof.
  intros Hb Hn Hl [b1 s1] [b2 s2] [[Hbuf HL] Hs]. simpl in *. subst b2.
  pose proof Hs as (Hf&_&_&Hc&_). destruct (closed s1) eqn:Hc1.
  - unfold _recvn_into. rewrite !recvn_loop_closed by congruence. done.
  - destruct (_recvn_into_spec base n b1 s1) as (o1&g1&r1&x1&Hp1&<-&->); [done|lia..|].
    destruct (_recvn_into_spec base n b1 s2) as (o2&g2&r2&x2&Hp2&<-&->); [congruence|lia..|].
    rewrite Hf, Hp2 in Hp1. simplify_eq. split; [done|].
    split; simpl; [split; [done|]|by apply set_rx_seg_eq].
    apply pull_len in Hp2. rewrite len_splice; zlia.
Qed.

(** * Lemmas: the loops terminate *)

Lemma rx_take_total n l : fst (rx_take n l) <> OutOfFuel.
Proof. induction l as [|[[|b bs]|] l IH]; done. Qed.

#[export] Instance recv_total n : Total (recv n).
Proof.
  intros s. unfold recv. destruct (closed s); [done|].
  pose proof (rx_take_total (Z.to_nat n) (rx s)) as H. by destruct (rx_take _ _).
Qed.

Lemma recvn_loop_total fuel base n filled :
  n - filled <= Z.of_nat fuel -> Total (recvn_loop fuel base n filled).
Proof.
  revert filled. induction fuel as [|fuel IH]; intros filled Hf; cbn [recvn_loop];
    (destruct (Z.ltb_spec filled n); [|apply _]); [lia|].
  apply total_bind; [apply _|intros got]. apply total_bind; [apply _|intros _].
  destruct (Z.eqb_spec (len got) 0); [done|]. apply total_bind; [done|intros _].
  apply IH. pose proof (len_nonneg got). lia.
Qed.

#[export] Instance _recvn_into_total base n : Total (_recvn_into base n).
Proof. apply recvn_loop_total. lia. Qed.

#[export] Instance _recvn_total n : Total (_recvn n).
Proof.
  apply total_bind; [|apply _]. intros s. unfold with_local.
  pose proof (_recvn_into_total 0 n (zeros n, s)) as H.
  by destruct (_recvn_into 0 n (zeros n, s)) as [[] [??]].
Qed.

#[export] Instance sendall_total b : Total (sendall b).
Proof. intros s. unfold sendall. destruct (closed s); [done|]. by destruct (tx_plan s) as [|[]]. Qed.

#[export] Instance sock_close_total : Total sock_close.
Proof. intros s. unfold sock_close. by destruct (closed s), (close_fails s). Qed.
