(* ===== verification/Codec.v ===== *)
(** The interface between the NFC disk code and the compressor it calls.

    [nfc_open.py] only uses [fastlz.compress] and [fastlz.decompress] and
    relies on the promises of [CodecOk]; the module [Fastlz] implements them. *)
From Stdlib Require Import ZArith Lia.
From stdpp Require Import base list numbers sets.
From S2P Require Import Prelude Python.

Class Codec := {
  codec_compress : bytes -> outcome bytes;
  (** [codec_decompress data maxout] *)
  codec_decompress : bytes -> Z -> outcome bytes
}.

Class CodecOk (C : Codec) : Prop := {
  (** Non-empty compressed data decompresses to what was compressed. *)
  codec_roundtrip d w :
    codec_compress d = Ok w -> w <> [] -> codec_decompress w (len d) = Ok d;
  (** The output cap is kept. *)
  codec_cap w n out : codec_decompress w n = Ok out -> len out <= n;
  codec_total_compress d : codec_compress d <> OutOfFuel;
  codec_total_decompress w n : codec_decompress w n <> OutOfFuel
}.
