(* ===== verification/Fastlz.v ===== *)
(** [openvixdisklib/fastlz.py]: the adapter between NFC extras, which are raw
    FastLZ data, and the [pyfastlz] extension module, whose buffers start with
    a native [uint32] uncompressed length.

    The extension module is the parameter [PyFastlz]; [PyFastlzOk] is its
    documented behaviour.  The adapter then keeps the promises of [CodecOk],
    which is all that the disk code uses. *)
From Stdlib Require Import ZArith Lia.
From stdpp Require Import base list numbers sets.
From coqutil Require Import Byte Word.LittleEndianList.
Import LittleEndianList.
From S2P Require Import Prelude Python Codec.

(** The module [fastlz] of PyPI's [pyfastlz], and the byte order of the
    machine. *)
Class PyFastlz := {
  pf_compress : bytes -> Z -> outcome bytes;
  pf_decompress : bytes -> outcome bytes;
  little_endian : bool
}.

(** [struct.calcsize("I")] *)
Definition _PREFIX_SIZE : Z := 4.

(** [struct.pack("I", v)] *)
Definition pack_native {P : PyFastlz} (v : Z) : outcome bytes :=
  if code_fits CodeI v
  then Ok (if little_endian then le_split 4 v else reverse (le_split 4 v))
  else Raise EStructError.

(** [except FastlzError as exc: raise ValueError(str(exc))] *)
Definition wrap_fastlz_error {A} (o : outcome A) : outcome A :=
  match o with Raise EFastlzError => Raise EValueError | _ => o end.

Definition compress {P : PyFastlz} (data : bytes) : outcome bytes :=
  let level := if len data <? 65536 then 1 else 2 in
  wrapped ← wrap_fastlz_error (pf_compress data level);
  if len wrapped <? _PREFIX_SIZE then Raise EValueError
  else Ok (drop (Z.to_nat _PREFIX_SIZE) wrapped).

Definition decompress {P : PyFastlz} (data : bytes) (maxout : Z) : outcome bytes :=
  if len data =? 0 then Raise EValueError else
  prefix ← pack_native maxout;
  out ← wrap_fastlz_error (pf_decompress (prefix ++ data));
  if maxout <? len out then Raise EValueError else Ok out.

#[export] Instance fastlz_codec {P : PyFastlz} : Codec :=
  {| codec_compress := compress; codec_decompress := decompress |}.

(** What the documentation of [pyfastlz] says: compressed output is the native
    [uint32] length followed by FastLZ data, at either level, and decompressing
    it gives the input back. *)
Class PyFastlzOk (P : PyFastlz) : Prop := {
  pf_roundtrip d lv w :
    pf_compress d lv = Ok w -> 1 <= lv <= 2 ->
    exists p raw, pack_native (len d) = Ok p /\ w = p ++ raw /\ pf_decompress w = Ok d;
  pf_compress_total d lv : pf_compress d lv <> OutOfFuel;
  pf_decompress_total w : pf_decompress w <> OutOfFuel
}.

(** A concrete module for runs of the model: a constant buffer is stored as
    one byte, any other buffer as it is. *)
Definition run_length (d : bytes) : bytes :=
  match d with
  | b :: d' => if bool_decide (Forall (eq b) d') then [b] else d
  | [] => []
  end.

Definition rl_compress (d : bytes) (_ : Z) : outcome bytes :=
  if code_fits CodeI (len d) then Ok (le_split 4 (len d) ++ run_length d)
  else Raise EFastlzError.

Definition rl_decompress (w : bytes) : outcome bytes :=
  if len w <? 4 then Raise EFastlzError else
  match drop 4 w with
  | [b] => Ok (replicate (Z.to_nat (u32_at 0 w)) b)
  | raw => Ok raw
  end.

Definition run_length_fastlz : PyFastlz :=
  {| pf_compress := rl_compress; pf_decompress := rl_decompress; little_endian := true |}.

(** * Lemmas *)

Section Adapter.
Context {P : PyFastlz}.

Lemma pack_native_len v p : pack_native v = Ok p -> len p = _PREFIX_SIZE.
Proof.
  unfold pack_native, len. destruct (code_fits CodeI v); intros; simplify_eq.
  by destruct little_endian; rewrite ?length_reverse, length_le_split.
Qed.

Lemma wrap_fastlz_ok {A} (o : outcome A) a : wrap_fastlz_error o = Ok a <-> o = Ok a.
Proof. destruct o as [|[]|]; simpl; naive_solver. Qed.

Lemma compress_inv d w :
  compress d = Ok w ->
  exists lv p, 1 <= lv <= 2 /\ pf_compress d lv = Ok (p ++ w) /\ len p = _PREFIX_SIZE.
Proof.
  unfold compress. set (lv := if len d <? 65536 then 1 else 2). intros H.
  destruct (wrap_fastlz_error (pf_compress d lv)) as [wr| |] eqn:E; simplify_eq/=.
  apply (proj1 (wrap_fastlz_ok _ _)) in E.
  destruct (Z.ltb_spec (len wr) _PREFIX_SIZE) as [|Hl]; simplify_eq.
  exists lv, (take 4 wr). rewrite take_drop. split; [unfold lv; destruct (_ <? _); lia|].
  split; [done|]. unfold _PREFIX_SIZE in *. zlia.
Qed.

Lemma decompress_cap w n out : decompress w n = Ok out -> len out <= n.
Proof.
  unfold decompress. destruct (len w =? 0); [done|].
  destruct (pack_native n) as [p| |]; [simpl|done..].
  destruct (wrap_fastlz_error _) as [o| |]; [simpl|done..].
  destruct (Z.ltb_spec n (len o)); intros; by simplify_eq.
Qed.

Lemma decompress_not_empty w n out : decompress w n = Ok out -> w <> [].
Proof. by intros ? ->. Qed.

Lemma compress_decompress {POk : PyFastlzOk P} d w :
  compress d = Ok w -> w <> [] -> decompress w (len d) = Ok d.
Proof.
  intros (lv & p & Hlv & Hc & Hp)%compress_inv Hw.
  destruct (pf_roundtrip _ _ _ Hc Hlv) as (p' & raw & Hpack & Heq & Hd).
  assert (p = p' /\ w = raw) as [-> ->].
  { apply app_inj_1; [|done]. apply pack_native_len in Hpack. zlia. }
  unfold decompress. destruct (Z.eqb_spec (len raw) 0) as [H0|_].
  { destruct Hw. apply len_nil_inv. lia. }
  rewrite Hpack. simpl. rewrite Hd. simpl. by rewrite Z.ltb_irrefl.
Qed.

#[export] Instance fastlz_codec_ok {POk : PyFastlzOk P} : CodecOk fastlz_codec.
Proof.
  split.
  - apply compress_decompress.
  - apply decompress_cap.
  - intros d. simpl. unfold compress. set (lv := if len d <? 65536 then 1 else 2).
    pose proof (pf_compress_total d lv). destruct (pf_compress d lv) as [w|[]|]; try done.
    simpl. by destruct (len w <? _).
  - intros w n. simpl. unfold decompress, pack_native. destruct (len w =? 0); [done|].
    destruct (code_fits CodeI n); [|done]. simpl.
    pose proof (pf_decompress_total ((if little_endian then le_split 4 n
      else reverse (le_split 4 n)) ++ w)).
    destruct (pf_decompress _) as [out|[]|]; try done. simpl. by destruct (n <? _).
Qed.
End Adapter.

Lemma run_length_spec d :
  (exists b, run_length d = [b] /\ d = replicate (length d) b) \/
  (run_length d = d /\ forall b, d <> [b]).
Proof.
  destruct d as [|b d]; [right; naive_solver|]. simpl.
  destruct (bool_decide (Forall (eq b) d)) eqn:E.
  - left. exists b. split; [done|]. apply bool_decide_eq_true in E. f_equal.
    symmetry. apply replicate_as_elem_of. split; [done|]. rewrite Forall_forall in E.
    intros y Hy. symmetry. by apply E.
  - right. split; [done|]. intros b' [= -> ->]. apply bool_decide_eq_false in E.
    by destruct E.
Qed.

#[export] Instance run_length_fastlz_ok : PyFastlzOk run_length_fastlz.
Proof.
  split; cbn [pf_compress pf_decompress run_length_fastlz].
  - intros d lv w Hc _. unfold rl_compress in Hc. unfold pack_native.
    cbn [little_endian run_length_fastlz].
    destruct (code_fits CodeI (len d)) eqn:Hf; [|done].
    assert (w = le_split 4 (len d) ++ run_length d) as -> by congruence. clear Hc.
    exists (le_split 4 (len d)), (run_length d).
    split; [done|]. split; [done|]. unfold rl_decompress.
    assert (length (le_split 4 (len d)) = 4%nat) as Hl by apply length_le_split.
    assert (u32_at 0 (le_split 4 (len d) ++ run_length d) = len d) as Hu.
    { unfold u32_at. rewrite slice_prefix by zlia. rewrite le_combine_split.
      change (Z.of_nat 4 * 8) with 32. apply Z.mod_small. by apply code_fits_I. }
    rewrite Hu, drop_app_ge, Hl by lia. rewrite Nat.sub_diag, drop_0.
    rewrite (proj2 (Z.ltb_ge _ _)) by zlia.
    destruct (run_length_spec d) as [(b & -> & Hd)|[-> Hd]].
    + unfold len. rewrite Nat2Z.id. by rewrite <- Hd.
    + destruct d as [|b [|]]; [done|by destruct (Hd b)|done].
  - intros d lv. unfold rl_compress. by destruct (code_fits _ _).
  - intros w. unfold rl_decompress. destruct (len w <? 4); [done|].
    by destruct (drop 4 w) as [|? []].
Qed.

(** The codec of the witnesses. *)
Definition lab_codec : Codec := @fastlz_codec run_length_fastlz.

Definition lab_codec_ok : @CodecOk lab_codec := @fastlz_codec_ok _ run_length_fastlz_ok.

(** * Property *)

(** C34: what [compress] returns, [decompress] turns back into the input when
    it is told the input's length, at either level; and whatever data it is
    given (by a server, for example) and whatever the cap, [decompress] refuses
    empty data and never returns more bytes than the cap. *)
Theorem fastlz_roundtrip {P : PyFastlz} {POk : PyFastlzOk P} d w x n :
  compress d = Ok w ->
  (w <> [] -> decompress w (len d) = Ok d) /\
  (forall out, decompress x n = Ok out -> x <> [] /\ len out <= n) /\
  decompress [] n = Raise EValueError.
Proof.
  intros H. split; [by apply compress_decompress|]. split; [|done].
  intros out Hx. split; [by eapply decompress_not_empty|by eapply decompress_cap].
Qed.

Lemma fastlz_roundtrip_witness :
  ([Byte.x41] <> [] ->
   @decompress run_length_fastlz [Byte.x41] 3 = Ok [Byte.x41; Byte.x41; Byte.x41]) /\
  (forall out, @decompress run_length_fastlz [Byte.x42; Byte.x43] 2 = Ok out ->
     [Byte.x42; Byte.x43] <> [] /\ len out <= 2) /\
  @decompress run_length_fastlz [] 2 = Raise EValueError.
Proof.
  apply (@fastlz_roundtrip run_length_fastlz run_length_fastlz_ok
    [Byte.x41; Byte.x41; Byte.x41] [Byte.x41] [Byte.x42; Byte.x43] 2).
  vm_compute. reflexivity.
Defined.
