(* ===== verification/Wire.v ===== *)
(** The two NFC framings of [openvixdisklib/nfc_open.py]: classic 264-byte
    messages ([_send_nfc_msg], [_recv_nfc_msg]) and the 16-byte AIO header
    ([_pack_aio_hdr], [_unpack_aio_hdr]), with the protocol's constants. *)
From Stdlib Require Import ZArith Lia String.
From stdpp Require Import base list numbers sets.
From coqutil Require Import Byte Word.LittleEndianList.
Import LittleEndianList.
From S2P Require Import Prelude Python Socket.

(** * Constants *)

Definition NFC_MSG_SIZE : Z := 264.
Definition NFC_AIO_MAGIC : Z := 0xA100DA7A.
Definition NFC_AIO_HDR_SIZE : Z := 16.
Definition NFC_SECTOR_SIZE : Z := 512.
Definition NFC_PROTOCOL_VERSION : Z := 11.
Definition NFC_AIO_BUFFER_SIZE : Z := 65536.
Definition NFC_AIO_BUFFER_COUNT : Z := 1.

Definition NFC_MSG_SESSION_COMPLETE : Z := 4.
Definition NFC_MSG_SESSION_PARAMS : Z := 33.
Definition NFC_MSG_SESSION_PARAMS_REPLY : Z := 36.
Definition NFC_MSG_HANDSHAKE : Z := 43.
Definition NFC_MSG_VERSION : Z := 51.
Definition NFC_MSG_AIO_SESSION_OPEN : Z := 52.
Definition NFC_MSG_CONNECTION_DATA : Z := 54.
Definition NFC_MSG_SESSION_FEATURES : Z := 55.

Definition NFC_SESSION_FEATURE_INTERRUPTION_SWITCH : Z := 3.

Definition NFC_AIO_MSG_ERROR : Z := 1.
Definition NFC_AIO_MSG_OPEN_SESSION : Z := 2.
Definition NFC_AIO_MSG_CLOSE_SESSION : Z := 3.
Definition NFC_AIO_MSG_OPEN_FILE : Z := 4.
Definition NFC_AIO_MSG_CLOSE_FILE : Z := 5.
Definition NFC_AIO_MSG_IO : Z := 7.
Definition NFC_AIO_MSG_SET_SOCK_OPTS : Z := 9.
Definition NFC_AIO_MSG_DDB_GET : Z := 11.
Definition NFC_AIO_MSG_SET_RES_POOL : Z := 22.

Definition NFC_DISK : Z := 2.
Definition NFC_OPEN_FLAGS_READ_ONLY : Z := 0x1E.
Definition NFC_OPEN_FLAGS_READ_WRITE : Z := 0x1A.

Definition NFC_AIO_IO_WRITE : Z := 0.
Definition NFC_AIO_IO_READ : Z := 1.

Definition NFC_COMPRESSION_NONE : Z := 0.
Definition NFC_COMPRESSION_FASTLZ : Z := 2.

(** * Operations *)

Definition _send_nfc_msg (msg_type : Z) (body : bytes) : M sock unit :=
  raise_when (NFC_MSG_SIZE - 4 <? len body) EValueError;;
  t ← lift (struct_pack "<I" [msg_type]);
  sendall (ljust0 NFC_MSG_SIZE (t ++ body)).

Definition _recv_nfc_msg : M sock (Z * bytes) :=
  frame ← _recvn NFC_MSG_SIZE;
  msg_type ← lift (unpack1 (struct_unpack_from "<I" frame 0));
  mret (msg_type, drop 4 frame).

Definition _pack_aio_hdr (msg_type payload_size op_id : Z) : outcome bytes :=
  struct_pack "<IIII" [NFC_AIO_MAGIC; msg_type; payload_size; op_id].

Definition _unpack_aio_hdr (hdr : bytes) : outcome (Z * Z * Z) :=
  '(magic, msg_type, size, op_id) ← unpack4 (struct_unpack_from "<IIII" hdr 0);
  if negb (magic =? NFC_AIO_MAGIC) then Raise ENfcProtocolError
  else if msg_type =? NFC_AIO_MSG_ERROR then Raise ENfcProtocolError
  else Ok (msg_type, size, op_id).

(** * The frames on the wire *)

(** A classic message as both sides frame it. *)
Definition nfc_frame (msg_type : Z) (body : bytes) : bytes :=
  ljust0 NFC_MSG_SIZE (le_split 4 msg_type ++ body).

(** The AIO header. *)
Definition aio_hdr (msg_type size op_id : Z) : bytes :=
  le_split 4 NFC_AIO_MAGIC ++ le_split 4 msg_type ++ le_split 4 size ++ le_split 4 op_id.

(** The 44-byte payload of a fragment, sent by [write] and received by
    [readinto]: handle, opcode, byte offset of the whole request, its length,
    offset of the fragment inside it, its length, the length of the extra. *)
Definition io_body (handle opcode offset length dest chunk_len extra_len : Z) : bytes :=
  fields [CodeQ; CodeQ; CodeQ; CodeI; CodeI; CodeI; CodeI; CodeI]
    [handle; opcode; offset; length; dest; chunk_len; extra_len; 0].

Definition fits32 (z : Z) : Prop := 0 <= z < 2 ^ 32.
Definition fits64 (z : Z) : Prop := 0 <= z < 2 ^ 64.

Create HintDb wire.

(** * Lemmas on fields of packed data *)

Lemma len_le_split n z : len (le_split n z) = Z.of_nat n.
Proof. unfold len. by rewrite length_le_split. Qed.
#[export] Hint Rewrite len_le_split length_le_split : pylen_rw.

Lemma le_combine_split32 z : fits32 z -> le_combine (le_split 4 z) = z.
Proof. intros. rewrite le_combine_split. apply Z.mod_small. done. Qed.

Lemma le_combine_split64 z : fits64 z -> le_combine (le_split 8 z) = z.
Proof. intros. rewrite le_combine_split. apply Z.mod_small. done. Qed.

Lemma u32_at_0 z r : fits32 z -> u32_at 0 (le_split 4 z ++ r) = z.
Proof.
  intros. unfold u32_at. rewrite slice_prefix by (by rewrite len_le_split).
  by apply le_combine_split32.
Qed.

Lemma u64_at_0 z r : fits64 z -> u64_at 0 (le_split 8 z ++ r) = z.
Proof.
  intros. unfold u64_at. rewrite slice_prefix by (by rewrite len_le_split).
  by apply le_combine_split64.
Qed.

Lemma u32_at_skip off a r : len a <= off -> u32_at off (a ++ r) = u32_at (off - len a) r.
Proof. intros. unfold u32_at. rewrite slice_app_r by lia. do 2 f_equal. lia. Qed.

Lemma u64_at_skip off a r : len a <= off -> u64_at off (a ++ r) = u64_at (off - len a) r.
Proof. intros. unfold u64_at. rewrite slice_app_r by lia. do 2 f_equal. lia. Qed.

(** Read a field of a concatenation of packed fields. *)
Ltac field :=
  repeat (rewrite u32_at_skip by (rewrite ?len_le_split; lia); rewrite ?len_le_split);
  repeat (rewrite u64_at_skip by (rewrite ?len_le_split; lia); rewrite ?len_le_split);
  match goal with
  | |- u32_at ?o _ = _ => replace o with 0 by lia; apply u32_at_0
  | |- u64_at ?o _ = _ => replace o with 0 by lia; apply u64_at_0
  end.

(** [pack] with the program's formats; [pack_ok] discharges the ranges. *)
Lemma fits_I v : fits32 v -> code_fits CodeI v = true.
Proof. apply code_fits_I. Qed.

Lemma fits_Q v : fits64 v -> code_fits CodeQ v = true.
Proof. apply code_fits_Q. Qed.

#[export] Hint Resolve fits_I fits_Q : wire.

Lemma pack_ok f vs :
  Forall2 (fun c v => code_fits c v = true) (codes f) vs ->
  struct_pack f vs = Ok (fields (codes f) vs).
Proof. intros. by apply pack_codes_iff. Qed.

Lemma pack_I a : fits32 a -> struct_pack "<I" [a] = Ok (le_split 4 a).
Proof.
  intros. rewrite pack_ok; compute_codes.
  { cbn [fields code_size]. by rewrite app_nil_r. }
  repeat constructor; auto with wire.
Qed.

Lemma pack_Q a : fits64 a -> struct_pack "<Q" [a] = Ok (le_split 8 a).
Proof.
  intros. rewrite pack_ok; compute_codes.
  { cbn [fields code_size]. by rewrite app_nil_r. }
  repeat constructor; auto with wire.
Qed.

Lemma pack_aio_hdr_ok t size op :
  fits32 t -> fits32 size -> fits32 op -> _pack_aio_hdr t size op = Ok (aio_hdr t size op).
Proof.
  intros. unfold _pack_aio_hdr. rewrite pack_ok; compute_codes.
  { unfold aio_hdr. cbn [fields code_size]. by rewrite app_nil_r. }
  repeat constructor; auto with wire.
Qed.

Lemma pack_aio_hdr_inv t size op h :
  _pack_aio_hdr t size op = Ok h ->
  fits32 t /\ fits32 size /\ fits32 op /\ h = aio_hdr t size op.
Proof.
  unfold _pack_aio_hdr, struct_pack. compute_codes. intros [H ->]%pack_codes_iff.
  unfold aio_hdr. cbn [fields code_size]. rewrite app_nil_r.
  repeat match goal with H : Forall2 _ _ _ |- _ => inversion_clear H end.
  repeat match goal with H : code_fits CodeI _ = true |- _ => apply code_fits_I in H end.
  done.
Qed.

Lemma len_aio_hdr t size op : len (aio_hdr t size op) = NFC_AIO_HDR_SIZE.
Proof. unfold aio_hdr. rewrite !len_app, !len_le_split. done. Qed.

Lemma aio_hdr_op t size op rest : fits32 op -> u32_at 12 (aio_hdr t size op ++ rest) = op.
Proof. intros Ho. unfold aio_hdr. rewrite <- !app_assoc. by field. Qed.

Lemma exch_recv_hdr t size op :
  exch (_recvn NFC_AIO_HDR_SIZE) (aio_hdr t size op) (aio_hdr t size op) [].
Proof. apply exch_recvn. by rewrite len_aio_hdr. Qed.

(** * Lemmas on headers *)

Lemma le_split_u32_at o l :
  0 <= o -> o + 4 <= len l -> le_split 4 (u32_at o l) = slice o (o + 4) l.
Proof.
  intros. unfold u32_at. apply split_le_combine'. rewrite length_slice by lia. lia.
Qed.

(** Sixteen bytes are four little-endian words. *)
Lemma words4 h :
  len h = 16 ->
  h = le_split 4 (u32_at 0 h) ++ le_split 4 (u32_at 4 h) ++
      le_split 4 (u32_at 8 h) ++ le_split 4 (u32_at 12 h).
Proof.
  intros Hl. rewrite !le_split_u32_at by lia. simpl.
  rewrite <- (slice_split 8 12 16), <- (slice_split 4 8 16), <- (slice_split 0 4 16) by lia.
  symmetry. by apply slice_full.
Qed.

Lemma unpack_aio_hdr_ok t size op :
  fits32 t -> fits32 size -> fits32 op -> t <> NFC_AIO_MSG_ERROR ->
  _unpack_aio_hdr (aio_hdr t size op) = Ok (t, size, op).
Proof.
  intros Ht Hs Ho He. unfold _unpack_aio_hdr. rewrite unpack_IIII by by rewrite len_aio_hdr.
  unfold aio_hdr.
  replace (u32_at 0 _) with NFC_AIO_MAGIC by (symmetry; by apply u32_at_0).
  replace (u32_at 4 _) with t by (symmetry; by field).
  replace (u32_at 8 _) with size by (symmetry; by field).
  replace (u32_at 12 _) with op by (symmetry; rewrite <- (app_nil_r (le_split 4 op)); by field).
  simpl. by rewrite (proj2 (Z.eqb_neq _ _)).
Qed.

Lemma unpack_aio_hdr_error size op :
  fits32 size -> fits32 op ->
  _unpack_aio_hdr (aio_hdr NFC_AIO_MSG_ERROR size op) = Raise ENfcProtocolError.
Proof.
  intros Hs Ho. unfold _unpack_aio_hdr. rewrite unpack_IIII by by rewrite len_aio_hdr.
  unfold aio_hdr.
  replace (u32_at 0 _) with NFC_AIO_MAGIC by (symmetry; by apply u32_at_0).
  replace (u32_at 4 _) with NFC_AIO_MSG_ERROR by (symmetry; by field). done.
Qed.

Lemma unpack_aio_hdr_inv h t size op :
  len h = 16 -> _unpack_aio_hdr h = Ok (t, size, op) ->
  h = aio_hdr t size op /\ fits32 t /\ fits32 size /\ fits32 op /\ t <> NFC_AIO_MSG_ERROR.
Proof.
  intros Hl. unfold _unpack_aio_hdr. rewrite unpack_IIII by lia. simpl.
  destruct (Z.eqb_spec (u32_at 0 h) NFC_AIO_MAGIC) as [Hm|]; [simpl|done].
  destruct (Z.eqb_spec (u32_at 4 h) NFC_AIO_MSG_ERROR) as [|Ht]; [done|]. intros [= <- <- <-].
  split; [rewrite (words4 h Hl) at 1; unfold aio_hdr; by rewrite Hm|].
  unfold fits32. pose proof (u32_at_bound 4 h). pose proof (u32_at_bound 8 h).
  pose proof (u32_at_bound 12 h). split_and!; lia || done.
Qed.

Lemma unpack_aio_hdr_raise h e :
  len h = 16 -> _unpack_aio_hdr h = Raise e -> e = ENfcProtocolError.
Proof.
  intros Hl. unfold _unpack_aio_hdr. rewrite unpack_IIII by lia. simpl.
  destruct (_ =? NFC_AIO_MAGIC); simpl; [|intros; by simplify_eq].
  destruct (_ =? NFC_AIO_MSG_ERROR); intros; by simplify_eq.
Qed.

(** * Lemmas on classic messages *)

Lemma len_nfc_frame t body : len body <= 260 -> len (nfc_frame t body) = NFC_MSG_SIZE.
Proof. intros. unfold nfc_frame. apply len_ljust0. rewrite len_app, len_le_split. unfold NFC_MSG_SIZE. lia. Qed.

Lemma nfc_frame_type t body : fits32 t -> u32_at 0 (nfc_frame t body) = t.
Proof. intros. unfold nfc_frame, ljust0. rewrite <- app_assoc. by apply u32_at_0. Qed.

Lemma nfc_frame_body t body :
  len body <= 260 -> drop 4 (nfc_frame t body) = ljust0 260 body.
Proof.
  intros. unfold nfc_frame, ljust0. rewrite <- app_assoc.
  rewrite drop_app_ge by (rewrite length_le_split; lia).
  rewrite length_le_split, Nat.sub_diag, drop_0, len_app, len_le_split.
  unfold NFC_MSG_SIZE. do 2 f_equal. lia.
Qed.

Lemma exch_send_nfc_msg t body :
  fits32 t -> len body <= 260 -> exch (_send_nfc_msg t body) [] tt [nfc_frame t body].
Proof.
  intros Ht Hb. unfold _send_nfc_msg.
  eapply exch_bind; [apply exch_guard|..]; [unfold NFC_MSG_SIZE; lia| |done..].
  eapply exch_bind; [by apply exch_lift, pack_I|apply exch_sendall|done..].
Qed.

Lemma exch_recv_nfc_msg frame :
  len frame = NFC_MSG_SIZE -> exch _recv_nfc_msg frame (u32_at 0 frame, drop 4 frame) [].
Proof.
  intros Hl. unfold _recv_nfc_msg.
  eapply exch_bind; [by apply exch_recvn| |by rewrite app_nil_r|done].
  eapply exch_bind; [apply exch_lift|apply exch_ret|done..].
  by rewrite unpack_I by (rewrite ?Hl; unfold NFC_MSG_SIZE; lia).
Qed.

Lemma send_nfc_msg_too_large t body s :
  260 < len body -> _send_nfc_msg t body s = (Raise EValueError, s).
Proof.
  intros. unfold _send_nfc_msg. apply bind_raise. unfold raise_when.
  rewrite (proj2 (Z.ltb_lt _ _)); [done|unfold NFC_MSG_SIZE; lia].
Qed.

(** * Lemmas on IO payloads *)

Lemma len_io_body h o off l d c e : len (io_body h o off l d c e) = 44.
Proof. unfold io_body. by rewrite fields_len. Qed.

Lemma io_body_fields h o off l d c e :
  io_body h o off l d c e = le_split 8 h ++ le_split 8 o ++ le_split 8 off ++ le_split 4 l ++
    le_split 4 d ++ le_split 4 c ++ le_split 4 e ++ le_split 4 0.
Proof. unfold io_body. cbn [fields code_size]. by rewrite app_nil_r. Qed.

Lemma io_body_opcode h o off l d c e : fits64 o -> u64_at 8 (io_body h o off l d c e) = o.
Proof. intros. rewrite io_body_fields. by field. Qed.

Lemma io_body_offset h o off l d c e : fits64 off -> u64_at 16 (io_body h o off l d c e) = off.
Proof. intros. rewrite io_body_fields. by field. Qed.

Lemma io_body_length h o off l d c e : fits32 l -> u32_at 24 (io_body h o off l d c e) = l.
Proof. intros. rewrite io_body_fields. by field. Qed.

Lemma io_body_dest h o off l d c e : fits32 d -> u32_at 28 (io_body h o off l d c e) = d.
Proof. intros. rewrite io_body_fields. by field. Qed.

Lemma io_body_chunk h o off l d c e : fits32 c -> u32_at 32 (io_body h o off l d c e) = c.
Proof. intros. rewrite io_body_fields. by field. Qed.

Lemma io_body_extra h o off l d c e : fits32 e -> u32_at 36 (io_body h o off l d c e) = e.
Proof. intros. rewrite io_body_fields. by field. Qed.

(** The compression type sits in the upper half of the opcode. *)
Lemma lor_shift a b : 0 <= a < 2 ^ 32 -> Z.lor a (Z.shiftl b 32) = a + b * 2 ^ 32.
Proof.
  intros Ha. assert (Z.land a (Z.shiftl b 32) = 0) as Hl.
  { apply Z.bits_inj'. intros i Hi. rewrite Z.land_spec, Z.bits_0, Z.shiftl_spec by done.
    destruct (Z.ltb_spec i 32).
    - rewrite (Z.testbit_neg_r b) by lia. apply andb_false_r.
    - rewrite Z.bits_above_log2; [done|lia|].
      destruct (Z.eq_dec a 0) as [->|]; [simpl; lia|]. apply Z.log2_lt_pow2; [lia|].
      eapply Z.lt_le_trans; [apply Ha|]. apply Z.pow_le_mono_r; lia. }
  rewrite <- Z.lxor_lor, <- Z.add_nocarry_lxor, Z.shiftl_mul_pow2 by done. done.
Qed.

Lemma opcode_fits op c :
  fits32 op -> fits64 (Z.lor op (Z.shiftl c 32)) <-> fits32 c.
Proof. intros. rewrite lor_shift by done. unfold fits32, fits64 in *. lia. Qed.

Lemma opcode_ctype op c : fits32 op -> Z.shiftr (Z.lor op (Z.shiftl c 32)) 32 = c.
Proof.
  intros. rewrite lor_shift by done. rewrite Z.shiftr_div_pow2 by lia.
  rewrite Z.div_add by lia. rewrite Z.div_small by done. lia.
Qed.
