(* ===== verification/Disk.v ===== *)
(** The class [NfcDisk] of [openvixdisklib/nfc_open.py]: its attributes, the
    AIO request/reply methods and [close].  [readinto] and [write] are in
    [DiskRead] and [DiskWrite].

    The methods run on the object and its socket, [NfcDisk * sock]: the socket
    is the attribute [_sock]. *)
From Stdlib Require Import ZArith Lia String.
From stdpp Require Import base list numbers sets.
From coqutil Require Import Byte Word.LittleEndianList.
Import LittleEndianList.
From S2P Require Import Prelude Python PyStr Socket Wire.

Record NfcDisk := mkNfcDisk {
  path : pystr;
  handle : Z;
  sector_size : Z;
  compression : Z;
  aio_buffer_size : Z;
  aio_buffer_count : Z;
  _op_id : Z;
  _closed : bool
}.

(** [NfcDisk.__init__] *)
Definition init_disk (path : pystr) (handle sector_size compression aio_buffer_size
    aio_buffer_count : Z) : NfcDisk :=
  mkNfcDisk path handle sector_size compression aio_buffer_size aio_buffer_count 0 false.

Definition set_op_id (v : Z) (d : NfcDisk) : NfcDisk :=
  mkNfcDisk (path d) (handle d) (sector_size d) (compression d) (aio_buffer_size d)
    (aio_buffer_count d) v (_closed d).

Definition set_closed (d : NfcDisk) : NfcDisk :=
  mkNfcDisk (path d) (handle d) (sector_size d) (compression d) (aio_buffer_size d)
    (aio_buffer_count d) (_op_id d) true.

(** [disk.handle = h; disk.sector_size = n] *)
Definition set_opened (h n : Z) (d : NfcDisk) : NfcDisk :=
  mkNfcDisk (path d) h n (compression d) (aio_buffer_size d)
    (aio_buffer_count d) (_op_id d) (_closed d).

Definition _next_op_id : M NfcDisk Z :=
  op_id ← gets _op_id;
  modify (set_op_id (op_id + 1));;
  mret op_id.

Definition _aio_send (msg_type : Z) (payload extra : bytes) : M (NfcDisk * sock) Z :=
  op_id ← zoom _next_op_id;
  hdr ← lift (_pack_aio_hdr msg_type (len payload) op_id);
  zoom (sendall (hdr ++ payload ++ extra));;
  mret op_id.

Definition _aio_recv_reply : M (NfcDisk * sock) (Z * Z * bytes) :=
  rhdr ← zoom (_recvn NFC_AIO_HDR_SIZE);
  '(magic, rtype, rsize, rop) ← lift (unpack4 (struct_unpack_from "<IIII" rhdr 0));
  raise_when (negb (magic =? NFC_AIO_MAGIC)) ENfcProtocolError;;
  body ← (if rsize =? 0 then mret [] else zoom (_recvn rsize));
  raise_when (rtype =? NFC_AIO_MSG_ERROR) ENfcProtocolError;;
  mret (rtype, rop, body).

Definition _aio_roundtrip (msg_type : Z) (payload extra : bytes) (extra_recv : Z) :
    M (NfcDisk * sock) bytes :=
  op_id ← _aio_send msg_type payload extra;
  '(rtype, rop, body) ← _aio_recv_reply;
  raise_when (negb (rtype =? msg_type) || negb (rop =? op_id)) ENfcProtocolError;;
  if extra_recv =? 0 then mret body
  else (more ← zoom (_recvn extra_recv); mret (body ++ more)).

Definition close : M (NfcDisk * sock) unit :=
  d ← gets fst;
  if _closed d then mret tt else
  zoom (modify set_closed);;
  try_finally
    (p ← lift (struct_pack "<Q" [handle d]);
     _aio_roundtrip NFC_AIO_MSG_CLOSE_FILE p [] 0;;
     q ← lift (struct_pack "<I" [0]);
     _aio_roundtrip NFC_AIO_MSG_CLOSE_SESSION q [] 0;;
     zoom (_send_nfc_msg NFC_MSG_SESSION_COMPLETE []))
    (try_except is_oserror (zoom sock_close) (fun _ => mret tt)).

(** [with disk: ...]: [__enter__] returns the object, [__exit__] closes it. *)
Definition with_disk {A} (body : M (NfcDisk * sock) A) : M (NfcDisk * sock) A :=
  try_finally body close.

(** * The frames of a session *)

(** A reply of the server: header and body. *)
Definition aio_msg (msg_type op_id : Z) (body : bytes) : bytes :=
  aio_hdr msg_type (len body) op_id ++ body.

(** A request as one [sendall] sends it. *)
Definition aio_request (msg_type op_id : Z) (payload extra : bytes) : bytes :=
  aio_hdr msg_type (len payload) op_id ++ payload ++ extra.

(** * Lemmas *)

Lemma len_aio_msg t op body : len (aio_msg t op body) = 16 + len body.
Proof. unfold aio_msg. by rewrite len_app, len_aio_hdr. Qed.

Lemma next_op_id_run d : _next_op_id d = (Ok (_op_id d), set_op_id (_op_id d + 1) d).
Proof. done. Qed.

Lemma sess_next_op_id d :
  sess (zoom _next_op_id) d [] (_op_id d) (set_op_id (_op_id d + 1) d) [].
Proof. by apply sess_obj. Qed.

Lemma sess_aio_send d t payload extra :
  fits32 t -> fits32 (len payload) -> fits32 (_op_id d) ->
  sess (_aio_send t payload extra) d [] (_op_id d) (set_op_id (_op_id d + 1) d)
    [aio_request t (_op_id d) payload extra].
Proof.
  intros. unfold _aio_send.
  eapply sess_bind; [apply sess_next_op_id| |done..].
  eapply sess_bind; [by apply sess_lift, pack_aio_hdr_ok| |done..].
  eapply sess_bind; [by apply sess_sock, exch_sendall|apply sess_ret|done..].
Qed.

(** Reading the header of an AIO message of any type. *)
Lemma unpack_hdr_words t size op :
  fits32 t -> fits32 size -> fits32 op ->
  unpack4 (struct_unpack_from "<IIII" (aio_hdr t size op) 0) = Ok (NFC_AIO_MAGIC, t, size, op).
Proof.
  intros. rewrite unpack_IIII by by rewrite len_aio_hdr. unfold aio_hdr.
  replace (u32_at 0 _) with NFC_AIO_MAGIC by (symmetry; by apply u32_at_0).
  replace (u32_at 4 _) with t by (symmetry; by field).
  replace (u32_at 8 _) with size by (symmetry; by field).
  replace (u32_at 12 _) with op by (symmetry; rewrite <- (app_nil_r (le_split 4 op)); by field).
  done.
Qed.

Lemma sess_recv_body {D} (d : D) body :
  sess (if len body =? 0 then mret [] else zoom (_recvn (len body))) d body body d [].
Proof.
  destruct (Z.eqb_spec (len body) 0) as [H|H].
  - rewrite (len_nil_inv body) by lia. apply sess_ret.
  - by apply sess_sock, exch_recvn.
Qed.

Lemma sess_aio_recv_reply d t op body :
  fits32 t -> fits32 op -> fits32 (len body) -> t <> NFC_AIO_MSG_ERROR ->
  sess _aio_recv_reply d (aio_msg t op body) (t, op, body) d [].
Proof.
  intros. unfold _aio_recv_reply.
  eapply sess_bind; [apply sess_sock, exch_recv_hdr| |done..].
  eapply sess_bind; [by apply sess_lift, unpack_hdr_words| |done..]. cbv beta iota.
  eapply sess_bind; [by apply sess_guard| |done..].
  eapply sess_bind; [apply sess_recv_body| |by rewrite app_nil_r|done].
  eapply sess_bind; [apply sess_guard|apply sess_ret|done..]. by apply Z.eqb_neq.
Qed.

Lemma sess_aio_roundtrip d t payload extra body :
  fits32 t -> fits32 (len payload) -> fits32 (_op_id d) -> fits32 (len body) ->
  t <> NFC_AIO_MSG_ERROR ->
  sess (_aio_roundtrip t payload extra 0) d (aio_msg t (_op_id d) body) body
    (set_op_id (_op_id d + 1) d) [aio_request t (_op_id d) payload extra].
Proof.
  intros. unfold _aio_roundtrip.
  eapply sess_bind; [by apply sess_aio_send| |done..].
  eapply sess_bind; [by apply (sess_aio_recv_reply _ t (_op_id d) body)| |by rewrite app_nil_r|done].
  cbv beta iota.
  eapply sess_bind; [apply sess_guard|apply sess_ret|done..].
  by rewrite !Z.eqb_refl.
Qed.

(** * Lemmas: what a returned reply was *)

Lemma aio_recv_reply_inv (d : NfcDisk) s t op body d' s' :
  _aio_recv_reply (d, s) = (Ok (t, op, body), (d', s')) ->
  d' = d /\ talk (aio_msg t op body) [] s s' /\ t <> NFC_AIO_MSG_ERROR /\
  fits32 t /\ fits32 op /\ fits32 (len body).
Proof.
  intros H. unfold _aio_recv_reply in H.
  apply bind_inv_ok in H as (h & st & (s1 & Hh & ->)%zoom_inv & H).
  cbn [lget lput lens_fst lens_snd lens_self fst snd] in *.
  apply _recvn_inv in Hh as [Hl T1]; [|done].
  rewrite unpack_IIII in H by (unfold NFC_AIO_HDR_SIZE in Hl; lia).
  rewrite (lift_bind _ _ _ (u32_at 0 h, u32_at 4 h, u32_at 8 h, u32_at 12 h)) in H by done.
  cbv beta iota in H.
  apply bind_inv_ok in H as (u & st & [Hm ->]%raise_when_inv_ok & H).
  apply bind_inv_ok in H as (b & [d1 s2] & Hb & H).
  apply bind_inv_ok in H as (u' & st & [He ->]%raise_when_inv_ok & H).
  apply ret_inv_ok in H as [E1 E2]. injection E1 as -> -> ->. injection E2 as -> ->.
  pose proof (u32_at_bound 4 h) as B4. pose proof (u32_at_bound 8 h) as B8.
  pose proof (u32_at_bound 12 h) as B12. unfold NFC_AIO_HDR_SIZE in Hl.
  assert (d1 = d /\ len b = u32_at 8 h /\ talk b [] s1 s2) as (-> & Hlb & T2).
  { destruct (Z.eqb_spec (u32_at 8 h) 0) as [H0|H0].
    - apply ret_inv_ok in Hb as [-> E]. injection E as -> ->.
      rewrite H0. split_and!; [done|done|apply talk_refl].
    - apply zoom_inv in Hb as (s3 & Hb & E). cbn in Hb, E. injection E as -> ->.
      apply _recvn_inv in Hb as [? ?]; [done|lia]. }
  split; [done|]. split.
  { unfold aio_msg, aio_hdr. replace NFC_AIO_MAGIC with (u32_at 0 h) by lia.
    rewrite Hlb, <- words4 by done. by eapply (talk_trans _ _ [] []). }
  unfold fits32. rewrite Hlb. split_and!; lia.
Qed.

Lemma aio_send_inv d t payload extra s op d' s' :
  _aio_send t payload extra (d, s) = (Ok op, (d', s')) ->
  op = _op_id d /\ d' = set_op_id (_op_id d + 1) d /\ fits32 t /\ fits32 (_op_id d) /\
  talk [] [aio_request t op payload extra] s s'.
Proof.
  intros H. unfold _aio_send in H. erewrite bind_ok in H by (apply zoom_run, next_op_id_run).
  apply bind_inv_ok in H as (h & st & [(Ht & _ & Ho & ->)%pack_aio_hdr_inv ->]%lift_inv_ok & H).
  apply bind_inv_ok in H as (u & st & (s1 & T%sendall_inv & ->)%zoom_inv & [-> E]%ret_inv_ok).
  cbn [lget lput lens_fst lens_snd lens_self fst snd] in *. injection E as -> ->. done.
Qed.

Lemma aio_roundtrip_inv d t payload extra s body d' s' :
  _aio_roundtrip t payload extra 0 (d, s) = (Ok body, (d', s')) ->
  d' = set_op_id (_op_id d + 1) d /\
  talk (aio_msg t (_op_id d) body) [aio_request t (_op_id d) payload extra] s s'.
Proof.
  intros H. unfold _aio_roundtrip in H.
  apply bind_inv_ok in H as (op & [d1 s1] & (-> & -> & _ & _ & T1)%aio_send_inv & H).
  apply bind_inv_ok in H as ([[rt rop] b] & [d2 s2] & (-> & T2 & _)%aio_recv_reply_inv & H).
  apply bind_inv_ok in H as (u & st & [Hg ->]%raise_when_inv_ok & H).
  cbn [Z.eqb] in H. apply ret_inv_ok in H as [-> E]. injection E as -> ->.
  assert (rt = t /\ rop = _op_id d) as [-> ->] by lia. split; [done|].
  by eapply (talk_trans [] _ [_] []).
Qed.

#[export] Instance next_op_id_total : Total _next_op_id.
Proof. done. Qed.

#[export] Instance aio_send_total t p e : Total (_aio_send t p e).
Proof. unfold _aio_send, _pack_aio_hdr. total. Qed.

#[export] Instance aio_recv_reply_total : Total _aio_recv_reply.
Proof. unfold _aio_recv_reply. total. Qed.

#[export] Instance aio_roundtrip_total t p e n : Total (_aio_roundtrip t p e n).
Proof. unfold _aio_roundtrip. total. Qed.
