(* ===== verification/DiskTheorems.v ===== *)
(** Properties of the AIO methods of [NfcDisk] and of [close], and of the two
    routines everything is read with, [_recvn] and the AIO header. *)
From Stdlib Require Import ZArith Lia String.
From stdpp Require Import base list numbers sets.
From coqutil Require Import Byte Word.LittleEndianList.
Import LittleEndianList.
From S2P Require Import Prelude Python PyStr Socket Wire Disk.

(** * Lemmas: [close] *)

(** The object keeps its [_closed] flag. *)
Definition same_closed : relation (NfcDisk * sock) := fun st1 st2 =>
  _closed (fst st2) = _closed (fst st1).

#[export] Instance same_closed_preorder : PreOrder same_closed.
Proof. split; [done|]. intros ??? H1 H2. unfold same_closed in *. congruence. Qed.

#[export] Instance same_closed_sock {A} (m : M sock A) :
  Frame same_closed (zoom m : M (NfcDisk * sock) A).
Proof. intros [d s]. unfold zoom, same_closed. cbn. by destruct (m s). Qed.

#[export] Instance same_closed_op_id : Frame same_closed (zoom _next_op_id : M (NfcDisk * sock) Z).
Proof. by intros [d s]. Qed.

#[export] Instance same_closed_send t p e : Frame same_closed (_aio_send t p e).
Proof. unfold _aio_send. apply _. Qed.

#[export] Instance same_closed_reply : Frame same_closed _aio_recv_reply.
Proof.
  unfold _aio_recv_reply. apply frame_bind; [apply _|]. intros h.
  apply frame_bind; [apply _|]. intros [[[magic rtype] rsize] rop].
  apply frame_bind; [apply _|]. intros _.
  apply frame_bind; [destruct (rsize =? 0); apply _|]. intros body. apply _.
Qed.

#[export] Instance same_closed_roundtrip t p e n : Frame same_closed (_aio_roundtrip t p e n).
Proof.
  unfold _aio_roundtrip. apply frame_bind; [apply _|]. intros op.
  apply frame_bind; [apply _|]. intros [[rtype rop] body].
  apply frame_bind; [apply _|]. intros _. destruct (n =? 0); apply _.
Qed.

(** The three messages of [close], before the socket is closed. *)
Definition goodbye (d : NfcDisk) : M (NfcDisk * sock) unit :=
  p ← lift (struct_pack "<Q" [handle d]);
  _aio_roundtrip NFC_AIO_MSG_CLOSE_FILE p [] 0;;
  q ← lift (struct_pack "<I" [0]);
  _aio_roundtrip NFC_AIO_MSG_CLOSE_SESSION q [] 0;;
  zoom (_send_nfc_msg NFC_MSG_SESSION_COMPLETE []).

#[export] Instance same_closed_goodbye d : Frame same_closed (goodbye d).
Proof. unfold goodbye. apply _. Qed.

#[export] Instance goodbye_total d : Total (goodbye d).
Proof. unfold goodbye, _send_nfc_msg. total. Qed.

(** The [finally] block. *)
Definition quiet_close : M (NfcDisk * sock) unit :=
  try_except is_oserror (zoom sock_close) (fun _ => mret tt).

Lemma close_unfold d s :
  close (d, s) =
    if _closed d then (Ok tt, (d, s)) else try_finally (goodbye d) quiet_close (set_closed d, s).
Proof. unfold close. rewrite (bind_ok _ _ _ d (d, s)) by done. by destruct (_closed d). Qed.

Lemma quiet_close_run d s :
  exists s', quiet_close (d, s) = (Ok tt, (d, s')) /\ closed s' = true /\ tx s' = tx s.
Proof.
  unfold quiet_close, try_except, zoom. cbn.
  destruct (sock_close s) as [o s'] eqn:E. pose proof (sock_close_closed _ _ _ E) as Hc.
  assert (tx s' = tx s /\ (o = Ok tt \/ o = Raise EOSError)) as [Ht Ho].
  { unfold sock_close in E. destruct (closed s); [|destruct (close_fails s)];
      injection E as <- <-; auto. }
  exists s'. destruct Ho as [->| ->]; done.
Qed.

Lemma close_run d s :
  _closed d = false ->
  exists o d' s', close (d, s) = (o, (d', s')) /\ o <> OutOfFuel /\
    _closed d' = true /\ closed s' = true.
Proof.
  intros Hc. rewrite close_unfold, Hc. unfold try_finally.
  pose proof (same_closed_goodbye d (set_closed d, s)) as Hs.
  pose proof (goodbye_total d (set_closed d, s)) as Ht.
  destruct (goodbye d (set_closed d, s)) as [o [d1 s1]]. unfold same_closed in Hs. simpl in Hs.
  destruct (quiet_close_run d1 s1) as (s' & E & Hcl & _).
  destruct o as [[]|e|]; [| |done]; rewrite E; by eexists _, _, _.
Qed.

(** The two replies that [close] waits for, and its three messages. *)
Definition goodbye_replies (op : Z) (b0 b1 : bytes) : bytes :=
  aio_msg NFC_AIO_MSG_CLOSE_FILE op b0 ++ aio_msg NFC_AIO_MSG_CLOSE_SESSION (op + 1) b1.

Definition goodbye_requests (d : NfcDisk) : list bytes :=
  [aio_request NFC_AIO_MSG_CLOSE_FILE (_op_id d) (le_split 8 (handle d)) [];
   aio_request NFC_AIO_MSG_CLOSE_SESSION (_op_id d + 1) (le_split 4 0) [];
   nfc_frame NFC_MSG_SESSION_COMPLETE []].

(** A disk that can still say goodbye. *)
Definition can_close (d : NfcDisk) : Prop :=
  _closed d = false /\ fits64 (handle d) /\ fits32 (_op_id d) /\ fits32 (_op_id d + 1).

Lemma sess_goodbye d b0 b1 :
  can_close d -> fits32 (len b0) -> fits32 (len b1) ->
  sess (goodbye d) (set_closed d) (goodbye_replies (_op_id d) b0 b1) tt
    (set_op_id (_op_id d + 1 + 1) (set_op_id (_op_id d + 1) (set_closed d))) (goodbye_requests d).
Proof.
  intros (Hc & Hh & Hop & Hop1) H0 H1.
  unfold goodbye. eapply sess_bind; [by apply sess_lift, pack_Q| |by rewrite app_nil_l|done].
  eapply sess_bind; [by apply (sess_aio_roundtrip (set_closed d) NFC_AIO_MSG_CLOSE_FILE _ _ b0)
    | |done|done].
  eapply sess_bind; [by apply sess_lift, pack_I| |by rewrite app_nil_l|done].
  eapply sess_bind; [by apply (sess_aio_roundtrip (set_op_id (_op_id d + 1) (set_closed d))
    NFC_AIO_MSG_CLOSE_SESSION _ _ b1)| |by rewrite app_nil_r|done].
  by apply sess_sock, exch_send_nfc_msg.
Qed.

Lemma close_ok d s b0 b1 rest :
  can_close d -> fits32 (len b0) -> fits32 (len b1) -> healthy s ->
  flat (rx s) = (Some <$> goodbye_replies (_op_id d) b0 b1) ++ rest ->
  exists d' s', close (d, s) = (Ok tt, (d', s')) /\ tx s' = tx s ++ goodbye_requests d /\
    closed s' = true /\ _closed d' = true.
Proof.
  intros Hcc H0 H1 [Hs Hp] Hf.
  destruct (sess_goodbye d b0 b1 Hcc H0 H1 s rest Hs Hp Hf) as (s1 & E & T & _).
  destruct Hcc as [Hc _]. rewrite close_unfold, Hc. unfold try_finally. rewrite E.
  set (d' := set_op_id _ _). destruct (quiet_close_run d' s1) as (s' & E2 & Hcl & Ht).
  rewrite E2. exists d', s'. split; [done|]. split; [|done]. rewrite Ht. apply T.
Qed.

(** * Properties *)

(** C33: [close] always ends with the object marked closed and the socket
    closed, whatever the server answers and whatever exception the goodbye or
    [socket.close] itself raises; a second [close] does nothing at all. *)
Theorem close_releases d s :
  let '(o, (d', s')) := close (d, s) in
  o <> OutOfFuel /\
  (_closed d = true -> o = Ok tt /\ d' = d /\ s' = s) /\
  (_closed d = false -> _closed d' = true /\ closed s' = true /\
     close (d', s') = (Ok tt, (d', s'))).
Proof.
  destruct (_closed d) eqn:Hc.
  - rewrite close_unfold, Hc. done.
  - destruct (close_run d s Hc) as (o & d' & s' & -> & Ho & Hd & Hs).
    split; [done|]. split; [done|]. intros _. split; [done|]. split; [done|].
    by rewrite close_unfold, Hd.
Qed.

(** On a session that works, [close] sends CLOSE_FILE with the handle and
    CLOSE_SESSION under the next two op ids, each after the reply to the one
    before, then the classic SESSION_COMPLETE, and closes the socket. *)
Theorem close_says_goodbye d s b0 b1 rest :
  _closed d = false -> fits64 (handle d) -> fits32 (_op_id d) -> fits32 (_op_id d + 1) ->
  fits32 (len b0) -> fits32 (len b1) -> healthy s ->
  flat (rx s) = (Some <$> aio_msg NFC_AIO_MSG_CLOSE_FILE (_op_id d) b0 ++
    aio_msg NFC_AIO_MSG_CLOSE_SESSION (_op_id d + 1) b1) ++ rest ->
  exists d' s', close (d, s) = (Ok tt, (d', s')) /\
    tx s' = tx s ++
      [aio_request NFC_AIO_MSG_CLOSE_FILE (_op_id d) (le_split 8 (handle d)) [];
       aio_request NFC_AIO_MSG_CLOSE_SESSION (_op_id d + 1) (le_split 4 0) [];
       nfc_frame NFC_MSG_SESSION_COMPLETE []] /\
    closed s' = true.
Proof.
  intros Hc Hh Hop Hop1 H0 H1 Hs Hf.
  destruct (close_ok d s b0 b1 rest) as (d' & s' & E & T & Hcl & _); try done.
  by exists d', s'.
Qed.

(** [_aio_recv_reply] takes an AIO error message off the stream whole,
    header and body, before it raises: the next exchange starts at the next
    message. *)
Theorem error_reply_keeps_sync (d : NfcDisk) s op body rest :
  healthy s -> fits32 op -> fits32 (len body) ->
  flat (rx s) = (Some <$> aio_msg NFC_AIO_MSG_ERROR op body) ++ rest ->
  exists s', _aio_recv_reply (d, s) = (Raise ENfcProtocolError, (d, s')) /\ flat (rx s') = rest.
Proof.
  intros Hs Hop Hl Hf. unfold aio_msg in Hf. rewrite fmap_app, <- app_assoc in Hf.
  destruct (_recvn_ok NFC_AIO_HDR_SIZE _ _ s Hs ltac:(by rewrite len_aio_hdr) Hf)
    as (s1 & E1 & T1 & F1).
  pose proof (talk_healthy _ _ _ _ Hs T1) as [Hc Hp].
  destruct (sess_recv_body d body s1 rest Hc Hp F1) as (s2 & E2 & T2 & F2).
  exists s2. split; [|done]. unfold _aio_recv_reply.
  erewrite bind_ok by (apply zoom_run; exact E1).
  erewrite lift_bind by (by apply unpack_hdr_words). cbv beta iota.
  erewrite bind_ok by (by apply raise_when_false). erewrite bind_ok by exact E2. done.
Qed.

(** [_recvn] returns exactly the next [size] bytes of the peer's stream
    whenever the stream holds them, however it is cut into segments, takes
    nothing beyond them, and leaves the sending side alone; conversely what it
    returns always is that. *)
Theorem recvn_exact size s bs rest :
  closed s = false -> 0 <= size ->
  (exists s', _recvn size s = (Ok bs, s') /\ flat (rx s') = rest) <->
  (len bs = size /\ flat (rx s) = (Some <$> bs) ++ rest).
Proof.
  intros Hc Hn. split.
  - intros (s' & E & <-). apply _recvn_inv in E as [Hl T]; [|done]. split; [done|apply T].
  - intros [Hl Hf]. destruct (_recvn_spec size s Hc Hn) as (o & got & r & rx' & Hp & Hr & E).
    rewrite Hf, pull_all in Hp by zlia. simplify_eq. by eexists.
Qed.

(** On 16 bytes the AIO header codec is exact: [_unpack_aio_hdr] returns
    a type, a size and an op id exactly when the bytes are what
    [_pack_aio_hdr] makes of them and the type is not the error type. *)
Theorem aio_hdr_roundtrip h t size op :
  len h = NFC_AIO_HDR_SIZE ->
  _unpack_aio_hdr h = Ok (t, size, op) <->
  _pack_aio_hdr t size op = Ok h /\ t <> NFC_AIO_MSG_ERROR.
Proof.
  intros Hl. split.
  - intros (-> & Ht & Hs & Ho & Hne)%unpack_aio_hdr_inv; [|done].
    split; [by apply pack_aio_hdr_ok|done].
  - intros [(Ht & Hs & Ho & ->)%pack_aio_hdr_inv Hne]. by apply unpack_aio_hdr_ok.
Qed.

(** * Witnesses *)

Definition quit_disk : NfcDisk := init_disk (str "vm.vmdk") 7 512 NFC_COMPRESSION_NONE 65536 1.

Definition quit_sock (bs : bytes) : sock := Sock [RxData bs] [] [] false false.

Lemma close_says_goodbye_witness :
  exists d' s', close (quit_disk, quit_sock (aio_msg NFC_AIO_MSG_CLOSE_FILE 0 [] ++
      aio_msg NFC_AIO_MSG_CLOSE_SESSION 1 [])) = (Ok tt, (d', s')) /\
    tx s' = [aio_request NFC_AIO_MSG_CLOSE_FILE 0 (le_split 8 7) [];
       aio_request NFC_AIO_MSG_CLOSE_SESSION 1 (le_split 4 0) [];
       nfc_frame NFC_MSG_SESSION_COMPLETE []] /\ closed s' = true.
Proof.
  apply (close_says_goodbye quit_disk (quit_sock (aio_msg NFC_AIO_MSG_CLOSE_FILE 0 [] ++
    aio_msg NFC_AIO_MSG_CLOSE_SESSION 1 [])) [] [] []).
  - reflexivity.
  - vm_compute. split; by intros.
  - vm_compute. split; by intros.
  - vm_compute. split; by intros.
  - vm_compute. split; by intros.
  - vm_compute. split; by intros.
  - by split; [|constructor].
  - vm_compute. reflexivity.
Defined.

Lemma error_reply_keeps_sync_witness :
  exists s', _aio_recv_reply (quit_disk, quit_sock (aio_msg NFC_AIO_MSG_ERROR 0 [Byte.x05])) =
    (Raise ENfcProtocolError, (quit_disk, s')) /\ flat (rx s') = [].
Proof.
  apply (error_reply_keeps_sync quit_disk (quit_sock (aio_msg NFC_AIO_MSG_ERROR 0 [Byte.x05]))
    0 [Byte.x05] []).
  - by split; [|constructor].
  - vm_compute. split; by intros.
  - vm_compute. split; by intros.
  - vm_compute. reflexivity.
Defined.

Lemma recvn_exact_witness :
  len [Byte.x01; Byte.x02] = 2 /\
  flat (rx (Sock [RxData [Byte.x01]; RxData [Byte.x02; Byte.x03]] [] [] false false)) =
    (Some <$> [Byte.x01; Byte.x02]) ++ [Some Byte.x03].
Proof.
  apply (recvn_exact 2 (Sock [RxData [Byte.x01]; RxData [Byte.x02; Byte.x03]] [] [] false false)
    [Byte.x01; Byte.x02] [Some Byte.x03]).
  - reflexivity.
  - lia.
  - eexists. split; vm_compute; reflexivity.
Defined.

Lemma aio_hdr_roundtrip_witness :
  _pack_aio_hdr 7 44 3 = Ok (aio_hdr 7 44 3) /\ 7 <> NFC_AIO_MSG_ERROR.
Proof.
  apply (aio_hdr_roundtrip (aio_hdr 7 44 3) 7 44 3).
  - vm_compute. reflexivity.
  - vm_compute. reflexivity.
Defined.
