(* ===== verification/DiskRead.v ===== *)
(** [NfcDisk.readinto] and [NfcDisk.read] of [openvixdisklib/nfc_open.py].

    The store of [readinto] is the object, the caller's buffer and the socket,
    [NfcDisk * (bytes * sock)]: the buffer is filled in place, so it keeps what
    was received before an exception. *)
From Stdlib Require Import ZArith Lia String.
From stdpp Require Import base list numbers sets gmap.
From coqutil Require Import Byte Word.LittleEndianList.
Import LittleEndianList.
From S2P Require Import Prelude Python PyStr Socket Codec Wire Disk.

Record ReadFragment := mkReadFragment {
  frag_dest : Z;
  frag_uncompressed_length : Z;
  frag_compression_type : Z;
  frag_offset : Z;
  frag_length : Z
}.

Record ReadResult := mkReadResult {
  res_uncompressed_length : Z;
  res_compressed_length : Z;
  res_fragments : list ReadFragment
}.

(** [_writable_bytes(buf, length)]: the checks that give the view
    [buf[0 : length]]. *)
Definition _writable_bytes (readonly : bool) (buf : bytes) (length : Z) : outcome unit :=
  if readonly then Raise ETypeError
  else if len buf <? length then Raise ERuntimeError
  else Ok tt.

Definition _aio_extra_len (ctype : Z) (body : bytes) (chunk_len : Z) : outcome Z :=
  if ctype =? NFC_COMPRESSION_FASTLZ then
    extra_len ← unpack1 (struct_unpack_from "<I" body 36);
    if extra_len <? 1 then Raise ENfcProtocolError else Ok extra_len
  else if ctype =? NFC_COMPRESSION_NONE then Ok chunk_len
  else Raise ENfcProtocolError.

(** [data[a:b] = chunk] on a memoryview. *)
Definition mv_assign (a b : Z) (chunk : bytes) : M bytes unit :=
  raise_when (negb (len chunk =? b - a)) EValueError;;
  modify (splice a chunk).

(** The local variables of the receive loop. *)
Record rloop := mkLoop {
  filled : Z;
  wire_bytes : Z;
  packed_offset : Z;
  fragments : list ReadFragment;
  seen : gset Z
}.

Definition loop0 : rloop := mkLoop 0 0 0 [] ∅.

(** [try: chunk = fastlz.decompress(extra, chunk_len)
     except ValueError as exc: raise NfcProtocolError(...)] *)
Definition decompress_chunk {C : Codec} (extra : bytes) (chunk_len : Z) : outcome bytes :=
  match codec_decompress extra chunk_len with
  | Raise e => Raise (if is_valueerror e then ENfcProtocolError else e)
  | o => o
  end.

(** The extra of one reply: packed into the buffer, decompressed to its place,
    or received into its place.  Returns [packed_offset] and [fragments]. *)
Definition receive_extra {C : Codec} (length : Z) (skip_decompression : bool) (l : rloop)
    (dest chunk_len ctype extra_len : Z) : M (bytes * sock) (Z * list ReadFragment) :=
  if skip_decompression then
    let end_ := packed_offset l + extra_len in
    raise_when (length <? end_) ENfcProtocolError;;
    _recvn_into (packed_offset l) extra_len;;
    mret (end_, fragments l ++
      [mkReadFragment dest chunk_len ctype (packed_offset l) extra_len])
  else if ctype =? NFC_COMPRESSION_FASTLZ then
    extra ← zoom (_recvn extra_len);
    chunk ← lift (decompress_chunk extra chunk_len);
    raise_when (negb (len chunk =? chunk_len)) ENfcProtocolError;;
    zoom (mv_assign dest (dest + chunk_len) chunk);;
    mret (packed_offset l, fragments l)
  else if ctype =? NFC_COMPRESSION_NONE then
    _recvn_into dest chunk_len;;
    mret (packed_offset l, fragments l)
  else raise ENfcProtocolError.

(** One round of [while filled < length]. *)
Definition read_fragment {C : Codec} (length op_id : Z) (skip_decompression : bool)
    (l : rloop) : M (bytes * sock) rloop :=
  rhdr ← zoom (_recvn NFC_AIO_HDR_SIZE);
  '(rtype, rsize, rop) ← lift (_unpack_aio_hdr rhdr);
  raise_when (negb (rtype =? NFC_AIO_MSG_IO) || negb (rop =? op_id)) ENfcProtocolError;;
  body ← zoom (_recvn rsize);
  raise_when (rsize <? 36) ENfcProtocolError;;
  opcode ← lift (unpack1 (struct_unpack_from "<Q" body 8));
  '(dest, chunk_len) ← lift (unpack2 (struct_unpack_from "<II" body 28));
  raise_when (bool_decide (dest ∈ seen l) || (chunk_len =? 0) || (length <? dest + chunk_len))
    ENfcProtocolError;;
  let ctype := Z.shiftr opcode 32 in
  extra_len ← lift (_aio_extra_len ctype body chunk_len);
  '(packed_offset', fragments') ←
    receive_extra length skip_decompression l dest chunk_len ctype extra_len;
  mret (mkLoop (filled l + chunk_len) (wire_bytes l + extra_len) packed_offset' fragments'
          ({[dest]} ∪ seen l)).

(** [while filled < length: ...]; every round adds at least one byte to
    [filled], so fuel [length] is enough. *)
Fixpoint read_loop {C : Codec} (fuel : nat) (length op_id : Z) (skip_decompression : bool)
    (l : rloop) : M (bytes * sock) rloop :=
  if filled l <? length then
    match fuel with
    | O => out_of_fuel
    | S fuel' =>
        l' ← read_fragment length op_id skip_decompression l;
        read_loop fuel' length op_id skip_decompression l'
    end
  else mret l.

Definition readinto {C : Codec} (start_sector num_sectors : Z) (readonly : bool)
    (skip_decompression : bool) : M (NfcDisk * (bytes * sock)) ReadResult :=
  raise_when (num_sectors <? 1) EValueError;;
  d ← gets fst;
  let length := num_sectors * sector_size d in
  buf ← gets (fun st => fst (snd st));
  lift (_writable_bytes readonly buf length);;
  let offset := start_sector * sector_size d in
  let opcode := Z.lor NFC_AIO_IO_READ (Z.shiftl (compression d) 32) in
  payload ← lift (struct_pack "<QQQQIII" [handle d; opcode; offset; length; length; length; 0]);
  op_id ← zoom _next_op_id;
  hdr ← lift (_pack_aio_hdr NFC_AIO_MSG_IO (len payload) op_id);
  zoom (sendall (hdr ++ payload));;
  l ← zoom (read_loop (Z.to_nat length) length op_id skip_decompression loop0);
  mret (mkReadResult length (wire_bytes l) (if skip_decompression then fragments l else [])).

(** Run [readinto] on a fresh [bytearray] of the caller. *)
Definition with_buffer {A} (buf : bytes) (m : M (NfcDisk * (bytes * sock)) A) :
    M (NfcDisk * sock) (A * bytes) := fun st =>
  let '(o, (d, (b, s))) := m (fst st, (buf, snd st)) in ((fun a => (a, b)) <$> o, (d, s)).

Definition read {C : Codec} (start_sector num_sectors : Z) : M (NfcDisk * sock) bytes :=
  raise_when (num_sectors <? 1) EValueError;;
  d ← gets fst;
  r ← with_buffer (zeros (num_sectors * sector_size d))
        (readinto start_sector num_sectors false false);
  mret (snd r).
