(* ===== verification/Frames.v ===== *)
(** What a function does to its socket, for a relation [Q] on sockets that
    receiving cannot break ([RxBlind]): functions that only receive are in
    [Q], whatever data they hold beside the socket. *)
From Stdlib Require Import ZArith Lia String.
From stdpp Require Import base list numbers sets gmap.
From coqutil Require Import Byte.
From S2P Require Import Prelude Python PyStr Socket Codec Wire Disk DiskRead.

(** The relation on the socket of a store with other data beside it. *)
Definition on_snd {D S} (Q : relation S) : relation (D * S) := fun st st' => Q (snd st) (snd st').

#[export] Instance on_snd_preorder {D S} (Q : relation S) {P : PreOrder Q} :
  PreOrder (on_snd (D := D) Q).
Proof.
  split; [intros []; unfold on_snd; reflexivity|].
  intros ??? H1 H2. unfold on_snd in *. by etrans.
Qed.

Class RxBlind (Q : relation sock) : Prop := rx_blind s r : Q s (set_rx r s).

Section Frames.
Context {Q : relation sock} {P : PreOrder Q}.

#[export] Instance frame_snd_zoom {D A} (m : M sock A) :
  Frame Q m -> Frame (on_snd Q) (zoom m : M (D * sock) A).
Proof. intros Hm [d s]. specialize (Hm s). unfold zoom, on_snd. cbn. by destruct (m s). Qed.

#[export] Instance frame_snd_data {D A} (m : M D A) : Frame (on_snd Q) (zoom m : M (D * sock) A).
Proof. intros [d s]. unfold zoom, on_snd. cbn. by destruct (m d). Qed.

#[export] Instance frame_snd_local {D A} (d : D) (m : M (D * sock) A) :
  Frame (on_snd Q) m -> Frame Q (with_local d m).
Proof. intros Hm s. specialize (Hm (d, s)). unfold with_local. by destruct (m (d, s)) as [o [d' s']]. Qed.

(** [o] is known in what follows a statement [x = o]. *)
Lemma frame_lift_bind {S A B} (R : relation S) {PR : PreOrder R} (o : outcome A) (k : A -> M S B) :
  (forall a, o = Ok a -> Frame R (k a)) -> Frame R (lift o ≫= k).
Proof.
  intros H s. destruct o as [a|e|].
  - rewrite (bind_ok _ _ _ a s) by done. by apply H.
  - rewrite (bind_raise _ _ _ e s) by done. cbn [snd]. reflexivity.
  - unfold mbind, M_bind, lift. reflexivity.
Qed.

Context {B : RxBlind Q}.

#[export] Instance frame_recv n : Frame Q (recv n).
Proof.
  intros s. unfold recv. destruct (closed s); [cbn; reflexivity|].
  destruct (rx_take _ _). apply rx_blind.
Qed.

#[export] Instance frame_recvn_loop fuel base n filled :
  Frame (on_snd Q) (recvn_loop fuel base n filled).
Proof.
  revert filled. induction fuel as [|fuel IH]; intros filled; cbn [recvn_loop]; frames.
Qed.

#[export] Instance frame_recvn_into base n : Frame (on_snd Q) (_recvn_into base n).
Proof. unfold _recvn_into. apply _. Qed.

#[export] Instance frame_recvn n : Frame Q (_recvn n).
Proof. unfold _recvn. apply _. Qed.

#[export] Instance frame_recv_nfc_msg : Frame Q _recv_nfc_msg.
Proof. unfold _recv_nfc_msg. frames. Qed.

#[export] Instance frame_aio_recv_reply : Frame (on_snd Q) _aio_recv_reply.
Proof. unfold _aio_recv_reply. frames. Qed.

Section Reading.
Context {C : Codec}.

#[export] Instance frame_receive_extra length skip l dest chunk_len ctype extra_len :
  Frame (on_snd Q) (receive_extra length skip l dest chunk_len ctype extra_len).
Proof. unfold receive_extra. frames. Qed.

#[export] Instance frame_read_fragment length op_id skip l :
  Frame (on_snd Q) (read_fragment length op_id skip l).
Proof. unfold read_fragment. frames. Qed.

#[export] Instance frame_read_loop fuel length op_id skip l :
  Frame (on_snd Q) (read_loop fuel length op_id skip l).
Proof. revert l. induction fuel as [|fuel IH]; intros l; cbn [read_loop]; frames. Qed.
End Reading.
End Frames.
