(* ===== verification/ReadSpec.v ===== *)
(** What [readinto] does to a stream of replies, as a step relation.

    A [reply] is one server fragment: the AIO body and the extra that follows
    it, with the fields of [docs/nfc_read.md] at their offsets.  [run_replies]
    processes replies one by one: [reply_ok] is the condition under which the
    client accepts a reply, [advance] and [place] its effect on the local
    variables and on the buffer.  The lemmas show that the receive loop
    returns exactly when the stream is a sequence of accepted replies. *)
From Stdlib Require Import ZArith Lia String.
From stdpp Require Import base list numbers sets gmap.
From coqutil Require Import Byte Word.LittleEndianList.
Import LittleEndianList.
From S2P Require Import Prelude Python PyStr Socket Codec Wire Disk DiskRead.

Record reply := mkReply { rp_body : bytes; rp_extra : bytes }.

Definition rp_dest (r : reply) : Z := u32_at 28 (rp_body r).
Definition rp_chunk_len (r : reply) : Z := u32_at 32 (rp_body r).
Definition rp_ctype (r : reply) : Z := Z.shiftr (u64_at 8 (rp_body r)) 32.

(** The reply on the wire. *)
Definition reply_bytes (op_id : Z) (r : reply) : bytes :=
  aio_msg NFC_AIO_MSG_IO op_id (rp_body r) ++ rp_extra r.

Section Spec.
Context {C : Codec}.

(** The sector bytes a reply carries. *)
Definition rp_plain (r : reply) : option bytes :=
  if rp_ctype r =? NFC_COMPRESSION_FASTLZ then
    match codec_decompress (rp_extra r) (rp_chunk_len r) with
    | Ok c => if len c =? rp_chunk_len r then Some c else None
    | _ => None
    end
  else Some (rp_extra r).

Record reply_ok (length : Z) (skip : bool) (l : rloop) (r : reply) : Prop := {
  ok_body : 36 <= len (rp_body r) < 2 ^ 32;
  ok_unseen : rp_dest r ∉ seen l;
  ok_nonempty : rp_chunk_len r <> 0;
  ok_inside : rp_dest r + rp_chunk_len r <= length;
  ok_extra : _aio_extra_len (rp_ctype r) (rp_body r) (rp_chunk_len r) = Ok (len (rp_extra r));
  ok_data : if skip then packed_offset l + len (rp_extra r) <= length
            else is_Some (rp_plain r)
}.

Definition advance (skip : bool) (l : rloop) (r : reply) : rloop :=
  mkLoop (filled l + rp_chunk_len r) (wire_bytes l + len (rp_extra r))
    (if skip then packed_offset l + len (rp_extra r) else packed_offset l)
    (if skip then fragments l ++ [mkReadFragment (rp_dest r) (rp_chunk_len r) (rp_ctype r)
       (packed_offset l) (len (rp_extra r))] else fragments l)
    ({[rp_dest r]} ∪ seen l).

Definition place (skip : bool) (l : rloop) (r : reply) (buf : bytes) : bytes :=
  if skip then splice (packed_offset l) (rp_extra r) buf
  else splice (rp_dest r) (default [] (rp_plain r)) buf.

Inductive run_replies (length : Z) (skip : bool) :
    rloop -> bytes -> list reply -> rloop -> bytes -> Prop :=
  | run_done l buf : length <= filled l -> run_replies length skip l buf [] l buf
  | run_step l buf r rs l' buf' :
      filled l < length -> reply_ok length skip l r ->
      run_replies length skip (advance skip l r) (place skip l r buf) rs l' buf' ->
      run_replies length skip l buf (r :: rs) l' buf'.

(** * Lemmas on one reply *)

Lemma aio_extra_len_cases ctype body chunk n :
  _aio_extra_len ctype body chunk = Ok n ->
  (ctype = NFC_COMPRESSION_FASTLZ /\ 40 <= len body /\ n = u32_at 36 body /\ 1 <= n) \/
  (ctype = NFC_COMPRESSION_NONE /\ n = chunk).
Proof.
  unfold _aio_extra_len. destruct (Z.eqb_spec ctype NFC_COMPRESSION_FASTLZ) as [->|].
  - destruct (Z_lt_le_dec (len body) 40) as [Hl|Hl].
    + rewrite unpack_short by (unfold calcsize; simpl; lia). done.
    + rewrite unpack_I by lia. simpl. destruct (Z.ltb_spec (u32_at 36 body) 1); [done|].
      intros [= <-]. left. lia.
  - destruct (Z.eqb_spec ctype NFC_COMPRESSION_NONE); [|done]. intros [= <-]. by right.
Qed.

Lemma reply_fields r :
  36 <= len (rp_body r) ->
  0 <= rp_dest r < 2 ^ 32 /\ 0 <= rp_chunk_len r < 2 ^ 32.
Proof. intros. split; apply u32_at_bound; lia. Qed.

Lemma rp_plain_len length skip l r c :
  reply_ok length skip l r -> rp_plain r = Some c -> len c = rp_chunk_len r.
Proof.
  intros [_ _ _ _ He _]. unfold rp_plain.
  apply aio_extra_len_cases in He as [(Ht & _)|(Ht & He)]; rewrite Ht; simpl.
  - destruct (codec_decompress _ _) as [c'| |]; [|done..].
    destruct (Z.eqb_spec (len c') (rp_chunk_len r)); [|done]. by intros [= <-].
  - by intros [= <-].
Qed.

Lemma reply_extra_nonneg length skip l r :
  reply_ok length skip l r -> 0 <= len (rp_extra r) < 2 ^ 32.
Proof.
  intros [Hb _ _ _ He _]. pose proof (reply_fields r ltac:(lia)) as [_ ?].
  split; [apply len_nonneg|].
  apply aio_extra_len_cases in He as [(_ & ? & -> & _)|(_ & ->)]; [|lia].
  apply u32_at_bound; lia.
Qed.

Lemma decompress_chunk_ok extra n c :
  decompress_chunk extra n = Ok c <-> codec_decompress extra n = Ok c.
Proof. unfold decompress_chunk. by destruct (codec_decompress extra n). Qed.

Lemma unpack_opcode body :
  36 <= len body ->
  unpack1 (struct_unpack_from "<Q" body 8) = Ok (u64_at 8 body) /\
  unpack2 (struct_unpack_from "<II" body 28) = Ok (u32_at 28 body, u32_at 32 body).
Proof. intros. rewrite unpack_Q, unpack_II by lia. done. Qed.

Lemma sess_recvn_into base n bs (buf : bytes) :
  0 <= base -> base + n <= len buf -> n = len bs ->
  sess (_recvn_into base n) buf bs tt (splice base bs buf) [].
Proof. intros ??? s r Hc Hp Hf. by apply _recvn_into_ok. Qed.

Lemma sess_receive_extra length skip l r (buf : bytes) :
  reply_ok length skip l r -> 0 <= packed_offset l -> length <= len buf ->
  sess (receive_extra length skip l (rp_dest r) (rp_chunk_len r) (rp_ctype r) (len (rp_extra r)))
    buf (rp_extra r)
    (packed_offset (advance skip l r), fragments (advance skip l r))
    (place skip l r buf) [].
Proof.
  intros Hok Hp Hl. pose proof Hok as [Hb _ _ Hin He Hd].
  pose proof (reply_fields r ltac:(lia)) as [Hd0 Hc0].
  unfold receive_extra, place. destruct skip.
  { eapply sess_bind; [apply sess_guard; lia| |done..].
    eapply sess_bind; [by apply sess_recvn_into with (bs := rp_extra r); lia|apply sess_ret| |done].
    by rewrite app_nil_r. }
  destruct Hd as [c Hc]. pose proof (rp_plain_len _ _ _ _ _ Hok Hc) as Hlen.
  unfold rp_plain in *.
  apply aio_extra_len_cases in He as [(Ht & He)|(Ht & He)]; rewrite Ht in *; simpl in *.
  - destruct (codec_decompress (rp_extra r) (rp_chunk_len r)) as [c'| |] eqn:Ed; [|done..].
    destruct (Z.eqb_spec (len c') (rp_chunk_len r)) as [E|]; simplify_eq.
    eapply sess_bind; [by apply sess_sock, exch_recvn| |by rewrite app_nil_r|done].
    eapply sess_bind; [by apply sess_lift, decompress_chunk_ok| |done..].
    eapply sess_bind; [apply sess_guard; by rewrite E, Z.eqb_refl| |done..].
    eapply sess_bind; [apply sess_obj|apply sess_ret|done..].
    unfold mv_assign. erewrite bind_ok; [done|]. apply raise_when_false.
    rewrite E. replace (_ =? _) with true; [done|]. symmetry. apply Z.eqb_eq. lia.
  - eapply sess_bind; [apply sess_recvn_into with (bs := rp_extra r); lia|apply sess_ret| |done].
    by rewrite app_nil_r.
Qed.

Lemma sess_read_fragment length op skip l r (buf : bytes) :
  reply_ok length skip l r -> fits32 op -> 0 <= packed_offset l -> length <= len buf ->
  sess (read_fragment length op skip l) buf (reply_bytes op r) (advance skip l r)
    (place skip l r buf) [].
Proof.
  intros Hok Hop Hp Hl. pose proof Hok as [Hb Hu Hn Hin He Hd].
  unfold read_fragment, reply_bytes, aio_msg. rewrite <- app_assoc.
  eapply sess_bind; [apply sess_sock, exch_recv_hdr| |done..].
  eapply sess_bind; [apply sess_lift; apply unpack_aio_hdr_ok; [done|unfold fits32; lia|done|done]| |done..].
  cbv beta iota. eapply sess_bind; [apply sess_guard; by rewrite !Z.eqb_refl| |done..].
  eapply sess_bind; [by apply sess_sock, exch_recvn| |done..].
  eapply sess_bind; [apply sess_guard; lia| |done..].
  destruct (unpack_opcode (rp_body r)) as [Ho Hf]; [lia|].
  eapply sess_bind; [by apply sess_lift| |done..].
  eapply sess_bind; [by apply sess_lift| |done..]. cbv beta iota.
  eapply sess_bind; [apply sess_guard| |done..].
  { rewrite bool_decide_false by done. rewrite (proj2 (Z.eqb_neq _ _)) by done.
    apply Z.ltb_ge. done. }
  eapply sess_bind; [by apply sess_lift| |done..].
  eapply sess_bind; [by apply sess_receive_extra|apply sess_ret|by rewrite app_nil_r|done].
Qed.

(** * Lemmas: only accepted replies get through *)

Lemma unpack_opcode_inv body opcode dest chunk :
  36 <= len body ->
  unpack1 (struct_unpack_from "<Q" body 8) = Ok opcode ->
  unpack2 (struct_unpack_from "<II" body 28) = Ok (dest, chunk) ->
  opcode = u64_at 8 body /\ dest = u32_at 28 body /\ chunk = u32_at 32 body.
Proof. intros Hl. destruct (unpack_opcode body Hl) as [-> ->]. by intros [= <-] [= <- <-]. Qed.

Lemma receive_extra_inv length skip l dest chunk ctype extra_len buf s p f buf' s' :
  receive_extra length skip l dest chunk ctype extra_len (buf, s) = (Ok (p, f), (buf', s')) ->
  0 <= packed_offset l -> 0 <= dest -> 0 <= chunk -> 0 <= extra_len ->
  dest + chunk <= length -> length <= len buf ->
  (ctype = NFC_COMPRESSION_NONE -> extra_len = chunk) ->
  exists extra, len extra = extra_len /\ talk extra [] s s' /\
    if skip then
      packed_offset l + extra_len <= length /\ p = packed_offset l + extra_len /\
      f = fragments l ++ [mkReadFragment dest chunk ctype (packed_offset l) extra_len] /\
      buf' = splice (packed_offset l) extra buf
    else
      p = packed_offset l /\ f = fragments l /\
      exists c, buf' = splice dest c buf /\
        if ctype =? NFC_COMPRESSION_FASTLZ
        then codec_decompress extra chunk = Ok c /\ len c = chunk else c = extra.
Proof.
  intros H Hp Hd Hc He Hin Hl Hn. unfold receive_extra in H. destruct skip.
  { minv. match goal with H : _recvn_into _ _ _ = _ |- _ =>
      apply _recvn_into_inv in H as (bs & ? & ? & ?); [|lia..] end.
    simplify_eq. exists bs. split_and!; done || lia. }
  destruct (ctype =? NFC_COMPRESSION_FASTLZ).
  - unfold mv_assign in H. minv. simplify_eq/=. unfold modify in *. simplify_eq/=.
    match goal with H : _recvn _ _ = _ |- _ =>
      apply _recvn_inv in H as [? ?]; [|lia] end.
    match goal with H : decompress_chunk _ _ = _ |- _ =>
      apply (proj1 (decompress_chunk_ok _ _ _)) in H end.
    eexists. split; [done|]. split; [done|]. split; [done|]. split; [done|].
    eexists. split; [done|]. split; [done|]. lia.
  - destruct (Z.eqb_spec ctype NFC_COMPRESSION_NONE) as [->|]; minv.
    match goal with H : _recvn_into _ _ _ = _ |- _ =>
      apply _recvn_into_inv in H as (bs & ? & ? & ?); [|lia..] end.
    simplify_eq. rewrite Hn by done. exists bs. naive_solver.
Qed.

Lemma read_fragment_inv length op skip l buf s l' buf' s' :
  read_fragment length op skip l (buf, s) = (Ok l', (buf', s')) ->
  0 <= packed_offset l -> length <= len buf ->
  exists r, reply_ok length skip l r /\ l' = advance skip l r /\ buf' = place skip l r buf /\
    talk (reply_bytes op r) [] s s'.
Proof.
  intros H Hp Hl. unfold read_fragment in H. minv. simplify_eq/=.
  match goal with H : _recvn NFC_AIO_HDR_SIZE _ = _ |- _ =>
    apply _recvn_inv in H as [Hh T1]; [|done] end.
  match goal with H : _unpack_aio_hdr ?h = Ok (?t, ?size, ?rop) |- _ =>
    apply unpack_aio_hdr_inv in H as (-> & _ & Hs & _); [|done];
    assert (t = NFC_AIO_MSG_IO /\ rop = op) as [-> ->] by lia;
    rename size into n end.
  match goal with H : _recvn n _ = (Ok ?b, _) |- _ =>
    apply _recvn_inv in H as [Hb T2]; [|apply Hs]; rename b into body end.
  assert (36 <= len body) as H36 by lia.
  match goal with H1 : unpack1 _ = _, H2 : unpack2 _ = _ |- _ =>
    destruct (unpack_opcode_inv _ _ _ _ H36 H1 H2) as (-> & -> & ->) end.
  match goal with H : _ || _ || _ = false |- _ =>
    apply orb_false_iff in H as [[Hu%bool_decide_eq_false Hn]%orb_false_iff Hin] end.
  pose proof (u32_at_bound 28 body ltac:(lia) ltac:(lia)).
  pose proof (u32_at_bound 32 body ltac:(lia) ltac:(lia)).
  match goal with H : _aio_extra_len _ _ _ = Ok ?e |- _ =>
    rename H into He, e into extra_len; pose proof (aio_extra_len_cases _ _ _ _ He) as Hec end.
  assert (0 <= extra_len /\ (Z.shiftr (u64_at 8 body) 32 = NFC_COMPRESSION_NONE ->
    extra_len = u32_at 32 body)) as [He0 Hnone].
  { destruct Hec as [(Ht & _ & _ & ?)|[_ ->]]; [|lia].
    split; [lia|]. by rewrite Ht. }
  match goal with H : receive_extra _ _ _ _ _ _ _ _ = (_, (_, ?t)) |- _ =>
    rename t into s'; apply receive_extra_inv in H as (extra & <- & T3 & Hx);
      [|first [done|lia]..] end.
  exists (mkReply body extra).
  assert (talk (reply_bytes op (mkReply body extra)) [] s s') as T.
  { unfold reply_bytes, aio_msg. cbn [rp_body rp_extra]. rewrite Hb, <- app_assoc.
    eapply (talk_trans _ _ [] []); [done|]. by eapply (talk_trans _ _ [] []). }
  unfold advance, place, rp_plain, rp_dest, rp_chunk_len, rp_ctype. cbn [rp_body rp_extra].
  unfold fits32 in Hs. destruct skip.
  - destruct Hx as (? & -> & -> & ->). split_and!; [|reflexivity|reflexivity|exact T].
    split; unfold rp_plain, rp_dest, rp_chunk_len, rp_ctype; cbn [rp_body rp_extra];
      first [assumption|lia].
  - destruct Hx as (-> & -> & c & -> & Hc).
    assert (rp_plain (mkReply body extra) = Some c) as Hpl.
    { unfold rp_plain, rp_ctype, rp_chunk_len. cbn [rp_body rp_extra]. revert Hc.
      destruct (_ =? NFC_COMPRESSION_FASTLZ); [|by intros ->].
      intros [-> Hc]. by rewrite Hc, Z.eqb_refl. }
    unfold rp_plain, rp_ctype, rp_chunk_len in Hpl. cbn [rp_body rp_extra] in Hpl. rewrite Hpl.
    split_and!; [|reflexivity|reflexivity|exact T].
    split; unfold rp_plain, rp_dest, rp_chunk_len, rp_ctype; cbn [rp_body rp_extra];
      first [assumption|lia|by rewrite Hpl; exists c].
Qed.
End Spec.
