(* ===== verification/ReadLoop.v ===== *)
(** The receive loop of [NfcDisk.readinto] against [run_replies].

    The loop returns exactly when the stream is a sequence of accepted
    replies, it always terminates, it never writes outside
    [buf[0 : length]], and [readinto] inherits this.  The properties are in
    [ReadCorrect]. *)
From Stdlib Require Import ZArith Lia String.
From stdpp Require Import base list numbers sets gmap.
From coqutil Require Import Byte Word.LittleEndianList.
Import LittleEndianList.
From S2P Require Import Prelude Python PyStr Socket Codec Wire Disk DiskRead ReadSpec.

(** The whole stream of replies to one request. *)
Definition replies_bytes (op_id : Z) (rs : list reply) : bytes :=
  rs ≫= reply_bytes op_id.

(** What the loop variables and the buffer keep: nothing beyond
    [buf[0 : length]] is touched. *)
Definition buf_safe (length : Z) : relation bytes := fun b1 b2 =>
  len b1 = len b2 /\ drop (Z.to_nat length) b1 = drop (Z.to_nat length) b2.

(** The request [readinto] sends. *)
Definition read_payload (d : NfcDisk) (start_sector num_sectors : Z) : bytes :=
  let length := num_sectors * sector_size d in
  fields [CodeQ; CodeQ; CodeQ; CodeQ; CodeI; CodeI; CodeI]
    [handle d; Z.lor NFC_AIO_IO_READ (Z.shiftl (compression d) 32);
     start_sector * sector_size d; length; length; length; 0].

Definition read_request (d : NfcDisk) (start_sector num_sectors : Z) : bytes :=
  aio_hdr NFC_AIO_MSG_IO 44 (_op_id d) ++ read_payload d start_sector num_sectors.

(** The ranges [struct.pack] checks before a read request is sent. *)
Definition read_ranges (d : NfcDisk) (start_sector num_sectors : Z) : Prop :=
  fits64 (handle d) /\ fits32 (compression d) /\ fits64 (start_sector * sector_size d) /\
  fits32 (num_sectors * sector_size d) /\ fits32 (_op_id d).

#[export] Instance buf_safe_preorder L : PreOrder (buf_safe L).
Proof. split; [done|]. intros ??? [??] [??]. split; congruence. Qed.

Lemma drop_splice L a k (l : bytes) :
  0 <= a -> a + len k <= L -> L <= len l -> drop (Z.to_nat L) (splice a k l) = drop (Z.to_nat L) l.
Proof.
  intros. pose proof (len_nonneg k). apply list_eq. intros i. rewrite !lookup_drop.
  apply lookup_splice_out; [lia..|zlia].
Qed.

Lemma splice_safe L a k (l : bytes) :
  0 <= a -> a + len k <= L -> L <= len l -> buf_safe L l (splice a k l).
Proof. intros. split; [by rewrite len_splice by lia|by rewrite drop_splice]. Qed.

Section Loop.
Context {C : Codec}.

(** * Accepted replies keep the buffer and advance the loop *)

Lemma place_safe length skip l r (buf : bytes) :
  reply_ok length skip l r -> 0 <= packed_offset l -> length <= len buf ->
  buf_safe length buf (place skip l r buf).
Proof.
  intros Hok Hp Hl. pose proof Hok as [Hb _ _ Hin He Hd]. pose proof (reply_fields r ltac:(lia)).
  unfold place. destruct skip; [by apply splice_safe|].
  destruct Hd as [c Hc]. rewrite Hc. pose proof (rp_plain_len _ _ _ _ _ Hok Hc).
  apply splice_safe; simpl; [lia..|done].
Qed.

Lemma advance_packed skip l r :
  0 <= packed_offset l -> 0 <= packed_offset (advance skip l r).
Proof. intros. pose proof (len_nonneg (rp_extra r)). destruct skip; simpl; lia. Qed.

Lemma chunk_pos length skip l r : reply_ok length skip l r -> 1 <= rp_chunk_len r.
Proof. intros [Hb _ Hn _ _ _]. pose proof (reply_fields r ltac:(lia)). lia. Qed.

Lemma read_loop_ok length op skip l buf rs l' buf' fuel :
  run_replies length skip l buf rs l' buf' ->
  fits32 op -> 0 <= packed_offset l -> length <= len buf ->
  length - filled l <= Z.of_nat fuel ->
  sess (read_loop fuel length op skip l) buf (replies_bytes op rs) l' buf' [].
Proof.
  intros H Hop. revert fuel. induction H as [l buf Hd|l buf r rs l' buf' Hf Hok _ IH];
    intros fuel Hp Hl Hfuel.
  { destruct fuel; cbn [read_loop]; rewrite (proj2 (Z.ltb_ge _ _)) by done; apply sess_ret. }
  pose proof (chunk_pos _ _ _ _ Hok).
  destruct fuel as [|fuel]; [lia|]. cbn [read_loop]. rewrite (proj2 (Z.ltb_lt _ _)) by done.
  eapply sess_bind; [by apply sess_read_fragment| |done..].
  apply IH; [by apply advance_packed| |simpl; lia].
  destruct (place_safe _ _ _ _ _ Hok Hp Hl) as [<- _]. done.
Qed.

Lemma read_loop_inv length op skip fuel l buf s l' buf' s' :
  read_loop fuel length op skip l (buf, s) = (Ok l', (buf', s')) ->
  0 <= packed_offset l -> length <= len buf ->
  exists rs, run_replies length skip l buf rs l' buf' /\ talk (replies_bytes op rs) [] s s'.
Proof.
  revert l buf s. induction fuel as [|fuel IH]; intros l buf s H Hp Hl; cbn [read_loop] in H;
    destruct (Z.ltb_spec (filled l) length); try done.
  1, 3: unfold mret, M_ret in H; simplify_eq; exists []; split; [by constructor|apply talk_refl].
  apply bind_inv_ok in H as (l1 & [buf1 s1] & H1 & H).
  apply read_fragment_inv in H1 as (r & Hok & -> & -> & T1); [|done..].
  apply IH in H as (rs & Hr & T2); [|by apply advance_packed|].
  - exists (r :: rs). split; [by econstructor|]. by eapply (talk_trans _ _ [] []).
  - destruct (place_safe _ _ _ _ _ Hok Hp Hl) as [<- _]. done.
Qed.

(** * Nothing outside [buf[0 : length]] is written, on any outcome *)

Definition st_safe (length : Z) : relation (bytes * sock) := fun st1 st2 =>
  buf_safe length (fst st1) (fst st2).

#[export] Instance st_safe_preorder L : PreOrder (st_safe L).
Proof. split; [intros ?; unfold st_safe; reflexivity|]. intros ??? H1 H2. unfold st_safe in *. by etrans. Qed.

Lemma recvn_into_safe L base n (buf : bytes) s :
  0 <= base -> base + n <= L -> L <= len buf ->
  st_safe L (buf, s) (snd (_recvn_into base n (buf, s))).
Proof.
  intros Hb Hn Hl. unfold st_safe. destruct (Z.ltb_spec n 0).
  { unfold _recvn_into. rewrite Z2Nat.nonpos by lia. cbn [recvn_loop].
    by rewrite (proj2 (Z.ltb_ge _ _)) by lia. }
  destruct (closed s) eqn:Hc.
  { unfold _recvn_into. rewrite recvn_loop_closed by done.
    by destruct (Z.ltb_spec 0 n), (Z.to_nat n). }
  destruct (_recvn_into_spec base n buf s Hc) as (o&got&r&rx'&Hp&_&->); [lia..|].
  apply pull_len in Hp. apply splice_safe; [lia|zlia|done].
Qed.

Lemma zoom_sock_safe L {A} (m : M sock A) st : st_safe L st (snd (zoom m st)).
Proof. unfold zoom, st_safe. destruct st as [b s]. cbn. by destruct (m s). Qed.

Lemma lift_safe L {A} (o : outcome A) st : st_safe L st (snd (lift o st)).
Proof. done. Qed.

Lemma guard_safe L b e st : st_safe L st (snd (raise_when b e st)).
Proof. by destruct b. Qed.

#[local] Hint Resolve zoom_sock_safe lift_safe guard_safe : core.

Lemma receive_extra_safe length skip l dest chunk ctype extra_len buf s :
  0 <= packed_offset l -> 0 <= dest -> 0 <= chunk -> dest + chunk <= length ->
  length <= len buf ->
  st_safe length (buf, s)
    (snd (receive_extra length skip l dest chunk ctype extra_len (buf, s))).
Proof.
  intros Hp Hd Hc Hin Hl. unfold receive_extra. destruct skip.
  { apply frame_bind_val; [done|]. intros [] st [Hb ->]%raise_when_inv_ok.
    apply frame_bind_val; [apply recvn_into_safe; lia|]. done. }
  destruct (_ =? NFC_COMPRESSION_FASTLZ).
  - apply frame_bind_val; [done|]. intros extra [b1 s1] (s2 & _ & E)%zoom_inv.
    cbn in E. simplify_eq.
    apply frame_bind_val; [done|]. intros chunk' st [_ ->]%lift_inv_ok.
    apply frame_bind_val; [done|]. intros [] st [Hb ->]%raise_when_inv_ok.
    apply frame_bind_val; [|done]. unfold zoom, mv_assign, st_safe. cbn.
    destruct (Z.eqb_spec (len chunk') (dest + chunk - dest)) as [E|]; [|done]. cbn.
    apply splice_safe; lia.
  - destruct (_ =? NFC_COMPRESSION_NONE); [|done].
    apply frame_bind_val; [apply recvn_into_safe; lia|done].
Qed.

Lemma read_fragment_safe length op skip l buf s :
  0 <= packed_offset l -> length <= len buf ->
  st_safe length (buf, s) (snd (read_fragment length op skip l (buf, s))).
Proof.
  intros Hp Hl. unfold read_fragment.
  apply frame_bind_val; [done|]. intros h [b1 s1] (s2 & _ & E)%zoom_inv. cbn in E. simplify_eq.
  apply frame_bind_val; [done|]. intros [[t n] rop] st [Hh ->]%lift_inv_ok.
  apply frame_bind_val; [done|]. intros [] st [_ ->]%raise_when_inv_ok.
  apply frame_bind_val; [done|]. intros body [b1 s1] (s3 & Hb & E)%zoom_inv.
  cbn in E. simplify_eq.
  apply frame_bind_val; [done|]. intros [] st [H36 ->]%raise_when_inv_ok.
  apply frame_bind_val; [done|]. intros opcode st [Ho ->]%lift_inv_ok.
  apply frame_bind_val; [done|]. intros [dest chunk] st [Hd ->]%lift_inv_ok.
  apply frame_bind_val; [done|]. intros [] st [Hg ->]%raise_when_inv_ok.
  apply frame_bind_val; [done|]. intros extra_len st [He ->]%lift_inv_ok.
  apply frame_bind_val; [|by intros []].
  cbn in Hb. apply _recvn_inv in Hb as [Hb _]; [|lia].
  destruct (unpack_opcode_inv body opcode dest chunk ltac:(lia) Ho Hd) as (_ & -> & ->).
  pose proof (u32_at_bound 28 body ltac:(lia) ltac:(lia)).
  pose proof (u32_at_bound 32 body ltac:(lia) ltac:(lia)).
  apply receive_extra_safe; lia.
Qed.

Lemma read_loop_safe length op skip fuel l buf s :
  0 <= packed_offset l -> length <= len buf ->
  st_safe length (buf, s) (snd (read_loop fuel length op skip l (buf, s))).
Proof.
  revert l buf s. induction fuel as [|fuel IH]; intros l buf s Hp Hl; cbn [read_loop];
    destruct (_ <? _); try done.
  apply frame_bind_val; [by apply read_fragment_safe|]. intros l' [b1 s1] H.
  apply read_fragment_inv in H as (r & Hok & -> & -> & _); [|done..].
  apply IH; [by apply advance_packed|].
  destruct (place_safe _ _ _ _ _ Hok Hp Hl) as [<- _]. done.
Qed.

(** * The segmentation of the stream is not observable *)

Lemma receive_extra_agree L length skip l dest chunk ctype extra_len st1 st2 :
  0 <= packed_offset l -> 0 <= dest -> 0 <= chunk -> dest + chunk <= length -> length <= L ->
  buf_seg L st1 st2 ->
  agree (R:=buf_seg L) (receive_extra length skip l dest chunk ctype extra_len) st1 st2.
Proof.
  intros Hp Hd Hc Hin HL Hst. unfold receive_extra.
  assert (forall base n, 0 <= base -> base + n <= L -> Indep (buf_seg L) (_recvn_into base n))
    as Hrecv.
  { intros base n Hb Hn. destruct (Z.le_gt_cases 0 n); [by apply indep__recvn_into|].
    unfold _recvn_into. rewrite Z2Nat.nonpos by lia. cbn [recvn_loop].
    rewrite (proj2 (Z.ltb_ge _ _)) by lia. apply _. }
  destruct skip.
  { apply agree_bind; [by apply indep_agree; [apply _|]|].
    intros [] t1 t2 [Hb ->]%raise_when_inv_ok [_ ->]%raise_when_inv_ok _.
    apply agree_bind; [apply indep_agree; [apply Hrecv; lia|done]|]. by intros. }
  destruct (_ =? NFC_COMPRESSION_FASTLZ).
  - apply indep_agree; [|done]. apply indep_bind; [apply _|intros extra].
    apply indep_bind; [apply _|intros c]. apply indep_guard. intros Hl.
    apply indep_bind; [|apply _]. eapply indep_zoom; [apply _|].
    unfold mv_assign. apply indep_guard. intros Hl'. apply indep_modify.
    intros b1 b2 [-> Hb]. split; [done|]. rewrite len_splice; lia.
  - destruct (_ =? NFC_COMPRESSION_NONE); [|by apply indep_agree; [apply _|]].
    apply agree_bind; [apply indep_agree; [apply Hrecv; lia|done]|]. by intros.
Qed.

Lemma read_fragment_agree L length op skip l st1 st2 :
  0 <= packed_offset l -> length <= L -> buf_seg L st1 st2 ->
  agree (R:=buf_seg L) (read_fragment length op skip l) st1 st2.
Proof.
  intros Hp HL Hst. unfold read_fragment.
  apply agree_bind; [by apply indep_agree; [apply _|]|]. intros h t1 t2 _ _ Ht.
  apply agree_bind; [by apply indep_agree; [apply _|]|].
  intros [[t n] rop] t1' t2' [Hh ->]%lift_inv_ok [_ ->]%lift_inv_ok _.
  apply agree_bind; [by apply indep_agree; [apply _|]|].
  intros [] t1' t2' [_ ->]%raise_when_inv_ok [_ ->]%raise_when_inv_ok _.
  apply agree_bind; [by apply indep_agree; [apply _|]|].
  intros body [b1 u1] [b2 u2] (s3 & Hb & E)%zoom_inv _ Hu. clear E.
  apply agree_bind; [by apply indep_agree; [apply _|]|].
  intros [] t1' t2' [H36 ->]%raise_when_inv_ok [_ ->]%raise_when_inv_ok _.
  apply agree_bind; [by apply indep_agree; [apply _|]|].
  intros opcode t1' t2' [Ho ->]%lift_inv_ok [_ ->]%lift_inv_ok _.
  apply agree_bind; [by apply indep_agree; [apply _|]|].
  intros [dest chunk] t1' t2' [Hd ->]%lift_inv_ok [_ ->]%lift_inv_ok _.
  apply agree_bind; [by apply indep_agree; [apply _|]|].
  intros [] t1' t2' [Hg ->]%raise_when_inv_ok [_ ->]%raise_when_inv_ok _.
  apply agree_bind; [by apply indep_agree; [apply _|]|].
  intros extra_len t1' t2' [He ->]%lift_inv_ok [_ ->]%lift_inv_ok _.
  apply agree_bind; [|by intros [] ?? _ _ ?; apply indep_agree; [apply _|]].
  apply _recvn_inv in Hb as [Hb _]; [|lia].
  destruct (unpack_opcode_inv body opcode dest chunk ltac:(lia) Ho Hd) as (_ & -> & ->).
  pose proof (u32_at_bound 28 body ltac:(lia) ltac:(lia)).
  pose proof (u32_at_bound 32 body ltac:(lia) ltac:(lia)).
  apply receive_extra_agree; done || lia.
Qed.

Lemma read_loop_agree L length op skip fuel l st1 st2 :
  0 <= packed_offset l -> length <= L -> buf_seg L st1 st2 ->
  agree (R:=buf_seg L) (read_loop fuel length op skip l) st1 st2.
Proof.
  revert l st1 st2. induction fuel as [|fuel IH]; intros l st1 st2 Hp HL Hst; cbn [read_loop];
    (destruct (_ <? _); [|by apply indep_agree; [apply _|]]); [by apply indep_agree; [apply _|]|].
  apply agree_bind; [by apply read_fragment_agree|]. intros l' [b1 s1] [b2 s2] H _ Ht.
  destruct st1 as [b0 s0], Hst as [[Hb0 Hl0] _]. simpl in *.
  apply read_fragment_inv in H as (r & Hok & -> & -> & _); [|done|by rewrite Hl0].
  apply IH; [by apply advance_packed|done..].
Qed.

(** * The loop terminates *)

#[export] Instance aio_extra_len_total ctype body chunk : TotalO (_aio_extra_len ctype body chunk).
Proof.
  unfold _aio_extra_len, TotalO. destruct (_ =? _); [|by destruct (_ =? _)].
  destruct (unpack1 _) eqn:E; simpl; [by destruct (_ <? _)|done|].
  by apply unpack1_total in E; [|apply _].
Qed.

#[export] Instance unpack_aio_hdr_total h : TotalO (_unpack_aio_hdr h).
Proof.
  unfold _unpack_aio_hdr, TotalO. destruct (unpack4 _) as [[[[]]]| |] eqn:E; simpl; [|done|].
  - by repeat destruct (_ =? _).
  - by apply unpack4_total in E; [|apply _].
Qed.

Section Terminates.
Context {COk : CodecOk C}.

#[export] Instance decompress_chunk_total extra n : TotalO (decompress_chunk extra n).
Proof.
  unfold decompress_chunk, TotalO. pose proof (codec_total_decompress extra n).
  by destruct (codec_decompress extra n).
Qed.

#[export] Instance receive_extra_total length skip l dest chunk ctype extra_len :
  Total (receive_extra length skip l dest chunk ctype extra_len).
Proof. unfold receive_extra, mv_assign. total. Qed.

#[export] Instance read_fragment_total length op skip l : Total (read_fragment length op skip l).
Proof. unfold read_fragment. total. Qed.

Lemma read_loop_fuel length op skip fuel l buf s :
  0 <= packed_offset l -> length <= len buf -> length - filled l <= Z.of_nat fuel ->
  fst (read_loop fuel length op skip l (buf, s)) <> OutOfFuel.
Proof.
  revert l buf s. induction fuel as [|fuel IH]; intros l buf s Hp Hl Hf; cbn [read_loop];
    destruct (Z.ltb_spec (filled l) length); try done; [lia|].
  pose proof (read_fragment_total length op skip l (buf, s)) as Ht. unfold mbind, M_bind.
  destruct (read_fragment length op skip l (buf, s)) as [[l'|e|] [b1 s1]] eqn:E; [|done..].
  apply read_fragment_inv in E as (r & Hok & -> & -> & _); [|done..].
  pose proof (chunk_pos _ _ _ _ Hok).
  apply IH; [by apply advance_packed| |simpl; lia].
  destruct (place_safe _ _ _ _ _ Hok Hp Hl) as [<- _]. done.
Qed.
End Terminates.
End Loop.
