(* ===== verification/ReadInto.v ===== *)
(** [NfcDisk.readinto] and [NfcDisk.read] around the receive loop: the request
    that is sent, the results, and what holds on every outcome. *)
From Stdlib Require Import ZArith Lia String.
From stdpp Require Import base list numbers sets gmap.
From coqutil Require Import Byte Word.LittleEndianList.
Import LittleEndianList.
From S2P Require Import Prelude Python PyStr Socket Codec Wire Disk DiskRead ReadSpec ReadLoop.

Lemma pack_read_payload d start n :
  struct_pack "<QQQQIII" [handle d; Z.lor NFC_AIO_IO_READ (Z.shiftl (compression d) 32);
     start * sector_size d; n * sector_size d; n * sector_size d; n * sector_size d; 0] =
  Ok (read_payload d start n) <->
  fits64 (handle d) /\ fits32 (compression d) /\ fits64 (start * sector_size d) /\
  fits32 (n * sector_size d).
Proof.
  rewrite <- (opcode_fits NFC_AIO_IO_READ) by done.
  unfold struct_pack. compute_codes. rewrite pack_codes_iff. unfold read_payload.
  rewrite !Forall2_cons, Forall2_nil, !code_fits_I, !code_fits_Q.
  unfold fits64, fits32. intuition lia.
Qed.

Lemma len_read_payload d start n : len (read_payload d start n) = 44.
Proof. unfold read_payload. by rewrite fields_len. Qed.

Section ReadInto.
Context {C : Codec}.

(** What [readinto] returns when the loop ends in [l]. *)
Definition read_result (length : Z) (skip : bool) (l : rloop) : ReadResult :=
  mkReadResult length (wire_bytes l) (if skip then fragments l else []).

Lemma readinto_ok d start n skip buf s rs l' buf' r :
  read_ranges d start n -> 1 <= n -> n * sector_size d <= len buf ->
  run_replies (n * sector_size d) skip loop0 buf rs l' buf' ->
  healthy s -> flat (rx s) = (Some <$> replies_bytes (_op_id d) rs) ++ r ->
  exists s', readinto start n false skip (d, (buf, s)) =
      (Ok (read_result (n * sector_size d) skip l'), (set_op_id (_op_id d + 1) d, (buf', s'))) /\
    talk (replies_bytes (_op_id d) rs) [read_request d start n] s s' /\ flat (rx s') = r.
Proof.
  intros (Hh & Hc & Ho & Hl & Hop) Hn Hb Hrun Hs Hf.
  destruct (sendall_ok (read_request d start n) s Hs) as (s1 & E1 & T1 & F1).
  pose proof (talk_healthy _ _ _ _ Hs T1) as Hs1.
  assert (flat (rx s1) = (Some <$> replies_bytes (_op_id d) rs) ++ r) as Hf1.
  { by rewrite F1. }
  pose proof (read_loop_ok _ _ _ _ _ _ _ _ (Z.to_nat (n * sector_size d)) Hrun Hop
    ltac:(done) Hb ltac:(simpl; lia)) as HL.
  destruct Hs1 as [Hc1 Hp1]. destruct (HL s1 r Hc1 Hp1 Hf1) as (s' & E & T & Fr).
  exists s'. split; [|split; [by eapply (talk_trans [] _ [_] [])|done]].
  unfold readinto. rewrite (bind_ok _ _ _ tt (d, (buf, s))) by (apply raise_when_false; lia).
  rewrite (bind_ok _ _ _ d (d, (buf, s))) by done.
  rewrite (bind_ok _ _ _ buf (d, (buf, s))) by done. unfold _writable_bytes. rewrite (proj2 (Z.ltb_ge _ _)) by done.
  rewrite (lift_bind _ _ _ tt) by done.
  rewrite (lift_bind _ _ _ (read_payload d start n)) by by apply pack_read_payload.
  erewrite bind_ok by (apply zoom_run, next_op_id_run).
  rewrite len_read_payload.
  erewrite lift_bind by by apply pack_aio_hdr_ok.
  erewrite bind_ok by (apply zoom_run; exact E1). cbn [lput lens_snd lens_fst lens_self fst snd].
  erewrite bind_ok by (apply zoom_run; exact E). done.
Qed.

Lemma readinto_inv d start n ro skip buf s res d' buf' s' :
  readinto start n ro skip (d, (buf, s)) = (Ok res, (d', (buf', s'))) ->
  exists rs l', read_ranges d start n /\ 1 <= n /\ ro = false /\ n * sector_size d <= len buf /\
    run_replies (n * sector_size d) skip loop0 buf rs l' buf' /\
    res = read_result (n * sector_size d) skip l' /\ d' = set_op_id (_op_id d + 1) d /\
    talk (replies_bytes (_op_id d) rs) [read_request d start n] s s'.
Proof.
  intros H. unfold readinto in H.
  apply bind_inv_ok in H as (u & st & [Hn ->]%raise_when_inv_ok & H).
  rewrite (bind_ok _ _ _ d (d, (buf, s))) in H by done.
  rewrite (bind_ok _ _ _ buf (d, (buf, s))) in H by done.
  apply bind_inv_ok in H as ([] & st & [Hw ->]%lift_inv_ok & H).
  unfold _writable_bytes in Hw. destruct ro; [done|].
  destruct (Z.ltb_spec (len buf) (n * sector_size d)); [done|].
  apply bind_inv_ok in H as (p & st & [Hpk ->]%lift_inv_ok & H).
  assert (p = read_payload d start n) as ->.
  { unfold struct_pack in Hpk. revert Hpk. compute_codes. by intros [_ ->]%pack_codes_iff. }
  apply pack_read_payload in Hpk as (Hh & Hc & Ho & Hl).
  erewrite bind_ok in H by (apply zoom_run, next_op_id_run). rewrite len_read_payload in H.
  apply bind_inv_ok in H as (h & st & [(_ & _ & Hop & ->)%pack_aio_hdr_inv ->]%lift_inv_ok & H).
  apply bind_inv_ok in H as (u2 & st & (s1 & T1%sendall_inv & ->)%zoom_inv & H).
  apply bind_inv_ok in H as (l & st & ([b1 s2] & HL & ->)%zoom_inv & H).
  cbn [lget lput lens_fst lens_snd lens_self fst snd] in *.
  apply read_loop_inv in HL as (rs & Hrun & T2); [|done..].
  unfold mret, M_ret in H. simplify_eq. exists rs, l. split_and!; try done; [lia|].
  by eapply (talk_trans [] _ [_] []).
Qed.

(** * On every outcome *)

(** The object changes only in its op-id counter, which advances by at most
    one, and the buffer only in [buf[0 : length]]. *)
Definition read_effect (L : Z) : relation (NfcDisk * (bytes * sock)) := fun st1 st2 =>
  (fst st2 = fst st1 \/ fst st2 = set_op_id (_op_id (fst st1) + 1) (fst st1)) /\
  st_safe L (snd st1) (snd st2).

(** The part of [readinto] after its checks. *)
Definition readinto_io (d : NfcDisk) (start n : Z) (skip : bool) (buf : bytes) (s : sock) :
    outcome ReadResult * (NfcDisk * (bytes * sock)) :=
  let d' := set_op_id (_op_id d + 1) d in
  let length := n * sector_size d in
  let '(o, s1) := sendall (read_request d start n) s in
  match o with
  | Ok _ =>
      let '(o, st) := read_loop (Z.to_nat length) length (_op_id d) skip loop0 (buf, s1) in
      (read_result length skip <$> o, (d', st))
  | Raise e => (Raise e, (d', (buf, s1)))
  | OutOfFuel => (OutOfFuel, (d', (buf, s1)))
  end.

Lemma readinto_io_run d start n skip buf s :
  (zoom (sendall (read_request d start n));;
   l ← zoom (read_loop (Z.to_nat (n * sector_size d)) (n * sector_size d) (_op_id d) skip loop0);
   mret (read_result (n * sector_size d) skip l))
    (set_op_id (_op_id d + 1) d, (buf, s)) = readinto_io d start n skip buf s.
Proof.
  unfold readinto_io, zoom, mbind, M_bind. cbn [lput lget lens_fst lens_snd lens_self fst snd].
  destruct (sendall _ s) as [[[]|e|] s1]; [|done..].
  cbn [lput lget lens_fst lens_snd lens_self fst snd].
  by destruct (read_loop _ _ _ _ _ _) as [[l|e|] [b1 s2]].
Qed.

(** Either a check raises, before anything is sent, or the exchange happens. *)
Lemma readinto_run d start n ro skip buf s :
  (exists e d', readinto start n ro skip (d, (buf, s)) = (Raise e, (d', (buf, s))) /\
     (d' = d \/ d' = set_op_id (_op_id d + 1) d)) \/
  (n * sector_size d <= len buf /\ fits32 (_op_id d) /\
   readinto start n ro skip (d, (buf, s)) = readinto_io d start n skip buf s).
Proof.
  unfold readinto. destruct (n <? 1); [by left; eauto 6|].
  rewrite (bind_ok _ _ _ tt (d, (buf, s))) by done.
  rewrite (bind_ok _ _ _ d (d, (buf, s))) by done.
  rewrite (bind_ok _ _ _ buf (d, (buf, s))) by done. unfold _writable_bytes.
  destruct ro; [by left; eauto 6|].
  destruct (Z.ltb_spec (len buf) (n * sector_size d)); [by left; eauto 6|].
  rewrite (lift_bind _ _ _ tt) by done.
  destruct (struct_pack _ _) as [p|e|] eqn:Ep;
    [|by left; eauto 6|by apply struct_pack_total in Ep].
  rewrite (lift_bind _ _ _ p) by done.
  assert (p = read_payload d start n) as ->.
  { unfold struct_pack in Ep. revert Ep. compute_codes. by intros [_ ->]%pack_codes_iff. }
  erewrite bind_ok by (apply zoom_run, next_op_id_run). rewrite len_read_payload.
  destruct (_pack_aio_hdr _ _ _) as [h|e|] eqn:Eh;
    [|by left; eauto 6|by apply struct_pack_total in Eh].
  apply pack_aio_hdr_inv in Eh as Hh. destruct Hh as (_ & _ & Ho & ->).
  rewrite (lift_bind _ _ _ (aio_hdr NFC_AIO_MSG_IO 44 (_op_id d))) by done.
  right. split; [done|]. split; [done|]. apply readinto_io_run.
Qed.

(** With arguments that pass the checks the exchange happens. *)
Lemma readinto_checked d start n skip buf s :
  read_ranges d start n -> 1 <= n -> n * sector_size d <= len buf ->
  readinto start n false skip (d, (buf, s)) = readinto_io d start n skip buf s.
Proof.
  intros (Hh & Hc & Ho & Hl & Hop) Hn Hb.
  unfold readinto. rewrite (bind_ok _ _ _ tt (d, (buf, s))) by (apply raise_when_false; lia).
  rewrite (bind_ok _ _ _ d (d, (buf, s))) by done.
  rewrite (bind_ok _ _ _ buf (d, (buf, s))) by done. unfold _writable_bytes.
  rewrite (proj2 (Z.ltb_ge _ _)) by done. rewrite (lift_bind _ _ _ tt) by done.
  rewrite (lift_bind _ _ _ (read_payload d start n)) by by apply pack_read_payload.
  erewrite bind_ok by (apply zoom_run, next_op_id_run). rewrite len_read_payload.
  erewrite lift_bind by by apply pack_aio_hdr_ok.
  apply readinto_io_run.
Qed.

Lemma readinto_effect d start n ro skip buf s :
  read_effect (n * sector_size d) (d, (buf, s))
    (snd (readinto start n ro skip (d, (buf, s)))).
Proof.
  destruct (readinto_run d start n ro skip buf s) as [(e & d' & -> & Hd)|(Hl & _ & ->)].
  { split; [done|]. unfold st_safe. simpl. reflexivity. }
  unfold readinto_io. destruct (sendall _ s) as [[[]|e|] s1];
    [|split; [by right|unfold st_safe; reflexivity]..].
  pose proof (read_loop_safe (n * sector_size d) (_op_id d) skip
    (Z.to_nat (n * sector_size d)) loop0 buf s1 ltac:(done) Hl) as HL.
  destruct (read_loop _ _ _ _ _ _) as [o [b1 s2]]. split; [by right|exact HL].
Qed.

Lemma readinto_fuel {COk : CodecOk C} start n ro skip st :
  fst (readinto start n ro skip st) <> OutOfFuel.
Proof.
  destruct st as [d [buf s]].
  destruct (readinto_run d start n ro skip buf s) as [(e & d' & -> & Hd)|(Hl & _ & ->)]; [done|].
  unfold readinto_io. pose proof (sendall_total (read_request d start n) s) as Hs.
  destruct (sendall _ s) as [[[]|e|] s1]; [|done..].
  pose proof (read_loop_fuel (n * sector_size d) (_op_id d) skip
    (Z.to_nat (n * sector_size d)) loop0 buf s1 ltac:(done) Hl ltac:(simpl; lia)) as HL.
  by destruct (read_loop _ _ _ _ _ _) as [[l|e|] [b1 s2]].
Qed.

(** * The segmentation of the stream is not observable *)

(** The same object and buffer, and sockets up to segmentation. *)
Definition disk_seg (L : Z) : relation (NfcDisk * (bytes * sock)) :=
  prod_relation eq (buf_seg L).

#[export] Instance disk_seg_fst L : Proper (disk_seg L ==> eq) fst.
Proof. by intros [] [] [? _]. Qed.

#[export] Instance disk_seg_buf L :
  Proper (disk_seg L ==> eq) (fun st : NfcDisk * (bytes * sock) => fst (snd st)).
Proof. by intros [? []] [? []] [_ [[? _] _]]. Qed.

#[export] Instance indep_next_op_id : Indep eq _next_op_id.
Proof. by intros ?? ->. Qed.

Lemma readinto_agree start n ro skip d buf s1 s2 :
  seg_eq s1 s2 ->
  agree (R:=disk_seg (len buf)) (readinto start n ro skip) (d, (buf, s1)) (d, (buf, s2)).
Proof.
  intros Hs. assert (disk_seg (len buf) (d, (buf, s1)) (d, (buf, s2))) as Hst by done.
  unfold readinto. apply agree_bind; [by apply indep_agree; [apply _|]|].
  intros [] ?? [_ ->]%raise_when_inv_ok [_ ->]%raise_when_inv_ok _.
  apply agree_bind; [by apply indep_agree; [apply _|]|]. intros d' ?? [= <- <-] [= <-] _.
  apply agree_bind; [by apply indep_agree; [apply _|]|]. intros buf' ?? [= <- <-] [= <-] _.
  apply agree_bind; [by apply indep_agree; [apply _|]|].
  intros [] ?? [Hw ->]%lift_inv_ok [_ ->]%lift_inv_ok _.
  assert (n * sector_size d <= len buf) as Hl.
  { unfold _writable_bytes in Hw. destruct ro; [done|].
    by destruct (Z.ltb_spec (len buf) (n * sector_size d)). }
  clear Hw. revert Hst. generalize (d, (buf, s1)) (d, (buf, s2)). intros st1 st2 Hst.
  apply agree_bind; [by apply indep_agree; [apply _|]|]. intros p t1 t2 _ _ Ht.
  apply agree_bind; [apply indep_agree; [|exact Ht]; eapply indep_zoom; apply _|].
  intros op u1 u2 _ _ Hu.
  apply agree_bind; [by apply indep_agree; [apply _|]|]. intros h v1 v2 _ _ Hv.
  apply agree_bind; [apply indep_agree; [|exact Hv]; eapply indep_zoom; apply _|].
  intros _ w1 w2 _ _ Hw. apply indep_agree; [|exact Hw].
  apply indep_bind; [|intros; apply _]. eapply (indep_zoom (Q := buf_seg (len buf))); [apply _|].
  intros b1 b2 Hb. by apply read_loop_agree.
Qed.

(** * [read] *)

Lemma read_ok d start n s rs l' out r :
  read_ranges d start n -> 1 <= n -> 0 <= sector_size d ->
  run_replies (n * sector_size d) false loop0 (zeros (n * sector_size d)) rs l' out ->
  healthy s -> flat (rx s) = (Some <$> replies_bytes (_op_id d) rs) ++ r ->
  exists s', read start n (d, s) = (Ok out, (set_op_id (_op_id d + 1) d, s')) /\
    talk (replies_bytes (_op_id d) rs) [read_request d start n] s s' /\ flat (rx s') = r.
Proof.
  intros Hr Hn Hss Hrun Hs Hf.
  edestruct (readinto_ok d start n false) as (s' & E & T & F); [done..| |done|done|done|].
  { rewrite len_zeros; nia. }
  exists s'. split; [|done]. unfold read.
  rewrite (bind_ok _ _ _ tt (d, s)) by (apply raise_when_false; lia).
  rewrite (bind_ok _ _ _ d (d, s)) by done.
  erewrite bind_ok by (unfold with_buffer; cbn [fst snd]; by rewrite E). done.
Qed.

Lemma read_inv d start n s out d' s' :
  read start n (d, s) = (Ok out, (d', s')) ->
  exists rs l', read_ranges d start n /\ 1 <= n /\
    run_replies (n * sector_size d) false loop0 (zeros (n * sector_size d)) rs l' out /\
    d' = set_op_id (_op_id d + 1) d /\
    talk (replies_bytes (_op_id d) rs) [read_request d start n] s s'.
Proof.
  unfold read. intros H. apply bind_inv_ok in H as (u & st & [Hn ->]%raise_when_inv_ok & H).
  rewrite (bind_ok _ _ _ d (d, s)) in H by done.
  apply bind_inv_ok in H as ([res out'] & [d1 s1] & H1 & H).
  unfold with_buffer in H1. cbn [fst snd] in H1.
  destruct (readinto _ _ _ _ _) as [o (d2 & b2 & s2)] eqn:E.
  destruct o as [res'| |]; simpl in H1; simplify_eq. unfold mret, M_ret in H. simplify_eq/=.
  apply readinto_inv in E as (rs & l' & Hr & Hn1 & _ & _ & Hrun & _ & -> & T). eauto 10.
Qed.

#[export] Instance read_total {COk : CodecOk C} start n : Total (read start n).
Proof.
  unfold read. total. intros [d s]. unfold with_buffer. cbn [fst snd].
  pose proof (readinto_fuel start n false false
    (d, (zeros (n * sector_size a0), s))) as H.
  destruct (readinto _ _ _ _ _) as [o (d2 & b2 & s2)]. by destruct o.
Qed.
End ReadInto.
