(* ===== verification/ReadCorrect.v ===== *)
(** What the proofs about [NfcDisk.read] and [NfcDisk.readinto] need: the caller gets
    the content whatever the order, the compression and the segmentation of
    the fragments; disjoint fragments leave no byte out; and the packed
    layout of [skip_decompression].  The properties are in [ReadTheorems]. *)
From Stdlib Require Import ZArith Lia String.
From stdpp Require Import base list numbers sets gmap sorting.
From coqutil Require Import Byte Word.LittleEndianList.
Import LittleEndianList.
From S2P Require Import Prelude Python PyStr Socket Codec Wire Disk DiskRead ReadSpec ReadLoop ReadInto.

(** * Fragments of a content *)

Definition sumZ {A} (f : A -> Z) (l : list A) : Z := foldr (fun x z => f x + z) 0 l.

(** The reply holds byte [i] of the request. *)
Definition covers (i : Z) (r : reply) : Prop :=
  rp_dest r <= i < rp_dest r + rp_chunk_len r.

#[export] Instance covers_dec i r : Decision (covers i r) := _.

(** The replies, in this order, tile [a, b). *)
Fixpoint tiles (a : Z) (rs : list reply) (b : Z) : Prop :=
  match rs with
  | [] => a = b
  | r :: rs' => rp_dest r = a /\ tiles (a + rp_chunk_len r) rs' b
  end.

(** [r] is a well-formed fragment of [content]. *)
Record carries {C : Codec} (content : bytes) (r : reply) : Prop := {
  carry_body : 36 <= len (rp_body r) < 2 ^ 32;
  carry_nonempty : rp_chunk_len r <> 0;
  carry_inside : rp_dest r + rp_chunk_len r <= len content;
  carry_extra : _aio_extra_len (rp_ctype r) (rp_body r) (rp_chunk_len r) = Ok (len (rp_extra r));
  carry_data : rp_plain r = Some (slice (rp_dest r) (rp_dest r + rp_chunk_len r) content)
}.

(** Where [skip_decompression] packs the extras: densely from [off], in the
    order of arrival. *)
Fixpoint packed_frags (off : Z) (rs : list reply) : list ReadFragment :=
  match rs with
  | [] => []
  | r :: rs' =>
      mkReadFragment (rp_dest r) (rp_chunk_len r) (rp_ctype r) off (len (rp_extra r))
        :: packed_frags (off + len (rp_extra r)) rs'
  end.

(** [_rebuild_skip] of the integration tests: what a caller does with a packed
    buffer.  [None] is a failed assertion or a decompression error. *)
Definition rebuild_chunk {C : Codec} (view : bytes) (fr : ReadFragment) : option bytes :=
  let extra := slice (frag_offset fr) (frag_offset fr + frag_length fr) view in
  if frag_compression_type fr =? NFC_COMPRESSION_FASTLZ then
    match codec_decompress extra (frag_uncompressed_length fr) with Ok c => Some c | _ => None end
  else if frag_compression_type fr =? NFC_COMPRESSION_NONE then Some extra
  else None.

Fixpoint rebuild_frags {C : Codec} (view out : bytes) (frs : list ReadFragment) : option bytes :=
  match frs with
  | [] => Some out
  | fr :: frs' =>
      chunk ← rebuild_chunk view fr;
      if len chunk =? frag_uncompressed_length fr
      then rebuild_frags view (splice (frag_dest fr) chunk out) frs' else None
  end.

Definition rebuild_skip {C : Codec} (view : bytes) (result : ReadResult) : option bytes :=
  out ← rebuild_frags view (zeros (res_uncompressed_length result)) (res_fragments result);
  if sumZ frag_length (res_fragments result) =? res_compressed_length result
  then Some out else None.

Section Correct.
Context {C : Codec}.

Lemma sumZ_perm {A} (f : A -> Z) l k : l ≡ₚ k -> sumZ f l = sumZ f k.
Proof. induction 1; simpl in *; lia. Qed.

Lemma carries_bounds content r :
  carries content r -> 0 <= rp_dest r /\ 1 <= rp_chunk_len r.
Proof. intros [Hb Hn _ _ _]. pose proof (reply_fields r ltac:(lia)). lia. Qed.

Lemma tiles_sum content rs a b :
  Forall (carries content) rs -> tiles a rs b -> sumZ rp_chunk_len rs = b - a.
Proof.
  intros H. revert a. induction H as [|r rs Hr H IH]; simpl; [lia|].
  intros a [_ Ht]. rewrite (IH _ Ht). lia.
Qed.

Lemma tiles_ge content rs a b r :
  Forall (carries content) rs -> tiles a rs b -> r ∈ rs -> a <= rp_dest r.
Proof.
  intros H. revert a. induction H as [|r' rs Hr H IH]; intros a.
  { by intros _ ?%not_elem_of_nil. }
  intros [<- Ht] [->|Hin]%elem_of_cons; [lia|].
  pose proof (carries_bounds _ _ Hr). specialize (IH _ Ht Hin). lia.
Qed.

Lemma tiles_nodup content rs a b :
  Forall (carries content) rs -> tiles a rs b -> NoDup (rp_dest <$> rs).
Proof.
  intros H. revert a. induction H as [|r rs Hr H IH]; intros a; simpl; [constructor|].
  intros [<- Ht]. constructor; [|by eapply IH].
  intros (r' & Hd & Hin)%list_elem_of_fmap.
  pose proof (tiles_ge _ _ _ _ _ H Ht Hin). pose proof (carries_bounds _ _ Hr). lia.
Qed.

Lemma tiles_covers rs a b i : tiles a rs b -> a <= i < b -> Exists (covers i) rs.
Proof.
  revert a. induction rs as [|r rs IH]; intros a; simpl; [lia|]. intros [Ha Ht] Hi.
  destruct (Z_lt_le_dec i (a + rp_chunk_len r)).
  - left. unfold covers. lia.
  - right. apply (IH _ Ht). lia.
Qed.

Lemma splice_content (content buf : bytes) a b (i : nat) :
  0 <= a <= b -> b <= len content -> len content <= len buf ->
  splice a (slice a b content) buf !! i =
    if decide (a <= Z.of_nat i < b) then content !! i else buf !! i.
Proof.
  intros Ha Hb Hl. pose proof (length_slice a b content Ha Hb).
  case_decide.
  - rewrite lookup_splice_in by (rewrite ?len_slice by lia; lia).
    rewrite lookup_slice by lia. f_equal. lia.
  - apply lookup_splice_out; rewrite ?len_slice by lia; lia.
Qed.

(** Fragments of [content] in any order: the loop accepts them, and the buffer
    holds the content wherever a fragment covers it. *)
Lemma run_carries content rs l buf :
  Forall (carries content) rs -> NoDup (rp_dest <$> rs) ->
  (forall r, r ∈ rs -> rp_dest r ∉ seen l) ->
  filled l + sumZ rp_chunk_len rs = len content -> len content <= len buf ->
  exists l' buf', run_replies (len content) false l buf rs l' buf' /\
    forall i : nat, buf' !! i =
      if decide (Exists (covers (Z.of_nat i)) rs) then content !! i else buf !! i.
Proof.
  intros H. revert l buf. induction H as [|r rs Hr H IH]; intros l buf Hnd Hseen Hsum Hl.
  { exists l, buf. split; [constructor; simpl in *; lia|]. intros i.
    rewrite decide_False; [done|]. by intros ?%Exists_nil. }
  pose proof (carries_bounds _ _ Hr). pose proof Hr as [Hb Hn Hin He Hd].
  rewrite fmap_cons in Hnd. apply NoDup_cons in Hnd as [Hnot Hnd].
  assert (0 <= sumZ rp_chunk_len rs).
  { clear -H. induction H as [|r rs Hr H IH]; simpl; [lia|].
    pose proof (carries_bounds _ _ Hr). lia. }
  assert (reply_ok (len content) false l r) as Hok.
  { split; try done; apply Hseen; by left. }
  destruct (IH (advance false l r) (place false l r buf)) as (l' & buf' & Hrun & Hlook).
  - done.
  - intros r' Hr'. simpl. apply not_elem_of_union. split.
    + intros E%elem_of_singleton. apply Hnot. rewrite <- E. by apply list_elem_of_fmap_2.
    + apply Hseen. by right.
  - simpl in *. lia.
  - unfold place. rewrite Hd. simpl. rewrite len_splice; [done|lia|]. rewrite len_slice; lia.
  - exists l', buf'. split; [refine (run_step _ _ _ _ _ _ _ _ _ Hok Hrun); simpl in Hsum; lia|]. intros i. rewrite Hlook.
    unfold place. rewrite Hd. cbn [default from_option id].
    rewrite splice_content by lia.
    destruct (decide (Exists _ rs)) as [He'|He'].
    { by rewrite decide_True by by right. }
    destruct (decide (_ <= _ < _)).
    + by rewrite decide_True by by left.
    + rewrite decide_False; [done|]. by intros [?|?]%Exists_cons.
Qed.

Lemma run_tiles content rs rs0 buf :
  Forall (carries content) rs -> rs ≡ₚ rs0 -> tiles 0 rs0 (len content) ->
  len content <= len buf ->
  exists l', run_replies (len content) false loop0 buf rs l' (splice 0 content buf).
Proof.
  intros H Hp Ht Hl. assert (Forall (carries content) rs0) as H0 by (by rewrite <- Hp).
  destruct (run_carries content rs loop0 buf) as (l' & buf' & Hrun & Hlook); try done.
  - rewrite Hp. by eapply tiles_nodup.
  - rewrite (sumZ_perm _ _ _ Hp), (tiles_sum _ _ _ _ H0 Ht). simpl. lia.
  - exists l'. replace (splice 0 content buf) with buf'; [done|].
    apply list_eq. intros i. rewrite Hlook. destruct (decide (Z.of_nat i < len content)) as [Hi|Hi].
    + rewrite decide_True.
      { rewrite lookup_splice_in by zlia. f_equal. lia. }
      assert (Exists (covers (Z.of_nat i)) rs0) as (r & Hin & Hc)%Exists_exists
        by (eapply tiles_covers; [done|lia]).
      apply Exists_exists. exists r. by rewrite Hp.
    + rewrite lookup_splice_out by zlia. rewrite decide_False; [done|].
      intros (r & Hin & Hc)%Exists_exists. rewrite Forall_forall in H.
      specialize (H r Hin). destruct H. unfold covers in Hc. lia.
Qed.

(** [read] of fragments that tile the content. *)
Lemma read_tiles_ok d start n s content rs rs0 rest :
  read_ranges d start n -> 1 <= n -> len content = n * sector_size d ->
  Forall (carries content) rs -> rs ≡ₚ rs0 -> tiles 0 rs0 (len content) ->
  healthy s -> flat (rx s) = (Some <$> replies_bytes (_op_id d) rs) ++ rest ->
  exists s', read start n (d, s) = (Ok content, (set_op_id (_op_id d + 1) d, s')) /\
    talk (replies_bytes (_op_id d) rs) [read_request d start n] s s' /\ flat (rx s') = rest.
Proof.
  intros Hr Hn Hl Hc Hp Ht Hs Hf. pose proof Hr as (_ & _ & _ & Hb & _).
  destruct (run_tiles content rs rs0 (zeros (n * sector_size d))) as [l' Hrun]; try done.
  { rewrite len_zeros by apply Hb. lia. }
  rewrite splice_full in Hrun by (rewrite len_zeros; [done|apply Hb]). rewrite Hl in Hrun.
  eapply read_ok; try done. unfold fits32 in Hb. nia.
Qed.

Lemma run_wire length skip l buf rs l' buf' :
  run_replies length skip l buf rs l' buf' ->
  wire_bytes l' = wire_bytes l + sumZ (fun r => len (rp_extra r)) rs /\
  filled l' = filled l + sumZ rp_chunk_len rs /\ length <= filled l'.
Proof. induction 1 as [|l buf r rs l' buf' Hf Hok Hrun IH]; simpl in *; lia. Qed.

(** * Disjoint fragments leave no byte out *)

(** No byte of the request is in both replies. *)
Definition disjoint_replies (r1 r2 : reply) : Prop :=
  rp_dest r1 + rp_chunk_len r1 <= rp_dest r2 \/ rp_dest r2 + rp_chunk_len r2 <= rp_dest r1.

(** The offsets a reply covers. *)
Definition span (r : reply) : list Z := seqZ (rp_dest r) (rp_chunk_len r).

Lemma elem_of_span i r : i ∈ span r <-> covers i r.
Proof. unfold span, covers. rewrite elem_of_seqZ. lia. Qed.

Lemma span_nodup rs : ForallOrdPairs disjoint_replies rs -> NoDup (rs ≫= span).
Proof.
  induction 1 as [|r rs Hr H IH]; [constructor|].
  rewrite bind_cons. apply NoDup_app. split_and!; [apply NoDup_seqZ| |done].
  intros i Hi%elem_of_span (r' & Hi'%elem_of_span & Hin)%list_elem_of_bind.
  rewrite Forall_forall in Hr. specialize (Hr r' Hin).
  unfold covers, disjoint_replies in *. lia.
Qed.

Lemma span_length rs :
  Forall (fun r => 0 <= rp_chunk_len r) rs ->
  Z.of_nat (length (rs ≫= span)) = sumZ rp_chunk_len rs.
Proof.
  induction 1 as [|r rs Hr H IH]; [done|].
  rewrite bind_cons, length_app. cbn [sumZ foldr]. fold (sumZ rp_chunk_len rs).
  unfold span at 1. rewrite length_seqZ. lia.
Qed.

(** Pigeonhole: disjoint spans inside [0, length) whose lengths add up to
    [length] cover it. *)
Lemma disjoint_cover (length : Z) rs i :
  ForallOrdPairs disjoint_replies rs ->
  Forall (fun r => 0 <= rp_dest r /\ 0 <= rp_chunk_len r /\
    rp_dest r + rp_chunk_len r <= length) rs ->
  length <= sumZ rp_chunk_len rs -> 0 <= i < length -> Exists (covers i) rs.
Proof.
  intros Hd Hb Hsum Hi.
  assert (rs ≫= span ≡ₚ seqZ 0 length) as Hp.
  { apply submseteq_length_Permutation.
    - apply NoDup_submseteq; [by apply span_nodup|].
      intros j (r & Hj%elem_of_span & Hin)%list_elem_of_bind. rewrite Forall_forall in Hb.
      specialize (Hb r Hin). apply elem_of_seqZ. unfold covers in *. lia.
    - rewrite length_seqZ.
      assert (Forall (fun r => 0 <= rp_chunk_len r) rs) as Hc.
      { eapply Forall_impl; [exact Hb|]. intros r Hr. simpl in Hr. lia. }
      apply span_length in Hc. lia. }
  assert (i ∈ rs ≫= span) as (r & Hr%elem_of_span & Hin)%list_elem_of_bind.
  { rewrite Hp. apply elem_of_seqZ. lia. }
  apply Exists_exists. eauto.
Qed.

Lemma run_bounds length skip l buf rs l' buf' :
  run_replies length skip l buf rs l' buf' ->
  Forall (fun r => 0 <= rp_dest r /\ 0 <= rp_chunk_len r /\
    rp_dest r + rp_chunk_len r <= length) rs.
Proof.
  induction 1 as [|l buf r rs l' buf' Hf Hok Hrun IH]; constructor; [|done].
  destruct Hok as [Hb _ _ Hin _ _]. pose proof (reply_fields r ltac:(lia)). lia.
Qed.

(** Where the bytes of the buffer come from. *)
Lemma run_lookup length l buf rs l' buf' (i : nat) :
  run_replies length false l buf rs l' buf' -> length <= len buf ->
  ForallOrdPairs disjoint_replies rs ->
  (exists r c, r ∈ rs /\ covers (Z.of_nat i) r /\ rp_plain r = Some c /\
    buf' !! i = c !! (i - Z.to_nat (rp_dest r))%nat) \/
  (~ Exists (covers (Z.of_nat i)) rs /\ buf' !! i = buf !! i).
Proof.
  intros H. remember false as skip eqn:Hs.
  induction H as [l buf Hd|l buf r rs l' buf' Hf Hok Hrun IH]; intros Hl Hdis; subst skip.
  { right. split; [by intros ?%Exists_nil|done]. }
  pose proof Hok as [Hb _ Hn Hin _ [c Hc]]. pose proof (reply_fields r ltac:(lia)).
  pose proof (rp_plain_len _ _ _ _ _ Hok Hc) as Hlc.
  inversion_clear Hdis as [|?? Hr Hrs]. rewrite Forall_forall in Hr.
  assert (length <= len (place false l r buf)) as Hl1.
  { unfold place. rewrite Hc. simpl. rewrite len_splice by lia. done. }
  destruct (IH Hl1 Hrs) as [(r' & c' & Hin' & Hi & Hc' & ->)|[Hnot ->]].
  { left. exists r', c'. split_and!; try done. by right. }
  unfold place. rewrite Hc. cbn [default from_option id].
  destruct (decide (covers (Z.of_nat i) r)) as [Hi|Hi]; unfold covers in Hi.
  - left. exists r, c. split; [by left|]. split; [done|]. split; [done|].
    unfold len in Hlc, Hl. apply lookup_splice_in; unfold len; lia.
  - right. split; [by intros [?|?]%Exists_cons|]. unfold len in Hlc, Hl.
    apply lookup_splice_out; unfold len; lia.
Qed.

(** Replies that are each well-formed, start at different places and have as
    many bytes as the request are accepted in any order; what none of them
    covers stays as it was. *)
Lemma run_counted length rs l buf :
  Forall (reply_ok length false loop0) rs -> NoDup (rp_dest <$> rs) ->
  (forall r, r ∈ rs -> rp_dest r ∉ seen l) ->
  filled l + sumZ rp_chunk_len rs = length -> length <= len buf ->
  exists l' buf', run_replies length false l buf rs l' buf' /\
    forall i : nat, ~ Exists (covers (Z.of_nat i)) rs -> buf' !! i = buf !! i.
Proof.
  intros H. revert l buf. induction H as [|r rs Hr H IH]; intros l buf Hnd Hseen Hsum Hl.
  { exists l, buf. split; [constructor; simpl in *; lia|done]. }
  pose proof Hr as [Hb _ Hn Hin He [c Hc]]. pose proof (reply_fields r ltac:(lia)).
  pose proof (rp_plain_len _ _ _ _ _ Hr Hc) as Hlc.
  rewrite fmap_cons in Hnd. apply NoDup_cons in Hnd as [Hnot Hnd].
  assert (0 <= sumZ rp_chunk_len rs).
  { clear -H. induction H as [|r rs [Hb _ _ _ _ _] H IH]; simpl; [lia|].
    pose proof (reply_fields r ltac:(lia)). lia. }
  assert (reply_ok length false l r) as Hok.
  { split; try done; apply Hseen; by left. }
  destruct (IH (advance false l r) (place false l r buf)) as (l' & buf' & Hrun & Hlook).
  - done.
  - intros r' Hr'. simpl. apply not_elem_of_union. split.
    + intros E%elem_of_singleton. apply Hnot. rewrite <- E. by apply list_elem_of_fmap_2.
    + apply Hseen. by right.
  - simpl in *. lia.
  - unfold place. rewrite Hc. simpl. by rewrite len_splice by lia.
  - exists l', buf'. split; [refine (run_step _ _ _ _ _ _ _ _ _ Hok Hrun); simpl in Hsum; lia|].
    intros i Hi. rewrite Hlook by (intros ?; apply Hi; by right).
    unfold place. rewrite Hc. cbn [default from_option id]. unfold len in *.
    apply lookup_splice_out; unfold len; [lia..|]. intros Hir. apply Hi. left. unfold covers. lia.
Qed.

(** Spans without a common offset belong to disjoint replies. *)
Lemma nodup_disjoint rs :
  Forall (fun r => 0 < rp_chunk_len r) rs -> NoDup (rs ≫= span) -> ForallOrdPairs disjoint_replies rs.
Proof.
  induction 1 as [|r rs Hr H IH]; [constructor|]. rewrite bind_cons. intros (_ & Hd & Hn)%NoDup_app.
  constructor; [|by apply IH]. rewrite Forall_forall in *. intros r' Hin. specialize (H r' Hin).
  unfold disjoint_replies.
  destruct (Z_le_gt_dec (rp_dest r + rp_chunk_len r) (rp_dest r')); [by left|].
  destruct (Z_le_gt_dec (rp_dest r' + rp_chunk_len r') (rp_dest r)); [by right|]. exfalso.
  apply (Hd (rp_dest r `max` rp_dest r')).
  - apply elem_of_span. unfold covers. lia.
  - apply list_elem_of_bind. exists r'. split; [|done]. apply elem_of_span. unfold covers. lia.
Qed.

(** Pigeonhole, the other way: replies with as many bytes as the request, two
    of which overlap, leave one of its bytes out. *)
Lemma overlap_hole (length : Z) rs :
  Forall (fun r => 0 < rp_chunk_len r) rs -> sumZ rp_chunk_len rs = length ->
  ~ ForallOrdPairs disjoint_replies rs ->
  exists i : nat, Z.of_nat i < length /\ ~ Exists (covers (Z.of_nat i)) rs.
Proof.
  intros Hc Hsum Hov.
  destruct (decide (Forall (fun i => Exists (covers i) rs) (seqZ 0 length))) as [Hall|Hnot].
  - destruct Hov. apply nodup_disjoint; [done|].
    assert (seqZ 0 length ≡ₚ rs ≫= span) as <-; [|apply NoDup_seqZ].
    apply submseteq_length_Permutation.
    + apply NoDup_submseteq; [apply NoDup_seqZ|]. intros i Hi. rewrite Forall_forall in Hall.
      apply Hall in Hi as (r & Hr & Hi)%Exists_exists. apply list_elem_of_bind. exists r.
      by rewrite elem_of_span.
    + rewrite length_seqZ. assert (Forall (fun r => 0 <= rp_chunk_len r) rs) as Hn
        by (eapply Forall_impl; [exact Hc|]; simpl; lia).
      apply span_length in Hn. lia.
  - apply not_Forall_Exists in Hnot; [|apply _].
    apply Exists_exists in Hnot as (i & Hi%elem_of_seqZ & Hne). exists (Z.to_nat i).
    rewrite Z2Nat.id by lia. split; [lia|done].
Qed.

(** * The packed layout *)

Lemma len_extras rs : len (rs ≫= rp_extra) = sumZ (fun r => len (rp_extra r)) rs.
Proof. induction rs as [|r rs IH]; [done|]. rewrite bind_cons, len_app, IH. done. Qed.

Lemma run_skip length l buf rs l' buf' :
  run_replies length true l buf rs l' buf' -> 0 <= packed_offset l -> length <= len buf ->
  fragments l' = fragments l ++ packed_frags (packed_offset l) rs /\
  packed_offset l' = packed_offset l + len (rs ≫= rp_extra) /\
  (packed_offset l <= length -> packed_offset l' <= length) /\
  buf' = splice (packed_offset l) (rs ≫= rp_extra) buf.
Proof.
  intros H. remember true as skip eqn:Hs.
  induction H as [l buf Hd|l buf r rs l' buf' Hf Hok Hrun IH]; intros Hp Hl; subst skip.
  { cbn [packed_frags mbind list_bind]. rewrite app_nil_r, splice_nil, len_nil.
    split_and!; done || lia. }
  pose proof Hok as [_ _ _ _ _ Hd]. pose proof (len_nonneg (rp_extra r)) as He.
  destruct IH as (-> & -> & Hle & ->); [simpl; lia|unfold place; by rewrite len_splice by lia|].
  cbn [advance packed_offset fragments packed_frags]. rewrite bind_cons, len_app.
  split; [by rewrite <- app_assoc|]. split; [lia|].
  cbn [advance packed_offset] in Hle. specialize (Hle Hd).
  split; [done|]. unfold place. apply splice_adjacent; lia.
Qed.

Lemma slice_cons_extra off r rs view :
  0 <= off -> off + len ((r :: rs) ≫= rp_extra) <= len view ->
  slice off (off + len ((r :: rs) ≫= rp_extra)) view = (r :: rs) ≫= rp_extra ->
  slice off (off + len (rp_extra r)) view = rp_extra r /\
  slice (off + len (rp_extra r)) (off + len (rp_extra r) + len (rs ≫= rp_extra)) view =
    rs ≫= rp_extra.
Proof.
  rewrite bind_cons, len_app. intros Ho Hl.
  pose proof (len_nonneg (rp_extra r)). pose proof (len_nonneg (rs ≫= rp_extra)).
  rewrite Z.add_assoc, (slice_split off (off + len (rp_extra r))) by lia. intros E.
  apply app_inj_1 in E; [done|]. rewrite length_slice by lia. zlia.
Qed.

Lemma rebuild_run length l buf rs l' buf' view off l2 out out' :
  run_replies length true l buf rs l' buf' ->
  filled l2 = filled l -> seen l2 = seen l -> 0 <= off ->
  off + len (rs ≫= rp_extra) <= len view ->
  slice off (off + len (rs ≫= rp_extra)) view = rs ≫= rp_extra ->
  rebuild_frags view out (packed_frags off rs) = Some out' ->
  exists l2', run_replies length false l2 out rs l2' out'.
Proof.
  intros H. remember true as skip eqn:Hs. revert off l2 out.
  induction H as [l buf Hd|l buf r rs l' buf' Hf Hok Hrun IH];
    intros off l2 out Hfl Hseen Ho Hv Hsl Hre; subst skip.
  { simpl in Hre. simplify_eq. exists l2. constructor. lia. }
  destruct (slice_cons_extra _ _ _ _ Ho Hv Hsl) as [Hx Hsl'].
  rewrite bind_cons, len_app in Hv. pose proof (len_nonneg (rp_extra r)).
  destruct Hok as [Hb Hu Hn Hin He _].
  cbn [packed_frags rebuild_frags] in Hre. unfold rebuild_chunk in Hre.
  cbn [frag_offset frag_length frag_compression_type frag_uncompressed_length frag_dest] in Hre.
  rewrite Hx in Hre.
  assert (exists c, rp_plain r = Some c /\
    rebuild_frags view (splice (rp_dest r) c out) (packed_frags (off + len (rp_extra r)) rs)
      = Some out') as (c & Hc & Hre').
  { unfold rp_plain. revert Hre. destruct (rp_ctype r =? NFC_COMPRESSION_FASTLZ).
    - destruct (codec_decompress _ _) as [c| |]; simpl; [|done..].
      destruct (len c =? rp_chunk_len r); [|done]. eauto.
    - destruct (rp_ctype r =? NFC_COMPRESSION_NONE); simpl; [|done].
      destruct (len (rp_extra r) =? rp_chunk_len r); [|done]. eauto. }
  destruct (IH (off + len (rp_extra r)) (advance false l2 r) (splice (rp_dest r) c out))
    as (l2' & Hrun2); try done; [by simpl; rewrite Hfl|by simpl; rewrite Hseen|lia|lia|].
  exists l2'. assert (reply_ok length false l2 r) as Hok2.
  { split; try assumption; [by rewrite Hseen|]. by exists c. }
  refine (run_step _ _ _ _ _ _ _ _ _ Hok2 _); [lia|]. unfold place. by rewrite Hc.
Qed.
End Correct.
