(* ===== verification/ReadTheorems.v ===== *)
(** The properties of [NfcDisk.read] and [NfcDisk.readinto]. *)
From Stdlib Require Import ZArith Lia String.
From stdpp Require Import base list numbers sets gmap.
From coqutil Require Import Byte Word.LittleEndianList.
Import LittleEndianList.
From S2P Require Import Prelude Python PyStr Socket Codec Fastlz Wire Disk DiskRead ReadSpec ReadLoop ReadInto ReadCorrect.

(** * A concrete session for the witnesses *)

(** A disk with three-byte sectors and content "AAB", and a server that sends
    the last byte first and compresses the rest. *)
Definition demo_disk : NfcDisk := init_disk (str "vm.vmdk") 7 3 NFC_COMPRESSION_FASTLZ 65536 1.

Definition demo_content : bytes := [Byte.x41; Byte.x41; Byte.x42].

Definition demo_reply (ctype dest chunk_len : Z) (extra : bytes) : reply :=
  mkReply (io_body 7 (Z.lor NFC_AIO_IO_READ (Z.shiftl ctype 32)) 0 3 dest chunk_len (len extra))
    extra.

Definition demo_packed : reply := demo_reply NFC_COMPRESSION_FASTLZ 0 2 [Byte.x41].
Definition demo_raw : reply := demo_reply NFC_COMPRESSION_NONE 2 1 [Byte.x42].

(** The peer's bytes, cut after five. *)
Definition demo_sock (bs : bytes) : sock :=
  Sock [RxData (take 5 bs); RxData (drop 5 bs)] [] [] false false.

Section Theorems.
Context {C : Codec}.

(** C1: [NfcDisk.read] returns the content of the sectors, whatever the order
    in which the server sends the fragments that tile it, whichever of them it
    compresses, and however the network cuts the stream into segments; it
    sends one request, uses one op id and consumes exactly the replies. *)
Theorem read_returns_content d start n s content rs rs0 rest :
  read_ranges d start n -> 1 <= n -> len content = n * sector_size d ->
  Forall (carries content) rs -> rs ≡ₚ rs0 -> tiles 0 rs0 (len content) ->
  healthy s -> flat (rx s) = (Some <$> replies_bytes (_op_id d) rs) ++ rest ->
  exists s', read start n (d, s) = (Ok content, (set_op_id (_op_id d + 1) d, s')) /\
    tx s' = tx s ++ [read_request d start n] /\ flat (rx s') = rest.
Proof.
  intros Hr Hn Hl Hc Hp Ht Hs Hf.
  destruct (read_tiles_ok d start n s content rs rs0 rest) as (s' & E & T & F); try done.
  exists s'. split; [done|]. split; [apply T|done].
Qed.

(** C10: [readinto] refines the step relation [run_replies]: on a healthy
    socket it returns [res] and leaves [buf'] exactly when the peer's stream
    starts with a sequence of replies that the relation accepts and that leads
    to them. *)
Theorem readinto_refines d start n skip buf s res d' buf' :
  healthy s ->
  (exists s', readinto start n false skip (d, (buf, s)) = (Ok res, (d', (buf', s')))) <->
  (exists rs l' rest, read_ranges d start n /\ 1 <= n /\ n * sector_size d <= len buf /\
    flat (rx s) = (Some <$> replies_bytes (_op_id d) rs) ++ rest /\
    run_replies (n * sector_size d) skip loop0 buf rs l' buf' /\
    res = read_result (n * sector_size d) skip l' /\ d' = set_op_id (_op_id d + 1) d).
Proof.
  intros Hs. split.
  - intros [s' H]. apply readinto_inv in H as (rs & l' & Hr & Hn & _ & Hb & Hrun & -> & -> & T).
    exists rs, l', (flat (rx s')). split_and!; try done. apply T.
  - intros (rs & l' & rest & Hr & Hn & Hb & Hf & Hrun & -> & ->).
    destruct (readinto_ok d start n skip buf s rs l' buf' rest) as (s' & E & _); try done.
    by exists s'.
Qed.

(** C11: whatever the server sends, and whatever the outcome, [readinto] keeps
    the length of the caller's buffer, writes nothing at or beyond
    [num_sectors * sector_size], and changes the object only by using up at
    most one op id. *)
Theorem readinto_memory_safe d start n ro skip buf s :
  let '(_, (d', (buf', _))) := readinto start n ro skip (d, (buf, s)) in
  len buf' = len buf /\
  drop (Z.to_nat (n * sector_size d)) buf' = drop (Z.to_nat (n * sector_size d)) buf /\
  (d' = d \/ d' = set_op_id (_op_id d + 1) d).
Proof.
  pose proof (readinto_effect d start n ro skip buf s) as H.
  destruct (readinto _ _ _ _ _) as [o [d' [buf' s']]]. by destruct H as [Hd [Hl Hb]].
Qed.

(** C22: [readinto] terminates on every input: the fuel of its loop, one unit
    per requested byte, never runs out, because every accepted reply adds at
    least one byte. *)
Theorem readinto_terminates {COk : CodecOk C} start n ro skip st :
  fst (readinto start n ro skip st) <> OutOfFuel.
Proof. apply readinto_fuel. Qed.

(** C14: when [readinto] returns and the replies it accepted do not overlap,
    every byte of [buf[0 : length]] comes from one of them: nothing is left
    over from the caller. *)
Theorem readinto_disjoint_complete d start n buf s res d' buf' s' :
  readinto start n false false (d, (buf, s)) = (Ok res, (d', (buf', s'))) ->
  exists rs, flat (rx s) = (Some <$> replies_bytes (_op_id d) rs) ++ flat (rx s') /\
    (ForallOrdPairs disjoint_replies rs ->
     forall i : nat, Z.of_nat i < n * sector_size d ->
       exists r c, r ∈ rs /\ covers (Z.of_nat i) r /\ rp_plain r = Some c /\
         buf' !! i = c !! (i - Z.to_nat (rp_dest r))%nat).
Proof.
  intros H. apply readinto_inv in H as (rs & l' & _ & _ & _ & Hb & Hrun & _ & _ & T).
  exists rs. split; [apply T|]. intros Hd i Hi.
  destruct (run_lookup _ _ _ _ _ _ i Hrun Hb Hd) as [?|[[] _]]; [done|].
  apply run_wire in Hrun as Hw. apply run_bounds in Hrun.
  eapply disjoint_cover; [done..| |]; simpl in *; lia.
Qed.

(** With [skip_decompression] the extras are packed densely from offset 0
    in the order of arrival and never exceed the request, the fragments of the
    result describe exactly where each one is, and the rest of the buffer is
    untouched. *)
Theorem readinto_skip_packs d start n buf s res d' buf' s' :
  readinto start n false true (d, (buf, s)) = (Ok res, (d', (buf', s'))) ->
  exists rs, flat (rx s) = (Some <$> replies_bytes (_op_id d) rs) ++ flat (rx s') /\
    res = mkReadResult (n * sector_size d) (len (rs ≫= rp_extra)) (packed_frags 0 rs) /\
    buf' = splice 0 (rs ≫= rp_extra) buf /\
    (0 <= sector_size d -> len (rs ≫= rp_extra) <= n * sector_size d).
Proof.
  intros H. apply readinto_inv in H as (rs & l' & _ & Hn & _ & Hb & Hrun & -> & _ & T).
  exists rs. split; [apply T|].
  apply run_wire in Hrun as Hw. destruct Hw as (Hw & _ & _).
  apply run_skip in Hrun as (Hf & Hp & Hle & ->); [|done..].
  unfold read_result. rewrite Hw, Hf, len_extras. split; [done|]. split; [done|].
  intros Hss. rewrite <- len_extras. simpl in Hp, Hle. nia.
Qed.

(** C23: reading with [skip_decompression] and rebuilding the sectors from the
    packed buffer gives what a decompressing [read] of the same stream
    returns, and both consume the same bytes. *)
Theorem skip_then_rebuild_is_read d start n buf s res d' buf' s' out :
  readinto start n false true (d, (buf, s)) = (Ok res, (d', (buf', s'))) ->
  rebuild_skip buf' res = Some out -> healthy s ->
  exists s2, read start n (d, s) = (Ok out, (d', s2)) /\ flat (rx s2) = flat (rx s').
Proof.
  intros H Hre Hs.
  apply readinto_inv in H as (rs & l' & Hr & Hn & _ & Hb & Hrun & -> & -> & T).
  pose proof Hr as (_ & _ & _ & Hss & _). unfold fits32 in Hss.
  destruct (run_skip _ _ _ _ _ _ Hrun) as (Hf & Hp & Hle & Hbuf); [done..|].
  simpl in Hf, Hp, Hle. unfold rebuild_skip, read_result in Hre.
  cbn [res_uncompressed_length res_fragments res_compressed_length] in Hre.
  rewrite Hf in Hre. destruct (rebuild_frags _ _ _) as [o|] eqn:Ef; [|done]. cbn in Hre.
  assert (o = out) as -> by (by destruct (_ =? _) in Hre; simplify_eq).
  assert (len (rs ≫= rp_extra) <= len buf) by lia.
  change (packed_offset loop0) with 0 in Hbuf.
  assert (0 + len (rs ≫= rp_extra) <= len buf') as Hl1 by (rewrite Hbuf, len_splice; lia).
  assert (slice 0 (0 + len (rs ≫= rp_extra)) buf' = rs ≫= rp_extra) as Hl2.
  { rewrite Hbuf. apply slice_splice_same; lia. }
  destruct (rebuild_run _ _ _ _ _ _ buf' 0 loop0 _ _ Hrun eq_refl eq_refl ltac:(done) Hl1 Hl2 Ef)
    as [l2 Hrun2].
  destruct (read_ok d start n s rs l2 out (flat (rx s'))) as (s2 & E & _ & F); try done.
  { nia. }
  { apply T. }
  by exists s2.
Qed.

(** How the network cuts the server's bytes into segments changes neither
    the outcome of [readinto], errors included, nor the buffer, the object or
    the rest of the stream. *)
Theorem readinto_segmentation d start n ro skip buf s1 s2 :
  seg_eq s1 s2 ->
  let '(o1, (d1, (b1, t1))) := readinto start n ro skip (d, (buf, s1)) in
  let '(o2, (d2, (b2, t2))) := readinto start n ro skip (d, (buf, s2)) in
  o1 = o2 /\ d1 = d2 /\ b1 = b2 /\ seg_eq t1 t2.
Proof.
  intros Hs. destruct (readinto_agree start n ro skip d buf s1 s2 Hs) as [Ho Hst].
  destruct (readinto _ _ _ _ (d, (buf, s1))) as [o1 [d1 [b1 t1]]].
  destruct (readinto _ _ _ _ (d, (buf, s2))) as [o2 [d2 [b2 t2]]].
  destruct Hst as [Hd [[Hb _] Ht]]. done.
Qed.

(** A reply that comes back from [_recvn] and is rejected before its extra. *)
Lemma read_fragment_rejects length op skip l buf s body rest e :
  healthy s -> fits32 op -> 36 <= len body < 2 ^ 32 ->
  flat (rx s) = (Some <$> aio_msg NFC_AIO_MSG_IO op body) ++ rest ->
  (let chunk_len := u32_at 32 body in
   (bool_decide (u32_at 28 body ∈ seen l) || (chunk_len =? 0) ||
     (length <? u32_at 28 body + chunk_len) = false /\
   _aio_extra_len (Z.shiftr (u64_at 8 body) 32) body chunk_len = Raise e)) ->
  exists s', read_fragment length op skip l (buf, s) = (Raise e, (buf, s')) /\
    talk (aio_msg NFC_AIO_MSG_IO op body) [] s s' /\ flat (rx s') = rest.
Proof.
  intros Hs Hop Hb Hf [Hg He]. unfold aio_msg in Hf. rewrite fmap_app, <- app_assoc in Hf.
  destruct (_recvn_ok NFC_AIO_HDR_SIZE _ _ s Hs ltac:(by rewrite len_aio_hdr) Hf)
    as (s1 & E1 & T1 & F1).
  destruct (_recvn_ok (len body) body rest s1) as (s2 & E2 & T2 & F2);
    [by eapply talk_healthy|done..|].
  exists s2. split; [|split; [by eapply (talk_trans _ _ [] [])|done]]. unfold read_fragment.
  erewrite bind_ok by (apply zoom_run; exact E1).
  rewrite (lift_bind _ _ _ (NFC_AIO_MSG_IO, len body, op))
    by (apply unpack_aio_hdr_ok; [done|unfold fits32; lia|done|done]).
  cbv beta iota.
  rewrite (bind_ok _ _ _ tt (buf, s1)) by (apply raise_when_false; by rewrite !Z.eqb_refl).
  erewrite bind_ok by (apply zoom_run; exact E2).
  erewrite bind_ok by (apply raise_when_false; lia).
  destruct (unpack_opcode body) as [Ho Hd]; [lia|].
  rewrite (lift_bind _ _ _ _ Ho), (lift_bind _ _ _ _ Hd). cbv beta iota.
  erewrite bind_ok by (apply raise_when_false; exact Hg).
  apply bind_raise. by rewrite He.
Qed.

(** C36: a FASTLZ reply whose body has 36 to 39 bytes passes the length check of
    [readinto], which asks for 36, and then [struct.unpack_from] at offset 36
    fails: the caller gets [struct.error] instead of [NfcProtocolError].  The
    buffer is as it was, the op id is used up, and what follows the body is
    left in the stream. *)
Theorem short_fastlz_body_struct_error d start n skip buf s body rest :
  read_ranges d start n -> 1 <= n -> n * sector_size d <= len buf -> healthy s ->
  36 <= len body < 40 -> Z.shiftr (u64_at 8 body) 32 = NFC_COMPRESSION_FASTLZ ->
  u32_at 32 body <> 0 -> u32_at 28 body + u32_at 32 body <= n * sector_size d ->
  flat (rx s) = (Some <$> aio_msg NFC_AIO_MSG_IO (_op_id d) body) ++ rest ->
  exists s', readinto start n false skip (d, (buf, s)) =
      (Raise EStructError, (set_op_id (_op_id d + 1) d, (buf, s'))) /\
    tx s' = tx s ++ [read_request d start n] /\ flat (rx s') = rest.
Proof.
  intros Hr Hn Hl Hs Hb Hc Hz Hin Hf. rewrite readinto_checked by done.
  unfold readinto_io. destruct (sendall_ok (read_request d start n) s Hs) as (s1 & -> & T1 & F1).
  pose proof (talk_healthy _ _ _ _ Hs T1) as Hs1. rewrite <- F1 in Hf.
  assert (fits32 (_op_id d)) as Hop by apply Hr.
  pose proof (u32_at_bound 28 body ltac:(lia) ltac:(lia)).
  pose proof (u32_at_bound 32 body ltac:(lia) ltac:(lia)).
  destruct (read_fragment_rejects (n * sector_size d) (_op_id d) skip loop0 buf s1 body rest EStructError)
    as (s' & E & T & F); try done; [lia| |].
  { cbv zeta. rewrite bool_decide_false by apply not_elem_of_empty.
    rewrite (proj2 (Z.eqb_neq _ _)) by done. rewrite (proj2 (Z.ltb_ge _ _)) by done. split; [done|].
    unfold _aio_extra_len. rewrite Hc. cbn [Z.eqb Pos.eqb NFC_COMPRESSION_FASTLZ].
    rewrite unpack_short; [done|]. unfold calcsize; simpl; lia. }
  exists s'. destruct (Z.to_nat (n * sector_size d)) as [|k] eqn:Ek; [lia|].
  cbn [read_loop]. rewrite (proj2 (Z.ltb_lt _ _)) by (simpl; lia).
  erewrite bind_raise by exact E. split; [done|]. split; [|done].
  by rewrite (talk_tx _ _ _ _ T), (talk_tx _ _ _ _ T1), app_nil_r.
Qed.

(** C38: an AIO error message in answer to a read is noticed from its header
    alone: [readinto] raises [NfcProtocolError] and leaves the body of the
    message in the stream, where the next exchange takes it for a header. *)
Theorem readinto_error_leaves_body d start n skip buf s op body rest :
  read_ranges d start n -> 1 <= n -> 1 <= n * sector_size d <= len buf ->
  healthy s -> fits32 op -> fits32 (len body) ->
  flat (rx s) = (Some <$> aio_msg NFC_AIO_MSG_ERROR op body) ++ rest ->
  exists s', readinto start n false skip (d, (buf, s)) =
      (Raise ENfcProtocolError, (set_op_id (_op_id d + 1) d, (buf, s'))) /\
    flat (rx s') = (Some <$> body) ++ rest.
Proof.
  intros Hr Hn Hb Hs Hop Hl Hf. rewrite readinto_checked by (done || lia).
  unfold readinto_io. destruct (sendall_ok (read_request d start n) s Hs) as (s1 & -> & T1 & F1).
  pose proof (talk_healthy _ _ _ _ Hs T1) as Hs1. rewrite <- F1 in Hf.
  unfold aio_msg in Hf. rewrite fmap_app, <- app_assoc in Hf.
  destruct (_recvn_ok NFC_AIO_HDR_SIZE _ _ s1 Hs1 ltac:(by rewrite len_aio_hdr) Hf)
    as (s2 & E2 & T2 & F2).
  exists s2. split; [|done]. destruct (Z.to_nat (n * sector_size d)) as [|k] eqn:Ek; [lia|].
  cbn [read_loop]. rewrite (proj2 (Z.ltb_lt _ _)) by (simpl; lia).
  erewrite bind_raise; [done|]. unfold read_fragment.
  erewrite bind_ok by (apply zoom_run; exact E2). apply bind_raise. unfold lift.
  by rewrite unpack_aio_hdr_error.
Qed.
(** C37: completion counts lengths, not bytes.  Any well-formed fragments with
    different offsets and together as long as the request are accepted, and if
    two of them overlap, [readinto] returns although some byte of the request
    never arrived: there the caller's old byte is handed back as data. *)
Theorem overlapping_replies_leave_hole d start n buf s rs rest :
  let length := n * sector_size d in
  read_ranges d start n -> 1 <= n -> length <= len buf -> healthy s ->
  Forall (reply_ok length false loop0) rs -> NoDup (rp_dest <$> rs) ->
  sumZ rp_chunk_len rs = length -> (ForallOrdPairs disjoint_replies rs -> False) ->
  flat (rx s) = (Some <$> replies_bytes (_op_id d) rs) ++ rest ->
  exists s' buf', readinto start n false false (d, (buf, s)) =
      (Ok (mkReadResult length (sumZ (fun r => len (rp_extra r)) rs) []), (set_op_id (_op_id d + 1) d, (buf', s'))) /\
    flat (rx s') = rest /\
    (forall i : nat, ~ Exists (covers (Z.of_nat i)) rs -> buf' !! i = buf !! i) /\
    exists i : nat, Z.of_nat i < length /\ ~ Exists (covers (Z.of_nat i)) rs.
Proof.
  intros length Hr Hn Hl Hs Hok Hnd Hsum Hov Hf.
  destruct (run_counted length rs loop0 buf) as (l' & buf' & Hrun & Hkeep); try done.
  destruct (readinto_ok d start n false buf s rs l' buf' rest) as (s' & E & _ & F); try done.
  exists s', buf'. split.
  { rewrite E. unfold read_result. apply run_wire in Hrun as [-> _]. done. }
  split_and!; try done.
  apply overlap_hole; [|done..]. eapply Forall_impl; [exact Hok|]. intros r [Hb _ Hz _ _ _].
  pose proof (reply_fields r ltac:(lia)). lia.
Qed.
End Theorems.

(** * Overlapping replies *)

Definition hole_disk : NfcDisk := init_disk (str "vm.vmdk") 7 4 NFC_COMPRESSION_NONE 65536 1.

Definition hole_reply (dest : Z) (extra : bytes) : reply :=
  mkReply (io_body 7 NFC_AIO_IO_READ 0 4 dest (len extra) (len extra)) extra.

(** Bytes 0 and 1, then bytes 1 and 2. *)
Definition hole_replies : list reply :=
  [hole_reply 0 [Byte.x01; Byte.x02]; hole_reply 1 [Byte.x03; Byte.x04]].

(** * Witnesses *)

Definition demo_stream : bytes := replies_bytes 0 [demo_raw; demo_packed].

Lemma demo_healthy bs : healthy (demo_sock bs).
Proof. by split; [|constructor]. Qed.

Lemma demo_carries :
  @carries lab_codec demo_content demo_raw /\ @carries lab_codec demo_content demo_packed.
Proof. split; split; vm_compute; try done; split; by intros. Qed.

Lemma demo_ranges : read_ranges demo_disk 0 1.
Proof. vm_compute. repeat split; by intros. Qed.

Lemma read_returns_content_witness :
  exists s', @read lab_codec 0 1 (demo_disk, demo_sock demo_stream) =
      (Ok demo_content, (set_op_id 1 demo_disk, s')) /\
    tx s' = [read_request demo_disk 0 1] /\ flat (rx s') = [].
Proof.
  apply (@read_returns_content lab_codec demo_disk 0 1 (demo_sock demo_stream) demo_content
    [demo_raw; demo_packed] [demo_packed; demo_raw] []).
  - apply demo_ranges.
  - lia.
  - reflexivity.
  - constructor; [apply demo_carries|]. constructor; [apply demo_carries|constructor].
  - apply Permutation_swap.
  - by vm_compute.
  - apply demo_healthy.
  - vm_compute. reflexivity.
Defined.

Lemma readinto_refines_witness :
  exists rs l' rest, read_ranges demo_disk 0 1 /\ 1 <= 1 /\ 1 * sector_size demo_disk <= 3 /\
    flat (rx (demo_sock demo_stream)) = (Some <$> replies_bytes 0 rs) ++ rest /\
    @run_replies lab_codec 3 false loop0 (zeros 3) rs l' demo_content /\
    mkReadResult 3 2 [] = read_result 3 false l' /\
    set_op_id 1 demo_disk = set_op_id 1 demo_disk.
Proof.
  apply (@readinto_refines lab_codec demo_disk 0 1 false (zeros 3) (demo_sock demo_stream)
    (mkReadResult 3 2 []) (set_op_id 1 demo_disk) demo_content).
  - apply demo_healthy.
  - eexists. vm_compute. reflexivity.
Defined.

Lemma readinto_terminates_witness :
  fst (@readinto lab_codec 0 1 false false (demo_disk, (zeros 3, demo_sock [])))
    <> OutOfFuel.
Proof.
  apply (@readinto_terminates lab_codec lab_codec_ok).
Defined.

Lemma readinto_disjoint_complete_witness :
  exists s' rs, flat (rx (demo_sock demo_stream)) = (Some <$> replies_bytes 0 rs) ++ flat (rx s') /\
    (ForallOrdPairs disjoint_replies rs ->
     forall i : nat, Z.of_nat i < 3 ->
       exists r c, r ∈ rs /\ covers (Z.of_nat i) r /\ @rp_plain lab_codec r = Some c /\
         demo_content !! i = c !! (i - Z.to_nat (rp_dest r))%nat).
Proof.
  eexists. apply (@readinto_disjoint_complete lab_codec demo_disk 0 1 (zeros 3)
    (demo_sock demo_stream) (mkReadResult 3 2 []) (set_op_id 1 demo_disk) demo_content).
  vm_compute. reflexivity.
Defined.

Lemma readinto_skip_packs_witness :
  exists s' rs, flat (rx (demo_sock demo_stream)) = (Some <$> replies_bytes 0 rs) ++ flat (rx s') /\
    mkReadResult 3 2 [mkReadFragment 2 1 0 0 1; mkReadFragment 0 2 2 1 1] =
      mkReadResult 3 (len (rs ≫= rp_extra)) (packed_frags 0 rs) /\
    [Byte.x42; Byte.x41; Byte.x00] = splice 0 (rs ≫= rp_extra) (zeros 3) /\
    (0 <= 3 -> len (rs ≫= rp_extra) <= 3).
Proof.
  eexists. apply (@readinto_skip_packs lab_codec demo_disk 0 1 (zeros 3)
    (demo_sock demo_stream) _ (set_op_id 1 demo_disk)).
  vm_compute. reflexivity.
Defined.

Lemma skip_then_rebuild_is_read_witness :
  exists s' s2, @read lab_codec 0 1 (demo_disk, demo_sock demo_stream) =
      (Ok demo_content, (set_op_id 1 demo_disk, s2)) /\ flat (rx s2) = flat (rx s').
Proof.
  eexists. apply (@skip_then_rebuild_is_read lab_codec demo_disk 0 1 (zeros 3)
    (demo_sock demo_stream)
    (mkReadResult 3 2 [mkReadFragment 2 1 0 0 1; mkReadFragment 0 2 2 1 1])
    (set_op_id 1 demo_disk) [Byte.x42; Byte.x41; Byte.x00]).
  - vm_compute. reflexivity.
  - vm_compute. reflexivity.
  - apply demo_healthy.
Defined.

Lemma readinto_segmentation_witness :
  let '(o1, (d1, (b1, t1))) := @readinto lab_codec 0 1 false false
    (demo_disk, (zeros 3, demo_sock demo_stream)) in
  let '(o2, (d2, (b2, t2))) := @readinto lab_codec 0 1 false false
    (demo_disk, (zeros 3, Sock ((fun b => RxData [b]) <$> demo_stream) [] [] false false)) in
  o1 = o2 /\ d1 = d2 /\ b1 = b2 /\ seg_eq t1 t2.
Proof.
  apply (@readinto_segmentation lab_codec). repeat split; vm_compute; reflexivity.
Defined.

(** A FASTLZ reply of 36 bytes. *)
Definition short_body : bytes := take 36 (rp_body demo_packed).

Lemma short_fastlz_body_struct_error_witness :
  exists s', @readinto lab_codec 0 1 false false
      (demo_disk, (zeros 3, demo_sock (aio_msg NFC_AIO_MSG_IO 0 short_body))) =
    (Raise EStructError, (set_op_id 1 demo_disk, (zeros 3, s'))) /\
    tx s' = [read_request demo_disk 0 1] /\ flat (rx s') = [].
Proof.
  apply (@short_fastlz_body_struct_error lab_codec demo_disk 0 1 false (zeros 3)
    (demo_sock (aio_msg NFC_AIO_MSG_IO 0 short_body)) short_body []).
  - apply demo_ranges.
  - lia.
  - by vm_compute.
  - apply demo_healthy.
  - vm_compute. split; by intros.
  - vm_compute. reflexivity.
  - by vm_compute.
  - by vm_compute.
  - vm_compute. reflexivity.
Defined.

Lemma hole_replies_ok : Forall (@reply_ok lab_codec 4 false loop0) hole_replies.
Proof.
  repeat constructor; try (vm_compute; split; by intros); try apply not_elem_of_empty; try (by vm_compute);
    vm_compute; eauto.
Qed.

Lemma overlapping_replies_leave_hole_witness :
  exists s' buf', @readinto lab_codec 0 1 false false
      (hole_disk, ([Byte.x0a; Byte.x0b; Byte.x0c; Byte.x0d], demo_sock (replies_bytes 0 hole_replies))) =
      (Ok (mkReadResult 4 4 []), (set_op_id 1 hole_disk, (buf', s'))) /\
    flat (rx s') = [] /\
    (forall i : nat, ~ Exists (covers (Z.of_nat i)) hole_replies ->
       buf' !! i = [Byte.x0a; Byte.x0b; Byte.x0c; Byte.x0d] !! i) /\
    exists i : nat, Z.of_nat i < 4 /\ ~ Exists (covers (Z.of_nat i)) hole_replies.
Proof.
  apply (@overlapping_replies_leave_hole lab_codec hole_disk 0 1
    [Byte.x0a; Byte.x0b; Byte.x0c; Byte.x0d] (demo_sock (replies_bytes 0 hole_replies)) hole_replies []).
  - vm_compute. repeat split; by intros.
  - lia.
  - by vm_compute.
  - apply demo_healthy.
  - apply hole_replies_ok.
  - apply (bool_decide_unpack _). vm_compute. done.
  - vm_compute. reflexivity.
  - intros H. inversion_clear H as [|?? H1 _]. inversion_clear H1 as [|?? H2 _].
    destruct H2 as [H2|H2]; vm_compute in H2; by destruct H2.
  - vm_compute. reflexivity.
Defined.

Lemma readinto_error_leaves_body_witness :
  exists s', @readinto lab_codec 0 1 false false
      (demo_disk, (zeros 3, demo_sock (aio_msg NFC_AIO_MSG_ERROR 0 [Byte.x05]))) =
      (Raise ENfcProtocolError, (set_op_id 1 demo_disk, (zeros 3, s'))) /\
    flat (rx s') = [Some Byte.x05].
Proof.
  apply (@readinto_error_leaves_body lab_codec demo_disk 0 1 false (zeros 3)
    (demo_sock (aio_msg NFC_AIO_MSG_ERROR 0 [Byte.x05])) 0 [Byte.x05] []).
  - apply demo_ranges.
  - lia.
  - vm_compute. split; by intros.
  - apply demo_healthy.
  - vm_compute. split; by intros.
  - vm_compute. split; by intros.
  - vm_compute. reflexivity.
Defined.
