(* ===== verification/DiskWrite.v ===== *)
(** [NfcDisk.write] of [openvixdisklib/nfc_open.py]: one op id for the whole
    call, one AIO message per fragment of at most [aio_buffer_size] bytes, and
    one reply. *)
From Stdlib Require Import ZArith Lia String.
From stdpp Require Import base list numbers sets.
From coqutil Require Import Byte Word.LittleEndianList.
Import LittleEndianList.
From S2P Require Import Prelude Python PyStr Socket Codec Wire Disk.

(** [extra], [extra_len = len(extra)] and [ctype] of a chunk. *)
Definition choose_extra {C : Codec} (compression : Z) (chunk : bytes) : outcome (bytes * Z) :=
  if (compression =? NFC_COMPRESSION_FASTLZ) && (16 <=? len chunk) then
    compressed ← codec_compress chunk;
    if negb (len compressed =? 0) && (len compressed <? len chunk)
    then Ok (compressed, NFC_COMPRESSION_FASTLZ)
    else Ok (chunk, NFC_COMPRESSION_NONE)
  else Ok (chunk, NFC_COMPRESSION_NONE).

(** One round of [while frag_offset < length]; returns the next
    [frag_offset]. *)
Definition write_fragment {C : Codec} (d : NfcDisk) (data : bytes)
    (length disk_offset op_id frag_offset : Z) : M sock Z :=
  let chunk := py_slice frag_offset (frag_offset + aio_buffer_size d) data in
  '(extra, ctype) ← lift (choose_extra (compression d) chunk);
  let opcode := Z.lor NFC_AIO_IO_WRITE (Z.shiftl ctype 32) in
  payload ← lift (struct_pack "<QQQIIIII"
    [handle d; opcode; disk_offset; length; frag_offset; len chunk; len extra; 0]);
  hdr ← lift (_pack_aio_hdr NFC_AIO_MSG_IO (len payload) op_id);
  sendall (hdr ++ payload ++ extra);;
  mret (frag_offset + len chunk).

(** With [1 <= aio_buffer_size] every round sends at least one byte, so fuel
    [length] is enough. *)
Fixpoint write_loop {C : Codec} (fuel : nat) (d : NfcDisk) (data : bytes)
    (length disk_offset op_id frag_offset : Z) : M sock unit :=
  if frag_offset <? length then
    match fuel with
    | O => out_of_fuel
    | S fuel' =>
        frag_offset' ← write_fragment d data length disk_offset op_id frag_offset;
        write_loop fuel' d data length disk_offset op_id frag_offset'
    end
  else mret tt.

Definition write {C : Codec} (start_sector num_sectors : Z) (data : bytes) :
    M (NfcDisk * sock) unit :=
  raise_when (num_sectors <? 1) EValueError;;
  d ← gets fst;
  let length := num_sectors * sector_size d in
  raise_when (negb (len data =? length)) EValueError;;
  let disk_offset := start_sector * sector_size d in
  op_id ← zoom _next_op_id;
  zoom (write_loop (Z.to_nat length) d data length disk_offset op_id 0);;
  '(rtype, rop, _body) ← _aio_recv_reply;
  raise_when (negb (rtype =? NFC_AIO_MSG_IO) || negb (rop =? op_id)) ENfcProtocolError.

(** * Specification: the frames of a write *)

(** The chunks of [aio_buffer_size] bytes, the last one shorter. *)
Fixpoint chunks_of (fuel : nat) (k : Z) (data : bytes) : list bytes :=
  match fuel with
  | O => []
  | S fuel' =>
      match data with
      | [] => []
      | _ => slice 0 k data :: chunks_of fuel' k (drop (Z.to_nat k) data)
      end
  end.

Definition write_frame (d : NfcDisk) (length disk_offset op_id frag_offset : Z)
    (chunk extra : bytes) (ctype : Z) : bytes :=
  aio_hdr NFC_AIO_MSG_IO 44 op_id ++
  io_body (handle d) (Z.lor NFC_AIO_IO_WRITE (Z.shiftl ctype 32)) disk_offset length
    frag_offset (len chunk) (len extra) ++ extra.

(** [frames] are the messages for [chunks], starting at [frag_offset]. *)
Inductive write_frames {C : Codec} (d : NfcDisk) (length disk_offset op_id : Z) :
    Z -> list bytes -> list bytes -> Prop :=
  | frames_nil o : write_frames d length disk_offset op_id o [] []
  | frames_cons o chunk chunks extra ctype frames :
      choose_extra (compression d) chunk = Ok (extra, ctype) ->
      write_frames d length disk_offset op_id (o + len chunk) chunks frames ->
      write_frames d length disk_offset op_id o (chunk :: chunks)
        (write_frame d length disk_offset op_id o chunk extra ctype :: frames).

Definition write_ranges (d : NfcDisk) (start_sector num_sectors : Z) : Prop :=
  fits64 (handle d) /\ fits64 (start_sector * sector_size d) /\
  fits32 (num_sectors * sector_size d) /\ fits32 (_op_id d) /\ 1 <= aio_buffer_size d.

(** * Specification: a server that stores what it receives *)

(** One message of the client's stream: handle, byte offset on disk, the bytes
    it stands for, and the rest of the stream.  The layout is that of
    [docs/nfc_write.md]. *)
Definition parse_write {C : Codec} (op_id : Z) (stream : bytes) :
    option (Z * Z * bytes * bytes) :=
  if len stream <? 60 then None else
  let body := slice 16 60 stream in
  let ctype := Z.shiftr (u64_at 8 body) 32 in
  let extra_len := u32_at 36 body in
  let extra := slice 60 (60 + extra_len) stream in
  if negb (bool_decide (take 16 stream = aio_hdr NFC_AIO_MSG_IO 44 op_id)) then None
  else if len stream <? 60 + extra_len then None else
  plain ← (if ctype =? NFC_COMPRESSION_FASTLZ then
             match codec_decompress extra (u32_at 32 body) with Ok c => Some c | _ => None end
           else if ctype =? NFC_COMPRESSION_NONE then Some extra else None);
  if negb (len plain =? u32_at 32 body) then None else
  Some (u64_at 0 body, u64_at 16 body + u32_at 28 body, plain,
        drop (Z.to_nat (60 + extra_len)) stream).

(** Store the fragments of one op id into the disk [image]. *)
Fixpoint server_store {C : Codec} (fuel : nat) (handle op_id : Z) (stream image : bytes) :
    option bytes :=
  match stream, fuel with
  | [], _ => Some image
  | _, O => None
  | _, S fuel' =>
      '(h, off, plain, rest) ← parse_write op_id stream;
      if (h =? handle) && (off + len plain <=? len image)
      then server_store fuel' handle op_id rest (splice off plain image)
      else None
  end.
