(* ===== verification/WriteSpec.v ===== *)
(** The send loop of [NfcDisk.write] against its specification: the frames of
    the chunks, and what a server that stores them ends up with.  The
    properties are in [WriteTheorems]. *)
From Stdlib Require Import ZArith Lia String.
From stdpp Require Import base list numbers sets.
From coqutil Require Import Byte Word.LittleEndianList.
Import LittleEndianList.
From S2P Require Import Prelude Python PyStr Socket Codec Wire Disk DiskWrite.

(** * Chunks *)

Lemma drop_slice_0 {A} k (l : list A) : slice 0 k l ++ drop (Z.to_nat k) l = l.
Proof. unfold slice. rewrite Z.sub_0_r, drop_0. apply take_drop. Qed.

Lemma py_slice_drop {A} a k (l : list A) :
  0 <= a -> 0 <= k -> py_slice a (a + k) l = slice 0 k (drop (Z.to_nat a) l).
Proof.
  intros. unfold py_slice, slice. rewrite (proj2 (Z.ltb_ge _ _)) by lia.
  rewrite drop_0. f_equal. lia.
Qed.

Lemma chunks_of_step fuel k data :
  data <> [] ->
  chunks_of (S fuel) k data = slice 0 k data :: chunks_of fuel k (drop (Z.to_nat k) data).
Proof. by destruct data. Qed.

Lemma chunks_of_nil fuel k : chunks_of fuel k [] = [].
Proof. by destruct fuel. Qed.

Lemma chunk_len k (data : bytes) :
  1 <= k -> data <> [] -> 1 <= len (slice 0 k data) <= k.
Proof.
  intros Hk Hd. split; [|pose proof (len_slice_le 0 k data); lia].
  destruct data as [|b data]; [done|]. unfold slice. rewrite Z.sub_0_r, drop_0.
  destruct (Z.to_nat k) eqn:E; [lia|]. cbn [take]. rewrite len_cons.
  pose proof (len_nonneg (take n data)). lia.
Qed.

Lemma len_drop_chunk k (data : bytes) :
  1 <= k -> len (drop (Z.to_nat k) data) = len data - len (slice 0 k data).
Proof. intros. rewrite <- (drop_slice_0 k data) at 2. rewrite len_app. lia. Qed.

Lemma drop_chunk k (data : bytes) :
  drop (Z.to_nat (len (slice 0 k data))) data = drop (Z.to_nat k) data.
Proof.
  unfold slice, len. rewrite Z.sub_0_r, drop_0, length_take, Nat2Z.id.
  destruct (Nat.le_gt_cases (Z.to_nat k) (length data)).
  - by rewrite Nat.min_l.
  - by rewrite !drop_ge by lia.
Qed.

(** Enough fuel: the chunks make up the data, each at most [k] bytes. *)
Lemma chunks_of_spec fuel k data :
  1 <= k -> len data <= Z.of_nat fuel ->
  chunks_of fuel k data ≫= id = data /\
  Forall (fun c => 1 <= len c <= k) (chunks_of fuel k data).
Proof.
  intros Hk. revert data. induction fuel as [|fuel IH]; intros data Hf.
  { rewrite (len_nil_inv data) by lia. by split; [|constructor]. }
  destruct (decide (data = [])) as [->|Hd]; [by split; [|constructor]|].
  rewrite chunks_of_step by done. pose proof (chunk_len k data Hk Hd) as Hc.
  destruct (IH (drop (Z.to_nat k) data)) as [Hb Hall]; [rewrite len_drop_chunk; lia|].
  split; [|by constructor]. rewrite bind_cons, Hb. apply drop_slice_0.
Qed.

Section WriteSpec.
Context {C : Codec}.

(** * The extra of a chunk *)

Lemma choose_extra_inv c chunk extra ctype :
  choose_extra c chunk = Ok (extra, ctype) ->
  (ctype = NFC_COMPRESSION_NONE /\ extra = chunk) \/
  (ctype = NFC_COMPRESSION_FASTLZ /\ c = NFC_COMPRESSION_FASTLZ /\ 16 <= len chunk /\
   codec_compress chunk = Ok extra /\ 1 <= len extra < len chunk).
Proof.
  unfold choose_extra. destruct (Z.eqb_spec c NFC_COMPRESSION_FASTLZ) as [->|];
    [|by intros [= <- <-]; left].
  destruct (Z.leb_spec 16 (len chunk)); [|by intros [= <- <-]; left].
  cbn [andb]. destruct (codec_compress chunk) as [w|e|] eqn:E; cbn [mbind outcome_bind]; [|done..].
  destruct (Z.eqb_spec (len w) 0); [by intros [= <- <-]; left|].
  destruct (Z.ltb_spec (len w) (len chunk)); [|by intros [= <- <-]; left].
  intros [= <- <-]. right. pose proof (len_nonneg w). split_and!; done || lia.
Qed.

Lemma choose_extra_le c chunk extra ctype :
  choose_extra c chunk = Ok (extra, ctype) -> len extra <= len chunk /\ fits32 ctype.
Proof. intros [[-> ->]|(-> & _ & _ & _ & ?)]%choose_extra_inv; (split; [lia|done]). Qed.

(** * The loop *)

Lemma pack_write_payload d off length fo (chunk extra : bytes) ctype :
  fits64 (handle d) -> fits64 off -> fits32 length -> fits32 fo -> fits32 (len chunk) ->
  fits32 (len extra) -> fits32 ctype ->
  struct_pack "<QQQIIIII" [handle d; Z.lor NFC_AIO_IO_WRITE (Z.shiftl ctype 32); off; length;
    fo; len chunk; len extra; 0] =
  Ok (io_body (handle d) (Z.lor NFC_AIO_IO_WRITE (Z.shiftl ctype 32)) off length fo
    (len chunk) (len extra)).
Proof.
  intros Hh Ho Hl Hf Hc He Ht. rewrite pack_ok; compute_codes; [done|].
  repeat constructor; auto with wire. apply fits_Q, opcode_fits; done.
Qed.

Lemma write_loop_ok fuel d data length off op fo frames :
  fits64 (handle d) -> fits64 off -> fits32 length -> fits32 op -> 1 <= aio_buffer_size d ->
  len data = length -> 0 <= fo -> length - fo <= Z.of_nat fuel ->
  write_frames d length off op fo
    (chunks_of fuel (aio_buffer_size d) (drop (Z.to_nat fo) data)) frames ->
  exch (write_loop fuel d data length off op fo) [] tt frames.
Proof.
  intros Hh Ho Hl Hop Hk Hlen. revert fo frames.
  induction fuel as [|fuel IH]; intros fo frames Hfo Hfuel Hfr; cbn [write_loop].
  { rewrite (proj2 (Z.ltb_ge _ _)) by lia. cbn [chunks_of] in Hfr. inversion Hfr. apply exch_ret. }
  destruct (Z.ltb_spec fo length) as [Hlt|Hge].
  2: { rewrite drop_ge in Hfr by zlia. inversion Hfr. apply exch_ret. }
  assert (drop (Z.to_nat fo) data <> []) as Hd.
  { intros E%(f_equal Datatypes.length). rewrite length_drop in E. simpl in E. zlia. }
  rewrite chunks_of_step in Hfr by done.
  set (chunk := slice 0 (aio_buffer_size d) (drop (Z.to_nat fo) data)) in *.
  pose proof (chunk_len (aio_buffer_size d) _ Hk Hd) as Hc. fold chunk in Hc.
  assert (len chunk <= length - fo) as Hc2.
  { pose proof (len_drop_chunk (aio_buffer_size d) (drop (Z.to_nat fo) data) Hk) as E.
    fold chunk in E. pose proof (len_nonneg (drop (Z.to_nat (aio_buffer_size d))
      (drop (Z.to_nat fo) data))). unfold len in E, Hlen |- *.
    rewrite !length_drop in *. lia. }
  inversion_clear Hfr as [|? ? ? extra ctype frames' Hex Hfr'].
  pose proof (choose_extra_le _ _ _ _ Hex) as [Hel Hct].
  unfold fits32 in Hl.
  eapply exch_bind; [| |by rewrite app_nil_l|].
  - unfold write_fragment. rewrite py_slice_drop by lia. fold chunk.
    eapply exch_bind; [by apply exch_lift| |done..]. cbv beta iota.
    eapply exch_bind; [apply exch_lift, pack_write_payload; unfold fits32; try done;
      pose proof (len_nonneg extra); lia| |done..].
    rewrite len_io_body.
    eapply exch_bind; [by apply exch_lift, pack_aio_hdr_ok| |done..].
    eapply exch_bind; [apply exch_sendall|apply exch_ret|done..].
  - apply IH; [lia|lia|].
    replace (Z.to_nat (fo + len chunk)) with (Z.to_nat fo + Z.to_nat (len chunk))%nat by lia.
    rewrite <- drop_drop. unfold chunk in Hfr' |- *. by rewrite drop_chunk.
  - done.
Qed.

Lemma pack_write_inv h op off length fo n e payload :
  struct_pack "<QQQIIIII" [h; op; off; length; fo; n; e; 0] = Ok payload ->
  payload = io_body h op off length fo n e /\
  fits64 h /\ fits64 off /\ fits32 length.
Proof.
  unfold struct_pack. compute_codes. intros [H ->]%pack_codes_iff. split; [done|].
  rewrite !Forall2_cons, !code_fits_Q, !code_fits_I in H.
  destruct H as (? & _ & ? & ? & _). done.
Qed.

Lemma write_loop_inv fuel d data length off op fo s s' :
  1 <= aio_buffer_size d -> len data = length -> 0 <= fo -> length - fo <= Z.of_nat fuel ->
  write_loop fuel d data length off op fo s = (Ok tt, s') ->
  exists frames, write_frames d length off op fo
      (chunks_of fuel (aio_buffer_size d) (drop (Z.to_nat fo) data)) frames /\
    talk [] frames s s' /\
    (fo < length -> fits64 (handle d) /\ fits64 off /\ fits32 length /\ fits32 op).
Proof.
  intros Hk Hlen. revert fo s. induction fuel as [|fuel IH]; intros fo s Hfo Hfuel H;
    cbn [write_loop] in H; destruct (Z.ltb_spec fo length) as [Hlt|Hge].
  - lia.
  - injection H as <-. exists []. split; [constructor|]. split; [apply talk_refl|lia].
  - assert (drop (Z.to_nat fo) data <> []) as Hd.
    { intros E%(f_equal Datatypes.length). rewrite length_drop in E. simpl in E. zlia. }
    rewrite chunks_of_step by done.
    pose proof (chunk_len (aio_buffer_size d) _ Hk Hd) as Hc.
    apply bind_inv_ok in H as (fo' & s1 & Hf & H). unfold write_fragment in Hf.
    rewrite py_slice_drop in Hf by lia.
    set (chunk := slice 0 (aio_buffer_size d) (drop (Z.to_nat fo) data)) in *.
    apply bind_inv_ok in Hf as ([extra ctype] & st & [Hex ->]%lift_inv_ok & Hf).
    apply bind_inv_ok in Hf as (p & st & [(-> & Hh & Ho & Hl)%pack_write_inv ->]%lift_inv_ok & Hf).
    rewrite len_io_body in Hf.
    apply bind_inv_ok in Hf as (h & st & [(_ & _ & Hop & ->)%pack_aio_hdr_inv ->]%lift_inv_ok & Hf).
    apply bind_inv_ok in Hf as (u & st & T1%sendall_inv & [-> ->]%ret_inv_ok).
    apply IH in H as (frames & Hfr & T2 & _); [|lia..].
    eexists (_ :: frames). split; [|split; [exact (talk_trans [] [] [_] _ _ _ _ T1 T2)|done]].
    apply frames_cons; [done|]. revert Hfr.
    replace (Z.to_nat (fo + len chunk)) with (Z.to_nat fo + Z.to_nat (len chunk))%nat by lia.
    rewrite <- drop_drop. unfold chunk. by rewrite drop_chunk.
  - injection H as <-. exists []. rewrite drop_ge by zlia. rewrite chunks_of_nil.
    split; [constructor|]. split; [apply talk_refl|lia].
Qed.

(** * The server's side *)

(** Decoding the extra of a chunk gives the chunk back. *)
Lemma choose_extra_plain {COk : CodecOk C} c chunk extra ctype :
  choose_extra c chunk = Ok (extra, ctype) ->
  (if ctype =? NFC_COMPRESSION_FASTLZ then
     match codec_decompress extra (len chunk) with Ok p => Some p | _ => None end
   else if ctype =? NFC_COMPRESSION_NONE then Some extra else None) = Some chunk.
Proof.
  intros [[-> ->]|(-> & _ & _ & Hc & Hl)]%choose_extra_inv; [done|].
  cbn [Z.eqb Pos.eqb NFC_COMPRESSION_FASTLZ].
  erewrite codec_roundtrip; [done|done|]. intros ->. rewrite len_nil in Hl. lia.
Qed.

Lemma parse_write_frame {COk : CodecOk C} d length off op o chunk extra ctype rest :
  fits64 (handle d) -> fits64 off -> fits32 length -> fits32 o -> fits32 (len chunk) ->
  choose_extra (compression d) chunk = Ok (extra, ctype) ->
  parse_write op (write_frame d length off op o chunk extra ctype ++ rest) =
  Some (handle d, off + o, chunk, rest).
Proof.
  intros Hh Hoff Hl Ho Hc Hex. pose proof (choose_extra_le _ _ _ _ Hex) as [Hel Hct].
  pose proof (len_nonneg extra). pose proof (len_nonneg rest).
  assert (fits32 (len extra)) as Hef by (unfold fits32 in *; lia).
  set (opc := Z.lor NFC_AIO_IO_WRITE (Z.shiftl ctype 32)).
  assert (fits64 opc) as Hopc by by apply opcode_fits.
  set (body := io_body (handle d) opc off length o (len chunk) (len extra)).
  assert (len body = 44) as Hb by apply len_io_body.
  assert (write_frame d length off op o chunk extra ctype ++ rest =
    aio_hdr NFC_AIO_MSG_IO 44 op ++ body ++ extra ++ rest) as ->.
  { unfold write_frame. by rewrite <- !app_assoc. }
  pose proof (len_aio_hdr NFC_AIO_MSG_IO 44 op) as Hhl. unfold NFC_AIO_HDR_SIZE in Hhl.
  set (hdr := aio_hdr NFC_AIO_MSG_IO 44 op) in *.
  unfold parse_write. rewrite !len_app, Hhl, Hb.
  rewrite (proj2 (Z.ltb_ge _ _)) by lia.
  assert (slice 16 60 (hdr ++ body ++ extra ++ rest) = body) as ->.
  { rewrite slice_app_r, Hhl by lia. by apply slice_prefix. }
  unfold body. rewrite io_body_opcode, io_body_extra, io_body_chunk, io_body_offset, io_body_dest
    by done. fold body.
  assert (u64_at 0 body = handle d) as ->.
  { unfold body. rewrite io_body_fields. by apply u64_at_0. }
  assert (Z.shiftr opc 32 = ctype) as -> by by apply opcode_ctype.
  rewrite bool_decide_true by (rewrite take_app_le by zlia; apply take_ge; zlia).
  cbn [negb]. rewrite (proj2 (Z.ltb_ge _ _)) by lia.
  assert (slice 60 (60 + len extra) (hdr ++ body ++ extra ++ rest) = extra) as ->.
  { rewrite slice_app_r, Hhl by lia. rewrite slice_app_r, Hb by lia.
    apply slice_prefix. lia. }
  rewrite (choose_extra_plain _ _ _ _ Hex). cbn [mbind option_bind]. rewrite Z.eqb_refl.
  cbn [negb]. do 2 f_equal. rewrite !app_assoc, drop_app_ge.
  - replace (_ - _)%nat with 0%nat; [done|]. rewrite !length_app. zlia.
  - rewrite !length_app. zlia.
Qed.

Lemma server_store_frames {COk : CodecOk C} d length off op chunks frames image o fuel :
  fits64 (handle d) -> fits64 off -> fits32 length ->
  write_frames d length off op o chunks frames ->
  0 <= o -> o + len (chunks ≫= id) <= length -> off + length <= len image ->
  Forall (fun c => 1 <= len c) chunks -> (Datatypes.length frames <= fuel)%nat ->
  server_store fuel (handle d) op (frames ≫= id) image =
    Some (splice (off + o) (chunks ≫= id) image).
Proof.
  intros Hh Hoff Hl Hfr. revert image fuel.
  induction Hfr as [o|o chunk chunks extra ctype frames Hex Hfr IH];
    intros image fuel Ho Hsum Hin Hall Hfuel.
  { change (([] : list bytes) ≫= id) with ([] : bytes). rewrite splice_nil. by destruct fuel. }
  rewrite bind_cons, len_app in Hsum. unfold id at 1 in Hsum. inversion_clear Hall.
  pose proof (len_nonneg (chunks ≫= id)). unfold fits32, fits64 in *.
  destruct fuel as [|fuel]; [simpl in Hfuel; lia|]. rewrite !bind_cons. unfold id at 1 3.
  assert (parse_write op (write_frame d length off op o chunk extra ctype ++ (frames ≫= id)) =
    Some (handle d, off + o, chunk, frames ≫= id)) as Hp.
  { apply parse_write_frame; unfold fits32, fits64; done || lia. }
  destruct (write_frame d length off op o chunk extra ctype ++ (frames ≫= id)) as [|b l] eqn:E.
  { exfalso. unfold write_frame in E. by apply (f_equal Datatypes.length) in E. }
  cbn [server_store]. rewrite Hp. cbn [mbind option_bind]. rewrite Z.eqb_refl.
  rewrite (proj2 (Z.leb_le _ _)) by lia. cbn [andb].
  rewrite IH; [|lia|lia|rewrite len_splice; lia|done|simpl in Hfuel; lia].
  f_equal. rewrite Z.add_assoc. rewrite splice_adjacent; [done|lia|lia].
Qed.
End WriteSpec.
