(* ===== verification/Server.v ===== *)
(** A reference server for reads, from [docs/nfc_read.md]: it takes the payload
    of a read request and answers with fragments of a disk image, each one
    compressed when that was asked for and shrinks it.  With [server_store] of
    [DiskWrite] it is the disk behind the session. *)
From Stdlib Require Import ZArith Lia String.
From stdpp Require Import base list numbers sets gmap.
From coqutil Require Import Byte Word.LittleEndianList.
Import LittleEndianList.
From S2P Require Import Prelude Python PyStr Socket Codec Wire Disk DiskRead ReadSpec ReadLoop ReadInto ReadCorrect DiskWrite WriteSpec.

Section Server.
Context {C : Codec}.

(** The extra the server sends for a chunk, and its type. *)
Definition server_extra (ctype : Z) (chunk : bytes) : bytes * Z :=
  match choose_extra ctype chunk with Ok p => p | _ => (chunk, NFC_COMPRESSION_NONE) end.

Definition server_reply (handle offset length ctype dest : Z) (chunk : bytes) : reply :=
  let '(extra, t) := server_extra ctype chunk in
  mkReply (io_body handle (Z.lor NFC_AIO_IO_READ (Z.shiftl t 32)) offset length dest
    (len chunk) (len extra)) extra.

Fixpoint server_replies (handle offset length ctype dest : Z) (chunks : list bytes) : list reply :=
  match chunks with
  | [] => []
  | chunk :: chunks' =>
      server_reply handle offset length ctype dest chunk
        :: server_replies handle offset length ctype (dest + len chunk) chunks'
  end.

(** The answer to a read request; [k] is the AIO buffer size of the session. *)
Definition serve_read (k : Z) (image payload : bytes) : list reply :=
  let handle := u64_at 0 payload in
  let ctype := Z.shiftr (u64_at 8 payload) 32 in
  let offset := u64_at 16 payload in
  let length := u64_at 24 payload in
  server_replies handle offset length ctype 0
    (chunks_of (Z.to_nat length) k (slice offset (offset + length) image)).

(** * Lemmas *)

Lemma server_extra_spec {COk : CodecOk C} c chunk extra t :
  server_extra c chunk = (extra, t) ->
  len extra <= len chunk /\ fits32 t /\ (chunk <> [] -> 1 <= len extra) /\
  ((t = NFC_COMPRESSION_FASTLZ /\ codec_decompress extra (len chunk) = Ok chunk) \/
   (t = NFC_COMPRESSION_NONE /\ extra = chunk)).
Proof.
  unfold server_extra. intros H.
  assert (choose_extra c chunk = Ok (extra, t) \/ (extra = chunk /\ t = NFC_COMPRESSION_NONE))
    as [Hc|[-> ->]].
  { destruct (choose_extra c chunk); [left; congruence|right..]; by injection H. }
  - pose proof (choose_extra_le _ _ _ _ Hc). pose proof (choose_extra_plain _ _ _ _ Hc) as Hp.
    apply choose_extra_inv in Hc as [[-> ->]|(-> & _ & _ & Hc & Hl)].
    + split_and!; [lia|done| |by right]. intros Hne. destruct chunk; [done|].
      rewrite len_cons. pose proof (len_nonneg chunk). lia.
    + split_and!; [lia|done|lia|left]. split; [done|].
      cbn [Z.eqb Pos.eqb NFC_COMPRESSION_FASTLZ] in Hp.
      destruct (codec_decompress _ _); congruence.
  - split_and!; [lia|done| |by right]. intros Hne. destruct chunk; [done|].
    rewrite len_cons. pose proof (len_nonneg chunk). lia.
Qed.

Lemma server_reply_fields {COk : CodecOk C} h off L c dest chunk :
  fits32 dest -> fits32 (len chunk) ->
  rp_dest (server_reply h off L c dest chunk) = dest /\
  rp_chunk_len (server_reply h off L c dest chunk) = len chunk.
Proof.
  intros Hd Hc. unfold server_reply, rp_dest, rp_chunk_len.
  destruct (server_extra c chunk) as [extra t]. cbn [rp_body].
  by rewrite io_body_dest, io_body_chunk.
Qed.

Lemma server_reply_carries {COk : CodecOk C} h off L c dest chunk content :
  fits32 dest -> fits32 (len chunk) -> chunk <> [] -> dest + len chunk <= len content ->
  slice dest (dest + len chunk) content = chunk ->
  carries content (server_reply h off L c dest chunk).
Proof.
  intros Hd Hc Hne Hin Hsl.
  destruct (server_reply_fields h off L c dest chunk Hd Hc) as [Ed Ec].
  revert Ed Ec. unfold server_reply.
  destruct (server_extra c chunk) as [extra t] eqn:Ex.
  apply server_extra_spec in Ex as (Hle & Ht & Hpos & Hplain). specialize (Hpos Hne).
  set (r := mkReply _ _). intros Ed Ec.
  assert (len (rp_body r) = 44) as Hb by apply len_io_body.
  assert (fits32 (len extra)) as He by (unfold fits32 in *; lia).
  assert (rp_ctype r = t) as Et.
  { unfold rp_ctype, r. cbn [rp_body].
    rewrite io_body_opcode by (by apply opcode_fits). by apply opcode_ctype. }
  assert (u32_at 36 (rp_body r) = len extra) as E36.
  { unfold r. cbn [rp_body]. by apply io_body_extra. }
  split.
  - rewrite Hb. lia.
  - rewrite Ec. destruct chunk; [done|]. rewrite len_cons. pose proof (len_nonneg chunk). lia.
  - by rewrite Ed, Ec.
  - rewrite Et, Ec. unfold _aio_extra_len. destruct Hplain as [[-> _]|[-> ->]]; [|done].
    cbn [Z.eqb Pos.eqb NFC_COMPRESSION_FASTLZ]. rewrite unpack_I by lia. rewrite E36.
    cbn [unpack1 mbind outcome_bind]. rewrite (proj2 (Z.ltb_ge _ _)) by lia. done.
  - unfold rp_plain. rewrite Et, Ed, Ec, Hsl. destruct Hplain as [[-> Hp]|[-> E]].
    + cbn [Z.eqb Pos.eqb NFC_COMPRESSION_FASTLZ]. change (rp_extra r) with extra.
      by rewrite Hp, Z.eqb_refl.
    + cbn [Z.eqb NFC_COMPRESSION_FASTLZ NFC_COMPRESSION_NONE].
      change (rp_extra r) with extra. by rewrite E.
Qed.

Lemma server_replies_spec {COk : CodecOk C} h off L c content chunks dest :
  fits32 (len content) -> 0 <= dest -> Forall (fun x => 1 <= len x) chunks ->
  slice dest (len content) content = chunks ≫= id -> dest <= len content ->
  Forall (carries content) (server_replies h off L c dest chunks) /\
  tiles dest (server_replies h off L c dest chunks) (len content).
Proof.
  intros Hf. revert dest. induction chunks as [|chunk chunks IH]; intros dest Hd Hall Hsl Hle.
  { split; [constructor|]. cbn [server_replies tiles].
    apply (f_equal len) in Hsl. rewrite len_slice in Hsl by lia.
    change (len (([] : list bytes) ≫= id)) with 0 in Hsl. lia. }
  inversion_clear Hall as [|?? Hc Hcs]. rewrite bind_cons in Hsl. unfold id at 1 in Hsl.
  apply (f_equal len) in Hsl as Hlen. rewrite len_slice, len_app in Hlen by lia.
  pose proof (len_nonneg (chunks ≫= id)). unfold fits32 in *.
  rewrite (slice_split dest (dest + len chunk)) in Hsl by lia.
  apply app_inj_1 in Hsl as [Hs1 Hs2]; [|rewrite length_slice; zlia].
  destruct (IH (dest + len chunk)) as [IH1 IH2]; [lia|done..|lia|].
  destruct (server_reply_fields h off L c dest chunk) as [Ed Ec]; [unfold fits32; lia..|].
  cbn [server_replies tiles]. split.
  - constructor; [|done]. apply server_reply_carries; unfold fits32; try lia; [|done].
    intros ->. rewrite len_nil in Hc. lia.
  - rewrite Ed, Ec. done.
Qed.

(** The request of [readinto], read by the server. *)
Lemma read_payload_fields d start n :
  read_ranges d start n ->
  u64_at 0 (read_payload d start n) = handle d /\
  Z.shiftr (u64_at 8 (read_payload d start n)) 32 = compression d /\
  u64_at 16 (read_payload d start n) = start * sector_size d /\
  u64_at 24 (read_payload d start n) = n * sector_size d.
Proof.
  intros (Hh & Hc & Ho & Hl & _).
  assert (fits64 (n * sector_size d)) by (unfold fits32, fits64 in *; lia).
  assert (fits64 (Z.lor NFC_AIO_IO_READ (Z.shiftl (compression d) 32))) by by apply opcode_fits.
  unfold read_payload. cbn [fields code_size]. rewrite app_nil_r.
  split_and!; [by field| |by field..].
  etrans; [|by apply (opcode_ctype NFC_AIO_IO_READ)]. f_equal. by field.
Qed.

Lemma serve_read_spec {COk : CodecOk C} k image d start n content :
  read_ranges d start n -> 1 <= k ->
  content = slice (start * sector_size d) ((start + n) * sector_size d) image ->
  (start + n) * sector_size d <= len image ->
  Forall (carries content) (serve_read k image (read_payload d start n)) /\
  tiles 0 (serve_read k image (read_payload d start n)) (len content) /\
  len content = n * sector_size d.
Proof.
  intros Hr Hk -> Hl. destruct (read_payload_fields d start n Hr) as (E0 & E8 & E16 & E24).
  destruct Hr as (_ & _ & Ho & Hn & _). unfold fits32, fits64 in *.
  unfold serve_read. rewrite E0, E8, E16, E24.
  replace (start * sector_size d + n * sector_size d) with ((start + n) * sector_size d) by lia.
  set (content := slice _ _ image).
  assert (len content = n * sector_size d) as Hlen by (unfold content; rewrite len_slice; lia).
  destruct (chunks_of_spec (Z.to_nat (n * sector_size d)) k content Hk) as [Hb Hall]; [lia|].
  cut (forall P Q R : Prop, P /\ Q -> R -> P /\ Q /\ R); [|tauto].
  intros H. apply H; [|done]. apply server_replies_spec; unfold fits32; try lia.
  - eapply Forall_impl; [exact Hall|]. intros x Hx. simpl in Hx. lia.
  - rewrite Hb. by apply slice_full.
Qed.
End Server.
