(* ===== verification/WriteTheorems.v ===== *)
(** The properties of [NfcDisk.write], and of writing and reading together. *)
From Stdlib Require Import ZArith Lia String.
From stdpp Require Import base list numbers sets gmap.
From coqutil Require Import Byte Word.LittleEndianList.
Import LittleEndianList.
From S2P Require Import Prelude Python PyStr Socket Codec Fastlz Wire Disk DiskRead ReadSpec ReadLoop ReadInto ReadCorrect DiskWrite WriteSpec Server.

Section Write.
Context {C : Codec}.

(** The chunks of a write of [data]. *)
Definition write_chunks (d : NfcDisk) (data : bytes) : list bytes :=
  chunks_of (length data) (aio_buffer_size d) data.

Lemma write_chunks_spec d data :
  1 <= aio_buffer_size d ->
  write_chunks d data ≫= id = data /\
  Forall (fun c => 1 <= len c <= aio_buffer_size d) (write_chunks d data).
Proof. intros. by apply chunks_of_spec. Qed.

Lemma write_ok d start n data s frames body rest :
  write_ranges d start n -> 1 <= n -> len data = n * sector_size d ->
  write_frames d (n * sector_size d) (start * sector_size d) (_op_id d) 0
    (write_chunks d data) frames ->
  fits32 (len body) -> healthy s ->
  flat (rx s) = (Some <$> aio_msg NFC_AIO_MSG_IO (_op_id d) body) ++ rest ->
  exists s', write start n data (d, s) = (Ok tt, (set_op_id (_op_id d + 1) d, s')) /\
    talk (aio_msg NFC_AIO_MSG_IO (_op_id d) body) frames s s' /\ flat (rx s') = rest.
Proof.
  intros (Hh & Ho & Hl & Hop & Hk) Hn Hlen Hfr Hb Hs Hf.
  assert (sess (write start n data) d (aio_msg NFC_AIO_MSG_IO (_op_id d) body) tt
    (set_op_id (_op_id d + 1) d) frames) as H.
  { unfold write. eapply sess_bind; [apply sess_guard; lia| |done..].
    eapply sess_bind; [apply (sess_gets _ _ d); by intros| |done..].
    eapply sess_bind; [apply sess_guard; by rewrite Hlen, Z.eqb_refl| |done..].
    eapply sess_bind; [apply sess_next_op_id| |done..].
    eapply sess_bind; [apply sess_sock, write_loop_ok| |done|by rewrite app_nil_r]; try done.
    { lia. }
    { simpl. rewrite drop_0. replace (Z.to_nat (n * sector_size d)) with (length data) by zlia.
      done. }
    eapply sess_bind; [by apply (sess_aio_recv_reply _ NFC_AIO_MSG_IO (_op_id d) body)| |
      by rewrite app_nil_r|done].
    cbv beta iota. apply sess_guard. by rewrite !Z.eqb_refl. }
  destruct Hs as [Hc Hp]. exact (H s rest Hc Hp Hf).
Qed.

Lemma write_inv d start n data s d' s' :
  write start n data (d, s) = (Ok tt, (d', s')) -> 1 <= aio_buffer_size d ->
  1 <= n /\ len data = n * sector_size d /\ d' = set_op_id (_op_id d + 1) d /\
  (1 <= sector_size d -> write_ranges d start n) /\
  exists frames body,
    write_frames d (n * sector_size d) (start * sector_size d) (_op_id d) 0
      (write_chunks d data) frames /\
    talk (aio_msg NFC_AIO_MSG_IO (_op_id d) body) frames s s'.
Proof.
  intros H Hk. unfold write in H.
  apply bind_inv_ok in H as (u & st & [Hn ->]%raise_when_inv_ok & H).
  rewrite (bind_ok _ _ _ d (d, s)) in H by done.
  apply bind_inv_ok in H as (u1 & st & [Hl ->]%raise_when_inv_ok & H).
  erewrite bind_ok in H by (apply zoom_run, next_op_id_run).
  apply bind_inv_ok in H as (u2 & st & (s1 & HL & ->)%zoom_inv & H).
  cbn [lget lput lens_fst lens_snd lens_self fst snd] in *. destruct u2.
  apply bind_inv_ok in H as ([[t op] body] & [d2 s2] & HR & H).
  apply aio_recv_reply_inv in HR as (-> & T2 & _ & _ & _ & _).
  apply raise_when_inv_ok in H as [Hg E]. injection E as -> ->.
  assert (t = NFC_AIO_MSG_IO /\ op = _op_id d) as [-> ->] by lia.
  assert (len data = n * sector_size d) as Hlen by lia.
  apply write_loop_inv in HL as (frames & Hfr & T1 & Hr); [|lia..].
  split; [lia|]. split; [done|]. split; [done|]. split.
  { intros Hss. destruct Hr as (? & ? & ? & ?); [nia|]. by unfold write_ranges. }
  exists frames, body. split.
  { simpl in Hfr. rewrite drop_0 in Hfr. unfold write_chunks.
    by replace (length data) with (Z.to_nat (n * sector_size d)) by zlia. }
  rewrite <- (app_nil_r frames). by eapply (talk_trans [] _ frames []).
Qed.

Section Terminates.
Context {COk : CodecOk C}.

#[export] Instance choose_extra_total c chunk : TotalO (choose_extra c chunk).
Proof.
  unfold choose_extra, TotalO. destruct (_ && _); [|done].
  pose proof (codec_total_compress chunk). destruct (codec_compress chunk); [|done..].
  simpl. by destruct (_ && _).
Qed.

#[export] Instance write_fragment_total d data L off op fo :
  Total (write_fragment d data L off op fo).
Proof. unfold write_fragment, _pack_aio_hdr. total. Qed.

Lemma write_loop_total d data off op fuel fo :
  1 <= aio_buffer_size d -> 0 <= fo -> len data - fo <= Z.of_nat fuel ->
  Total (write_loop fuel d data (len data) off op fo).
Proof.
  intros Hk. revert fo. induction fuel as [|fuel IH]; intros fo Hfo Hf; cbn [write_loop];
    (destruct (Z.ltb_spec fo (len data)); [|apply _]); [lia|].
  intros s. unfold mbind, M_bind.
  pose proof (write_fragment_total d data (len data) off op fo s) as Ht.
  destruct (write_fragment _ _ _ _ _ _ _) as [[fo'|e|] s1] eqn:E; [|done..].
  assert (fo < fo') as Hlt; [|apply IH; lia].
  unfold write_fragment in E. rewrite py_slice_drop in E by lia.
  apply bind_inv_ok in E as ([extra ctype] & ? & _ & E).
  do 3 (apply bind_inv_ok in E as (? & ? & _ & E)).
  apply ret_inv_ok in E as [-> _].
  destruct (decide (drop (Z.to_nat fo) data = [])) as [E0|E0];
    [|pose proof (chunk_len (aio_buffer_size d) _ Hk E0); lia].
  apply (f_equal Datatypes.length) in E0. rewrite length_drop in E0. simpl in E0. zlia.
Qed.

Lemma write_fuel start n data d s :
  1 <= aio_buffer_size d -> fst (write start n data (d, s)) <> OutOfFuel.
Proof.
  intros Hk. unfold write. destruct (n <? 1); [done|].
  rewrite (bind_ok _ _ _ tt (d, s)), (bind_ok _ _ _ d (d, s)) by done.
  destruct (Z.eqb_spec (len data) (n * sector_size d)) as [<-|]; [|done].
  rewrite (bind_ok _ _ _ tt (d, s)) by done.
  erewrite bind_ok by (apply zoom_run, next_op_id_run).
  apply total_bind; [|intros _; total].
  apply total_zoom, write_loop_total; lia.
Qed.
End Terminates.

Lemma write_frames_length d L off op o chunks frames :
  write_frames d L off op o chunks frames -> length frames = length chunks.
Proof. induction 1; simpl; congruence. Qed.

Lemma write_frames_bound d L off op o chunks frames k :
  write_frames d L off op o chunks frames ->
  Forall (fun c => 1 <= len c <= k) chunks -> Forall (fun f => 60 < len f <= 60 + k) frames.
Proof.
  induction 1 as [|o chunk chunks extra ctype frames Hex _ IH]; [constructor|].
  intros Hall. inversion_clear Hall. constructor; [|by apply IH].
  assert (len extra <= len chunk) by by eapply choose_extra_le.
  assert (1 <= len extra).
  { apply choose_extra_inv in Hex as [[_ ->]|(_ & _ & _ & _ & ?)]; lia. }
  unfold write_frame. rewrite !len_app, len_aio_hdr, len_io_body. unfold NFC_AIO_HDR_SIZE. lia.
Qed.

(** One chunk more than [k] fits in [n] bytes, rounded up. *)
Lemma chunks_of_count fuel k data :
  1 <= k -> len data <= Z.of_nat fuel ->
  Z.of_nat (length (chunks_of fuel k data)) = (len data + k - 1) `div` k.
Proof.
  intros Hk. revert data. induction fuel as [|fuel IH]; intros data Hf.
  { assert (len data = 0) as -> by (pose proof (len_nonneg data); lia).
    simpl. symmetry. apply Z.div_small. lia. }
  destruct (decide (data = [])) as [->|Hd].
  { change (len []) with 0. simpl. symmetry. apply Z.div_small. lia. }
  rewrite chunks_of_step by done. cbn [length]. rewrite Nat2Z.inj_succ.
  pose proof (chunk_len k data Hk Hd) as Hc. pose proof (len_drop_chunk k data Hk) as Hl.
  rewrite IH by lia. rewrite Hl.
  assert (len (slice 0 k data) = Z.min k (len data)) as Hm.
  { unfold slice. rewrite Z.sub_0_r, drop_0. zlia. }
  destruct (Z.le_gt_cases (len data) k).
  - rewrite Hm, Z.min_r by lia. rewrite Z.div_small by lia.
    apply (Z.div_unique _ _ _ (len data - 1)); lia.
  - rewrite Hm, Z.min_l by lia. rewrite <- Z.add_1_r, <- Z.div_add by lia. f_equal. lia.
Qed.

Lemma write_fragment_out_of_range d data L off op fo s :
  compression d = NFC_COMPRESSION_NONE -> ~ (fits64 off /\ fits32 L) ->
  write_fragment d data L off op fo s = (Raise EStructError, s).
Proof.
  intros Hc Hr. unfold write_fragment, choose_extra. rewrite Hc. cbn [Z.eqb andb NFC_COMPRESSION_NONE NFC_COMPRESSION_FASTLZ].
  erewrite lift_bind by reflexivity. cbv beta iota. apply bind_raise. unfold lift.
  destruct (struct_pack _ _) as [p|e|] eqn:E.
  - apply pack_write_inv in E. tauto.
  - by apply pack_codes_raise in E as ->.
  - by apply struct_pack_total in E.
Qed.

(** * Properties *)

(** C2: when [write] returns, a server that decodes the client's bytes by the
    documented layout and stores the fragments ends up with exactly [data] at
    the byte offset of [start_sector] and everything else unchanged; the whole
    call used one op id, consumed one reply, and [data] had the right
    length. *)
Theorem write_stores {COk : CodecOk C} d start n data s d' s' :
  write start n data (d, s) = (Ok tt, (d', s')) ->
  1 <= aio_buffer_size d -> 1 <= sector_size d ->
  len data = n * sector_size d /\ d' = set_op_id (_op_id d + 1) d /\
  exists frames body, tx s' = tx s ++ frames /\
    flat (rx s) = (Some <$> aio_msg NFC_AIO_MSG_IO (_op_id d) body) ++ flat (rx s') /\
    forall image, (start + n) * sector_size d <= len image ->
      server_store (length frames) (handle d) (_op_id d) (frames ≫= id) image =
        Some (splice (start * sector_size d) data image).
Proof.
  intros H Hk Hss. apply write_inv in H as (Hn & Hl & -> & Hr & frames & body & Hfr & T); [|done].
  split; [done|]. split; [done|]. exists frames, body. split; [apply T|]. split; [apply T|].
  intros image Hi. destruct (Hr Hss) as (Hh & Ho & HL & _ & _).
  destruct (write_chunks_spec d data Hk) as [Hb Hall].
  erewrite server_store_frames by first [exact Hfr|done|rewrite ?Hb; lia|
    eapply Forall_impl; [exact Hall|]; intros x Hx; simpl in Hx; lia].
  by rewrite Hb, Z.add_0_r.
Qed.

(** Conversely, with arguments in range, a compressor that returns and a
    socket that works, [write] returns as soon as the server acknowledges its
    op id. *)
Theorem write_completes d start n data s frames body rest :
  write_ranges d start n -> 1 <= n -> len data = n * sector_size d ->
  write_frames d (n * sector_size d) (start * sector_size d) (_op_id d) 0
    (write_chunks d data) frames ->
  fits32 (len body) -> healthy s ->
  flat (rx s) = (Some <$> aio_msg NFC_AIO_MSG_IO (_op_id d) body) ++ rest ->
  exists s', write start n data (d, s) = (Ok tt, (set_op_id (_op_id d + 1) d, s')) /\
    tx s' = tx s ++ frames /\ flat (rx s') = rest.
Proof.
  intros. destruct (write_ok d start n data s frames body rest) as (s' & E & T & F); try done.
  exists s'. split; [done|]. split; [apply T|done].
Qed.

(** C32: [write] cuts the data into [ceil(length / aio_buffer_size)] messages,
    none longer than the two headers (60 bytes) and the session's buffer:
    compression never makes a fragment longer. *)
Theorem write_message_bounds d start n data s d' s' :
  write start n data (d, s) = (Ok tt, (d', s')) -> 1 <= aio_buffer_size d ->
  exists frames, tx s' = tx s ++ frames /\
    Z.of_nat (length frames) = (n * sector_size d + aio_buffer_size d - 1) `div` aio_buffer_size d /\
    Forall (fun f => 60 < len f <= 60 + aio_buffer_size d) frames.
Proof.
  intros H Hk. apply write_inv in H as (Hn & Hl & -> & _ & frames & body & Hfr & T); [|done].
  exists frames. split; [apply T|]. split.
  - rewrite (write_frames_length _ _ _ _ _ _ _ Hfr), <- Hl.
    apply chunks_of_count; [done|]. zlia.
  - eapply write_frames_bound; [exact Hfr|]. by apply write_chunks_spec.
Qed.

(** [write] terminates whenever the session's buffer size is at least 1,
    which [open_disk] checks. *)
Theorem write_terminates {COk : CodecOk C} start n data d s :
  1 <= aio_buffer_size d -> fst (write start n data (d, s)) <> OutOfFuel.
Proof. apply write_fuel. Qed.

(** [write] with the wrong number of bytes, or no sectors, raises
    [ValueError] before it touches the object or the socket. *)
Theorem write_checks_length start n data d s :
  n < 1 \/ len data <> n * sector_size d ->
  write start n data (d, s) = (Raise EValueError, (d, s)).
Proof.
  intros H. unfold write. destruct (Z.ltb_spec n 1) as [|Hn]; [done|].
  rewrite (bind_ok _ _ _ tt (d, s)), (bind_ok _ _ _ d (d, s)) by done.
  destruct (Z.eqb_spec (len data) (n * sector_size d)); [lia|done].
Qed.

(** An offset or a length out of range makes [struct.pack] raise in
    [readinto] before the op id is taken, but in [write] after it: the failed
    write leaves a gap in the session's op ids, with nothing sent. *)
Theorem out_of_range_op_ids d start n skip buf data s :
  ~ (fits64 (start * sector_size d) /\ fits32 (n * sector_size d)) ->
  1 <= n * sector_size d -> 1 <= n -> n * sector_size d <= len buf ->
  len data = n * sector_size d -> 1 <= aio_buffer_size d ->
  compression d = NFC_COMPRESSION_NONE ->
  readinto start n false skip (d, (buf, s)) = (Raise EStructError, (d, (buf, s))) /\
  write start n data (d, s) = (Raise EStructError, (set_op_id (_op_id d + 1) d, s)).
Proof.
  intros Hr HL Hn Hb Hd Hk Hc. split.
  - unfold readinto. rewrite (bind_ok _ _ _ tt (d, (buf, s))) by (apply raise_when_false; lia).
    rewrite (bind_ok _ _ _ d (d, (buf, s))), (bind_ok _ _ _ buf (d, (buf, s))) by done.
    unfold _writable_bytes. rewrite (proj2 (Z.ltb_ge _ _)) by done.
    rewrite (lift_bind _ _ _ tt) by done. apply bind_raise.
    destruct (struct_pack _ _) as [p|e|] eqn:E.
    + assert (p = read_payload d start n) as ->.
      { unfold struct_pack in E. revert E. compute_codes. by intros [_ ->]%pack_codes_iff. }
      apply pack_read_payload in E. tauto.
    + by apply pack_codes_raise in E as ->.
    + by apply struct_pack_total in E.
  - unfold write. rewrite (bind_ok _ _ _ tt (d, s)) by (apply raise_when_false; lia).
    rewrite (bind_ok _ _ _ d (d, s)) by done. rewrite Hd, Z.eqb_refl.
    rewrite (bind_ok _ _ _ tt (d, s)) by done.
    erewrite bind_ok by (apply zoom_run, next_op_id_run). apply bind_raise.
    destruct (Z.to_nat (n * sector_size d)) as [|k] eqn:Ek; [lia|].
    assert (write_loop (S k) d data (n * sector_size d) (start * sector_size d) (_op_id d) 0 s =
      (Raise EStructError, s)) as E.
    { cbn [write_loop]. rewrite (proj2 (Z.ltb_lt _ _)) by lia.
      apply bind_raise. by apply write_fragment_out_of_range. }
    unfold zoom. cbn [lget lput lens_fst lens_snd lens_self fst snd]. by rewrite E.
Qed.

(** Reading from the reference server, which cuts the image into
    fragments of any size and compresses the ones that shrink, returns the
    sectors of the image, in whatever order it sends the fragments. *)
Theorem read_from_server {COk : CodecOk C} d start n image k rs s rest :
  read_ranges d start n -> 1 <= n -> 1 <= k -> (start + n) * sector_size d <= len image ->
  rs ≡ₚ serve_read k image (read_payload d start n) ->
  healthy s -> flat (rx s) = (Some <$> replies_bytes (_op_id d) rs) ++ rest ->
  exists s', read start n (d, s) =
      (Ok (slice (start * sector_size d) ((start + n) * sector_size d) image),
       (set_op_id (_op_id d + 1) d, s')) /\ flat (rx s') = rest.
Proof.
  intros Hr Hn Hk Hi Hp Hs Hf.
  destruct (serve_read_spec k image d start n _ Hr Hk eq_refl Hi) as (Hc & Ht & Hl).
  rewrite <- Hp in Hc.
  destruct (read_tiles_ok d start n s _ rs _ rest Hr Hn Hl Hc Hp Ht Hs Hf) as (s' & E & _ & F).
  by exists s'.
Qed.

(** What [write] stored, [read] returns: after a write that returned, a
    read of the same sectors through the same object, from the image the
    server then has, gives the data back, whatever was compressed on the way
    in or out and however the answer is cut and ordered. *)
Theorem write_then_read {COk : CodecOk C} d start n data s d1 s1 image image' k rs s2 rest :
  write start n data (d, s) = (Ok tt, (d1, s1)) ->
  1 <= aio_buffer_size d -> 1 <= sector_size d -> fits32 (compression d) ->
  fits32 (_op_id d + 1) -> (start + n) * sector_size d <= len image ->
  (forall frames, tx s1 = tx s ++ frames ->
     server_store (length frames) (handle d) (_op_id d) (frames ≫= id) image = Some image') ->
  1 <= k -> rs ≡ₚ serve_read k image' (read_payload d1 start n) ->
  healthy s2 -> flat (rx s2) = (Some <$> replies_bytes (_op_id d + 1) rs) ++ rest ->
  exists s3, read start n (d1, s2) = (Ok data, (set_op_id (_op_id d + 2) d, s3)) /\
    flat (rx s3) = rest.
Proof.
  intros H Hk Hss Hc Hop Hi Hst Hk' Hp Hs2 Hf.
  apply write_inv in H as (Hn & Hl & -> & Hr & frames & body & Hfr & T); [|done].
  destruct (Hr Hss) as (Hh & Ho & HL & _ & _).
  destruct (write_chunks_spec d data Hk) as [Hb Hall].
  assert (image' = splice (start * sector_size d) data image) as ->.
  { specialize (Hst frames (talk_tx _ _ _ _ T)).
    erewrite server_store_frames in Hst by first [exact Hfr|done|rewrite ?Hb; lia|
      eapply Forall_impl; [exact Hall|]; intros x Hx; simpl in Hx; lia].
    rewrite Hb, Z.add_0_r in Hst. congruence. }
  set (d1 := set_op_id (_op_id d + 1) d) in *.
  assert (read_ranges d1 start n) as Hrd by (by unfold read_ranges).
  unfold fits64 in Ho. pose proof (len_nonneg data).
  destruct (serve_read_spec k (splice (start * sector_size d) data image) d1 start n _ Hrd Hk'
    eq_refl) as (Hcar & Ht & Hl2).
  { simpl. rewrite len_splice; lia. }
  rewrite <- Hp in Hcar.
  destruct (read_tiles_ok d1 start n s2 _ rs _ rest Hrd Hn Hl2 Hcar Hp Ht Hs2 Hf)
    as (s3 & E & _ & F).
  exists s3. split; [|done]. rewrite E. simpl. do 2 f_equal.
  - replace ((start + n) * sector_size d) with (start * sector_size d + len data) by lia.
    f_equal. apply slice_splice_same; lia.
  - unfold d1. replace (_op_id d + 2) with (_op_id d + 1 + 1) by lia. done.
Qed.
End Write.

(** * Witnesses *)

(** Twenty-byte sectors, an AIO buffer of sixteen bytes, and data whose first
    sixteen bytes are equal. *)
Definition wdisk : NfcDisk := init_disk (str "vm.vmdk") 7 20 NFC_COMPRESSION_FASTLZ 16 1.

Definition wdata : bytes :=
  replicate 16 Byte.x41 ++ [Byte.x01; Byte.x02; Byte.x03; Byte.x04].

(** A socket on which the peer says [bs] and nothing fails. *)
Definition wsock (bs : bytes) : sock := Sock [RxData bs] [] [] false false.

Definition wack : sock := wsock (aio_msg NFC_AIO_MSG_IO 0 []).

Definition wframes : list bytes :=
  [write_frame wdisk 20 20 0 0 (replicate 16 Byte.x41) [Byte.x41] NFC_COMPRESSION_FASTLZ;
   write_frame wdisk 20 20 0 16 [Byte.x01; Byte.x02; Byte.x03; Byte.x04]
     [Byte.x01; Byte.x02; Byte.x03; Byte.x04] NFC_COMPRESSION_NONE].

Definition wafter : sock := Sock [RxData []] wframes [] false false.

Lemma write_stores_witness :
  len wdata = 1 * 20 /\ set_op_id 1 wdisk = set_op_id 1 wdisk /\
  exists frames body, tx wafter = tx wack ++ frames /\
    flat (rx wack) = (Some <$> aio_msg NFC_AIO_MSG_IO 0 body) ++ flat (rx wafter) /\
    forall image, (1 + 1) * 20 <= len image ->
      @server_store lab_codec (length frames) 7 0 (frames ≫= id) image =
        Some (splice (1 * 20) wdata image).
Proof.
  apply (@write_stores lab_codec lab_codec_ok wdisk 1 1 wdata wack (set_op_id 1 wdisk) wafter).
  - vm_compute. reflexivity.
  - by vm_compute.
  - by vm_compute.
Defined.

Lemma wframes_ok :
  @write_frames lab_codec wdisk (1 * 20) (1 * 20) 0 0 (write_chunks wdisk wdata) wframes.
Proof.
  change (write_chunks wdisk wdata) with
    [replicate 16 Byte.x41; [Byte.x01; Byte.x02; Byte.x03; Byte.x04]].
  apply frames_cons; [by vm_compute|].
  apply frames_cons; [by vm_compute|]. apply frames_nil.
Qed.

Lemma wranges : write_ranges wdisk 1 1.
Proof. vm_compute. repeat split; by intros. Qed.

Lemma whealthy bs : healthy (wsock bs).
Proof. by split; [|constructor]. Qed.

Lemma write_completes_witness :
  exists s', @write lab_codec 1 1 wdata (wdisk, wack) = (Ok tt, (set_op_id 1 wdisk, s')) /\
    tx s' = wframes /\ flat (rx s') = [].
Proof.
  apply (@write_completes lab_codec wdisk 1 1 wdata wack wframes [] []).
  - apply wranges.
  - lia.
  - reflexivity.
  - apply wframes_ok.
  - vm_compute. split; by intros.
  - apply whealthy.
  - vm_compute. reflexivity.
Defined.

Lemma write_message_bounds_witness :
  exists frames, tx wafter = tx wack ++ frames /\
    Z.of_nat (length frames) = (1 * 20 + 16 - 1) `div` 16 /\
    Forall (fun f => 60 < len f <= 60 + 16) frames.
Proof.
  apply (@write_message_bounds lab_codec wdisk 1 1 wdata wack (set_op_id 1 wdisk)).
  - vm_compute. reflexivity.
  - by vm_compute.
Defined.

Lemma write_terminates_witness :
  fst (@write lab_codec 1 1 wdata (wdisk, wsock [])) <> OutOfFuel.
Proof. apply (@write_terminates lab_codec lab_codec_ok). by vm_compute. Defined.

Lemma write_checks_length_witness :
  @write lab_codec 1 2 wdata (wdisk, wack) = (Raise EValueError, (wdisk, wack)).
Proof. apply (@write_checks_length lab_codec). right. by vm_compute. Defined.

Definition rawdisk : NfcDisk := init_disk (str "vm.vmdk") 7 20 NFC_COMPRESSION_NONE 16 1.

Lemma out_of_range_op_ids_witness :
  @readinto lab_codec (-1) 1 false false (rawdisk, (zeros 20, wack)) =
    (Raise EStructError, (rawdisk, (zeros 20, wack))) /\
  @write lab_codec (-1) 1 wdata (rawdisk, wack) =
    (Raise EStructError, (set_op_id 1 rawdisk, wack)).
Proof.
  apply (@out_of_range_op_ids lab_codec rawdisk).
  - intros [[H _] _]. by apply H.
  - by vm_compute.
  - by vm_compute.
  - by vm_compute.
  - reflexivity.
  - by vm_compute.
  - reflexivity.
Defined.

Definition wimage : bytes := zeros 20 ++ wdata.

Definition wserved (op : Z) : list reply :=
  reverse (@serve_read lab_codec 16 wimage (read_payload wdisk 1 1)).

Lemma read_from_server_witness :
  exists s', @read lab_codec 1 1 (wdisk, wsock (replies_bytes 0 (wserved 0))) =
      (Ok wdata, (set_op_id 1 wdisk, s')) /\ flat (rx s') = [].
Proof.
  apply (@read_from_server lab_codec lab_codec_ok wdisk 1 1 wimage 16 (wserved 0)
    (wsock (replies_bytes 0 (wserved 0))) []).
  - vm_compute. repeat split; by intros.
  - lia.
  - lia.
  - by vm_compute.
  - apply reverse_Permutation.
  - apply whealthy.
  - vm_compute. reflexivity.
Defined.

Lemma write_then_read_witness :
  exists s3, @read lab_codec 1 1 (set_op_id 1 wdisk, wsock (replies_bytes 1 (wserved 1))) =
      (Ok wdata, (set_op_id 2 wdisk, s3)) /\ flat (rx s3) = [].
Proof.
  apply (@write_then_read lab_codec lab_codec_ok wdisk 1 1 wdata wack (set_op_id 1 wdisk) wafter
    (zeros 40) wimage 16 (wserved 1) (wsock (replies_bytes 1 (wserved 1))) []).
  - vm_compute. reflexivity.
  - by vm_compute.
  - by vm_compute.
  - vm_compute. split; by intros.
  - vm_compute. split; by intros.
  - by vm_compute.
  - intros frames Hf. change (wframes = frames) in Hf. subst frames. vm_compute. reflexivity.
  - lia.
  - apply reverse_Permutation.
  - apply whealthy.
  - vm_compute. reflexivity.
Defined.
