(* ===== verification/TornWrite.v ===== *)
(** Writes that fail.  [NfcDisk.write] can be cut off anywhere: a [sendall]
    fails after some of its bytes, the acknowledgement does not come, the
    arguments are out of range.  What the server is left with is always the old
    image with a prefix of the data in its place, so that a repetition of the
    write, in a new session, repairs it. *)
From Stdlib Require Import ZArith Lia String.
From stdpp Require Import base list numbers sets.
From coqutil Require Import Byte Word.LittleEndianList.
Import LittleEndianList.
From S2P Require Import Prelude Python PyStr Socket Codec Fastlz Wire Disk DiskRead Frames ReadSpec DiskWrite WriteSpec Server WriteTheorems.

Section Torn.
Context {C : Codec}.

(** * The server of a broken connection *)

(** It stores the messages that arrived whole and stops at the first that did
    not, or that it does not accept. *)
Fixpoint server_apply (fuel : nat) (handle op_id : Z) (stream image : bytes) : bytes :=
  match fuel with
  | O => image
  | S fuel' =>
      match parse_write op_id stream with
      | Some (h, off, plain, rest) =>
          if (h =? handle) && (off + len plain <=? len image)
          then server_apply fuel' handle op_id rest (splice off plain image)
          else image
      | None => image
      end
  end.

(** Where nothing is missing it is the server of a write that succeeds. *)
Lemma server_apply_store fuel h op stream image image' :
  server_store fuel h op stream image = Some image' -> server_apply fuel h op stream image = image'.
Proof.
  revert stream image. induction fuel as [|fuel IH]; intros stream image.
  { destruct stream; cbn [server_store server_apply]; congruence. }
  destruct stream as [|b stream]; [intros [= <-]; done|]. cbn [server_store server_apply].
  destruct (parse_write op (b :: stream)) as [[[[h' off] plain] rest]|]; [|done]. cbn [mbind option_bind].
  destruct (_ && _); [apply IH|done].
Qed.

(** * What was sent *)

(** [sent] are the messages of a part of [chunks], which stands for the bytes
    [stored]; the last one may be incomplete, and then stands for nothing. *)
Inductive sent_frames (d : NfcDisk) (length disk_offset op_id : Z) :
    Z -> list bytes -> list bytes -> bytes -> Prop :=
  | sent_stop o chunks : sent_frames d length disk_offset op_id o chunks [] []
  | sent_torn o chunk chunks extra ctype k :
      choose_extra (compression d) chunk = Ok (extra, ctype) ->
      Z.of_nat k < len (write_frame d length disk_offset op_id o chunk extra ctype) ->
      sent_frames d length disk_offset op_id o (chunk :: chunks)
        [take k (write_frame d length disk_offset op_id o chunk extra ctype)] []
  | sent_next o chunk chunks extra ctype sent stored :
      choose_extra (compression d) chunk = Ok (extra, ctype) ->
      sent_frames d length disk_offset op_id (o + len chunk) chunks sent stored ->
      sent_frames d length disk_offset op_id o (chunk :: chunks)
        (write_frame d length disk_offset op_id o chunk extra ctype :: sent) (chunk ++ stored).

(** * Lemmas: the client *)

(** [sendall] sends all of its bytes or a part of them. *)
Lemma sendall_cut b s o s' :
  sendall b s = (o, s') ->
  (o = Ok tt /\ tx s' = tx s ++ [b]) \/ (exists e, o = Raise e) /\
    (tx s' = tx s \/ exists k, tx s' = tx s ++ [take k b]).
Proof.
  unfold sendall. destruct (closed s); [intros [= <- <-]; right; eauto|].
  destruct (tx_plan s) as [|[k|] p]; intros [= <- <-]; eauto 6.
Qed.

(** One round of the loop on every outcome. *)
Lemma write_fragment_any d data length off op fo s o s' :
  0 <= fo -> 1 <= aio_buffer_size d -> write_fragment d data length off op fo s = (o, s') ->
  let chunk := slice 0 (aio_buffer_size d) (drop (Z.to_nat fo) data) in
  (tx s' = tx s /\ forall v, o <> Ok v) \/
  exists extra ctype, choose_extra (compression d) chunk = Ok (extra, ctype) /\
    (fits64 (handle d) /\ fits64 off /\ fits32 length /\ fits32 op) /\
    let frame := write_frame d length off op fo chunk extra ctype in
    (o = Ok (fo + len chunk) /\ tx s' = tx s ++ [frame]) \/
    ((forall v, o <> Ok v) /\ exists k, tx s' = tx s ++ [take k frame]).
Proof.
  intros Hfo Hk H chunk. unfold write_fragment in H. rewrite py_slice_drop in H by lia. fold chunk in H.
  apply bind_inv in H as [([extra ctype] & s1 & [Hex ->]%lift_inv_ok & H)|[(e & He & ->)|[He ->]]];
    [|left; unfold lift in He; by simplify_eq..].
  apply bind_inv in H as [(p & s1 & [(-> & Hr)%pack_write_inv ->]%lift_inv_ok & H)|[(e & He & ->)|[He ->]]];
    [|left; unfold lift in He; by simplify_eq..].
  apply bind_inv in H as [(h & s1 & [(_ & _ & Hop & ->)%pack_aio_hdr_inv ->]%lift_inv_ok & H)|
    [(e & He & ->)|[He ->]]]; [|left; unfold lift in He; by simplify_eq..].
  rewrite len_io_body in H.
  apply bind_inv in H as [(u & s1 & E & [= <- <-])|[(e & E & ->)|[E ->]]].
  - right. exists extra, ctype. split; [done|]. split; [tauto|]. left. split; [done|].
    by destruct (sendall_cut _ _ _ _ E) as [[_ ?]|[[? ?] _]].
  - destruct (sendall_cut _ _ _ _ E) as [[? _]|[_ [?|[k Ht]]]]; [done|by left|].
    right. exists extra, ctype. split; [done|]. split; [tauto|]. right. split; [done|]. by exists k.
  - destruct (sendall_cut _ _ _ _ E) as [[? _]|[[? ?] _]]; done.
Qed.

Lemma write_loop_any fuel d data length off op fo s o s' :
  1 <= aio_buffer_size d -> len data = length -> 0 <= fo ->
  write_loop fuel d data length off op fo s = (o, s') ->
  exists sent stored, tx s' = tx s ++ sent /\
    sent_frames d length off op fo (chunks_of fuel (aio_buffer_size d) (drop (Z.to_nat fo) data)) sent stored /\
    (sent <> [] -> fits64 (handle d) /\ fits64 off /\ fits32 length /\ fits32 op).
Proof.
  intros Hk Hlen. revert fo s. induction fuel as [|fuel IH]; intros fo s Hfo H;
    cbn [write_loop] in H; destruct (Z.ltb_spec fo length) as [Hlt|Hge];
    try (injection H as <- <-; exists [], []; by split_and!; [rewrite app_nil_r|constructor|]).
  assert (drop (Z.to_nat fo) data <> []) as Hd.
  { intros E%(f_equal Datatypes.length). rewrite length_drop in E. simpl in E. zlia. }
  rewrite chunks_of_step by done. set (chunk := slice 0 _ _).
  assert (forall o1 s1, write_fragment d data length off op fo s = (o1, s1) -> (forall v, o1 <> Ok v) -> s' = s1) as Hstop.
  { intros o1 s1 E Ho. unfold mbind, M_bind in H. rewrite E in H. destruct o1; simplify_eq/=; [by destruct (Ho a)|done..]. }
  destruct (write_fragment d data length off op fo s) as [o1 s1] eqn:E.
  destruct (write_fragment_any _ _ _ _ _ _ _ _ _ Hfo Hk E) as [[Ht Ho]|(extra & ctype & Hex & Hr & [[-> Ht]|[Ho [k Ht]]])].
  - rewrite (Hstop _ _ eq_refl Ho). exists [], []. split_and!; [by rewrite app_nil_r|constructor|done].
  - rewrite (bind_ok _ _ _ _ _ E) in H. fold chunk in H, Ht, Hex |- *.
    pose proof (len_nonneg chunk). apply IH in H as (sent & stored & T & F & _); [|lia].
    eexists (_ :: sent), (chunk ++ stored). split; [by rewrite T, Ht, <- app_assoc|]. split; [|done].
    apply sent_next; [done|]. revert F.
    replace (Z.to_nat (fo + len chunk)) with (Z.to_nat fo + Z.to_nat (len chunk))%nat by lia.
    rewrite <- drop_drop. unfold chunk. by rewrite drop_chunk.
  - rewrite (Hstop _ _ eq_refl Ho). fold chunk in Ht, Hex |- *.
    destruct (Z.lt_ge_cases (Z.of_nat k) (len (write_frame d length off op fo chunk extra ctype))).
    + eexists [_], []. split; [exact Ht|]. split; [|done]. by apply sent_torn.
    + rewrite take_ge in Ht by zlia. eexists [_], (chunk ++ []). split; [exact Ht|]. split; [|done].
      apply sent_next; [done|]. constructor.
Qed.
(** Receiving sends nothing. *)
Definition same_tx : relation sock := fun s s' => tx s' = tx s.

#[export] Instance same_tx_preorder : PreOrder same_tx.
Proof. split; [done|]. intros ??? H1 H2. unfold same_tx in *. by rewrite H2. Qed.

#[export] Instance same_tx_blind : RxBlind same_tx.
Proof. done. Qed.

(** Every outcome of [write]: only the loop sends. *)
Lemma write_any d start n data s o st' :
  1 <= aio_buffer_size d -> 1 <= sector_size d -> write start n data (d, s) = (o, st') ->
  exists sent stored, tx (snd st') = tx s ++ sent /\
    sent_frames d (n * sector_size d) (start * sector_size d) (_op_id d) 0 (write_chunks d data) sent stored /\
    (sent <> [] -> len data = n * sector_size d /\ 1 <= n /\
       fits64 (handle d) /\ fits64 (start * sector_size d) /\ fits32 (n * sector_size d) /\
       fits32 (_op_id d)).
Proof.
  intros Hk Hss H. unfold write in H.
  assert (forall st : NfcDisk * sock, tx (snd st) = tx s -> exists sent stored, tx (snd st) = tx s ++ sent /\
    sent_frames d (n * sector_size d) (start * sector_size d) (_op_id d) 0 (write_chunks d data) sent stored /\
    (sent <> [] -> len data = n * sector_size d /\ 1 <= n /\
       fits64 (handle d) /\ fits64 (start * sector_size d) /\ fits32 (n * sector_size d) /\
       fits32 (_op_id d))) as Hnone.
  { intros st E. exists [], []. split_and!; [by rewrite E, app_nil_r|constructor|done]. }
  destruct (Z.ltb_spec n 1) as [|Hn]; [injection H as <- <-; by apply Hnone|].
  rewrite (bind_ok _ _ _ tt (d, s)), (bind_ok _ _ _ d (d, s)) in H by done.
  destruct (Z.eqb_spec (len data) (n * sector_size d)) as [Hlen|]; [|injection H as <- <-; by apply Hnone].
  rewrite (bind_ok _ _ _ tt (d, s)) in H by done.
  erewrite bind_ok in H by (apply zoom_run, next_op_id_run).
  set (loop := write_loop _ _ _ _ _ _ _) in H.
  destruct (loop s) as [o1 s1] eqn:El.
  assert (tx (snd st') = tx s1) as ->.
  { apply bind_inv in H as [(u & st & (s2 & E2 & ->)%zoom_inv & H)|[(e & (s2 & E2 & ->)%zoom_inv & _)|[(s2 & E2 & ->)%zoom_inv _]]];
      cbn [lget lput lens_fst lens_snd lens_self fst snd] in *; rewrite El in E2; simplify_eq; try done.
    assert (Frame (on_snd same_tx) ('(rtype, rop, _body) ← _aio_recv_reply;
      raise_when (negb (rtype =? NFC_AIO_MSG_IO) || negb (rop =? _op_id d)) ENfcProtocolError)) as Hfr by frames.
    specialize (Hfr (set_op_id (_op_id d + 1) d, s2)). rewrite H in Hfr. exact Hfr. }
  apply write_loop_any in El as (sent & stored & T & F & R); [|done..].
  exists sent, stored. split; [done|]. cbn in F. rewrite drop_0 in F.
  replace (Z.to_nat (n * sector_size d)) with (length data) in F by zlia. split; [done|].
  intros Hs. by destruct (R Hs) as (? & ? & ? & ?).
Qed.

(** * Lemmas: the server *)

(** A message that is cut is not stored. *)
Lemma parse_write_torn d length off op op' o chunk extra ctype k :
  choose_extra (compression d) chunk = Ok (extra, ctype) -> fits32 (len extra) ->
  Z.of_nat k < len (write_frame d length off op o chunk extra ctype) ->
  parse_write op' (take k (write_frame d length off op o chunk extra ctype)) = None.
Proof.
  intros Hex He Hk. unfold parse_write. destruct (Z.ltb_spec (len (take k (write_frame d length off op o chunk extra ctype))) 60)
    as [|Hge]; [done|].
  revert Hk Hge. unfold write_frame. set (body := io_body _ _ _ _ _ _ _).
  assert (len body = 44) as Hb by apply len_io_body.
  pose proof (len_aio_hdr NFC_AIO_MSG_IO 44 op) as Hh. unfold NFC_AIO_HDR_SIZE in Hh.
  set (hdr := aio_hdr _ _ _) in *. rewrite !len_app, Hh, Hb. intros Hk Hge.
  assert (60 <= Z.of_nat k) as Hk60 by (unfold len in Hge; rewrite length_take in Hge; lia).
  assert (slice 16 60 (take k (hdr ++ body ++ extra)) = body) as ->.
  { rewrite !app_assoc, take_app_ge by (rewrite length_app; zlia).
    rewrite slice_app_l by (rewrite ?len_app; lia). rewrite slice_app_r by lia.
    rewrite Hh. by apply slice_full. }
  assert (u32_at 36 body = len extra) as -> by by apply io_body_extra.
  rewrite (proj2 (Z.ltb_lt _ (60 + len extra))) by (unfold len in *; rewrite length_take; lia).
  by destruct (negb _).
Qed.

Lemma sent_frames_stored d length off op o chunks sent stored :
  sent_frames d length off op o chunks sent stored -> stored `prefix_of` chunks ≫= id.
Proof.
  induction 1 as [| |o chunk chunks extra ctype sent stored _ _ IH]; [apply prefix_nil..|].
  rewrite bind_cons. unfold id at 1. by apply prefix_app.
Qed.

Lemma server_apply_sent {COk : CodecOk C} d length off op chunks sent stored image o fuel :
  sent_frames d length off op o chunks sent stored ->
  (sent <> [] -> fits64 (handle d) /\ fits64 off /\ fits32 length) ->
  0 <= o -> o + len (chunks ≫= id) <= length -> 0 <= off -> off + length <= len image ->
  Forall (fun c => 1 <= len c) chunks -> (Datatypes.length sent <= fuel)%nat ->
  server_apply fuel (handle d) op (sent ≫= id) image = splice (off + o) stored image.
Proof.
  intros Hs. revert image fuel.
  induction Hs as [o chunks|o chunk chunks extra ctype k Hex Hk|o chunk chunks extra ctype sent stored Hex Hs IH];
    intros image fuel Hr Ho Hsum Hoff Hin Hall Hfuel.
  { rewrite splice_nil. by destruct fuel. }
  all: rewrite bind_cons, len_app in Hsum; unfold id at 1 in Hsum; inversion_clear Hall;
    destruct fuel as [|fuel]; [simpl in Hfuel; lia|]; pose proof (len_nonneg (chunks ≫= id));
    destruct (Hr ltac:(done)) as (Hh & Ho64 & Hl); unfold fits32, fits64 in *;
    pose proof (choose_extra_le _ _ _ _ Hex) as [Hel Hct]; pose proof (len_nonneg extra);
    rewrite bind_cons; unfold id at 1.
  - rewrite app_nil_r. cbn [server_apply].
    rewrite parse_write_torn by (done || unfold fits32; lia). by rewrite splice_nil.
  - cbn [server_apply]. rewrite parse_write_frame by (unfold fits32, fits64; done || lia).
    rewrite Z.eqb_refl, (proj2 (Z.leb_le _ _)) by lia. cbn [andb].
    apply sent_frames_stored in Hs as Hpre. destruct Hpre as [rest Hpre]. apply (f_equal len) in Hpre.
    rewrite len_app in Hpre. pose proof (len_nonneg rest). pose proof (len_nonneg stored).
    rewrite IH; [|by intros _|lia|lia|lia|rewrite len_splice; lia|done|simpl in Hfuel; lia].
    rewrite Z.add_assoc, splice_adjacent by lia. done.
Qed.
End Torn.

(** * Attempts *)

Section Attempts.
Context {C : Codec} {COk : CodecOk C}.

(** What the server makes of the messages of one call of [write], whatever its
    outcome. *)
Definition attempt (start n : Z) (data : bytes) (st : NfcDisk * sock) (image : bytes) : bytes :=
  let out := drop (length (tx (snd st))) (tx (snd (snd (write start n data st)))) in
  server_apply (length out) (handle (fst st)) (_op_id (fst st)) (out ≫= id) image.

(** A disk of [ss]-byte sectors. *)
Definition attempt_ok (ss : Z) (st : NfcDisk * sock) : Prop :=
  1 <= aio_buffer_size (fst st) /\ sector_size (fst st) = ss.

Lemma splice_prefix a j (data image : bytes) :
  0 <= a -> a + len data <= len image -> splice a data (splice a (take j data) image) = splice a data image.
Proof.
  intros Ha Hl. assert (len (take j data) <= len data) as Hj by (unfold len; rewrite length_take; lia).
  apply list_eq. intros i. destruct (decide (Z.to_nat a <= i < Z.to_nat a + length data)%nat) as [Hi|Hi].
  - by rewrite !lookup_splice_in by (rewrite ?len_splice by lia; lia).
  - assert (~ (Z.to_nat a <= i < Z.to_nat a + length (take j data))%nat) by (unfold len in Hj; lia).
    rewrite (lookup_splice_out a data) by (rewrite ?len_splice by lia; lia || done).
    rewrite (lookup_splice_out a (take j data)) by (lia || done). symmetry. by apply lookup_splice_out.
Qed.

Lemma attempt_torn ss start n data st image :
  attempt_ok ss st -> 1 <= ss -> 0 <= start -> start * ss + len data <= len image ->
  exists j, attempt start n data st image = splice (start * ss) (take j data) image.
Proof.
  destruct st as [d s]. intros [Hk <-] Hss Hst Hi. cbn [fst] in *. unfold attempt. cbn [fst snd].
  destruct (write start n data (d, s)) as [o st'] eqn:E. cbn [snd].
  apply write_any in E as (sent & stored & T & F & R); [|done..]. rewrite T, drop_app_length.
  destruct (decide (sent = [])) as [->|Hne].
  { exists 0%nat. rewrite take_0, splice_nil. done. }
  destruct (R Hne) as (Hlen & Hn & Hh & Ho & Hl & _). destruct (write_chunks_spec d data Hk) as [Hb Hall].
  exists (length stored).
  assert (take (length stored) data = stored) as ->.
  { apply sent_frames_stored in F as [r E]. rewrite Hb in E. rewrite E. apply take_app_length. }
  erewrite server_apply_sent; [|exact F|done|lia|rewrite Hb; lia|unfold fits64 in *; lia|lia| |done].
  - by rewrite Z.add_0_r.
  - eapply Forall_impl; [exact Hall|]. simpl. lia.
Qed.

Lemma attempt_success ss start n data st image st' :
  attempt_ok ss st -> 1 <= ss -> start * ss + len data <= len image ->
  write start n data st = (Ok tt, st') -> attempt start n data st image = splice (start * ss) data image.
Proof.
  destruct st as [d s], st' as [d' s']. intros [Hk <-] Hss Hi E. cbn [fst] in *. unfold attempt. rewrite E. cbn [fst snd].
  apply write_inv in E as (Hn & Hlen & -> & Hr & frames & body & Hfr & T); [|done].
  destruct (Hr Hss) as (Hh & Ho & Hl & _). destruct (write_chunks_spec d data Hk) as [Hb Hall].
  rewrite (talk_tx _ _ _ _ T), drop_app_length. apply server_apply_store.
  erewrite server_store_frames; [|exact Hh|exact Ho|exact Hl|exact Hfr|done|rewrite Hb; lia|lia| |done].
  - by rewrite Hb, Z.add_0_r.
  - eapply Forall_impl; [exact Hall|]. simpl. lia.
Qed.

Fixpoint attempts (start n : Z) (data : bytes) (sts : list (NfcDisk * sock)) (image : bytes) : bytes :=
  match sts with
  | [] => image
  | st :: sts' => attempts start n data sts' (attempt start n data st image)
  end.
End Attempts.

(** * Properties *)

(** A write that fails is torn, not lost: whatever happens to [write] (a
    [sendall] that fails after any number of bytes, a missing or wrong answer,
    arguments that are refused), the server is left with the old image in which
    a prefix of the data stands at its place, and nothing else has changed; when
    [write] returns it is all of the data. *)
Theorem failed_write_is_torn {C : Codec} {COk : CodecOk C} d start n data s image o st' :
  1 <= aio_buffer_size d -> 1 <= sector_size d -> 0 <= start ->
  start * sector_size d + len data <= len image -> write start n data (d, s) = (o, st') ->
  exists out j, tx (snd st') = tx s ++ out /\
    server_apply (length out) (handle d) (_op_id d) (out ≫= id) image =
      splice (start * sector_size d) (take j data) image /\
    (o = Ok tt -> take j data = data).
Proof.
  intros Hk Hss Hst Hi E.
  destruct (write_any d start n data s o st' Hk Hss E) as (out & _ & T & _ & _).
  assert (attempt start n data (d, s) image =
    server_apply (length out) (handle d) (_op_id d) (out ≫= id) image) as Ha.
  { unfold attempt. rewrite E. cbn [fst snd]. by rewrite T, drop_app_length. }
  exists out. rewrite <- Ha. destruct o as [[]|e|].
  - exists (length data). rewrite take_ge by done. split; [done|]. split; [|done].
    by eapply attempt_success.
  - destruct (attempt_torn (sector_size d) start n data (d, s) image) as [j Hj]; try done. by exists j.
  - destruct (attempt_torn (sector_size d) start n data (d, s) image) as [j Hj]; try done. by exists j.
Qed.

(** Repeating a write until it returns is writing once: after any number of
    attempts, each in a session of its own and failing anywhere, and one that
    returns, the server's image is the old one with the data at its place. *)
Theorem retries_are_one_write {C : Codec} {COk : CodecOk C} ss start n data sts st st' image :
  Forall (attempt_ok ss) sts -> attempt_ok ss st -> 1 <= ss -> 0 <= start ->
  start * ss + len data <= len image -> write start n data st = (Ok tt, st') ->
  attempts start n data (sts ++ [st]) image = splice (start * ss) data image.
Proof.
  intros Hsts Hst Hss H0 Hi E. revert image Hi.
  induction Hsts as [|st1 sts Hst1 _ IH]; intros image Hi; cbn [app attempts].
  - by eapply attempt_success.
  - destruct (attempt_torn ss start n data st1 image) as [j ->]; try done. pose proof (len_nonneg data).
    assert (0 <= start * ss) by nia.
    assert (len (take j data) <= len data) by (unfold len; rewrite length_take; lia).
    rewrite IH by (rewrite len_splice; lia). by apply splice_prefix.
Qed.

(** * Witnesses *)

(** The second message is cut after 61 of its 64 bytes: sixteen of the twenty
    bytes arrive. *)
Definition torn_sock : sock := Sock [] [] [None; Some 61%nat] false false.

Lemma torn_run :
  fst (@write lab_codec 1 1 wdata (wdisk, torn_sock)) = Raise EOSError /\
  @attempt lab_codec 1 1 wdata (wdisk, torn_sock) (zeros 40) = splice 20 (take 16 wdata) (zeros 40).
Proof. split; vm_compute; reflexivity. Qed.

Lemma failed_write_is_torn_witness :
  exists out j, tx (snd (snd (@write lab_codec 1 1 wdata (wdisk, torn_sock)))) = [] ++ out /\
    @server_apply lab_codec (length out) 7 0 (out ≫= id) (zeros 40) = splice 20 (take j wdata) (zeros 40) /\
    (Raise EOSError = Ok tt -> take j wdata = wdata).
Proof.
  apply (@failed_write_is_torn lab_codec lab_codec_ok wdisk 1 1 wdata torn_sock (zeros 40) (Raise EOSError)).
  - by vm_compute.
  - by vm_compute.
  - lia.
  - by vm_compute.
  - vm_compute. reflexivity.
Defined.

Lemma retries_are_one_write_witness :
  @attempts lab_codec 1 1 wdata ([(wdisk, torn_sock); (wdisk, wsock [])] ++ [(wdisk, wack)]) (zeros 40) =
    splice 20 wdata (zeros 40).
Proof.
  apply (@retries_are_one_write lab_codec lab_codec_ok 20 1 1 wdata [(wdisk, torn_sock); (wdisk, wsock [])]
    (wdisk, wack) (set_op_id 1 wdisk, wafter) (zeros 40)).
  - repeat constructor; by vm_compute.
  - by split; vm_compute.
  - lia.
  - lia.
  - by vm_compute.
  - vm_compute. reflexivity.
Defined.
