(* ===== verification/BlockDevice.v ===== *)
(** What an open disk promises: a block device.  The device is an image and
    two operations on it; over a server that stores what it is told and serves
    what it stored, any sequence of [NfcDisk.write] and [NfcDisk.read] returns
    what the device returns. *)
From Stdlib Require Import ZArith Lia String.
From stdpp Require Import base list numbers sets.
From coqutil Require Import Byte Word.LittleEndianList.
Import LittleEndianList.
From S2P Require Import Prelude Python PyStr Socket Codec Fastlz Wire Disk DiskRead ReadSpec ReadLoop ReadInto ReadCorrect DiskWrite WriteSpec Server WriteTheorems.

(** * The device *)

Inductive device_op :=
  | DevWrite (start_sector num_sectors : Z) (data : bytes)
  | DevRead (start_sector num_sectors : Z).

(** The image after an operation, and what it returns. *)
Definition device_step (ss : Z) (image : bytes) (op : device_op) : bytes * option bytes :=
  match op with
  | DevWrite start _ data => (splice (start * ss) data image, None)
  | DevRead start n => (image, Some (slice (start * ss) ((start + n) * ss) image))
  end.

Fixpoint device_run (ss : Z) (image : bytes) (ops : list device_op) : bytes * list (option bytes) :=
  match ops with
  | [] => (image, [])
  | op :: ops' =>
      let '(image1, r) := device_step ss image op in
      let '(image2, rs) := device_run ss image1 ops' in (image2, r :: rs)
  end.

(** The operation is inside a disk of [size] bytes, and within the ranges of the
    protocol. *)
Definition range_ok (ss size start n : Z) : Prop :=
  1 <= n /\ fits64 (start * ss) /\ fits32 (n * ss) /\ (start + n) * ss <= size.

Definition device_ok (ss size : Z) (op : device_op) : Prop :=
  match op with
  | DevWrite start n data => range_ok ss size start n /\ len data = n * ss
  | DevRead start n => range_ok ss size start n
  end.

(** * The interface *)

(** Two operations over the disk object and its socket. *)
Class BlockOps := {
  block_write : Z -> Z -> bytes -> M (NfcDisk * sock) unit;
  block_read : Z -> Z -> M (NfcDisk * sock) bytes
}.

(** What stays the same over the operations. *)
Record device_session (d : NfcDisk) : Prop := {
  dev_handle : fits64 (handle d);
  dev_compression : fits32 (compression d);
  dev_sector : 1 <= sector_size d;
  dev_buffer : 1 <= aio_buffer_size d;
  dev_op : 0 <= _op_id d
}.

(** What an implementation promises for sectors of [ss] bytes: over an
    acknowledgement a write sends the messages of the data, and over the answer
    of the reference server a read returns what the image holds; each uses one
    op id. *)
Class BlockOpsOk {C : Codec} (ss : Z) (B : BlockOps) : Prop := {
  block_write_ok d start n data frames ack :
    device_session d -> fits32 (_op_id d) -> sector_size d = ss -> range_ok ss (start * ss + n * ss) start n ->
    len data = n * ss ->
    write_frames d (n * ss) (start * ss) (_op_id d) 0 (write_chunks d data) frames -> fits32 (len ack) ->
    sess (block_write start n data) d (aio_msg NFC_AIO_MSG_IO (_op_id d) ack) tt
      (set_op_id (_op_id d + 1) d) frames;
  block_read_ok d start n image k rs :
    device_session d -> fits32 (_op_id d) -> sector_size d = ss -> range_ok ss (len image) start n ->
    1 <= k -> rs ≡ₚ serve_read k image (read_payload d start n) ->
    sess (block_read start n) d (replies_bytes (_op_id d) rs)
      (slice (start * ss) ((start + n) * ss) image) (set_op_id (_op_id d + 1) d) [read_request d start n]
}.

Definition run_device_op {B : BlockOps} (op : device_op) : M (NfcDisk * sock) (option bytes) :=
  match op with
  | DevWrite start n data => block_write start n data;; mret None
  | DevRead start n => data ← block_read start n; mret (Some data)
  end.

Fixpoint run_device {B : BlockOps} (ops : list device_op) : M (NfcDisk * sock) (list (option bytes)) :=
  match ops with
  | [] => mret []
  | op :: ops' => r ← run_device_op op; rs ← run_device ops'; mret (r :: rs)
  end.

(** * The messages *)

Section Client.
Context {C : Codec}.

(** The messages of each operation. *)
Inductive asks : NfcDisk -> list device_op -> list (list bytes) -> Prop :=
  | asks_nil d : asks d [] []
  | asks_write d start n data frames ops reqs :
      write_frames d (n * sector_size d) (start * sector_size d) (_op_id d) 0 (write_chunks d data) frames ->
      asks (set_op_id (_op_id d + 1) d) ops reqs ->
      asks d (DevWrite start n data :: ops) (frames :: reqs)
  | asks_read d start n ops reqs :
      asks (set_op_id (_op_id d + 1) d) ops reqs ->
      asks d (DevRead start n :: ops) ([read_request d start n] :: reqs).

(** * The server *)

(** The opcode of the first message of a request. *)
Definition request_opcode (req : bytes) : Z := u64_at 24 req mod 2 ^ 32.

(** The server looks at the opcode: it stores the fragments of a write and
    acknowledges them, and answers a read from its image, in fragments of at
    most [k] bytes and in any order. *)
Inductive answers (k handle : Z) : Z -> bytes -> list (list bytes) -> bytes -> bytes -> Prop :=
  | answers_nil op image : answers k handle op image [] [] image
  | answers_write op image frames reqs ack image1 replies image' :
      request_opcode (frames ≫= id) = NFC_AIO_IO_WRITE ->
      server_store (length frames) handle op (frames ≫= id) image = Some image1 -> fits32 (len ack) ->
      answers k handle (op + 1) image1 reqs replies image' ->
      answers k handle op image (frames :: reqs) (aio_msg NFC_AIO_MSG_IO op ack ++ replies) image'
  | answers_read op image frames reqs rs replies image' :
      request_opcode (frames ≫= id) = NFC_AIO_IO_READ ->
      rs ≡ₚ serve_read k image (drop 16 (frames ≫= id)) ->
      answers k handle (op + 1) image reqs replies image' ->
      answers k handle op image (frames :: reqs) (replies_bytes op rs ++ replies) image'.

(** * Lemmas *)

Lemma opcode_low op c : fits32 op -> 0 <= c -> Z.lor op (Z.shiftl c 32) mod 2 ^ 32 = op.
Proof. intros. rewrite lor_shift by done. rewrite Z.mod_add by lia. by apply Z.mod_small. Qed.

Lemma read_request_opcode d start n rest :
  fits32 (compression d) -> request_opcode (read_request d start n ++ rest) = NFC_AIO_IO_READ.
Proof.
  intros Hc. unfold request_opcode, read_request. rewrite <- app_assoc.
  rewrite u64_at_skip by (rewrite len_aio_hdr; unfold NFC_AIO_HDR_SIZE; lia). rewrite len_aio_hdr.
  unfold read_payload. cbn [fields code_size]. rewrite <- !app_assoc.
  replace (u64_at _ _) with (Z.lor NFC_AIO_IO_READ (Z.shiftl (compression d) 32)).
  - apply opcode_low; [done|apply Hc].
  - symmetry. change (24 - NFC_AIO_HDR_SIZE) with 8. field. by apply opcode_fits.
Qed.

(** The head of a write message, whatever follows. *)
Lemma io_body_opcode_low t size op h ctype off length o c e rest :
  fits32 ctype ->
  request_opcode (aio_hdr t size op ++
    io_body h (Z.lor NFC_AIO_IO_WRITE (Z.shiftl ctype 32)) off length o c e ++ rest) = NFC_AIO_IO_WRITE.
Proof.
  intros Ht. unfold request_opcode.
  rewrite u64_at_skip by (rewrite len_aio_hdr; unfold NFC_AIO_HDR_SIZE; lia). rewrite len_aio_hdr.
  change (24 - NFC_AIO_HDR_SIZE) with 8. unfold io_body. cbn [fields code_size]. rewrite <- !app_assoc.
  replace (u64_at _ _) with (Z.lor NFC_AIO_IO_WRITE (Z.shiftl ctype 32)).
  - apply opcode_low; [done|apply Ht].
  - symmetry. field. by apply opcode_fits.
Qed.

Lemma read_request_payload d start n : drop 16 (read_request d start n) = read_payload d start n.
Proof.
  unfold read_request. apply drop_app_length'. pose proof (len_aio_hdr NFC_AIO_MSG_IO 44 (_op_id d)) as H.
  unfold len, NFC_AIO_HDR_SIZE in H. lia.
Qed.

Lemma write_frames_opcode d length off op o chunks frames :
  write_frames d length off op o chunks frames -> chunks <> [] ->
  request_opcode (frames ≫= id) = NFC_AIO_IO_WRITE.
Proof.
  intros [|o' chunk chs extra ctype frs Hex _] Hne; [done|]. rewrite bind_cons. unfold id at 1.
  unfold write_frame. rewrite <- !app_assoc.
  apply io_body_opcode_low. by apply choose_extra_le in Hex as [_ Ht].
Qed.

(** What the server makes of a write. *)
Lemma server_write {COk : CodecOk C} d start n data frames image :
  fits64 (handle d) -> 1 <= aio_buffer_size d -> fits64 (start * sector_size d) ->
  fits32 (n * sector_size d) -> len data = n * sector_size d -> (start + n) * sector_size d <= len image ->
  write_frames d (n * sector_size d) (start * sector_size d) (_op_id d) 0 (write_chunks d data) frames ->
  server_store (length frames) (handle d) (_op_id d) (frames ≫= id) image =
    Some (splice (start * sector_size d) data image).
Proof.
  intros Hh Hk Ho Hl Hlen Hi Hfr. destruct (write_chunks_spec d data Hk) as [Hb Hall].
  erewrite server_store_frames; [|exact Hh|exact Ho|exact Hl|exact Hfr|done|rewrite Hb; lia|lia| |done].
  - by rewrite Hb, Z.add_0_r.
  - eapply Forall_impl; [exact Hall|]. simpl. lia.
Qed.

Lemma write_chunks_cons d data : 1 <= aio_buffer_size d -> 1 <= len data -> write_chunks d data <> [].
Proof.
  intros Hk Hd E. destruct (write_chunks_spec d data Hk) as [Hb _]. rewrite E in Hb. cbn in Hb.
  rewrite <- Hb in Hd. rewrite len_nil in Hd. lia.
Qed.

Lemma device_next d : device_session d -> device_session (set_op_id (_op_id d + 1) d).
Proof. intros []. split; cbn [handle compression sector_size aio_buffer_size _op_id set_op_id]; done || lia. Qed.

(** One operation of the client, and what the server makes of its messages. *)
Lemma device_op_step {COk : CodecOk C} {B : BlockOps} ss {BOk : BlockOpsOk ss B} k op ops reqs d image replies image' :
  1 <= k -> device_session d -> fits32 (_op_id d) -> sector_size d = ss -> device_ok ss (len image) op ->
  asks d (op :: ops) reqs -> answers k (handle d) (_op_id d) image reqs replies image' ->
  exists req reqs1 reply replies1 image1 r,
    reqs = req :: reqs1 /\ replies = reply ++ replies1 /\ device_step ss image op = (image1, r) /\
    len image1 = len image /\ sess (run_device_op op) d reply r (set_op_id (_op_id d + 1) d) req /\
    asks (set_op_id (_op_id d + 1) d) ops reqs1 /\
    answers k (handle d) (_op_id d + 1) image1 reqs1 replies1 image'.
Proof.
  intros Hk Hd Hopid Ess Hop Ha Hs. pose proof Hd as [Hh Hc Hss Hb _]. rewrite <- Ess in *.
  inversion Ha as [|? start n data frames ? reqs1 Hfr Ha1|? start n ? reqs1 Ha1]; subst; clear Ha.
  - destruct Hop as ((Hn & Ho & Hl & Hi) & Hlen). assert (1 <= len data) by (rewrite Hlen; nia).
    pose proof (write_frames_opcode _ _ _ _ _ _ _ Hfr (write_chunks_cons d data Hb ltac:(lia))) as Eo.
    inversion Hs as [|? ? ? ? ack image1 replies1 ? _ Hst Hack Hs1|? ? ? ? rs ? ? Eo']; subst;
      [|by rewrite Eo in Eo'].
    rewrite (server_write d start n data) in Hst by done. injection Hst as <-.
    eexists _, _, _, _, _, _. split_and!; try done; [apply len_splice; unfold fits64 in *; lia|].
    eapply sess_bind; [eapply block_write_ok; try done; by split_and!; try lia|apply sess_ret|..];
      by rewrite app_nil_r.
  - destruct Hop as (Hn & Ho & Hl & Hi). assert (read_ranges d start n) as Hr by by split_and!.
    pose proof (read_request_opcode d start n [] Hc) as Eo.
    inversion Hs as [|? ? ? ? ack image1 replies1 ? Eo'|? ? ? ? rs replies1 ? _ Hp Hs1]; subst;
      [by cbn in Eo'; rewrite Eo in Eo'|].
    cbn [mbind list_bind id] in Hp. rewrite app_nil_r, read_request_payload in Hp.
    eexists _, _, _, _, _, _. split_and!; try done.
    eapply sess_bind; [eapply (block_read_ok d start n image k); try done; by split_and!|apply sess_ret|..];
      by rewrite app_nil_r.
Qed.

Lemma sess_device {COk : CodecOk C} {B : BlockOps} ss {BOk : BlockOpsOk ss B} k ops reqs d image replies image' :
  1 <= k -> device_session d -> sector_size d = ss -> _op_id d + Z.of_nat (length ops) <= 2 ^ 32 ->
  Forall (device_ok ss (len image)) ops -> asks d ops reqs ->
  answers k (handle d) (_op_id d) image reqs replies image' ->
  exists results, device_run ss image ops = (image', results) /\
    sess (run_device ops) d replies results (set_op_id (_op_id d + Z.of_nat (length ops)) d) (reqs ≫= id).
Proof.
  intros Hk. revert reqs d image replies.
  induction ops as [|op ops IH]; intros reqs d image replies Hd Ess Hops Hok Ha Hs.
  - inversion Ha; subst. inversion Hs; subst. exists []. split; [done|]. cbn [length Z.of_nat].
    rewrite Z.add_0_r. replace (set_op_id (_op_id d) d) with d by by destruct d. apply sess_ret.
  - inversion_clear Hok as [|?? Hop Hok']. cbn [length] in *. rewrite Nat2Z.inj_succ in *.
    destruct (device_op_step ss k op ops reqs d image replies image') as
      (req & reqs1 & reply & replies1 & image1 & r & -> & -> & Es & El & Hse & Ha1 & Hs1); try done.
    { destruct Hd. unfold fits32. lia. }
    destruct (IH reqs1 (set_op_id (_op_id d + 1) d) image1 replies1 (device_next _ Hd) Ess) as (results & Er & Hr);
      [cbn [_op_id set_op_id]; lia|by rewrite El|done..|].
    exists (r :: results). cbn [device_run run_device]. rewrite Es, Er. split; [done|].
    eapply sess_bind; [exact Hse| |done|by rewrite bind_cons].
    eapply sess_bind; [exact Hr| |by rewrite app_nil_r|by rewrite app_nil_r].
    replace (set_op_id (_op_id d + Z.succ _) d) with
      (set_op_id (_op_id (set_op_id (_op_id d + 1) d) + Z.of_nat (length ops)) (set_op_id (_op_id d + 1) d));
      [apply sess_ret|]. unfold set_op_id. cbn. f_equal. lia.
Qed.
End Client.

(** * [NfcDisk] *)

Section NfcDisk.
Context {C : Codec} {COk : CodecOk C}.

#[export] Instance disk_ops : BlockOps := {| block_write := write; block_read := read |}.

#[export] Instance disk_ops_ok ss : BlockOpsOk ss disk_ops.
Proof.
  split.
  - intros d start n data frames ack [Hh _ _ Hb _] Hop <- (Hn & Ho & Hl & _) Hlen Hfr Ha s r Hs Hp Hf.
    by eapply write_ok.
  - intros d start n image k rs [Hh Hc _ _ _] Hop <- (Hn & Ho & Hl & Hi) Hk Hp s r Hs Hpl Hf.
    assert (read_ranges d start n) as Hr by done.
    destruct (serve_read_spec k image d start n _ Hr Hk eq_refl Hi) as (Hca & Ht & Hle).
    rewrite <- Hp in Hca. by eapply read_tiles_ok.
Qed.
End NfcDisk.

(** The server is never stuck: it answers whatever the client asks. *)
Lemma server_answers {C : Codec} {COk : CodecOk C} k ops reqs d image :
  1 <= k -> device_session d -> _op_id d + Z.of_nat (length ops) <= 2 ^ 32 ->
  Forall (device_ok (sector_size d) (len image)) ops -> asks d ops reqs ->
  exists replies, answers k (handle d) (_op_id d) image reqs replies (device_run (sector_size d) image ops).1.
Proof.
  intros Hk. revert reqs d image. induction ops as [|op ops IH]; intros reqs d image Hd Hops Hok Ha.
  - inversion Ha; subst. exists []. constructor.
  - inversion_clear Hok as [|?? Hop Hok']. cbn [length] in Hops. rewrite Nat2Z.inj_succ in Hops.
    pose proof Hd as [Hh Hc Hss Hb Ho0]. assert (fits32 (_op_id d)) as Hopid by (unfold fits32; lia).
    inversion Ha as [|? start n data frames ? reqs1 Hfr Ha1|? start n ? reqs1 Ha1]; subst; clear Ha.
    + destruct Hop as ((Hn & Ho & Hl & Hi) & Hlen). assert (1 <= len data) by (rewrite Hlen; nia).
      destruct (IH reqs1 (set_op_id (_op_id d + 1) d) (splice (start * sector_size d) data image)
        (device_next _ Hd)) as [replies Hs]; [cbn; lia| |done|].
      { cbn. by rewrite len_splice by (unfold fits64 in *; lia). }
      exists (aio_msg NFC_AIO_MSG_IO (_op_id d) [] ++ replies). cbn [device_run device_step].
      cbn [sector_size handle _op_id set_op_id] in Hs. destruct (device_run _ _ ops) as [image2 rs]. cbn [fst] in *.
      eapply answers_write; [|by eapply server_write|done|exact Hs].
      eapply write_frames_opcode; [exact Hfr|by apply write_chunks_cons].
    + destruct Hop as (Hn & Ho & Hl & Hi).
      destruct (IH reqs1 (set_op_id (_op_id d + 1) d) image (device_next _ Hd)) as [replies Hs]; [cbn; lia|done..|].
      exists (replies_bytes (_op_id d) (serve_read k image (read_payload d start n)) ++ replies).
      cbn [device_run device_step sector_size handle _op_id set_op_id] in *.
      destruct (device_run _ _ ops) as [image2 rs]. cbn [fst] in *.
      apply answers_read; [| |exact Hs]; cbn [mbind list_bind id]; rewrite app_nil_r.
      * by apply read_request_opcode.
      * by rewrite read_request_payload.
Qed.

(** * The property *)

(** C3: an open disk is a block device.  Let the client ask for any sequence of
    writes and reads within the disk.  The reference server, which sees only
    the client's messages, can answer; and with any answers it may give (any
    fragment size, order, compression and acknowledgement), cut into any
    segments, every call returns, each read with what the device holds at that
    moment; the server is left with the device's image; one op id is used for
    each call, and the socket carried exactly the messages of the calls. *)
Theorem disk_is_block_device {C : Codec} {COk : CodecOk C} k ops reqs d image s :
  1 <= k -> device_session d -> _op_id d + Z.of_nat (length ops) <= 2 ^ 32 ->
  Forall (device_ok (sector_size d) (len image)) ops -> asks d ops reqs -> healthy s ->
  let '(final, results) := device_run (sector_size d) image ops in
  (exists replies, answers k (handle d) (_op_id d) image reqs replies final) /\
  (forall replies image' rest,
    answers k (handle d) (_op_id d) image reqs replies image' -> flat (rx s) = (Some <$> replies) ++ rest ->
    image' = final /\
    exists s', run_device ops (d, s) = (Ok results, (set_op_id (_op_id d + Z.of_nat (length ops)) d, s')) /\
      tx s' = tx s ++ (reqs ≫= id) /\ flat (rx s') = rest).
Proof.
  intros Hk Hd Hops Hok Ha [Hs Hp].
  destruct (device_run (sector_size d) image ops) as [final results] eqn:E. split.
  - pose proof (server_answers k ops reqs d image Hk Hd Hops Hok Ha) as H. by rewrite E in H.
  - intros replies image' rest Han Hf.
    destruct (sess_device (sector_size d) k ops reqs d image replies image' Hk Hd eq_refl Hops Hok Ha Han)
      as (results' & E' & Hse). rewrite E in E'. injection E' as <- <-. split; [done|].
    destruct (Hse s rest Hs Hp Hf) as (s' & Er & T & F). exists s'. split; [done|]. split; [apply T|done].
Qed.

(** * Witness *)

(** A write of sector 1, a read of both sectors and a read of sector 1, on a
    disk of two sectors; the fragments of seven bytes come backwards. *)
Definition demo_ops : list device_op := [DevWrite 1 1 wdata; DevRead 0 2; DevRead 1 1].

Definition demo_reqs : list (list bytes) :=
  [wframes; [read_request (set_op_id 1 wdisk) 0 2]; [read_request (set_op_id 2 wdisk) 1 1]].

Definition demo_served (d : NfcDisk) (start n : Z) : list reply :=
  reverse (@serve_read lab_codec 7 wimage (read_payload d start n)).

Definition demo_answer : bytes :=
  aio_msg NFC_AIO_MSG_IO 0 [] ++ replies_bytes 1 (demo_served (set_op_id 1 wdisk) 0 2) ++
  replies_bytes 2 (demo_served (set_op_id 2 wdisk) 1 1) ++ [].

Lemma demo_asks : @asks lab_codec wdisk demo_ops demo_reqs.
Proof. apply asks_write; [apply wframes_ok|]. apply asks_read, asks_read, asks_nil. Qed.

Lemma demo_answers : @answers lab_codec 7 7 0 (zeros 40) demo_reqs demo_answer wimage.
Proof.
  eapply (@answers_write lab_codec 7 7 0); [vm_compute; reflexivity..| |]; [vm_compute; split; by intros|].
  apply (@answers_read lab_codec 7 7 1); [vm_compute; reflexivity|apply reverse_Permutation|].
  apply (@answers_read lab_codec 7 7 2); [vm_compute; reflexivity|apply reverse_Permutation|].
  constructor.
Qed.

Lemma disk_is_block_device_witness :
  exists s', @run_device (@disk_ops lab_codec) demo_ops (wdisk, wsock demo_answer) =
      (Ok [None; Some wimage; Some wdata], (set_op_id 3 wdisk, s')) /\
    tx s' = demo_reqs ≫= id /\ flat (rx s') = [].
Proof.
  refine (proj2 (proj2 (@disk_is_block_device lab_codec lab_codec_ok 7 demo_ops demo_reqs wdisk (zeros 40)
    (wsock demo_answer) _ _ _ _ _ _) demo_answer wimage [] demo_answers _)).
  - lia.
  - by split; vm_compute; try (split; by intros); try by intros.
  - by vm_compute.
  - repeat constructor; vm_compute; try (split; by intros); by intros.
  - exact demo_asks.
  - apply whealthy.
  - vm_compute. reflexivity.
Defined.
