(* ===== verification/Replay.v ===== *)
(** Programs of reads and writes that fail.  Whatever ends a session, the server
    is left with the image of the device after a part of the program, the write
    that was cut off being torn; so a program can be run again from its start,
    in new sessions, until it returns. *)
From Stdlib Require Import ZArith Lia String.
From stdpp Require Import base list numbers sets.
From coqutil Require Import Byte.
From S2P Require Import Prelude Python PyStr Socket Codec Fastlz Wire Disk DiskRead Frames ReadSpec ReadLoop ReadInto DiskWrite WriteSpec Server WriteTheorems TornWrite BlockDevice.

(** * Specification *)

(** The images that a device can be left with, when it stops somewhere in
    [ops]: a write that is cut off has stored a prefix of its data. *)
Inductive crashed (ss : Z) : bytes -> list device_op -> bytes -> Prop :=
  | crashed_stop image ops : crashed ss image ops image
  | crashed_torn image start n data ops j :
      crashed ss image (DevWrite start n data :: ops) (splice (start * ss) (take j data) image)
  | crashed_next image op ops image' :
      crashed ss (device_step ss image op).1 ops image' -> crashed ss image (op :: ops) image'.

(** A write stays inside a disk of [size] bytes. *)
Definition op_inside (ss size : Z) (op : device_op) : Prop :=
  match op with
  | DevWrite start _ data => 0 <= start /\ start * ss + len data <= size
  | DevRead _ _ => True
  end.

(** Some write of the program stores to position [i]. *)
Definition covered (ss : Z) (ops : list device_op) (i : nat) : Prop :=
  Exists (fun op => match op with
    | DevWrite start _ data => (Z.to_nat (start * ss) <= i < Z.to_nat (start * ss) + length data)%nat
    | DevRead _ _ => False
    end) ops.

(** Images that differ only where the program stores. *)
Definition same_elsewhere (ss : Z) (ops : list device_op) (im1 im2 : bytes) : Prop :=
  len im1 = len im2 /\ forall i, ~ covered ss ops i -> im1 !! i = im2 !! i.

Section Replay.
Context {C : Codec}.

(** * The server of a session *)

(** It takes the messages of the client one by one: it stores the fragments of
    writes, passes over the requests of reads, and stops at the first message
    that did not arrive whole or that it does not accept. *)
Fixpoint server_session (fuel : nat) (handle : Z) (stream image : bytes) : bytes :=
  match fuel with
  | O => image
  | S fuel' =>
      if len stream <? 60 then image
      else if request_opcode stream =? NFC_AIO_IO_READ then server_session fuel' handle (drop 60 stream) image
      else if request_opcode stream =? NFC_AIO_IO_WRITE then
        match parse_write (u32_at 12 stream) stream with
        | Some (h, off, plain, rest) =>
            if (h =? handle) && (off + len plain <=? len image)
            then server_session fuel' handle rest (splice off plain image)
            else image
        | None => image
        end
      else image
  end.

(** What the server makes of the messages of a session that runs [ops],
    whatever its outcome. *)
Definition session_left (ops : list device_op) (st : NfcDisk * sock) (image : bytes) : bytes :=
  let out := drop (length (tx (snd st))) (tx (snd (snd (run_device ops st)))) in
  server_session (length (out ≫= id)) (handle (fst st)) (out ≫= id) image.

Fixpoint sessions_left (ops : list device_op) (sts : list (NfcDisk * sock)) (image : bytes) : bytes :=
  match sts with
  | [] => image
  | st :: sts' => sessions_left ops sts' (session_left ops st image)
  end.

(** An open disk with sectors of [ss] bytes, in any state of its socket. *)
Definition replay_ok (ss : Z) (st : NfcDisk * sock) : Prop :=
  1 <= aio_buffer_size (fst st) /\ sector_size (fst st) = ss /\ fits32 (compression (fst st)).

(** * Lemmas: the server *)

Lemma server_session_short fuel h stream image : len stream < 60 -> server_session fuel h stream image = image.
Proof. intros Hl. destruct fuel; [done|]. cbn [server_session]. by rewrite (proj2 (Z.ltb_lt _ _)). Qed.

(** [run f rest] is what the server does with the rest of the stream, with
    fuel [f]. *)
Definition continues (fuel : nat) (h : Z) (stream image rest image1 : bytes) : Prop :=
  (length stream <= fuel)%nat -> exists fuel', (length rest <= fuel')%nat /\
    server_session fuel h stream image = server_session fuel' h rest image1.

Lemma len_write_frame d length off op o chunk extra ctype :
  len (write_frame d length off op o chunk extra ctype) = 60 + len extra.
Proof.
  unfold write_frame. rewrite !len_app, len_io_body, len_aio_hdr. unfold NFC_AIO_HDR_SIZE. lia.
Qed.

Lemma server_session_frame {COk : CodecOk C} fuel d length off op o chunk extra ctype rest image :
  fits64 (handle d) -> fits64 off -> fits32 length -> fits32 op -> fits32 o -> fits32 (len chunk) ->
  choose_extra (compression d) chunk = Ok (extra, ctype) -> off + o + len chunk <= len image ->
  continues fuel (handle d) (write_frame d length off op o chunk extra ctype ++ rest) image rest
    (splice (off + o) chunk image).
Proof.
  intros Hh Hoff Hl Hop Ho Hc Hex Hi Hf. pose proof (len_write_frame d length off op o chunk extra ctype) as Hlf.
  pose proof (len_nonneg extra). pose proof (len_nonneg rest).
  destruct fuel as [|fuel]; [rewrite length_app in Hf; zlia|]. exists fuel.
  split; [rewrite length_app in Hf; zlia|]. cbn [server_session].
  rewrite (proj2 (Z.ltb_ge _ _)) by (rewrite len_app; lia).
  assert (request_opcode (write_frame d length off op o chunk extra ctype ++ rest) = NFC_AIO_IO_WRITE) as ->.
  { unfold write_frame. rewrite <- !app_assoc. apply io_body_opcode_low.
    by apply choose_extra_le in Hex as [_ Ht]. }
  assert (u32_at 12 (write_frame d length off op o chunk extra ctype ++ rest) = op) as ->.
  { unfold write_frame. rewrite <- !app_assoc. by apply aio_hdr_op. }
  rewrite parse_write_frame by done. rewrite !Z.eqb_refl. by rewrite (proj2 (Z.leb_le (off + o + len chunk) (len image))) by done.
Qed.

Lemma server_session_torn fuel d length off op o chunk extra ctype k image :
  choose_extra (compression d) chunk = Ok (extra, ctype) -> fits32 (len extra) ->
  Z.of_nat k < len (write_frame d length off op o chunk extra ctype) ->
  server_session fuel (handle d) (take k (write_frame d length off op o chunk extra ctype)) image = image.
Proof.
  intros Hex He Hk. destruct fuel; [done|]. cbn [server_session].
  destruct (Z.ltb_spec (len (take k (write_frame d length off op o chunk extra ctype))) 60) as [|Hge]; [done|].
  assert (request_opcode (take k (write_frame d length off op o chunk extra ctype)) = NFC_AIO_IO_WRITE) as ->.
  { unfold write_frame in *. pose proof (len_aio_hdr NFC_AIO_MSG_IO 44 op) as Hh. unfold NFC_AIO_HDR_SIZE in Hh.
    assert (len (io_body (handle d) (Z.lor NFC_AIO_IO_WRITE (Z.shiftl ctype 32)) off length o (len chunk)
      (len extra)) = 44) as Hb by apply len_io_body.
    assert (60 <= Z.of_nat k) by (unfold len in Hge; rewrite length_take in Hge; lia).
    rewrite !app_assoc, take_app_ge, <- app_assoc by (rewrite length_app; zlia).
    apply io_body_opcode_low. by apply choose_extra_le in Hex as [_ Ht]. }
  by rewrite parse_write_torn.
Qed.

Lemma server_session_read fuel d start n rest image h :
  fits32 (compression d) -> continues fuel h (read_request d start n ++ rest) image rest image.
Proof.
  intros Hc Hf. assert (length (read_request d start n) = 60%nat) as Hl.
  { unfold read_request. pose proof (len_aio_hdr NFC_AIO_MSG_IO 44 (_op_id d)).
    pose proof (len_read_payload d start n). rewrite length_app. unfold len, NFC_AIO_HDR_SIZE in *. lia. }
  rewrite length_app in Hf. destruct fuel as [|fuel]; [lia|]. exists fuel. split; [lia|].
  cbn [server_session]. rewrite read_request_opcode by done.
  rewrite (proj2 (Z.ltb_ge _ _)) by (rewrite len_app; unfold len; lia).
  by rewrite drop_app_length' by done.
Qed.

Lemma server_session_frames {COk : CodecOk C} fuel d length off op chunks frames rest image o :
  fits64 (handle d) -> fits64 off -> fits32 length -> fits32 op ->
  write_frames d length off op o chunks frames ->
  0 <= o -> o + len (chunks ≫= id) <= length -> off + length <= len image ->
  continues fuel (handle d) ((frames ≫= id) ++ rest) image rest (splice (off + o) (chunks ≫= id) image).
Proof.
  intros Hh Hoff Hl Hop Hfr. revert fuel image.
  induction Hfr as [o|o chunk chunks extra ctype frames Hex Hfr IH]; intros fuel image Ho Hsum Hin Hf.
  { exists fuel. split; [exact Hf|]. change (([] : list bytes) ≫= id) with ([] : bytes). by rewrite splice_nil. }
  rewrite !bind_cons in *. rewrite len_app in Hsum. unfold id at 1 in Hsum. unfold id at 1 in Hf.
  unfold id at 1 3. pose proof (len_nonneg (chunks ≫= id)). pose proof (len_nonneg chunk).
  unfold fits32, fits64 in *. rewrite <- app_assoc in *.
  edestruct (server_session_frame fuel d length off op o chunk extra ctype) as (f1 & Hf1 & ->);
    [unfold fits32, fits64; done || lia..|exact Hf|].
  destruct (IH f1 (splice (off + o) chunk image)) as (f2 & Hf2 & ->);
    [lia|lia|rewrite len_splice; lia|exact Hf1|].
  exists f2. split; [done|]. by rewrite Z.add_assoc, splice_adjacent by lia.
Qed.

Lemma server_session_sent {COk : CodecOk C} fuel d length off op chunks sent stored image o :
  sent_frames d length off op o chunks sent stored ->
  (sent <> [] -> fits64 (handle d) /\ fits64 off /\ fits32 length /\ fits32 op) ->
  0 <= o -> o + len (chunks ≫= id) <= length -> 0 <= off -> off + length <= len image ->
  (Datatypes.length (sent ≫= id) <= fuel)%nat ->
  server_session fuel (handle d) (sent ≫= id) image = splice (off + o) stored image.
Proof.
  intros Hs. revert fuel image.
  induction Hs as [o chunks|o chunk chunks extra ctype k Hex Hk|o chunk chunks extra ctype sent stored Hex Hs IH];
    intros fuel image Hr Ho Hsum Hoff Hin Hf.
  { rewrite splice_nil. by apply server_session_short. }
  all: rewrite bind_cons, len_app in Hsum; unfold id at 1 in Hsum; pose proof (len_nonneg (chunks ≫= id));
    pose proof (len_nonneg chunk); destruct (Hr ltac:(done)) as (Hh & Ho64 & Hl & Hop); unfold fits32, fits64 in *;
    pose proof (choose_extra_le _ _ _ _ Hex) as [Hel Hct]; pose proof (len_nonneg extra);
    rewrite bind_cons in *; unfold id at 1; unfold id at 1 in Hf.
  - rewrite splice_nil, app_nil_r. apply server_session_torn; unfold fits32; done || lia.
  - edestruct (server_session_frame fuel d length off op o chunk extra ctype) as (f1 & Hf1 & ->);
      [unfold fits32, fits64; done || lia..|exact Hf|].
    apply sent_frames_stored in Hs as Hpre. destruct Hpre as [rest Hpre]. apply (f_equal len) in Hpre.
    rewrite len_app in Hpre. pose proof (len_nonneg rest). pose proof (len_nonneg stored).
    rewrite IH; [|by intros _|lia|lia|lia|rewrite len_splice; lia|done].
    by rewrite Z.add_assoc, splice_adjacent by lia.
Qed.

(** * Lemmas: the client *)

(** Every outcome of [read]: nothing is sent but the request or a part of it. *)
Lemma read_any d start n s o st' :
  read start n (d, s) = (o, st') ->
  tx (snd st') = tx s \/ exists k, tx (snd st') = tx s ++ [take k (read_request d start n)].
Proof.
  unfold read. destruct (n <? 1); [intros [= <- <-]; by left|].
  rewrite (bind_ok _ _ _ tt (d, s)), (bind_ok _ _ _ d (d, s)) by done. intros H.
  destruct (with_buffer (zeros (n * sector_size d)) (readinto start n false false) (d, s)) as [o1 st1] eqn:E.
  assert (st' = st1) as -> by (unfold mbind, M_bind, mret, M_ret in H; rewrite E in H; destruct o1; by simplify_eq/=).
  clear H. unfold with_buffer in E. cbn [fst snd] in E.
  destruct (readinto_run d start n false false (zeros (n * sector_size d)) s) as [(e & d' & Er & _)|(_ & _ & Er)];
    rewrite Er in E; [injection E as <- <-; by left|].
  unfold readinto_io in E. destruct (sendall (read_request d start n) s) as [o2 s2] eqn:Es.
  assert (exists s3, st1 = (set_op_id (_op_id d + 1) d, s3) /\ tx s3 = tx s2) as (s3 & -> & Ht).
  { destruct o2 as [u|e|]; [|injection E as <- <-; by eexists..].
    pose proof (frame_read_loop (Q := same_tx) (Z.to_nat (n * sector_size d)) (n * sector_size d) (_op_id d)
      false loop0 (zeros (n * sector_size d), s2)) as Hf.
    destruct (read_loop _ _ _ _ _ _) as [o3 [b3 s3]]. injection E as <- <-. by eexists. }
  cbn [snd]. rewrite Ht. destruct (sendall_cut _ _ _ _ Es) as [[_ ->]|[_ [->|[k ->]]]]; [|by left|right; by exists k].
  right. exists (length (read_request d start n)). by rewrite take_ge.
Qed.

Lemma server_session_request fuel h d start n k image :
  fits32 (compression d) -> (length (take k (read_request d start n)) <= fuel)%nat ->
  server_session fuel h (take k (read_request d start n)) image = image.
Proof.
  intros Hc Hk. destruct (decide (len (take k (read_request d start n)) < 60)); [by apply server_session_short|].
  assert (len (read_request d start n) = 60) as Hl.
  { unfold read_request. rewrite len_app, len_aio_hdr, len_read_payload. done. }
  assert (take k (read_request d start n) = read_request d start n) as E.
  { apply take_ge. unfold len in *. rewrite length_take in *. lia. }
  rewrite E in *. rewrite <- (app_nil_r (read_request d start n)) in *.
  destruct (server_session_read fuel d start n [] image h Hc Hk) as (f & _ & ->). by apply server_session_short.
Qed.

(** What the messages of one operation make of the image: on every outcome that
    is no result, what a device that stopped is left with. *)
Definition op_leaves (ss : Z) (op : device_op) (h : Z) (image : bytes) {A} (o : outcome A) (out : list bytes) : Prop :=
  match o with
  | Ok _ => forall fuel rest, continues fuel h ((out ≫= id) ++ rest) image rest (device_step ss image op).1
  | _ => forall fuel, (length (out ≫= id) <= fuel)%nat ->
      crashed ss image [op] (server_session fuel h (out ≫= id) image)
  end.

Lemma write_leaves {COk : CodecOk C} d start n data s o st' :
  1 <= aio_buffer_size d -> 1 <= sector_size d -> write start n data (d, s) = (o, st') ->
  (forall r, o = Ok r -> fst st' = set_op_id (_op_id d + 1) d) /\
  exists out, tx (snd st') = tx s ++ out /\
    forall image, op_inside (sector_size d) (len image) (DevWrite start n data) ->
      op_leaves (sector_size d) (DevWrite start n data) (handle d) image o out.
Proof.
  intros Hk Hss E. destruct (write_chunks_spec d data Hk) as [Hb _]. pose proof (len_nonneg data).
  destruct o as [[]|e|].
  { destruct st' as [d' s']. apply write_inv in E as (Hn & Hlen & -> & Hr & frames & body & Hfr & T); [|done].
    split; [done|]. exists frames. split; [apply (talk_tx _ _ _ _ T)|]. intros image [H0 Hi] fuel rest.
    destruct (Hr Hss) as (Hh & Ho & Hl & Hop & _). cbn [device_step fst].
    pose proof (server_session_frames fuel d (n * sector_size d) (start * sector_size d) (_op_id d)
      (write_chunks d data) frames rest image 0 Hh Ho Hl Hop Hfr) as Hc.
    rewrite Hb, Z.add_0_r in Hc. apply Hc; lia. }
  all: split; [done|]; apply write_any in E as (sent & stored & T & F & R); [|done..];
    exists sent; (split; [done|]); intros image [H0 Hi] fuel Hf.
  all: destruct (decide (sent = [])) as [->|Hne]; [rewrite server_session_short by done; constructor|].
  all: destruct (R Hne) as (Hlen & Hn & Hh & Ho & Hl & Hop).
  all: erewrite server_session_sent; [|exact F|done|lia|rewrite Hb; lia|unfold fits64 in *; lia|lia|done].
  all: apply sent_frames_stored in F as [rest Hpre]; rewrite Hb in Hpre; rewrite Z.add_0_r.
  all: replace stored with (take (length stored) data) by (rewrite Hpre; apply take_app_length); constructor.
Qed.

Lemma read_leaves ss d start n s o st' :
  fits32 (compression d) -> read start n (d, s) = (o, st') ->
  (forall r, o = Ok r -> fst st' = set_op_id (_op_id d + 1) d) /\
  exists out, tx (snd st') = tx s ++ out /\ forall image, op_leaves ss (DevRead start n) (handle d) image o out.
Proof.
  intros Hc E. destruct o as [data|e|].
  { destruct st' as [d' s']. apply read_inv in E as (rs & l' & Hr & Hn & _ & -> & T).
    split; [done|]. eexists. split; [apply (talk_tx _ _ _ _ T)|]. intros image fuel rest.
    rewrite bind_cons. change (([] : list bytes) ≫= id) with ([] : bytes). rewrite app_nil_r.
    by apply server_session_read. }
  all: split; [done|]; apply read_any in E as [E|[k E]]; [exists []|exists [take k (read_request d start n)]].
  all: (split; [by rewrite E, ?app_nil_r|]); intros image fuel Hf.
  all: try (rewrite server_session_short by done; constructor).
  all: rewrite bind_cons in *; change (([] : list bytes) ≫= id) with ([] : bytes) in *; rewrite app_nil_r in *.
  all: unfold id in *; rewrite server_session_request by done; constructor.
Qed.

Lemma op_any {COk : CodecOk C} ss op d s o st' :
  replay_ok ss (d, s) -> 1 <= ss -> run_device_op op (d, s) = (o, st') ->
  (forall r, o = Ok r -> fst st' = set_op_id (_op_id d + 1) d) /\
  exists out, tx (snd st') = tx s ++ out /\
    forall image, op_inside ss (len image) op -> op_leaves ss op (handle d) image o out.
Proof.
  intros (Hk & <- & Hc) Hss E. cbn [fst] in *. destruct op as [start n data|start n]; cbn [run_device_op] in E;
    unfold mbind, M_bind, mret, M_ret in E; cbn [block_write block_read disk_ops] in E.
  - destruct (write start n data (d, s)) as [o1 st1] eqn:E1.
    destruct (write_leaves d start n data s o1 st1 Hk Hss E1) as [H1 H2].
    destruct o1; injection E as <- <-; (split; [|exact H2]); [|done..]. intros _ _. by eapply H1.
  - destruct (read start n (d, s)) as [o1 st1] eqn:E1.
    destruct (read_leaves (sector_size d) d start n s o1 st1 Hc E1) as [H1 (out & T & H2)].
    destruct o1; injection E as <- <-; (split; [|exists out; split; [done|]; intros image _; apply H2]); [|done..].
    intros _ _. by eapply H1.
Qed.

Lemma crashed_app ss image ops ops' image' :
  crashed ss image ops image' -> crashed ss image (ops ++ ops') image'.
Proof. induction 1; cbn [app]; by econstructor. Qed.

Lemma device_step_len ss image op : 0 <= ss -> op_inside ss (len image) op -> len (device_step ss image op).1 = len image.
Proof. intros Hss. destruct op; [|done]. intros [H0 H1]. cbn [device_step fst]. apply len_splice; [nia|lia]. Qed.

(** A program, on every outcome. *)
Lemma run_any {COk : CodecOk C} ss ops d s o st' :
  replay_ok ss (d, s) -> 1 <= ss -> run_device ops (d, s) = (o, st') ->
  exists out, tx (snd st') = tx s ++ out /\
    forall image fuel, Forall (op_inside ss (len image)) ops -> (length (out ≫= id) <= fuel)%nat ->
      crashed ss image ops (server_session fuel (handle d) (out ≫= id) image) /\
      (forall rs, o = Ok rs -> server_session fuel (handle d) (out ≫= id) image = (device_run ss image ops).1).
Proof.
  intros Hr Hss. revert d s o st' Hr. induction ops as [|op ops IH]; intros d s o st' Hr E.
  { injection E as <- <-. exists []. split; [by rewrite app_nil_r|]. intros image fuel _ _.
    rewrite server_session_short by done. split; [constructor|done]. }
  cbn [run_device] in E. destruct (run_device_op op (d, s)) as [o1 [d1 s1]] eqn:E1.
  destruct (op_any ss op d s o1 (d1, s1) Hr Hss E1) as [Hd (out1 & T1 & L1)]. cbn [fst snd] in *.
  unfold mbind, M_bind, mret, M_ret in E. rewrite E1 in E.
  destruct o1 as [r|e|].
  2, 3: injection E as <- <-; exists out1; (split; [done|]); intros image fuel [Hop _]%Forall_cons Hf; (split; [|done]);
    by apply (crashed_app _ _ [op]), L1.
  specialize (Hd r eq_refl). subst d1. set (d1 := set_op_id (_op_id d + 1) d) in *.
  destruct (run_device ops (d1, s1)) as [o2 st2] eqn:E2.
  destruct (IH d1 s1 o2 st2 Hr E2) as (out2 & T2 & L2).
  assert (st' = st2 /\ (forall rs, o = Ok rs -> exists rs2, o2 = Ok rs2)) as [-> Ho].
  { destruct o2; injection E as <- <-; (split; [done|]); intros rs [=]. by eexists. }
  exists (out1 ++ out2). split; [by rewrite T2, T1, app_assoc|]. intros image fuel [Hop Hin]%Forall_cons Hf.
  rewrite bind_app in *. destruct (L1 image Hop fuel (out2 ≫= id) Hf) as (f2 & Hf2 & ->).
  destruct (L2 (device_step ss image op).1 f2) as [Hcr Hfin]; [by rewrite device_step_len by (done || lia)|done|].
  split; [by apply crashed_next|]. intros rs Hrs. destruct (Ho rs Hrs) as [rs2 H2].
  change (handle d) with (handle d1). rewrite (Hfin rs2 H2). cbn [device_run].
  destruct (device_step ss image op) as [im1 r1]. cbn [fst]. by destruct (device_run ss im1 ops).
Qed.

(** * Lemmas: repeating *)

Lemma crashed_elsewhere ss image ops image' :
  0 <= ss -> Forall (op_inside ss (len image)) ops -> crashed ss image ops image' ->
  same_elsewhere ss ops image' image.
Proof.
  intros Hss Hin Hc. induction Hc as [image ops|image start n data ops j|image op ops image' _ IH].
  - done.
  - apply Forall_cons in Hin as [[H0 H1] _].
    assert (len (take j data) <= len data) as Hj by (unfold len; rewrite length_take; lia).
    split; [apply len_splice; nia|]. intros i Hi. apply lookup_splice_out; [nia|lia|].
    contradict Hi. apply Exists_cons_hd. unfold len in Hj. lia.
  - apply Forall_cons in Hin as [Hop Hin]. pose proof (device_step_len ss image op Hss Hop) as Hl.
    rewrite <- Hl in Hin. destruct (IH Hin) as [Hl' He]. split; [lia|]. intros i Hi.
    rewrite He by (contradict Hi; by apply Exists_cons_tl).
    destruct op as [start n data|]; [|done]. destruct Hop. cbn [device_step fst].
    apply lookup_splice_out; [nia|lia|]. contradict Hi. by apply Exists_cons_hd.
Qed.

(** Where a program has stored anything, what was there before is not seen. *)
Lemma redo ss ops im1 im2 :
  0 <= ss -> Forall (op_inside ss (len im1)) ops -> same_elsewhere ss ops im1 im2 ->
  (device_run ss im1 ops).1 = (device_run ss im2 ops).1.
Proof.
  intros Hss. revert im1 im2. induction ops as [|op ops IH]; intros im1 im2 Hin [Hl He].
  { apply list_eq. intros i. apply He. intros H. by apply Exists_nil in H. }
  apply Forall_cons in Hin as [Hop Hin]. cbn [device_run].
  assert (same_elsewhere ss ops (device_step ss im1 op).1 (device_step ss im2 op).1) as Hs.
  { split; [by rewrite !device_step_len by (rewrite <- ?Hl; done)|]. intros i Hi.
    destruct op as [start n data|start n]; cbn [device_step fst].
    - destruct Hop. destruct (decide (Z.to_nat (start * ss) <= i < Z.to_nat (start * ss) + length data)%nat).
      + by rewrite !lookup_splice_in by (done || nia).
      + rewrite !lookup_splice_out by (done || nia). apply He. intros [?|?]%Exists_cons; done.
    - apply He. intros [?|?]%Exists_cons; done. }
  apply IH in Hs; [|by rewrite device_step_len].
  destruct (device_step ss im1 op) as [a1 r1], (device_step ss im2 op) as [a2 r2]. cbn [fst] in Hs.
  destruct (device_run ss a1 ops), (device_run ss a2 ops). done.
Qed.

Lemma session_left_any {COk : CodecOk C} ss ops st image :
  replay_ok ss st -> 1 <= ss -> Forall (op_inside ss (len image)) ops ->
  crashed ss image ops (session_left ops st image) /\
  (forall rs st', run_device ops st = (Ok rs, st') -> session_left ops st image = (device_run ss image ops).1).
Proof.
  intros Hr Hss Hin. destruct st as [d s]. unfold session_left. cbn [fst snd].
  destruct (run_device ops (d, s)) as [o st'] eqn:E.
  destruct (run_any ss ops d s o st' Hr Hss E) as (out & T & L). cbn [snd]. rewrite T, drop_app_length.
  destruct (L image _ Hin (le_n _)) as [Hc Hf]. split; [done|]. intros rs st2 [= -> _]. by apply (Hf rs).
Qed.
End Replay.

(** * Properties *)

(** C7: however a session ends (a [sendall] that fails after any number of bytes, a
    missing or wrong answer to any of the operations, arguments that are
    refused), the server is left with what the device is left with when it stops
    somewhere in the program: the operations before that are done, the write
    that was cut off has stored a prefix of its data, and nothing of what follows
    has happened.  If the program returned, all of it is done. *)
Theorem failed_session_is_prefix {C : Codec} {COk : CodecOk C} ss ops st image o st' :
  replay_ok ss st -> 1 <= ss -> Forall (op_inside ss (len image)) ops -> run_device ops st = (o, st') ->
  crashed ss image ops (session_left ops st image) /\
  (forall rs, o = Ok rs -> session_left ops st image = (device_run ss image ops).1).
Proof.
  intros Hr Hss Hin E. destruct (session_left_any ss ops st image Hr Hss Hin) as [Hc Hf].
  split; [done|]. intros rs ->. by eapply Hf.
Qed.

(** C8: a program can be run again from its start: after any number of sessions in
    which it failed anywhere, and one in which it returned, the server has the
    image that the device has after one run, although the reads of the failed
    runs and the torn writes saw other images on the way. *)
Theorem replayed_program {C : Codec} {COk : CodecOk C} ss ops sts st image rs st' :
  Forall (replay_ok ss) sts -> replay_ok ss st -> 1 <= ss -> Forall (op_inside ss (len image)) ops ->
  run_device ops st = (Ok rs, st') ->
  sessions_left ops (sts ++ [st]) image = (device_run ss image ops).1.
Proof.
  intros Hsts Hst Hss Hin E. revert image Hin.
  induction Hsts as [|st1 sts Hst1 _ IH]; intros image Hin; cbn [app sessions_left].
  - destruct (session_left_any ss ops st image Hst Hss Hin) as [_ Hf]. by eapply Hf.
  - destruct (session_left_any ss ops st1 image Hst1 Hss Hin) as [Hc _].
    apply crashed_elsewhere in Hc as [Hl He]; [|lia|done]. rewrite IH by by rewrite Hl.
    apply redo; [lia|by rewrite Hl|done].
Qed.

(** * Witnesses *)

(** [demo_ops] on a socket that cuts the second message after 61 bytes, on one
    on which no answer comes, and on one that is answered. *)
Definition replay_sts : list (NfcDisk * sock) := [(wdisk, torn_sock); (wdisk, wsock [])].

Lemma wdisk_replay s : replay_ok 20 (wdisk, s).
Proof. by split_and!; vm_compute. Qed.

Lemma demo_inside : Forall (op_inside 20 40) demo_ops.
Proof. repeat constructor; vm_compute; by intros. Qed.

Lemma failed_session_is_prefix_witness :
  crashed 20 (zeros 40) demo_ops (@session_left lab_codec demo_ops (wdisk, torn_sock) (zeros 40)) /\
  @session_left lab_codec demo_ops (wdisk, torn_sock) (zeros 40) = splice 20 (take 16 wdata) (zeros 40).
Proof.
  split; [|vm_compute; reflexivity].
  assert (exists o st', @run_device (@disk_ops lab_codec) demo_ops (wdisk, torn_sock) = (o, st')) as (o & st' & E)
    by (eexists _, _; vm_compute; reflexivity).
  apply (proj1 (@failed_session_is_prefix lab_codec lab_codec_ok 20 demo_ops (wdisk, torn_sock) (zeros 40) o st'
    (wdisk_replay _) ltac:(lia) demo_inside E)).
Defined.

Lemma replayed_program_witness :
  @sessions_left lab_codec demo_ops (replay_sts ++ [(wdisk, wsock demo_answer)]) (zeros 40) = zeros 20 ++ wdata.
Proof.
  assert (exists rs st', @run_device (@disk_ops lab_codec) demo_ops (wdisk, wsock demo_answer) = (Ok rs, st'))
    as (rs & st' & E) by (eexists _, _; vm_compute; reflexivity).
  refine (@replayed_program lab_codec lab_codec_ok 20 demo_ops replay_sts (wdisk, wsock demo_answer) (zeros 40)
    rs st' _ (wdisk_replay _) _ demo_inside E).
  - repeat constructor; apply wdisk_replay.
  - lia.
Defined.
