(* ===== verification/OpenDisk.v ===== *)
(** Opening a disk over a connected NFC socket: [_handshake], [_aio_prepare],
    [_parse_open_reply] and the part of [open_disk] between the two sockets'
    creation and its return ([openvixdisklib/nfc_open.py]).  The sockets
    themselves are in [NfcSocket]. *)
From Stdlib Require Import ZArith Lia String.
From stdpp Require Import base list numbers sets.
From coqutil Require Import Byte Word.LittleEndianList.
Import LittleEndianList.
From S2P Require Import Prelude Python PyStr Socket Wire Disk.

(** [b"PlainText"] *)
Definition plain_text : bytes :=
  [Byte.x50; Byte.x6c; Byte.x61; Byte.x69; Byte.x6e; Byte.x54; Byte.x65; Byte.x78; Byte.x74].

Definition _handshake (client_name op_id : pystr) (version : Z) : M sock unit :=
  _send_nfc_msg NFC_MSG_HANDSHAKE plain_text;;
  _send_nfc_msg NFC_MSG_SESSION_PARAMS [];;
  '(reply_type, _) ← _recv_nfc_msg;
  raise_when (negb (reply_type =? NFC_MSG_SESSION_PARAMS_REPLY)) ENfcProtocolError;;
  v ← lift (struct_pack "<I" [version]);
  _send_nfc_msg NFC_MSG_VERSION v;;
  '(reply_type, body) ← _recv_nfc_msg;
  raise_when (negb (reply_type =? NFC_MSG_VERSION)) ENfcProtocolError;;
  remote_version ← lift (unpack1 (struct_unpack_from "<I" body 0));
  raise_when (remote_version <? 3) ENfcProtocolError;;
  name_b ← lift (encode_ascii client_name);
  op_b ← lift (encode_ascii op_id);
  lens ← lift (struct_pack "<II" [len name_b; len op_b]);
  _send_nfc_msg NFC_MSG_CONNECTION_DATA lens;;
  sendall name_b;;
  sendall op_b;;
  features ← lift (struct_pack "<I" [NFC_SESSION_FEATURE_INTERRUPTION_SWITCH]);
  _send_nfc_msg NFC_MSG_SESSION_FEATURES features;;
  _send_nfc_msg NFC_MSG_AIO_SESSION_OPEN [];;
  '(reply_type, _) ← _recv_nfc_msg;
  raise_when (negb (reply_type =? NFC_MSG_AIO_SESSION_OPEN)) ENfcProtocolError.

Definition _aio_prepare : M (NfcDisk * sock) unit :=
  disk ← gets fst;
  open_session ← lift (struct_pack "<IIII" [0; aio_buffer_size disk; aio_buffer_count disk; 0]);
  _aio_roundtrip NFC_AIO_MSG_OPEN_SESSION open_session [] 0;;
  _aio_roundtrip NFC_AIO_MSG_SET_SOCK_OPTS (zeros 12) [] 0;;
  one ← lift (struct_pack "<I" [1]);
  _aio_roundtrip NFC_AIO_MSG_SET_RES_POOL one [] 0;;
  mret tt.

Definition _parse_open_reply (body : bytes) : outcome (Z * Z) :=
  if len body <? 40 then Raise ENfcProtocolError else
  '(handle, file_type, _flags) ← unpack3 (struct_unpack_from "<QII" body 8);
  sector_size ← unpack1 (struct_unpack_from "<I" body 36);
  if negb (file_type =? NFC_DISK) then Raise ENfcProtocolError
  else Ok (handle, if sector_size =? 0 then NFC_SECTOR_SIZE else sector_size).

(** The arguments of [open_disk] after [session]. *)
Record open_args := mkOpenArgs {
  oa_disk_path : pystr;
  oa_client_name : pystr;
  oa_op_id : pystr;
  oa_version : Z;
  oa_read_only : bool;
  oa_compression : Z;
  oa_aio_buffer_size : Z;
  oa_aio_buffer_count : Z
}.

(** The checks at the head of [open_disk]. *)
Definition open_disk_checks (a : open_args) : outcome unit :=
  if oa_aio_buffer_size a <? 1 then Raise EValueError
  else if oa_aio_buffer_count a <? 1 then Raise EValueError
  else if negb ((oa_compression a =? NFC_COMPRESSION_NONE) ||
                (oa_compression a =? NFC_COMPRESSION_FASTLZ)) then Raise ENotImplementedError
  else Ok tt.

(** OPEN_FILE and what its reply sets. *)
Definition open_file (disk_path : pystr) (read_only : bool) : M (NfcDisk * sock) unit :=
  path_b ← lift (encode_utf8 disk_path);
  let open_flags := if read_only then NFC_OPEN_FLAGS_READ_ONLY else NFC_OPEN_FLAGS_READ_WRITE in
  open_body ← lift (struct_pack "<IIIIII" [len path_b; 0; 0; 0; NFC_DISK; open_flags]);
  reply ← _aio_roundtrip NFC_AIO_MSG_OPEN_FILE (ljust0 60 open_body) path_b 0;
  '(handle, sector_size) ← lift (_parse_open_reply reply);
  zoom (modify (set_opened handle sector_size)).

(** The body of [open_disk]'s [try]: everything that talks on the socket. *)
Definition open_session (a : open_args) : M sock NfcDisk :=
  _handshake (oa_client_name a) (oa_op_id a) (oa_version a);;
  r ← with_local
        (init_disk (oa_disk_path a) 0 NFC_SECTOR_SIZE (oa_compression a) (oa_aio_buffer_size a)
           (oa_aio_buffer_count a))
        (_aio_prepare;; open_file (oa_disk_path a) (oa_read_only a));
  mret (snd r).

(** * Specification *)

(** What [NfcDisk] objects satisfy from [open_disk] on: the session's
    parameters are in range, and the fields of the OPEN_FILE reply are those of
    a reply. *)
Record disk_wf (d : NfcDisk) : Prop := {
  wf_handle : fits64 (handle d);
  wf_sector : 1 <= sector_size d < 2 ^ 32;
  wf_compression : compression d = NFC_COMPRESSION_NONE \/ compression d = NFC_COMPRESSION_FASTLZ;
  wf_buffer : 1 <= aio_buffer_size d < 2 ^ 32;
  wf_count : 1 <= aio_buffer_count d < 2 ^ 32;
  wf_op_id : 0 <= _op_id d
}.

(** The OPEN_FILE request body: path length, type, flags, padded to 60. *)
Definition open_file_body (path_len flags : Z) : bytes :=
  ljust0 60 (le_split 4 path_len ++ le_split 4 0 ++ le_split 4 0 ++ le_split 4 0 ++
    le_split 4 NFC_DISK ++ le_split 4 flags).

(** The frames of the classic handshake, in order. *)
Definition handshake_frames (version : Z) (name_b op_b : bytes) : list bytes :=
  [nfc_frame NFC_MSG_HANDSHAKE plain_text; nfc_frame NFC_MSG_SESSION_PARAMS [];
   nfc_frame NFC_MSG_VERSION (le_split 4 version);
   nfc_frame NFC_MSG_CONNECTION_DATA (le_split 4 (len name_b) ++ le_split 4 (len op_b));
   name_b; op_b;
   nfc_frame NFC_MSG_SESSION_FEATURES (le_split 4 NFC_SESSION_FEATURE_INTERRUPTION_SWITCH);
   nfc_frame NFC_MSG_AIO_SESSION_OPEN []].

(** The requests of [_aio_prepare] and OPEN_FILE, with op ids 0 to 3. *)
Definition open_requests (a : open_args) (path_b : bytes) : list bytes :=
  [aio_request NFC_AIO_MSG_OPEN_SESSION 0
     (le_split 4 0 ++ le_split 4 (oa_aio_buffer_size a) ++ le_split 4 (oa_aio_buffer_count a) ++
      le_split 4 0) [];
   aio_request NFC_AIO_MSG_SET_SOCK_OPTS 1 (zeros 12) [];
   aio_request NFC_AIO_MSG_SET_RES_POOL 2 (le_split 4 1) [];
   aio_request NFC_AIO_MSG_OPEN_FILE 3
     (open_file_body (len path_b)
        (if oa_read_only a then NFC_OPEN_FLAGS_READ_ONLY else NFC_OPEN_FLAGS_READ_WRITE)) path_b].

(** * Lemmas: the handshake *)

Lemma pack_II a b : fits32 a -> fits32 b ->
  struct_pack "<II" [a; b] = Ok (le_split 4 a ++ le_split 4 b).
Proof.
  intros. rewrite pack_ok; compute_codes.
  { cbn [fields code_size]. by rewrite app_nil_r. }
  repeat constructor; auto with wire.
Qed.

Lemma pack_IIII a b c d : fits32 a -> fits32 b -> fits32 c -> fits32 d ->
  struct_pack "<IIII" [a; b; c; d] =
    Ok (le_split 4 a ++ le_split 4 b ++ le_split 4 c ++ le_split 4 d).
Proof.
  intros. rewrite pack_ok; compute_codes.
  { cbn [fields code_size]. by rewrite app_nil_r. }
  repeat constructor; auto with wire.
Qed.

(** A classic reply: any frame with the type in its first word. *)
Lemma exch_recv_reply t body :
  fits32 t -> len body <= 260 ->
  exch _recv_nfc_msg (nfc_frame t body) (t, ljust0 260 body) [].
Proof.
  intros Ht Hb. rewrite <- (nfc_frame_body t) by done. rewrite <- (nfc_frame_type t body) at 2 by done.
  by apply exch_recv_nfc_msg, len_nfc_frame.
Qed.

Lemma exch_handshake client_name op_id version name_b op_b b1 b2 b3 :
  encode_ascii client_name = Ok name_b -> encode_ascii op_id = Ok op_b ->
  fits32 version -> fits32 (len name_b) -> fits32 (len op_b) ->
  len b1 <= 260 -> 4 <= len b2 <= 260 -> 3 <= u32_at 0 b2 -> len b3 <= 260 ->
  exch (_handshake client_name op_id version)
    (nfc_frame NFC_MSG_SESSION_PARAMS_REPLY b1 ++ nfc_frame NFC_MSG_VERSION b2 ++
     nfc_frame NFC_MSG_AIO_SESSION_OPEN b3) tt (handshake_frames version name_b op_b).
Proof.
  intros Hn Ho Hv Hln Hlo Hb1 Hb2 Hv2 Hb3. unfold _handshake, handshake_frames.
  eapply exch_bind; [by apply exch_send_nfc_msg| |by rewrite app_nil_l|done].
  eapply exch_bind; [by apply exch_send_nfc_msg| |by rewrite app_nil_l|done].
  eapply exch_bind; [by apply (exch_recv_reply NFC_MSG_SESSION_PARAMS_REPLY b1)| |done|done]. cbv beta iota.
  eapply exch_bind; [by apply exch_guard| |by rewrite app_nil_l|done].
  eapply exch_bind; [by apply exch_lift, pack_I| |by rewrite app_nil_l|done].
  eapply exch_bind; [apply exch_send_nfc_msg; [done|by rewrite len_le_split]|
    |by rewrite app_nil_l|done].
  eapply exch_bind; [apply (exch_recv_reply NFC_MSG_VERSION b2); [done|lia]| |done|done]. cbv beta iota.
  eapply exch_bind; [by apply exch_guard| |by rewrite app_nil_l|done].
  assert (unpack1 (struct_unpack_from "<I" (ljust0 260 b2) 0) = Ok (u32_at 0 b2)) as Hu.
  { rewrite unpack_I by (rewrite ?len_ljust0; lia). unfold u32_at, ljust0.
    by rewrite slice_app_l by lia. }
  eapply exch_bind; [by apply exch_lift| |by rewrite app_nil_l|done].
  eapply exch_bind; [apply exch_guard; lia| |by rewrite app_nil_l|done].
  eapply exch_bind; [by apply exch_lift| |by rewrite app_nil_l|done].
  eapply exch_bind; [by apply exch_lift| |by rewrite app_nil_l|done].
  eapply exch_bind; [by apply exch_lift, pack_II| |by rewrite app_nil_l|done].
  eapply exch_bind; [apply exch_send_nfc_msg; [done|by rewrite len_app, !len_le_split]|
    |by rewrite app_nil_l|done].
  eapply exch_bind; [apply exch_sendall| |by rewrite app_nil_l|done].
  eapply exch_bind; [apply exch_sendall| |by rewrite app_nil_l|done].
  eapply exch_bind; [by apply exch_lift, pack_I| |by rewrite app_nil_l|done].
  eapply exch_bind; [apply exch_send_nfc_msg; [done|by rewrite len_le_split]|
    |by rewrite app_nil_l|done].
  eapply exch_bind; [by apply exch_send_nfc_msg| |by rewrite app_nil_l|done].
  eapply exch_bind; [by apply (exch_recv_reply NFC_MSG_AIO_SESSION_OPEN b3)| |by rewrite app_nil_r|done]. cbv beta iota.
  by apply exch_guard.
Qed.

(** * Lemmas: opening *)

Lemma sess_roundtrip_at d t payload extra body op :
  _op_id d = op -> fits32 t -> fits32 (len payload) -> fits32 op -> fits32 (len body) ->
  t <> NFC_AIO_MSG_ERROR ->
  sess (_aio_roundtrip t payload extra 0) d (aio_msg t op body) body (set_op_id (op + 1) d)
    [aio_request t op payload extra].
Proof. intros <-. apply sess_aio_roundtrip. Qed.

Lemma sess_aio_prepare d b0 b1 b2 :
  fits32 (aio_buffer_size d) -> fits32 (aio_buffer_count d) -> _op_id d = 0 ->
  fits32 (len b0) -> fits32 (len b1) -> fits32 (len b2) ->
  sess _aio_prepare d
    (aio_msg NFC_AIO_MSG_OPEN_SESSION 0 b0 ++ aio_msg NFC_AIO_MSG_SET_SOCK_OPTS 1 b1 ++
     aio_msg NFC_AIO_MSG_SET_RES_POOL 2 b2) tt (set_op_id 3 d)
    [aio_request NFC_AIO_MSG_OPEN_SESSION 0
       (le_split 4 0 ++ le_split 4 (aio_buffer_size d) ++ le_split 4 (aio_buffer_count d) ++
        le_split 4 0) [];
     aio_request NFC_AIO_MSG_SET_SOCK_OPTS 1 (zeros 12) [];
     aio_request NFC_AIO_MSG_SET_RES_POOL 2 (le_split 4 1) []].
Proof.
  intros Hs Hc Hop H0 H1 H2. unfold _aio_prepare.
  eapply sess_bind; [apply (sess_gets _ _ d); by intros| |by rewrite app_nil_l|done].
  eapply sess_bind; [by apply sess_lift, pack_IIII| |by rewrite app_nil_l|done].
  eapply sess_bind; [by apply (sess_roundtrip_at d NFC_AIO_MSG_OPEN_SESSION _ _ b0 0)| |done|done].
  eapply sess_bind; [by apply (sess_roundtrip_at _ NFC_AIO_MSG_SET_SOCK_OPTS _ _ b1 1)| |done|done].
  eapply sess_bind; [by apply sess_lift, pack_I| |by rewrite app_nil_l|done].
  eapply sess_bind; [by apply (sess_roundtrip_at _ NFC_AIO_MSG_SET_RES_POOL _ _ b2 2)
    |apply (sess_ret (set_op_id 3 d))|by rewrite app_nil_r|done].
Qed.

Lemma parse_open_reply_inv body h n :
  _parse_open_reply body = Ok (h, n) -> fits64 h /\ 1 <= n < 2 ^ 32.
Proof.
  unfold _parse_open_reply. destruct (Z.ltb_spec (len body) 40); [done|].
  rewrite unpack_QII, unpack_I by lia. cbn [unpack3 unpack1 mbind outcome_bind].
  destruct (negb _); [done|]. intros E.
  assert (h = u64_at 8 body /\ n = if u32_at 36 body =? 0 then NFC_SECTOR_SIZE else u32_at 36 body)
    as [-> ->] by (split; congruence).
  pose proof (u64_at_bound 8 body ltac:(lia) ltac:(lia)).
  pose proof (u32_at_bound 36 body ltac:(lia) ltac:(lia)).
  split; [done|]. unfold NFC_SECTOR_SIZE. destruct (Z.eqb_spec (u32_at 36 body) 0); lia.
Qed.

Lemma pack_open_body n flags :
  fits32 n -> fits32 flags ->
  struct_pack "<IIIIII" [n; 0; 0; 0; NFC_DISK; flags] =
    Ok (le_split 4 n ++ le_split 4 0 ++ le_split 4 0 ++ le_split 4 0 ++
        le_split 4 NFC_DISK ++ le_split 4 flags).
Proof.
  intros. rewrite pack_ok; compute_codes.
  { cbn [fields code_size]. by rewrite app_nil_r. }
  repeat constructor; auto with wire.
Qed.

Lemma len_open_file_body n flags : len (open_file_body n flags) = 60.
Proof. unfold open_file_body. apply len_ljust0. by rewrite !len_app, !len_le_split. Qed.

Definition open_flags (read_only : bool) : Z :=
  if read_only then NFC_OPEN_FLAGS_READ_ONLY else NFC_OPEN_FLAGS_READ_WRITE.

Lemma open_flags_fits ro : fits32 (open_flags ro).
Proof. by destruct ro. Qed.

Lemma sess_open_file d disk_path ro path_b reply h n :
  encode_utf8 disk_path = Ok path_b -> fits32 (len path_b) -> fits32 (_op_id d) ->
  fits32 (len reply) -> _parse_open_reply reply = Ok (h, n) ->
  sess (open_file disk_path ro) d (aio_msg NFC_AIO_MSG_OPEN_FILE (_op_id d) reply) tt
    (set_opened h n (set_op_id (_op_id d + 1) d))
    [aio_request NFC_AIO_MSG_OPEN_FILE (_op_id d) (open_file_body (len path_b) (open_flags ro))
       path_b].
Proof.
  intros Hp Hl Hop Hr Hrep. unfold open_file.
  eapply sess_bind; [by apply sess_lift| |by rewrite app_nil_l|done].
  eapply sess_bind; [apply sess_lift, pack_open_body; [done|by apply open_flags_fits]|
    |by rewrite app_nil_l|done].
  eapply sess_bind; [apply (sess_aio_roundtrip d NFC_AIO_MSG_OPEN_FILE
    (open_file_body (len path_b) (open_flags ro)) path_b reply); try done| |
    by rewrite app_nil_r|done].
  eapply sess_bind; [by apply sess_lift| |done..]. cbv beta iota. by apply sess_obj.
Qed.

(** The disk [open_session] makes from the OPEN_FILE reply. *)
Definition opened_disk (a : open_args) (h n : Z) : NfcDisk :=
  mkNfcDisk (oa_disk_path a) h n (oa_compression a) (oa_aio_buffer_size a)
    (oa_aio_buffer_count a) 4 false.

(** Bytes of a server that accepts the session. *)
Definition open_replies (hs1 hs2 hs3 b0 b1 b2 reply : bytes) : bytes :=
  (nfc_frame NFC_MSG_SESSION_PARAMS_REPLY hs1 ++ nfc_frame NFC_MSG_VERSION hs2 ++
   nfc_frame NFC_MSG_AIO_SESSION_OPEN hs3) ++
  (aio_msg NFC_AIO_MSG_OPEN_SESSION 0 b0 ++ aio_msg NFC_AIO_MSG_SET_SOCK_OPTS 1 b1 ++
   aio_msg NFC_AIO_MSG_SET_RES_POOL 2 b2) ++ aio_msg NFC_AIO_MSG_OPEN_FILE 3 reply.

Record open_replies_ok (hs1 hs2 hs3 b0 b1 b2 reply : bytes) (h n : Z) : Prop := {
  hs_params : len hs1 <= 260;
  hs_version : 4 <= len hs2 <= 260 /\ 3 <= u32_at 0 hs2;
  hs_open : len hs3 <= 260;
  aio_bodies : fits32 (len b0) /\ fits32 (len b1) /\ fits32 (len b2) /\ fits32 (len reply);
  aio_opened : _parse_open_reply reply = Ok (h, n)
}.

Lemma exch_open_session a name_b op_b path_b hs1 hs2 hs3 b0 b1 b2 reply h n :
  encode_ascii (oa_client_name a) = Ok name_b -> encode_ascii (oa_op_id a) = Ok op_b ->
  encode_utf8 (oa_disk_path a) = Ok path_b ->
  fits32 (len name_b) -> fits32 (len op_b) -> fits32 (len path_b) -> fits32 (oa_version a) ->
  fits32 (oa_aio_buffer_size a) -> fits32 (oa_aio_buffer_count a) ->
  open_replies_ok hs1 hs2 hs3 b0 b1 b2 reply h n ->
  exch (open_session a) (open_replies hs1 hs2 hs3 b0 b1 b2 reply) (opened_disk a h n)
    (handshake_frames (oa_version a) name_b op_b ++ open_requests a path_b).
Proof.
  intros Hn Ho Hp Hln Hlo Hlp Hv Hbs Hbc [H1 [H2 Hv2] H3 (Hb0 & Hb1 & Hb2 & Hr) Hrep].
  unfold open_session, open_replies.
  eapply exch_bind; [by apply (exch_handshake _ _ _ name_b op_b hs1 hs2 hs3)| |done|done].
  eapply exch_bind; [|apply (exch_ret (snd (tt, opened_disk a h n)))
    |symmetry; apply app_nil_r|symmetry; apply app_nil_r].
  eapply exch_local, sess_bind; [by apply (sess_aio_prepare _ b0 b1 b2)| |done|done].
  pose proof (sess_open_file (set_op_id 3 (init_disk (oa_disk_path a) 0 NFC_SECTOR_SIZE
    (oa_compression a) (oa_aio_buffer_size a) (oa_aio_buffer_count a))) (oa_disk_path a)
    (oa_read_only a) path_b reply h n Hp Hlp) as H.
  cbn [_op_id set_op_id] in H. apply H; [done|exact Hr|exact Hrep].
Qed.

Lemma open_session_inv a s d s' :
  open_session a s = (Ok d, s') ->
  fits32 (oa_aio_buffer_size a) /\ fits32 (oa_aio_buffer_count a) /\
  exists h n, fits64 h /\ 1 <= n < 2 ^ 32 /\ d = opened_disk a h n.
Proof.
  intros H. unfold open_session in H. apply bind_inv_ok in H as (u & s1 & _ & H).
  apply bind_inv_ok in H as ([u1 d1] & s2 & HL & [-> ->]%ret_inv_ok). cbn [snd].
  unfold with_local in HL.
  destruct ((_aio_prepare;; open_file _ _) _) as [o [d2 s3]] eqn:E.
  destruct o as [[]| |]; simplify_eq/=.
  apply bind_inv_ok in E as (u2 & [d3 s4] & E1 & E2).
  assert (fits32 (oa_aio_buffer_size a) /\ fits32 (oa_aio_buffer_count a) /\
    d3 = set_op_id 3 (init_disk (oa_disk_path a) 0 NFC_SECTOR_SIZE (oa_compression a)
      (oa_aio_buffer_size a) (oa_aio_buffer_count a))) as (Hbs & Hbc & ->).
  { unfold _aio_prepare in E1.
    apply bind_inv_ok in E1 as (d0 & st & [= <- <-] & E1).
    apply bind_inv_ok in E1 as (p & st & [Hp ->]%lift_inv_ok & E1).
    apply bind_inv_ok in E1 as (r0 & [d4 s5] & (-> & _)%aio_roundtrip_inv & E1).
    apply bind_inv_ok in E1 as (r1 & [d5 s6] & (-> & _)%aio_roundtrip_inv & E1).
    apply bind_inv_ok in E1 as (p1 & st & [_ ->]%lift_inv_ok & E1).
    apply bind_inv_ok in E1 as (r2 & [d6 s7] & (-> & _)%aio_roundtrip_inv & E1).
    apply ret_inv_ok in E1 as [_ E1]. injection E1 as -> ->.
    revert Hp. unfold struct_pack. compute_codes. intros [Hp _]%pack_codes_iff.
    rewrite !Forall2_cons, !code_fits_I in Hp. destruct Hp as (_ & ? & ? & _). done. }
  split; [done|]. split; [done|]. unfold open_file in E2.
  apply bind_inv_ok in E2 as (pb & st & [_ ->]%lift_inv_ok & E2).
  apply bind_inv_ok in E2 as (ob & st & [_ ->]%lift_inv_ok & E2).
  apply bind_inv_ok in E2 as (rep & [d4 s5] & (-> & _)%aio_roundtrip_inv & E2).
  apply bind_inv_ok in E2 as ([h n] & st & [[Hh Hn]%parse_open_reply_inv ->]%lift_inv_ok & E2).
  injection E2 as E2 _. exists h, n. by rewrite <- E2.
Qed.

(** * Lemmas: opening terminates *)

#[export] Instance send_nfc_msg_total t b : Total (_send_nfc_msg t b).
Proof. unfold _send_nfc_msg. total. Qed.

#[export] Instance recv_nfc_msg_total : Total _recv_nfc_msg.
Proof. unfold _recv_nfc_msg. total. Qed.

#[export] Instance handshake_total n o v : Total (_handshake n o v).
Proof. unfold _handshake. total. Qed.

#[export] Instance aio_prepare_total : Total _aio_prepare.
Proof. unfold _aio_prepare. total. Qed.

#[export] Instance parse_open_reply_total b : TotalO (_parse_open_reply b).
Proof.
  unfold _parse_open_reply, TotalO. destruct (Z.ltb_spec (len b) 40); [done|].
  rewrite unpack_QII, unpack_I by lia. simpl. by destruct (negb _).
Qed.

#[export] Instance open_file_total p ro : Total (open_file p ro).
Proof. unfold open_file. total. Qed.

#[export] Instance open_session_total a : Total (open_session a).
Proof.
  unfold open_session. apply total_bind; [apply _|intros _]. apply total_bind; [|apply _].
  intros s. unfold with_local. set (d := init_disk _ _ _ _ _ _).
  pose proof (_ : Total (_aio_prepare;; open_file (oa_disk_path a) (oa_read_only a))) as H.
  specialize (H (d, s)). by destruct ((_aio_prepare;; open_file _ _) (d, s)) as [[] []].
Qed.

#[export] Instance open_disk_checks_total a : TotalO (open_disk_checks a).
Proof.
  unfold open_disk_checks, TotalO. destruct (_ <? 1); [done|]. destruct (_ <? 1); [done|].
  by destruct (negb _).
Qed.

Lemma open_disk_checks_inv a :
  open_disk_checks a = Ok tt ->
  1 <= oa_aio_buffer_size a /\ 1 <= oa_aio_buffer_count a /\
  (oa_compression a = NFC_COMPRESSION_NONE \/ oa_compression a = NFC_COMPRESSION_FASTLZ).
Proof.
  unfold open_disk_checks. destruct (Z.ltb_spec (oa_aio_buffer_size a) 1); [done|].
  destruct (Z.ltb_spec (oa_aio_buffer_count a) 1); [done|].
  destruct (Z.eqb_spec (oa_compression a) NFC_COMPRESSION_NONE) as [->|]; [auto|].
  destruct (Z.eqb_spec (oa_compression a) NFC_COMPRESSION_FASTLZ) as [->|]; [auto|done].
Qed.

(** What [open_disk] makes is well-formed. *)
Lemma opened_disk_wf a s d s' :
  open_disk_checks a = Ok tt -> open_session a s = (Ok d, s') -> disk_wf d.
Proof.
  intros (Hs & Hc & Hk)%open_disk_checks_inv (Fs & Fc & h & n & Hh & Hn & ->)%open_session_inv.
  unfold fits32 in *. split; cbn; try done; lia.
Qed.
