(* ===== verification/NfcTypes.v ===== *)
(** The managed type that [_register_nfc_types] of [openvixdisklib/nfc_auth.py]
    declares to pyVmomi: the methods of [vim.NfcService], which is not in the
    public WSDL, with their parameters and results. *)
From Stdlib Require Import ZArith Lia String.
From stdpp Require Import base list.
From S2P Require Import Prelude Python PyStr.

(** The flags of a parameter: [0] is required. *)
Inductive vmodl_flags :=
  | F_REQUIRED
  | F_OPTIONAL.

(** [(name, type, version, flags, privilege)]; no parameter here has a
    privilege. *)
Record vmodl_param := mkParam {
  p_name : pystr;
  p_type : pystr;
  p_version : pystr;
  p_flags : vmodl_flags
}.

(** [(vmodlName, wsdlName, version, params, (flags, vmodlType, wsdlType),
    privilege, faults)]; no method here has a privilege or faults. *)
Record vmodl_method := mkMethod {
  m_name : pystr;
  m_wsdl : pystr;
  m_version : pystr;
  m_params : list vmodl_param;
  m_result_flags : vmodl_flags;
  m_result : pystr;
  m_result_wsdl : pystr
}.

(** The arguments of [CreateManagedType]; the list of properties is empty. *)
Record managed_type := mkManagedType {
  mt_name : pystr;
  mt_wsdl : pystr;
  mt_parent : pystr;
  mt_version : pystr;
  mt_methods : list vmodl_method
}.

Definition version1 : pystr := str "vim.version.version1".

Definition vm_param : vmodl_param :=
  mkParam (str "vm") (str "vim.VirtualMachine") version1 F_REQUIRED.

Definition disk_device_key_param : vmodl_param :=
  mkParam (str "diskDeviceKey") (str "int") version1 F_REQUIRED.

Definition host_param (flags : vmodl_flags) : vmodl_param :=
  mkParam (str "hostForAccess") (str "vim.HostSystem") version1 flags.

Definition ticket_method (name wsdl : pystr) (params : list vmodl_param) : vmodl_method :=
  mkMethod name wsdl version1 params F_REQUIRED (str "vim.HostServiceTicket")
    (str "vim.HostServiceTicket").

Definition nfc_service_type : managed_type :=
  mkManagedType (str "vim.NfcService") (str "NfcService") (str "vmodl.ManagedObject") version1
    [ticket_method (str "getVmFiles") (str "NfcGetVmFiles") [vm_param];
     ticket_method (str "randomAccessOpen") (str "NfcRandomAccessOpenDisk")
       [vm_param; disk_device_key_param; host_param F_OPTIONAL];
     ticket_method (str "randomAccessOpenReadonly") (str "NfcRandomAccessOpenReadonly")
       [vm_param; disk_device_key_param; host_param F_OPTIONAL];
     mkMethod (str "getServerNfcLibVersion") (str "NfcGetServerNfcLibVersion") version1
       [host_param F_REQUIRED] F_REQUIRED (str "int") (str "int")].

(** * Calls *)

(** What the code passes to a method. *)
Inductive vmodl_value :=
  | VObject (type moid : pystr)
  | VInt (v : Z).

Definition value_type (v : vmodl_value) : pystr :=
  match v with VObject t _ => t | VInt _ => str "int" end.

(** pyVmomi makes the vmodl name, with a capital, a Python method. *)
Definition capitalize (s : pystr) : pystr :=
  match s with c :: s' => ascii_upper c :: s' | [] => [] end.

(** Positional arguments against the declared parameters; the ones that are
    left out must be optional. *)
Fixpoint args_ok (params : list vmodl_param) (args : list vmodl_value) : bool :=
  match params, args with
  | [], [] => true
  | p :: params', v :: args' => str_eqb (p_type p) (value_type v) && args_ok params' args'
  | p :: params', [] => match p_flags p with F_OPTIONAL => args_ok params' [] | F_REQUIRED => false end
  | [], _ :: _ => false
  end.

(** The type declares the Python method [name] for [args], with a ticket as
    its result, under the WSDL name [wsdl]. *)
Definition declares (t : managed_type) (name wsdl : pystr) (args : list vmodl_value) : Prop :=
  exists m, m ∈ mt_methods t /\ capitalize (m_name m) = name /\ m_wsdl m = wsdl /\
    args_ok (m_params m) args = true /\ m_result m = str "vim.HostServiceTicket".
