(* ===== verification/World.v ===== *)
(** The world outside the disk protocol: socket objects, the operating system,
    TLS and pyVmomi.

    The code calls [socket.create_connection], [SSLContext.wrap_socket],
    [os.dup], [SmartConnect], [Disconnect] and the SOAP methods of pyVmomi;
    what they return is the parameter [Env].  Every call gets the number of
    calls made before it, so nothing ties the answer of one call to that of
    another.  The model keeps what the code is responsible for: which socket
    and disk objects exist and which are closed, and the log of logins,
    logouts and ticket requests. *)
From Stdlib Require Import ZArith Lia String.
From stdpp Require Import base list numbers sets.
From S2P Require Import Prelude Python PyStr Socket Disk NfcTypes.

(** * Values of pyVmomi the code looks at *)

(** The backing of a virtual disk and its parents; [fileName] may be missing. *)
Inductive backing :=
  | NoBacking
  | Backing (fileName : option pystr) (parent : backing).

(** A device of [vm.config.hardware.device]. *)
Inductive device :=
  | VirtualDisk (key : Z) (b : backing)
  | OtherDevice.

(** [vim.HostServiceTicket]; [None] is an unset property. *)
Record ticket := mkTicket {
  t_host : pystr;
  t_port : option Z;
  t_sslThumbprint : option pystr;
  t_service : option pystr;
  t_sessionId : pystr
}.

(** The SOAP methods of the NFC service that the code calls. *)
Inductive nfc_call :=
  | GetVmFiles (vm : pystr)
  | RandomAccessOpenReadonly (vm : pystr) (disk_device_key : Z) (host_for_access : pystr)
  | RandomAccessOpen (vm : pystr) (disk_device_key : Z) (host_for_access : pystr).

(** An [ssl.SSLContext]: what the code sets in it. *)
Record ssl_context := mkSslContext {
  check_hostname : bool;
  verify_required : bool
}.

(** The arguments of [SmartConnect]. *)
Record smart_connect := mkSmartConnect {
  sc_host : pystr;
  sc_user : pystr;
  sc_pwd : pystr;
  sc_port : Z;
  sc_thumbprint : option pystr;
  sc_context : option ssl_context;
  sc_disable_validation : bool;
  sc_versions : list pystr
}.

(** * The environment *)

(** [env_wrap] also says, when the TLS handshake fails, whether
    [wrap_socket] had taken the descriptor over (and then closed it). *)
Class Env := {
  env_create_connection : nat -> pystr -> Z -> exn + sock;
  env_default_context : nat -> exn + unit;
  env_wrap : nat -> ssl_context -> sock -> pystr -> exn * bool + sock;
  env_peercert : nat -> exn + bytes;
  env_dup : nat -> sock -> exn + sock;
  env_sockopt : nat -> exn + unit;
  env_service_versions : list pystr;
  env_smart_connect : nat -> smart_connect -> exn + Z;
  env_disconnect : nat -> Z -> exn + unit;
  (** [GetVmodlType("vim.NfcService")], with the types declared so far *)
  env_get_vmodl_type : nat -> list managed_type -> exn + unit;
  env_create_managed_type : nat -> managed_type -> exn + unit;
  env_devices : nat -> pystr -> exn + list device;
  env_host : nat -> pystr -> exn + pystr;
  env_nfc_call : nat -> Z -> nfc_call -> exn + ticket;
  (** [hashlib.new(name, data).digest()] *)
  env_digest : pystr -> bytes -> exn + bytes
}.

(** * The world *)

Inductive event :=
  | Login (si : Z)
  | Logout (si : Z)
  | TicketCall (c : nfc_call).

#[export] Instance nfc_call_eq_dec : EqDecision nfc_call.
Proof. solve_decision. Defined.

#[export] Instance event_eq_dec : EqDecision event.
Proof. solve_decision. Defined.

(** Objects are named by their positions.  A disk object is kept with the name
    of its socket.  [types_registered] is the module's global
    [_NFC_TYPES_REGISTERED]; [registry] holds the types that were declared to
    pyVmomi. *)
Record world := World {
  tick : nat;
  socks : list sock;
  disks : list (NfcDisk * nat);
  log : list event;
  types_registered : bool;
  registry : list managed_type
}.

Definition set_socks (l : list sock) (w : world) : world := 
  World (tick w) l (disks w) (log w) (types_registered w) (registry w).
Definition set_disks (l : list (NfcDisk * nat)) (w : world) : world :=
  World (tick w) (socks w) l (log w) (types_registered w) (registry w).
Definition set_log (l : list event) (w : world) : world := 
  World (tick w) (socks w) (disks w) l (types_registered w) (registry w).
Definition tock (w : world) : world := 
  World (S (tick w)) (socks w) (disks w) (log w) (types_registered w) (registry w).
Definition set_registered (w : world) : world :=
  World (tick w) (socks w) (disks w) (log w) true (registry w).
Definition set_registry (l : list managed_type) (w : world) : world :=
  World (tick w) (socks w) (disks w) (log w) (types_registered w) l.

(** A closed socket with nothing to say: what a name out of range denotes. *)
Definition dead_sock : sock := Sock [] [] [] true false.

Definition sock_at (i : nat) (w : world) : sock := default dead_sock (socks w !! i).

Definition sock_lens (i : nat) : Lens world sock :=
  {| lget := sock_at i; lput s w := set_socks (<[i := s]> (socks w)) w |}.

(** A method of the socket object [i]. *)
Definition on_sock {A} (i : nat) (m : M sock A) : M world A := zoom (L := sock_lens i) m.

Definition dead_disk : NfcDisk * nat := (init_disk [] 0 0 0 0 0, 0%nat).

Definition disk_at (i : nat) (w : world) : NfcDisk * nat := default dead_disk (disks w !! i).

Definition disk_lens (i : nat) : Lens world (NfcDisk * sock) :=
  {| lget w := (fst (disk_at i w), sock_at (snd (disk_at i w)) w);
     lput ds w :=
       set_disks (<[i := (fst ds, snd (disk_at i w))]> (disks w))
         (set_socks (<[snd (disk_at i w) := snd ds]> (socks w)) w) |}.

(** A method of the disk object [i]. *)
Definition on_disk {A} (i : nat) (m : M (NfcDisk * sock) A) : M world A :=
  zoom (L := disk_lens i) m.

(** A call to the environment. *)
Definition sys {A} (f : nat -> exn + A) : M world A := fun w =>
  (match f (tick w) with inl e => Raise e | inr a => Ok a end, tock w).

(** A new socket object. *)
Definition new_sock (s : sock) : M world nat := fun w =>
  (Ok (length (socks w)), set_socks (socks w ++ [s]) w).

Definition new_disk (d : NfcDisk) (sock : nat) : M world nat := fun w =>
  (Ok (length (disks w)), set_disks (disks w ++ [(d, sock)]) w).

Definition emit (e : event) : M world unit := modify (fun w => set_log (log w ++ [e]) w).

(** Mark a socket object closed without touching the descriptor:
    [socket.detach()]. *)
Definition sock_detach : M sock unit :=
  modify (fun s => Sock (rx s) (tx s) (tx_plan s) true (close_fails s)).

Section World.
Context {E : Env}.

(** [socket.create_connection((host, port), timeout=...)] *)
Definition create_connection (host : pystr) (port : Z) : M world nat :=
  s ← sys (fun t => env_create_connection t host port);
  new_sock s.

(** [ssl.create_default_context()], and what [verify=False] sets. *)
Definition _ssl_client_context (verify : bool) : M world ssl_context :=
  sys env_default_context;;
  mret (if verify then mkSslContext true true else mkSslContext false false).

(** [context.wrap_socket(raw, server_hostname=...)]: the new [SSLSocket] takes
    the descriptor over from [raw].  How the handshake ends depends on the
    context and on what was said on [raw] before. *)
Definition wrap_socket (context : ssl_context) (raw : nat) (server_hostname : pystr) :
    M world nat := fun w =>
  match env_wrap (tick w) context (sock_at raw w) server_hostname with
  | inr s => (on_sock raw sock_detach;; new_sock s) (tock w)
  | inl (e, true) => (on_sock raw sock_detach;; raise e) (tock w)
  | inl (e, false) => raise e (tock w)
  end.

(** [ssock.getpeercert(True)] *)
Definition getpeercert : M world bytes := sys env_peercert.

(** [Disconnect(si)] *)
Definition Disconnect (si : Z) : M world unit :=
  emit (Logout si);;
  sys (fun t => env_disconnect t si).
End World.

(** [except Exception: sock.close(); raise] *)
Definition closing_on_error {A} (sock : nat) (m : M world A) : M world A :=
  try_except any_exception m (fun e => on_sock sock sock_close;; raise e).

(** * What a run does to the world *)

(** The objects that existed, and the log, are as they were; there may be new
    socket objects. *)
Record keeps (w w' : world) : Prop := {
  keep_len : (length (socks w) <= length (socks w'))%nat;
  keep_sock i : (i < length (socks w))%nat -> socks w' !! i = socks w !! i;
  keep_disks : disks w' = disks w;
  keep_log : log w' = log w
}.

(** Every socket object made between [w] and [w'] is closed in [w'], but for
    [open]. *)
Definition new_closed (open : option nat) (w w' : world) : Prop :=
  forall i, (length (socks w) <= i < length (socks w'))%nat -> open <> Some i ->
    closed (sock_at i w') = true.

(** The contract of a function that opens a connection: when it returns, the
    socket it returns is the only new one that may be open; when it raises,
    none is. *)
Definition acquires (m : M world nat) : Prop :=
  forall w o w', m w = (o, w') -> keeps w w' /\
    match o with
    | Ok i => (length (socks w) <= i < length (socks w'))%nat /\ new_closed (Some i) w w'
    | Raise _ => new_closed None w w'
    | OutOfFuel => False
    end.

(** The run changes at most the socket objects in [P], and makes none. *)
Record touch (P : nat -> Prop) (w w' : world) : Prop := {
  touch_len : length (socks w') = length (socks w);
  touch_sock i : ~ P i -> socks w' !! i = socks w !! i;
  touch_disks : disks w' = disks w;
  touch_log : log w' = log w
}.

#[export] Instance touch_preorder P : PreOrder (touch P).
Proof.
  split; [done|]. intros w1 w2 w3 [L1 S1 D1 G1] [L2 S2 D2 G2].
  split; [congruence| |congruence..]. intros i Hi. by rewrite S2, S1.
Qed.

(** * Lemmas *)

Lemma sock_at_alter i s w : (i < length (socks w))%nat ->
  sock_at i (set_socks (<[i := s]> (socks w)) w) = s.
Proof. intros. unfold sock_at, set_socks. cbn [socks]. by rewrite list_lookup_insert_eq. Qed.

Lemma on_sock_run {A} i (m : M sock A) w :
  on_sock i m w = let '(o, s) := m (sock_at i w) in (o, set_socks (<[i := s]> (socks w)) w).
Proof. done. Qed.

#[export] Instance frame_on_sock {A} i (m : M sock A) : Frame (touch (eq i)) (on_sock i m).
Proof.
  intros w. rewrite on_sock_run. destruct (m (sock_at i w)) as [o s]. split; try done.
  - simpl. by rewrite length_insert.
  - intros j Hj. simpl. by rewrite list_lookup_insert_ne.
Qed.

#[export] Instance frame_sys {A} P (f : nat -> exn + A) : Frame (touch P) (sys f).
Proof. by intros w. Qed.

#[export] Instance total_sys {A} (f : nat -> exn + A) : Total (sys f).
Proof. intros w. unfold sys. by destruct (f (tick w)). Qed.

#[export] Instance total_on_sock {A} i (m : M sock A) : Total m -> Total (on_sock i m).
Proof. intros. unfold on_sock. apply _. Qed.

#[export] Instance total_on_disk {A} i (m : M (NfcDisk * sock) A) : Total m -> Total (on_disk i m).
Proof. intros. unfold on_disk. apply _. Qed.

#[export] Instance total_new_sock s : Total (new_sock s).
Proof. done. Qed.

#[export] Instance total_new_disk d s : Total (new_disk d s).
Proof. done. Qed.

#[export] Instance total_emit e : Total (emit e).
Proof. done. Qed.

Section Lemmas.
Context {E : Env}.

#[export] Instance frame_getpeercert P : Frame (touch P) getpeercert.
Proof. apply _. Qed.

#[export] Instance frame_default_context P v : Frame (touch P) (_ssl_client_context v).
Proof. unfold _ssl_client_context. apply _. Qed.

#[export] Instance total_default_context v : Total (_ssl_client_context v).
Proof. unfold _ssl_client_context. apply _. Qed.

#[export] Instance total_wrap_socket ctx raw h : Total (wrap_socket ctx raw h).
Proof.
  intros w. unfold wrap_socket, sock_detach. destruct (env_wrap _ _ _ _) as [[e []]|s].
  - apply (_ : Total (on_sock raw (modify _);; raise e)).
  - done.
  - apply (_ : Total (on_sock raw (modify _);; new_sock s)).
Qed.

(** A socket object made, closed or taken over: what each outcome leaves. *)
Lemma create_connection_run h p w :
  (exists e, create_connection h p w = (Raise e, tock w)) \/
  (exists s, create_connection h p w =
    (Ok (length (socks w)), set_socks (socks w ++ [s]) (tock w))).
Proof.
  unfold create_connection, sys, mbind, M_bind.
  destruct (env_create_connection (tick w) h p) as [e|s]; [left|right]; eauto.
Qed.

Lemma wrap_socket_ok ctx raw h w i w' :
  wrap_socket ctx raw h w = (Ok i, w') -> (raw < length (socks w))%nat ->
  i = length (socks w) /\ length (socks w') = S (length (socks w)) /\
  closed (sock_at raw w') = true /\ (forall j, j <> raw -> (j < length (socks w))%nat ->
    socks w' !! j = socks w !! j) /\ disks w' = disks w /\ log w' = log w.
Proof.
  unfold wrap_socket. destruct (env_wrap _ _ _ _) as [[e []]|s]; [done|done|].
  unfold mbind, M_bind. rewrite on_sock_run. cbn. intros [= <- <-] Hr.
  rewrite length_insert. split; [done|]. split; [simpl; rewrite length_app, length_insert; simpl; lia|].
  split.
  { unfold sock_at. simpl. rewrite lookup_app_l by (rewrite length_insert; done).
    by rewrite list_lookup_insert_eq. }
  split; [|done]. intros j Hj Hlt. simpl.
  rewrite lookup_app_l by (rewrite length_insert; done). by rewrite list_lookup_insert_ne.
Qed.

Lemma wrap_socket_raise ctx raw h w e w' :
  wrap_socket ctx raw h w = (Raise e, w') -> touch (eq raw) w w'.
Proof.
  unfold wrap_socket. destruct (env_wrap _ _ _ _) as [[e' []]|s].
  - unfold mbind, M_bind. rewrite on_sock_run. cbn. intros [= <- <-]. split; try done.
    + simpl. by rewrite length_insert.
    + intros j Hj. simpl. by rewrite list_lookup_insert_ne.
  - cbn. by intros [= <- <-].
  - done.
Qed.
End Lemmas.

(** Closing makes a socket closed, whatever [close] raises. *)
Lemma on_sock_close i w :
  (i < length (socks w))%nat ->
  closed (sock_at i (snd (on_sock i sock_close w))) = true.
Proof.
  intros Hi. rewrite on_sock_run. destruct (sock_close (sock_at i w)) as [o s] eqn:Es.
  cbn [snd]. rewrite sock_at_alter by done. by apply sock_close_closed in Es.
Qed.

(** * Lemmas: acquiring sockets *)

Lemma on_sock_close_touch i w : touch (eq i) w (snd (on_sock i sock_close w)).
Proof. apply (frame (R := touch (eq i)) (m := on_sock i sock_close)). Qed.

Lemma closing_inv {A} i (m : M world A) w o w' :
  closing_on_error i m w = (o, w') ->
  (exists a, o = Ok a /\ m w = (Ok a, w')) \/
  (exists e e0 w1, o = Raise e /\ m w = (Raise e0, w1) /\ touch (eq i) w1 w' /\
     ((i < length (socks w1))%nat -> closed (sock_at i w') = true)) \/
  (o = OutOfFuel /\ m w = (OutOfFuel, w')).
Proof.
  unfold closing_on_error, try_except. destruct (m w) as [[a|e0|] w1] eqn:Em; cbn [any_exception].
  - intros [= <- <-]. left. eauto.
  - intros H. right. left.
    pose proof (on_sock_close_touch i w1) as Ht. pose proof (on_sock_close i w1) as Hc.
    unfold mbind, M_bind in H.
    destruct (on_sock i sock_close w1) as [[u|e1|] w2] eqn:E; cbn [snd] in *.
    + injection H as <- <-. eauto 10.
    + injection H as <- <-. eauto 10.
    + exfalso. pose proof (total_on_sock i sock_close _ w1) as Hx. by rewrite E in Hx.
  - intros [= <- <-]. right. right. done.
Qed.

(** From [raw] to the TLS socket over it: [raw] is closed in the end, and a
    returned socket is the one new object. *)
Definition takes_over (raw : nat) (w : world) (o : outcome nat) (w' : world) : Prop :=
  (forall j, j <> raw -> (j < length (socks w))%nat -> socks w' !! j = socks w !! j) /\
  disks w' = disks w /\ log w' = log w /\ closed (sock_at raw w') = true /\
  match o with
  | Ok i => i = length (socks w) /\ length (socks w') = S (length (socks w))
  | Raise _ => length (socks w') = length (socks w)
  | OutOfFuel => False
  end.

Lemma touch_raw raw w w' j :
  touch (eq raw) w w' -> j <> raw -> socks w' !! j = socks w !! j.
Proof. intros [_ H _ _] Hj. apply H. congruence. Qed.

(** [pre] on [raw], then [wrap_socket], with [raw] closed on error. *)
Lemma wrap_takes_over {E : Env} raw h (m : M world ssl_context) w o w' :
  Frame (touch (eq raw)) m -> Total m -> (raw < length (socks w))%nat ->
  closing_on_error raw (c ← m; wrap_socket c raw h) w = (o, w') -> takes_over raw w o w'.
Proof.
  intros Hf Ht Hr H. specialize (Hf w). specialize (Ht w).
  apply closing_inv in H as [(i & -> & H)|[(e & e0 & w1 & -> & H & T & Hc)|[-> H]]].
  - apply bind_inv_ok in H as (a & w1 & E1 & E2). rewrite E1 in Hf. destruct Hf as [L S D G].
    apply wrap_socket_ok in E2 as (-> & Hl & Hcl & Hs & Hd & Hg); [|simpl in L; lia].
    simpl in *. rewrite L in *. split_and!; try congruence. intros j Hj Hlt.
    rewrite Hs by done. apply S. congruence.
  - assert (touch (eq raw) w w') as [L S D G].
    { etrans; [|exact T].
      apply bind_inv in H as [(a & w2 & E1 & E2)|[(e1 & E1 & _)|[_ ?]]]; [| |done].
      - rewrite E1 in Hf. etrans; [exact Hf|]. by eapply wrap_socket_raise.
      - by rewrite E1 in Hf. }
    split_and!; try done.
    + intros j Hj _. apply S. congruence.
    + apply Hc. destruct T as [<- _ _ _]. lia.
  - apply bind_inv in H as [(a & w2 & E1 & E2)|[(e1 & _ & ?)|[E1 _]]]; [|done|].
    + exfalso. pose proof (total_wrap_socket a raw h w2) as Hx. by rewrite E2 in Hx.
    + by rewrite E1 in Ht.
Qed.

(** A connection, then its TLS socket, then a conversation on that. *)
Lemma acquires_tls {E : Env} {A} h p (tls : nat -> M world nat) (body : nat -> M world A) :
  (forall raw w o w', (raw < length (socks w))%nat -> tls raw w = (o, w') ->
     takes_over raw w o w') ->
  (forall i, Frame (touch (eq i)) (body i)) -> (forall i, Total (body i)) ->
  acquires (raw ← create_connection h p; i ← tls raw; closing_on_error i (body i;; mret i)).
Proof.
  intros Htls Hf Ht w o w' H.
  destruct (create_connection_run h p w) as [[e E1]|[s E1]].
  { rewrite (bind_raise _ _ _ _ _ E1) in H. injection H as <- <-.
    split; [done|]. intros i Hi. simpl in Hi. lia. }
  rewrite (bind_ok _ _ _ _ _ E1) in H. clear E1.
  set (n := length (socks w)) in *. set (w1 := set_socks _ _) in *.
  assert (length (socks w1) = S n) as Hl1 by (simpl; rewrite length_app; simpl; lia).
  assert (forall j, (j < n)%nat -> socks w1 !! j = socks w !! j) as Hs1.
  { intros j Hj. simpl. by rewrite lookup_app_l. }
  apply bind_inv in H as [(i & w2 & E2 & H)|[(e & E2 & ->)|[E2 ->]]];
    apply Htls in E2 as (Hs2 & Hd2 & Hg2 & Hc2 & Hm); try lia; try done.
  2: { split; [split; [simpl; lia| |done..]|].
    - intros j Hj. rewrite Hs2 by lia. by apply Hs1.
    - intros j Hj _. replace j with n by lia. done. }
  destruct Hm as [-> Hl2]. rewrite Hl1 in *.
  change (disks w1) with (disks w) in Hd2. change (log w1) with (log w) in Hg2.
  assert (touch (eq (S n)) w2 w' /\ match o with Ok i => i = S n
      | Raise _ => closed (sock_at (S n) w') = true | OutOfFuel => False end) as [[L S2 D G] Ho].
  { specialize (Hf (S n) w2). specialize (Ht (S n) w2).
    apply closing_inv in H as [(a & -> & H)|[(e & e0 & w3 & -> & H & T & Hc)|[-> H]]].
    - apply bind_inv_ok in H as (x & w3 & E3 & H). rewrite E3 in Hf.
      apply ret_inv_ok in H as [-> ->]. done.
    - apply bind_inv in H as [(x & w4 & _ & H)|[(e1 & E3 & _)|[_ ?]]]; [done| |done].
      rewrite E3 in Hf. cbn [snd] in Hf. split; [by etrans|]. apply Hc. destruct Hf as [-> _ _ _]. lia.
    - apply bind_inv in H as [(x & w4 & _ & H)|[(e1 & _ & ?)|[E3 _]]]; [done|done|].
      by rewrite E3 in Ht. }
  split.
  { split; [lia| |congruence..]. intros j Hj. rewrite S2, Hs2, Hs1 by lia. done. }
  assert (closed (sock_at n w') = true) as Hcn.
  { unfold sock_at in *. by rewrite S2 by lia. }
  destruct o as [i|e|]; [|intros j Hj _|done].
  - subst i. split; [lia|]. intros j Hj Hne. replace j with n by (assert (j <> S n) by congruence; lia).
    done.
  - destruct (decide (j = n)) as [->|]; [done|]. by replace j with (S n) by lia.
Qed.

(** * Lemmas: calls that leave the objects alone *)

(** The run only adds events in [P] to the log. *)
Record logs (P : event -> Prop) (w w' : world) : Prop := {
  logs_socks : socks w' = socks w;
  logs_disks : disks w' = disks w;
  logs_log : exists evs, log w' = log w ++ evs /\ Forall P evs
}.

#[export] Instance logs_preorder P : PreOrder (logs P).
Proof.
  split.
  - intros w. split; [done..|]. exists []. by rewrite app_nil_r.
  - intros w1 w2 w3 [S1 D1 (l1 & G1 & F1)] [S2 D2 (l2 & G2 & F2)].
    split; [congruence..|]. exists (l1 ++ l2). split; [by rewrite G2, G1, app_assoc|].
    by apply Forall_app.
Qed.

#[export] Instance logs_sys {A} P (f : nat -> exn + A) : Frame (logs P) (sys f).
Proof. intros w. split; [done..|]. exists []. by rewrite app_nil_r. Qed.

#[export] Instance logs_registry P f : Frame (logs P) (modify (fun w => set_registry (f w) w)).
Proof. intros w. split; [done..|]. exists []. by rewrite app_nil_r. Qed.

#[export] Instance logs_registered P : Frame (logs P) (modify set_registered).
Proof. intros w. split; [done..|]. exists []. by rewrite app_nil_r. Qed.

Lemma logs_emit (P : event -> Prop) e : P e -> Frame (logs P) (emit e).
Proof. intros He w. split; [done..|]. exists [e]. split; [done|]. by constructor. Qed.

#[export] Instance total_modify_world (f : world -> world) : Total (modify f).
Proof. done. Qed.

(** Old objects as they were, and every new socket closed. *)
Definition closed_up (w w' : world) : Prop := keeps w w' /\ new_closed None w w'.

Lemma keeps_trans w1 w2 w3 : keeps w1 w2 -> keeps w2 w3 -> keeps w1 w3.
Proof.
  intros [L1 S1 D1 G1] [L2 S2 D2 G2]. split; [lia| |congruence..].
  intros i Hi. rewrite S2 by lia. by apply S1.
Qed.

(** Sockets made later do not reopen the ones made before. *)
Lemma new_closed_trans op w1 w2 w3 :
  (length (socks w1) <= length (socks w2))%nat ->
  new_closed None w1 w2 -> (forall i, (i < length (socks w2))%nat -> socks w3 !! i = socks w2 !! i) ->
  new_closed op w2 w3 -> new_closed op w1 w3.
Proof.
  intros Hl H12 Hs H23 i Hi Hop. destruct (decide (i < length (socks w2))%nat).
  - unfold sock_at. rewrite Hs by done. apply H12; [lia|done].
  - apply H23; [lia|done].
Qed.

(** [try: ... finally: sock.close()]: the socket is closed on every outcome,
    and closing changes nothing else. *)
Lemma finally_close_inv {A} i (m : M world A) w o w' :
  try_finally m (on_sock i sock_close) w = (o, w') -> Total m ->
  exists o1 w1, m w = (o1, w1) /\ touch (eq i) w1 w' /\
    ((i < length (socks w1))%nat -> closed (sock_at i w') = true).
Proof.
  intros H Ht. specialize (Ht w). unfold try_finally in H. destruct (m w) as [o1 w1].
  pose proof (on_sock_close_touch i w1) as T. pose proof (on_sock_close i w1) as Hc.
  exists o1, w1. split; [done|].
  destruct (on_sock i sock_close w1) as [[u|e|] w2]; destruct o1; simplify_eq/=; done.
Qed.

(** [with create_connection(...) as sock, wrap_socket(sock) as ssock:
    ssock.getpeercert()] *)
Lemma peer_scope_closed {E : Env} ctx h p host w o w' :
  (sock ← create_connection h p;
   try_finally (ssock ← wrap_socket ctx sock host; try_finally getpeercert (on_sock ssock sock_close))
     (on_sock sock sock_close)) w = (o, w') -> closed_up w w'.
Proof.
  intros H. destruct (create_connection_run h p w) as [[e E1]|[s E1]].
  { rewrite (bind_raise _ _ _ _ _ E1) in H. injection H as <- <-.
    split; [done|]. intros i Hi. simpl in Hi. lia. }
  rewrite (bind_ok _ _ _ _ _ E1) in H. clear E1.
  set (n := length (socks w)) in *. set (w1 := set_socks _ _) in *.
  assert (length (socks w1) = S n) as Hl1 by (simpl; rewrite length_app; simpl; lia).
  assert (forall j, (j < n)%nat -> socks w1 !! j = socks w !! j) as Hs1.
  { intros j Hj. simpl. by rewrite lookup_app_l. }
  apply finally_close_inv in H as (o1 & w2 & E2 & [L S2 D2 G2] & Hc).
  2: { apply total_bind; [apply _|]. intros i. apply total_try_finally; apply _. }
  assert ((S n <= length (socks w2))%nat /\
    (forall j, (j < n)%nat -> socks w2 !! j = socks w1 !! j) /\
    disks w2 = disks w /\ log w2 = log w /\
    (forall j, (n < j < length (socks w2))%nat -> closed (sock_at j w2) = true))
    as (Hl2 & Hs2 & Hd2 & Hg2 & Hc2).
  { apply bind_inv in E2 as [(i & w3 & E2 & E3)|[(e & E2 & _)|[E2 _]]].
    - apply wrap_socket_ok in E2 as (-> & Hl & _ & Hs & Hd & Hg); [|lia].
      change (disks w1) with (disks w) in Hd. change (log w1) with (log w) in Hg.
      apply finally_close_inv in E3 as (o3 & w4 & E3 & [L4 S4 D4 G4] & Hc4); [|apply _].
      pose proof (frame_getpeercert (fun _ => False) w3) as [L3 S3 D3 G3].
      rewrite E3 in L3, S3, D3, G3. cbn [snd] in *. rewrite Hl1 in *.
      split; [lia|]. split; [|split; [congruence|split; [congruence|]]].
      + intros j Hj. rewrite S4, S3, Hs by (lia || tauto). done.
      + intros j Hj. replace j with (S n) by lia. apply Hc4. lia.
    - apply wrap_socket_raise in E2 as [L3 S3 D3 G3]. split; [lia|]. split.
      + intros j Hj. apply S3. lia.
      + split; [done|]. split; [done|]. intros j Hj. lia.
    - pose proof (total_wrap_socket ctx n host w1) as Ht. by rewrite E2 in Ht. }
  split; [split; [lia| |congruence..]|].
  - intros j Hj. rewrite S2, Hs2 by lia. by apply Hs1.
  - intros j Hj _. destruct (decide (j = n)) as [->|Hne]; [apply Hc; lia|].
    unfold sock_at. rewrite S2 by congruence. apply Hc2. lia.
Qed.
