(* ===== verification/Thumbprint.v ===== *)
(** Certificate thumbprints of [openvixdisklib/nfc_auth.py]. *)
From Stdlib Require Import ZArith Lia String.
From stdpp Require Import base list numbers sets.
From coqutil Require Import Byte.
From S2P Require Import Prelude Python PyStr Socket World.

(** [f"{byte:02X}"] *)
Definition hex_digit (d : Z) : Z := if d <? 10 then 48 + d else 55 + d.

Definition hex2 (b : byte) : pystr :=
  [hex_digit (byte.unsigned b / 16); hex_digit (byte.unsigned b mod 16)].

Definition _format_thumbprint (digest : bytes) : pystr := join 58 (hex2 <$> digest).

Definition _normalize_thumbprint {U : Unicode} (thumbprint : pystr) : pystr :=
  str_upper (remove_char 32 (remove_char 58 thumbprint)).

Section Thumbprint.
Context {E : Env}.

Definition _sha1_thumbprint (der_cert : bytes) : M world pystr :=
  digest ← sys (fun _ => env_digest (str "sha1") der_cert);
  mret (_format_thumbprint digest).

(** Without the caller's context, one that verifies nothing. *)
Definition get_ssl_cert_thumbprint (host : pystr) (port : Z) (digest_algorithm : pystr)
    (ssl_context : option ssl_context) : M world pystr :=
  context ← match ssl_context with Some c => mret c | None => _ssl_client_context false end;
  sock ← create_connection host port;
  cert ← try_finally
    (ssock ← wrap_socket context sock host;
     try_finally getpeercert (on_sock ssock sock_close))
    (on_sock sock sock_close);
  raise_when (len cert =? 0) EConnectionError;;
  digest ← sys (fun _ => env_digest digest_algorithm cert);
  mret (_format_thumbprint digest).
End Thumbprint.

(** * Lemmas *)

(** The digits of a digest, without separators. *)
Definition hex_digits (digest : bytes) : pystr := digest ≫= hex2.

Lemma hex_digit_range d : 0 <= d < 16 -> 48 <= hex_digit d <= 57 \/ 65 <= hex_digit d <= 70.
Proof. unfold hex_digit. destruct (Z.ltb_spec d 10); lia. Qed.

Lemma hex_digit_inj d e : 0 <= d < 16 -> 0 <= e < 16 -> hex_digit d = hex_digit e -> d = e.
Proof. unfold hex_digit. destruct (Z.ltb_spec d 10), (Z.ltb_spec e 10); lia. Qed.

Lemma nibbles b : 0 <= byte.unsigned b / 16 < 16 /\ 0 <= byte.unsigned b mod 16 < 16.
Proof.
  pose proof (byte.unsigned_range b). split; [|apply Z.mod_pos_bound; lia].
  split; [apply Z.div_pos; lia|apply Z.div_lt_upper_bound; lia].
Qed.

(** What every digit of a thumbprint is. *)
Definition hex_char (c : Z) : Prop := 48 <= c <= 57 \/ 65 <= c <= 70.

Lemma hex2_chars b : Forall hex_char (hex2 b).
Proof.
  pose proof (nibbles b) as [H1 H2].
  unfold hex2. rewrite !Forall_cons. split_and!; [by apply hex_digit_range..|constructor].
Qed.

Lemma hex_digits_chars d : Forall hex_char (hex_digits d).
Proof.
  induction d as [|b d IH]; [constructor|]. unfold hex_digits. rewrite bind_cons.
  apply Forall_app. split; [apply hex2_chars|done].
Qed.

Lemma hex2_inj b c : hex2 b = hex2 c -> b = c.
Proof.
  unfold hex2. intros [= H1 H2]. pose proof (nibbles b) as [? ?]. pose proof (nibbles c) as [? ?].
  apply hex_digit_inj in H1; [|done..]. apply hex_digit_inj in H2; [|done..].
  apply byte.unsigned_inj. rewrite (Z.div_mod (byte.unsigned b) 16), (Z.div_mod (byte.unsigned c) 16)
    by lia. congruence.
Qed.

Lemma hex_digits_inj d e : hex_digits d = hex_digits e -> d = e.
Proof.
  revert e. induction d as [|b d IH]; intros [|c e] H; try done.
  unfold hex_digits in H. rewrite !bind_cons in H.
  apply app_inj_1 in H as [H1 H2]; [|done]. apply hex2_inj in H1. f_equal; [done|by apply IH].
Qed.

Lemma remove_char_app c s t : remove_char c (s ++ t) = remove_char c s ++ remove_char c t.
Proof. apply filter_app. Qed.

Lemma remove_char_id c s : Forall (fun d => d <> c) s -> remove_char c s = s.
Proof.
  induction 1 as [|d s Hd Hs IH]; [done|]. unfold remove_char in *.
  rewrite filter_cons_True by done. by rewrite IH.
Qed.

Lemma remove_char_hex c s : Forall hex_char s -> ~ hex_char c -> remove_char c s = s.
Proof.
  intros Hs Hc. apply remove_char_id. eapply Forall_impl; [exact Hs|]. by intros d Hd ->.
Qed.

Lemma colon_not_hex : ~ hex_char 58.
Proof. unfold hex_char. lia. Qed.

Lemma space_not_hex : ~ hex_char 32.
Proof. unfold hex_char. lia. Qed.

Lemma remove_colon_format d : remove_char 58 (_format_thumbprint d) = hex_digits d.
Proof.
  unfold _format_thumbprint. induction d as [|b d IH]; [done|].
  rewrite fmap_cons. destruct d as [|b' d].
  - cbn [fmap list_fmap join]. unfold hex_digits. cbn [mbind list_bind]. rewrite app_nil_r.
    apply remove_char_hex; [apply hex2_chars|apply colon_not_hex].
  - rewrite fmap_cons in IH |- *. cbn [join] in IH |- *.
    unfold hex_digits in IH |- *. rewrite bind_cons, remove_char_app.
    rewrite remove_char_hex by (apply hex2_chars || apply colon_not_hex).
    f_equal. rewrite <- IH. done.
Qed.

Section Normalize.
Context {U : Unicode} {UOk : UnicodeOk U}.

Lemma hex_char_ascii s : Forall hex_char s -> is_ascii s.
Proof. intros H. eapply Forall_impl; [exact H|]. unfold hex_char. intros c Hc. simpl in *. lia. Qed.

Lemma upper_hex s : Forall hex_char s -> str_upper s = s.
Proof.
  intros H. rewrite str_upper_ascii by by apply hex_char_ascii.
  induction H as [|c s Hc Hs IH]; [done|]. rewrite fmap_cons, IH. f_equal.
  unfold ascii_upper. unfold hex_char in Hc.
  destruct (Z.leb_spec 97 c); [lia|done].
Qed.

Lemma normalize_format d : _normalize_thumbprint (_format_thumbprint d) = hex_digits d.
Proof.
  unfold _normalize_thumbprint. rewrite remove_colon_format.
  rewrite remove_char_hex by (apply hex_digits_chars || apply space_not_hex).
  apply upper_hex, hex_digits_chars.
Qed.

Lemma remove_space_join d : remove_char 32 (join 32 (hex2 <$> d)) = hex_digits d.
Proof.
  induction d as [|b d IH]; [done|]. rewrite fmap_cons. destruct d as [|b' d].
  - cbn [fmap list_fmap join]. unfold hex_digits. cbn [mbind list_bind]. rewrite app_nil_r.
    apply remove_char_hex; [apply hex2_chars|apply space_not_hex].
  - rewrite fmap_cons in IH |- *. cbn [join] in IH |- *.
    unfold hex_digits in IH |- *. rewrite bind_cons, remove_char_app.
    rewrite remove_char_hex by (apply hex2_chars || apply space_not_hex).
    f_equal. rewrite <- IH. done.
Qed.

Lemma normalize_spaces d : _normalize_thumbprint (join 32 (hex2 <$> d)) = hex_digits d.
Proof.
  unfold _normalize_thumbprint. rewrite (remove_char_id 58).
  - rewrite remove_space_join. apply upper_hex, hex_digits_chars.
  - induction d as [|b d IH]; [constructor|]. rewrite fmap_cons.
    assert (Forall (fun c => c <> 58) (hex2 b)) as Hb.
    { eapply Forall_impl; [apply hex2_chars|]. unfold hex_char. intros c Hc. simpl in Hc. lia. }
    destruct d as [|b' d]; [exact Hb|]. rewrite fmap_cons in IH |- *. cbn [join].
    apply Forall_app. split; [done|]. constructor; [lia|]. exact IH.
Qed.

Lemma lower_upper c : hex_char c -> ascii_upper (ascii_lower c) = c.
Proof.
  unfold hex_char, ascii_upper, ascii_lower. intros Hc.
  destruct (Z.leb_spec 65 c), (Z.leb_spec c 90); cbn [andb];
    repeat match goal with |- context [?a <=? ?b] => destruct (Z.leb_spec a b) end;
    cbn [andb]; lia.
Qed.

Lemma normalize_lower d : _normalize_thumbprint (ascii_lower <$> hex_digits d) = hex_digits d.
Proof.
  pose proof (hex_digits_chars d) as H.
  assert (Forall (fun c => c <> 58 /\ c <> 32 /\ 0 <= c < 128) (ascii_lower <$> hex_digits d)) as Hl.
  { apply Forall_fmap. eapply Forall_impl; [exact H|]. unfold hex_char, ascii_lower, compose.
    intros c Hc. simpl in Hc. destruct ((65 <=? c) && (c <=? 90)) eqn:Ec; lia. }
  unfold _normalize_thumbprint.
  rewrite (remove_char_id 58) by (eapply Forall_impl; [exact Hl|]; by intros c (? & _)).
  rewrite (remove_char_id 32) by (eapply Forall_impl; [exact Hl|]; by intros c (_ & ? & _)).
  rewrite str_upper_ascii by (eapply Forall_impl; [exact Hl|]; by intros c (_ & _ & ?)).
  rewrite <- list_fmap_compose. rewrite <- (list_fmap_id (hex_digits d)) at 2.
  apply list_fmap_ext. intros i c Hc. unfold compose. simpl.
  apply lower_upper. by eapply Forall_lookup_1 in H.
Qed.
End Normalize.
