(* ===== verification/Lab.v ===== *)
(** A concrete environment, for the witnesses: one host whose authd, NFC server
    and vCenter answer as the documentation says. *)
From Stdlib Require Import ZArith Lia String.
From stdpp Require Import base list numbers sets.
From coqutil Require Import Byte Word.LittleEndianList.
Import LittleEndianList.
From S2P Require Import Prelude Python PyStr Socket Wire Disk OpenDisk World Thumbprint.

(** The bytes of an ASCII literal and of a line of authd. *)
Definition ascii (x : string) : bytes := byte.of_Z <$> str x.
Definition ascii_line (x : string) : bytes := ascii x ++ [Byte.x0d; Byte.x0a].

Definition lab_sock (bs : bytes) : sock := Sock [RxData bs] [] [] false false.

(** OPEN_FILE's reply: handle 77, type NFC_DISK, 512-byte sectors. *)
Definition lab_open_reply : bytes :=
  zeros 8 ++ le_split 8 77 ++ le_split 4 NFC_DISK ++ le_split 4 0 ++ zeros 12 ++ le_split 4 512.

Definition lab_nfc_stream : bytes :=
  open_replies [] (le_split 4 11) [] [] [] [] lab_open_reply.

Definition lab_cert : bytes := ascii "certificate".

Definition lab_digest (_ : pystr) (data : bytes) : exn + bytes := inr (take 20 (data ++ zeros 20)).

Definition lab_thumbprint : pystr := _format_thumbprint (take 20 (lab_cert ++ zeros 20)).

Definition lab_ticket : ticket :=
  mkTicket (str "esx1") None (Some lab_thumbprint) (Some (str "vpxa-nfc")) (str "52ab").

Definition lab_devices : list device :=
  [OtherDevice;
   VirtualDisk 2000 (Backing (Some (str "[ds] a.vmdk")) NoBacking);
   VirtualDisk 2001 (Backing (Some (str "[ds] b-000001.vmdk"))
     (Backing (Some (str "[ds] b.vmdk")) NoBacking))].

Definition lab_env : Env := {|
  env_create_connection _ _ _ := inr (lab_sock (ascii_line "220 VMware Authentication Daemon"));
  env_default_context _ := inr tt;
  env_wrap _ _ _ _ := inr (lab_sock (ascii_line "220 ok" ++ ascii_line "200 ok" ++
    ascii_line "200 Connect ha-nfcssl" ++ lab_nfc_stream));
  env_peercert _ := inr lab_cert;
  env_dup _ _ := inr (lab_sock lab_nfc_stream);
  env_sockopt _ := inr tt;
  env_service_versions := [str "vim.version.v9_0"; str "vim.version.v8_0_3_0"];
  env_smart_connect _ _ := inr 1;
  env_disconnect _ _ := inr tt;
  env_get_vmodl_type _ _ := inr tt;
  env_create_managed_type _ _ := inr tt;
  env_devices _ _ := inr lab_devices;
  env_host _ _ := inr (str "host-1");
  env_nfc_call _ _ _ := inr lab_ticket;
  env_digest := lab_digest
|}.

(** Nothing has happened yet. *)
Definition world0 : world := World 0 [] [] [] false [].

(** An authd socket is open. *)
Definition world1 : world := World 0 [lab_sock []] [] [] false [].

Definition lab_args : open_args :=
  mkOpenArgs (str "[ds] b.vmdk") (str "vddk") (str "nbdmode") 11 true NFC_COMPRESSION_FASTLZ 65536 1.
