(* ===== verification/Authd.v ===== *)
(** The authd handshake of [openvixdisklib/nfc_auth.py]: [_readline],
    [_expect_code], [nfcssl_service_name] and [connect_authd]. *)
From Stdlib Require Import ZArith Lia String.
From stdpp Require Import base list numbers sets.
From coqutil Require Import Byte.
From S2P Require Import Prelude Python PyStr Socket Disk World Thumbprint.

Definition NFC_SERVICE_MOID : pystr := str "nfcService".
Definition AUTHD_DEFAULT_PORT : Z := 902.

(** [b"\n"] *)
Definition newline : byte := Byte.x0a.

Definition ends_line (buf : bytes) : bool := bool_decide (last buf = Some newline).

(** The loop of [_readline]: one byte at a time, at most 4096, so fuel 4098 is
    enough. *)
Fixpoint readline_loop (fuel : nat) (buf : bytes) : M sock bytes :=
  if ends_line buf then mret buf else
  match fuel with
  | O => out_of_fuel
  | S fuel' =>
      chunk ← recv 1;
      raise_when (len chunk =? 0) EConnectionError;;
      let buf' := buf ++ chunk in
      raise_when (4096 <? len buf') EConnectionError;;
      readline_loop fuel' buf'
  end.

Definition _readline : M sock pystr :=
  buf ← readline_loop 4098 [];
  mret (rstrip_chars [13; 10] (decode_ascii_replace buf)).

Definition _expect_code {U : Unicode} (line code : pystr) : outcome pystr :=
  if negb (startswith line code) then Raise EConnectionError
  else Ok (lstrip (drop (length code) line)).

Definition nfcssl_service_name (service : pystr) : pystr :=
  if endswith service (str "ssl") then service else service ++ str "ssl".

(** [f"{word} {arg}\r\n".encode("ascii")] *)
Definition command (word arg : pystr) : outcome bytes :=
  encode_ascii (word ++ 32 :: arg ++ [13; 10]).

(** [b"BANNER \r\n"] *)
Definition banner_command : bytes := byte.of_Z <$> (str "BANNER " ++ [13; 10]).

(** [b"THUMBPRINT_SHA2 PlainText\r\n"] *)
Definition thumbprint_command : bytes :=
  byte.of_Z <$> (str "THUMBPRINT_SHA2 PlainText" ++ [13; 10]).

(** Python truth of an optional string. *)
Definition truthy (s : option pystr) : option pystr :=
  match s with Some (c :: r) => Some (c :: r) | _ => None end.

(** [ticket.port or AUTHD_DEFAULT_PORT] *)
Definition ticket_port (t : ticket) : Z :=
  match t_port t with Some p => if p =? 0 then AUTHD_DEFAULT_PORT else p | None => AUTHD_DEFAULT_PORT end.

(** The service of the PROXY command. *)
Definition proxy_service (t : ticket) (nfc_ssl : bool) : pystr :=
  let service := default (str "vpxa-nfc") (truthy (t_service t)) in
  if nfc_ssl then nfcssl_service_name service else service.

Section Authd.
Context {E : Env} {U : Unicode}.

(** The commands of the handshake, on the TLS socket. *)
Definition authd_commands (t : ticket) (nfc_ssl : bool) : M sock unit :=
  session ← lift (command (str "SESSION") (t_sessionId t));
  sendall session;;
  sendall banner_command;;
  line ← _readline;
  lift (_expect_code line (str "220"));;
  sendall thumbprint_command;;
  line ← _readline;
  lift (_expect_code line (str "200"));;
  proxy ← lift (command (str "PROXY") (proxy_service t nfc_ssl));
  sendall proxy;;
  line ← _readline;
  lift (_expect_code line (str "200"));;
  mret tt.

(** The pinning of the ESXi certificate. *)
Definition check_thumbprint (t : ticket) (allow_untrusted : bool) : M world unit :=
  match (if allow_untrusted then None else truthy (t_sslThumbprint t)) with
  | None => mret tt
  | Some expected =>
      der_cert ← getpeercert;
      raise_when (len der_cert =? 0) EConnectionError;;
      peer ← _sha1_thumbprint der_cert;
      raise_when (negb (str_eqb (_normalize_thumbprint peer) (_normalize_thumbprint expected)))
        EConnectionError
  end.

(** The plaintext banner and the TLS handshake, with [raw] closed on error. *)
Definition authd_tls (raw : nat) (host : pystr) : M world nat :=
  closing_on_error raw (
    banner ← on_sock raw _readline;
    raise_when (negb (startswith banner (str "220"))) EConnectionError;;
    ssl_context ← _ssl_client_context false;
    wrap_socket ssl_context raw host).

Definition connect_authd (t : ticket) (allow_untrusted nfc_ssl : bool) : M world nat :=
  raw ← create_connection (t_host t) (ticket_port t);
  ssock ← authd_tls raw (t_host t);
  closing_on_error ssock (
    check_thumbprint t allow_untrusted;;
    on_sock ssock (authd_commands t nfc_ssl);;
    mret ssock).
End Authd.

(** * Lemmas: lines *)

Lemma ends_line_app buf b : ends_line (buf ++ [b]) = bool_decide (b = newline).
Proof.
  unfold ends_line. rewrite last_snoc. apply bool_decide_ext. by split; [intros [= ->]|intros ->].
Qed.

(** One [recv(1)] of the peer's next byte. *)
Lemma exch_recv_1 b : exch (recv 1) [b] [b] [].
Proof.
  intros s r Hc Hp Hf. rewrite recv_run by done.
  pose proof (rx_take_spec (Z.to_nat 1) (rx s) ltac:(lia)) as H.
  destruct (rx_take (Z.to_nat 1) (rx s)) as [o rest].
  destruct o as [[|c [|]]|e|]; [| | |by destruct H as [_ H]; rewrite H in Hf|done].
  - by destruct H as [H _]; rewrite H in Hf.
  - destruct H as [H _]. pose proof H as H'. rewrite Hf in H. simpl in H. injection H as <- Hr.
    exists (set_rx rest s). split; [done|]. split; [|done]. by apply set_rx_talk.
  - destruct H as [_ H]. simpl in H. lia.
Qed.

Lemma exch_readline_loop fuel buf l :
  newline ∉ l -> ends_line buf = false ->
  len buf + len l < 4096 -> (length l < fuel)%nat ->
  exch (readline_loop fuel buf) (l ++ [newline]) (buf ++ l ++ [newline]) [].
Proof.
  revert buf l. induction fuel as [|fuel IH]; intros buf l Hn He Hlen Hf; [lia|].
  cbn [readline_loop]. rewrite He.
  assert (forall c r, l ++ [newline] = c :: r ->
    exch (readline_loop fuel (buf ++ [c])) r (buf ++ c :: r) [] ->
    exch (chunk ← recv 1;
      raise_when (len chunk =? 0) EConnectionError;;
      raise_when (4096 <? len (buf ++ chunk)) EConnectionError;;
      readline_loop fuel (buf ++ chunk)) (l ++ [newline]) (buf ++ l ++ [newline]) []) as Hstep.
  { intros c r -> Hr. eapply exch_bind; [apply exch_recv_1| |by instantiate (1 := r)|done].
    eapply exch_bind; [by apply exch_guard| |done..].
    eapply exch_bind; [apply exch_guard|exact Hr|done..].
    apply Z.ltb_ge. rewrite len_app, len_cons, len_nil. pose proof (len_nonneg l). lia. }
  destruct l as [|c l].
  - apply (Hstep newline []); [done|].
    destruct fuel; cbn [readline_loop]; rewrite ends_line_app, bool_decide_true by done;
      apply exch_ret.
  - apply not_elem_of_cons in Hn as [Hc Hn]. rewrite len_cons in Hlen. simpl in Hf.
    apply (Hstep c (l ++ [newline])); [done|].
    replace (buf ++ c :: l ++ [newline]) with ((buf ++ [c]) ++ l ++ [newline])
      by (by rewrite <- app_assoc).
    apply IH; [done| | |lia].
    + rewrite ends_line_app. by apply bool_decide_false.
    + rewrite len_app, len_cons, len_nil. lia.
Qed.

(** The text of a line the peer sends. *)
Definition line_text (l : bytes) : pystr :=
  rstrip_chars [13; 10] (decode_ascii_replace (l ++ [newline])).

Lemma exch_readline l :
  newline ∉ l -> len l < 4096 -> exch _readline (l ++ [newline]) (line_text l) [].
Proof.
  intros Hn Hl. unfold _readline.
  eapply exch_bind; [apply (exch_readline_loop 4098 [] l)|apply exch_ret|by rewrite app_nil_r|done];
    [done|done|by rewrite len_nil; lia|zlia].
Qed.

(** The limit keeps the loop finite whatever the peer sends. *)
Lemma readline_loop_total fuel buf :
  4097 - len buf < Z.of_nat fuel -> len buf <= 4096 -> Total (readline_loop fuel buf).
Proof.
  revert buf. induction fuel as [|fuel IH]; intros buf Hf Hl; cbn [readline_loop];
    (destruct (ends_line buf); [apply _|]); [lia|].
  apply total_bind; [apply _|]. intros chunk.
  destruct (Z.eqb_spec (len chunk) 0) as [|Hc]; [by apply _|].
  apply total_bind; [done|intros _]. cbv zeta.
  destruct (Z.ltb_spec 4096 (len (buf ++ chunk))) as [|Hb]; [by intros ?|].
  apply total_bind; [done|intros _]. apply IH; [|done].
  rewrite len_app in *. pose proof (len_nonneg chunk). lia.
Qed.

#[export] Instance readline_total : Total _readline.
Proof. unfold _readline. apply total_bind; [|apply _]. apply readline_loop_total; done. Qed.

(** * Lemmas: the commands *)

Lemma exch_authd_commands {U : Unicode} t nfc_ssl session proxy l1 l2 l3 r1 r2 r3 :
  command (str "SESSION") (t_sessionId t) = Ok session ->
  command (str "PROXY") (proxy_service t nfc_ssl) = Ok proxy ->
  Forall (fun l => (newline ∉ l) /\ len l < 4096) [l1; l2; l3] ->
  _expect_code (line_text l1) (str "220") = Ok r1 ->
  _expect_code (line_text l2) (str "200") = Ok r2 ->
  _expect_code (line_text l3) (str "200") = Ok r3 ->
  exch (authd_commands t nfc_ssl) ((l1 ++ [newline]) ++ (l2 ++ [newline]) ++ (l3 ++ [newline])) tt
    [session; banner_command; thumbprint_command; proxy].
Proof.
  intros Hs Hp Hl H1 H2 H3. rewrite !Forall_cons in Hl.
  destruct Hl as ([? ?] & [? ?] & [? ?] & _). unfold authd_commands.
  eapply exch_bind; [by apply exch_lift| |by rewrite app_nil_l|done].
  eapply exch_bind; [apply exch_sendall| |by rewrite app_nil_l|done].
  eapply exch_bind; [apply exch_sendall| |by rewrite app_nil_l|done].
  eapply exch_bind; [by apply (exch_readline l1)| |done|done].
  eapply exch_bind; [by apply exch_lift| |by rewrite app_nil_l|done].
  eapply exch_bind; [apply exch_sendall| |by rewrite app_nil_l|done].
  eapply exch_bind; [by apply (exch_readline l2)| |done|done].
  eapply exch_bind; [by apply exch_lift| |by rewrite app_nil_l|done].
  eapply exch_bind; [by apply exch_lift| |by rewrite app_nil_l|done].
  eapply exch_bind; [apply exch_sendall| |by rewrite app_nil_l|done].
  eapply exch_bind; [by apply (exch_readline l3)| |by rewrite app_nil_r|done].
  eapply exch_bind; [by apply exch_lift|apply exch_ret|done|done].
Qed.

(** * Lemmas: the sockets of [connect_authd] *)

Section Sockets.
Context {E : Env} {U : Unicode}.

#[export] Instance frame_check_thumbprint P t a : Frame (touch P) (check_thumbprint t a).
Proof.
  unfold check_thumbprint, _sha1_thumbprint. destruct (if a then _ else _); apply _.
Qed.

#[export] Instance check_thumbprint_total t a : Total (check_thumbprint t a).
Proof.
  unfold check_thumbprint, _sha1_thumbprint, getpeercert. destruct (if a then _ else _); apply _.
Qed.

#[export] Instance expect_code_total line code : TotalO (_expect_code line code).
Proof. unfold _expect_code. by destruct (negb _). Qed.

#[export] Instance command_total w a : TotalO (command w a).
Proof. apply _. Qed.

#[export] Instance authd_commands_total t n : Total (authd_commands t n).
Proof. unfold authd_commands. total. Qed.

#[export] Instance authd_tls_total raw h : Total (authd_tls raw h).
Proof. unfold authd_tls, closing_on_error, _ssl_client_context. total. Qed.

(** [authd_tls] with its first three statements together. *)
Lemma authd_tls_assoc raw h w :
  authd_tls raw h w =
  closing_on_error raw (ssl_context ← (banner ← on_sock raw _readline;
    raise_when (negb (startswith banner (str "220"))) EConnectionError;;
    _ssl_client_context false); wrap_socket ssl_context raw h) w.
Proof.
  unfold authd_tls, closing_on_error, try_except, mbind, M_bind.
  destruct (on_sock raw _readline w) as [[b|e|] w1]; [|done..].
  destruct (raise_when _ _ w1) as [[u|e|] w2]; [|done..].
  by destruct (_ssl_client_context false w2) as [[u'|e|] w3].
Qed.

Lemma connect_authd_sockets t a n : acquires (connect_authd t a n).
Proof.
  intros w o w' H.
  apply (acquires_tls (t_host t) (ticket_port t) (fun raw => authd_tls raw (t_host t))
    (fun i => check_thumbprint t a;; on_sock i (authd_commands t n))).
  - intros raw w1 o1 w2 Hr E1. rewrite authd_tls_assoc in E1.
    eapply wrap_takes_over in E1; [exact E1|apply _| |done]. unfold _ssl_client_context. total.
  - apply _.
  - apply _.
  - rewrite <- H. unfold connect_authd, closing_on_error, try_except, mbind, M_bind.
    destruct (create_connection _ _ w) as [[raw|e|] w1]; [|done..].
    destruct (authd_tls raw (t_host t) w1) as [[i|e|] w2]; [|done..].
    by destruct (check_thumbprint t a w2) as [[u|e|] w3].
Qed.
End Sockets.
