(* ===== verification/NfcSocket.v ===== *)
(** The NFC socket of a session and [open_disk]
    ([openvixdisklib/nfc_open.py]): [takeover_authd_socket],
    [_enable_tcp_nodelay], [wrap_nfcssl_socket], [open_disk]; and the class
    [NfcAuthSession] of [openvixdisklib/nfc_auth.py]. *)
From Stdlib Require Import ZArith Lia String.
From stdpp Require Import base list numbers sets.
From coqutil Require Import Byte.
From S2P Require Import Prelude Python PyStr Socket Wire Disk OpenDisk World.

Record NfcAuthSession := mkNfcAuthSession {
  s_si : Z;
  s_ticket : ticket;
  s_authd_sock : nat;
  s_nfc_ssl : bool
}.

Section NfcSocket.
Context {E : Env}.

(** [NfcAuthSession.close] *)
Definition session_close (session : NfcAuthSession) : M world unit :=
  try_finally (on_sock (s_authd_sock session) sock_close) (Disconnect (s_si session)).

(** [with session: ...]: [__enter__] returns the session, [__exit__] closes it. *)
Definition with_session {A} (session : NfcAuthSession) (body : NfcAuthSession -> M world A) :
    M world A :=
  try_finally (body session) (session_close session).

Definition _enable_tcp_nodelay : M world unit := sys env_sockopt.

(** [os.dup] of a closed socket's descriptor fails before anything is made. *)
Definition takeover_authd_socket (ssock : nat) : M world nat :=
  s ← gets (sock_at ssock);
  raise_when (closed s) EOSError;;
  r ← sys (fun t => env_dup t s);
  raw ← new_sock r;
  sys env_sockopt;;
  _enable_tcp_nodelay;;
  mret raw.

Definition wrap_nfcssl_socket (ssock : nat) (server_hostname : pystr) : M world nat :=
  raw ← takeover_authd_socket ssock;
  ssl_context ← _ssl_client_context false;
  closing_on_error raw (wrap_socket ssl_context raw server_hostname).

(** The socket of the NFC session. *)
Definition nfc_socket (session : NfcAuthSession) : M world nat :=
  if s_nfc_ssl session then wrap_nfcssl_socket (s_authd_sock session) (t_host (s_ticket session))
  else takeover_authd_socket (s_authd_sock session).

(** [open_disk]: the new disk object. *)
Definition open_disk (session : NfcAuthSession) (a : open_args) : M world nat :=
  lift (open_disk_checks a);;
  sock ← nfc_socket session;
  disk ← closing_on_error sock (on_sock sock (open_session a));
  new_disk disk sock.

(** * Specification *)

(** The calls between [os.dup] and the [try] of [wrap_nfcssl_socket], when the
    socket of a session is made in [w]: [settimeout], [setsockopt] and, for
    NBDSSL, [create_default_context].  An exception of theirs leaves the new
    socket open. *)
Definition socket_setup (nfc_ssl : bool) (w : world) : exn + unit :=
  match env_sockopt (1 + tick w) with
  | inl e => inl e
  | inr _ =>
      match env_sockopt (2 + tick w) with
      | inl e => inl e
      | inr _ => if nfc_ssl then env_default_context (3 + tick w) else inr tt
      end
  end.

(** No new socket is open; or the setup raised [e] and the duplicated socket,
    the first new one, is the only one that may be. *)
Definition closed_but_setup (nfc_ssl : bool) (e : exn) (w w' : world) : Prop :=
  new_closed None w w' \/
  (socket_setup nfc_ssl w = inl e /\ new_closed (Some (length (socks w))) w w').

(** * Lemmas *)

Lemma takeover_run i w :
  (exists e w', takeover_authd_socket i w = (Raise e, w') /\ touch (fun _ => False) w w') \/
  (exists o w' s, takeover_authd_socket i w = (o, w') /\
     socks w' = socks w ++ [s] /\ disks w' = disks w /\ log w' = log w /\
     match o with
     | Ok j => j = length (socks w) /\ tick w' = (3 + tick w)%nat /\
         forall ssl, socket_setup ssl w = if ssl then env_default_context (3 + tick w) else inr tt
     | Raise e => forall ssl, socket_setup ssl w = inl e
     | OutOfFuel => False
     end).
Proof.
  unfold takeover_authd_socket, _enable_tcp_nodelay, sys, mbind, M_bind, gets, socket_setup.
  destruct (closed (sock_at i w)); cbn -[sock_at].
  { left. exists EOSError, w. done. }
  destruct (env_dup (tick w) (sock_at i w)) as [e|r]; cbn; [left; by exists e, (tock w)|right].
  destruct (env_sockopt (S (tick w))) as [e1|[]]; cbn; [by eexists _, _, r|].
  destruct (env_sockopt (S (S (tick w)))) as [e2|[]]; cbn; by eexists _, _, r.
Qed.

Lemma touch_keeps w w' : touch (fun _ => False) w w' -> keeps w w' /\ new_closed None w w'.
Proof.
  intros [L S D G]. split; [split; [lia| |done..]|].
  - intros i _. apply S. tauto.
  - intros i Hi. lia.
Qed.

(** A new socket at the end of the list is the only one that may be open. *)
Lemma grown_keeps w w' s :
  socks w' = socks w ++ [s] -> disks w' = disks w -> log w' = log w ->
  keeps w w' /\ length (socks w') = S (length (socks w)) /\
  new_closed (Some (length (socks w))) w w'.
Proof.
  intros H1 D1 G1. assert (length (socks w') = S (length (socks w))) as Hl
    by (rewrite H1, length_app; simpl; lia).
  split; [split; [lia| |done..]|split; [done|]].
  - intros i Hi. by rewrite H1, lookup_app_l.
  - intros j Hj Hne. exfalso. apply Hne. f_equal. lia.
Qed.

(** [wrap_nfcssl_socket] after the takeover. *)
Lemma wrap_nfcssl_run n h w o w' :
  (n < length (socks w))%nat ->
  (ssl_context ← _ssl_client_context false; closing_on_error n (wrap_socket ssl_context n h)) w =
    (o, w') ->
  takes_over n w o w' \/
  (exists e, o = Raise e /\ env_default_context (tick w) = inl e /\ w' = tock w).
Proof.
  intros Hn H. unfold _ssl_client_context, sys in H. unfold mbind at 1 2, M_bind at 1 2 in H.
  destruct (env_default_context (tick w)) as [e|[]] eqn:Ed.
  { injection H as <- <-. right. by exists e. }
  left. set (ctx := mkSslContext false false).
  assert (closing_on_error n (c ← (mret ctx : M world ssl_context); wrap_socket c n h) (tock w) =
    (o, w')) as H2 by exact H.
  by apply wrap_takes_over in H2; [|apply _..|].
Qed.

Lemma nfc_socket_run session w o w' :
  nfc_socket session w = (o, w') -> keeps w w' /\
  match o with
  | Ok i => (length (socks w) <= i < length (socks w'))%nat /\ new_closed (Some i) w w'
  | Raise e => closed_but_setup (s_nfc_ssl session) e w w'
  | OutOfFuel => False
  end.
Proof.
  intros H. unfold nfc_socket in H.
  assert (forall o1 w1 s, socks w1 = socks w ++ [s] -> disks w1 = disks w -> log w1 = log w ->
    match o1 with
    | Ok j => j = length (socks w)
    | Raise e => socket_setup (s_nfc_ssl session) w = inl e
    | OutOfFuel => False
    end -> keeps w w1 /\
    match o1 with
    | Ok i => (length (socks w) <= i < length (socks w1))%nat /\ new_closed (Some i) w w1
    | Raise e => closed_but_setup (s_nfc_ssl session) e w w1
    | OutOfFuel => False
    end) as Hgrown.
  { intros o1 w1 s H1 D1 G1 Ho. destruct (grown_keeps w w1 s H1 D1 G1) as (K & L & N).
    split; [done|]. destruct o1 as [j|e|]; [subst j; by rewrite L; repeat split; lia || done|by right|done]. }
  destruct (takeover_run (s_authd_sock session) w) as
    [(e & w1 & E1 & T)|(o1 & w1 & s & E1 & H1 & D1 & G1 & Ho1)].
  { assert (o = Raise e /\ w' = w1) as [-> ->].
    { destruct (s_nfc_ssl session); [unfold wrap_nfcssl_socket in H; rewrite (bind_raise _ _ _ _ _ E1) in H|
        rewrite E1 in H]; by simplify_eq. }
    apply touch_keeps in T as [K N]. split; [done|by left]. }
  destruct (s_nfc_ssl session) eqn:Hssl.
  2: { rewrite E1 in H. injection H as <- <-. apply (Hgrown o1 w1 s); try done.
    destruct o1; [tauto|apply Ho1|done]. }
  unfold wrap_nfcssl_socket in H. destruct o1 as [n|e|]; [| |done].
  2: { rewrite (bind_raise _ _ _ _ _ E1) in H. injection H as <- <-. by apply (Hgrown (Raise e) w1 s). }
  rewrite (bind_ok _ _ _ _ _ E1) in H. destruct Ho1 as (-> & Ht & Hset). specialize (Hset true).
  destruct (grown_keeps w w1 s H1 D1 G1) as ([_ S1 _ _] & L & _).
  apply wrap_nfcssl_run in H as [(Hs & Hd & Hg & Hc & Hm)|(e & -> & Ed & ->)]; [| |lia].
  - split; [split; [destruct o; lia || done| |congruence..]|].
    + intros i Hi. rewrite Hs by lia. by apply S1.
    + destruct o as [i|e|]; [|left; intros j Hj _|done].
      * destruct Hm as [-> Hl]. split; [lia|]. intros j Hj Hne.
        by replace j with (length (socks w)) by (assert (j <> length (socks w1)) by congruence; lia).
      * by replace j with (length (socks w)) by lia.
  - apply (Hgrown (Raise e) (tock w1) s); try done. by rewrite Hset, <- Ht.
Qed.

Lemma open_disk_run session a w o w' :
  open_disk session a w = (o, w') ->
  (length (socks w) <= length (socks w'))%nat /\
  (forall i, (i < length (socks w))%nat -> socks w' !! i = socks w !! i) /\ log w' = log w /\
  match o with
  | Ok k => exists d i s s', k = length (disks w) /\ disks w' = disks w ++ [(d, i)] /\
      (length (socks w) <= i < length (socks w'))%nat /\ new_closed (Some i) w w' /\
      open_disk_checks a = Ok tt /\ open_session a s = (Ok d, s') /\ sock_at i w' = s'
  | Raise e => disks w' = disks w /\ closed_but_setup (s_nfc_ssl session) e w w'
  | OutOfFuel => False
  end.
Proof.
  unfold open_disk. intros H.
  destruct (open_disk_checks a) as [[]|e|] eqn:Hck.
  2: { injection H as <- <-. split_and!; try done. left. intros i Hi. lia. }
  2: { by apply open_disk_checks_total in Hck. }
  rewrite (lift_bind (Ok tt) _ _ _ eq_refl) in H.
  apply bind_inv in H as [(i & w1 & E1 & H)|[(e & E1 & ->)|[E1 ->]]];
    apply nfc_socket_run in E1 as [[L1 S1 D1 G1] Hm]; [|done|done].
  destruct Hm as [Hi Hnc].
  apply bind_inv in H as [(d & w2 & E2 & H)|[(e & E2 & ->)|[E2 ->]]];
    apply closing_inv in E2 as [(d' & Ho & E2)|[(e1 & e0 & w3 & Ho & E2 & T & Hc)|[Ho E2]]];
    try done; rewrite on_sock_run in E2;
    destruct (open_session a (sock_at i w1)) as [o1 s1] eqn:Es; simplify_eq.
  - injection H as <- <-. cbn [disks socks log set_disks set_socks].
    rewrite length_insert. split; [lia|]. split.
    { intros j Hj. rewrite list_lookup_insert_ne by lia. by apply S1. }
    split; [done|]. exists d', i, (sock_at i w1), s1.
    split_and!; try done; [by rewrite D1|by rewrite D1|lia|lia| |].
    + intros j Hj Hne. cbn [socks set_disks set_socks] in Hj. rewrite length_insert in Hj.
      unfold sock_at. cbn [socks set_disks set_socks].
      rewrite list_lookup_insert_ne by congruence. by apply Hnc.
    + unfold sock_at. cbn [socks set_disks set_socks].
      by rewrite list_lookup_insert_eq by lia.
  - cbn [socks set_socks] in Hc. rewrite length_insert in Hc.
    destruct T as [L S D G]. cbn [socks set_socks disks log] in *. rewrite length_insert in L.
    split; [lia|]. split.
    { intros j Hj. rewrite S by lia. rewrite list_lookup_insert_ne by lia. by apply S1. }
    split; [congruence|]. split; [congruence|]. left. intros j Hj _.
    destruct (decide (j = i)) as [->|Hne]; [apply Hc; lia|].
    unfold sock_at. rewrite S by congruence. rewrite list_lookup_insert_ne by congruence.
    apply Hnc; [lia|congruence].
  - by pose proof (open_session_total a (sock_at i w1)) as Ht; rewrite Es in Ht.
Qed.
End NfcSocket.
