(* ===== verification/OpenTheorems.v ===== *)
(** Properties of opening a disk, and the invariant of [NfcDisk] objects. *)
From Stdlib Require Import ZArith Lia String.
From stdpp Require Import base list numbers sets gmap.
From coqutil Require Import Byte Word.LittleEndianList.
Import LittleEndianList.
From S2P Require Import Prelude Python PyStr Socket Codec Fastlz Wire Disk DiskTheorems DiskRead ReadInto DiskWrite OpenDisk World NfcSocket Lab.

(** * Lemmas: what the methods of [NfcDisk] change in the object *)

(** Only the op id, which never goes back, and the [_closed] flag. *)
Record disk_step (d d' : NfcDisk) : Prop := {
  step_path : path d' = path d;
  step_handle : handle d' = handle d;
  step_sector : sector_size d' = sector_size d;
  step_compression : compression d' = compression d;
  step_buffer : aio_buffer_size d' = aio_buffer_size d;
  step_count : aio_buffer_count d' = aio_buffer_count d;
  step_op_id : _op_id d <= _op_id d';
  step_closed : _closed d = true -> _closed d' = true
}.

Definition steps : relation (NfcDisk * sock) := fun st1 st2 => disk_step (fst st1) (fst st2).

#[export] Instance steps_preorder : PreOrder steps.
Proof.
  split.
  - intros []. unfold steps. by split.
  - intros ??? [] []. unfold steps. split; try congruence; [lia|tauto].
Qed.

#[export] Instance steps_sock {A} (m : M sock A) : Frame steps (zoom m : M (NfcDisk * sock) A).
Proof. intros [d s]. unfold zoom, steps. cbn. by destruct (m s). Qed.

#[export] Instance steps_op_id : Frame steps (zoom _next_op_id : M (NfcDisk * sock) Z).
Proof.
  intros [d s]. change (disk_step d (set_op_id (_op_id d + 1) d)).
  split; cbn [path handle sector_size compression aio_buffer_size aio_buffer_count _op_id
    _closed set_op_id]; done || lia.
Qed.

#[export] Instance steps_set_closed : Frame steps (zoom (modify set_closed) : M (NfcDisk * sock) unit).
Proof. intros [d s]. unfold steps. by split. Qed.

#[export] Instance steps_reply : Frame steps _aio_recv_reply.
Proof.
  unfold _aio_recv_reply. apply frame_bind; [apply _|]. intros h.
  apply frame_bind; [apply _|]. intros [[[magic rtype] rsize] rop].
  apply frame_bind; [apply _|]. intros _.
  apply frame_bind; [destruct (rsize =? 0); apply _|]. intros body. apply _.
Qed.

#[export] Instance steps_roundtrip t p e n : Frame steps (_aio_roundtrip t p e n).
Proof.
  unfold _aio_roundtrip, _aio_send. apply frame_bind; [apply _|]. intros op.
  apply frame_bind; [apply _|]. intros [[rtype rop] body].
  apply frame_bind; [apply _|]. intros _. destruct (n =? 0); apply _.
Qed.

#[export] Instance steps_close : Frame steps close.
Proof.
  unfold close. apply frame_bind; [apply _|]. intros d. destruct (_closed d); apply _.
Qed.

Section Steps.
Context {C : Codec}.

#[export] Instance steps_write start n data : Frame steps (write start n data).
Proof.
  unfold write. do 4 (apply frame_bind; [apply _|]; intros ?).
  apply frame_bind; [apply _|]. intros [].
  apply frame_bind; [apply _|]. intros [[rtype rop] body]. apply _.
Qed.

Lemma readinto_steps start n ro skip d buf s :
  disk_step d (fst (snd (readinto start n ro skip (d, (buf, s))))).
Proof.
  destruct (readinto_effect d start n ro skip buf s) as [[Hd|Hd] _]; cbn [fst] in Hd;
    rewrite Hd; split; cbn; done || lia.
Qed.

#[export] Instance steps_read start n : Frame steps (read start n).
Proof.
  unfold read. apply frame_bind; [apply _|]. intros _. apply frame_bind; [apply _|]. intros d.
  apply frame_bind; [|intros; apply _]. intros [d0 s]. unfold with_buffer, steps. cbn [fst snd].
  pose proof (readinto_steps start n false false d0 (zeros (n * sector_size d)) s) as H.
  by destruct (readinto _ _ _ _ _) as [o [d' [b s']]].
Qed.
End Steps.

Lemma disk_wf_step d d' : disk_step d d' -> disk_wf d -> disk_wf d'.
Proof.
  intros [_ Hh Hs Hc Hb Hn Ho _] [W1 W2 W3 W4 W5 W6].
  split; rewrite ?Hh, ?Hs, ?Hc, ?Hb, ?Hn; done || lia.
Qed.

(** * Properties *)

(** C19: over a server that answers the handshake and the four AIO requests,
    the body of [open_disk] sends exactly the documented conversation: six
    classic messages, the two names, and OPEN_SESSION, SET_SOCK_OPTS,
    SET_RES_POOL and OPEN_FILE with op ids 0 to 3; it consumes exactly the
    answers and returns a disk with the handle and the sector size of the
    OPEN_FILE reply. *)
Theorem open_conversation a name_b op_b path_b hs1 hs2 hs3 b0 b1 b2 reply h n s rest :
  encode_ascii (oa_client_name a) = Ok name_b -> encode_ascii (oa_op_id a) = Ok op_b ->
  encode_utf8 (oa_disk_path a) = Ok path_b ->
  fits32 (len name_b) -> fits32 (len op_b) -> fits32 (len path_b) -> fits32 (oa_version a) ->
  fits32 (oa_aio_buffer_size a) -> fits32 (oa_aio_buffer_count a) ->
  open_replies_ok hs1 hs2 hs3 b0 b1 b2 reply h n ->
  healthy s -> flat (rx s) = (Some <$> open_replies hs1 hs2 hs3 b0 b1 b2 reply) ++ rest ->
  exists s', open_session a s = (Ok (opened_disk a h n), s') /\
    tx s' = tx s ++ handshake_frames (oa_version a) name_b op_b ++ open_requests a path_b /\
    flat (rx s') = rest.
Proof.
  intros Hn Ho Hp Hln Hlo Hlp Hv Hbs Hbc Hrep [Hc Hpl] Hf.
  destruct (exch_open_session a name_b op_b path_b hs1 hs2 hs3 b0 b1 b2 reply h n Hn Ho Hp Hln Hlo
    Hlp Hv Hbs Hbc Hrep s rest Hc Hpl Hf) as (s' & E & T & F).
  exists s'. split; [done|]. split; [apply T|done].
Qed.

(** The disk that [open_disk] makes is well-formed, on whatever server:
    its handle and sector size fit the request fields, its buffer size and
    count are at least 1, its compression is one the code implements. *)
Theorem open_disk_wf {E : Env} session a w k w' :
  open_disk session a w = (Ok k, w') -> disk_wf (fst (disk_at k w')).
Proof.
  intros H. apply open_disk_run in H as (_ & _ & _ & d & i & s & s' & -> & Hd & _ & _ & Hck & Hs & _).
  unfold disk_at. rewrite Hd, lookup_app_r, Nat.sub_diag by done. by eapply opened_disk_wf.
Qed.

(** [open_disk] releases what it made: if it raises, whatever failed and
    wherever, every socket it made is closed, but for the duplicated one when
    the setup of that one raised; if it returns, the disk's own socket is the
    only one that may be open; the caller's sockets are untouched. *)
Theorem open_disk_releases {E : Env} session a w :
  let '(o, w') := open_disk session a w in
  (forall i, (i < length (socks w))%nat -> socks w' !! i = socks w !! i) /\
  match o with
  | Ok k => new_closed (Some (snd (disk_at k w'))) w w'
  | Raise e => closed_but_setup (s_nfc_ssl session) e w w' /\ disks w' = disks w
  | OutOfFuel => False
  end.
Proof.
  destruct (open_disk session a w) as [o w'] eqn:H.
  apply open_disk_run in H as (_ & Hs & _ & Hm). split; [done|].
  destruct o as [k|e|]; [|by destruct Hm|done].
  destruct Hm as (d & i & s & s' & -> & Hd & _ & Hn & _).
  unfold disk_at. rewrite Hd, lookup_app_r, Nat.sub_diag by done. done.
Qed.

(** C39: when [settimeout] works and [setsockopt] fails after the descriptor
    was duplicated, [takeover_authd_socket] raises without closing the new
    socket; the same when [settimeout] itself fails. *)
Theorem takeover_leaks {E : Env} i w r e :
  closed (sock_at i w) = false -> env_dup (tick w) (sock_at i w) = inr r -> closed r = false ->
  env_sockopt (1 + tick w) = inr tt /\ env_sockopt (2 + tick w) = inl e \/
    env_sockopt (1 + tick w) = inl e ->
  let '(o, w') := takeover_authd_socket i w in
  o = Raise e /\ length (socks w') = S (length (socks w)) /\
  closed (sock_at (length (socks w)) w') = false.
Proof.
  intros Hc Hd Hr Hs. unfold takeover_authd_socket, _enable_tcp_nodelay, sys, mbind, M_bind, gets,
    raise_when.
  rewrite Hc. cbn -[sock_at]. rewrite Hd. cbn -[sock_at].
  assert (forall n, closed (sock_at (length (socks w)) (World n (socks w ++ [r]) (disks w) (log w)
    (types_registered w) (registry w))) = false) as Hnew.
  { intros n. unfold sock_at. cbn [socks]. by rewrite lookup_app_r, Nat.sub_diag by done. }
  destruct Hs as [[H1 H2]|H1]; cbn [Nat.add] in *; rewrite H1; cbn -[sock_at]; rewrite ?H2;
    (split; [done|]); (split; [simpl; rewrite length_app; simpl; lia|]); apply Hnew.
Qed.

(** * Witnesses *)

#[local] Existing Instance lab_env.

Definition lab_session (nfc_ssl : bool) : NfcAuthSession := mkNfcAuthSession 1 lab_ticket 0 nfc_ssl.

Definition lab_disk : NfcDisk := opened_disk lab_args 77 512.

Lemma lab_replies_ok : open_replies_ok [] (le_split 4 11) [] [] [] [] lab_open_reply 77 512.
Proof. split; vm_compute; repeat split; by intros. Qed.

Lemma open_conversation_witness :
  exists s', open_session lab_args (lab_sock lab_nfc_stream) = (Ok lab_disk, s') /\
    tx s' = handshake_frames 11 (ascii "vddk") (ascii "nbdmode") ++
      open_requests lab_args (ascii "[ds] b.vmdk") /\ flat (rx s') = [].
Proof.
  apply (open_conversation lab_args (ascii "vddk") (ascii "nbdmode") (ascii "[ds] b.vmdk")
    [] (le_split 4 11) [] [] [] [] lab_open_reply 77 512 (lab_sock lab_nfc_stream) []).
  - vm_compute. reflexivity.
  - vm_compute. reflexivity.
  - vm_compute. reflexivity.
  - vm_compute. split; by intros.
  - vm_compute. split; by intros.
  - vm_compute. split; by intros.
  - vm_compute. split; by intros.
  - vm_compute. split; by intros.
  - vm_compute. split; by intros.
  - apply lab_replies_ok.
  - by split; [|constructor].
  - vm_compute. reflexivity.
Defined.

(** The world after a plaintext open. *)
Definition lab_opened : world := snd (open_disk (lab_session false) lab_args world1).

Lemma open_disk_wf_witness : disk_wf (fst (disk_at 0 lab_opened)).
Proof.
  apply (@open_disk_wf lab_env (lab_session false) lab_args world1 0 lab_opened).
  vm_compute. reflexivity.
Defined.

Lemma lab_disk_wf : disk_wf lab_disk.
Proof. split; vm_compute; try (split; by intros); try (by intros). by right. Qed.

(** The same host, where the third call to the system, [setsockopt], fails. *)
Definition nodelay_env : Env := {|
  env_create_connection := @env_create_connection lab_env;
  env_default_context := @env_default_context lab_env;
  env_wrap := @env_wrap lab_env;
  env_peercert := @env_peercert lab_env;
  env_dup := @env_dup lab_env;
  env_sockopt t := if (t =? 2)%nat then inl EOSError else inr tt;
  env_service_versions := @env_service_versions lab_env;
  env_smart_connect := @env_smart_connect lab_env;
  env_disconnect := @env_disconnect lab_env;
  env_get_vmodl_type := @env_get_vmodl_type lab_env;
  env_create_managed_type := @env_create_managed_type lab_env;
  env_devices := @env_devices lab_env;
  env_host := @env_host lab_env;
  env_nfc_call := @env_nfc_call lab_env;
  env_digest := @env_digest lab_env
|}.

Lemma takeover_leaks_witness :
  let '(o, w') := @takeover_authd_socket nodelay_env 0 world1 in
  o = Raise EOSError /\ length (socks w') = 2%nat /\ closed (sock_at 1 w') = false.
Proof.
  apply (@takeover_leaks nodelay_env 0 world1 (lab_sock lab_nfc_stream) EOSError).
  - vm_compute. reflexivity.
  - vm_compute. reflexivity.
  - vm_compute. reflexivity.
  - left. vm_compute. split; reflexivity.
Defined.
