(* ===== verification/Vim.v ===== *)
(** The vSphere side of [openvixdisklib/nfc_auth.py]: [connect_vim],
    [_virtual_disk_key], [get_nfc_ticket] and what they call. *)
From Stdlib Require Import ZArith Lia String.
From stdpp Require Import base list numbers sets.
From S2P Require Import Prelude Python PyStr Socket Disk NfcTypes World Thumbprint Authd.

Section Vim.
Context {E : Env} {U : Unicode}.

(** [GetVmodlType("vim.NfcService")] *)
Definition get_vmodl_type : M world unit :=
  l ← gets registry;
  sys (fun t => env_get_vmodl_type t l).

(** [_register_nfc_types]: once per process; the first lookup succeeds when
    something else has registered the type. *)
Definition _register_nfc_types : M world unit :=
  registered ← gets types_registered;
  if (registered : bool) then mret tt else
  known ← try_except any_exception
    (get_vmodl_type;; modify set_registered;; mret true)
    (fun _ => mret false);
  if (known : bool) then mret tt else
  sys (fun t => env_create_managed_type t nfc_service_type);;
  modify (fun w => set_registry (registry w ++ [nfc_service_type]) w);;
  modify set_registered.

(** [nfc_service]; the managed object is given by its stub, that is by [si]. *)
Definition nfc_service (si : Z) : M world Z :=
  _register_nfc_types;;
  get_vmodl_type;;
  mret si.

Definition _vim_preferred_api_versions : outcome (list pystr) :=
  let versions := filter (fun v => startswith v (str "vim.version.v8_") = true)
    env_service_versions in
  match versions with [] => Raise ERuntimeError | _ => Ok versions end.

Definition connect_vim (host username password : pystr) (port : Z) (thumbprint : option pystr)
    (allow_untrusted : bool) : M world Z :=
  match (if allow_untrusted then None else truthy thumbprint) with
  | Some expected =>
      peer ← get_ssl_cert_thumbprint host port (str "sha1") None;
      raise_when (negb (str_eqb (_normalize_thumbprint peer) (_normalize_thumbprint expected)))
        EConnectionError
  | None => mret tt
  end;;
  let skip_ca := allow_untrusted || bool_decide (is_Some (truthy thumbprint)) in
  ssl_context ← (if skip_ca then c ← _ssl_client_context false; mret (Some c) else mret None);
  versions ← lift _vim_preferred_api_versions;
  si ← sys (fun t => env_smart_connect t
    (mkSmartConnect host username password port thumbprint ssl_context skip_ca versions));
  emit (Login si);;
  mret si.

(** [while backing is not None: ...] *)
Fixpoint backing_has (b : backing) (disk_path : pystr) : bool :=
  match b with
  | NoBacking => false
  | Backing fileName parent =>
      if bool_decide (fileName = Some disk_path) then true else backing_has parent disk_path
  end.

Fixpoint find_disk_key (devices : list device) (disk_path : pystr) : option Z :=
  match devices with
  | [] => None
  | VirtualDisk key b :: rest =>
      if backing_has b disk_path then Some key else find_disk_key rest disk_path
  | OtherDevice :: rest => find_disk_key rest disk_path
  end.

Definition _virtual_disk_key (vm disk_path : pystr) : M world Z :=
  devices ← sys (fun t => env_devices t vm);
  match find_disk_key devices disk_path with
  | Some key => mret key
  | None => raise EValueError
  end.

Definition nfc_request (nfc : Z) (c : nfc_call) : M world ticket :=
  emit (TicketCall c);;
  sys (fun t => env_nfc_call t nfc c).

Definition get_nfc_ticket (si : Z) (vm : pystr) (disk_device_key : option Z)
    (host_for_access : option pystr) (read_only : bool) (disk_path : option pystr) :
    M world ticket :=
  nfc ← nfc_service si;
  match read_only, disk_device_key, disk_path with
  | true, None, None => nfc_request nfc (GetVmFiles vm)
  | _, _, _ =>
      key ← match disk_device_key with
            | Some key => mret key
            | None =>
                match disk_path with
                | None => raise EValueError
                | Some disk_path => _virtual_disk_key vm disk_path
                end
            end;
      host ← match host_for_access with
             | Some h => mret h
             | None => sys (fun t => env_host t vm)
             end;
      nfc_request nfc (if read_only then RandomAccessOpenReadonly vm key host
                       else RandomAccessOpen vm key host)
  end.
End Vim.

(** * Specification *)

(** The files of a backing chain, leaf first. *)
Fixpoint backing_files (b : backing) : list (option pystr) :=
  match b with NoBacking => [] | Backing f p => f :: backing_files p end.

(** The device's chain holds the file. *)
Definition holds_file (disk_path : pystr) (d : device) : Prop :=
  match d with
  | VirtualDisk _ b => Some disk_path ∈ backing_files b
  | OtherDevice => False
  end.

(** The Python method that a request calls, and its arguments. *)
Definition call_method (c : nfc_call) : pystr :=
  match c with
  | GetVmFiles _ => str "GetVmFiles"
  | RandomAccessOpenReadonly _ _ _ => str "RandomAccessOpenReadonly"
  | RandomAccessOpen _ _ _ => str "RandomAccessOpen"
  end.

Definition call_args (c : nfc_call) : list vmodl_value :=
  let vm_object vm := VObject (str "vim.VirtualMachine") vm in
  let host_object h := VObject (str "vim.HostSystem") h in
  match c with
  | GetVmFiles vm => [vm_object vm]
  | RandomAccessOpenReadonly vm key h => [vm_object vm; VInt key; host_object h]
  | RandomAccessOpen vm key h => [vm_object vm; VInt key; host_object h]
  end.

(** The SOAP operation that VDDK uses for the same request. *)
Definition call_wsdl (c : nfc_call) : pystr :=
  match c with
  | GetVmFiles _ => str "NfcGetVmFiles"
  | RandomAccessOpenReadonly _ _ _ => str "NfcRandomAccessOpenReadonly"
  | RandomAccessOpen _ _ _ => str "NfcRandomAccessOpenDisk"
  end.

Definition device_key (d : device) : option Z :=
  match d with VirtualDisk k _ => Some k | OtherDevice => None end.

(** * Lemmas *)

Lemma backing_has_spec b p : backing_has b p = true <-> Some p ∈ backing_files b.
Proof.
  induction b as [|f b IH]; simpl; [by rewrite elem_of_nil|].
  rewrite elem_of_cons. destruct (bool_decide_reflect (f = Some p)) as [->|Hne].
  - split; [by left|done].
  - rewrite IH. split; [by right|]. intros [?|?]; [congruence|done].
Qed.

(** Every request is declared, with these argument types and a ticket as its
    result. *)
Lemma nfc_service_declares c :
  declares nfc_service_type (call_method c) (call_wsdl c) (call_args c).
Proof.
  destruct c; [eexists; split; [left|]|eexists; split; [right; right; left|]
    |eexists; split; [right; left|]]; by vm_compute.
Qed.

(** The key found is that of the first device whose chain holds the file. *)
Lemma find_disk_key_spec devices p key :
  find_disk_key devices p = Some key <->
  exists before d after, devices = before ++ d :: after /\ device_key d = Some key /\
    holds_file p d /\ Forall (fun d' => ~ holds_file p d') before.
Proof.
  induction devices as [|d devices IH]; simpl.
  { split; [done|]. intros (before & ? & ? & H & _). by destruct before. }
  assert (~ holds_file p d -> find_disk_key devices p = Some key <->
    exists before d0 after, d :: devices = before ++ d0 :: after /\ device_key d0 = Some key /\
      holds_file p d0 /\ Forall (fun d' => ~ holds_file p d') before) as Hskip.
  { intros Hd. rewrite IH. split.
    - intros (b & d0 & a & -> & Hk & Hh & Hf). exists (d :: b), d0, a. split_and!; try done.
      by constructor.
    - intros ([|d' b] & d0 & a & Heq & Hk & Hh & Hf); simpl in Heq; simplify_eq; [done|].
      inversion_clear Hf. by exists b, d0, a. }
  destruct d as [k b|]; [|apply Hskip; by intros []].
  destruct (backing_has b p) eqn:Hb.
  - apply backing_has_spec in Hb. split.
    + intros [= ->]. exists [], (VirtualDisk key b), devices. split_and!; try done.
    + intros ([|d' b'] & d0 & a & Heq & Hk & Hh & Hf); simpl in Heq; simplify_eq/=; [done|].
      inversion_clear Hf as [|?? Hn _]. by destruct Hn.
  - apply Hskip. simpl. rewrite <- backing_has_spec, Hb. done.
Qed.

Lemma find_disk_key_none devices p :
  find_disk_key devices p = None <-> Forall (fun d => ~ holds_file p d) devices.
Proof.
  induction devices as [|d devices IH]; simpl; [split; [constructor|done]|].
  rewrite Forall_cons. destruct d as [k b|]; simpl; [|tauto].
  rewrite <- backing_has_spec. destruct (backing_has b p); [|rewrite IH; by split; [|intros [_ ?]]].
  split; [done|]. intros [H _]. by destruct H.
Qed.
