(* ===== verification/Session.v ===== *)
(** [authenticate] of [openvixdisklib/nfc_auth.py]. *)
From Stdlib Require Import ZArith Lia String.
From stdpp Require Import base list numbers sets.
From S2P Require Import Prelude Python PyStr Socket Disk OpenDisk World Thumbprint Authd NfcSocket Vim.

(** The arguments of [authenticate]. *)
Record auth_args := mkAuthArgs {
  aa_host : pystr;
  aa_username : pystr;
  aa_password : pystr;
  aa_vm_moref : pystr;
  aa_port : Z;
  aa_thumbprint : option pystr;
  aa_allow_untrusted : bool;
  aa_disk_device_key : option Z;
  aa_disk_path : option pystr;
  aa_read_only : bool;
  aa_nfc_ssl : bool
}.

Section Session.
Context {E : Env} {U : Unicode}.

Definition authenticate (a : auth_args) : M world NfcAuthSession :=
  si ← connect_vim (aa_host a) (aa_username a) (aa_password a) (aa_port a) (aa_thumbprint a)
         (aa_allow_untrusted a);
  '(ticket, authd_sock) ← try_except any_exception
    (ticket ← get_nfc_ticket si (aa_vm_moref a) (aa_disk_device_key a) None (aa_read_only a)
       (aa_disk_path a);
     authd_sock ← connect_authd ticket (aa_allow_untrusted a) (aa_nfc_ssl a);
     mret (ticket, authd_sock))
    (fun e => Disconnect si;; raise e);
  mret (mkNfcAuthSession si ticket authd_sock (aa_nfc_ssl a)).
End Session.

(** * Specification *)

(** The VIM sessions that were logged in and not out again. *)
Fixpoint live_sessions (evs : list event) : list Z :=
  match evs with
  | [] => []
  | Login si :: evs' => if bool_decide (Logout si ∈ evs') then live_sessions evs'
                        else si :: live_sessions evs'
  | _ :: evs' => live_sessions evs'
  end.

(** * Lemmas *)

Definition is_ticket_call (e : event) : Prop := match e with TicketCall _ => True | _ => False end.

Lemma live_sessions_tickets evs l :
  Forall is_ticket_call evs -> live_sessions (evs ++ l) = live_sessions l.
Proof. induction 1 as [|[] evs He _ IH]; done. Qed.

Lemma no_logout_in_tickets si evs : Forall is_ticket_call evs -> Logout si ∉ evs.
Proof. intros H Hin. rewrite Forall_forall in H. by apply (H (Logout si)). Qed.

(** A session that was used for ticket calls only is live. *)
Lemma live_after_tickets si evs :
  Forall is_ticket_call evs -> live_sessions (Login si :: evs) = [si].
Proof.
  intros H. cbn [live_sessions]. rewrite bool_decide_false by by apply no_logout_in_tickets.
  f_equal. rewrite <- (app_nil_r evs). by rewrite live_sessions_tickets.
Qed.

Lemma live_after_logout si evs :
  Forall is_ticket_call evs -> live_sessions (Login si :: evs ++ [Logout si]) = [].
Proof.
  intros H. cbn [live_sessions]. rewrite bool_decide_true.
  - by rewrite live_sessions_tickets.
  - apply elem_of_app. right. by apply list_elem_of_singleton.
Qed.

Section Session.
Context {E : Env} {U : Unicode}.

#[export] Instance logs_nfc_request nfc c : Frame (logs is_ticket_call) (nfc_request nfc c).
Proof.
  unfold nfc_request. apply frame_bind; [by apply logs_emit|]. intros _. apply _.
Qed.

#[export] Instance logs_get_vmodl_type P : Frame (logs P) get_vmodl_type.
Proof. unfold get_vmodl_type. frames. Qed.

#[export] Instance logs_register : Frame (logs is_ticket_call) _register_nfc_types.
Proof.
  unfold _register_nfc_types, get_vmodl_type. apply frame_bind; [apply _|]. intros []; [apply _|].
  apply frame_bind; [apply frame_try_except; apply _|]. intros []; apply _.
Qed.

#[export] Instance logs_get_nfc_ticket si vm key host ro path :
  Frame (logs is_ticket_call) (get_nfc_ticket si vm key host ro path).
Proof.
  unfold get_nfc_ticket, nfc_service, _virtual_disk_key.
  apply frame_bind; [apply _|]. intros nfc.
  assert (forall m : M world Z, Frame (logs is_ticket_call) m ->
    Frame (logs is_ticket_call) (key ← m;
      host ← match host with Some h => mret h | None => sys (fun t => env_host t vm) end;
      nfc_request nfc (if ro then RandomAccessOpenReadonly vm key host
                       else RandomAccessOpen vm key host))) as Hrest.
  { intros m Hm. apply frame_bind; [done|]. intros k.
    apply frame_bind; [destruct host; apply _|]. intros h. apply _. }
  destruct ro, key as [k|], path as [p|]; try apply _; apply Hrest; try apply _.
  - apply frame_bind; [apply _|]. intros ds. destruct (find_disk_key _ _); apply _.
  - apply frame_bind; [apply _|]. intros ds. destruct (find_disk_key _ _); apply _.
Qed.

#[export] Instance total_get_nfc_ticket si vm key host ro path :
  Total (get_nfc_ticket si vm key host ro path).
Proof.
  unfold get_nfc_ticket, nfc_service, _virtual_disk_key, nfc_request, _register_nfc_types,
    get_vmodl_type.
  destruct ro, key, path, host; total.
Qed.

Lemma closed_up_refl w : closed_up w w.
Proof. split; [done|]. intros i Hi. lia. Qed.

Lemma closed_up_trans w1 w2 w3 : closed_up w1 w2 -> closed_up w2 w3 -> closed_up w1 w3.
Proof.
  intros [K1 N1] [K2 N2]. split; [by eapply keeps_trans|].
  eapply new_closed_trans; [apply K1|exact N1|apply K2|exact N2].
Qed.

#[export] Instance total_thumbprint host port alg own :
  Total (get_ssl_cert_thumbprint host port alg own).
Proof.
  unfold get_ssl_cert_thumbprint, _ssl_client_context, create_connection, getpeercert. total.
Qed.

(** The thumbprint probe leaves nothing open, on any outcome. *)
Lemma thumbprint_closed_up host port alg (own : option ssl_context) w o w' :
  get_ssl_cert_thumbprint host port alg own w = (o, w') -> closed_up w w'.
Proof.
  intros H. unfold get_ssl_cert_thumbprint in H.
  set (scope := fun c w0 => (sock ← create_connection host port;
    try_finally (ssock ← wrap_socket c sock host; try_finally getpeercert (on_sock ssock sock_close))
      (on_sock sock sock_close)) w0 : outcome bytes * world).
  set (ctx := (match own with Some c => mret c | None => _ssl_client_context false end) : M world ssl_context) in *.
  set (post := fun cert => (raise_when (len cert =? 0) EConnectionError;;
    digest ← sys (fun _ => env_digest alg cert); mret (_format_thumbprint digest)) : M world pystr).
  assert ((c ← ctx; cert ← scope c; post cert) w = (o, w')) as H'.
  { rewrite <- H. unfold scope, post, mbind, M_bind. destruct (ctx w) as [[u|e|] w0]; [|done..].
    destruct (create_connection host port w0) as [[i|e|] w1]; [|done..].
    by destruct (try_finally _ _ w1) as [[c|e|] w2]. }
  clear H. assert (Frame (touch (fun _ => False)) ctx) as Hctx by (unfold ctx; destruct own; apply _).
  assert (forall c, Frame (touch (fun _ => False)) (post c)) as Hpost by (intros; apply _).
  specialize (Hctx w). unfold mbind, M_bind in H'.
  destruct (ctx w) as [[u|e|] w0]; cbn [snd] in Hctx; [|by simplify_eq; apply touch_keeps..].
  destruct (scope u w0) as [[c|e|] w1] eqn:Es; apply peer_scope_closed in Es.
  - specialize (Hpost c w1). rewrite H' in Hpost. cbn [snd] in Hpost.
    eapply closed_up_trans; [by apply touch_keeps|]. eapply closed_up_trans; [exact Es|].
    by apply touch_keeps.
  - injection H' as <- <-. eapply closed_up_trans; [by apply touch_keeps|done].
  - injection H' as <- <-. eapply closed_up_trans; [by apply touch_keeps|done].
Qed.

Lemma connect_vim_run host user pwd port tp au w o w' :
  connect_vim host user pwd port tp au w = (o, w') ->
  exists w1, closed_up w w1 /\
    match o with
    | Ok si => w' = set_log (log w1 ++ [Login si]) w1
    | Raise _ => w' = w1
    | OutOfFuel => False
    end.
Proof.
  intros H. unfold connect_vim in H.
  set (pin := match (if au then None else truthy tp) with Some _ => _ | None => _ end) in H.
  assert (forall o1 w1, pin w = (o1, w1) -> closed_up w w1 /\ o1 <> OutOfFuel) as Hpin.
  { intros o1 w1 E1. unfold pin in E1. destruct (if au then None else truthy tp) as [ex|].
    - apply bind_inv in E1 as [(peer & w2 & E1 & E2)|[(e & E1 & ->)|[E1 ->]]].
      + apply thumbprint_closed_up in E1. unfold raise_when in E2.
        destruct (negb _); by injection E2 as <- <-.
      + split; [by eapply thumbprint_closed_up|done].
      + exfalso. pose proof (total_thumbprint host port (str "sha1") None w) as Ht. by rewrite E1 in Ht.
    - injection E1 as <- <-. split; [apply closed_up_refl|done]. }
  set (rest := fun (_ : unit) => (_ : M world Z)) in H. clearbody pin.
  unfold mbind at 1, M_bind at 1 in H. destruct (pin w) as [[[]|e|] w1] eqn:Ep;
    destruct (Hpin _ _ eq_refl) as [Hc Hne]; [|injection H as <- <-; by exists w1|done].
  unfold rest in H. clear rest.
  set (skip_ca := au || _) in H.
  set (ctx := (if skip_ca then c ← _ssl_client_context false; mret (Some c) else mret None)
    : M world (option ssl_context)) in H.
  assert (Frame (touch (fun _ => False)) ctx) as Hctx by (unfold ctx; destruct skip_ca; apply _).
  assert (Total ctx) as Htctx by (unfold ctx, _ssl_client_context; destruct skip_ca; apply _).
  specialize (Hctx w1). specialize (Htctx w1). unfold mbind at 1, M_bind at 1 in H.
  destruct (ctx w1) as [[u|e|] w2]; cbn [snd fst] in Hctx, Htctx; [| |done].
  2: { injection H as <- <-. exists w2. split; [|done].
       eapply closed_up_trans; [exact Hc|by apply touch_keeps]. }
  assert (closed_up w w2) as Hc2 by (eapply closed_up_trans; [exact Hc|by apply touch_keeps]).
  unfold _vim_preferred_api_versions in H.
  destruct (filter _ env_service_versions) as [|v vs]; [injection H as <- <-; by exists w2|].
  assert (closed_up w (tock w2)) as Hc3.
  { eapply closed_up_trans; [exact Hc2|]. by apply touch_keeps. }
  unfold sys, emit, lift, modify, mbind, M_bind in H.
  destruct (env_smart_connect _ _) as [e|si]; cbn in H; injection H as <- <-.
  - by exists (tock w2).
  - by exists (tock w2).
Qed.

(** A ticket and the authd handshake with it. *)
Definition ticket_and_socket (si : Z) (a : auth_args) : M world (ticket * nat) :=
  ticket ← get_nfc_ticket si (aa_vm_moref a) (aa_disk_device_key a) None (aa_read_only a)
    (aa_disk_path a);
  authd_sock ← connect_authd ticket (aa_allow_untrusted a) (aa_nfc_ssl a);
  mret (ticket, authd_sock).

Lemma ticket_and_socket_run si a w o w' :
  ticket_and_socket si a w = (o, w') ->
  (length (socks w) <= length (socks w'))%nat /\
  (forall i, (i < length (socks w))%nat -> socks w' !! i = socks w !! i) /\ disks w' = disks w /\
  exists evs, log w' = log w ++ evs /\ Forall is_ticket_call evs /\
    match o with
    | Ok (_, i) => new_closed (Some i) w w' /\ (length (socks w) <= i < length (socks w'))%nat
    | Raise _ => new_closed None w w'
    | OutOfFuel => False
    end.
Proof.
  intros H. unfold ticket_and_socket in H.
  set (req := get_nfc_ticket _ _ _ _ _ _) in H.
  assert (Frame (logs is_ticket_call) req) as Hf by apply _.
  assert (Total req) as Ht by apply _. clearbody req. specialize (Hf w). specialize (Ht w).
  apply bind_inv in H as [(t & w1 & E1 & H)|[(e & E1 & ->)|[E1 ->]]]; rewrite E1 in Hf, Ht;
    cbn [fst snd] in *; [| |done]; destruct Hf as [S1 D1 (evs & G1 & F1)].
  2: { split; [by rewrite S1|]. split; [by rewrite S1|]. split; [done|]. exists evs.
       split_and!; try done. intros i Hi. rewrite S1 in Hi. lia. }
  assert (forall op, new_closed op w1 w' -> new_closed op w w') as Hnc.
  { intros op Hop i Hi. apply Hop. by rewrite S1. }
  apply bind_inv in H as [(i & w2 & E2 & H)|[(e & E2 & ->)|[E2 ->]]];
    apply connect_authd_sockets in E2 as [[L2 S2 D2 G2] Hm]; [|
    rewrite S1 in *; split; [done|]; split; [done|]; split; [congruence|]; exists evs;
      split_and!; try done; [congruence|by apply Hnc]|done].
  injection H as <- <-. rewrite S1 in L2, S2. destruct Hm as [Hi Hm]. rewrite S1 in Hi.
  split; [done|]. split; [done|]. split; [congruence|]. exists evs.
  split; [congruence|]. split; [done|]. split; [by apply Hnc|done].
Qed.

Lemma authenticate_unfold a :
  authenticate a =
  (si ← connect_vim (aa_host a) (aa_username a) (aa_password a) (aa_port a) (aa_thumbprint a)
          (aa_allow_untrusted a);
   '(ticket, authd_sock) ← try_except any_exception (ticket_and_socket si a)
      (fun e => Disconnect si;; raise e);
   mret (mkNfcAuthSession si ticket authd_sock (aa_nfc_ssl a))).
Proof. done. Qed.

Lemma Disconnect_run si w :
  exists o w', Disconnect si w = (o, w') /\ o <> OutOfFuel /\ socks w' = socks w /\
    disks w' = disks w /\ log w' = log w ++ [Logout si].
Proof.
  unfold Disconnect, emit, modify, sys, mbind, M_bind. cbn.
  destruct (env_disconnect (tick w) si); by eexists _, _.
Qed.

Lemma authenticate_run a w o w' :
  authenticate a w = (o, w') ->
  (forall i, (i < length (socks w))%nat -> socks w' !! i = socks w !! i) /\ disks w' = disks w /\
  exists evs, log w' = log w ++ evs /\
    match o with
    | Ok s => (exists calls, evs = Login (s_si s) :: calls /\ Forall is_ticket_call calls) /\
        new_closed (Some (s_authd_sock s)) w w' /\
        (length (socks w) <= s_authd_sock s < length (socks w'))%nat
    | Raise _ => (evs = [] \/ exists si calls, evs = Login si :: calls ++ [Logout si] /\
        Forall is_ticket_call calls) /\ new_closed None w w'
    | OutOfFuel => False
    end.
Proof.
  intros H. rewrite authenticate_unfold in H.
  apply bind_inv in H as [(si & w1 & E1 & H)|[(e & E1 & ->)|[E1 ->]]];
    apply connect_vim_run in E1 as (w0 & [[L0 S0 D0 G0] N0] & Hw); [|subst w0|done].
  2: { split; [done|]. split; [done|]. exists []. rewrite app_nil_r. split; [done|]. split; [by left|done]. }
  assert (socks w1 = socks w0 /\ disks w1 = disks w /\ log w1 = log w ++ [Login si])
    as (S1 & D1 & G1) by (subst w1; cbn; by rewrite D0, G0).
  clear Hw. destruct (ticket_and_socket si a w1) as [o2 w2] eqn:E2.
  pose proof E2 as (L2 & S2 & D2 & evs & G2 & F2 & Hm)%ticket_and_socket_run. rewrite S1 in L2, S2.
  assert (forall j, (j < length (socks w))%nat -> socks w2 !! j = socks w !! j) as Hs.
  { intros j Hj. rewrite S2 by lia. by apply S0. }
  assert (forall op, new_closed op w1 w2 -> new_closed op w w2) as Hnc.
  { intros op Hop. eapply (new_closed_trans op w w0 w2); [done|done|done|].
    intros j Hj. apply Hop. by rewrite S1. }
  unfold mbind at 1, M_bind at 1, try_except in H. rewrite E2 in H.
  destruct o2 as [[t i]|e|]; [| |done].
  - injection H as <- <-. destruct Hm as [Hm Hi]. rewrite S1 in Hi.
    split; [done|]. split; [congruence|]. exists (Login si :: evs).
    split; [by rewrite G2, G1, <- app_assoc|]. cbn [s_si s_authd_sock].
    split; [by exists evs|]. split; [by apply Hnc|lia].
  - cbn [any_exception] in H.
    destruct (Disconnect_run si w2) as (o3 & w3 & E3 & Ho3 & S3 & D3 & G3).
    unfold mbind, M_bind in H. rewrite E3 in H.
    assert (w' = w3 /\ exists e', o = Raise e') as [-> [e' ->]].
    { destruct o3; [| |done]; cbn in H; injection H as <- <-; eauto. }
    rewrite S3. split; [done|]. split; [congruence|]. exists (Login si :: evs ++ [Logout si]).
    split; [by rewrite G3, G2, G1, <- !app_assoc|]. split; [right; by exists si, evs|].
    intros j Hj Hop. rewrite S3 in Hj. unfold sock_at. rewrite S3. by apply (Hnc None).
Qed.
End Session.
