(* ===== verification/Registry.v ===== *)
(** What the calls of [openvixdisklib/nfc_auth.py] do to pyVmomi's registry of
    types: [_register_nfc_types] declares [vim.NfcService] once per process. *)
From Stdlib Require Import ZArith Lia String.
From stdpp Require Import base list numbers sets relations.
From S2P Require Import Prelude Python PyStr Socket Disk OpenDisk NfcTypes World Thumbprint Lab Authd NfcSocket Vim Session.

(** * Specification *)

(** A run declares [vim.NfcService] at most once, and then only if the flag
    was not set, which it leaves set. *)
Record declares_once (w w' : world) : Prop := {
  once_flag : types_registered w = true -> types_registered w' = true;
  once_registry : registry w' = registry w \/
    types_registered w = false /\ types_registered w' = true /\
    registry w' = registry w ++ [nfc_service_type]
}.

#[export] Instance declares_once_preorder : PreOrder declares_once.
Proof.
  split; [by split; [|left]|]. intros w1 w2 w3 [F1 R1] [F2 R2]. split; [by auto|].
  destruct R1 as [R1|(N1 & T1 & R1)], R2 as [R2|(N2 & T2 & R2)].
  - left. congruence.
  - right. split_and!; [|done|congruence].
    destruct (types_registered w1); [by rewrite F1 in N2|done].
  - right. split_and!; [done|by apply F2|congruence].
  - congruence.
Qed.

(** * Lemmas *)

Section Registry.
Context {E : Env} {U : Unicode}.

Lemma same_registry w w' :
  types_registered w' = types_registered w -> registry w' = registry w -> declares_once w w'.
Proof. intros H1 H2. split; [congruence|by left]. Qed.

#[export] Instance once_sys {A} (f : nat -> exn + A) : Frame declares_once (sys f).
Proof. intros w. by apply same_registry. Qed.

#[export] Instance once_on_sock {A} i (m : M sock A) : Frame declares_once (on_sock i m).
Proof. intros w. rewrite on_sock_run. destruct (m _). by apply same_registry. Qed.

#[export] Instance once_new_sock s : Frame declares_once (new_sock s).
Proof. intros w. by apply same_registry. Qed.

#[export] Instance once_emit e : Frame declares_once (emit e).
Proof. intros w. by apply same_registry. Qed.

#[export] Instance once_set_registered : Frame declares_once (modify set_registered).
Proof. intros w. by split; [|left]. Qed.

#[export] Instance once_wrap_socket ctx raw h : Frame declares_once (wrap_socket ctx raw h).
Proof.
  intros w. unfold wrap_socket.
  destruct (env_wrap _ _ _ _) as [[e []]|s]; [|by apply same_registry|];
    (etrans; [|apply (_ : Frame declares_once (_;; _))]); by apply same_registry.
Qed.

#[export] Instance once_get_vmodl_type : Frame declares_once get_vmodl_type.
Proof. unfold get_vmodl_type. frames. Qed.

#[export] Instance once_register : Frame declares_once _register_nfc_types.
Proof.
  intros w. unfold _register_nfc_types, get_vmodl_type, try_except, sys, modify, gets, mbind, M_bind.
  destruct (types_registered w) eqn:Hr; [by apply same_registry|].
  destruct (env_get_vmodl_type _ _) as [e|u]; [cbn -[nfc_service_type]|by split; [|left]].
  destruct (env_create_managed_type _ _); cbn -[nfc_service_type]; [by apply same_registry|].
  split; [done|]. right. by rewrite Hr.
Qed.

#[export] Instance once_get_nfc_ticket si vm key host ro path :
  Frame declares_once (get_nfc_ticket si vm key host ro path).
Proof.
  unfold get_nfc_ticket, nfc_service, _virtual_disk_key, nfc_request. frames.
Qed.

#[export] Instance once_connect_authd t a n : Frame declares_once (connect_authd t a n).
Proof.
  unfold connect_authd, authd_tls, check_thumbprint, closing_on_error, _ssl_client_context,
    create_connection, getpeercert, _sha1_thumbprint. frames.
Qed.

#[export] Instance once_connect_vim host user pwd port tp au :
  Frame declares_once (connect_vim host user pwd port tp au).
Proof.
  unfold connect_vim, get_ssl_cert_thumbprint, create_connection, getpeercert,
    _ssl_client_context. frames.
Qed.

#[export] Instance once_authenticate a : Frame declares_once (authenticate a).
Proof. unfold authenticate, Disconnect. frames. Qed.

(** A service object is only handed out with the flag set. *)
Lemma register_sets_flag w u w' :
  _register_nfc_types w = (Ok u, w') -> types_registered w' = true.
Proof.
  unfold _register_nfc_types, get_vmodl_type, try_except, sys, modify, gets, mbind, M_bind.
  destruct (types_registered w) eqn:Hr; [by intros [= _ <-]|].
  destruct (env_get_vmodl_type _ _) as [e|u']; cbn -[nfc_service_type]; [|by intros [= _ <-]].
  by destruct (env_create_managed_type _ _); cbn -[nfc_service_type]; [|intros [= _ <-]].
Qed.

(** A ticket is asked for after the registration only. *)
Lemma ticket_after_registration si vm key host ro path w t w' :
  get_nfc_ticket si vm key host ro path w = (Ok t, w') -> types_registered w' = true.
Proof.
  intros H. unfold get_nfc_ticket in H. apply bind_inv_ok in H as (nfc & w1 & E1 & H).
  apply bind_inv_ok in E1 as (u & w2 & E1 & E2). apply register_sets_flag in E1.
  assert (types_registered w1 = true) as H1.
  { pose proof (once_get_vmodl_type w2) as [F _].
    apply bind_inv_ok in E2 as (v & w3 & E2 & [_ ->]%ret_inv_ok). rewrite E2 in F. by apply F. }
  match type of H with ?m w1 = _ => assert (Frame declares_once m) as Hf end.
  { unfold _virtual_disk_key, nfc_request. frames. }
  specialize (Hf w1). rewrite H in Hf. destruct Hf as [F _]. by apply F.
Qed.

Lemma login_sets_flag a w s w' : authenticate a w = (Ok s, w') -> types_registered w' = true.
Proof.
  rewrite authenticate_unfold. intros (si & w2 & _ & H)%bind_inv_ok.
  apply bind_inv_ok in H as ([t i] & w3 & H & [_ ->]%ret_inv_ok).
  unfold try_except in H. destruct (ticket_and_socket si a w2) as [[r|e|] w4] eqn:Et; [|by
    apply bind_inv_ok in H as (? & ? & _ & ?)|done]. injection H as -> ->.
  apply bind_inv_ok in Et as (t' & w5 & Et & Ec). apply ticket_after_registration in Et.
  apply bind_inv_ok in Ec as (i' & w6 & Ec & [_ ->]%ret_inv_ok).
  pose proof (once_connect_authd t' (aa_allow_untrusted a) (aa_nfc_ssl a) w5) as [F _].
  rewrite Ec in F. by apply F.
Qed.

(** One after another, whatever each of them raises. *)
Fixpoint logins (l : list auth_args) : M world unit :=
  match l with
  | [] => mret tt
  | a :: l' => try_except any_exception (authenticate a;; mret tt) (fun _ => mret tt);; logins l'
  end.

#[export] Instance once_logins l : Frame declares_once (logins l).
Proof. induction l as [|a l IH]; cbn [logins]; frames. Qed.
End Registry.

(** * Properties *)

(** C35: in one process [vim.NfcService] is declared to pyVmomi at most once:
    starting with an empty registry, any number of logins, each of which may
    fail anywhere, declares it once or never; when the flag is already set
    (pyVmomi knew the type) never; and after any login that returned the flag is
    set, so that no later login declares it. *)
Theorem registered_once {E : Env} {U : Unicode} before a after w s w1 :
  registry w = [] -> authenticate a (snd (logins before w)) = (Ok s, w1) ->
  types_registered w1 = true /\
  (registry w1 = [] \/ types_registered w = false /\ registry w1 = [nfc_service_type]) /\
  registry (snd (logins after w1)) = registry w1.
Proof.
  intros Hw H.
  assert (types_registered w1 = true) as H1.
  { by eapply login_sets_flag. }
  split; [done|]. pose proof (once_logins before w) as Hb.
  pose proof (once_authenticate a (snd (logins before w))) as Ha. rewrite H in Ha.
  pose proof (once_logins after w1) as [_ [Hr|(? & _)]]; [|congruence]. split; [|done].
  assert (declares_once w w1) as [_ [Hr1|(? & _ & Hr1)]] by (by etrans); rewrite Hw in Hr1; auto.
Qed.

(** * Witnesses *)

(** pyVmomi does not know the type: the first of three logins declares it. *)
#[local] Instance fresh_env : Env := {|
  env_create_connection := @env_create_connection lab_env;
  env_default_context := @env_default_context lab_env;
  env_wrap := @env_wrap lab_env;
  env_peercert := @env_peercert lab_env;
  env_dup := @env_dup lab_env;
  env_sockopt := @env_sockopt lab_env;
  env_service_versions := @env_service_versions lab_env;
  env_smart_connect := @env_smart_connect lab_env;
  env_disconnect := @env_disconnect lab_env;
  env_get_vmodl_type _ l := match l with [] => inl EExternal | _ => inr tt end;
  env_create_managed_type := @env_create_managed_type lab_env;
  env_devices := @env_devices lab_env;
  env_host := @env_host lab_env;
  env_nfc_call := @env_nfc_call lab_env;
  env_digest := @env_digest lab_env
|}.

Definition fresh_login : auth_args :=
  mkAuthArgs (str "vc") (str "u") (str "p") (str "vm-7") 443 None true (Some 2001) None true true.

Example registered_once_witness :
  registry (snd (logins (E := fresh_env) (U := ascii_unicode) [fresh_login] world0)) =
    [nfc_service_type] /\
  types_registered (snd (authenticate (E := fresh_env) (U := ascii_unicode) fresh_login world0)) = true /\
  registry (snd (logins (E := fresh_env) (U := ascii_unicode) [fresh_login; fresh_login]
    (snd (authenticate (E := fresh_env) (U := ascii_unicode) fresh_login world0)))) =
    registry (snd (authenticate (E := fresh_env) (U := ascii_unicode) fresh_login world0)).
Proof.
  pose proof (@registered_once fresh_env ascii_unicode [] fresh_login [fresh_login; fresh_login]
    world0 (mkNfcAuthSession 1 lab_ticket 1 true)
    (snd (authenticate (E := fresh_env) (U := ascii_unicode) fresh_login world0)) eq_refl
    ltac:(vm_compute; reflexivity)) as (H1 & _ & H2).
  split; [vm_compute; reflexivity|]. split; [exact H1|exact H2].
Defined.
