(* ===== verification/AuthTheorems.v ===== *)
(** Properties of authentication: thumbprints, the authd handshake, tickets,
    and what is released when a step fails. *)
From Stdlib Require Import ZArith Lia String.
From stdpp Require Import base list numbers sets.
From coqutil Require Import Byte.
From S2P Require Import Prelude Python PyStr Socket Disk NfcTypes World Thumbprint Lab Authd NfcSocket Vim Session Registry.

(** * Specification *)

(** The request that [get_nfc_ticket] makes for these arguments. *)
Definition ticket_call_for {E : Env} (vm : pystr) (key : option Z) (ro : bool)
    (path : option pystr) (c : nfc_call) : Prop :=
  match ro, key, path with
  | true, None, None => c = GetVmFiles vm
  | false, None, None => False
  | _, _, _ =>
      exists k h, c = (if ro then RandomAccessOpenReadonly vm k h else RandomAccessOpen vm k h) /\
        match key, path with
        | Some k', _ => k = k'
        | None, Some p => exists n devices, env_devices n vm = inr devices /\
            find_disk_key devices p = Some k
        | None, None => False
        end
  end.

(** * Lemmas *)

(** A line that goes on for too long. *)
Lemma readline_loop_overflow fuel buf l r s :
  newline ∉ l -> ends_line buf = false -> len buf + len l = 4097 -> 1 <= len l ->
  (length l <= fuel)%nat -> closed s = false -> flat (rx s) = (Some <$> l) ++ r ->
  exists s', readline_loop fuel buf s = (Raise EConnectionError, s') /\ flat (rx s') = r.
Proof.
  revert buf l s. induction fuel as [|fuel IH]; intros buf l s Hn He Hlen Hl Hf Hc Hs.
  { destruct l; [|simpl in Hf; lia]. rewrite len_nil in Hl. lia. }
  destruct l as [|c l]; [rewrite len_nil in Hl; lia|].
  apply not_elem_of_cons in Hn as [Hc' Hn]. rewrite len_cons in Hlen.
  cbn [readline_loop]. rewrite He.
  assert (exists s1, recv 1 s = (Ok [c], s1) /\ closed s1 = false /\
    flat (rx s1) = (Some <$> l) ++ r) as (s1 & E1 & Hc1 & F1).
  { rewrite recv_run by done. pose proof (rx_take_spec (Z.to_nat 1) (rx s) ltac:(lia)) as H.
    destruct (rx_take (Z.to_nat 1) (rx s)) as [[[|b [|]]|e|] rest].
    - destruct H as [H _]. by rewrite H in Hs.
    - destruct H as [H _]. rewrite H in Hs. simpl in Hs. injection Hs as -> Hr.
      by exists (set_rx rest s).
    - destruct H as [_ H]. simpl in H. lia.
    - destruct H as [_ H]. by rewrite H in Hs.
    - done. }
  rewrite (bind_ok _ _ _ _ _ E1). rewrite (bind_ok _ _ _ tt s1) by done.
  destruct (Z.ltb_spec 4096 (len (buf ++ [c]))) as [Hb|Hb]; rewrite len_app, len_cons, len_nil in Hb.
  - exists s1. split; [done|]. assert (l = []) as -> by (apply len_nil_inv; lia). done.
  - rewrite (bind_ok _ _ _ tt s1) by done. apply (IH _ l); try done.
    + rewrite ends_line_app. by apply bool_decide_false.
    + rewrite len_app, len_cons, len_nil. lia.
    + lia.
    + simpl in Hf. lia.
Qed.

(** A block that returns: its body did, and so did its [finally]. *)
Lemma try_finally_inv_ok {S A} (m : M S A) fin s a s' :
  try_finally m fin s = (Ok a, s') -> exists s1, m s = (Ok a, s1) /\ fin s1 = (Ok tt, s').
Proof.
  unfold try_finally. destruct (m s) as [[x|e|] s1]; [..|done];
    destruct (fin s1) as [[[]|e'|] s2] eqn:E; intros; simplify_eq; eauto.
Qed.

Section Tickets.
Context {E : Env}.

#[export] Instance quiet_nfc_service P si : Frame (logs P) (nfc_service si).
Proof.
  unfold nfc_service, _register_nfc_types. apply frame_bind; [|apply _].
  apply frame_bind; [apply _|]. intros []; [apply _|].
  apply frame_bind; [apply frame_try_except; apply _|]. intros []; apply _.
Qed.

#[export] Instance quiet_virtual_disk_key P vm path : Frame (logs P) (_virtual_disk_key vm path).
Proof.
  unfold _virtual_disk_key. apply frame_bind; [apply _|]. intros ds.
  destruct (find_disk_key _ _); apply _.
Qed.

Lemma quiet_log {A} (m : M world A) w o w' :
  Frame (logs (fun _ => False)) m -> m w = (o, w') -> log w' = log w.
Proof.
  intros Hf H. specialize (Hf w). rewrite H in Hf. cbn [snd] in Hf.
  destruct Hf as [_ _ (evs & -> & F)]. destruct F; [apply app_nil_r|done].
Qed.

Lemma nfc_request_ok nfc c w t w' :
  nfc_request nfc c w = (Ok t, w') -> log w' = log w ++ [TicketCall c].
Proof.
  unfold nfc_request, emit, modify, sys, mbind, M_bind. cbn.
  destruct (env_nfc_call (tick w) nfc c); by intros [= <- <-].
Qed.
Lemma get_nfc_ticket_run si vm key host ro path w t w' :
  get_nfc_ticket si vm key host ro path w = (Ok t, w') ->
  exists c, log w' = log w ++ [TicketCall c] /\ ticket_call_for vm key ro path c.
Proof.
  intros H. unfold get_nfc_ticket in H. unfold ticket_call_for.
  apply bind_inv_ok in H as (nfc & w1 & E1 & H). apply quiet_log in E1 as G1; [|apply _].
  rewrite <- G1. clear E1 G1. revert H.
  set (finish := fun k => (host0 ← match host with Some h => mret h
    | None => sys (fun t => env_host t vm) end;
    nfc_request nfc (if ro then RandomAccessOpenReadonly vm k host0
                     else RandomAccessOpen vm k host0)) : M world ticket).
  assert (forall k w2, finish k w2 = (Ok t, w') -> log w2 = log w1 ->
    exists c h, log w' = log w1 ++ [TicketCall c] /\
      c = (if ro then RandomAccessOpenReadonly vm k h else RandomAccessOpen vm k h)) as Hfin.
  { intros k w2 H G. apply bind_inv_ok in H as (h & w3 & E3 & H).
    apply quiet_log in E3; [|destruct host; apply _]. apply nfc_request_ok in H.
    eexists _, h. split; [|done]. by rewrite H, E3, G. }
  destruct key as [k|]; [|destruct path as [p|]].
  - intros H. assert (finish k w1 = (Ok t, w')) as H' by (destruct ro; exact H).
    destruct (Hfin k w1 H' eq_refl) as (c & h & Hc & ->). eexists. split; [done|].
    destruct ro, path; by exists k, h.
  - intros H. assert ((_virtual_disk_key vm p ≫= finish) w1 = (Ok t, w')) as H'
      by (destruct ro; exact H). clear H.
    apply bind_inv_ok in H' as (k & w2 & E2 & H). apply quiet_log in E2 as G2; [|apply _].
    destruct (Hfin k w2 H G2) as (c & h & Hc & ->). eexists. split; [done|].
    assert (exists n devices, env_devices n vm = inr devices /\ find_disk_key devices p = Some k)
      as Hk.
    { unfold _virtual_disk_key, sys, mbind, M_bind in E2.
      destruct (env_devices (tick w1) vm) as [e|ds] eqn:Ed; [done|]. cbn in E2.
      destruct (find_disk_key ds p) eqn:Ek; [|done]. injection E2 as -> _. eauto. }
    destruct ro; by exists k, h.
  - destruct ro; intros H; [|done]. apply nfc_request_ok in H. by eexists.
Qed.
(** The thumbprint returned is that of the certificate the peer showed. *)
(** What a probe of the certificate asked the system, call by call. *)
Record probed (host : pystr) (port : Z) (alg : pystr) (t : nat) (s tls : sock) (cert d : bytes) :
    Prop := {
  pr_connection : env_create_connection (1 + t) host port = inr s;
  pr_tls : env_wrap (2 + t) (mkSslContext false false) s host = inr tls;
  pr_cert : env_peercert (3 + t) = inr cert;
  pr_shown : cert <> [];
  pr_digest : env_digest alg cert = inr d
}.

Lemma tick_on_sock {A} i (m : M sock A) w : tick (snd (on_sock i m w)) = tick w.
Proof. rewrite on_sock_run. by destruct (m _). Qed.

Lemma try_finally_tick {A} i (m : M world A) w a w' :
  try_finally m (on_sock i sock_close) w = (Ok a, w') ->
  exists w1, m w = (Ok a, w1) /\ tick w' = tick w1.
Proof.
  intros H. apply try_finally_inv_ok in H as (w1 & H1 & H2). exists w1. split; [done|].
  pose proof (tick_on_sock i sock_close w1) as Ht. by rewrite H2 in Ht.
Qed.

Lemma get_thumbprint_inv host port alg w p w' :
  get_ssl_cert_thumbprint host port alg None w = (Ok p, w') ->
  exists s tls cert d, probed host port alg (tick w) s tls cert d /\
    p = _format_thumbprint d /\ tick w' = (5 + tick w)%nat.
Proof.
  unfold get_ssl_cert_thumbprint. intros H.
  apply bind_inv_ok in H as (ctx & w1 & H1 & H). unfold _ssl_client_context in H1.
  apply bind_inv_ok in H1 as (u & w2 & H2 & [-> ->]%ret_inv_ok).
  unfold sys in H2. injection H2 as _ <-.
  apply bind_inv_ok in H as (i & w3 & H3 & H).
  destruct (create_connection_run host port (tock w)) as [[e E3]|[s E3]]; rewrite E3 in H3; [done|].
  injection H3 as <- <-. unfold create_connection, sys, mbind, M_bind in E3.
  destruct (env_create_connection (tick (tock w)) host port) as [e|s1] eqn:Es; [done|].
  injection E3 as E3. apply app_inv_head in E3. injection E3 as ->.
  apply bind_inv_ok in H as (cert & w4 & Hc & H).
  apply bind_inv_ok in H as (u' & w5 & [Hn ->]%raise_when_inv_ok & H).
  apply bind_inv_ok in H as (d & w6 & Hd & [-> ->]%ret_inv_ok).
  apply try_finally_tick in Hc as (w7 & Hc & T7).
  apply bind_inv_ok in Hc as (j & w8 & Hw & Hc).
  apply try_finally_tick in Hc as (w9 & Hc & T9).
  unfold wrap_socket in Hw.
  assert (sock_at (length (socks (tock w))) (set_socks (socks (tock w) ++ [s]) (tock (tock w))) = s) as Hs.
  { unfold sock_at. cbn [socks set_socks]. by rewrite lookup_app_r, Nat.sub_diag by done. }
  cbn [tick tock set_socks socks] in *. rewrite Hs in Hw.
  destruct (env_wrap _ _ s host) as [[e []]|tls] eqn:Ew; [done..|].
  apply bind_inv_ok in Hw as (u8 & w10 & H10 & H8).
  pose proof (tick_on_sock (length (socks w)) sock_detach) as Ht10.
  match type of H10 with on_sock _ _ ?w0 = _ => specialize (Ht10 w0) end.
  rewrite H10 in Ht10. injection H8 as _ <-. cbn [tick tock set_socks snd] in *.
  unfold getpeercert, sys in Hc. cbn [tick set_socks] in Hc. rewrite Ht10 in Hc.
  destruct (env_peercert _) as [e|c] eqn:Ec; [done|]. injection Hc as -> <-.
  unfold sys in Hd. destruct (env_digest alg cert) as [e|d'] eqn:Ed; [done|]. injection Hd as -> <-.
  exists s, tls, cert, d. split; [|split; [done|]].
  - split; try done. by intros ->.
  - cbn [tick tock set_socks] in *. lia.
Qed.
End Tickets.

(** * Properties *)

(** C20: certificate pinning is exact: with a pinned thumbprint, spelled with
    or without colons and spaces and in either case, the authd certificate is
    accepted if and only if its SHA-1 digest is the pinned digest. *)
Theorem thumbprint_pinned {E : Env} {U : Unicode} {UOk : UnicodeOk U} t expected d cert dig w :
  t_sslThumbprint t = Some expected -> expected <> [] ->
  _normalize_thumbprint expected = hex_digits d ->
  env_peercert (tick w) = inr cert -> cert <> [] -> env_digest (str "sha1") cert = inr dig ->
  check_thumbprint t false w = (if bool_decide (dig = d) then Ok tt else Raise EConnectionError,
    tock (tock w)).
Proof.
  intros Ht He Hn Hp Hc Hd. unfold check_thumbprint. rewrite Ht.
  destruct expected as [|c ex]; [done|]. cbn [truthy].
  rewrite (bind_ok _ _ _ cert (tock w)) by (unfold getpeercert, sys; by rewrite Hp).
  rewrite (bind_ok _ _ _ tt (tock w)).
  2: { destruct cert; [done|]. unfold raise_when. destruct (Z.eqb_spec (len (b :: cert)) 0); [|done].
       rewrite len_cons in *. pose proof (len_nonneg cert). lia. }
  rewrite (bind_ok _ _ _ (_format_thumbprint dig) (tock (tock w))).
  2: { unfold _sha1_thumbprint, sys, mbind, M_bind. by rewrite Hd. }
  rewrite normalize_format, Hn. unfold raise_when.
  destruct (bool_decide_reflect (dig = d)) as [->|Hne].
  - by rewrite (proj2 (str_eqb_eq _ _)).
  - destruct (str_eqb _ _) eqn:Heq; [|done]. by apply str_eqb_eq, hex_digits_inj in Heq.
Qed.

(** The spelling of a thumbprint does not matter: colons between the
    bytes, spaces between them, none, and lower case all normalise to the same
    digits, and different digests never do. *)
Theorem thumbprint_spellings {U : Unicode} {UOk : UnicodeOk U} d e :
  _normalize_thumbprint (_format_thumbprint d) = hex_digits d /\
  _normalize_thumbprint (join 32 (hex2 <$> d)) = hex_digits d /\
  _normalize_thumbprint (ascii_lower <$> hex_digits d) = hex_digits d /\
  (_normalize_thumbprint (_format_thumbprint d) = _normalize_thumbprint (_format_thumbprint e) <->
   d = e).
Proof.
  split; [apply normalize_format|]. split; [|split].
  - apply normalize_spaces.
  - apply normalize_lower.
  - rewrite !normalize_format. split; [apply hex_digits_inj|by intros ->].
Qed.

(** [_readline] reads one byte at a time up to and including the newline
    and not one byte further, so that the TLS handshake or the NFC stream that
    follows is left intact; a line of more than 4096 bytes is refused after
    exactly 4097; and it terminates whatever the peer sends. *)
Theorem readline_exact l rest s :
  newline ∉ l -> healthy s ->
  (len l < 4096 -> flat (rx s) = (Some <$> l ++ [newline]) ++ rest ->
   exists s', _readline s = (Ok (line_text l), s') /\ flat (rx s') = rest) /\
  (len l = 4097 -> flat (rx s) = (Some <$> l) ++ rest ->
   exists s', _readline s = (Raise EConnectionError, s') /\ flat (rx s') = rest) /\
  fst (_readline s) <> OutOfFuel.
Proof.
  intros Hn [Hc Hp]. split; [|split].
  - intros Hl Hf. destruct (exch_readline l Hn Hl s rest Hc Hp Hf) as (s' & E & _ & F).
    by exists s'.
  - intros Hl Hf. destruct (readline_loop_overflow 4098 [] l rest s) as (s' & E & F); try done.
    { lia. }
    { zlia. }
    exists s'. split; [|done]. unfold _readline. by apply bind_raise.
  - apply readline_total.
Qed.

(** Over a TLS socket on which authd agrees, the handshake sends exactly
    SESSION with the ticket's id, BANNER, THUMBPRINT_SHA2 and PROXY with the
    service of the transport, each line after the answer to the one before it
    is needed, and consumes exactly the three answers. *)
Theorem authd_conversation {U : Unicode} t nfc_ssl session proxy l1 l2 l3 r1 r2 r3 s rest :
  command (str "SESSION") (t_sessionId t) = Ok session ->
  command (str "PROXY") (proxy_service t nfc_ssl) = Ok proxy ->
  Forall (fun l => (newline ∉ l) /\ len l < 4096) [l1; l2; l3] ->
  _expect_code (line_text l1) (str "220") = Ok r1 ->
  _expect_code (line_text l2) (str "200") = Ok r2 ->
  _expect_code (line_text l3) (str "200") = Ok r3 ->
  healthy s ->
  flat (rx s) = (Some <$> (l1 ++ [newline]) ++ (l2 ++ [newline]) ++ (l3 ++ [newline])) ++ rest ->
  exists s', authd_commands t nfc_ssl s = (Ok tt, s') /\
    tx s' = tx s ++ [session; banner_command; thumbprint_command; proxy] /\ flat (rx s') = rest.
Proof.
  intros Hs Hp Hl H1 H2 H3 [Hc Hpl] Hf.
  destruct (exch_authd_commands t nfc_ssl session proxy l1 l2 l3 r1 r2 r3 Hs Hp Hl H1 H2 H3
    s rest Hc Hpl Hf) as (s' & E & T & F).
  exists s'. split; [done|]. split; [apply T|done].
Qed.

(** [connect_authd] leaks no socket: if any step fails (banner, TLS, the
    thumbprint, a command, an encoding error) every socket it made is closed;
    if it returns, the TLS socket is the only new one that may be open.  It
    leaves the caller's sockets and the session log alone, and it always
    terminates. *)
Theorem connect_authd_releases {E : Env} {U : Unicode} t allow_untrusted nfc_ssl w :
  let '(o, w') := connect_authd t allow_untrusted nfc_ssl w in
  keeps w w' /\
  match o with
  | Ok i => (length (socks w) <= i < length (socks w'))%nat /\ new_closed (Some i) w w'
  | Raise _ => new_closed None w w'
  | OutOfFuel => False
  end.
Proof.
  destruct (connect_authd t allow_untrusted nfc_ssl w) as [o w'] eqn:H.
  by apply connect_authd_sockets in H.
Qed.

(** [_virtual_disk_key] returns the key of the first virtual disk whose
    backing chain, leaf or any parent, holds the path, and raises [ValueError]
    exactly when no device's chain does. *)
Theorem virtual_disk_key_spec {E : Env} vm disk_path devices w :
  env_devices (tick w) vm = inr devices ->
  (forall key, _virtual_disk_key vm disk_path w = (Ok key, tock w) <->
     exists before d after, devices = before ++ d :: after /\ device_key d = Some key /\
       holds_file disk_path d /\ Forall (fun d' => ~ holds_file disk_path d') before) /\
  (_virtual_disk_key vm disk_path w = (Raise EValueError, tock w) <->
     Forall (fun d => ~ holds_file disk_path d) devices).
Proof.
  intros Hd. unfold _virtual_disk_key, sys, mbind, M_bind. rewrite Hd.
  setoid_rewrite <- find_disk_key_spec. rewrite <- find_disk_key_none.
  destruct (find_disk_key devices disk_path) as [k|]; cbn; split.
  - intros key. split; [by intros [= ->]|by intros [= ->]].
  - done.
  - intros key. done.
  - done.
Qed.

(** The ticket request matches the access asked for: a read-only request
    for a VM alone is [NfcGetVmFiles]; with a disk it is the read-only or the
    writable random access open of that disk's key, given or resolved from the
    VM's devices; it is the only request that is made, and a writable ticket
    never comes without a disk.  It is made after the registration of
    [vim.NfcService] only, of a method that the registered type declares, with
    the SOAP operation that VDDK uses, with arguments of the declared types and
    a ticket as its result. *)
Theorem ticket_request {E : Env} si vm key host ro path w t w' :
  get_nfc_ticket si vm key host ro path w = (Ok t, w') ->
  exists c, log w' = log w ++ [TicketCall c] /\ ticket_call_for vm key ro path c /\
    types_registered w' = true /\
    declares nfc_service_type (call_method c) (call_wsdl c) (call_args c).
Proof.
  intros H. pose proof (ticket_after_registration _ _ _ _ _ _ _ _ _ H) as Hr.
  apply get_nfc_ticket_run in H as (c & Hl & Hc). exists c.
  split_and!; [done..|apply nfc_service_declares].
Qed.

(** C17: [authenticate] leaks nothing: if any step after the login fails, the
    VIM session is logged out and every socket is closed; if it returns, its
    session is the one live login and its authd socket the only new socket
    that may be open. *)
Theorem authenticate_releases {E : Env} {U : Unicode} a w :
  let '(o, w') := authenticate a w in
  exists evs, log w' = log w ++ evs /\
    match o with
    | Ok s => live_sessions evs = [s_si s] /\ new_closed (Some (s_authd_sock s)) w w'
    | Raise _ => live_sessions evs = [] /\ new_closed None w w'
    | OutOfFuel => False
    end.
Proof.
  destruct (authenticate a w) as [o w'] eqn:H.
  apply authenticate_run in H as (_ & _ & evs & G & Hm). exists evs. split; [done|]. destruct o; [| |done].
  - destruct Hm as ((calls & -> & Hc) & Hn & _). split; [by apply live_after_tickets|done].
  - destruct Hm as ([->|(si & calls & -> & Hc)] & Hn); [done|]. split; [by apply live_after_logout|done].
Qed.

(** C21: [connect_vim] logs in to a pinned server only.  With a thumbprint and
    without [allow_untrusted], a session is returned only after a connection to
    that host and port showed a certificate with the pinned SHA-1 digest; the
    session is what [SmartConnect] then answered to exactly that host, port and
    user, the credentials, the same thumbprint for its own handshake, and the
    preferred API versions.  A digest that differs, or a probe that raises,
    ends the function before the credentials are given to anyone. *)
Theorem connect_vim_pinned {E : Env} {U : Unicode} {UOk : UnicodeOk U} host user pwd port expected d w :
  expected <> [] -> _normalize_thumbprint expected = hex_digits d ->
  let '(o, w') := connect_vim host user pwd port (Some expected) false w in
  (forall si, o = Ok si -> exists s tls cert versions,
     probed host port (str "sha1") (tick w) s tls cert d /\
     _vim_preferred_api_versions = Ok versions /\
     env_smart_connect (6 + tick w) (mkSmartConnect host user pwd port (Some expected)
       (Some (mkSslContext false false)) true versions) = inr si /\
     log w' = log w ++ [Login si]) /\
  (forall p w1, get_ssl_cert_thumbprint host port (str "sha1") None w = (Ok p, w1) ->
     _normalize_thumbprint p <> hex_digits d -> o = Raise EConnectionError /\ w' = w1) /\
  (forall e w1, get_ssl_cert_thumbprint host port (str "sha1") None w = (Raise e, w1) ->
     o = Raise e /\ w' = w1).
Proof.
  intros He Hn. destruct (connect_vim _ _ _ _ _ _ w) as [o w'] eqn:H.
  pose proof (connect_vim_run _ _ _ _ _ _ _ _ _ H) as (w0 & [[_ _ _ G0] _] & Hw0).
  unfold connect_vim in H. destruct expected as [|c ex]; [done|].
  change (truthy (Some (c :: ex))) with (Some (c :: ex)) in H. cbv beta iota zeta in H.
  rewrite (bool_decide_true (is_Some _)) in H by done. cbn [orb] in H. rewrite Hn in H.
  split; [|split].
  - intros si ->. apply bind_inv_ok in H as (u & w1 & H & Hl).
    apply bind_inv_ok in H as (p & w2 & Hp & [Hd ->]%raise_when_inv_ok).
    apply get_thumbprint_inv in Hp as (s & tls & cert & d' & Hpr & -> & T).
    rewrite normalize_format in Hd. apply negb_false_iff, str_eqb_eq, hex_digits_inj in Hd as ->.
    apply bind_inv_ok in Hl as (ctx & w3 & Hctx & Hl).
    apply bind_inv_ok in Hctx as (c1 & w4 & Hc1 & [-> ->]%ret_inv_ok).
    apply bind_inv_ok in Hc1 as (u1 & w5 & Hc1 & [-> ->]%ret_inv_ok). injection Hc1 as _ <-.
    apply bind_inv_ok in Hl as (vs & w6 & [Hv ->]%lift_inv_ok & Hl).
    apply bind_inv_ok in Hl as (si' & w7 & Hs & Hl). unfold sys in Hs. cbn [tick tock] in Hs.
    rewrite T in Hs. destruct (env_smart_connect _ _) as [e|si1] eqn:Es; [done|].
    injection Hs as -> <-. apply bind_inv_ok in Hl as (u2 & w8 & _ & [-> _]%ret_inv_ok).
    exists s, tls, cert, vs. split_and!; try done. rewrite Hw0. cbn [log set_log]. by rewrite G0.
  - intros p w1 Hp Hne. apply str_eqb_neq in Hne.
    rewrite (bind_raise _ _ _ EConnectionError w1) in H; [by injection H as <- <-|].
    rewrite (bind_ok _ _ _ _ _ Hp). by rewrite Hne.
  - intros e w1 Hp. rewrite (bind_raise _ _ _ e w1) in H; [by injection H as <- <-|].
    by rewrite (bind_raise _ _ _ _ _ Hp).
Qed.

(** * Witnesses *)

Definition lab_sha1 : bytes := take 20 (lab_cert ++ zeros 20).

Example thumbprint_pinned_witness :
  @check_thumbprint lab_env ascii_unicode lab_ticket false world1 = (Ok tt, tock (tock world1)).
Proof.
  exact (@thumbprint_pinned lab_env ascii_unicode ascii_unicode_ok lab_ticket lab_thumbprint
    lab_sha1 lab_cert lab_sha1 world1 eq_refl ltac:(done)
    ltac:(vm_compute; reflexivity) eq_refl ltac:(done) eq_refl).
Defined.

Example thumbprint_spellings_witness :
  @_normalize_thumbprint ascii_unicode (_format_thumbprint lab_sha1) = hex_digits lab_sha1.
Proof.
  exact (proj1 (@thumbprint_spellings ascii_unicode ascii_unicode_ok lab_sha1 [])).
Defined.

(** The line the peer sent is read, the byte after it is not. *)
Example readline_exact_witness :
  exists s', _readline (lab_sock (ascii_line "220 ok" ++ [Byte.x16])) = (Ok (str "220 ok"), s') /\
    flat (rx s') = [Some Byte.x16].
Proof.
  apply (proj1 (readline_exact (ascii "220 ok" ++ [Byte.x0d]) [Some Byte.x16]
    (lab_sock (ascii_line "220 ok" ++ [Byte.x16]))
    ltac:(by apply (bool_decide_unpack _)) ltac:(split; [done|constructor])));
    [done|vm_compute; reflexivity].
Defined.

Example authd_conversation_witness :
  exists s', @authd_commands ascii_unicode lab_ticket true
      (lab_sock (ascii_line "220 ok" ++ ascii_line "200 ok" ++ ascii_line "200 Connect ha-nfcssl")) =
      (Ok tt, s') /\
    tx s' = [ascii_line "SESSION 52ab"; ascii_line "BANNER "; ascii_line "THUMBPRINT_SHA2 PlainText";
             ascii_line "PROXY vpxa-nfcssl"] /\ flat (rx s') = [].
Proof.
  exact (@authd_conversation ascii_unicode lab_ticket true (ascii_line "SESSION 52ab")
    (ascii_line "PROXY vpxa-nfcssl") (ascii "220 ok" ++ [Byte.x0d]) (ascii "200 ok" ++ [Byte.x0d])
    (ascii "200 Connect ha-nfcssl" ++ [Byte.x0d]) (str "ok") (str "ok") (str "Connect ha-nfcssl")
    (lab_sock (ascii_line "220 ok" ++ ascii_line "200 ok" ++ ascii_line "200 Connect ha-nfcssl")) []
    ltac:(vm_compute; reflexivity) ltac:(vm_compute; reflexivity)
    ltac:(repeat constructor; by apply (bool_decide_unpack _)) ltac:(vm_compute; reflexivity)
    ltac:(vm_compute; reflexivity) ltac:(vm_compute; reflexivity)
    ltac:(split; [done|constructor]) ltac:(vm_compute; reflexivity)).
Defined.

(** The parent of the second disk is asked for. *)
Example virtual_disk_key_spec_witness :
  @_virtual_disk_key lab_env (str "vm-7") (str "[ds] b.vmdk") world0 = (Ok 2001, tock world0).
Proof.
  apply (proj2 (proj1 (@virtual_disk_key_spec lab_env (str "vm-7") (str "[ds] b.vmdk")
    lab_devices world0 eq_refl) 2001)).
  exists (take 2 lab_devices), (VirtualDisk 2001 (Backing (Some (str "[ds] b-000001.vmdk"))
     (Backing (Some (str "[ds] b.vmdk")) NoBacking))), [].
  split; [done|]. split; [done|].
  split; [apply backing_has_spec; vm_compute; reflexivity|].
  constructor; [by intros []|]. constructor; [|constructor].
  intros H. apply backing_has_spec in H. vm_compute in H. discriminate.
Defined.

Example ticket_request_witness :
  exists c, log (snd (@get_nfc_ticket lab_env 1 (str "vm-7") None None false
      (Some (str "[ds] b.vmdk")) world0)) = [] ++ [TicketCall c] /\
    (exists k h, c = RandomAccessOpen (str "vm-7") k h /\
      exists n devices, @env_devices lab_env n (str "vm-7") = inr devices /\
        find_disk_key devices (str "[ds] b.vmdk") = Some k) /\
    types_registered (snd (@get_nfc_ticket lab_env 1 (str "vm-7") None None false
      (Some (str "[ds] b.vmdk")) world0)) = true /\
    declares nfc_service_type (call_method c) (call_wsdl c) (call_args c).
Proof.
  exact (@ticket_request lab_env 1 (str "vm-7") None None false (Some (str "[ds] b.vmdk")) world0
    lab_ticket _ ltac:(vm_compute; reflexivity)).
Defined.

Example connect_vim_pinned_witness :
  fst (@connect_vim lab_env ascii_unicode (str "vc") (str "u") (str "p") 443 (Some lab_thumbprint)
    false world0) = Ok 1 /\
  exists s tls cert versions,
    @probed lab_env (str "vc") 443 (str "sha1") 0 s tls cert lab_sha1 /\
    @env_smart_connect lab_env 6 (mkSmartConnect (str "vc") (str "u") (str "p") 443
      (Some lab_thumbprint) (Some (mkSslContext false false)) true versions) = inr 1.
Proof.
  pose proof (@connect_vim_pinned lab_env ascii_unicode ascii_unicode_ok (str "vc") (str "u")
    (str "p") 443 lab_thumbprint lab_sha1 world0 ltac:(done) ltac:(vm_compute; reflexivity)) as H.
  assert (fst (@connect_vim lab_env ascii_unicode (str "vc") (str "u") (str "p") 443
    (Some lab_thumbprint) false world0) = Ok 1) as E by (vm_compute; reflexivity).
  split; [exact E|]. destruct (connect_vim _ _ _ _ _ _ _) as [o w'].
  destruct (proj1 H 1 E) as (s & tls & cert & vs & Hp & _ & Hs & _). by exists s, tls, cert, vs.
Defined.
