(* ===== verification/Handle.v ===== *)
(** [openvixdisklib/openvixdisklib.py]: the VDDK-shaped handle.

    [connect] and [open] are generator context managers: the [with] block is
    their argument [body], run where the generator yields. *)
From Stdlib Require Import ZArith Lia String.
From stdpp Require Import base list numbers sets.
From coqutil Require Import Byte.
From S2P Require Import Prelude Python PyStr Socket Codec Wire Disk DiskRead DiskWrite OpenDisk World Authd NfcSocket Vim.

(** * Constants and pure functions *)

Definition VIXDISKLIB_VERSION_MAJOR : Z := 8.
Definition VIXDISKLIB_VERSION_MINOR : Z := 0.
Definition VIXDISKLIB_SECTOR_SIZE : Z := 512.
Definition VIXDISKLIB_CRED_UID : Z := 1.
Definition VIXDISKLIB_FLAG_OPEN_UNBUFFERED : Z := 1.
Definition VIXDISKLIB_FLAG_OPEN_SINGLE_LINK : Z := 2.
Definition VIXDISKLIB_FLAG_OPEN_READ_ONLY : Z := 4.
Definition VIXDISKLIB_FLAG_OPEN_COMPRESSION_ZLIB : Z := 16.
Definition VIXDISKLIB_FLAG_OPEN_COMPRESSION_FASTLZ : Z := 32.
Definition VIXDISKLIB_FLAG_OPEN_COMPRESSION_SKIPZ : Z := 64.

Definition _nfc_compression (flags : Z) : outcome Z :=
  let alg := Z.land flags
    (Z.lor (Z.lor VIXDISKLIB_FLAG_OPEN_COMPRESSION_ZLIB VIXDISKLIB_FLAG_OPEN_COMPRESSION_FASTLZ)
       VIXDISKLIB_FLAG_OPEN_COMPRESSION_SKIPZ) in
  if alg =? 0 then Ok NFC_COMPRESSION_NONE
  else if alg =? VIXDISKLIB_FLAG_OPEN_COMPRESSION_FASTLZ then Ok NFC_COMPRESSION_FASTLZ
  else if negb (Z.land alg (alg - 1) =? 0) then Raise ENotImplementedError
  else Raise ENotImplementedError.

Definition VIX_SUPPORTED_COMPATIBILITY_MODES : list pystr := [str "8.0"].

(** [ctypes.create_string_buffer(size)] *)
Definition get_buffer (size : Z) : outcome bytes :=
  if size <? 0 then Raise EValueError else Ok (zeros size).

Definition _parse_vm_moref {U : Unicode} (vmx_spec : option pystr) : outcome pystr :=
  match truthy vmx_spec with
  | None => Raise EValueError
  | Some vmx_spec =>
      match split_once 61 vmx_spec with
      | Some (kind, value) =>
          if negb (str_eqb (str_lower kind) (str "moref")) || bool_decide (value = [])
          then Raise EValueError else Ok value
      | None => Ok vmx_spec
      end
  end.

Definition supported_transport (mode : pystr) : bool :=
  str_eqb mode (str "nbdssl") || str_eqb mode (str "nbd").

Definition _select_transport (transport_modes : option pystr) : outcome pystr :=
  match transport_modes with
  | None => Ok (str "nbdssl")
  | Some modes =>
      match List.find supported_transport (split_all 58 modes) with
      | Some mode => Ok mode
      | None => Raise ENotImplementedError
      end
  end.

(** [VixDiskLibHandle.__init__]: the version the handle targets. *)
Definition init_handle (compatibility_version : option pystr) : outcome pystr :=
  match truthy compatibility_version with
  | Some v =>
      if bool_decide (v ∈ VIX_SUPPORTED_COMPATIBILITY_MODES) then Ok v else Raise EValueError
  | None => Ok (default [] (last VIX_SUPPORTED_COMPATIBILITY_MODES))
  end.

Definition get_vix_disklib_name (os_name : pystr) : pystr :=
  if str_eqb os_name (str "nt") then str "vixDiskLib.dll" else str "libvixDiskLib.so".

Definition get_transport_modes : list pystr := [str "nbdssl"; str "nbd"].

(** * Handles *)

Record _Connection := mkConnection {
  c_si : Z;
  c_vm_moref : pystr;
  c_snapshot_ref : option pystr;
  c_thumbprint : option pystr;
  c_allow_untrusted : bool;
  c_read_only : bool;
  c_transport_mode : pystr
}.

(** A disk object and the authd socket it was taken from. *)
Record _DiskHandle := mkDiskHandle {
  h_disk : nat;
  h_authd_sock : nat;
  h_transport_mode : pystr
}.

Definition get_transport_mode (h : _DiskHandle) : pystr := h_transport_mode h.

(** The arguments of [connect]. *)
Record connect_args := mkConnectArgs {
  ca_server_name : pystr;
  ca_thumbprint : option pystr;
  ca_username : pystr;
  ca_password : pystr;
  ca_vmx_spec : option pystr;
  ca_snapshot_ref : option pystr;
  ca_read_only : bool;
  ca_transport_modes : option pystr;
  ca_port : Z;
  ca_allow_untrusted : bool
}.

(** The caller's buffer, a disk object and its socket. *)
Definition buf_disk_lens (k : nat) : Lens (bytes * world) (NfcDisk * (bytes * sock)) :=
  {| lget bw := let '(d, s) := lget (Lens := disk_lens k) (snd bw) in (d, (fst bw, s));
     lput dbs bw := let '(d, (b, s)) := dbs in (b, lput (Lens := disk_lens k) (d, s) (snd bw)) |}.

Section Handle.
Context {E : Env} {U : Unicode} {C : Codec}.

Definition disconnect (conn : _Connection) : M world unit := Disconnect (c_si conn).

(** [connect] up to its [yield]. *)
Definition connect_enter (a : connect_args) : M world _Connection :=
  transport_mode ← lift (_select_transport (ca_transport_modes a));
  vm_moref ← lift (_parse_vm_moref (ca_vmx_spec a));
  si ← connect_vim (ca_server_name a) (ca_username a) (ca_password a) (ca_port a)
         (ca_thumbprint a) (ca_allow_untrusted a);
  mret (mkConnection si vm_moref (ca_snapshot_ref a) (ca_thumbprint a) (ca_allow_untrusted a)
    (ca_read_only a) transport_mode).

Definition connect {A} (a : connect_args) (body : _Connection -> M world A) : M world A :=
  conn ← connect_enter a;
  try_finally (body conn) (disconnect conn).

Definition close_handle (h : _DiskHandle) : M world unit :=
  try_finally (on_disk (h_disk h) close)
    (try_except is_oserror (on_sock (h_authd_sock h) sock_close) (fun _ => mret tt)).

(** The arguments [open] gives to [open_disk]: the rest are its defaults. *)
Definition handle_open_args (disk_path : pystr) (read_only : bool)
    (compression aio_buffer_size aio_buffer_count : Z) : open_args :=
  mkOpenArgs disk_path (str "vddk") (str "nbdmode") NFC_PROTOCOL_VERSION read_only compression
    aio_buffer_size aio_buffer_count.

(** [open] up to its [yield]. *)
Definition open_enter (conn : _Connection) (disk_path : pystr)
    (flags aio_buffer_size aio_buffer_count : Z) : M world _DiskHandle :=
  compression ← lift (_nfc_compression flags);
  let read_only := negb (Z.land flags VIXDISKLIB_FLAG_OPEN_READ_ONLY =? 0) in
  raise_when (negb read_only && c_read_only conn) ENotImplementedError;;
  let nfc_ssl := str_eqb (c_transport_mode conn) (str "nbdssl") in
  ticket ← get_nfc_ticket (c_si conn) (c_vm_moref conn) None None read_only
    (if read_only then None else Some disk_path);
  authd_sock ← connect_authd ticket (c_allow_untrusted conn) nfc_ssl;
  disk ← closing_on_error authd_sock
    (open_disk (mkNfcAuthSession (c_si conn) ticket authd_sock nfc_ssl)
       (handle_open_args disk_path read_only compression aio_buffer_size aio_buffer_count));
  mret (mkDiskHandle disk authd_sock (c_transport_mode conn)).

Definition open {A} (conn : _Connection) (disk_path : pystr)
    (flags aio_buffer_size aio_buffer_count : Z) (body : _DiskHandle -> M world A) : M world A :=
  h ← open_enter conn disk_path flags aio_buffer_size aio_buffer_count;
  try_finally (body h) (close_handle h).

(** The store is the caller's buffer and the world. *)
Definition read_handle (h : _DiskHandle) (start_sector num_sectors : Z)
    (readonly skip_decompression : bool) : M (bytes * world) ReadResult :=
  zoom (L := buf_disk_lens (h_disk h))
    (readinto start_sector num_sectors readonly skip_decompression).

Definition write_handle (h : _DiskHandle) (start_sector num_sectors : Z) (buf : bytes) :
    M world unit :=
  let length := num_sectors * VIXDISKLIB_SECTOR_SIZE in
  on_disk (h_disk h) (write start_sector num_sectors (py_slice 0 length buf)).

(** [exit] has nothing to release. *)
Definition exit : M world unit := mret tt.
End Handle.
