(* ===== verification/Scope.v ===== *)
(** What the body of a [with handle.open(...)] block may do: the relation
    [within], and that the handle's own operations are in it. *)
From Stdlib Require Import ZArith Lia String.
From stdpp Require Import base list numbers sets gmap.
From coqutil Require Import Byte.
From S2P Require Import Prelude Python PyStr Socket Codec Wire Disk DiskTheorems DiskRead Frames ReadSpec ReadLoop ReadInto DiskWrite World Handle.

(** * Reading and writing never close a socket *)

Definition same_end : relation sock := fun s s' => closed s' = closed s.

#[export] Instance same_end_preorder : PreOrder same_end.
Proof. split; [done|]. intros ??? H1 H2. unfold same_end in *. congruence. Qed.

#[export] Instance same_end_blind : RxBlind same_end.
Proof. done. Qed.

#[export] Instance same_end_sendall b : Frame same_end (sendall b).
Proof. intros s. unfold sendall. destruct (closed s) eqn:Hc; [done|]. by destruct (tx_plan s) as [|[]]. Qed.

Section Methods.
Context {C : Codec}.

#[export] Instance same_end_write_loop fuel d data length disk_offset op_id o :
  Frame same_end (write_loop fuel d data length disk_offset op_id o).
Proof.
  revert o. induction fuel as [|fuel IH]; intros o; cbn [write_loop];
    destruct (o <? length); try apply _.
  apply frame_bind; [|apply _]. unfold write_fragment.
  apply frame_bind; [apply _|]. intros []. apply _.
Qed.
End Methods.

(** * The methods of [NfcDisk] *)

(** The disk object and its socket are closed, or not, as they were. *)
Definition same_flags : relation (NfcDisk * sock) := fun st st' =>
  same_closed st st' /\ on_snd same_end st st'.

#[export] Instance same_flags_preorder : PreOrder same_flags.
Proof.
  split; [by intros []|]. intros ??? [H1 E1] [H2 E2]. split; by etrans.
Qed.

#[export] Instance same_flags_zoom {A} (m : M sock A) :
  Frame same_end m -> Frame same_flags (zoom m : M (NfcDisk * sock) A).
Proof. intros Hm st. split; [apply same_closed_sock|by apply frame_snd_zoom]. Qed.

#[export] Instance same_flags_op_id : Frame same_flags (zoom _next_op_id : M (NfcDisk * sock) Z).
Proof. by intros []. Qed.

(** Once the object is marked closed its socket is. *)
Definition closed_sound (st : NfcDisk * sock) : Prop :=
  _closed (fst st) = true -> closed (snd st) = true.

Lemma same_flags_sound st st' : same_flags st st' -> closed_sound st -> closed_sound st'.
Proof.
  unfold same_flags, same_closed, on_snd, same_end, closed_sound. intros [-> ->]. done.
Qed.

Section Disks.
Context {C : Codec}.

#[export] Instance same_flags_reply : Frame same_flags _aio_recv_reply.
Proof. unfold _aio_recv_reply. frames. Qed.

#[export] Instance same_flags_write start n data : Frame same_flags (write start n data).
Proof. unfold write. frames. Qed.

(** [readinto] on the object, the buffer and the socket. *)
Lemma readinto_flags start n ro skip d buf s :
  let '(_, (d', (_, s'))) := readinto start n ro skip (d, (buf, s)) in same_flags (d, s) (d', s').
Proof.
  destruct (readinto_run d start n ro skip buf s) as [(e & d' & -> & Hd)|(_ & _ & ->)].
  { by destruct Hd as [->| ->]. }
  unfold readinto_io. pose proof (same_end_sendall (read_request d start n) s) as H1.
  destruct (sendall _ s) as [[[]|e|] s1]; [|by split..].
  pose proof (frame_read_loop (Q := same_end) (Z.to_nat (n * sector_size d)) (n * sector_size d)
    (_op_id d) skip loop0 (buf, s1)) as H2.
  destruct (read_loop _ _ _ _ _ _) as [o [b2 s2]]. split; [done|].
  unfold on_snd in *. cbn [fst snd] in *. by etrans.
Qed.

Lemma close_sound st : closed_sound st -> closed_sound (snd (close st)).
Proof.
  destruct st as [d s]. intros H. destruct (_closed d) eqn:Hc.
  - by rewrite close_unfold, Hc.
  - destruct (close_run d s Hc) as (o & d' & s' & -> & _ & _ & Hs). by intros _.
Qed.
End Disks.

(** The block over a disk ends with the object and its socket closed. *)
Lemma with_disk_closed {A} (body : M (NfcDisk * sock) A) st :
  Total body -> closed_sound (snd (body st)) ->
  let '(o, st') := with_disk body st in
  o <> OutOfFuel /\ _closed (fst st') = true /\ closed (snd st') = true.
Proof.
  intros Ht Hs. specialize (Ht st). unfold with_disk, try_finally.
  destruct (body st) as [o [d s]]. cbn [fst snd] in *.
  assert (exists o1 d1 s1, close (d, s) = (o1, (d1, s1)) /\ o1 <> OutOfFuel /\
    _closed d1 = true /\ closed s1 = true) as (o1 & d1 & s1 & E & Ho & Hd & Hc).
  { destruct (_closed d) eqn:Hd; [|by apply close_run].
    exists (Ok tt), d, s. rewrite close_unfold, Hd. split_and!; try done. by apply Hs. }
  rewrite E. destruct o, o1; done.
Qed.

(** * The body of the [with] block *)

(** The disk object and the socket it names exist. *)
Definition disk_exists (k : nat) (w : world) : Prop :=
  (k < length (disks w))%nat /\ (snd (disk_at k w) < length (socks w))%nat.

Definition disk_sound (k : nat) (w : world) : Prop :=
  disk_exists k w /\ closed_sound (lget (Lens := disk_lens k) w).

(** The run makes no object, touches no socket but the two of the handle and
    keeps the disk's [_closed] flag sound. *)
Record within (h : _DiskHandle) (w w' : world) : Prop := {
  within_len : length (socks w') = length (socks w);
  within_disks : length (disks w') = length (disks w);
  within_name k : snd (disk_at k w') = snd (disk_at k w);
  within_sock i : i <> h_authd_sock h -> i <> snd (disk_at (h_disk h) w) ->
    socks w' !! i = socks w !! i;
  within_disk k : k <> h_disk h -> disks w' !! k = disks w !! k;
  within_log : log w' = log w;
  within_sound : disk_sound (h_disk h) w -> disk_sound (h_disk h) w'
}.

#[export] Instance within_preorder h : PreOrder (within h).
Proof.
  split; [done|]. intros w1 w2 w3 [L1 D1 N1 S1 K1 G1 C1] [L2 D2 N2 S2 K2 G2 C2].
  split; try congruence; try tauto.
  - intros i Hi Hd. rewrite S2, S1; try done. by rewrite N1.
  - intros k Hk. by rewrite K2, K1.
Qed.

Lemma disk_at_insert k j ds w :
  snd (disk_at k (lput (Lens := disk_lens j) ds w)) = snd (disk_at k w).
Proof.
  unfold disk_at, lput, disk_lens. cbn [disks set_disks socks set_socks].
  destruct (decide (k = j)) as [->|Hne]; [|by rewrite list_lookup_insert_ne].
  destruct (decide (j < length (disks w))%nat) as [Hl|Hl].
  - rewrite list_lookup_insert_eq by done. cbn. done.
  - by rewrite list_insert_ge by lia.
Qed.

Lemma disk_lget_lput k ds w :
  disk_exists k w -> lget (Lens := disk_lens k) (lput (Lens := disk_lens k) ds w) = ds.
Proof.
  intros [Hk Hs]. destruct ds as [d s]. unfold lget at 1, disk_lens at 1. rewrite disk_at_insert.
  unfold lput, disk_lens, disk_at, sock_at. cbn [disks set_disks socks set_socks fst snd].
  rewrite list_lookup_insert_eq by done. cbn [default fst].
  rewrite list_lookup_insert_eq by done. done.
Qed.

Lemma disk_lput_lget k w :
  lput (Lens := disk_lens k) (lget (Lens := disk_lens k) w) w = w.
Proof.
  destruct w as [t ss ds l r]. unfold lput, lget, disk_lens, disk_at, sock_at.
  cbn [disks socks fst snd]. unfold set_disks, set_socks. cbn [tick log types_registered disks socks].
  f_equal.
  - apply list_insert_id'. intros H. apply lookup_lt_is_Some in H as [s ->]. done.
  - apply list_insert_id'. intros H. apply lookup_lt_is_Some in H as [[d i] ->]. done.
Qed.

(** A method that keeps the flags sound stays within the handle. *)
Lemma within_on_disk {A} h (m : M (NfcDisk * sock) A) :
  (forall st, closed_sound st -> closed_sound (snd (m st))) ->
  Frame (within h) (on_disk (h_disk h) m).
Proof.
  intros Hm w. unfold on_disk, zoom.
  pose proof (Hm (lget (Lens := disk_lens (h_disk h)) w)) as H.
  destruct (m _) as [o [d s]]. cbn [snd] in *.
  assert (forall k, snd (disk_at k (lput (Lens := disk_lens (h_disk h)) (d, s) w)) =
    snd (disk_at k w)) as Hn by (intros; apply disk_at_insert).
  split; try done.
  - cbn. apply length_insert.
  - cbn. apply length_insert.
  - intros i _ Hi. cbn. by rewrite list_lookup_insert_ne.
  - intros k Hk. cbn. by rewrite list_lookup_insert_ne.
  - intros [[Hk Hs] Hc]. split.
    + split; [cbn; by rewrite length_insert|]. rewrite Hn. cbn. by rewrite length_insert.
    + rewrite disk_lget_lput by done. by apply H.
Qed.

#[export] Instance within_authd_close h :
  Frame (within h) (on_sock (h_authd_sock h) sock_close).
Proof.
  intros w. rewrite on_sock_run. destruct (sock_close _) as [o s] eqn:E.
  pose proof (sock_close_closed _ _ _ E) as Hc. cbn [snd]. split; try done.
  - cbn. apply length_insert.
  - intros i Hi _. cbn. by rewrite list_lookup_insert_ne.
  - intros [[Hk Hs] Hd]. split; [split; [done|cbn; by rewrite length_insert]|].
    unfold closed_sound, lget, disk_lens in *. cbn [fst snd] in *. intros Hf.
    destruct (decide (snd (disk_at (h_disk h) w) = h_authd_sock h)) as [<-|Hne].
    + change (disk_at _ (set_socks _ w)) with (disk_at (h_disk h) w). by rewrite sock_at_alter.
    + unfold sock_at. change (disk_at _ (set_socks _ w)) with (disk_at (h_disk h) w) in *.
      cbn [socks set_socks]. rewrite list_lookup_insert_ne by congruence. by apply Hd.
Qed.

Section Operations.
Context {C : Codec}.

#[export] Instance within_close h : Frame (within h) (close_handle h).
Proof.
  unfold close_handle. apply frame_try_finally; [|apply _].
  apply within_on_disk, close_sound.
Qed.

#[export] Instance within_write h start n buf : Frame (within h) (write_handle h start n buf).
Proof.
  unfold write_handle. apply within_on_disk. intros st.
  apply same_flags_sound, same_flags_write.
Qed.

(** [read] into a buffer that the body made. *)
#[export] Instance within_read h start n ro skip (buf : bytes) :
  Frame (within h) (with_local buf (read_handle h start n ro skip)).
Proof.
  intros w.
  pose (m := fun st : NfcDisk * sock =>
    let '(o, (d', (_, s'))) := readinto start n ro skip (fst st, (buf, snd st)) in (o, (d', s'))).
  assert (snd (with_local buf (read_handle h start n ro skip) w) =
    snd (on_disk (h_disk h) m w)) as ->.
  { unfold with_local, read_handle, on_disk, zoom, m.
    change (lget (Lens := buf_disk_lens (h_disk h)) (buf, w)) with
      (fst (lget (Lens := disk_lens (h_disk h)) w),
       (buf, snd (lget (Lens := disk_lens (h_disk h)) w))).
    by destruct (readinto _ _ _ _ _) as [o [d' [b' s']]]. }
  apply (within_on_disk h m). intros [d s]. unfold m. cbn [fst snd].
  pose proof (readinto_flags start n ro skip d buf s) as H.
  destruct (readinto _ _ _ _ _) as [o [d' [b' s']]]. by apply same_flags_sound.
Qed.
End Operations.

#[export] Instance read_handle_total {C : Codec} {COk : CodecOk C} h start n ro skip :
  Total (read_handle h start n ro skip).
Proof. unfold read_handle. apply total_zoom. intros st. apply readinto_fuel. Qed.

(** Closing the handle closes both sockets, whatever either close raises. *)
Lemma close_handle_run h w o w' :
  close_handle h w = (o, w') -> disk_sound (h_disk h) w ->
  (h_authd_sock h < length (socks w))%nat ->
  o <> OutOfFuel /\ closed (sock_at (h_authd_sock h) w') = true /\
  closed (sock_at (snd (disk_at (h_disk h) w)) w') = true.
Proof.
  intros H Hw Ha.
  unfold close_handle, try_finally in H.
  set (k := h_disk h) in *. unfold on_disk, zoom in H.
  destruct (lget (Lens := disk_lens k) w) as [d s] eqn:Hg.
  assert (exists o1 d1 s1, close (d, s) = (o1, (d1, s1)) /\ o1 <> OutOfFuel /\ closed s1 = true)
    as (o1 & d1 & s1 & E & Ho & Hs1).
  { destruct Hw as [_ Hc]. rewrite Hg in Hc. unfold closed_sound in Hc. cbn [fst snd] in Hc.
    destruct (_closed d) eqn:Hd.
    - exists (Ok tt), d, s. rewrite close_unfold, Hd. auto.
    - destruct (close_run d s Hd) as (o1 & d1 & s1 & E & Ho & _ & Hs1). eauto 8. }
  rewrite E in H. set (w1 := lput (Lens := disk_lens k) (d1, s1) w) in H.
  assert (disk_exists k w) as Hex by apply Hw. destruct Hex as [Hk Hs].
  assert (sock_at (snd (disk_at k w)) w1 = s1) as E1.
  { unfold w1, sock_at. cbn. by rewrite list_lookup_insert_eq. }
  assert (length (socks w1) = length (socks w)) as Hl1 by (cbn; apply length_insert).
  unfold try_except in H.
  destruct (on_sock (h_authd_sock h) sock_close w1) as [o2 w2] eqn:E2.
  assert (w' = w2 /\ o <> OutOfFuel) as [-> Ho'].
  { rewrite on_sock_run in E2. destruct (sock_close _) as [o3 s3] eqn:E3.
    assert (o3 = Ok tt \/ o3 = Raise EOSError) as Ho3.
    { unfold sock_close in E3. destruct (closed _); [|destruct (close_fails _)];
        injection E3 as <- <-; auto. }
    injection E2 as <- <-. destruct o1 as [[]|e1|]; [| |done];
      destruct Ho3 as [->| ->]; cbn in H; by injection H as <- <-. }
  split; [done|].
  pose proof (on_sock_close (h_authd_sock h) w1 ltac:(lia)) as Hca.
  rewrite E2 in Hca. cbn [snd] in Hca. split; [done|].
  destruct (decide (snd (disk_at k w) = h_authd_sock h)) as [->|Hne]; [done|].
  rewrite on_sock_run in E2. destruct (sock_close _) as [o3 s3]. injection E2 as <- <-.
  unfold sock_at. cbn [socks set_socks]. rewrite list_lookup_insert_ne by congruence.
  change (closed (sock_at (snd (disk_at k w)) w1) = true). by rewrite E1.
Qed.
