(* ===== verification/Lifecycle.v ===== *)
(** The life of an [NfcDisk]: any sequence of calls of its methods, whatever
    each of them returns or raises, with a network and a server that do what
    they like between the calls.  The invariants are by induction on the
    sequence. *)
From Stdlib Require Import ZArith Lia String Sorted.
From stdpp Require Import base list numbers sets gmap relations sorting.
From coqutil Require Import Byte Word.LittleEndianList.
Import LittleEndianList.
From S2P Require Import Prelude Python PyStr Socket Codec Fastlz Wire Disk DiskTheorems DiskRead Frames ReadSpec ReadLoop ReadInto DiskWrite WriteTheorems OpenDisk Lab OpenTheorems Scope.

(** * Calls *)

(** A call of a method, with its arguments. *)
Inductive disk_op :=
  | OpRead (start_sector num_sectors : Z)
  | OpReadInto (start_sector num_sectors : Z) (buf : bytes) (readonly skip_decompression : bool)
  | OpWrite (start_sector num_sectors : Z) (data : bytes)
  | OpClose.

Definition run_op {C : Codec} (op : disk_op) : M (NfcDisk * sock) unit :=
  match op with
  | OpRead start n => read start n;; mret tt
  | OpReadInto start n buf ro skip => with_buffer buf (readinto start n ro skip);; mret tt
  | OpWrite start n data => write start n data
  | OpClose => close
  end.

#[export] Instance disk_op_eq_dec : EqDecision disk_op.
Proof. solve_decision. Defined.

(** What the rest of the world does to the socket: it delivers anything, and
    lets later [sendall] calls succeed or fail. *)
Definition peer_step (s s' : sock) : Prop := tx s' = tx s /\ closed s' = closed s.

Inductive step {C : Codec} : relation (NfcDisk * sock) :=
  | step_call op st : step st (snd (run_op op st))
  | step_peer d s s' : peer_step s s' -> step (d, s) (d, s').

(** * What is said *)

(** The op id of an AIO message, of which a part may be missing. *)
Definition frame_op (b : bytes) : option Z :=
  if (16 <=? len b) && (u32_at 0 b =? NFC_AIO_MAGIC) then Some (u32_at 12 b) else None.

(** From [s] to [s'] only buffers in [P] were sent, and nothing at all on a
    closed socket. *)
Record utters (P : bytes -> Prop) (s s' : sock) : Prop := {
  utters_tx : exists out, tx s' = tx s ++ out /\ Forall P out /\ (closed s = true -> out = []);
  utters_closed : closed s' = closed s
}.

Definition of_op (op : Z) (b : bytes) : Prop := forall i, frame_op b = Some i -> i = op.

(** The messages sent from [st] to [st'] have the op ids that the object gave
    out, in order; a closed socket stays closed and silent. *)
Record speaks (st st' : NfcDisk * sock) : Prop := {
  speaks_ops : exists out, tx (snd st') = tx (snd st) ++ out /\
    (closed (snd st) = true -> out = []) /\
    StronglySorted Z.le (omap frame_op out) /\
    Forall (fun i => _op_id (fst st) <= i < _op_id (fst st')) (omap frame_op out);
  speaks_op_id : _op_id (fst st) <= _op_id (fst st');
  speaks_closed : closed (snd st) = true -> closed (snd st') = true
}.

(** * Lemmas: the op id of a message *)

Lemma frame_op_aio t n op rest k i :
  fits32 op -> frame_op (take k (aio_hdr t n op ++ rest)) = Some i -> i = op.
Proof.
  intros Ho. unfold frame_op.
  destruct (Z.leb_spec 16 (len (take k (aio_hdr t n op ++ rest)))) as [Hl|]; [|done].
  pose proof (len_aio_hdr t n op) as Hh. unfold NFC_AIO_HDR_SIZE in Hh.
  rewrite take_app_ge by zlia. rewrite aio_hdr_op by done.
  cbn [andb]. destruct (_ =? NFC_AIO_MAGIC); [|done]. by intros [= <-].
Qed.

(** A classic message, whole or cut, is no AIO message. *)
Lemma frame_op_nfc k : frame_op (take k (nfc_frame NFC_MSG_SESSION_COMPLETE [])) = None.
Proof.
  unfold frame_op. destruct (Z.leb_spec 16 (len (take k (nfc_frame NFC_MSG_SESSION_COMPLETE []))))
    as [Hl|]; [|done].
  cbn [andb]. set (f := nfc_frame _ _) in *. assert (u32_at 0 (take k f) = 4) as ->; [|done].
  assert (4 <= k)%nat as Hk by zlia. change f with (take 4 f ++ drop 4 f).
  rewrite take_app_ge by (simpl; lia). apply (u32_at_0 4). done.
Qed.

(** * Lemmas: sending *)

#[export] Instance utters_preorder P : PreOrder (utters P).
Proof.
  split.
  - intros s. split; [|done]. exists []. by rewrite app_nil_r.
  - intros s1 s2 s3 [(o1 & T1 & F1 & N1) C1] [(o2 & T2 & F2 & N2) C2]. split; [|congruence].
    exists (o1 ++ o2). split_and!.
    + by rewrite T2, T1, app_assoc.
    + by apply Forall_app.
    + intros H. rewrite N1, N2 by congruence. done.
Qed.

#[export] Instance utters_blind P : RxBlind (utters P).
Proof. intros s r. split; [|done]. exists []. by rewrite app_nil_r. Qed.

Lemma utters_sendall (P : bytes -> Prop) b :
  (forall k, P (take k b)) -> Frame (utters P) (sendall b).
Proof.
  intros H s. unfold sendall. destruct (closed s) eqn:Hc; [reflexivity|].
  assert (P b) as Hb by (rewrite <- (firstn_all b); apply H).
  destruct (tx_plan s) as [|[k|] p]; cbn [snd]; (split; [eexists; cbn; split; [done|]|done]);
    (split; [by repeat constructor|congruence]).
Qed.

Lemma utters_aio op t n rest : fits32 op -> Frame (utters (of_op op)) (sendall (aio_hdr t n op ++ rest)).
Proof. intros Ho. apply utters_sendall. intros k i. by apply frame_op_aio. Qed.

(** * Lemmas: the methods *)

#[export] Instance speaks_preorder : PreOrder speaks.
Proof.
  split.
  - intros [d s]. split; [|lia|done]. exists []. rewrite app_nil_r. repeat constructor.
  - intros st1 st2 st3 [(o1 & T1 & N1 & S1 & F1) O1 C1] [(o2 & T2 & N2 & S2 & F2) O2 C2].
    split; [|lia|auto]. exists (o1 ++ o2).
    rewrite omap_app. split; [by rewrite T2, T1, app_assoc|].
    split; [intros H; rewrite N1, N2 by auto; done|]. split.
    + rewrite Forall_forall in F1, F2. apply StronglySorted_app_2; [|done..].
      intros i j Hi Hj. apply F1 in Hi. apply F2 in Hj. lia.
    + apply Forall_app. split; eapply Forall_impl; [exact F1| |exact F2|]; simpl; lia.
Qed.

Lemma of_op_ids op out : Forall (of_op op) out -> Forall (eq op) (omap frame_op out).
Proof.
  induction 1 as [|b out Hb _ IH]; [constructor|]. cbn [omap list_omap].
  destruct (frame_op b) as [i|] eqn:Ei; [|done]. constructor; [|done]. symmetry. by apply Hb.
Qed.

Lemma sorted_const op l : Forall (eq op) l -> StronglySorted Z.le l.
Proof.
  induction 1 as [|i l <- Hl IH]; constructor; [done|].
  eapply Forall_impl; [exact Hl|]. simpl. lia.
Qed.

(** Messages under the op id that was taken before. *)
Lemma utters_speaks d s d' s' :
  _op_id d' = _op_id d + 1 -> utters (of_op (_op_id d)) s s' -> speaks (d, s) (d', s').
Proof.
  intros Ho [(out & T & F & N) Hc]. split; cbn [fst snd]; [|lia|congruence].
  exists out. apply of_op_ids in F. split; [done|]. split; [done|].
  split; [by eapply sorted_const|]. eapply Forall_impl; [exact F|]. simpl. lia.
Qed.

(** The object's counter is where it was. *)
Definition same_op_id : relation (NfcDisk * sock) := fun st st' => _op_id (fst st') = _op_id (fst st).

#[export] Instance same_op_id_preorder : PreOrder same_op_id.
Proof. split; [done|]. intros ??? H1 H2. unfold same_op_id in *. congruence. Qed.

#[export] Instance same_op_id_sock {A} (m : M sock A) :
  Frame same_op_id (zoom m : M (NfcDisk * sock) A).
Proof. intros [d s]. unfold zoom, same_op_id. cbn. by destruct (m s). Qed.

(** The same for a method that takes an op id first. *)
Lemma speaks_next_op_id {A} (k : Z -> M (NfcDisk * sock) A) :
  (forall op, Frame (on_snd (utters (of_op op))) (k op)) ->
  (forall op, Frame same_op_id (k op)) ->
  Frame speaks (op ← zoom _next_op_id; k op).
Proof.
  intros Hu Ho [d s]. erewrite bind_ok by (apply zoom_run, next_op_id_run).
  set (d1 := set_op_id (_op_id d + 1) d).
  change (speaks (d, s) (snd (k (_op_id d) (d1, s)))).
  specialize (Hu (_op_id d) (d1, s)). specialize (Ho (_op_id d) (d1, s)).
  destruct (k (_op_id d) (d1, s)) as [o [d' s']]. apply utters_speaks; [|exact Hu].
  exact Ho.
Qed.

(** Receiving is silent. *)
#[export] Instance peer_step_preorder : PreOrder peer_step.
Proof. split; [done|]. intros ??? [] []. split; congruence. Qed.

#[export] Instance peer_step_blind : RxBlind peer_step.
Proof. done. Qed.

Lemma peer_speaks d s d' s' :
  _op_id d <= _op_id d' -> peer_step s s' -> speaks (d, s) (d', s').
Proof.
  intros Ho [T C]. split; cbn [fst snd]; [|done|congruence].
  exists []. rewrite app_nil_r. repeat constructor. done.
Qed.

#[export] Instance same_op_id_reply : Frame same_op_id _aio_recv_reply.
Proof. unfold _aio_recv_reply. frames. Qed.

#[export] Instance speaks_reply : Frame speaks _aio_recv_reply.
Proof.
  intros [d s]. pose proof (same_op_id_reply (d, s)) as Ho.
  pose proof (frame_aio_recv_reply (Q := peer_step) (d, s)) as Hp.
  destruct (_aio_recv_reply (d, s)) as [o [d' s']]. unfold same_op_id in Ho. cbn [fst snd] in *.
  apply peer_speaks; [lia|exact Hp].
Qed.

#[export] Instance speaks_recvn n : Frame speaks (zoom (_recvn n) : M (NfcDisk * sock) bytes).
Proof.
  intros [d s]. pose proof (frame_recvn (Q := peer_step) n s) as Hp.
  unfold zoom. cbn [lget lens_snd lens_self snd]. destruct (_recvn n s) as [o s'].
  by apply peer_speaks.
Qed.

#[export] Instance speaks_aio_send t p e : Frame speaks (_aio_send t p e).
Proof.
  unfold _aio_send. apply speaks_next_op_id; intros op.
  - apply frame_lift_bind; [apply _|]. intros h (_ & _ & Ho & ->)%pack_aio_hdr_inv.
    apply frame_bind; [apply frame_snd_zoom; by apply utters_aio|]. apply _.
  - frames.
Qed.

#[export] Instance speaks_roundtrip t p e n : Frame speaks (_aio_roundtrip t p e n).
Proof. unfold _aio_roundtrip. frames. Qed.

#[export] Instance speaks_set_closed :
  Frame speaks (zoom (modify set_closed) : M (NfcDisk * sock) unit).
Proof. intros [d s]. by apply peer_speaks. Qed.

#[export] Instance speaks_complete :
  Frame speaks (zoom (_send_nfc_msg NFC_MSG_SESSION_COMPLETE []) : M (NfcDisk * sock) unit).
Proof.
  intros [d s]. unfold zoom. cbn [lget lens_snd lens_self snd].
  assert (_send_nfc_msg NFC_MSG_SESSION_COMPLETE [] s =
    sendall (nfc_frame NFC_MSG_SESSION_COMPLETE []) s) as -> by done.
  pose proof (utters_sendall (fun b => frame_op b = None) (nfc_frame NFC_MSG_SESSION_COMPLETE [])
    frame_op_nfc s) as [(out & T & F & N) C].
  destruct (sendall _ s) as [o s']. split; cbn [lput lens_snd lens_self fst snd] in *; [|lia|congruence].
  exists out. split; [done|]. split; [done|].
  assert (omap frame_op out = []) as ->; [|by repeat constructor].
  clear T N. induction F as [|b out Hb F IH]; [done|]. cbn [omap list_omap]. rewrite Hb. exact IH.
Qed.

#[export] Instance speaks_quiet_close : Frame speaks quiet_close.
Proof.
  intros [d s]. destruct (quiet_close_run d s) as (s' & -> & Hc & Ht).
  split; cbn [fst snd]; [|lia|done]. exists []. rewrite app_nil_r. by repeat constructor.
Qed.

#[export] Instance speaks_close : Frame speaks close.
Proof.
  intros [d s]. rewrite close_unfold. destruct (_closed d); [reflexivity|].
  etrans; [by apply (speaks_set_closed (d, s))|].
  assert (Frame speaks (try_finally (goodbye d) quiet_close)) as H; [|apply H].
  unfold goodbye. frames.
Qed.

Section Calls.
Context {C : Codec}.

#[export] Instance utters_write_loop fuel d data length disk_offset op o :
  Frame (utters (of_op op)) (write_loop fuel d data length disk_offset op o).
Proof.
  revert o. induction fuel as [|fuel IH]; intros o; cbn [write_loop];
    destruct (o <? length); try apply _.
  apply frame_bind; [|apply _]. unfold write_fragment.
  apply frame_bind; [apply _|]. intros [extra ctype]. apply frame_bind; [apply _|]. intros payload.
  apply frame_lift_bind; [apply _|]. intros h (_ & _ & Ho & ->)%pack_aio_hdr_inv.
  apply frame_bind; [by apply utters_aio|]. apply _.
Qed.

#[export] Instance speaks_write start n data : Frame speaks (write start n data).
Proof.
  unfold write. do 3 (apply frame_bind; [apply _|]; intros ?).
  apply speaks_next_op_id; intros op; frames.
Qed.

(** [readinto], on the object and the socket. *)
Lemma readinto_speaks start n ro skip d buf s :
  let '(_, (d', (_, s'))) := readinto start n ro skip (d, (buf, s)) in speaks (d, s) (d', s').
Proof.
  destruct (readinto_run d start n ro skip buf s) as [(e & d' & -> & Hd)|(_ & Ho & ->)].
  { apply peer_speaks; [|done]. destruct Hd as [->| ->]; cbn; lia. }
  unfold readinto_io. pose proof (utters_aio (_op_id d) NFC_AIO_MSG_IO 44 (read_payload d start n) Ho s)
    as H1. change (_ ++ _) with (read_request d start n) in H1.
  destruct (sendall _ s) as [[[]|e|] s1]; [|by apply utters_speaks..].
  pose proof (frame_read_loop (Q := utters (of_op (_op_id d))) (Z.to_nat (n * sector_size d))
    (n * sector_size d) (_op_id d) skip loop0 (buf, s1)) as H2.
  destruct (read_loop _ _ _ _ _ _) as [o [b2 s2]]. apply utters_speaks; [done|].
  etrans; [exact H1|exact H2].
Qed.

#[export] Instance speaks_with_buffer start n buf ro skip :
  Frame speaks (with_buffer buf (readinto start n ro skip)).
Proof.
  intros [d s]. unfold with_buffer. cbn [fst snd].
  pose proof (readinto_speaks start n ro skip d buf s) as H.
  by destruct (readinto _ _ _ _ _) as [o [d' [b s']]].
Qed.

#[export] Instance speaks_run_op op : Frame speaks (run_op op).
Proof. destruct op; unfold run_op, read; frames. Qed.

(** * Lemmas: the steps *)

#[export] Instance steps_with_buffer start n buf ro skip :
  Frame steps (with_buffer buf (readinto start n ro skip)).
Proof.
  intros [d s]. unfold with_buffer, steps. cbn [fst snd].
  pose proof (readinto_steps start n ro skip d buf s) as H.
  by destruct (readinto _ _ _ _ _) as [o [d' [b s']]].
Qed.

#[export] Instance steps_run_op op : Frame steps (run_op op).
Proof. destruct op; unfold run_op; frames. Qed.

#[export] Instance flags_with_buffer start n buf ro skip :
  Frame same_flags (with_buffer buf (readinto start n ro skip)).
Proof.
  intros [d s]. unfold with_buffer. cbn [fst snd].
  pose proof (readinto_flags start n ro skip d buf s) as H.
  by destruct (readinto _ _ _ _ _) as [o [d' [b s']]].
Qed.

(** A call other than [close] leaves the object and the socket open or closed
    as they were. *)
Lemma flags_run_op op : op <> OpClose -> Frame same_flags (run_op op).
Proof. destruct op; intros; unfold run_op, read; [frames..|done]. Qed.

Lemma run_op_sound op st : closed_sound st -> closed_sound (snd (run_op op st)).
Proof.
  intros H. destruct (decide (op = OpClose)) as [->|Hne]; [by apply close_sound|].
  eapply same_flags_sound; [by apply flags_run_op|done].
Qed.
End Calls.

(** A preorder that holds of every step holds of every run. *)
Lemma rtc_subrel {S} (P R : relation S) {PO : PreOrder R} x y :
  (forall x y, P x y -> R x y) -> rtc P x y -> R x y.
Proof. intros H. induction 1 as [x|x y z Hxy _ IH]; [reflexivity|]. etrans; [by apply H|done]. Qed.

Section Runs.
Context {C : Codec}.

Lemma step_speaks st st' : step st st' -> speaks st st'.
Proof. destruct 1 as [op st|d s s' Hp]; [apply speaks_run_op|by apply peer_speaks]. Qed.

Lemma step_steps st st' : step st st' -> steps st st'.
Proof. destruct 1 as [op st|d s s' Hp]; [apply steps_run_op|unfold steps; reflexivity || by split]. Qed.

Lemma step_sound st st' : step st st' -> closed_sound st -> closed_sound st'.
Proof.
  destruct 1 as [op st|d s s' [_ Hc]]; [apply run_op_sound|].
  unfold closed_sound. cbn [fst snd]. by rewrite Hc.
Qed.

(** A closed socket fails every call that needs it. *)
Lemma write_loop_closed {COk : CodecOk C} fuel d data length off op o s :
  closed s = true -> o < length -> fuel <> 0%nat ->
  exists e, fst (write_loop fuel d data length off op o s) = Raise e.
Proof.
  intros Hc Ho Hf. destruct fuel as [|fuel]; [done|]. cbn [write_loop].
  rewrite (proj2 (Z.ltb_lt _ _)) by done.
  assert (exists e s', write_fragment d data length off op o s = (Raise e, s')) as (e & s' & E).
  { pose proof (write_fragment_total d data length off op o s) as Ht.
    destruct (write_fragment d data length off op o s) as [[v|e|] s'] eqn:E; [|by eauto|done].
    exfalso. unfold write_fragment in E.
    apply bind_inv_ok in E as ([x c] & s1 & [_ ->]%lift_inv_ok & E).
    apply bind_inv_ok in E as (p & s1 & [_ ->]%lift_inv_ok & E).
    apply bind_inv_ok in E as (h & s1 & [_ ->]%lift_inv_ok & E).
    apply bind_inv_ok in E as (u & s1 & E & _). unfold sendall in E. by rewrite Hc in E. }
  exists e. by rewrite (bind_raise _ _ _ _ _ E).
Qed.

Lemma readinto_closed start n ro skip d buf s :
  closed s = true -> exists e, fst (readinto start n ro skip (d, (buf, s))) = Raise e.
Proof.
  intros Hc. destruct (readinto_run d start n ro skip buf s) as [(e & d' & -> & Hd)|(_ & _ & ->)];
    [by exists e|]. exists EOSError. unfold readinto_io, sendall. by rewrite Hc.
Qed.

Lemma with_buffer_closed start n ro skip d buf s :
  closed s = true -> exists e, fst (with_buffer buf (readinto start n ro skip) (d, s)) = Raise e.
Proof.
  intros Hc. destruct (readinto_closed start n ro skip d buf s Hc) as [e H].
  exists e. unfold with_buffer. cbn [fst snd]. destruct (readinto _ _ _ _ _) as [o [d' [b s']]].
  cbn [fst] in *. by rewrite H.
Qed.

Lemma bind_fst_raise {S A B} (m : M S A) (k : A -> M S B) st e :
  fst (m st) = Raise e -> fst ((m ≫= k) st) = Raise e.
Proof. unfold mbind, M_bind. destruct (m st) as [[a|e'|] st']; [done|by intros [= ->]|done]. Qed.

Lemma run_op_closed {COk : CodecOk C} op d s :
  closed s = true -> 1 <= sector_size d -> op <> OpClose -> exists e, fst (run_op op (d, s)) = Raise e.
Proof.
  intros Hc Hz Hop. destruct op as [start n|start n buf ro skip|start n data|]; [| | |done]; unfold run_op.
  - unfold read. destruct (n <? 1); [by eexists|].
    destruct (with_buffer_closed start n false false d (zeros (n * sector_size d)) s Hc) as [e H].
    exists e. apply bind_fst_raise. rewrite (bind_ok _ _ _ tt (d, s)) by done.
    rewrite (bind_ok _ _ _ d (d, s)) by done. by apply bind_fst_raise.
  - destruct (with_buffer_closed start n ro skip d buf s Hc) as [e H].
    exists e. by apply bind_fst_raise.
  - unfold write. destruct (Z.ltb_spec n 1) as [|Hn]; [by eexists|].
    rewrite (bind_ok _ _ _ tt (d, s)) by done. rewrite (bind_ok _ _ _ d (d, s)) by done.
    destruct (negb _); [by eexists|]. rewrite (bind_ok _ _ _ tt (d, s)) by done.
    erewrite bind_ok by (apply zoom_run, next_op_id_run).
    destruct (write_loop_closed (Z.to_nat (n * sector_size d)) d data (n * sector_size d)
      (start * sector_size d) (_op_id d) 0 s Hc) as [e H]; [lia..|].
    exists e. apply bind_fst_raise. unfold zoom.
    cbn [lget lput lens_fst lens_snd lens_self fst snd]. by destruct (write_loop _ _ _ _ _ _ _ s).
Qed.
End Runs.

(** * Properties *)

(** C12: every state that any sequence of calls reaches, whatever the calls return
    or raise and whatever the peer does between them, is well-formed and has
    the path, handle, sector size, compression and buffer sizes it was opened
    with; the op id never goes back and [_closed] never reverts; a disk marked
    closed has its socket closed. *)
Theorem session_invariant {C : Codec} st st' :
  disk_wf (fst st) -> closed_sound st -> rtc step st st' ->
  disk_wf (fst st') /\ disk_step (fst st) (fst st') /\ closed_sound st'.
Proof.
  intros Hw Hs H. assert (steps st st') as Hst by exact (rtc_subrel step steps _ _ step_steps H).
  split; [by eapply disk_wf_step|]. split; [done|].
  revert Hs. clear - H. induction H as [st|st1 st2 st3 H _ IH]; [done|].
  intros Hs. by apply IH, (step_sound st1).
Qed.

(** C13: the messages of a session never reuse an op id: in any run, the AIO
    messages are sent with op ids in order, each of them given out by the
    object during the run, and every op id that is sent after some point is
    larger than every op id sent before it, even if messages were cut short by
    a failing [sendall], even if the calls raised. *)
Theorem op_ids_never_reused {C : Codec} st1 st2 st3 :
  rtc step st1 st2 -> rtc step st2 st3 ->
  exists out1 out2, tx (snd st2) = tx (snd st1) ++ out1 /\ tx (snd st3) = tx (snd st2) ++ out2 /\
    StronglySorted Z.le (omap frame_op (out1 ++ out2)) /\
    Forall (fun i => _op_id (fst st1) <= i < _op_id (fst st3)) (omap frame_op (out1 ++ out2)) /\
    (forall i j, i ∈ omap frame_op out1 -> j ∈ omap frame_op out2 -> i < j).
Proof.
  intros H1 H2. apply (rtc_subrel step speaks _ _ step_speaks) in H1 as H1'.
  apply (rtc_subrel step speaks _ _ step_speaks) in H2 as H2'.
  assert (speaks st1 st3) as [(out & T & _ & So & F) _ _] by (by etrans).
  destruct H1' as [(out1 & T1 & _ & _ & F1) _ _], H2' as [(out2 & T2 & _ & _ & F2) _ _].
  rewrite T2, T1, <- app_assoc in T. apply app_inv_head in T as <-.
  exists out1, out2. split_and!; try done. rewrite Forall_forall in F1, F2.
  intros i j Hi%F1 Hj%F2. lia.
Qed.

(** Closed is final: after a disk was closed nothing is ever sent again,
    every further [close] returns at once, and every other call raises, whatever
    the peer does. *)
Theorem closed_is_final {C : Codec} {COk : CodecOk C} st st' op :
  disk_wf (fst st) -> closed_sound st -> _closed (fst st) = true -> rtc step st st' ->
  tx (snd st') = tx (snd st) /\ _closed (fst st') = true /\ closed (snd st') = true /\
  tx (snd (snd (run_op op st'))) = tx (snd st) /\
  (op = OpClose -> run_op op st' = (Ok tt, st')) /\
  (op <> OpClose -> exists e, fst (run_op op st') = Raise e).
Proof.
  intros Hw Hs Hcl H. assert (closed (snd st) = true) as Hso by by apply Hs.
  assert (steps st st') as Hst by exact (rtc_subrel step steps _ _ step_steps H).
  apply (rtc_subrel step speaks _ _ step_speaks) in H as [(out & T & N & _) _ Hc].
  rewrite N, app_nil_r in T by done. destruct st' as [d' s']. cbn [fst snd] in *.
  assert (_closed d' = true) as Hcl' by by apply Hst. specialize (Hc Hso).
  split_and!; [done..| | |].
  - pose proof (speaks_run_op op (d', s')) as [(out' & T' & N' & _) _ _]. cbn [fst snd] in *.
    by rewrite T', N', app_nil_r.
  - intros ->. unfold run_op. by rewrite close_unfold, Hcl'.
  - intros Hop. apply run_op_closed; [done| |done].
    apply (disk_wf_step _ _ Hst) in Hw. apply wf_sector in Hw. cbn [fst] in Hw. lia.
Qed.

(** * Witnesses *)

(** A write that the server does not answer, then a close. *)
Definition life0 : NfcDisk * sock := (lab_disk, lab_sock []).
Definition life1 : NfcDisk * sock := snd (@run_op lab_codec (OpWrite 0 2 (zeros 1024)) life0).
Definition life2 : NfcDisk * sock := snd (@run_op lab_codec OpClose life1).

Lemma life_run1 : rtc (@step lab_codec) life0 life1.
Proof. apply rtc_once, (@step_call lab_codec (OpWrite 0 2 (zeros 1024))). Defined.

Lemma life_run2 : rtc (@step lab_codec) life1 life2.
Proof. apply rtc_once, (@step_call lab_codec OpClose). Defined.

Lemma life_run : rtc (@step lab_codec) life0 life2.
Proof. etrans; [exact life_run1|exact life_run2]. Defined.

Lemma life0_sound : closed_sound life0.
Proof. done. Qed.

Lemma session_invariant_witness :
  _closed (fst life2) = true /\ disk_wf (fst life2) /\ disk_step (fst life0) (fst life2) /\
  closed_sound life2.
Proof.
  split; [vm_compute; reflexivity|].
  apply (@session_invariant lab_codec life0 life2 lab_disk_wf life0_sound).
  exact life_run.
Defined.

Lemma op_ids_never_reused_witness :
  omap frame_op (tx (snd life2)) = [4; 5] /\
  exists out1 out2, tx (snd life1) = [] ++ out1 /\ tx (snd life2) = tx (snd life1) ++ out2 /\
    StronglySorted Z.le (omap frame_op (out1 ++ out2)) /\
    Forall (fun i => 4 <= i < _op_id (fst life2)) (omap frame_op (out1 ++ out2)) /\
    (forall i j, i ∈ omap frame_op out1 -> j ∈ omap frame_op out2 -> i < j).
Proof.
  split; [vm_compute; reflexivity|].
  exact (@op_ids_never_reused lab_codec life0 life1 life2 life_run1 life_run2).
Defined.

Lemma closed_is_final_witness :
  exists e, fst (@run_op lab_codec (OpRead 0 1) life2) = Raise e.
Proof.
  apply (@closed_is_final lab_codec lab_codec_ok life2 life2 (OpRead 0 1)).
  - apply (@session_invariant lab_codec life0 life2 lab_disk_wf life0_sound).
    exact life_run.
  - intros _. vm_compute. reflexivity.
  - vm_compute. reflexivity.
  - apply rtc_refl.
  - discriminate.
Defined.
