(* ===== verification/HandleTheorems.v ===== *)
(** Properties of the VDDK-shaped handle: what the two [with] blocks release,
    what is checked before anything is sent, and what an open returns. *)
From Stdlib Require Import ZArith Lia String.
From stdpp Require Import base list numbers sets.
From coqutil Require Import Byte.
From S2P Require Import Prelude Python PyStr Socket Codec Fastlz Wire Disk DiskRead DiskWrite OpenDisk World Thumbprint Lab Authd NfcSocket Vim Session AuthTheorems Handle Scope.

(** * Specification *)

(** The objects of [w] are as they were, every socket made since is closed, but
    for [leak], and the log has ticket calls only. *)
Record left_clean (leak : option nat) (w w' : world) : Prop := {
  clean_len : (length (socks w) <= length (socks w'))%nat;
  clean_socks i : (i < length (socks w))%nat -> socks w' !! i = socks w !! i;
  clean_disks k : (k < length (disks w))%nat -> disks w' !! k = disks w !! k;
  clean_new : new_closed leak w w';
  clean_log : exists calls, log w' = log w ++ calls /\ Forall is_ticket_call calls
}.

(** The one socket the block may leave open: the ticket and the authd connection
    were had, and the setup of the duplicated socket [i] raised. *)
Definition setup_leak {E : Env} {U : Unicode} (conn : _Connection) (path : pystr) (flags : Z)
    (w : world) (i : nat) : Prop :=
  let ro := negb (Z.land flags VIXDISKLIB_FLAG_OPEN_READ_ONLY =? 0) in
  let nfc_ssl := str_eqb (c_transport_mode conn) (str "nbdssl") in
  exists t authd w1 w2 e,
    get_nfc_ticket (c_si conn) (c_vm_moref conn) None None ro (if ro then None else Some path) w =
      (Ok t, w1) /\
    connect_authd t (c_allow_untrusted conn) nfc_ssl w1 = (Ok authd, w2) /\
    socket_setup nfc_ssl w2 = inl e /\ i = length (socks w2).

(** The compression flags in the low bits of [flags]. *)
Definition wants_zlib (flags : Z) : bool := Z.testbit flags 4.
Definition wants_fastlz (flags : Z) : bool := Z.testbit flags 5.
Definition wants_skipz (flags : Z) : bool := Z.testbit flags 6.

(** * Lemmas: pure functions *)

Lemma land_compression flags :
  Z.land flags 112 = 16 * Z.b2z (wants_zlib flags) + 32 * Z.b2z (wants_fastlz flags) +
    64 * Z.b2z (wants_skipz flags).
Proof.
  unfold wants_zlib, wants_fastlz, wants_skipz.
  assert (Z.land flags 112 = Z.land (flags mod 2 ^ 7) 112) as ->.
  { rewrite <- Z.land_ones by done. rewrite <- Z.land_assoc. done. }
  rewrite <- !(Z.mod_pow2_bits_low flags 7) by done.
  pose proof (Z.mod_pos_bound flags (2 ^ 7) ltac:(done)) as H. revert H.
  generalize (flags mod 2 ^ 7). intros x Hx.
  assert (Forall (fun x => Z.land x 112 = 16 * Z.b2z (Z.testbit x 4) + 32 * Z.b2z (Z.testbit x 5) +
    64 * Z.b2z (Z.testbit x 6)) (seqZ 0 128)) as HF.
  { apply (bool_decide_unpack _). vm_compute. done. }
  rewrite Forall_forall in HF. apply HF, elem_of_seqZ. lia.
Qed.

Lemma land_read_only flags :
  Z.land flags VIXDISKLIB_FLAG_OPEN_READ_ONLY = 4 * Z.b2z (Z.testbit flags 2).
Proof.
  apply Z.bits_inj'. intros n Hn. unfold VIXDISKLIB_FLAG_OPEN_READ_ONLY.
  rewrite Z.land_spec. change 4 with (2 ^ 2). rewrite Z.mul_comm, Z.pow2_bits_eqb by done.
  rewrite <- Z.shiftl_mul_pow2 by done. rewrite Z.shiftl_spec by done.
  destruct (Z.eqb_spec 2 n) as [<-|Hne].
  - rewrite andb_true_r. by destruct (Z.testbit flags 2).
  - rewrite andb_false_r. destruct (Z_lt_le_dec n 2).
    + by rewrite Z.testbit_neg_r by lia.
    + destruct (Z.testbit flags 2); [|by rewrite Z.testbit_0_l].
      change (Z.b2z true) with (2 ^ 0). rewrite Z.pow2_bits_false by lia. done.
Qed.

#[export] Instance nfc_compression_total flags : TotalO (_nfc_compression flags).
Proof. unfold _nfc_compression, TotalO. cbv zeta. by repeat destruct (_ =? _). Qed.

#[export] Instance select_transport_total m : TotalO (_select_transport m).
Proof. unfold _select_transport, TotalO. destruct m; [|done]. by destruct (List.find _ _). Qed.

Lemma find_supported l :
  match List.find supported_transport l with
  | Some m => exists before after, l = before ++ m :: after /\ supported_transport m = true /\
      Forall (fun m' => supported_transport m' = false) before
  | None => Forall (fun m' => supported_transport m' = false) l
  end.
Proof.
  induction l as [|m l IH]; cbn [List.find]; [constructor|].
  destruct (supported_transport m) eqn:Hm.
  - exists [], l. by repeat split.
  - destruct (List.find _ l) as [m'|].
    + destruct IH as (b & a & -> & Hs & Hb). exists (m :: b), a. repeat split; [done|]. by constructor.
    + by constructor.
Qed.

(** The first element with a property is unique. *)
Lemma first_unique {T} (f : T -> bool) b b' m m' r r' :
  b ++ m :: r = b' ++ m' :: r' -> f m = true -> f m' = true ->
  Forall (fun x => f x = false) b -> Forall (fun x => f x = false) b' -> m = m'.
Proof.
  revert b'. induction b as [|x b IH]; intros [|x' b'] Heq Hm Hm' Hb Hb'; simplify_eq/=; try done.
  - inversion_clear Hb'. congruence.
  - inversion_clear Hb. congruence.
  - inversion_clear Hb. inversion_clear Hb'. eauto.
Qed.

Section Handles.
Context {E : Env} {U : Unicode}.

#[export] Instance parse_vm_moref_total v : TotalO (_parse_vm_moref v).
Proof.
  unfold _parse_vm_moref, TotalO. destruct (truthy v) as [s|]; [|done].
  destruct (split_once 61 s) as [[k x]|]; [|done]. by destruct (_ || _).
Qed.

(** * Lemmas: [connect] *)

Lemma connect_enter_run a w o w' :
  connect_enter a w = (o, w') ->
  match o with
  | Ok conn => exists w1, closed_up w w1 /\ w' = set_log (log w1 ++ [Login (c_si conn)]) w1
  | Raise _ => closed_up w w'
  | OutOfFuel => False
  end.
Proof.
  unfold connect_enter. intros H.
  destruct (_select_transport _) as [tm|e|] eqn:E1.
  2: { injection H as <- <-. apply closed_up_refl. }
  2: { by apply select_transport_total in E1. }
  rewrite (lift_bind (Ok tm) _ _ tm) in H by done.
  destruct (_parse_vm_moref _) as [vm|e|] eqn:E2.
  2: { injection H as <- <-. apply closed_up_refl. }
  2: { by apply parse_vm_moref_total in E2. }
  rewrite (lift_bind (Ok vm) _ _ vm) in H by done.
  apply bind_inv in H as [(si & w2 & E3 & H)|[(e & E3 & ->)|[E3 ->]]];
    apply connect_vim_run in E3 as (w1 & Hc & Hw); [|by subst w1|done].
  injection H as <- <-. by exists w1.
Qed.

(** * Lemmas: [open] *)

(** What [open_enter] leaves for the body of the block. *)
Record entered (conn : _Connection) (a : open_args) (h : _DiskHandle) (w w' : world) : Prop := {
  ent_mode : h_transport_mode h = c_transport_mode conn;
  ent_disk : h_disk h = length (disks w) /\ length (disks w') = S (length (disks w));
  ent_authd : (length (socks w) <= h_authd_sock h < length (socks w'))%nat;
  ent_sock : (length (socks w) <= snd (disk_at (h_disk h) w') < length (socks w'))%nat;
  ent_fresh : h_authd_sock h <> snd (disk_at (h_disk h) w');
  ent_opened : exists n m, fst (disk_at (h_disk h) w') = opened_disk a n m;
  ent_wf : disk_wf (fst (disk_at (h_disk h) w'));
  ent_old i : (i < length (socks w))%nat -> socks w' !! i = socks w !! i;
  ent_old_disk k : (k < length (disks w))%nat -> disks w' !! k = disks w !! k;
  ent_closed i : (length (socks w) <= i < length (socks w'))%nat -> i <> h_authd_sock h ->
    i <> snd (disk_at (h_disk h) w') -> closed (sock_at i w') = true
}.

(** From the authd socket to the handle. *)
Lemma open_disk_enter session a conn w0 w o w' :
  new_closed (Some (s_authd_sock session)) w0 w -> keeps w0 w ->
  (length (socks w0) <= s_authd_sock session < length (socks w))%nat ->
  closing_on_error (s_authd_sock session) (open_disk session a) w = (o, w') ->
  log w' = log w0 /\
  match o with
  | Ok k => entered conn a (mkDiskHandle k (s_authd_sock session) (c_transport_mode conn)) w0 w'
  | Raise _ => keeps w0 w' /\ exists leak, new_closed leak w0 w' /\
      (leak = None \/ leak = Some (length (socks w)) /\
        exists e, socket_setup (s_nfc_ssl session) w = inl e)
  | OutOfFuel => False
  end.
Proof.
  intros Hnc [L0 S0 D0 G0] Hi H.
  apply closing_inv in H as [(k & -> & H)|[(e & e0 & w3 & -> & H & T & Hc)|[-> H]]];
    apply open_disk_run in H as (L1 & S1 & G1 & Hm); [| |done].
  - destruct Hm as (d & i & s & s' & -> & Hd & Hi' & Hn & Hck & Hs & Hsa).
    assert (disk_at (length (disks w)) w' = (d, i)) as Hat.
    { unfold disk_at. by rewrite Hd, lookup_app_r, Nat.sub_diag by done. }
    split; [congruence|]. split; cbn [h_transport_mode h_disk h_authd_sock]; rewrite ?Hat;
      cbn [fst snd]; try done.
    + rewrite Hd, length_app, D0. simpl. lia.
    + lia.
    + lia.
    + lia.
    + apply open_session_inv in Hs as (_ & _ & h & n & _ & _ & ->). by exists h, n.
    + by eapply opened_disk_wf.
    + intros j Hj. rewrite S1 by lia. by apply S0.
    + intros j Hj. by rewrite Hd, D0, lookup_app_l.
    + intros j Hj Hja Hjs. destruct (decide (j < length (socks w))%nat).
      * unfold sock_at. rewrite S1 by done. apply Hnc; [lia|congruence].
      * apply Hn; [lia|congruence].
  - destruct Hm as [D1 Hn], T as [L S D G]. split; [congruence|].
    split; [split; [lia| |congruence..]|].
    { intros j Hj. rewrite S, S1 by lia. by apply S0. }
    assert (exists leak, new_closed leak w w3 /\ (leak = None \/ leak = Some (length (socks w)) /\
      exists e, socket_setup (s_nfc_ssl session) w = inl e)) as (leak & Hn' & Hleak).
    { destruct Hn as [Hn|[Hset Hn]]; eauto 6. }
    exists leak. split; [|done]. intros j Hj Hjl. destruct (decide (j = s_authd_sock session)) as [->|Hne]; [apply Hc; lia|].
    unfold sock_at. rewrite S by congruence.
    destruct (decide (j < length (socks w))%nat).
    + rewrite S1 by done. apply Hnc; [lia|congruence].
    + apply Hn'; [lia|done].
Qed.

(** The arguments of an open that passed the checks. *)
Definition checked_args (disk_path : pystr) (flags bs bc : Z) (compression : Z) : open_args :=
  handle_open_args disk_path (negb (Z.land flags VIXDISKLIB_FLAG_OPEN_READ_ONLY =? 0)) compression
    bs bc.

Lemma left_clean_refl w : left_clean None w w.
Proof.
  split; [done..| |exists []; by rewrite app_nil_r]. intros i Hi. lia.
Qed.

(** Ticket calls, then a step that kept everything and closed what it made. *)
Lemma left_clean_ticket leak w w1 w2 :
  logs is_ticket_call w w1 -> keeps w1 w2 -> new_closed leak w1 w2 ->
  disks w2 = disks w /\ left_clean leak w w2.
Proof.
  intros [S1 D1 (evs & G1 & F1)] [L2 S2 D2 G2] N2. split; [congruence|]. split.
  - by rewrite <- S1.
  - intros i Hi. rewrite S2, S1 by (by rewrite S1). done.
  - intros k _. by rewrite D2, D1.
  - intros i Hi. apply N2. by rewrite S1.
  - exists evs. split; [congruence|done].
Qed.

Lemma open_enter_run conn path flags bs bc w o w' :
  open_enter conn path flags bs bc w = (o, w') ->
  match o with
  | Ok h => exists compression c, _nfc_compression flags = Ok compression /\
      (c_read_only conn = true -> Z.land flags VIXDISKLIB_FLAG_OPEN_READ_ONLY <> 0) /\
      entered conn (checked_args path flags bs bc compression) h w w' /\
      log w' = log w ++ [TicketCall c] /\
      ticket_call_for (c_vm_moref conn) None (oa_read_only (checked_args path flags bs bc compression))
        (if oa_read_only (checked_args path flags bs bc compression) then None else Some path) c
  | Raise _ => disks w' = disks w /\ exists leak, left_clean leak w w' /\
      (leak = None \/ exists i, leak = Some i /\ setup_leak conn path flags w i)
  | OutOfFuel => False
  end.
Proof.
  assert (exists leak, left_clean leak w w /\
    (leak = None \/ exists i, leak = Some i /\ setup_leak conn path flags w i)) as Hrefl.
  { exists None. split; [apply left_clean_refl|by left]. }
  unfold open_enter. intros H. destruct (_nfc_compression flags) as [cmp|e|] eqn:Ec.
  2: { by injection H as <- <-. }
  2: { by apply nfc_compression_total in Ec. }
  rewrite (lift_bind (Ok cmp) _ _ cmp) in H by done. cbv zeta in H.
  change (negb (Z.land flags VIXDISKLIB_FLAG_OPEN_READ_ONLY =? 0)) with
    (oa_read_only (checked_args path flags bs bc cmp)) in H.
  change (handle_open_args path _ cmp bs bc) with (checked_args path flags bs bc cmp) in H.
  set (a := checked_args path flags bs bc cmp) in *.
  set (ro := oa_read_only a) in *. destruct (negb ro && c_read_only conn) eqn:Hro.
  { by injection H as <- <-. }
  rewrite (bind_ok _ _ _ tt w) in H by done.
  set (req := get_nfc_ticket _ _ _ _ _ _) in H.
  assert (Frame (logs is_ticket_call) req) as Hf by apply _.
  assert (Total req) as Ht by apply _. specialize (Hf w). specialize (Ht w).
  apply bind_inv in H as [(t & w1 & E1 & H)|[(e & E1 & ->)|[E1 ->]]]; rewrite E1 in Hf, Ht;
    cbn [fst snd] in *; [| |done].
  2: { destruct (left_clean_ticket None w w' w' Hf); [by apply touch_keeps..|]. eauto. }
  pose proof (fun leak w2 => left_clean_ticket leak w w1 w2 Hf) as Hclean. destruct Hf as [S1 D1 _].
  apply bind_inv in H as [(i & w2 & E2 & H)|[(e & E2 & ->)|[E2 ->]]];
    pose proof E2 as Ea; apply connect_authd_sockets in E2 as [K2 Hm]; [|destruct (Hclean None w'); eauto|done].
  destruct Hm as [Hi2 N2].
  apply bind_inv in H as [(k & w3 & E3 & H)|[(e & E3 & ->)|[E3 ->]]];
    apply (open_disk_enter (mkNfcAuthSession (c_si conn) t i
      (str_eqb (c_transport_mode conn) (str "nbdssl"))) a conn w1) in E3 as [G3 Hm];
    try exact N2; try done.
  2: { destruct Hm as (K3 & leak & N3 & Hl). destruct (Hclean leak w' K3 N3) as [Hd Hlc].
    split; [done|]. exists leak. split; [done|]. destruct Hl as [->|(-> & e3 & Hset)]; [by left|].
    right. eexists. split; [done|]. exists t, i, w1, w2, e3. done. }
  injection H as <- <-. apply get_nfc_ticket_run in E1 as (c & Gc & Hc).
  exists cmp, c. split; [done|]. split.
  { intros Hr. rewrite Hr in Hro. subst ro a. cbn in Hro. destruct (Z.eqb_spec
      (Z.land flags VIXDISKLIB_FLAG_OPEN_READ_ONLY) 0); done. }
  split; [|split; [congruence|done]].
  destruct Hm as [M1 M2 M3 M4 M5 M6 M7 M8 M9 M10]. rewrite S1, D1 in *. by split.
Qed.
End Handles.

(** The block: the body within the handle, then [close] on every outcome. *)
Lemma with_block_clean {C : Codec} {A} conn a h (body : M world A) w0 w calls o w' :
  entered conn a h w0 w -> log w = log w0 ++ calls -> Forall is_ticket_call calls ->
  Frame (within h) body -> Total body ->
  try_finally body (close_handle h) w = (o, w') -> o <> OutOfFuel /\ left_clean None w0 w'.
Proof.
  intros [_ [Hk Hkl] Ha Hs Hf (n & m & Hd) _ Hold Holdd Hcl] Hlog Hcalls Hfr Ht H.
  specialize (Hfr w). specialize (Ht w). unfold try_finally in H.
  destruct (body w) as [ob wb]. cbn [fst snd] in *.
  pose proof (within_close h wb) as Hwc.
  destruct (close_handle h wb) as [oc wc] eqn:Ec. cbn [snd] in Hwc.
  assert (disk_sound (h_disk h) w) as Hsw.
  { split; [split; [lia|lia]|]. unfold closed_sound, lget, disk_lens. cbn [fst]. by rewrite Hd. }
  apply close_handle_run in Ec as (Ho & Hca & Hcs); [|by apply Hfr|rewrite (within_len _ _ _ Hfr); lia].
  assert (o <> OutOfFuel /\ w' = wc) as [Hoo ->].
  { destruct ob as [x|e|]; [..|done]; destruct oc; by simplify_eq. }
  split; [done|]. destruct (transitivity Hfr Hwc) as [L D N S K G _].
  rewrite (within_name _ _ _ Hfr) in Hcs. split.
  - lia.
  - intros i Hi. rewrite S by lia. by apply Hold.
  - intros k Hk'. rewrite K by lia. by apply Holdd.
  - intros i Hi _. destruct (decide (i = h_authd_sock h)) as [->|Hia]; [done|].
    destruct (decide (i = snd (disk_at (h_disk h) w))) as [->|His]; [done|].
    unfold sock_at. rewrite S by done. apply Hcl; [lia|done..].
  - exists calls. split; [congruence|done].
Qed.

(** * Properties *)

(** C15: what the [with handle.open(...)] block leaves behind.  Whatever the
    body does with the handle (any sequence of reads, writes, closes and
    exceptions) and however the server, TLS, the system or pyVmomi fail, the
    caller's sockets and disks are as they were, the only requests logged are
    ticket calls, and every socket that was made is closed at the end; the one
    exception is that the block raised because a call between [os.dup] and the
    [try] of [wrap_nfcssl_socket] did ([settimeout], [setsockopt] or
    [create_default_context], of the very socket that follows the authd
    connection), and then the duplicated socket is the only one left. *)
Theorem open_releases {E : Env} {U : Unicode} {C : Codec} {A}
    conn path flags bs bc (body : _DiskHandle -> M world A) w :
  (forall h, Frame (within h) (body h)) -> (forall h, Total (body h)) ->
  let '(o, w') := open conn path flags bs bc body w in
  o <> OutOfFuel /\ exists leak, left_clean leak w w' /\
    (leak = None \/ exists i e, leak = Some i /\ o = Raise e /\ setup_leak conn path flags w i).
Proof.
  intros Hf Ht. destruct (open conn path flags bs bc body w) as [o w'] eqn:H. unfold open in H.
  apply bind_inv in H as [(h & w1 & E1 & H)|[(e & E1 & ->)|[E1 ->]]]; apply open_enter_run in E1.
  - destruct E1 as (cmp & c & _ & _ & He & Hlog & _).
    eapply with_block_clean in H as [Ho Hc]; [eauto|exact He|exact Hlog|by repeat constructor|done..].
  - destruct E1 as (_ & leak & Hc & Hl). split; [done|]. exists leak. split; [done|].
    destruct Hl as [->|(i & -> & Hi)]; [by left|]. right. eauto.
  - done.
Qed.

(** What [open] yields: a well-formed disk with the requested path and
    the compression of the flags, over two distinct new sockets that are the
    only new ones open; the ticket that was asked for is the read-only ticket
    of the VM, or, for a writable open of a writable connection, the random
    access ticket of the device that holds the path. *)
Theorem open_returns {E : Env} {U : Unicode} conn path flags bs bc w h w' :
  open_enter conn path flags bs bc w = (Ok h, w') ->
  exists compression n m c, _nfc_compression flags = Ok compression /\
    fst (disk_at (h_disk h) w') =
      opened_disk (checked_args path flags bs bc compression) n m /\
    disk_wf (fst (disk_at (h_disk h) w')) /\
    h_authd_sock h <> snd (disk_at (h_disk h) w') /\
    (forall i, (length (socks w) <= i < length (socks w'))%nat -> i <> h_authd_sock h ->
       i <> snd (disk_at (h_disk h) w') -> closed (sock_at i w') = true) /\
    log w' = log w ++ [TicketCall c] /\
    (if Z.testbit flags 2 then c = GetVmFiles (c_vm_moref conn)
     else c_read_only conn = false /\ exists key host t devices,
       c = RandomAccessOpen (c_vm_moref conn) key host /\
       env_devices t (c_vm_moref conn) = inr devices /\ find_disk_key devices path = Some key).
Proof.
  intros (cmp & c & Hcmp & Hro & [_ _ _ _ Hne (n & m & Hd) Hwf _ _ Hcl] & Hlog & Hc)%open_enter_run.
  exists cmp, n, m, c. do 6 (split; [done|]).
  unfold checked_args, handle_open_args in Hc. cbn [oa_read_only] in Hc.
  rewrite land_read_only in Hc, Hro. destruct (Z.testbit flags 2); cbn [Z.b2z Z.mul Z.eqb negb] in *.
  - exact Hc.
  - split; [destruct (c_read_only conn); [by destruct (Hro eq_refl)|done]|].
    destruct Hc as (k & host & -> & t & ds & Hds & Hk). by exists k, host, t, ds.
Qed.

(** C16: [connect] logs out exactly once if it logged in, and never otherwise:
    the log is empty if a check or the login fails, and a login, the ticket
    calls of the body and one logout of the same session if the body runs,
    whether the body returns or raises. *)
Theorem connect_logs_out {E : Env} {U : Unicode} {A} a (body : _Connection -> M world A) w :
  (forall conn w1, exists calls, log (snd (body conn w1)) = log w1 ++ calls /\
     Forall is_ticket_call calls) ->
  (forall conn, Total (body conn)) ->
  let '(o, w') := connect a body w in
  o <> OutOfFuel /\
  exists evs, log w' = log w ++ evs /\ live_sessions evs = [] /\
    (evs = [] /\ (forall x, o <> Ok x) \/
     exists si calls, evs = Login si :: calls ++ [Logout si] /\ Forall is_ticket_call calls).
Proof.
  intros Hb Ht. destruct (connect a body w) as [o w'] eqn:H. unfold connect in H.
  apply bind_inv in H as [(conn & w1 & E1 & H)|[(e & E1 & ->)|[E1 ->]]];
    apply connect_enter_run in E1; [|destruct E1 as [K _]|done].
  2: { split; [done|]. exists []. rewrite app_nil_r. split; [apply K|]. split; [done|].
       left. by split. }
  destruct E1 as (w0 & [K _] & ->). unfold try_finally, disconnect in H.
  set (w1 := set_log _ w0) in *. destruct (Hb conn w1) as (calls & G & F).
  specialize (Ht conn w1). destruct (body conn w1) as [ob wb]. cbn [fst snd] in *.
  destruct (Disconnect_run (c_si conn) wb) as (od & wd & Ed & Hod & _ & _ & Gd).
  assert (o <> OutOfFuel /\ w' = wd) as [Ho ->].
  { rewrite Ed in H. destruct ob as [x|e|]; [..|done]; destruct od; by simplify_eq. }
  split; [done|]. exists (Login (c_si conn) :: calls ++ [Logout (c_si conn)]).
  split; [|split; [by apply live_after_logout|right; by eexists _, _]].
  rewrite Gd, G. cbn [log w1 set_log]. rewrite (keep_log _ _ K). by rewrite <- !app_assoc.
Qed.

(** What the flags and the connection rule out is refused before anything
    is sent: an open with a compression the code does not have, or for write
    over a read-only connection, and a connect with no transport the code has
    or without a VM, raise and leave the world exactly as it was. *)
Theorem checks_come_first {E : Env} {U : Unicode} {C : Codec} {A} (body : _DiskHandle -> M world A)
    {B} (block : _Connection -> M world B) conn path flags bs bc a w :
  (wants_zlib flags || wants_skipz flags ||
     (negb (Z.testbit flags 2) && c_read_only conn) = true ->
   open conn path flags bs bc body w = (Raise ENotImplementedError, w)) /\
  (_select_transport (ca_transport_modes a) = Raise ENotImplementedError ->
   connect a block w = (Raise ENotImplementedError, w)) /\
  (truthy (ca_vmx_spec a) = None -> exists e, connect a block w = (Raise e, w)).
Proof.
  split; [|split].
  - intros H. unfold open, open_enter. unfold _nfc_compression.
    change (Z.lor (Z.lor VIXDISKLIB_FLAG_OPEN_COMPRESSION_ZLIB
      VIXDISKLIB_FLAG_OPEN_COMPRESSION_FASTLZ) VIXDISKLIB_FLAG_OPEN_COMPRESSION_SKIPZ) with 112.
    rewrite land_compression, land_read_only. revert H.
    destruct (wants_zlib flags), (wants_fastlz flags), (wants_skipz flags),
      (Z.testbit flags 2), (c_read_only conn); done.
  - intros H. unfold connect, connect_enter. by rewrite H.
  - intros H. unfold connect, connect_enter, _parse_vm_moref. rewrite H.
    pose proof (select_transport_total (ca_transport_modes a)) as Ht.
    destruct (_select_transport _) as [m|e|]; [..|done]; eauto.
Qed.

(** [_nfc_compression] accepts exactly the open flags without compression
    and those with FASTLZ alone, whatever the other bits are. *)
Theorem nfc_compression_spec flags :
  _nfc_compression flags =
    match wants_zlib flags, wants_fastlz flags, wants_skipz flags with
    | false, false, false => Ok NFC_COMPRESSION_NONE
    | false, true, false => Ok NFC_COMPRESSION_FASTLZ
    | _, _, _ => Raise ENotImplementedError
    end.
Proof.
  unfold _nfc_compression.
  change (Z.lor (Z.lor VIXDISKLIB_FLAG_OPEN_COMPRESSION_ZLIB
    VIXDISKLIB_FLAG_OPEN_COMPRESSION_FASTLZ) VIXDISKLIB_FLAG_OPEN_COMPRESSION_SKIPZ) with 112.
  rewrite land_compression.
  by destruct (wants_zlib flags), (wants_fastlz flags), (wants_skipz flags).
Qed.

(** [_select_transport] picks the first entry of the colon-separated list
    that is [nbdssl] or [nbd], and refuses the list exactly when it has none;
    without a list it is [nbdssl]. *)
Theorem select_transport_spec modes :
  _select_transport None = Ok (str "nbdssl") /\
  (forall m, _select_transport (Some modes) = Ok m <->
     exists before after, split_all 58 modes = before ++ m :: after /\
       (m = str "nbdssl" \/ m = str "nbd") /\
       Forall (fun m' => m' <> str "nbdssl" /\ m' <> str "nbd") before) /\
  (_select_transport (Some modes) = Raise ENotImplementedError <->
     Forall (fun m' => m' <> str "nbdssl" /\ m' <> str "nbd") (split_all 58 modes)).
Proof.
  split; [done|]. unfold _select_transport.
  pose proof (find_supported (split_all 58 modes)) as H. revert H.
  generalize (split_all 58 modes). intros l H.
  assert (forall m, supported_transport m = true <-> m = str "nbdssl" \/ m = str "nbd") as Hyes.
  { intros m. unfold supported_transport. by rewrite orb_true_iff, !str_eqb_eq. }
  assert (forall m, supported_transport m = false <-> m <> str "nbdssl" /\ m <> str "nbd") as Hno.
  { intros m. unfold supported_transport. by rewrite orb_false_iff, !str_eqb_neq. }
  assert (forall l, Forall (fun m' => supported_transport m' = false) l <->
    Forall (fun m' => m' <> str "nbdssl" /\ m' <> str "nbd") l) as HnoF.
  { intros l'. apply Forall_iff, Hno. }
  setoid_rewrite <- Hyes. setoid_rewrite <- HnoF.
  destruct (List.find _ l) as [m0|].
  - destruct H as (b & r & -> & Hs & Hb). split.
    + intros m. split.
      * intros [= <-]. by exists b, r.
      * intros (b' & r' & Heq & Hs' & Hb'). f_equal.
        by eapply first_unique.
    + split; [done|]. intros HF%Forall_app. destruct HF as [_ HF]. inversion_clear HF. congruence.
  - split; [|done]. intros m. split; [done|]. intros (b & r & -> & Hs & _).
    apply Forall_app in H as [_ HF]. inversion_clear HF. congruence.
Qed.

(** [_parse_vm_moref] takes a bare reference as it is, and the value of
    [moref=value], in any case, up to the end even if it holds another [=];
    every other [kind=value], an empty value and an empty specification are
    refused. *)
Theorem parse_vm_moref_spec {U : Unicode} {UOk : UnicodeOk U} kind value s :
  (s <> [] -> 61 ∉ s -> _parse_vm_moref (Some s) = Ok s) /\
  (61 ∉ kind -> _parse_vm_moref (Some (kind ++ 61 :: value)) =
     if bool_decide (str_lower kind = str "moref" /\ value <> []) then Ok value
     else Raise EValueError) /\
  _parse_vm_moref None = Raise EValueError /\ _parse_vm_moref (Some []) = Raise EValueError.
Proof.
  split; [|split; [|done]].
  - intros Hs He. unfold _parse_vm_moref. destruct s as [|c s]; [done|]. cbn [truthy].
    by rewrite (proj2 (split_once_none 61 (c :: s)) He).
  - intros Hk. unfold _parse_vm_moref.
    assert (truthy (Some (kind ++ 61 :: value)) = Some (kind ++ 61 :: value)) as -> by by destruct kind.
    rewrite split_once_app by done. unfold str_eqb.
    destruct (bool_decide_reflect (str_lower kind = str "moref")) as [Hl|Hl],
      (bool_decide_reflect (value = [])) as [Hv|Hv]; cbn [negb orb];
      [rewrite bool_decide_false by tauto|rewrite bool_decide_true by tauto
      |rewrite bool_decide_false by tauto..]; done.
Qed.

(** C40: [write] of the handle cuts the caller's buffer to 512-byte sectors
    whatever the disk's sector size is, so on a disk with larger sectors every
    write is refused and nothing is sent. *)
Theorem write_large_sectors {C : Codec} h start n buf w :
  512 < sector_size (fst (disk_at (h_disk h) w)) -> 1 <= n ->
  write_handle h start n buf w = (Raise EValueError, w).
Proof.
  intros Hs Hn. unfold write_handle, on_disk, zoom.
  set (d := fst (disk_at (h_disk h) w)) in *. pose (s := sock_at (snd (disk_at (h_disk h) w)) w).
  change (lget w) with (d, s).
  assert (lput (Lens := disk_lens (h_disk h)) (d, s) w = w) as Hp by exact (disk_lput_lget (h_disk h) w).
  assert (write start n (py_slice 0 (n * VIXDISKLIB_SECTOR_SIZE) buf) (d, s) =
    (Raise EValueError, (d, s))) as ->.
  { unfold write. rewrite (bind_ok _ _ _ tt (d, s)) by (apply raise_when_false; lia).
    rewrite (bind_ok _ _ _ d (d, s)) by done.
    assert (len (py_slice 0 (n * VIXDISKLIB_SECTOR_SIZE) buf) <> n * sector_size d) as Hl.
    { unfold py_slice, VIXDISKLIB_SECTOR_SIZE. rewrite (proj2 (Z.ltb_ge (n * 512) 0)) by lia.
      pose proof (len_slice_le 0 (n * 512) buf). nia. }
    unfold raise_when. by destruct (Z.eqb_spec (len (py_slice 0 (n * VIXDISKLIB_SECTOR_SIZE) buf))
      (n * sector_size d)). }
  by rewrite Hp.
Qed.

(** The [with session: ...] block of an [NfcAuthSession] ends with its
    socket closed and its VIM session logged out once more than the body did,
    whether the body returns or raises and whichever of the two steps of
    [close] raises. *)
Theorem session_block_releases {E : Env} {A} session (body : NfcAuthSession -> M world A) w :
  (s_authd_sock session < length (socks w))%nat -> Total (body session) ->
  (length (socks w) <= length (socks (snd (body session w))))%nat ->
  let '(o, w') := with_session session body w in
  o <> OutOfFuel /\ closed (sock_at (s_authd_sock session) w') = true /\
  log w' = log (snd (body session w)) ++ [Logout (s_si session)].
Proof.
  intros Hi Ht Hl. specialize (Ht w). unfold with_session, try_finally.
  destruct (body session w) as [o0 w0]. cbn [fst snd] in *.
  unfold session_close, try_finally.
  pose proof (on_sock_close (s_authd_sock session) w0 ltac:(lia)) as Hc.
  pose proof (on_sock_close_touch (s_authd_sock session) w0) as [_ _ _ Hg].
  pose proof (total_on_sock (s_authd_sock session) sock_close _ w0) as Ht1.
  destruct (on_sock _ sock_close w0) as [o1 w1]. cbn [fst snd] in *.
  destruct (Disconnect_run (s_si session) w1) as (o2 & w2 & E2 & Ho & S2 & _ & G2).
  rewrite E2. assert (closed (sock_at (s_authd_sock session) w2) = true) as Hc2
    by (unfold sock_at in *; by rewrite S2).
  destruct o0 as [x|e0|], o1 as [[]|e|], o2 as [[]|e2|]; try done; (split; [done|]); split; congruence.
Qed.

(** * Witnesses *)

Definition lab_conn : _Connection :=
  mkConnection 1 (str "vm-7") None (Some lab_thumbprint) false false (str "nbd").

(** A body that reads a sector and raises because the server has hung up. *)
Definition lab_body (h : _DiskHandle) : M world (ReadResult * bytes) :=
  with_local (zeros 512) (@read_handle lab_codec h 0 1 false false).

(** The lab's kernel works, so no socket is left. *)
Example open_releases_witness :
  let '(o, w') := @open lab_env ascii_unicode _ lab_conn (str "[ds] b.vmdk") 36 65536 1 lab_body
    world0 in
  o = Raise ENfcProtocolError /\ length (socks w') = 3%nat /\ left_clean None world0 w'.
Proof.
  pose proof (@open_releases lab_env ascii_unicode lab_codec _ lab_conn
    (str "[ds] b.vmdk") 36 65536 1 lab_body world0
    (fun h => @within_read lab_codec h 0 1 false false (zeros 512))
    (fun h => with_local_total _ _ (@read_handle_total lab_codec lab_codec_ok h 0 1 false false))) as H.
  assert (fst (@open lab_env ascii_unicode _ lab_conn (str "[ds] b.vmdk") 36 65536 1 lab_body
    world0) = Raise ENfcProtocolError) as E1 by (vm_compute; reflexivity).
  assert (length (socks (snd (@open lab_env ascii_unicode _ lab_conn (str "[ds] b.vmdk") 36 65536 1
    lab_body world0))) = 3%nat) as E2 by (vm_compute; reflexivity).
  destruct (open _ _ _ _ _ _ _) as [o w']. split; [exact E1|]. split; [exact E2|].
  destruct H as (_ & leak & Hc & [-> | (i & e & _ & _ & (t & k & w1 & w2 & e1 & _ & _ & Hs & _))]);
    [exact Hc|discriminate Hs].
Defined.

Definition lab_entered : outcome _DiskHandle * world :=
  @open_enter lab_env ascii_unicode lab_conn (str "[ds] b.vmdk") 32 65536 1 world0.

Example open_returns_witness :
  exists c, log (snd lab_entered) = [TicketCall c] /\
    c_read_only lab_conn = false /\ exists key host t devices,
       c = RandomAccessOpen (str "vm-7") key host /\
       @env_devices lab_env t (str "vm-7") = inr devices /\
       find_disk_key devices (str "[ds] b.vmdk") = Some key.
Proof.
  destruct (@open_returns lab_env ascii_unicode lab_conn (str "[ds] b.vmdk") 32 65536 1
    world0 (mkDiskHandle 0 1 (str "nbd")) (snd lab_entered) ltac:(vm_compute; reflexivity))
    as (cmp & n & m & c & _ & _ & _ & _ & _ & Hlog & Hc).
  exists c. split; [exact Hlog|exact Hc].
Defined.

Definition lab_connect_args : connect_args :=
  mkConnectArgs (str "vc") (Some lab_thumbprint) (str "u") (str "p") (Some (str "moref=vm-7")) None
    true None 443 false.

(** The body raises: the session is logged out all the same. *)
Example connect_logs_out_witness :
  let '(o, w') := @connect lab_env ascii_unicode unit lab_connect_args
    (fun _ => raise EValueError) world0 in
  log w' = [Login 1; Logout 1] /\ o <> OutOfFuel.
Proof.
  pose proof (@connect_logs_out lab_env ascii_unicode unit lab_connect_args
    (fun _ => raise EValueError) world0
    ltac:(intros conn w1; exists []; split; [by rewrite app_nil_r|constructor])
    ltac:(intros conn w1; done)) as H.
  assert (log (snd (@connect lab_env ascii_unicode unit lab_connect_args
    (fun _ => raise EValueError) world0)) = [Login 1; Logout 1]) as E by (vm_compute; reflexivity).
  destruct (connect _ _ _) as [o w']. split; [exact E|apply H].
Defined.

(** A writable open over a read-only connection. *)
Example checks_come_first_witness :
  @open lab_env ascii_unicode _
    (mkConnection 1 (str "vm-7") None None false true (str "nbd")) (str "d") 0 65536 1 lab_body world0 =
    (Raise ENotImplementedError, world0).
Proof.
  apply (proj1 (@checks_come_first lab_env ascii_unicode lab_codec _ lab_body unit
    (fun _ => mret tt) (mkConnection 1 (str "vm-7") None None false true (str "nbd")) (str "d") 0
    65536 1 lab_connect_args world0)).
  reflexivity.
Defined.

Example parse_vm_moref_spec_witness :
  @_parse_vm_moref ascii_unicode (Some (str "MoRef=vm-7=x")) = Ok (str "vm-7=x").
Proof.
  transitivity (if bool_decide (@str_lower ascii_unicode (str "MoRef") = str "moref" /\
    str "vm-7=x" <> []) then Ok (str "vm-7=x") else Raise EValueError).
  - apply (proj1 (proj2 (@parse_vm_moref_spec ascii_unicode ascii_unicode_ok (str "MoRef")
      (str "vm-7=x") (str "vm-7")))).
    by apply (bool_decide_unpack _).
  - by rewrite bool_decide_true by (split; [vm_compute; reflexivity|done]).
Defined.

Definition lab_4k_world : world :=
  World 0 [lab_sock []] [(init_disk (str "d") 77 4096 0 65536 1, 0%nat)] [] false [].

Example write_large_sectors_witness :
  @write_handle lab_codec (mkDiskHandle 0 0 (str "nbd")) 0 1 (zeros 4096) lab_4k_world =
    (Raise EValueError, lab_4k_world).
Proof. apply write_large_sectors; [vm_compute; reflexivity|lia]. Defined.

Example session_block_releases_witness :
  let '(o, w') := @with_session lab_env unit (mkNfcAuthSession 1 lab_ticket 0 false)
    (fun _ => raise EValueError) world1 in
  o <> OutOfFuel /\ closed (sock_at 0 w') = true /\ log w' = [] ++ [Logout 1].
Proof.
  apply (@session_block_releases lab_env unit (mkNfcAuthSession 1 lab_ticket 0 false)
    (fun _ => raise EValueError) world1).
  - vm_compute. lia.
  - done.
  - vm_compute. lia.
Defined.
