(* ===== verification/Run.v ===== *)
(** Runs that succeed, on the world: what a call does to the socket objects, the
    disk objects and the log when every environment call it makes returns.
    [runs m v a v'] is a triple: from every world that looks like [v] the call
    returns [a] and leaves a world that looks like [v']. *)
From Stdlib Require Import ZArith Lia String.
From stdpp Require Import base list numbers sets.
From coqutil Require Import Byte.
From S2P Require Import Prelude Python PyStr Socket Codec Wire Disk DiskTheorems DiskRead DiskWrite OpenDisk NfcTypes World Thumbprint Authd NfcSocket Vim Session Handle Scope.

(** What can be seen of a world: everything but the count of calls and the
    registry. *)
Record view := View {
  v_socks : list sock;
  v_disks : list (NfcDisk * nat);
  v_log : list event
}.

Section Runs.
Context {E : Env} {U : Unicode}.

(** If the flag is set then pyVmomi knows the type. *)
Definition ready (w : world) : Prop :=
  types_registered w = true -> forall n, env_get_vmodl_type n (registry w) = inr tt.

Record sees (v : view) (w : world) : Prop := {
  sees_socks : socks w = v_socks v;
  sees_disks : disks w = v_disks v;
  sees_log : log w = v_log v;
  sees_ready : ready w
}.

Definition runs {A} (m : M world A) (v : view) (a : A) (v' : view) : Prop :=
  forall w, sees v w -> exists w', m w = (Ok a, w') /\ sees v' w'.

(** * Lemmas: statements *)

Lemma runs_ret {A} (a : A) v : runs (mret a) v a v.
Proof. intros w H. by exists w. Qed.

Lemma runs_bind {A B} (m : M world A) (k : A -> M world B) v v1 v2 a b :
  runs m v a v1 -> runs (k a) v1 b v2 -> runs (m ≫= k) v b v2.
Proof.
  intros Hm Hk w H. destruct (Hm w H) as (w1 & E1 & H1). destruct (Hk w1 H1) as (w2 & E2 & H2).
  exists w2. split; [|done]. by rewrite (bind_ok _ _ _ _ _ E1).
Qed.

Lemma runs_lift {A} (o : outcome A) a v : o = Ok a -> runs (lift o) v a v.
Proof. intros -> w H. by exists w. Qed.

Lemma runs_guard b e v : b = false -> runs (raise_when b e) v tt v.
Proof. intros -> w H. by exists w. Qed.

Lemma runs_sys {A} (f : nat -> exn + A) a v : (forall n, f n = inr a) -> runs (sys f) v a v.
Proof. intros Hf w [S D L R]. exists (tock w). unfold sys. by rewrite Hf. Qed.

Lemma runs_new_sock s ss ds l :
  runs (new_sock s) (View ss ds l) (length ss) (View (ss ++ [s]) ds l).
Proof. intros w [S D L R]. cbn in *. eexists. unfold new_sock. by rewrite S. Qed.

Lemma runs_new_disk d i ss ds l :
  runs (new_disk d i) (View ss ds l) (length ds) (View ss (ds ++ [(d, i)]) l).
Proof. intros w [S D L R]. cbn in *. eexists. unfold new_disk. by rewrite D. Qed.

Lemma runs_emit e ss ds l : runs (emit e) (View ss ds l) tt (View ss ds (l ++ [e])).
Proof. intros w [S D L R]. cbn in *. eexists. unfold emit, modify. by rewrite L. Qed.

Lemma runs_on_sock {A} i (m : M sock A) a s s' ss ds l :
  ss !! i = Some s -> m s = (Ok a, s') ->
  runs (on_sock i m) (View ss ds l) a (View (<[i := s']> ss) ds l).
Proof.
  intros Hi Hm w [S D L R]. cbn in *. rewrite on_sock_run. unfold sock_at. rewrite S, Hi. cbn.
  rewrite Hm. by eexists.
Qed.

Lemma insert_here {A} (l : list A) i x y r :
  i = length l -> <[i := y]> (l ++ x :: r) = l ++ y :: r.
Proof. intros ->. induction l as [|z l IH]; [done|]. change (z :: <[length l := y]> (l ++ x :: r) = z :: (l ++ y :: r)).
  by rewrite IH. Qed.

Lemma lookup_here {A} (l : list A) i x r : i = length l -> (l ++ x :: r) !! i = Some x.
Proof. intros ->. by rewrite lookup_app_r, Nat.sub_diag by done. Qed.

(** The socket [i], in the middle of the list. *)
Lemma runs_on_sock_here {A} i (m : M sock A) a s s' ss r ds l :
  i = length ss -> m s = (Ok a, s') ->
  runs (on_sock i m) (View (ss ++ s :: r) ds l) a (View (ss ++ s' :: r) ds l).
Proof.
  intros Hi Hm. rewrite <- (insert_here ss i s s' r) by done.
  apply runs_on_sock with (s := s); [by apply lookup_here|done].
Qed.

Lemma runs_create_connection h p s ss ds l :
  (forall n, env_create_connection n h p = inr s) ->
  runs (create_connection h p) (View ss ds l) (length ss) (View (ss ++ [s]) ds l).
Proof. intros H. eapply runs_bind; [by apply runs_sys|apply runs_new_sock]. Qed.

Lemma runs_client_context v : (forall n, env_default_context n = inr tt) ->
  runs (_ssl_client_context false) v (mkSslContext false false) v.
Proof. intros H. eapply runs_bind; [by apply runs_sys|apply runs_ret]. Qed.

(** The raw socket is detached, the TLS socket is the new last one. *)
Lemma runs_wrap_socket ctx i h s s2 ss r ds l :
  i = length ss -> (forall n, env_wrap n ctx s h = inr s2) ->
  exists s', closed s' = true /\
    runs (wrap_socket ctx i h) (View (ss ++ s :: r) ds l) (length (ss ++ s :: r))
      (View (ss ++ s' :: r ++ [s2]) ds l).
Proof.
  intros -> H. set (s' := Sock (rx s) (tx s) (tx_plan s) true (close_fails s)).
  exists s'. split; [done|].
  assert (runs (on_sock (length ss) sock_detach;; new_sock s2) (View (ss ++ s :: r) ds l)
    (length (ss ++ s :: r)) (View (ss ++ s' :: r ++ [s2]) ds l)) as Hr.
  { eapply runs_bind; [by apply (runs_on_sock_here _ _ tt s s')|].
    replace (length (ss ++ s :: r)) with (length (ss ++ s' :: r)) by (by rewrite !length_app).
    rewrite (app_comm_cons r [s2] s'), app_assoc. apply runs_new_sock. }
  intros w [S D L R]. cbn in S, D, L. unfold wrap_socket.
  assert (sock_at (length ss) w = s) as -> by (unfold sock_at; by rewrite S, lookup_here).
  rewrite H. apply Hr. by split.
Qed.

Lemma runs_on_disk {A} k (m : M (NfcDisk * sock) A) a d s d' s' i ss ds l :
  ds !! k = Some (d, i) -> ss !! i = Some s -> m (d, s) = (Ok a, (d', s')) ->
  runs (on_disk k m) (View ss ds l) a (View (<[i := s']> ss) (<[k := (d', i)]> ds) l).
Proof.
  intros Hk Hi Hm w [S D L R]. cbn in *. unfold on_disk, zoom, lget, lput, disk_lens, disk_at, sock_at.
  rewrite D, Hk. cbn [from_option id fst snd]. rewrite S, Hi. cbn [from_option id]. rewrite Hm. by eexists.
Qed.

Lemma runs_try_finally {A} (m : M world A) fin v a v1 v2 :
  runs m v a v1 -> runs fin v1 tt v2 -> runs (try_finally m fin) v a v2.
Proof.
  intros Hm Hf w H. destruct (Hm w H) as (w1 & E1 & H1). destruct (Hf w1 H1) as (w2 & E2 & H2).
  exists w2. unfold try_finally. by rewrite E1, E2.
Qed.

Lemma runs_try_except {A} caught (m : M world A) h v a v' :
  runs m v a v' -> runs (try_except caught m h) v a v'.
Proof. intros Hm w H. destruct (Hm w H) as (w1 & E1 & H1). exists w1. unfold try_except. by rewrite E1. Qed.

Lemma runs_closing {A} i (m : M world A) v a v' :
  runs m v a v' -> runs (closing_on_error i m) v a v'.
Proof. apply runs_try_except. Qed.

(** The socket's [close] may raise; both are quiet. *)
Lemma runs_quiet_sock_close i s ss ds l :
  ss !! i = Some s ->
  exists s', closed s' = true /\ tx s' = tx s /\
    runs (try_except is_oserror (on_sock i sock_close) (fun _ => mret tt)) (View ss ds l) tt
      (View (<[i := s']> ss) ds l).
Proof.
  intros Hi. destruct (sock_close s) as [o s'] eqn:Es. exists s'.
  split; [by eapply sock_close_closed|].
  assert (tx s' = tx s /\ (o = Ok tt \/ o = Raise EOSError)) as [Ht Ho].
  { unfold sock_close in Es. destruct (closed s); [|destruct (close_fails s)];
      injection Es as <- <-; auto. }
  split; [done|]. intros w [S D L R]. cbn in *. unfold try_except. rewrite on_sock_run.
  unfold sock_at. rewrite S, Hi. cbn. rewrite Es. destruct Ho as [->| ->]; by eexists.
Qed.
End Runs.
