(* ===== verification/EndToEnd.v ===== *)
(** A whole session, from the login to the logout: with a vCenter, an authd
    and an NFC server that answer, the two [with] blocks of
    [openvixdisklib/openvixdisklib.py] run their body over the disk, say
    goodbye, close every socket and log out. *)
From Stdlib Require Import ZArith Lia String.
From stdpp Require Import base list numbers sets.
From coqutil Require Import Byte.
From S2P Require Import Prelude Python PyStr Socket Codec Fastlz Wire Disk DiskTheorems DiskRead ReadSpec ReadLoop ReadInto ReadCorrect DiskWrite WriteSpec Server WriteTheorems OpenDisk NfcTypes World Thumbprint Lab Authd NfcSocket Vim Session Handle Scope HandleTheorems Run.

(** * The peers *)

(** The sockets and the text of an ESXi host: the TCP connection to authd, the
    TLS socket over it, the duplicated descriptor, and the socket of the NFC
    session; authd's four lines and the client's two variable commands. *)
Record esx := mkEsx {
  x_raw : sock;
  x_authd : sock;
  x_dup : sock;
  x_nfc : sock;
  x_banner : bytes;
  x_l1 : bytes;
  x_l2 : bytes;
  x_l3 : bytes;
  x_session : bytes;
  x_proxy : bytes
}.

Definition line_ok (l : bytes) : Prop := (newline ∉ l) /\ len l < 4096.

(** The answers of authd, and what the client says to it. *)
Definition authd_lines (x : esx) : bytes :=
  (x_l1 x ++ [newline]) ++ (x_l2 x ++ [newline]) ++ (x_l3 x ++ [newline]).

Definition authd_requests (x : esx) : list bytes :=
  [x_session x; banner_command; thumbprint_command; x_proxy x].

Definition lax : ssl_context := mkSslContext false false.

Section Peers.
Context {E : Env} {U : Unicode}.

(** The certificate check is off, or the peer shows the pinned certificate. *)
Definition trusts (allow_untrusted : bool) (thumbprint : option pystr) : Prop :=
  (if allow_untrusted then None else truthy thumbprint) = None \/
  exists cert d, (forall n, env_peercert n = inr cert) /\ cert <> [] /\
    env_digest (str "sha1") cert = inr d /\
    forall ex, thumbprint = Some ex -> _normalize_thumbprint ex = hex_digits d.

(** pyVmomi knows [vim.NfcService] once it is declared; vCenter resolves the
    path, for a writable ticket, and gives the ticket [t] for the request [c]. *)
Record vcenter_serves (si : Z) (vm path : pystr) (read_only : bool) (c : nfc_call) (t : ticket) :
    Prop := {
  vc_declared n l : env_get_vmodl_type n (l ++ [nfc_service_type]) = inr tt;
  vc_stable l : (forall n, env_get_vmodl_type n l = inr tt) \/
    (forall n, exists e, env_get_vmodl_type n l = inl e);
  vc_create n : env_create_managed_type n nfc_service_type = inr tt;
  vc_request : if read_only then c = GetVmFiles vm else
    exists devices key host, (forall n, env_devices n vm = inr devices) /\
      find_disk_key devices path = Some key /\ (forall n, env_host n vm = inr host) /\
      c = RandomAccessOpen vm key host;
  vc_ticket n : env_nfc_call n si c = inr t
}.

(** The login works: the pinned certificate, if any, is the one that the
    management endpoint shows, and [SmartConnect] returns [si]. *)
Record vcenter_login (a : connect_args) (si : Z) : Prop := {
  vl_pin : (if ca_allow_untrusted a then None else truthy (ca_thumbprint a)) = None \/
    trusts (ca_allow_untrusted a) (ca_thumbprint a) /\ exists s0 s1, close_fails s1 = false /\
      (forall n, env_create_connection n (ca_server_name a) (ca_port a) = inr s0) /\
      (forall n, env_wrap n lax s0 (ca_server_name a) = inr s1);
  vl_context n : env_default_context n = inr tt;
  vl_versions : exists vs, _vim_preferred_api_versions = Ok vs;
  vl_smart n sc : sc_host sc = ca_server_name a -> env_smart_connect n sc = inr si;
  vl_logout n : env_disconnect n si = inr tt
}.

(** authd shows its banner, TLS starts after it, authd agrees to the commands,
    and the duplicated connection leads to the NFC server: in plain, or over a
    second TLS session. *)
Record esx_serves (x : esx) (t : ticket) (allow_untrusted nfc_ssl : bool) : Prop := {
  es_dial n : env_create_connection n (t_host t) (ticket_port t) = inr (x_raw x);
  es_context n : env_default_context n = inr tt;
  es_sockopt n : env_sockopt n = inr tt;
  es_raw : healthy (x_raw x) /\ exists r, flat (rx (x_raw x)) = (Some <$> x_banner x ++ [newline]) ++ r;
  es_banner : line_ok (x_banner x) /\ startswith (line_text (x_banner x)) (str "220") = true;
  es_tls n s : talk (x_banner x ++ [newline]) [] (x_raw x) s ->
    env_wrap n lax s (t_host t) = inr (x_authd x);
  es_trust : trusts allow_untrusted (t_sslThumbprint t);
  es_session : command (str "SESSION") (t_sessionId t) = Ok (x_session x);
  es_proxy : command (str "PROXY") (proxy_service t nfc_ssl) = Ok (x_proxy x);
  es_lines : Forall line_ok [x_l1 x; x_l2 x; x_l3 x];
  es_agree : (exists r1, _expect_code (line_text (x_l1 x)) (str "220") = Ok r1) /\
    (exists r2, _expect_code (line_text (x_l2 x)) (str "200") = Ok r2) /\
    (exists r3, _expect_code (line_text (x_l3 x)) (str "200") = Ok r3);
  es_authd : healthy (x_authd x) /\ exists r, flat (rx (x_authd x)) = (Some <$> authd_lines x) ++ r;
  es_dup n s : talk (authd_lines x) (authd_requests x) (x_authd x) s -> env_dup n s = inr (x_dup x);
  es_nfc : if nfc_ssl then forall n, env_wrap n lax (x_dup x) (t_host t) = inr (x_nfc x)
           else x_nfc x = x_dup x
}.

(** * Lemmas: vCenter *)

Lemma runs_get_vmodl_type v w :
  sees v w -> (forall n, env_get_vmodl_type n (registry w) = inr tt) ->
  get_vmodl_type w = (Ok tt, tock w).
Proof. intros _ H. unfold get_vmodl_type, gets, sys, mbind, M_bind. by rewrite H. Qed.

Lemma runs_nfc_service si vm path ro c t v :
  vcenter_serves si vm path ro c t -> runs (nfc_service si) v si v.
Proof.
  intros [Hd Hst Hc _ _] w H. unfold nfc_service.
  assert (exists w1, _register_nfc_types w = (Ok tt, w1) /\ sees v w1 /\
    forall n, env_get_vmodl_type n (registry w1) = inr tt) as (w1 & E1 & H1 & K1).
  { unfold _register_nfc_types, get_vmodl_type, try_except, gets, modify, sys, mbind, M_bind.
    destruct (types_registered w) eqn:Hr; [exists w; split_and!; try done; by apply H|].
    destruct H as [S D L R]. destruct (Hst (registry w)) as [K|K].
    - rewrite K. cbn. eexists. split; [done|]. split; [|exact K]. split; try done. by intros _.
    - destruct (K (tick w)) as [e ->]. cbn -[nfc_service_type]. rewrite Hc. cbn -[nfc_service_type].
      eexists. split; [done|]. split; [|intros n; apply Hd]. split; try done.
      intros _ n. apply Hd. }
  rewrite (bind_ok _ _ _ _ _ E1), (bind_ok _ _ _ _ _ (runs_get_vmodl_type v w1 H1 K1)).
  exists (tock w1). split; [done|]. destruct H1. by split.
Qed.

Lemma runs_get_nfc_ticket si vm path ro c t ss ds l :
  vcenter_serves si vm path ro c t ->
  runs (get_nfc_ticket si vm None None ro (if ro then None else Some path)) (View ss ds l) t
    (View ss ds (l ++ [TicketCall c])).
Proof.
  intros Hv. unfold get_nfc_ticket. eapply runs_bind; [by eapply runs_nfc_service|].
  destruct Hv as [_ _ _ Hc Ht].
  assert (runs (nfc_request si c) (View ss ds l) t (View ss ds (l ++ [TicketCall c]))) as Hreq.
  { unfold nfc_request. eapply runs_bind; [apply runs_emit|]. by apply runs_sys. }
  destruct ro; [by subst c|].
  destruct Hc as (devices & key & host & Hd & Hk & Hh & ->).
  eapply runs_bind; [|eapply runs_bind; [by apply runs_sys|exact Hreq]].
  unfold _virtual_disk_key. eapply runs_bind; [by apply runs_sys|]. rewrite Hk. apply runs_ret.
Qed.

(** * Lemmas: authd *)

Lemma runs_trusted {UOk : UnicodeOk U} t allow v :
  trusts allow (t_sslThumbprint t) -> runs (check_thumbprint t allow) v tt v.
Proof.
  intros H. unfold check_thumbprint. destruct (if allow then _ else _) as [ex|] eqn:Hex;
    [|apply runs_ret].
  destruct H as [?|(cert & d & Hp & Hne & Hd & Hn)]; [congruence|].
  assert (t_sslThumbprint t = Some ex) as Hex'.
  { destruct allow; [done|]. destruct (t_sslThumbprint t) as [[|c r]|]; simplify_eq/=; done. }
  eapply runs_bind; [by apply runs_sys|].
  eapply runs_bind.
  { apply runs_guard, Z.eqb_neq. destruct cert; [done|]. rewrite len_cons.
    pose proof (len_nonneg cert). lia. }
  eapply runs_bind.
  { unfold _sha1_thumbprint. eapply runs_bind; [by apply runs_sys|apply runs_ret]. }
  apply runs_guard. rewrite normalize_format, (Hn ex Hex').
  by rewrite (proj2 (str_eqb_eq _ _)).
Qed.

(** [connect_authd]: the raw socket is closed, the TLS one has had the
    conversation. *)
Lemma runs_connect_authd {UOk : UnicodeOk U} x t allow ssl ss ds l :
  esx_serves x t allow ssl ->
  exists raw1 authd1, closed raw1 = true /\ healthy authd1 /\
    talk (authd_lines x) (authd_requests x) (x_authd x) authd1 /\
    runs (connect_authd t allow ssl) (View ss ds l) (S (length ss))
      (View (ss ++ [raw1; authd1]) ds l).
Proof.
  intros [Hdial Hctx _ [Hraw [r0 Hf0]] [[Hb1 Hb2] Hb3] Htls Htr Hse Hpr Hl Hag [Hau [r1 Hf1]] _ _].
  destruct Hag as ([a1 A1] & [a2 A2] & [a3 A3]).
  destruct Hraw as [Hrc Hrp].
  destruct (exch_readline (x_banner x) Hb1 Hb2 (x_raw x) r0 Hrc Hrp Hf0) as (rawm & Er & Tr & _).
  assert (exch (authd_commands t ssl) (authd_lines x) tt (authd_requests x)) as Hex
    by by apply (exch_authd_commands t ssl _ _ _ _ _ a1 a2 a3).
  pose proof Hau as [Hac Hap]. destruct (Hex (x_authd x) r1 Hac Hap Hf1) as (authd1 & Ea & Ta & _).
  destruct (runs_wrap_socket lax (length ss) (t_host t) rawm (x_authd x) ss [] ds l eq_refl
    (fun n => Htls n rawm Tr)) as (raw1 & Hc1 & Hw).
  exists raw1, authd1. split; [done|]. split; [by eapply talk_healthy|]. split; [done|].
  unfold connect_authd. eapply runs_bind; [by apply runs_create_connection|].
  eapply runs_bind.
  { unfold authd_tls. apply runs_closing.
    eapply runs_bind; [by apply (runs_on_sock_here _ _ _ (x_raw x) rawm)|].
    eapply runs_bind; [apply runs_guard; by rewrite Hb3|].
    eapply runs_bind; [by apply runs_client_context|]. exact Hw. }
  apply runs_closing. eapply runs_bind; [by apply runs_trusted|].
  cbn [app]. change (ss ++ [raw1; x_authd x]) with (ss ++ [raw1] ++ [x_authd x]).
  rewrite app_assoc. eapply runs_bind.
  { apply (runs_on_sock_here _ _ tt _ authd1); [by rewrite !length_app|exact Ea]. }
  rewrite <- app_assoc. rewrite length_app. cbn [length app]. rewrite Nat.add_comm. apply runs_ret.
Qed.

(** The NFC socket: the last of one or two new ones; the others are closed. *)
Lemma runs_nfc_socket x t allow ssl si authd1 ss ds l :
  esx_serves x t allow ssl -> closed authd1 = false ->
  talk (authd_lines x) (authd_requests x) (x_authd x) authd1 ->
  exists mid, Forall (fun s => closed s = true) mid /\
    forall i, ss !! i = Some authd1 ->
    runs (nfc_socket (mkNfcAuthSession si t i ssl)) (View ss ds l) (length (ss ++ mid))
      (View (ss ++ mid ++ [x_nfc x]) ds l).
Proof.
  intros [_ Hctx Hso _ _ _ _ _ _ _ _ _ Hdup Hnfc] Hc Ht.
  assert (forall i, ss !! i = Some authd1 -> runs (takeover_authd_socket i) (View ss ds l)
    (length ss) (View (ss ++ [x_dup x]) ds l)) as Htake.
  { intros i Hi. unfold takeover_authd_socket. eapply (runs_bind _ _ _ (View ss ds l) _ authd1).
    { intros w Hw. exists w. split; [|done]. unfold gets, sock_at.
      rewrite (sees_socks _ _ Hw). cbn. by rewrite Hi. }
    eapply runs_bind; [by apply runs_guard|].
    eapply runs_bind; [apply runs_sys; intros n; by apply Hdup|].
    eapply runs_bind; [apply runs_new_sock|].
    eapply runs_bind; [by apply runs_sys|]. unfold _enable_tcp_nodelay.
    eapply runs_bind; [by apply runs_sys|]. apply runs_ret. }
  destruct ssl.
  - destruct (runs_wrap_socket lax (length ss) (t_host t) (x_dup x) (x_nfc x) ss [] ds l eq_refl Hnfc)
      as (dup1 & Hd1 & Hw).
    exists [dup1]. split; [by repeat constructor|]. intros i Hi. unfold nfc_socket.
    cbn [s_nfc_ssl s_authd_sock s_ticket]. unfold wrap_nfcssl_socket.
    eapply runs_bind; [by apply Htake|]. eapply runs_bind; [by apply runs_client_context|].
    apply runs_closing. rewrite length_app in Hw |- *. exact Hw.
  - exists []. split; [done|]. intros i Hi. rewrite Hnfc, app_nil_r. by apply Htake.
Qed.
End Peers.

(** * The body of the block *)

(** On a world where the disk [k] exists, [body] is the method [m] of it. *)
Definition acts {A} (k : nat) (body : M world A) (m : M (NfcDisk * sock) A) : Prop :=
  forall w, disk_exists k w -> body w = on_disk k m w.

Lemma disk_lput_lput k ds ds' w :
  disk_exists k w ->
  lput (Lens := disk_lens k) ds' (lput (Lens := disk_lens k) ds w) = lput (Lens := disk_lens k) ds' w.
Proof.
  intros [Hk Hs]. unfold lput at 1, disk_lens at 1. rewrite disk_at_insert.
  destruct ds as [d s], ds' as [d' s']. unfold lput, disk_lens, set_disks, set_socks.
  cbn [tick socks disks log types_registered registry fst snd].
  by rewrite !list_insert_insert_eq.
Qed.

Lemma disk_exists_lput k ds w : disk_exists k w -> disk_exists k (lput (Lens := disk_lens k) ds w).
Proof.
  intros [Hk Hs]. split; [cbn; by rewrite length_insert|]. rewrite disk_at_insert. cbn.
  by rewrite length_insert.
Qed.

Lemma acts_bind {A B} k (body : M world A) m (f : A -> M world B) g :
  acts k body m -> (forall a, acts k (f a) (g a)) -> acts k (body ≫= f) (m ≫= g).
Proof.
  intros Hb Hf w Hw. unfold mbind, M_bind. rewrite Hb by done. unfold on_disk, zoom.
  destruct (m (lget w)) as [[a|e|] ds] eqn:Em; [|done..].
  assert (disk_exists k (lput (Lens := disk_lens k) ds w)) as Hx by by apply disk_exists_lput.
  rewrite Hf by done. unfold on_disk, zoom. rewrite disk_lget_lput by done.
  destruct (g a ds) as [o ds']. by rewrite disk_lput_lput.
Qed.

Lemma acts_ret {A} k (a : A) : acts k (mret a) (mret a).
Proof.
  intros w Hw. unfold on_disk, zoom, mret, M_ret.
  f_equal. symmetry. apply disk_lput_lget.
Qed.

Lemma acts_lift {A} k (o : outcome A) : acts k (lift o) (lift o).
Proof. intros w Hw. unfold on_disk, zoom, lift. f_equal. symmetry. apply disk_lput_lget. Qed.

Section Body.
Context {C : Codec}.

Lemma acts_write h start n buf :
  acts (h_disk h) (write_handle h start n buf)
    (write start n (py_slice 0 (n * VIXDISKLIB_SECTOR_SIZE) buf)).
Proof. by intros w Hw. Qed.

Lemma acts_read h start n ro skip buf :
  acts (h_disk h) (with_local buf (read_handle h start n ro skip))
    (with_buffer buf (readinto start n ro skip)).
Proof.
  intros w Hw. unfold with_local, read_handle, on_disk, zoom, with_buffer.
  change (lget (Lens := buf_disk_lens (h_disk h)) (buf, w)) with
    (fst (lget (Lens := disk_lens (h_disk h)) w), (buf, snd (lget (Lens := disk_lens (h_disk h)) w))).
  destruct (readinto _ _ _ _ _) as [o [d' [b' s']]]. by destruct o.
Qed.
End Body.

(** * The NFC session *)

(** The server accepts the session: [replies] are its answers up to
    OPEN_FILE's, which gives the handle [h] and the sector size [z]. *)
Definition opens (a : open_args) (path_b replies : bytes) (h z : Z) : Prop :=
  exists hs1 hs2 hs3 b0 b1 b2 reply,
    encode_utf8 (oa_disk_path a) = Ok path_b /\ fits32 (len path_b) /\
    1 <= oa_aio_buffer_size a < 2 ^ 32 /\ 1 <= oa_aio_buffer_count a < 2 ^ 32 /\
    open_replies_ok hs1 hs2 hs3 b0 b1 b2 reply h z /\
    replies = open_replies hs1 hs2 hs3 b0 b1 b2 reply.

(** What the client says on the NFC socket, around what the body says. *)
Definition session_frames (a : open_args) (path_b : bytes) (out : list bytes) (d : NfcDisk) :
    list bytes :=
  handshake_frames NFC_PROTOCOL_VERSION (ascii "vddk") (ascii "nbdmode") ++
  open_requests a path_b ++ out ++ goodbye_requests d.

(** A conversation of the body over the disk just opened, after which the
    session can be closed. *)
Record serves {A} (a : open_args) (path_b : bytes) (m : M (NfcDisk * sock) A) (res : A)
    (out : list bytes) (d1 : NfcDisk) (s : sock) : Prop := {
  sv_healthy : healthy s;
  sv_close : can_close d1;
  sv_stream : exists replies h z bs g0 g1 rest, opens a path_b replies h z /\
    sess m (opened_disk a h z) bs res d1 out /\ fits32 (len g0) /\ fits32 (len g1) /\
    flat (rx s) = (Some <$> replies ++ bs ++ goodbye_replies (_op_id d1) g0 g1) ++ rest
}.

(** The names that [open] gives to [open_disk]. *)
Lemma handle_names :
  encode_ascii (str "vddk") = Ok (ascii "vddk") /\ encode_ascii (str "nbdmode") = Ok (ascii "nbdmode") /\
  fits32 (len (ascii "vddk")) /\ fits32 (len (ascii "nbdmode")).
Proof. split_and!; try (vm_compute; reflexivity); vm_compute; by intros. Qed.

(** Opening, the body and [close], on the NFC socket alone. *)
Lemma nfc_session {A} path flags bs bc cmp path_b (m : M (NfcDisk * sock) A) res out d1 s :
  serves (checked_args path flags bs bc cmp) path_b m res out d1 s ->
  exists d0 s0 s1 d2 s2, open_session (checked_args path flags bs bc cmp) s = (Ok d0, s0) /\
    m (d0, s0) = (Ok res, (d1, s1)) /\ close (d1, s1) = (Ok tt, (d2, s2)) /\
    tx s2 = tx s ++ session_frames (checked_args path flags bs bc cmp) path_b out d1 /\
    closed s2 = true /\ _closed d2 = true.
Proof.
  intros [Hs Hcc (replies & h & z & bytes0 & g0 & g1 & rest & Ho & Hm & Hg0 & Hg1 & Hf)].
  destruct Ho as (hs1 & hs2 & hs3 & b0 & b1 & b2 & reply & Hp & Hlp & Hbs & Hbc & Hrep & ->).
  set (a := checked_args path flags bs bc cmp) in *.
  assert (exch (open_session a) (open_replies hs1 hs2 hs3 b0 b1 b2 reply) (opened_disk a h z)
    (handshake_frames NFC_PROTOCOL_VERSION (ascii "vddk") (ascii "nbdmode") ++
     open_requests a path_b)) as Hopen.
  { destruct handle_names as (N1 & N2 & L1 & L2).
    apply exch_open_session; [exact N1|exact N2|exact Hp|exact L1|exact L2|exact Hlp|done| | |exact Hrep];
      unfold fits32; lia. }
  rewrite !fmap_app, <- !app_assoc in Hf. pose proof Hs as [Hc Hpl].
  destruct (Hopen s _ Hc Hpl Hf) as (s0 & E0 & T0 & F0).
  pose proof (talk_healthy _ _ _ _ Hs T0) as Hs0. pose proof Hs0 as [Hc0 Hp0].
  destruct (Hm s0 _ Hc0 Hp0 F0) as (s1 & E1 & T1 & F1).
  pose proof (talk_healthy _ _ _ _ Hs0 T1) as Hs1.
  destruct (close_ok d1 s1 g0 g1 rest Hcc Hg0 Hg1 Hs1 F1) as (d2 & s2 & E2 & T2 & Hc2 & Hd2).
  exists (opened_disk a h z), s0, s1, d2, s2. split_and!; try done.
  rewrite T2, (talk_tx _ _ _ _ T1), (talk_tx _ _ _ _ T0). unfold session_frames.
  by rewrite <- !app_assoc.
Qed.

(** * The two blocks *)

Lemma serves_checks {A} path flags bs bc cmp path_b (m : M (NfcDisk * sock) A) res out d1 s :
  _nfc_compression flags = Ok cmp ->
  serves (checked_args path flags bs bc cmp) path_b m res out d1 s ->
  open_disk_checks (checked_args path flags bs bc cmp) = Ok tt.
Proof.
  intros Hcmp [_ _ (replies & h & z & b & g0 & g1 & rest & Ho & _)].
  destruct Ho as (? & ? & ? & ? & ? & ? & ? & _ & _ & Hbs & Hbc & _).
  cbn [oa_aio_buffer_size oa_aio_buffer_count checked_args handle_open_args] in Hbs, Hbc.
  unfold open_disk_checks. cbn [oa_aio_buffer_size oa_aio_buffer_count oa_compression
    checked_args handle_open_args].
  rewrite !(proj2 (Z.ltb_ge _ _)) by lia. rewrite nfc_compression_spec in Hcmp.
  destruct (wants_zlib flags), (wants_fastlz flags), (wants_skipz flags); by simplify_eq.
Qed.

Section Blocks.
Context {E : Env} {U : Unicode} {UOk : UnicodeOk U} {C : Codec}.

(** The session's socket and disk object, from the authd socket on. *)
Lemma runs_open_disk session a x t allow ssl d0 s0
    authd1 ss ds l :
  esx_serves x t allow ssl -> closed authd1 = false ->
  talk (authd_lines x) (authd_requests x) (x_authd x) authd1 ->
  session = mkNfcAuthSession (s_si session) t (s_authd_sock session) ssl ->
  ss !! s_authd_sock session = Some authd1 ->
  open_disk_checks a = Ok tt -> open_session a (x_nfc x) = (Ok d0, s0) ->
  exists mid, Forall (fun s => closed s = true) mid /\
    runs (open_disk session a) (View ss ds l) (length ds)
      (View ((ss ++ mid) ++ [s0]) (ds ++ [(d0, length (ss ++ mid))]) l).
Proof.
  intros Hx Hc Ht Hse Hi Hck Ho.
  destruct (runs_nfc_socket x t allow ssl (s_si session) authd1 ss ds l Hx Hc Ht) as (mid & Hm & Hr).
  exists mid. split; [done|]. unfold open_disk. eapply runs_bind; [by apply runs_lift|].
  eapply runs_bind; [rewrite Hse; by apply Hr|]. rewrite app_assoc.
  eapply runs_bind; [apply runs_closing; by eapply runs_on_sock_here|].
  apply runs_new_disk.
Qed.

Lemma runs_acts {A} k (body : M world A) m res d s d' s' i ss ds l :
  acts k body m -> ds !! k = Some (d, i) -> ss !! i = Some s -> m (d, s) = (Ok res, (d', s')) ->
  runs body (View ss ds l) res (View (<[i := s']> ss) (<[k := (d', i)]> ds) l).
Proof.
  intros Ha Hk Hi Hm w Hw. rewrite Ha.
  - by eapply runs_on_disk.
  - destruct Hw as [S D _ _]. cbn in S, D. unfold disk_exists, disk_at. rewrite S, D, Hk. cbn.
    split; by eapply lookup_lt_Some.
Qed.

(** The end of the handle's [with] block: [close] and the authd socket.  What
    the block made stands behind. *)
Lemma runs_close_handle h d1 s1 d2 s2 authd ss1 ss2 ss3 news ds newds l :
  close (d1, s1) = (Ok tt, (d2, s2)) ->
  h_disk h = length ds -> h_authd_sock h = length ss1 -> ss3 = ss1 ++ authd :: ss2 ->
  exists authd', closed authd' = true /\ tx authd' = tx authd /\
  runs (close_handle h) (View (ss3 ++ s1 :: news) (ds ++ (d1, length ss3) :: newds) l) tt
    (View (ss1 ++ authd' :: ss2 ++ s2 :: news) (ds ++ (d2, length ss3) :: newds) l).
Proof.
  intros Hcl Hk Hi ->. set (ss3 := ss1 ++ authd :: ss2).
  assert ((ss3 ++ s2 :: news) !! h_authd_sock h = Some authd) as Hau.
  { unfold ss3. rewrite <- app_assoc. by apply lookup_here. }
  destruct (runs_quiet_sock_close (h_authd_sock h) authd (ss3 ++ s2 :: news)
    (ds ++ (d2, length ss3) :: newds) l Hau) as (authd' & Hc' & Ht' & Hr').
  exists authd'. split; [done|]. split; [done|]. unfold close_handle.
  assert (ss1 ++ authd' :: ss2 ++ s2 :: news = <[h_authd_sock h := authd']> (ss3 ++ s2 :: news)) as ->.
  { unfold ss3. rewrite <- app_assoc. cbn [app]. by rewrite insert_here. }
  eapply runs_try_finally; [|exact Hr'].
  assert (ss3 ++ s2 :: news = <[length ss3 := s2]> (ss3 ++ s1 :: news)) as -> by by rewrite insert_here.
  assert (ds ++ (d2, length ss3) :: newds =
    <[length ds := (d2, length ss3)]> (ds ++ (d1, length ss3) :: newds)) as -> by by rewrite insert_here.
  rewrite Hk. eapply runs_on_disk; [by apply lookup_here|by apply lookup_here|exact Hcl].
Qed.

(** [open] with any body: [body] takes the NFC socket and the disk object from
    [s0], [d0] to [s1], [d1], may change what was there before and may leave new
    objects, of which [Q] says something. *)
Lemma runs_open_with {A} conn path flags bs bc cmp x t c (body : _DiskHandle -> M world A) res
    d0 s0 d1 s1 d2 s2 (Q : list sock -> list (NfcDisk * nat) -> Prop) ss ss' ds ds' l l' :
  let ro := negb (Z.land flags VIXDISKLIB_FLAG_OPEN_READ_ONLY =? 0) in
  let ssl := str_eqb (c_transport_mode conn) (str "nbdssl") in
  let a := checked_args path flags bs bc cmp in
  _nfc_compression flags = Ok cmp -> negb ro && c_read_only conn = false ->
  vcenter_serves (c_si conn) (c_vm_moref conn) path ro c t ->
  esx_serves x t (c_allow_untrusted conn) ssl ->
  open_disk_checks a = Ok tt -> open_session a (x_nfc x) = (Ok d0, s0) ->
  close (d1, s1) = (Ok tt, (d2, s2)) -> length ss' = length ss -> length ds' = length ds ->
  (forall h pre, h_disk h = length ds -> exists news newds, Q news newds /\
    runs (body h) (View ((ss ++ pre) ++ [s0]) (ds ++ [(d0, length (ss ++ pre))]) (l ++ [TicketCall c])) res
      (View ((ss' ++ pre) ++ s1 :: news) (ds' ++ (d1, length (ss ++ pre)) :: newds) l')) ->
  exists raw1 authd1 mid news newds, closed raw1 = true /\ closed authd1 = true /\
    Forall (fun s => closed s = true) mid /\ Q news newds /\
    tx authd1 = tx (x_authd x) ++ authd_requests x /\
    runs (open conn path flags bs bc body) (View ss ds l) res
      (View (ss' ++ raw1 :: authd1 :: mid ++ s2 :: news)
        (ds' ++ (d2, length (ss ++ raw1 :: authd1 :: mid)) :: newds) l').
Proof.
  intros ro ssl a Hcmp Hro Hv Hx Hck Eo Ec Hss Hds Hbody.
  destruct (runs_connect_authd x t _ _ ss ds (l ++ [TicketCall c]) Hx)
    as (raw1 & authd1 & Hraw & [Hac _] & Tau & Hca).
  set (session := mkNfcAuthSession (c_si conn) t (S (length ss)) ssl).
  destruct (runs_open_disk session a x t _ _ d0 s0 authd1 (ss ++ [raw1; authd1]) ds
    (l ++ [TicketCall c]) Hx Hac Tau eq_refl) as (mid & Hmid & Hod); [|done..|].
  { change (ss ++ [raw1; authd1]) with (ss ++ [raw1] ++ [authd1]). rewrite app_assoc.
    apply lookup_here. rewrite length_app. cbn. lia. }
  set (h := mkDiskHandle (length ds) (S (length ss)) (c_transport_mode conn)).
  destruct (Hbody h (raw1 :: authd1 :: mid) eq_refl) as (news & newds & HQ & Hb).
  replace (length (ss ++ raw1 :: authd1 :: mid)) with (length (ss' ++ raw1 :: authd1 :: mid)) in Hb
    by (rewrite !length_app; lia).
  destruct (runs_close_handle h d1 s1 d2 s2 authd1 (ss' ++ [raw1]) mid (ss' ++ raw1 :: authd1 :: mid) news
    ds' newds l' Ec) as (authd2 & Hau2 & Htx2 & Hcl).
  { cbn. lia. }
  { cbn. rewrite length_app. cbn. lia. }
  { by rewrite <- app_assoc. }
  exists raw1, authd2, mid, news, newds. split_and!; [done..|by rewrite Htx2, (talk_tx _ _ _ _ Tau)|].
  unfold open. eapply (runs_bind _ _ _ _ _ h).
  { unfold open_enter. eapply runs_bind; [by apply runs_lift|].
    eapply runs_bind; [by apply runs_guard|].
    eapply runs_bind; [by apply runs_get_nfc_ticket|].
    eapply runs_bind; [exact Hca|].
    eapply runs_bind; [apply runs_closing; exact Hod|]. apply runs_ret. }
  replace ((ss' ++ [raw1]) ++ authd2 :: mid ++ s2 :: news) with (ss' ++ raw1 :: authd2 :: mid ++ s2 :: news)
    in Hcl by (by rewrite <- app_assoc).
  replace ((ss ++ [raw1; authd1]) ++ mid) with (ss ++ raw1 :: authd1 :: mid) by (by rewrite <- app_assoc).
  replace (length (ss ++ raw1 :: authd1 :: mid)) with (length (ss' ++ raw1 :: authd1 :: mid))
    by (rewrite !length_app; lia).
  replace (length (ss ++ raw1 :: authd2 :: mid)) with (length (ss' ++ raw1 :: authd1 :: mid))
    by (rewrite !length_app; cbn; lia).
  eapply runs_try_finally; [exact Hb|exact Hcl].
Qed.

Lemma runs_open {A} conn path flags bs bc cmp path_b x t c (body : _DiskHandle -> M world A) m
    res out d1 ss ds l :
  let ro := negb (Z.land flags VIXDISKLIB_FLAG_OPEN_READ_ONLY =? 0) in
  let ssl := str_eqb (c_transport_mode conn) (str "nbdssl") in
  _nfc_compression flags = Ok cmp -> negb ro && c_read_only conn = false ->
  vcenter_serves (c_si conn) (c_vm_moref conn) path ro c t ->
  esx_serves x t (c_allow_untrusted conn) ssl ->
  serves (checked_args path flags bs bc cmp) path_b m res out d1 (x_nfc x) ->
  (forall h, acts (h_disk h) (body h) m) ->
  exists raw1 authd1 mid nfc1 d2,
    Forall (fun s => closed s = true) (raw1 :: authd1 :: mid ++ [nfc1]) /\ _closed d2 = true /\
    tx authd1 = tx (x_authd x) ++ authd_requests x /\
    tx nfc1 = tx (x_nfc x) ++ session_frames (checked_args path flags bs bc cmp) path_b out d1 /\
    runs (open conn path flags bs bc body) (View ss ds l) res
      (View (ss ++ raw1 :: authd1 :: mid ++ [nfc1])
        (ds ++ [(d2, length (ss ++ raw1 :: authd1 :: mid))]) (l ++ [TicketCall c])).
Proof.
  intros ro ssl Hcmp Hro Hv Hx Hs Hacts. set (a := checked_args path flags bs bc cmp) in *.
  destruct (nfc_session _ _ _ _ _ _ _ _ _ _ _ Hs)
    as (d0 & s0 & s1 & d2 & s2 & Eo & Em & Ec & Et & Hc2 & Hd2).
  destruct (runs_open_with conn path flags bs bc cmp x t c body res d0 s0 d1 s1 d2 s2
    (fun news newds => news = [] /\ newds = []) ss ss ds ds l (l ++ [TicketCall c]))
    as (raw1 & authd1 & mid & ? & ? & Hraw & Hau & Hmid & [-> ->] & Htx & Hr); try done.
  { by eapply serves_checks. }
  { intros h pre Hh. exists [], []. split; [done|].
    rewrite <- (insert_here (ss ++ pre) (length (ss ++ pre)) s0 s1 []) by done.
    rewrite <- (insert_here ds (h_disk h) (d0, length (ss ++ pre)) (d1, length (ss ++ pre)) []) by done.
    eapply runs_acts; [apply Hacts|by apply lookup_here|by apply lookup_here|exact Em]. }
  exists raw1, authd1, mid, s2, d2. split_and!; try done.
  constructor; [done|]. constructor; [done|]. apply Forall_app. by repeat constructor.
Qed.

(** * Lemmas: the login *)

Lemma runs_pin_probe host port s0 s1 cert d ss ds l :
  (forall n, env_default_context n = inr tt) -> (forall n, env_create_connection n host port = inr s0) ->
  (forall n, env_wrap n lax s0 host = inr s1) -> close_fails s1 = false ->
  (forall n, env_peercert n = inr cert) -> cert <> [] -> env_digest (str "sha1") cert = inr d ->
  exists s0' s1', closed s0' = true /\ closed s1' = true /\
    runs (get_ssl_cert_thumbprint host port (str "sha1") None) (View ss ds l) (_format_thumbprint d)
      (View (ss ++ [s0'; s1']) ds l).
Proof.
  intros Hctx Hdial Hwrap Hcf Hp Hne Hd.
  destruct (runs_wrap_socket lax (length ss) host s0 s1 ss [] ds l eq_refl Hwrap) as (s0' & Hc0 & Hw).
  assert (exists s1', sock_close s1 = (Ok tt, s1') /\ closed s1' = true) as (s1' & E1 & Hc1).
  { unfold sock_close. destruct (closed s1) eqn:Hc; [by exists s1|]. rewrite Hcf. by eexists. }
  assert (sock_close s0' = (Ok tt, s0')) as E0 by (unfold sock_close; by rewrite Hc0).
  exists s0', s1'. split; [done|]. split; [done|].
  unfold get_ssl_cert_thumbprint. eapply runs_bind; [by apply runs_client_context|].
  eapply runs_bind; [by apply runs_create_connection|].
  eapply runs_bind.
  { eapply runs_try_finally; [eapply runs_bind; [exact Hw|]|].
    - eapply runs_try_finally; [by apply runs_sys|]. cbn [app].
      change (ss ++ [s0'; s1]) with (ss ++ [s0'] ++ [s1]). rewrite app_assoc.
      apply (runs_on_sock_here _ _ tt s1 s1'); [by rewrite !length_app|done].
    - rewrite <- app_assoc. by apply (runs_on_sock_here _ _ tt s0' s0'). }
  eapply runs_bind; [apply runs_guard, Z.eqb_neq|].
  { destruct cert; [done|]. rewrite len_cons. pose proof (len_nonneg cert). lia. }
  eapply runs_bind; [by apply runs_sys|]. apply runs_ret.
Qed.

Lemma runs_connect_vim a si ss ds l :
  vcenter_login a si ->
  exists tmp, Forall (fun s => closed s = true) tmp /\
    runs (connect_vim (ca_server_name a) (ca_username a) (ca_password a) (ca_port a)
        (ca_thumbprint a) (ca_allow_untrusted a)) (View ss ds l) si
      (View (ss ++ tmp) ds (l ++ [Login si])).
Proof.
  intros [Hpin Hctx [vs Hvs] Hsmart _]. unfold connect_vim.
  assert (exists tmp, Forall (fun s => closed s = true) tmp /\
    runs (match (if ca_allow_untrusted a then None else truthy (ca_thumbprint a)) with
      | Some expected =>
          peer ← get_ssl_cert_thumbprint (ca_server_name a) (ca_port a) (str "sha1") None;
          raise_when (negb (str_eqb (_normalize_thumbprint peer) (_normalize_thumbprint expected)))
            EConnectionError
      | None => mret tt
      end) (View ss ds l) tt (View (ss ++ tmp) ds l)) as (tmp & Htmp & Hr).
  { destruct Hpin as [->|[Htr (s0 & s1 & Hcf & Hdial & Hwrap)]].
    - exists []. rewrite app_nil_r. split; [done|]. apply runs_ret.
    - destruct (if ca_allow_untrusted a then _ else _) as [ex|] eqn:Hex.
      2: { exists []. rewrite app_nil_r. split; [done|]. apply runs_ret. }
      destruct Htr as [?|(cert & d & Hp & Hne & Hd & Hn)]; [congruence|].
      assert (ca_thumbprint a = Some ex) as Hex'.
      { destruct (ca_allow_untrusted a); [done|].
        destruct (ca_thumbprint a) as [[|c r]|]; simplify_eq/=; done. }
      destruct (runs_pin_probe (ca_server_name a) (ca_port a) s0 s1 cert d ss ds l Hctx Hdial Hwrap Hcf
        Hp Hne Hd) as (s0' & s1' & Hc0 & Hc1 & Hr).
      exists [s0'; s1']. split; [by repeat constructor|].
      eapply runs_bind; [exact Hr|]. apply runs_guard.
      rewrite normalize_format, (Hn ex Hex'). by rewrite (proj2 (str_eqb_eq _ _)). }
  exists tmp. split; [done|]. eapply runs_bind; [exact Hr|].
  set (skip_ca := ca_allow_untrusted a || _).
  eapply (runs_bind _ _ _ _ _ (if skip_ca then Some lax else None)).
  { destruct skip_ca; [|apply runs_ret].
    eapply runs_bind; [by apply runs_client_context|]. apply runs_ret. }
  eapply runs_bind; [by apply runs_lift|].
  eapply runs_bind; [apply runs_sys; intros n; by apply Hsmart|].
  eapply runs_bind; [apply runs_emit|]. apply runs_ret.
Qed.
(** [connect] with any body, between the login and the logout. *)
Lemma runs_connect {A} a si mode vm (body : _Connection -> M world A) res
    (Q : list sock -> list sock -> list (NfcDisk * nat) -> Prop) ss ds l l' :
  let conn := mkConnection si vm (ca_snapshot_ref a) (ca_thumbprint a) (ca_allow_untrusted a)
    (ca_read_only a) mode in
  _select_transport (ca_transport_modes a) = Ok mode -> _parse_vm_moref (ca_vmx_spec a) = Ok vm ->
  vcenter_login a si ->
  (forall pre, exists news newds, Q pre news newds /\
    runs (body conn) (View (ss ++ pre) ds (l ++ [Login si])) res
      (View ((ss ++ pre) ++ news) (ds ++ newds) ((l ++ [Login si]) ++ l'))) ->
  exists pre news newds, Forall (fun s => closed s = true) pre /\ Q pre news newds /\
    runs (connect a body) (View ss ds l) res
      (View ((ss ++ pre) ++ news) (ds ++ newds) (((l ++ [Login si]) ++ l') ++ [Logout si])).
Proof.
  intros conn Hmode Hvm Hlogin Hbody.
  destruct (runs_connect_vim a si ss ds l Hlogin) as (pre & Hpre & Hcv).
  destruct (Hbody pre) as (news & newds & HQ & Hb).
  exists pre, news, newds. split; [done|]. split; [done|].
  unfold connect. eapply (runs_bind _ _ _ _ _ conn).
  - unfold connect_enter. eapply runs_bind; [by apply runs_lift|].
    eapply runs_bind; [by apply runs_lift|]. eapply runs_bind; [exact Hcv|]. apply runs_ret.
  - eapply runs_try_finally; [exact Hb|]. unfold disconnect, Disconnect.
    eapply runs_bind; [apply runs_emit|]. apply runs_sys, Hlogin.
Qed.
End Blocks.

(** * Lemmas: writing and reading back *)

Section Copy.
Context {C : Codec} {COk : CodecOk C}.

(** A read into a fresh buffer, answered by the reference server from [image]
    in any order. *)
Lemma sess_read_back d start n image k rs :
  read_ranges d start n -> 1 <= n -> 1 <= k -> (start + n) * sector_size d <= len image ->
  rs ≡ₚ serve_read k image (read_payload d start n) ->
  exists wire, sess (with_buffer (zeros (n * sector_size d)) (readinto start n false false)) d
    (replies_bytes (_op_id d) rs)
    (mkReadResult (n * sector_size d) wire [],
     slice (start * sector_size d) ((start + n) * sector_size d) image)
    (set_op_id (_op_id d + 1) d) [read_request d start n].
Proof.
  intros Hr Hn Hk Hi Hp.
  destruct (serve_read_spec k image d start n _ Hr Hk eq_refl Hi) as (Hc & Ht & Hl).
  rewrite <- Hp in Hc. set (content := slice _ _ image) in *.
  pose proof Hr as (_ & _ & _ & HL & _). unfold fits32 in HL.
  destruct (run_tiles content rs _ (zeros (n * sector_size d)) Hc Hp Ht) as [l' Hrun].
  { rewrite len_zeros by lia. lia. }
  rewrite splice_full in Hrun by (rewrite len_zeros by lia; lia). rewrite Hl in Hrun.
  exists (wire_bytes l'). intros s r Hs Hpl Hf.
  destruct (readinto_ok d start n false (zeros (n * sector_size d)) s rs l' content r)
    as (s' & E & T & F); try done.
  { rewrite len_zeros by lia. lia. }
  exists s'. split; [|by split]. unfold with_buffer. cbn [fst snd]. by rewrite E.
Qed.

(** [write] and then a read of the same sectors, over a server that stores
    what it is told. *)
Lemma sess_write_read d start n data image k body frames rs :
  write_ranges d start n -> fits32 (compression d) -> fits32 (_op_id d + 1) -> 1 <= n ->
  len data = n * sector_size d -> (start + n) * sector_size d <= len image ->
  write_frames d (n * sector_size d) (start * sector_size d) (_op_id d) 0
    (write_chunks d data) frames ->
  fits32 (len body) -> 1 <= k ->
  rs ≡ₚ serve_read k (splice (start * sector_size d) data image)
    (read_payload (set_op_id (_op_id d + 1) d) start n) ->
  server_store (length frames) (handle d) (_op_id d) (frames ≫= id) image =
    Some (splice (start * sector_size d) data image) /\
  exists wire,
    sess (write start n data;;
          with_buffer (zeros (n * sector_size d)) (readinto start n false false)) d
      (aio_msg NFC_AIO_MSG_IO (_op_id d) body ++ replies_bytes (_op_id d + 1) rs)
      (mkReadResult (n * sector_size d) wire [], data)
      (set_op_id (_op_id d + 1 + 1) (set_op_id (_op_id d + 1) d))
      (frames ++ [read_request (set_op_id (_op_id d + 1) d) start n]).
Proof.
  intros Hw Hcf Hop1 Hn Hlen Hi Hfr Hb Hk Hp. pose proof Hw as (Hh & Ho & HL & Hop & Hk1).
  destruct (write_chunks_spec d data Hk1) as [Hbind Hall]. split.
  { erewrite server_store_frames; [|exact Hh|exact Ho|exact HL|exact Hfr|done|rewrite Hbind; lia|lia| |done].
    - by rewrite Hbind, Z.add_0_r.
    - eapply Forall_impl; [exact Hall|]. simpl. lia. }
  set (d1 := set_op_id (_op_id d + 1) d) in *.
  assert (read_ranges d1 start n) as Hrd by (by unfold read_ranges).
  unfold fits64 in Ho. pose proof (len_nonneg data).
  destruct (sess_read_back d1 start n (splice (start * sector_size d) data image) k rs Hrd Hn Hk) as [wire Hread]; [|exact Hp|].
  { simpl. rewrite len_splice; lia. }
  exists wire. cbn [sector_size d1 set_op_id _op_id] in Hread.
  replace (slice _ _ _) with data in Hread.
  2: { replace ((start + n) * sector_size d) with (start * sector_size d + len data) by lia.
       symmetry. apply slice_splice_same; lia. }
  eapply sess_bind; [|exact Hread|done|done].
  intros s r Hs Hpl Hf. by apply write_ok.
Qed.
End Copy.
