(* ===== verification/WholeSession.v ===== *)
(** The properties of a whole session: any conversation over the disk, and a
    write that is read back, from the login to the logout. *)
From Stdlib Require Import ZArith Lia String.
From stdpp Require Import base list numbers sets.
From coqutil Require Import Byte Word.LittleEndianList.
Import LittleEndianList.
From S2P Require Import Prelude Python PyStr Socket Codec Fastlz Wire Disk DiskTheorems DiskRead ReadSpec ReadLoop ReadInto DiskWrite WriteSpec Server WriteTheorems OpenDisk NfcTypes World Thumbprint Lab Authd NfcSocket Vim Session Handle Scope HandleTheorems Run EndToEnd.

(** * Lemmas *)

Lemma whole_session_of {E : Env} {U : Unicode} {UOk : UnicodeOk U} {C : Codec} {A}
    a si mode vm path flags bs bc cmp path_b x t c (body : _DiskHandle -> M world A) m res out d1 w :
  let ro := negb (Z.land flags VIXDISKLIB_FLAG_OPEN_READ_ONLY =? 0) in
  _select_transport (ca_transport_modes a) = Ok mode -> _parse_vm_moref (ca_vmx_spec a) = Ok vm ->
  _nfc_compression flags = Ok cmp -> negb ro && ca_read_only a = false ->
  vcenter_login a si -> vcenter_serves si vm path ro c t ->
  esx_serves x t (ca_allow_untrusted a) (str_eqb mode (str "nbdssl")) ->
  serves (checked_args path flags bs bc cmp) path_b m res out d1 (x_nfc x) ->
  (forall h, acts (h_disk h) (body h) m) -> ready w ->
  exists w' news authd nfc d2,
    connect a (fun conn => open conn path flags bs bc body) w = (Ok res, w') /\
    socks w' = socks w ++ news /\ Forall (fun s => closed s = true) news /\
    disks w' = disks w ++ [d2] /\ _closed (fst d2) = true /\
    authd ∈ news /\ tx authd = tx (x_authd x) ++ authd_requests x /\
    snd d2 = pred (length (socks w')) /\ last news = Some nfc /\
    tx nfc = tx (x_nfc x) ++ session_frames (checked_args path flags bs bc cmp) path_b out d1 /\
    log w' = log w ++ [Login si; TicketCall c; Logout si].
Proof.
  intros ro Hmode Hvm Hcmp Hro Hlogin Hv Hx Hs Hacts Hready.
  set (P := fun pre news (newds : list (NfcDisk * nat)) => exists raw1 authd1 mid nfc1 d2,
    news = raw1 :: authd1 :: mid ++ [nfc1] /\ newds = [d2] /\ Forall (fun s => closed s = true) news /\
    _closed (fst d2) = true /\ tx authd1 = tx (x_authd x) ++ authd_requests x /\
    tx nfc1 = tx (x_nfc x) ++ session_frames (checked_args path flags bs bc cmp) path_b out d1 /\
    snd d2 = length ((socks w ++ pre) ++ raw1 :: authd1 :: mid)).
  destruct (runs_connect a si mode vm (fun conn => open conn path flags bs bc body) res P
    (socks w) (disks w) (log w) [TicketCall c] Hmode Hvm Hlogin)
    as (pre & ? & ? & Hpre & (raw1 & authd1 & mid & nfc1 & d2 & -> & -> & Hnews & Hd2 & Hta & Htn & Hi) & Hrun).
  { intros pre. destruct (runs_open (mkConnection si vm (ca_snapshot_ref a) (ca_thumbprint a)
      (ca_allow_untrusted a) (ca_read_only a) mode) path flags bs bc cmp path_b x t c body m res out d1
      (socks w ++ pre) (disks w) (log w ++ [Login si]) Hcmp Hro Hv Hx Hs Hacts)
      as (raw1 & authd1 & mid & nfc1 & d2 & Hnews & Hd2 & Hta & Htn & Hopen).
    eexists _, _. split; [|exact Hopen]. by exists raw1, authd1, mid, nfc1; eexists. }
  destruct (Hrun w) as (w' & Ew & [S D L _]); [by split|]. cbn in S, D, L.
  exists w', (pre ++ raw1 :: authd1 :: mid ++ [nfc1]), authd1, nfc1, d2.
  split; [exact Ew|]. split; [by rewrite S, <- app_assoc|].
  split; [by apply Forall_app|]. split; [exact D|]. split; [done|].
  split; [apply elem_of_app; right; right; left|]. split; [exact Hta|].
  split; [rewrite S, Hi, !length_app; cbn; rewrite !length_app; cbn; lia|].
  split; [rewrite !app_comm_cons, app_assoc; apply last_snoc|].
  split; [exact Htn|]. by rewrite L, <- !app_assoc.
Qed.

(** * Properties *)

(** C9: a whole session over peers that answer, with any conversation [m] of the
    body over the disk: the login, the ticket, authd, the transport of the
    connection (plain NFC or a second TLS session), the open, the body, [close]
    and the logout.  It returns what the body returns; the NFC socket carried
    exactly the handshake, the four open requests, the body's messages and the
    three goodbye messages; authd was told exactly its four lines; every socket
    made is closed and the disk object with them; the caller's objects are
    untouched; and the log is one login, the one ticket request, one logout. *)
Theorem whole_session {E : Env} {U : Unicode} {UOk : UnicodeOk U} {C : Codec} {A}
    a si mode vm path flags bs bc cmp path_b x t c (body : _DiskHandle -> M world A) m res out d1 w :
  let ro := negb (Z.land flags VIXDISKLIB_FLAG_OPEN_READ_ONLY =? 0) in
  _select_transport (ca_transport_modes a) = Ok mode -> _parse_vm_moref (ca_vmx_spec a) = Ok vm ->
  _nfc_compression flags = Ok cmp -> negb ro && ca_read_only a = false ->
  vcenter_login a si -> vcenter_serves si vm path ro c t ->
  esx_serves x t (ca_allow_untrusted a) (str_eqb mode (str "nbdssl")) ->
  serves (checked_args path flags bs bc cmp) path_b m res out d1 (x_nfc x) ->
  (forall h, acts (h_disk h) (body h) m) -> ready w ->
  exists w' news authd nfc d2,
    connect a (fun conn => open conn path flags bs bc body) w = (Ok res, w') /\
    socks w' = socks w ++ news /\ Forall (fun s => closed s = true) news /\
    disks w' = disks w ++ [d2] /\ _closed (fst d2) = true /\
    authd ∈ news /\ tx authd = tx (x_authd x) ++ authd_requests x /\
    snd d2 = pred (length (socks w')) /\ last news = Some nfc /\
    tx nfc = tx (x_nfc x) ++ session_frames (checked_args path flags bs bc cmp) path_b out d1 /\
    log w' = log w ++ [Login si; TicketCall c; Logout si].
Proof. apply whole_session_of. Qed.

(** A program that writes [data] through the handle, reads the same sectors
    back through it and leaves both blocks: over peers that answer and an NFC
    server that stores what it is told and serves what it stored, in fragments
    of any size [k], in any order, compressed or not, the program returns
    [data]; the server's image is the old one with [data] at its place; every
    socket made is closed; and the log is one login, one writable ticket for the
    device that holds the path, one logout. *)
Theorem written_data_comes_back {E : Env} {U : Unicode} {UOk : UnicodeOk U} {C : Codec}
    {COk : CodecOk C} a si mode vm path flags bs bc cmp path_b x t c replies h start n data image
    frames body g0 g1 k rs rest w :
  let oa := checked_args path flags bs bc cmp in
  let d := opened_disk oa h VIXDISKLIB_SECTOR_SIZE in
  let L := n * VIXDISKLIB_SECTOR_SIZE in
  let off := start * VIXDISKLIB_SECTOR_SIZE in
  _select_transport (ca_transport_modes a) = Ok mode -> _parse_vm_moref (ca_vmx_spec a) = Ok vm ->
  _nfc_compression flags = Ok cmp -> Z.testbit flags 2 = false -> ca_read_only a = false ->
  vcenter_login a si -> vcenter_serves si vm path false c t ->
  esx_serves x t (ca_allow_untrusted a) (str_eqb mode (str "nbdssl")) ->
  opens oa path_b replies h VIXDISKLIB_SECTOR_SIZE -> write_ranges d start n -> 1 <= n ->
  len data = L -> off + L <= len image ->
  write_frames d L off 4 0 (write_chunks d data) frames ->
  1 <= k -> rs ≡ₚ serve_read k (splice off data image) (read_payload (set_op_id 5 d) start n) ->
  fits32 (len body) -> fits32 (len g0) -> fits32 (len g1) -> healthy (x_nfc x) ->
  flat (rx (x_nfc x)) = (Some <$> replies ++ (aio_msg NFC_AIO_MSG_IO 4 body ++ replies_bytes 5 rs) ++
    goodbye_replies 6 g0 g1) ++ rest -> ready w ->
  exists w' wire news nfc,
    connect a (fun conn => open conn path flags bs bc (fun h =>
      write_handle h start n data;; with_local (zeros L) (read_handle h start n false false))) w =
      (Ok (mkReadResult L wire [], data), w') /\
    socks w' = socks w ++ news /\ Forall (fun s => closed s = true) news /\ last news = Some nfc /\
    tx nfc = tx (x_nfc x) ++ session_frames oa path_b (frames ++ [read_request (set_op_id 5 d) start n])
      (set_op_id 6 d) /\
    server_store (length frames) h 4 (frames ≫= id) image = Some (splice off data image) /\
    log w' = log w ++ [Login si; TicketCall c; Logout si].
Proof.
  intros oa d L off Hmode Hvm Hcmp Hfl Hro Hlogin Hv Hx Ho Hw Hn Hlen Hi Hfr Hk Hp Hb Hg0 Hg1 Hs Hf
    Hready.
  destruct (sess_write_read d start n data image k body frames rs) as [Hst [wire Hse]]; try done.
  { cbn. rewrite nfc_compression_spec in Hcmp.
    destruct (wants_zlib flags), (wants_fastlz flags), (wants_skipz flags); by simplify_eq. }
  { cbn. unfold off, L in Hi. lia. }
  set (m := fun data' => write start n data';;
    with_buffer (zeros L) (readinto start n false false) : M (NfcDisk * sock) (ReadResult * bytes)).
  assert (py_slice 0 L data = data) as Hsl.
  { unfold py_slice. unfold L, VIXDISKLIB_SECTOR_SIZE in *.
    rewrite (proj2 (Z.ltb_ge _ _)) by lia. apply slice_full. lia. }
  assert (negb (Z.land flags VIXDISKLIB_FLAG_OPEN_READ_ONLY =? 0) = false) as Hror
    by by rewrite land_read_only, Hfl.
  destruct (whole_session_of a si mode vm path flags bs bc cmp path_b x t c
    (fun h => write_handle h start n data;; with_local (zeros L) (read_handle h start n false false))
    (m data) (mkReadResult L wire [], data) (frames ++ [read_request (set_op_id 5 d) start n])
    (set_op_id 6 d) w) as (w' & news & authd & nfc & d2 & E1 & S & Fc & _ & _ & _ & _ & _ & Hl & T & G);
    try done.
  { by rewrite Hror, Hro. }
  { by rewrite Hror. }
  { split; [done| |].
    - destruct Hw as (Hh & _). by split.
    - exists replies, h, VIXDISKLIB_SECTOR_SIZE, (aio_msg NFC_AIO_MSG_IO 4 body ++ replies_bytes 5 rs),
        g0, g1, rest. by split_and!. }
  { intros h'. apply acts_bind; [|intros _; apply acts_read].
    pose proof (acts_write h' start n data) as Hacts. fold L in Hacts. by rewrite Hsl in Hacts. }
  exists w', wire, news, nfc. by split_and!.
Qed.

(** * Witnesses *)

(** An ESXi host behind a vCenter, with a pinned certificate and NFC over TLS.
    The duplicated descriptor is told from the TCP connection by its plan. *)
Definition full_banner : bytes := ascii "220 VMware Authentication Daemon" ++ [Byte.x0d].
Definition full_ok : bytes := ascii "200 ok" ++ [Byte.x0d].
Definition full_hello : bytes := ascii "220 ok" ++ [Byte.x0d].

(** One sector of equal bytes, written to sector 1 of a disk of three. *)
Definition full_data : bytes := replicate 512 Byte.x41.
Definition full_image : bytes := zeros 1536.

Definition full_args : open_args := checked_args (str "[ds] b.vmdk") 32 65536 1 NFC_COMPRESSION_FASTLZ.
Definition full_disk : NfcDisk := opened_disk full_args 77 512.

Definition full_frames : list bytes :=
  match @choose_extra lab_codec NFC_COMPRESSION_FASTLZ full_data with
  | Ok (extra, ctype) => [write_frame full_disk 512 512 4 0 full_data extra ctype]
  | _ => []
  end.

(** The server answers in fragments of 200 bytes, the last one first. *)
Definition full_replies : list reply :=
  reverse (@serve_read lab_codec 200 (splice 512 full_data full_image)
    (read_payload (set_op_id 5 full_disk) 1 1)).

Definition full_stream : bytes :=
  lab_nfc_stream ++ (aio_msg NFC_AIO_MSG_IO 4 [] ++ replies_bytes 5 full_replies) ++
  goodbye_replies 6 [] [].

Definition full_esx : esx := {|
  x_raw := lab_sock (full_banner ++ [newline]);
  x_authd := lab_sock ((full_hello ++ [newline]) ++ (full_ok ++ [newline]) ++ (full_ok ++ [newline]));
  x_dup := Sock [] [] [None] false false;
  x_nfc := Sock [RxData (take 700 full_stream); RxData (drop 700 full_stream)] [] [] false false;
  x_banner := full_banner;
  x_l1 := full_hello;
  x_l2 := full_ok;
  x_l3 := full_ok;
  x_session := ascii_line "SESSION 52ab";
  x_proxy := ascii_line "PROXY vpxa-nfcssl"
|}.

Definition full_env : Env := {|
  env_create_connection _ host _ :=
    inr (if str_eqb host (str "vc") then lab_sock [] else x_raw full_esx);
  env_default_context _ := inr tt;
  env_wrap _ _ s host := inr (if str_eqb host (str "vc") then lab_sock [] else
    match tx_plan s with [] => x_authd full_esx | _ => x_nfc full_esx end);
  env_peercert _ := inr lab_cert;
  env_dup _ _ := inr (x_dup full_esx);
  env_sockopt _ := inr tt;
  env_service_versions := [str "vim.version.v9_0"; str "vim.version.v8_0_3_0"];
  env_smart_connect _ _ := inr 1;
  env_disconnect _ _ := inr tt;
  env_get_vmodl_type _ l := match l with [] => inl EExternal | _ => inr tt end;
  env_create_managed_type _ _ := inr tt;
  env_devices _ _ := inr lab_devices;
  env_host _ _ := inr (str "host-1");
  env_nfc_call _ _ _ := inr lab_ticket;
  env_digest := lab_digest
|}.

Definition full_connect : connect_args :=
  mkConnectArgs (str "vc") (Some lab_thumbprint) (str "u") (str "p") (Some (str "moref=vm-7")) None
    false None 443 false.

#[local] Existing Instance full_env.
#[local] Existing Instance ascii_unicode.
#[local] Existing Instance lab_codec.

Lemma full_trusts : trusts false (Some lab_thumbprint).
Proof.
  right. exists lab_cert, (take 20 (lab_cert ++ zeros 20)). split_and!; try done.
  intros ex [= <-]. vm_compute. reflexivity.
Defined.

Lemma full_login : vcenter_login full_connect 1.
Proof.
  split; try done.
  - right. split; [exact full_trusts|]. exists (lab_sock []), (lab_sock []). by repeat split.
  - exists [str "vim.version.v8_0_3_0"]. vm_compute. reflexivity.
Defined.

Lemma full_vcenter : vcenter_serves 1 (str "vm-7") (str "[ds] b.vmdk") false
  (RandomAccessOpen (str "vm-7") 2001 (str "host-1")) lab_ticket.
Proof.
  split; try done.
  - by intros n [|].
  - intros [|y l]; [right; intros n; by exists EExternal|by left].
  - exists lab_devices, 2001, (str "host-1"). by split_and!.
Defined.

Lemma full_serves : esx_serves full_esx lab_ticket false true.
Proof.
  split; try done.
  - split; [by split; [|constructor]|]. exists []. vm_compute. reflexivity.
  - split; [split; [by apply (bool_decide_unpack _)|by vm_compute]|by vm_compute].
  - intros n s T. unfold env_wrap, full_env. cbn [str_eqb].
    destruct (talk_plan _ _ _ _ T) as [k ->]. cbn [full_esx x_raw lab_sock tx_plan].
    by rewrite drop_nil.
  - exact full_trusts.
  - repeat constructor; by apply (bool_decide_unpack _).
  - split_and!; eexists; vm_compute; reflexivity.
  - split; [by split; [|constructor]|]. exists []. vm_compute. reflexivity.
Defined.

Lemma full_opens : opens full_args (ascii "[ds] b.vmdk") lab_nfc_stream 77 512.
Proof.
  exists [], (le_split 4 11), [], [], [], [], lab_open_reply.
  split_and!; try (vm_compute; reflexivity); try (vm_compute; by intros).
Defined.

Lemma full_write_frames :
  write_frames full_disk 512 512 4 0 (write_chunks full_disk full_data) full_frames.
Proof.
  assert (write_chunks full_disk full_data = [full_data]) as -> by (vm_compute; reflexivity).
  assert (exists extra ctype, choose_extra NFC_COMPRESSION_FASTLZ full_data = Ok (extra, ctype))
    as (extra & ctype & Ex) by (eexists _, _; vm_compute; reflexivity).
  unfold full_frames. rewrite Ex. apply frames_cons; [exact Ex|]. apply frames_nil.
Qed.

Lemma full_stream_ok :
  flat (rx (x_nfc full_esx)) = (Some <$> lab_nfc_stream ++
    (aio_msg NFC_AIO_MSG_IO 4 [] ++ replies_bytes 5 full_replies) ++ goodbye_replies 6 [] []) ++ [].
Proof.
  change (lab_nfc_stream ++ _ ++ _) with full_stream. cbn [full_esx x_nfc rx].
  rewrite !flat_cons. cbn [flat1]. change (flat []) with ([] : list (option byte)).
  rewrite app_nil_r, <- fmap_app, take_drop. by rewrite app_nil_r.
Qed.

Lemma full_ranges : write_ranges full_disk 1 1.
Proof. split_and!; vm_compute; try (split; by intros); by intros. Qed.

Example written_data_comes_back_witness :
  exists w' wire news nfc,
    connect full_connect (fun conn => open conn (str "[ds] b.vmdk") 32 65536 1 (fun h =>
      write_handle h 1 1 full_data;; with_local (zeros 512) (read_handle h 1 1 false false))) world0 =
      (Ok (mkReadResult 512 wire [], full_data), w') /\
    socks w' = [] ++ news /\ Forall (fun s => closed s = true) news /\ last news = Some nfc /\
    tx nfc = [] ++ session_frames full_args (ascii "[ds] b.vmdk")
      (full_frames ++ [read_request (set_op_id 5 full_disk) 1 1]) (set_op_id 6 full_disk) /\
    server_store (length full_frames) 77 4 (full_frames ≫= id) full_image =
      Some (splice 512 full_data full_image) /\
    log w' = [] ++ [Login 1; TicketCall (RandomAccessOpen (str "vm-7") 2001 (str "host-1")); Logout 1].
Proof.
  apply (@written_data_comes_back full_env ascii_unicode ascii_unicode_ok lab_codec lab_codec_ok
    full_connect 1 (str "nbdssl") (str "vm-7") (str "[ds] b.vmdk") 32 65536 1 NFC_COMPRESSION_FASTLZ
    (ascii "[ds] b.vmdk") full_esx lab_ticket (RandomAccessOpen (str "vm-7") 2001 (str "host-1"))
    lab_nfc_stream 77 1 1 full_data full_image full_frames [] [] [] 200 full_replies [] world0).
  - vm_compute. reflexivity.
  - vm_compute. reflexivity.
  - vm_compute. reflexivity.
  - reflexivity.
  - reflexivity.
  - exact full_login.
  - exact full_vcenter.
  - exact full_serves.
  - exact full_opens.
  - exact full_ranges.
  - lia.
  - vm_compute. reflexivity.
  - vm_compute. by intros.
  - exact full_write_frames.
  - lia.
  - apply reverse_Permutation.
  - vm_compute. split; by intros.
  - vm_compute. split; by intros.
  - vm_compute. split; by intros.
  - by split; [|constructor].
  - exact full_stream_ok.
  - intros H. discriminate H.
Defined.

Definition full_method : M (NfcDisk * sock) (ReadResult * bytes) :=
  write 1 1 full_data;; with_buffer (zeros 512) (readinto 1 1 false false).

Lemma full_session_serves : exists wire,
  serves full_args (ascii "[ds] b.vmdk") full_method (mkReadResult 512 wire [], full_data)
    (full_frames ++ [read_request (set_op_id 5 full_disk) 1 1]) (set_op_id 6 full_disk)
    (x_nfc full_esx).
Proof.
  destruct (@sess_write_read lab_codec lab_codec_ok full_disk 1 1 full_data full_image 200 []
    full_frames full_replies) as [_ [wire Hs]].
  - exact full_ranges.
  - vm_compute. split; by intros.
  - vm_compute. split; by intros.
  - lia.
  - vm_compute. reflexivity.
  - vm_compute. by intros.
  - exact full_write_frames.
  - vm_compute. split; by intros.
  - lia.
  - apply reverse_Permutation.
  - exists wire. split; [by split; [|constructor]|vm_compute; repeat split; by intros|].
    exists lab_nfc_stream, 77, 512, (aio_msg NFC_AIO_MSG_IO 4 [] ++ replies_bytes 5 full_replies), [], [], [].
    split; [exact full_opens|]. split; [exact Hs|].
    split; [vm_compute; split; by intros|]. split; [vm_compute; split; by intros|].
    exact full_stream_ok.
Qed.

Example whole_session_witness :
  exists wire w' news authd nfc d2,
    connect full_connect (fun conn => open conn (str "[ds] b.vmdk") 32 65536 1
      (fun h => on_disk (h_disk h) full_method)) world0 =
      (Ok (mkReadResult 512 wire [], full_data), w') /\
    socks w' = [] ++ news /\ Forall (fun s => closed s = true) news /\
    disks w' = [] ++ [d2] /\ _closed (fst d2) = true /\
    authd ∈ news /\ tx authd = [] ++ authd_requests full_esx /\
    snd d2 = pred (length (socks w')) /\ last news = Some nfc /\
    tx nfc = [] ++ session_frames full_args (ascii "[ds] b.vmdk")
      (full_frames ++ [read_request (set_op_id 5 full_disk) 1 1]) (set_op_id 6 full_disk) /\
    log w' = [] ++ [Login 1; TicketCall (RandomAccessOpen (str "vm-7") 2001 (str "host-1")); Logout 1].
Proof.
  destruct full_session_serves as [wire Hs]. exists wire.
  apply (@whole_session full_env ascii_unicode ascii_unicode_ok lab_codec (ReadResult * bytes)
    full_connect 1 (str "nbdssl") (str "vm-7") (str "[ds] b.vmdk") 32 65536 1 NFC_COMPRESSION_FASTLZ
    (ascii "[ds] b.vmdk") full_esx lab_ticket (RandomAccessOpen (str "vm-7") 2001 (str "host-1"))
    (fun h => on_disk (h_disk h) full_method) full_method (mkReadResult 512 wire [], full_data)
    (full_frames ++ [read_request (set_op_id 5 full_disk) 1 1]) (set_op_id 6 full_disk) world0).
  - vm_compute. reflexivity.
  - vm_compute. reflexivity.
  - vm_compute. reflexivity.
  - reflexivity.
  - exact full_login.
  - exact full_vcenter.
  - exact full_serves.
  - exact Hs.
  - by intros h w Hw.
  - intros H. discriminate H.
Defined.
