(* ===== verification/DeviceSession.v ===== *)
(** The block device through the handle: a program that reads and writes
    inside the [with] blocks of [VixDiskLibHandle.connect] and
    [VixDiskLibHandle.open], from the login to the logout. *)
From Stdlib Require Import ZArith Lia String.
From stdpp Require Import base list numbers sets.
From coqutil Require Import Byte Word.LittleEndianList.
Import LittleEndianList.
From S2P Require Import Prelude Python PyStr Socket Codec Fastlz Wire Disk DiskTheorems DiskRead ReadSpec ReadLoop ReadInto DiskWrite WriteSpec Server WriteTheorems BlockDevice OpenDisk NfcTypes World Thumbprint Lab Authd NfcSocket Vim Session Handle Scope HandleTheorems Run EndToEnd WholeSession.

(** * The program *)

Section Program.
Context {C : Codec}.

(** A read goes into a fresh buffer of the caller. *)
Definition handle_op (h : _DiskHandle) (op : device_op) : M world (option bytes) :=
  match op with
  | DevWrite start n data => write_handle h start n data;; mret None
  | DevRead start n =>
      data ← (buf ← lift (get_buffer (n * VIXDISKLIB_SECTOR_SIZE));
              r ← with_local buf (read_handle h start n false false);
              mret (snd r));
      mret (Some data)
  end.

Fixpoint handle_program (ops : list device_op) (h : _DiskHandle) : M world (list (option bytes)) :=
  match ops with
  | [] => mret []
  | op :: ops' => r ← handle_op h op; rs ← handle_program ops' h; mret (r :: rs)
  end.

(** The same on the disk object. *)
#[local] Instance handle_ops : BlockOps := {|
  block_write start n data := write start n (py_slice 0 (n * VIXDISKLIB_SECTOR_SIZE) data);
  block_read start n :=
    buf ← lift (get_buffer (n * VIXDISKLIB_SECTOR_SIZE));
    r ← with_buffer buf (readinto start n false false);
    mret (snd r)
|}.

#[local] Instance handle_ops_ok {COk : CodecOk C} : BlockOpsOk VIXDISKLIB_SECTOR_SIZE handle_ops.
Proof.
  split.
  - intros d start n data frames ack [Hh _ _ Hb _] Hop Ess (Hn & Ho & Hl & _) Hlen Hfr Ha s r Hs Hp Hf.
    cbn [block_write handle_ops]. rewrite <- Ess in *.
    replace (py_slice 0 (n * sector_size d) data) with data by
      (unfold py_slice; rewrite (proj2 (Z.ltb_ge _ _)) by (unfold fits32 in *; lia); by rewrite slice_full).
    by eapply write_ok.
  - intros d start n image k rs [Hh Hc _ _ _] Hop Ess (Hn & Ho & Hl & Hi) Hk Hp.
    cbn [block_read handle_ops]. rewrite <- Ess in *.
    eapply (sess_bind _ _ d d _ [] _ _ [] _ _ (zeros (n * sector_size d)));
      [apply sess_lift; unfold get_buffer, fits32 in *; by rewrite (proj2 (Z.ltb_ge _ _)) by lia| |done..].
    destruct (sess_read_back d start n image k rs) as [wire Hse]; try done.
    eapply sess_bind; [exact Hse|apply sess_ret|..]; by rewrite app_nil_r.
Qed.

Lemma acts_op h op : acts (h_disk h) (handle_op h op) (run_device_op op).
Proof.
  destruct op as [start n data|start n]; cbn [handle_op run_device_op].
  - apply acts_bind; [apply acts_write|intros; apply acts_ret].
  - apply acts_bind; [|intros; apply acts_ret]. apply acts_bind; [apply acts_lift|intros buf].
    apply acts_bind; [apply acts_read|intros; apply acts_ret].
Qed.

Lemma acts_program h ops : acts (h_disk h) (handle_program ops h) (run_device ops).
Proof.
  induction ops as [|op ops IH]; [apply acts_ret|]. cbn [handle_program run_device].
  apply acts_bind; [apply acts_op|]. intros r. apply acts_bind; [exact IH|intros; apply acts_ret].
Qed.

(** The disk that [open] hands to the program. *)
Lemma opened_device flags path bs bc cmp path_b replies h :
  _nfc_compression flags = Ok cmp ->
  opens (checked_args path flags bs bc cmp) path_b replies h VIXDISKLIB_SECTOR_SIZE ->
  device_session (opened_disk (checked_args path flags bs bc cmp) h VIXDISKLIB_SECTOR_SIZE).
Proof.
  intros Hcmp (? & ? & ? & ? & ? & ? & reply & _ & _ & Hbs & _ & [_ _ _ _ Ho] & _).
  apply parse_open_reply_inv in Ho as [Hh _]. split; cbn; [done| |done|apply Hbs|lia].
  rewrite nfc_compression_spec in Hcmp.
  destruct (wants_zlib flags), (wants_fastlz flags), (wants_skipz flags); by simplify_eq.
Qed.

(** The program as a conversation of the session. *)
Lemma program_serves {COk : CodecOk C} flags path bs bc cmp path_b replies h k ops reqs image image'
    answer g0 g1 rest s :
  let oa := checked_args path flags bs bc cmp in
  let d := opened_disk oa h VIXDISKLIB_SECTOR_SIZE in
  _nfc_compression flags = Ok cmp -> opens oa path_b replies h VIXDISKLIB_SECTOR_SIZE ->
  1 <= k -> Z.of_nat (length ops) < 2 ^ 32 - 8 ->
  Forall (device_ok VIXDISKLIB_SECTOR_SIZE (len image)) ops -> asks d ops reqs ->
  answers k h 4 image reqs answer image' -> fits32 (len g0) -> fits32 (len g1) -> healthy s ->
  flat (rx s) =
    (Some <$> replies ++ answer ++ goodbye_replies (4 + Z.of_nat (length ops)) g0 g1) ++ rest ->
  exists results, device_run VIXDISKLIB_SECTOR_SIZE image ops = (image', results) /\
    serves oa path_b (run_device ops) results (reqs ≫= id) (set_op_id (4 + Z.of_nat (length ops)) d) s.
Proof.
  intros oa d Hcmp Ho Hk Hlen Hok Ha Han Hg0 Hg1 Hs Hf.
  pose proof (opened_device flags path bs bc cmp path_b replies h Hcmp Ho) as Hd.
  destruct (sess_device VIXDISKLIB_SECTOR_SIZE k ops reqs d image answer image' Hk Hd eq_refl)
    as (results & Er & Hse); [cbn; lia|done..|].
  exists results. split; [done|]. split; [done| |].
  - split; [done|]. split; [apply Hd|]. split; unfold fits32; cbn; lia.
  - by exists replies, h, VIXDISKLIB_SECTOR_SIZE, answer, g0, g1, rest.
Qed.
End Program.

(** * The property *)

(** C4: a program that makes any sequence of reads and writes through the handle,
    from the login to the logout, sees a block device.  Over peers that answer
    and a reference server that sees only the client's messages, with a disk of
    512-byte sectors, every call returns, each read with what the device holds
    at that moment; the server is left with the device's image; the NFC socket
    carried the handshake, the open, the messages of the calls and the goodbye;
    every socket made is closed; and the log is one login, one ticket, one
    logout. *)
Theorem handle_is_block_device {E : Env} {U : Unicode} {UOk : UnicodeOk U} {C : Codec} {COk : CodecOk C}
    a si mode vm path flags bs bc cmp path_b x t c replies h k ops reqs image image' answer g0 g1 rest w :
  let ro := negb (Z.land flags VIXDISKLIB_FLAG_OPEN_READ_ONLY =? 0) in
  let oa := checked_args path flags bs bc cmp in
  let d := opened_disk oa h VIXDISKLIB_SECTOR_SIZE in
  _select_transport (ca_transport_modes a) = Ok mode -> _parse_vm_moref (ca_vmx_spec a) = Ok vm ->
  _nfc_compression flags = Ok cmp -> negb ro && ca_read_only a = false ->
  vcenter_login a si -> vcenter_serves si vm path ro c t ->
  esx_serves x t (ca_allow_untrusted a) (str_eqb mode (str "nbdssl")) ->
  opens oa path_b replies h VIXDISKLIB_SECTOR_SIZE ->
  1 <= k -> Z.of_nat (length ops) < 2 ^ 32 - 8 ->
  Forall (device_ok VIXDISKLIB_SECTOR_SIZE (len image)) ops -> asks d ops reqs ->
  answers k h 4 image reqs answer image' -> fits32 (len g0) -> fits32 (len g1) -> healthy (x_nfc x) ->
  flat (rx (x_nfc x)) =
    (Some <$> replies ++ answer ++ goodbye_replies (4 + Z.of_nat (length ops)) g0 g1) ++ rest ->
  ready w ->
  exists results w' news nfc,
    device_run VIXDISKLIB_SECTOR_SIZE image ops = (image', results) /\
    connect a (fun conn => open conn path flags bs bc (handle_program ops)) w = (Ok results, w') /\
    socks w' = socks w ++ news /\ Forall (fun s => closed s = true) news /\ last news = Some nfc /\
    tx nfc = tx (x_nfc x) ++
      session_frames oa path_b (reqs ≫= id) (set_op_id (4 + Z.of_nat (length ops)) d) /\
    log w' = log w ++ [Login si; TicketCall c; Logout si].
Proof.
  intros ro oa d Hmode Hvm Hcmp Hro Hlogin Hv Hx Ho Hk Hlen Hok Ha Han Hg0 Hg1 Hs Hf Hready.
  destruct (program_serves flags path bs bc cmp path_b replies h k ops reqs image image' answer g0 g1 rest
    (x_nfc x)) as (results & Er & Hse); try done.
  destruct (whole_session_of a si mode vm path flags bs bc cmp path_b x t c (handle_program ops) _ results _ _ w
    Hmode Hvm Hcmp Hro Hlogin Hv Hx Hse (fun h => acts_program h ops) Hready)
    as (w' & news & authd & nfc & d2 & E1 & S & Fc & _ & _ & _ & _ & _ & Hl & T & G).
  exists results, w', news, nfc. by split_and!.
Qed.

(** * Witness *)

(** The session of [written_data_comes_back_witness] as a program of the device. *)
Definition full_ops : list device_op := [DevWrite 1 1 full_data; DevRead 1 1].

Definition full_reqs : list (list bytes) := [full_frames; [read_request (set_op_id 5 full_disk) 1 1]].

Lemma full_asks : @asks lab_codec full_disk full_ops full_reqs.
Proof. apply asks_write; [exact full_write_frames|]. apply asks_read, asks_nil. Qed.

Lemma full_answers :
  @answers lab_codec 200 77 4 full_image full_reqs
    (aio_msg NFC_AIO_MSG_IO 4 [] ++ replies_bytes 5 full_replies ++ []) (splice 512 full_data full_image).
Proof.
  eapply (@answers_write lab_codec 200 77 4); [vm_compute; reflexivity..| |]; [vm_compute; split; by intros|].
  eapply (@answers_read lab_codec 200 77 5); [vm_compute; reflexivity|apply reverse_Permutation|].
  constructor.
Qed.

Example handle_is_block_device_witness :
  exists results w' news nfc,
    device_run 512 full_image full_ops = (splice 512 full_data full_image, results) /\
    @connect full_env ascii_unicode _ full_connect (fun conn => @open full_env ascii_unicode _ conn
      (str "[ds] b.vmdk") 32 65536 1 (@handle_program lab_codec full_ops)) world0 = (Ok results, w') /\
    socks w' = [] ++ news /\ Forall (fun s => closed s = true) news /\ last news = Some nfc /\
    tx nfc = [] ++ session_frames full_args (ascii "[ds] b.vmdk") (full_reqs ≫= id) (set_op_id 6 full_disk) /\
    log w' = [] ++ [Login 1; TicketCall (RandomAccessOpen (str "vm-7") 2001 (str "host-1")); Logout 1].
Proof.
  apply (@handle_is_block_device full_env ascii_unicode ascii_unicode_ok lab_codec lab_codec_ok
    full_connect 1 (str "nbdssl") (str "vm-7") (str "[ds] b.vmdk") 32 65536 1 NFC_COMPRESSION_FASTLZ
    (ascii "[ds] b.vmdk") full_esx lab_ticket (RandomAccessOpen (str "vm-7") 2001 (str "host-1"))
    lab_nfc_stream 77 200 full_ops full_reqs full_image (splice 512 full_data full_image)
    (aio_msg NFC_AIO_MSG_IO 4 [] ++ replies_bytes 5 full_replies ++ []) [] [] [] world0).
  - vm_compute. reflexivity.
  - vm_compute. reflexivity.
  - vm_compute. reflexivity.
  - reflexivity.
  - exact full_login.
  - exact full_vcenter.
  - exact full_serves.
  - exact full_opens.
  - lia.
  - by vm_compute.
  - repeat constructor; vm_compute; try (split; by intros); by intros.
  - exact full_asks.
  - exact full_answers.
  - vm_compute. split; by intros.
  - vm_compute. split; by intros.
  - by split; [|constructor].
  - rewrite app_nil_r. exact full_stream_ok.
  - intros H. discriminate H.
Defined.
