(* ===== verification/TwoDisks.v ===== *)
(** Two disks over one connection: a program that opens a second disk inside
    the [with] block of the first, and interleaves reads and writes of both. *)
From Stdlib Require Import ZArith Lia String.
From stdpp Require Import base list numbers sets.
From coqutil Require Import Byte Word.LittleEndianList.
Import LittleEndianList.
From S2P Require Import Prelude Python PyStr Socket Codec Fastlz Wire Disk DiskTheorems DiskRead ReadSpec ReadLoop ReadInto DiskWrite WriteSpec Server WriteTheorems BlockDevice OpenDisk NfcTypes World Thumbprint Lab Authd NfcSocket Vim Session Handle Scope HandleTheorems Run EndToEnd WholeSession DeviceSession.

(** * The program *)

Section Program.
Context {C : Codec}.

(** Operations on the first disk ([true]) and on the second, in the order of
    the program. *)
Fixpoint two_disk_program (ops : list (bool * device_op)) (h1 h2 : _DiskHandle) :
    M world (list (option bytes)) :=
  match ops with
  | [] => mret []
  | (first, op) :: ops' =>
      r ← handle_op (if first then h1 else h2) op;
      rs ← two_disk_program ops' h1 h2;
      mret (r :: rs)
  end.
End Program.

(** What belongs to one of the disks. *)
Definition ops_on (first : bool) (ops : list (bool * device_op)) : list device_op :=
  snd <$> filter (fun p => fst p = first) ops.

Definition results_on (first : bool) (ops : list (bool * device_op)) (rs : list (option bytes)) :
    list (option bytes) :=
  snd <$> filter (fun p => fst p = first) (zip (fst <$> ops) rs).

(** The results of both in the order of the program. *)
Fixpoint merge (ops : list (bool * device_op)) (r1 r2 : list (option bytes)) : list (option bytes) :=
  match ops, r1, r2 with
  | (true, _) :: ops', r :: r1', _ => r :: merge ops' r1' r2
  | (false, _) :: ops', _, r :: r2' => r :: merge ops' r1 r2'
  | _, _, _ => []
  end.

(** * Lemmas: interleaving *)

Lemma ops_on_cons b first op ops :
  ops_on b ((first, op) :: ops) = if Bool.eqb first b then op :: ops_on b ops else ops_on b ops.
Proof. unfold ops_on. by destruct first, b. Qed.

Lemma results_on_cons b first op ops r rs :
  results_on b ((first, op) :: ops) (r :: rs) =
  if Bool.eqb first b then r :: results_on b ops rs else results_on b ops rs.
Proof. unfold results_on. by destruct first, b. Qed.

(** Each operation has a result. *)
Lemma device_run_length z image ops image' rs :
  device_run z image ops = (image', rs) -> length rs = length ops.
Proof.
  revert image image' rs. induction ops as [|op ops IH]; intros image image' rs; cbn [device_run];
    [by intros [= <- <-]|].
  destruct (device_step z image op) as [im r]. destruct (device_run z im ops) as [im' rs'] eqn:Er.
  intros [= <- <-]. cbn. f_equal. by eapply IH.
Qed.

Lemma results_on_merge ops r1 r2 :
  length r1 = length (ops_on true ops) -> length r2 = length (ops_on false ops) ->
  results_on true ops (merge ops r1 r2) = r1 /\ results_on false ops (merge ops r1 r2) = r2.
Proof.
  revert r1 r2. induction ops as [|[b op] ops IH]; intros r1 r2.
  - by destruct r1, r2.
  - rewrite !ops_on_cons. destruct b; cbn [Bool.eqb].
    + destruct r1 as [|r r1]; [done|].
      intros [= L1] L2. destruct (IH r1 r2 L1 L2) as [R1 R2]. cbn [merge].
      rewrite !results_on_cons. cbn. by rewrite R1.
    + destruct r2 as [|r r2]; [by destruct r1|].
      intros L1 [= L2]. destruct (IH r1 r2 L1 L2) as [R1 R2].
      replace (merge ((false, op) :: ops) r1 (r :: r2)) with (r :: merge ops r1 r2) by (by destruct r1).
      rewrite !results_on_cons. cbn. by rewrite R2.
Qed.

Section Interleaving.
Context {E : Env} {U : Unicode} {C : Codec}.

Lemma run_device_cons (B : BlockOps) op ops st rs st' :
  @run_device B (op :: ops) st = (Ok rs, st') ->
  exists r st1 rs1, @run_device_op B op st = (Ok r, st1) /\ @run_device B ops st1 = (Ok rs1, st') /\ rs = r :: rs1.
Proof.
  cbn [run_device]. intros (r & st1 & Hr & H)%bind_inv_ok.
  apply bind_inv_ok in H as (rs1 & st2 & Hrs & [-> ->]%ret_inv_ok). eauto 6.
Qed.

(** Each disk sees its own operations only, whatever the interleaving. *)
Lemma runs_two_disks h1 h2 i1 i2 ops d1 s1 d2 s2 r1 r2 d1' s1' d2' s2' ss ds l :
  h_disk h1 <> h_disk h2 -> i1 <> i2 ->
  ds !! h_disk h1 = Some (d1, i1) -> ds !! h_disk h2 = Some (d2, i2) ->
  ss !! i1 = Some s1 -> ss !! i2 = Some s2 ->
  @run_device handle_ops (ops_on true ops) (d1, s1) = (Ok r1, (d1', s1')) ->
  @run_device handle_ops (ops_on false ops) (d2, s2) = (Ok r2, (d2', s2')) ->
  runs (two_disk_program ops h1 h2) (View ss ds l) (merge ops r1 r2)
    (View (<[i2 := s2']> (<[i1 := s1']> ss))
      (<[h_disk h2 := (d2', i2)]> (<[h_disk h1 := (d1', i1)]> ds)) l).
Proof.
  intros Hh Hi. revert d1 s1 d2 s2 r1 r2 ss ds.
  induction ops as [|[b op] ops IH]; intros d1 s1 d2 s2 r1 r2 ss ds K1 K2 I1 I2 E1 E2.
  - injection E1 as <- <- <-. injection E2 as <- <- <-.
    rewrite !list_insert_id; try done; try (rewrite list_lookup_insert_ne; done). apply runs_ret.
  - rewrite ops_on_cons in E1, E2. destruct b; cbn [Bool.eqb] in E1, E2.
    + apply run_device_cons in E1 as (r & [da sa] & rs1 & Er & E1 & ->).
      pose proof (runs_acts _ _ _ r d1 s1 da sa i1 ss ds l (acts_op h1 op) K1 I1 Er) as Hr.
      apply lookup_lt_Some in K1 as K1', I1 as I1'.
      opose proof (IH da sa d2 s2 rs1 r2 (<[i1 := sa]> ss) (<[h_disk h1 := (da, i1)]> ds) _ _ _ _ _ _) as Hrs;
        [by apply list_lookup_insert_eq|by rewrite list_lookup_insert_ne|by apply list_lookup_insert_eq
        |by rewrite list_lookup_insert_ne|exact E1|exact E2|].
      rewrite !list_insert_insert_eq in Hrs.
      cbn [two_disk_program]. eapply runs_bind; [exact Hr|]. eapply runs_bind; [exact Hrs|apply runs_ret].
    + apply run_device_cons in E2 as (r & [da sa] & rs1 & Er & E2 & ->).
      pose proof (runs_acts _ _ _ r d2 s2 da sa i2 ss ds l (acts_op h2 op) K2 I2 Er) as Hr.
      apply lookup_lt_Some in K2 as K2', I2 as I2'.
      opose proof (IH d1 s1 da sa r1 rs1 (<[i2 := sa]> ss) (<[h_disk h2 := (da, i2)]> ds) _ _ _ _ _ _) as Hrs;
        [by rewrite list_lookup_insert_ne|by apply list_lookup_insert_eq|by rewrite list_lookup_insert_ne
        |by apply list_lookup_insert_eq|exact E1|exact E2|].
      rewrite (list_insert_insert_ne ss), (list_insert_insert_ne ds), !list_insert_insert_eq in Hrs by done.
      cbn [two_disk_program]. eapply runs_bind; [exact Hr|]. eapply runs_bind; [exact Hrs|apply runs_ret].
Qed.
End Interleaving.

(** * A disk and its server *)

(** What is opened, the peers that lead to it, the server's answers, and the
    image before and after. *)
Record remote := mkRemote {
  rm_path : pystr;
  rm_flags : Z;
  rm_bs : Z;
  rm_bc : Z;
  rm_compression : Z;
  rm_path_b : bytes;
  rm_esx : esx;
  rm_ticket : ticket;
  rm_call : nfc_call;
  rm_replies : bytes;
  rm_handle : Z;
  rm_k : Z;
  rm_reqs : list (list bytes);
  rm_image : bytes;
  rm_final : bytes;
  rm_answer : bytes;
  rm_goodbye : bytes * bytes;
  rm_rest : list (option byte)
}.

Definition rm_read_only (r : remote) : bool :=
  negb (Z.land (rm_flags r) VIXDISKLIB_FLAG_OPEN_READ_ONLY =? 0).

Definition rm_args (r : remote) : open_args :=
  checked_args (rm_path r) (rm_flags r) (rm_bs r) (rm_bc r) (rm_compression r).

Definition rm_disk (r : remote) : NfcDisk := opened_disk (rm_args r) (rm_handle r) VIXDISKLIB_SECTOR_SIZE.

(** The messages of the whole session of the disk. *)
Definition rm_frames (r : remote) (ops : list device_op) : list bytes :=
  session_frames (rm_args r) (rm_path_b r) (rm_reqs r ≫= id)
    (set_op_id (4 + Z.of_nat (length ops)) (rm_disk r)).

Section Remote.
Context {E : Env} {U : Unicode} {UOk : UnicodeOk U} {C : Codec} {COk : CodecOk C}.

Record remote_serves (a : connect_args) (si : Z) (mode vm : pystr) (r : remote) (ops : list device_op) :
    Prop := {
  rs_compression : _nfc_compression (rm_flags r) = Ok (rm_compression r);
  rs_access : negb (rm_read_only r) && ca_read_only a = false;
  rs_vcenter : vcenter_serves si vm (rm_path r) (rm_read_only r) (rm_call r) (rm_ticket r);
  rs_esx : esx_serves (rm_esx r) (rm_ticket r) (ca_allow_untrusted a) (str_eqb mode (str "nbdssl"));
  rs_opens : opens (rm_args r) (rm_path_b r) (rm_replies r) (rm_handle r) VIXDISKLIB_SECTOR_SIZE;
  rs_k : 1 <= rm_k r;
  rs_count : Z.of_nat (length ops) < 2 ^ 32 - 8;
  rs_ops : Forall (device_ok VIXDISKLIB_SECTOR_SIZE (len (rm_image r))) ops;
  rs_asks : asks (rm_disk r) ops (rm_reqs r);
  rs_answers : answers (rm_k r) (rm_handle r) 4 (rm_image r) (rm_reqs r) (rm_answer r) (rm_final r);
  rs_goodbye : fits32 (len (rm_goodbye r).1) /\ fits32 (len (rm_goodbye r).2);
  rs_healthy : healthy (x_nfc (rm_esx r));
  rs_stream : flat (rx (x_nfc (rm_esx r))) =
    (Some <$> rm_replies r ++ rm_answer r ++
      goodbye_replies (4 + Z.of_nat (length ops)) (rm_goodbye r).1 (rm_goodbye r).2) ++ rm_rest r
}.

(** The session of one disk, on its socket alone. *)
Lemma remote_session a si mode vm r ops :
  remote_serves a si mode vm r ops ->
  exists results d0 s0 d1 s1 d2 s2,
    device_run VIXDISKLIB_SECTOR_SIZE (rm_image r) ops = (rm_final r, results) /\
    open_disk_checks (rm_args r) = Ok tt /\ open_session (rm_args r) (x_nfc (rm_esx r)) = (Ok d0, s0) /\
    @run_device handle_ops ops (d0, s0) = (Ok results, (d1, s1)) /\
    close (d1, s1) = (Ok tt, (d2, s2)) /\ closed s2 = true /\ _closed d2 = true /\
    tx s2 = tx (x_nfc (rm_esx r)) ++ rm_frames r ops.
Proof.
  intros [Hcmp _ _ _ Ho Hk Hlen Hok Ha Han [Hg0 Hg1] Hs Hf].
  destruct (program_serves (rm_flags r) (rm_path r) (rm_bs r) (rm_bc r) (rm_compression r) (rm_path_b r)
    (rm_replies r) (rm_handle r) (rm_k r) ops (rm_reqs r) (rm_image r) (rm_final r) (rm_answer r)
    (rm_goodbye r).1 (rm_goodbye r).2 (rm_rest r) (x_nfc (rm_esx r))) as (results & Er & Hse); try done.
  destruct (nfc_session _ _ _ _ _ _ _ _ _ _ _ Hse) as (d0 & s0 & s1 & d2 & s2 & Eo & Em & Ec & Et & Hc2 & Hd2).
  exists results, d0, s0. eexists _, s1, d2, s2. split_and!; try done. by eapply serves_checks.
Qed.
End Remote.

(** * The nested blocks *)

Section Nested.
Context {E : Env} {U : Unicode} {UOk : UnicodeOk U} {C : Codec} {COk : CodecOk C}.

(** [with handle.open(conn, ...) as h1: with handle.open(conn, ...) as h2: ...] *)
Definition two_disks (r1 r2 : remote) (ops : list (bool * device_op)) (conn : _Connection) :
    M world (list (option bytes)) :=
  open conn (rm_path r1) (rm_flags r1) (rm_bs r1) (rm_bc r1) (fun h1 =>
    open conn (rm_path r2) (rm_flags r2) (rm_bs r2) (rm_bc r2) (fun h2 => two_disk_program ops h1 h2)).

(** What the two blocks leave: closed sockets only, among them the two NFC
    sockets with their sessions. *)
Definition two_sessions (r1 r2 : remote) (ops : list (bool * device_op)) (news : list sock) : Prop :=
  Forall (fun s => closed s = true) news /\
  (exists nfc1, nfc1 ∈ news /\ tx nfc1 = tx (x_nfc (rm_esx r1)) ++ rm_frames r1 (ops_on true ops)) /\
  (exists nfc2, nfc2 ∈ news /\ tx nfc2 = tx (x_nfc (rm_esx r2)) ++ rm_frames r2 (ops_on false ops)).

Lemma insert_two {A} (l m : list A) x x' y y' i j :
  i = length l -> j = length (l ++ x :: m) ->
  <[j := y']> (<[i := x']> ((l ++ x :: m) ++ [y])) = (l ++ x' :: m) ++ [y'].
Proof.
  intros -> ->. rewrite <- (app_assoc l (x :: m)). cbn [app]. rewrite insert_here by done.
  rewrite app_comm_cons, app_assoc, insert_here by (rewrite !length_app; done). done.
Qed.

(** The inner block: the first disk is there, and is taken from [d0], [s0] to
    [d1], [s1]. *)
Lemma runs_inner a si mode vm r2 q1 q2 ops d0 s0 d1 s1 e0 t0 e1 t1 e2 t2 h1 ss ds l :
  let conn := mkConnection si vm (ca_snapshot_ref a) (ca_thumbprint a) (ca_allow_untrusted a)
    (ca_read_only a) mode in
  remote_serves a si mode vm r2 (ops_on false ops) ->
  @run_device handle_ops (ops_on true ops) (d0, s0) = (Ok q1, (d1, s1)) ->
  open_disk_checks (rm_args r2) = Ok tt -> open_session (rm_args r2) (x_nfc (rm_esx r2)) = (Ok e0, t0) ->
  @run_device handle_ops (ops_on false ops) (e0, t0) = (Ok q2, (e1, t1)) ->
  close (e1, t1) = (Ok tt, (e2, t2)) -> closed t2 = true -> h_disk h1 = length ds ->
  exists news newds, Forall (fun s => closed s = true) news /\ t2 ∈ news /\
    runs (open conn (rm_path r2) (rm_flags r2) (rm_bs r2) (rm_bc r2)
        (fun h2 => two_disk_program ops h1 h2))
      (View (ss ++ [s0]) (ds ++ [(d0, length ss)]) l) (merge ops q1 q2)
      (View ((ss ++ [s1]) ++ news) ((ds ++ [(d1, length ss)]) ++ newds) (l ++ [TicketCall (rm_call r2)])).
Proof.
  intros conn H2 M1 K2 O2 M2 C2 Cl2 Hh. pose proof H2 as [Hcmp Hro Hv Hx _ _ _ _ _ _ _ _ _].
  destruct (runs_open_with conn (rm_path r2) (rm_flags r2) (rm_bs r2) (rm_bc r2) (rm_compression r2)
    (rm_esx r2) (rm_ticket r2) (rm_call r2) (fun h2 => two_disk_program ops h1 h2) (merge ops q1 q2)
    e0 t0 e1 t1 e2 t2 (fun news newds => news = [] /\ newds = []) (ss ++ [s0]) (ss ++ [s1])
    (ds ++ [(d0, length ss)]) (ds ++ [(d1, length ss)]) l (l ++ [TicketCall (rm_call r2)]))
    as (raw & authd & mid & ? & ? & Hraw & Hau & Hmid & [-> ->] & _ & Hr); try done.
  { by rewrite !length_app. }
  { by rewrite !length_app. }
  { intros h2 pre Hh2. exists [], []. split; [done|].
    rewrite length_app in Hh2. cbn in Hh2. set (i2 := length ((ss ++ [s0]) ++ pre)).
    assert (length ss < i2)%nat by (unfold i2; rewrite !length_app; cbn; lia).
    opose proof (runs_two_disks h1 h2 (length ss) i2 ops d0 s0 e0 t0 q1 q2 d1 s1 e1 t1
      (((ss ++ [s0]) ++ pre) ++ [t0]) ((ds ++ [(d0, length ss)]) ++ [(e0, i2)])
      (l ++ [TicketCall (rm_call r2)]) _ _ _ _ _ _ _ _) as Hr; [lia|lia| | | | |exact M1|exact M2|].
    - rewrite <- app_assoc. by apply lookup_here.
    - apply lookup_here. rewrite length_app. cbn. lia.
    - rewrite <- !app_assoc. by apply lookup_here.
    - by apply lookup_here.
    - assert (forall s, (ss ++ [s]) ++ pre = ss ++ s :: pre) as Ha by (intros s; by rewrite <- app_assoc).
      rewrite Hh, Hh2, !Ha in Hr. rewrite (insert_two ss pre s0 s1 t0 t1), (insert_two ds []) in Hr
        by (unfold i2; rewrite ?Ha, ?length_app; done).
      rewrite !Ha. exact Hr. }
  eexists (raw :: authd :: mid ++ [t2]), _. split; [|split; [|exact Hr]].
  - constructor; [done|]. constructor; [done|]. apply Forall_app. by repeat constructor.
  - right. right. apply elem_of_app. right. by left.
Qed.

(** Both blocks. *)
Lemma runs_nested a si mode vm r1 r2 ops :
  let conn := mkConnection si vm (ca_snapshot_ref a) (ca_thumbprint a) (ca_allow_untrusted a)
    (ca_read_only a) mode in
  remote_serves a si mode vm r1 (ops_on true ops) -> remote_serves a si mode vm r2 (ops_on false ops) ->
  exists results,
    device_run VIXDISKLIB_SECTOR_SIZE (rm_image r1) (ops_on true ops) =
      (rm_final r1, results_on true ops results) /\
    device_run VIXDISKLIB_SECTOR_SIZE (rm_image r2) (ops_on false ops) =
      (rm_final r2, results_on false ops results) /\
    forall ss ds l, exists news newds, two_sessions r1 r2 ops news /\
      runs (two_disks r1 r2 ops conn) (View ss ds l) results
        (View (ss ++ news) (ds ++ newds) (l ++ [TicketCall (rm_call r1); TicketCall (rm_call r2)])).
Proof.
  intros conn H1 H2.
  destruct (remote_session a si mode vm r1 _ H1)
    as (q1 & d0 & s0 & d1 & s1 & d2 & s2 & D1 & K1 & O1 & M1 & C1 & Cl1 & _ & T1).
  destruct (remote_session a si mode vm r2 _ H2)
    as (q2 & e0 & t0 & e1 & t1 & e2 & t2 & D2 & K2 & O2 & M2 & C2 & Cl2 & _ & T2).
  pose proof H1 as [Hcmp Hro Hv Hx _ _ _ _ _ _ _ _ _].
  destruct (results_on_merge ops q1 q2) as [R1 R2]; [by eapply device_run_length..|].
  exists (merge ops q1 q2). split; [by rewrite R1|]. split; [by rewrite R2|]. intros ss ds l.
  destruct (runs_open_with conn (rm_path r1) (rm_flags r1) (rm_bs r1) (rm_bc r1) (rm_compression r1)
    (rm_esx r1) (rm_ticket r1) (rm_call r1)
    (fun h1 => open conn (rm_path r2) (rm_flags r2) (rm_bs r2) (rm_bc r2)
      (fun h2 => two_disk_program ops h1 h2)) (merge ops q1 q2) d0 s0 d1 s1 d2 s2
    (fun news _ => Forall (fun s => closed s = true) news /\ t2 ∈ news) ss ss ds ds l
    ((l ++ [TicketCall (rm_call r1)]) ++ [TicketCall (rm_call r2)]))
    as (raw & authd & mid & news & newds & Hraw & Hau & Hmid & [Hnews Ht2] & _ & Hr); try done.
  { intros h1 pre Hh1.
    destruct (runs_inner a si mode vm r2 q1 q2 ops d0 s0 d1 s1 e0 t0 e1 t1 e2 t2 h1 (ss ++ pre) ds
      (l ++ [TicketCall (rm_call r1)])) as (news & newds & Hnews & Ht2 & Hr); try done.
    exists news, newds. split; [done|]. by rewrite <- (app_assoc (ss ++ pre)), <- (app_assoc ds) in Hr. }
  eexists _, _. split; [|rewrite <- app_assoc in Hr; exact Hr].
  split_and!.
  - repeat (constructor; [done|]). apply Forall_app. split; [done|]. by constructor.
  - exists s2. split; [|done]. right. right. apply elem_of_app. right. by left.
  - exists t2. split; [|done]. right. right. apply elem_of_app. right. by right.
Qed.
End Nested.

(** * The property *)

(** C5: two disks over one connection, the second opened inside the block of
    the first, are two block devices that do not disturb each other: for any
    interleaving of reads and writes of both, with an ESXi host and a reference
    server per disk that answer (each sees its own disk's messages only), every
    call returns, and each disk's results and final image are those of its own
    operations on its own device.  Both NFC sockets carried their own session
    whole; every socket made, in both blocks, is closed; and the log is one
    login, the two tickets in order, one logout. *)
Theorem two_disks_are_two_devices {E : Env} {U : Unicode} {UOk : UnicodeOk U} {C : Codec}
    {COk : CodecOk C} a si mode vm r1 r2 ops w :
  _select_transport (ca_transport_modes a) = Ok mode -> _parse_vm_moref (ca_vmx_spec a) = Ok vm ->
  vcenter_login a si ->
  remote_serves a si mode vm r1 (ops_on true ops) -> remote_serves a si mode vm r2 (ops_on false ops) ->
  ready w ->
  exists results w' news,
    device_run VIXDISKLIB_SECTOR_SIZE (rm_image r1) (ops_on true ops) =
      (rm_final r1, results_on true ops results) /\
    device_run VIXDISKLIB_SECTOR_SIZE (rm_image r2) (ops_on false ops) =
      (rm_final r2, results_on false ops results) /\
    connect a (two_disks r1 r2 ops) w = (Ok results, w') /\
    socks w' = socks w ++ news /\ two_sessions r1 r2 ops news /\
    log w' = log w ++ [Login si; TicketCall (rm_call r1); TicketCall (rm_call r2); Logout si].
Proof.
  intros Hmode Hvm Hlogin H1 H2 Hready.
  destruct (runs_nested a si mode vm r1 r2 ops H1 H2) as (results & D1 & D2 & Hn).
  destruct (runs_connect a si mode vm (two_disks r1 r2 ops) results
    (fun _ news _ => two_sessions r1 r2 ops news) (socks w) (disks w) (log w)
    [TicketCall (rm_call r1); TicketCall (rm_call r2)] Hmode Hvm Hlogin)
    as (pre & news & newds & Hpre & (Hc & Hs1 & Hs2) & Hrun); [intros pre; apply Hn|].
  destruct (Hrun w) as (w' & Ew & [S D L _]); [by split|]. cbn in S, D, L.
  exists results, w', (pre ++ news). split; [done|]. split; [done|]. split; [exact Ew|].
  split; [by rewrite S, <- app_assoc|]. split; [|by rewrite L, <- !app_assoc].
  split; [by apply Forall_app|]. split.
  - destruct Hs1 as (nfc1 & Hin & ?). exists nfc1. split; [apply elem_of_app; by right|done].
  - destruct Hs2 as (nfc2 & Hin & ?). exists nfc2. split; [apply elem_of_app; by right|done].
Qed.

(** * Witness *)

(** The disk of [handle_is_block_device_witness], and a second one of two
    sectors on another host, opened read-only and without compression; the two
    programs interleave. *)
Definition duo_ops : list (bool * device_op) :=
  [(true, DevWrite 1 1 full_data); (false, DevRead 1 1); (true, DevRead 1 1)].

Definition duo1 : remote := {|
  rm_path := str "[ds] b.vmdk";
  rm_flags := 32;
  rm_bs := 65536;
  rm_bc := 1;
  rm_compression := NFC_COMPRESSION_FASTLZ;
  rm_path_b := ascii "[ds] b.vmdk";
  rm_esx := full_esx;
  rm_ticket := lab_ticket;
  rm_call := RandomAccessOpen (str "vm-7") 2001 (str "host-1");
  rm_replies := lab_nfc_stream;
  rm_handle := 77;
  rm_k := 200;
  rm_reqs := full_reqs;
  rm_image := full_image;
  rm_final := splice 512 full_data full_image;
  rm_answer := aio_msg NFC_AIO_MSG_IO 4 [] ++ replies_bytes 5 full_replies ++ [];
  rm_goodbye := ([], []);
  rm_rest := []
|}.

Definition duo_ticket : ticket :=
  mkTicket (str "esx2") None (Some lab_thumbprint) (Some (str "vpxa-nfc")) (str "52ac").

Definition duo_disk : NfcDisk :=
  opened_disk (checked_args (str "[ds] a.vmdk") 4 65536 1 NFC_COMPRESSION_NONE) 77 512.

Definition duo_image : bytes := zeros 512 ++ full_data.

Definition duo_request : bytes := read_request duo_disk 1 1.

(** In fragments of 300 bytes. *)
Definition duo_answer : bytes :=
  replies_bytes 4 (@serve_read lab_codec 300 duo_image (read_payload duo_disk 1 1)) ++ [].

Definition duo_stream : bytes := lab_nfc_stream ++ duo_answer ++ goodbye_replies 5 [] [].

Definition duo_esx : esx := {|
  x_raw := x_raw full_esx;
  x_authd := x_authd full_esx;
  x_dup := x_dup full_esx;
  x_nfc := Sock [RxData (take 600 duo_stream); RxData (drop 600 duo_stream)] [] [] false false;
  x_banner := full_banner;
  x_l1 := full_hello;
  x_l2 := full_ok;
  x_l3 := full_ok;
  x_session := ascii_line "SESSION 52ac";
  x_proxy := ascii_line "PROXY vpxa-nfcssl"
|}.

Definition duo2 : remote := {|
  rm_path := str "[ds] a.vmdk";
  rm_flags := 4;
  rm_bs := 65536;
  rm_bc := 1;
  rm_compression := NFC_COMPRESSION_NONE;
  rm_path_b := ascii "[ds] a.vmdk";
  rm_esx := duo_esx;
  rm_ticket := duo_ticket;
  rm_call := GetVmFiles (str "vm-7");
  rm_replies := lab_nfc_stream;
  rm_handle := 77;
  rm_k := 300;
  rm_reqs := [[duo_request]];
  rm_image := duo_image;
  rm_final := duo_image;
  rm_answer := duo_answer;
  rm_goodbye := ([], []);
  rm_rest := []
|}.

(** vCenter gives a ticket for each host; the hosts differ in the NFC socket. *)
Definition duo_env : Env := {|
  env_create_connection := @env_create_connection full_env;
  env_default_context := @env_default_context full_env;
  env_wrap n c s host :=
    if str_eqb host (str "esx2") then
      inr (match tx_plan s with [] => x_authd duo_esx | _ => x_nfc duo_esx end)
    else @env_wrap full_env n c s host;
  env_peercert := @env_peercert full_env;
  env_dup := @env_dup full_env;
  env_sockopt := @env_sockopt full_env;
  env_service_versions := @env_service_versions full_env;
  env_smart_connect := @env_smart_connect full_env;
  env_disconnect := @env_disconnect full_env;
  env_get_vmodl_type := @env_get_vmodl_type full_env;
  env_create_managed_type := @env_create_managed_type full_env;
  env_devices := @env_devices full_env;
  env_host := @env_host full_env;
  env_nfc_call _ _ c := inr (match c with RandomAccessOpen _ _ _ => lab_ticket | _ => duo_ticket end);
  env_digest := @env_digest full_env
|}.

#[local] Existing Instance duo_env.
#[local] Existing Instance ascii_unicode.
#[local] Existing Instance lab_codec.

Lemma duo_trusts : trusts false (Some lab_thumbprint).
Proof. destruct full_trusts as [H|H]; [by left|by right]. Qed.

Lemma duo_login : vcenter_login full_connect 1.
Proof. destruct full_login as [P C V S D]. split; [exact P|exact C|exact V|exact S|exact D]. Qed.

Lemma duo_first : remote_serves full_connect 1 (str "nbdssl") (str "vm-7") duo1 (ops_on true duo_ops).
Proof.
  split.
  - vm_compute. reflexivity.
  - reflexivity.
  - destruct full_vcenter as [D S C R T]. split; [exact D|exact S|exact C|exact R|done].
  - destruct full_serves as [D C S R B W T P1 P2 L G A U N]. by split.
  - exact full_opens.
  - cbn. lia.
  - by vm_compute.
  - repeat constructor; vm_compute; try (split; by intros); by intros.
  - exact full_asks.
  - exact full_answers.
  - split; vm_compute; split; by intros.
  - by split; [|constructor].
  - change (rm_answer duo1) with (aio_msg NFC_AIO_MSG_IO 4 [] ++ replies_bytes 5 full_replies ++ []).
    rewrite (app_nil_r (replies_bytes _ _)). exact full_stream_ok.
Qed.

Lemma duo_serves : esx_serves duo_esx duo_ticket false true.
Proof.
  destruct full_serves as [D C S R B W T P1 P2 L G A U N]. split; try done.
  - intros n s Tk. unfold env_wrap, duo_env. cbn [str_eqb].
    destruct (talk_plan _ _ _ _ Tk) as [k ->]. cbn [duo_esx full_esx x_raw lab_sock tx_plan].
    by rewrite drop_nil.
Qed.

Lemma duo_second : remote_serves full_connect 1 (str "nbdssl") (str "vm-7") duo2 (ops_on false duo_ops).
Proof.
  split.
  - vm_compute. reflexivity.
  - reflexivity.
  - destruct full_vcenter as [D S C R T]. split; [exact D|exact S|exact C|done|done].
  - exact duo_serves.
  - exists [], (le_split 4 11), [], [], [], [], lab_open_reply.
    split_and!; try (vm_compute; reflexivity); try (vm_compute; by intros).
  - cbn. lia.
  - by vm_compute.
  - repeat constructor; vm_compute; try (split; by intros); by intros.
  - apply asks_read, asks_nil.
  - eapply (@answers_read lab_codec 300 77 4); [vm_compute; reflexivity|by vm_compute|constructor].
  - split; vm_compute; split; by intros.
  - by split; [|constructor].
  - cbn [rm_esx duo2 duo_esx x_nfc rx]. rewrite !flat_cons. cbn [flat1].
    change (flat []) with ([] : list (option byte)).
    rewrite app_nil_r, <- fmap_app, take_drop. cbn [rm_rest]. by rewrite app_nil_r.
Qed.

Example two_disks_are_two_devices_witness :
  exists results w' news,
    device_run 512 full_image (ops_on true duo_ops) =
      (splice 512 full_data full_image, results_on true duo_ops results) /\
    device_run 512 duo_image (ops_on false duo_ops) = (duo_image, results_on false duo_ops results) /\
    connect full_connect (two_disks duo1 duo2 duo_ops) world0 = (Ok results, w') /\
    socks w' = [] ++ news /\ two_sessions duo1 duo2 duo_ops news /\
    log w' = [] ++ [Login 1; TicketCall (RandomAccessOpen (str "vm-7") 2001 (str "host-1"));
      TicketCall (GetVmFiles (str "vm-7")); Logout 1].
Proof.
  apply (@two_disks_are_two_devices duo_env ascii_unicode ascii_unicode_ok lab_codec lab_codec_ok
    full_connect 1 (str "nbdssl") (str "vm-7") duo1 duo2 duo_ops world0).
  - vm_compute. reflexivity.
  - vm_compute. reflexivity.
  - exact duo_login.
  - exact duo_first.
  - exact duo_second.
  - intros H. discriminate H.
Defined.
