(* ===== verification/Numerals.v ===== *)
(** [str(n)] and [int(s)] on integers, and [os.path.join], as the scripts of the
    protocol study and the tests use them. *)
From Stdlib Require Import ZArith Lia String.
From stdpp Require Import base list numbers.
From S2P Require Import Prelude Python PyStr.

(** * [str] *)

(** The decimal digits of [n] in front of [acc]; [n < 10] needs no fuel, and
    every round divides [n] by ten, so fuel [log2 n] is enough. *)
Fixpoint digits_loop (fuel : nat) (n : Z) (acc : pystr) : pystr :=
  let acc' := 48 + n mod 10 :: acc in
  match fuel with
  | O => acc'
  | S fuel' => if n <? 10 then acc' else digits_loop fuel' (n / 10) acc'
  end.

Definition str_nat (n : Z) : pystr := digits_loop (Z.to_nat (Z.log2 n)) n [].

Definition str_int (n : Z) : pystr := if n <? 0 then 45 :: str_nat (- n) else str_nat n.

(** * [int] *)

Section Int.
Context {U : Unicode}.

(** [s.strip()] *)
Definition strip (s : pystr) : pystr := reverse (lstrip (reverse (lstrip s))).

(** Digits with single underscores between them; [n] is the number so far. *)
Fixpoint int_digits (n : Z) (s : pystr) : option Z :=
  match s with
  | [] => Some n
  | c :: s' =>
      if c =? 95 then
        match s' with
        | [] => None
        | d :: s2 => v ← digit_value d; int_digits (10 * n + v) s2
        end
      else v ← digit_value c; int_digits (10 * n + v) s'
  end.

(** Digits, the first of which no underscore precedes. *)
Definition int_unsigned (s : pystr) : option Z :=
  match s with
  | c :: s' => v ← digit_value c; int_digits v s'
  | [] => None
  end.

Definition take_sign (s : pystr) : Z * pystr :=
  match s with
  | c :: s' => if c =? 45 then (-1, s') else if c =? 43 then (1, s') else (1, s)
  | [] => (1, [])
  end.

(** [int(s)]: white space around, a sign, and at most 4300 digits. *)
Definition py_int (s : pystr) : outcome Z :=
  let '(sign, digits) := take_sign (strip s) in
  if 4300 <? len (filter (fun c => c <> 95) digits) then Raise EValueError
  else match int_unsigned digits with Some n => Ok (sign * n) | None => Raise EValueError end.
End Int.

(** * Paths *)

(** [os.path.join(a, b)] for a [b] that is not absolute *)
Definition path_join (a b : pystr) : pystr :=
  if bool_decide (a = []) || endswith a [47] then a ++ b else a ++ 47 :: b.

(** * Lemmas *)

Definition is_decimal (s : pystr) : Prop := Forall (fun c => 48 <= c <= 57) s.

Lemma digits_loop_decimal fuel n acc : is_decimal acc -> is_decimal (digits_loop fuel n acc).
Proof.
  revert n acc. induction fuel as [|fuel IH]; intros n acc Ha; cbn [digits_loop];
    (assert (is_decimal (48 + n mod 10 :: acc)) as H
      by (constructor; [pose proof (Z.mod_pos_bound n 10 ltac:(done)); lia|done])); [done|].
  destruct (n <? 10); [done|]. by apply IH.
Qed.

Lemma str_nat_decimal n : is_decimal (str_nat n).
Proof. apply digits_loop_decimal. constructor. Qed.

Section Roundtrip.
Context {U : Unicode} {UOk : UnicodeOk U}.

Lemma digit_of c : 48 <= c <= 57 -> digit_value c = Some (c - 48).
Proof.
  intros H. rewrite digit_value_ascii by lia. unfold ascii_digit.
  rewrite (proj2 (Z.leb_le _ _)), (proj2 (Z.leb_le _ _)) by lia. done.
Qed.

Lemma digit_no_space c : 48 <= c <= 57 -> is_space c = false.
Proof.
  intros H. rewrite is_space_ascii by lia. unfold ascii_space.
  rewrite (proj2 (Z.leb_gt c 13)), (proj2 (Z.leb_gt c 32)) by lia. by rewrite !andb_false_r.
Qed.

Lemma int_digits_decimal n c s :
  48 <= c <= 57 -> int_digits n (c :: s) = int_digits (10 * n + (c - 48)) s.
Proof.
  intros Hc. cbn [int_digits]. rewrite (proj2 (Z.eqb_neq c 95)) by lia. by rewrite digit_of.
Qed.

(** The digits that are put in front stand for [n]. *)
Lemma int_digits_loop fuel n m acc :
  0 <= n < 2 ^ (Z.of_nat fuel + 1) -> exists k, 0 <= k /\ 
  int_digits m (digits_loop fuel n acc) = int_digits (m * 10 ^ k + n) acc.
Proof.
  revert n acc. induction fuel as [|fuel IH]; intros n acc Hn; cbn [digits_loop].
  - exists 1. split; [done|]. rewrite int_digits_decimal by (pose proof (Z.mod_pos_bound n 10); lia).
    rewrite (Z.mod_small n 10) by (cbn in Hn; lia). f_equal. lia.
  - pose proof (Z.mod_pos_bound n 10 ltac:(done)) as Hm. destruct (Z.ltb_spec n 10).
    + exists 1. split; [done|]. rewrite int_digits_decimal by lia. rewrite (Z.mod_small n 10) by lia. f_equal. lia.
    + destruct (IH (n / 10) (48 + n mod 10 :: acc)) as (k & Hk & ->).
      { split; [apply Z.div_pos; lia|]. apply Z.div_lt_upper_bound; [done|].
        replace (Z.of_nat (S fuel) + 1) with (1 + (Z.of_nat fuel + 1)) in Hn by lia.
        rewrite Z.pow_add_r in Hn by lia. lia. }
      exists (k + 1). split; [lia|]. rewrite int_digits_decimal by lia. rewrite Z.pow_add_r by lia.
      f_equal. pose proof (Z.div_mod n 10 ltac:(done)). lia.
Qed.

Lemma int_unsigned_decimal s : is_decimal s -> s <> [] -> int_unsigned s = int_digits 0 s.
Proof.
  destruct s as [|c s]; [done|]. intros Hs _. apply Forall_cons in Hs as [Hc _].
  rewrite int_digits_decimal by done. unfold int_unsigned. by rewrite digit_of.
Qed.

Lemma digits_loop_nonempty fuel n acc : digits_loop fuel n acc <> [].
Proof. 
  revert n acc. induction fuel as [|fuel IH]; intros n acc; cbn [digits_loop]; [done|]. by destruct (n <? 10). 
Qed.

Lemma int_unsigned_str n : 0 <= n -> int_unsigned (str_nat n) = Some n.
Proof.
  intros Hn. rewrite int_unsigned_decimal by (apply str_nat_decimal || apply digits_loop_nonempty).
  unfold str_nat. destruct (int_digits_loop (Z.to_nat (Z.log2 n)) n 0 []) as (k & _ & ->).
  - split; [done|]. rewrite Z2Nat.id by apply Z.log2_nonneg. rewrite Z.add_1_r.
    destruct (decide (n = 0)) as [->|]; [done|]. apply Z.log2_spec. lia.
  - done.
Qed.

Lemma drop_while_head {A} (f : A -> bool) c s : f c = false -> drop_while f (c :: s) = c :: s.
Proof. intros H. cbn [drop_while]. by rewrite H. Qed.

(** Nothing to strip. *)
Lemma strip_word c s : is_space c = false -> Forall (fun d => is_space d = false) s -> strip (c :: s) = c :: s.
Proof.
  intros Hc Hs. unfold strip, lstrip. rewrite drop_while_head by done.
  destruct (reverse (c :: s)) as [|d r] eqn:Er.
  - apply (f_equal reverse) in Er. by rewrite reverse_involutive in Er.
  - rewrite drop_while_head; [by rewrite <- Er, reverse_involutive|].
    assert (d ∈ c :: s) as Hd by (rewrite <- elem_of_reverse, Er; by left).
    apply elem_of_cons in Hd as [->|Hd]; [done|]. rewrite Forall_forall in Hs. by apply Hs.
Qed.

(** [int(str(n)) = n], up to the length that both accept. *)
Lemma int_str n : len (str_int n) <= 4300 -> py_int (str_int n) = Ok n.
Proof.
  intros Hl. unfold str_int in *.
  assert (forall m, Forall (fun d => is_space d = false) (str_nat m)) as Hsp.
  { intros m. eapply Forall_impl; [apply str_nat_decimal|]. apply digit_no_space. }
  assert (forall m, filter (fun c => c <> 95) (str_nat m) = str_nat m) as Hf.
  { intros m. pose proof (str_nat_decimal m) as H. induction H as [|c s Hc _ IH]; [done|].
    rewrite filter_cons_True by lia. by rewrite IH. }
  destruct (Z.ltb_spec n 0).
  - unfold py_int. rewrite strip_word by (rewrite ?is_space_ascii by lia; done || apply Hsp).
    cbn [take_sign Z.eqb Pos.eqb]. rewrite Hf. rewrite len_cons in Hl. rewrite (proj2 (Z.ltb_ge _ _)) by lia.
    rewrite int_unsigned_str by lia. f_equal. lia.
  - pose proof (str_nat_decimal n) as Hd. pose proof (Hsp n) as Hs.
    destruct (str_nat n) as [|c r] eqn:En; [by apply digits_loop_nonempty in En|].
    apply Forall_cons in Hd as [Hc _]. apply Forall_cons in Hs as [Hcs Hs].
    unfold py_int. rewrite strip_word by done.
    cbn [take_sign]. rewrite (proj2 (Z.eqb_neq c 45)), (proj2 (Z.eqb_neq c 43)) by lia.
    rewrite <- En, Hf. rewrite <- En in Hl. rewrite (proj2 (Z.ltb_ge _ _)) by lia.
    rewrite int_unsigned_str by lia. f_equal. lia.
Qed.
End Roundtrip.
