(* ===== verification/Vddk.v ===== *)
(** The proprietary VDDK library, as the programs around this one call it: the
    structures of its header, its calls, and the protocol of its calls.  The
    library itself is a parameter; what a program does is the list of its
    calls. *)
From Stdlib Require Import ZArith Lia String.
From stdpp Require Import base list numbers.
From coqutil Require Import Byte.
From S2P Require Import Prelude Python PyStr.

(** * Data *)

(** A [c_char_p]: [None] is NULL. *)
Abbreviation c_char_p := (option bytes).

Record VixDiskLibUidPasswdCreds := mkUidPasswdCreds {
  userName : c_char_p;
  password : c_char_p
}.

Record VixDiskLibSessionIdCreds := mkSessionIdCreds {
  cookie : c_char_p;
  session_userName : c_char_p;
  key : c_char_p
}.

Inductive VixDiskLibCreds :=
  | uid (c : VixDiskLibUidPasswdCreds)
  | sessionId (c : VixDiskLibSessionIdCreds).

Record VixDiskLibConnectParams := mkConnectParams {
  vmxSpec : c_char_p;
  serverName : c_char_p;
  thumbPrint : c_char_p;
  privateUse : Z;
  credType : Z;
  creds : VixDiskLibCreds;
  port : Z;
  nfcHostPort : Z;
  vimApiVer : c_char_p
}.

(** * Calls *)

(** A line on the standard output. *)
Inductive line :=
  | ConnectOk
  | OpenOk
  | ReadOk (first16 : bytes)
  | ReadAt (start n : Z) (first16 : bytes) (nonzero : Z)
  | Transport (mode : pystr)
  | ReadDone (label : pystr)
  | WriteDone (path : pystr) (first8 : bytes).

(** What a program does; handles are pointers, [size] is the size of the buffer
    that is passed. *)
Inductive vcall :=
  | MakeDirs (path : pystr)
  | WriteFile (path : pystr) (lines : list pystr)
  | InitEx (major minor : Z) (libdir config : c_char_p)
  | ConnectEx (params : VixDiskLibConnectParams) (read_only : bool) (snapshot modes : c_char_p)
  | Open (conn : Z) (path : bytes) (flags : Z)
  | Read (disk start n size : Z)
  | Write (disk start n : Z) (buf : bytes)
  | GetTransportMode (disk : Z)
  | ListTransportModes
  | Close (disk : Z)
  | Disconnect (conn : Z)
  | Exit
  | GetErrorText (err : Z)
  | FreeErrorText
  | Print (l : line).

(** VDDK and the file system: everything may depend on what was done before,
    the last call of the list being the one that is answered. *)
Class Vddk := {
  vddk_status : list vcall -> Z;
  (** the pointer that ConnectEx or Open stores *)
  vddk_handle : list vcall -> Z;
  (** what Read stores at the start of the buffer *)
  vddk_data : list vcall -> bytes;
  (** the text of an error, a transport mode or the list of them *)
  vddk_text : list vcall -> c_char_p;
  (** the file system refuses *)
  file_error : list vcall -> bool;
  (** the library cannot be loaded *)
  load_error : bool
}.

(** * Specification: the protocol of VDDK *)

(** What is held: the library, a connection, an open disk. *)
Inductive phase := Off | Initialized | Connected (conn : Z) | Opened (conn disk : Z).

Definition is_local (c : vcall) : Prop :=
  match c with
  | MakeDirs _ | WriteFile _ _ | GetErrorText _ | FreeErrorText | ListTransportModes | Print _ => True
  | _ => False
  end.

Section Protocol.
Context {V : Vddk}.

(** Calls in order, on the handles that VDDK gave, with buffers that are large
    enough for what a read fills and a write takes.  Closing and disconnecting
    count whatever their status is. *)
Inductive protocol : list vcall -> phase -> Prop :=
  | protocol_start : protocol [] Off
  | protocol_local h p c : protocol h p -> is_local c -> protocol (h ++ [c]) p
  | protocol_init h maj min l c (h' := h ++ [InitEx maj min l c]) :
      protocol h Off -> protocol h' (if vddk_status h' =? 0 then Initialized else Off)
  | protocol_connect h ps ro sn ms (h' := h ++ [ConnectEx ps ro sn ms]) :
      protocol h Initialized ->
      protocol h' (if vddk_status h' =? 0 then Connected (vddk_handle h') else Initialized)
  | protocol_open h conn path flags (h' := h ++ [Open conn path flags]) :
      protocol h (Connected conn) ->
      protocol h' (if vddk_status h' =? 0 then Opened conn (vddk_handle h') else Connected conn)
  | protocol_read h conn disk start n size :
      protocol h (Opened conn disk) -> n * 512 <= size ->
      protocol (h ++ [Read disk start n size]) (Opened conn disk)
  | protocol_write h conn disk start n buf :
      protocol h (Opened conn disk) -> n * 512 <= len buf ->
      protocol (h ++ [Write disk start n buf]) (Opened conn disk)
  | protocol_mode h conn disk :
      protocol h (Opened conn disk) -> protocol (h ++ [GetTransportMode disk]) (Opened conn disk)
  | protocol_close h conn disk :
      protocol h (Opened conn disk) -> protocol (h ++ [Close disk]) (Connected conn)
  | protocol_disconnect h conn :
      protocol h (Connected conn) -> protocol (h ++ [Disconnect conn]) Initialized
  | protocol_exit h : protocol h Initialized -> protocol (h ++ [Exit]) Off.
End Protocol.
