(* ===== verification/Wrapper.v ===== *)
(** The ctypes wrapper of VDDK that the tests use,
    [tests/integration/vixdisklib.py]: [openvixdisklib.py] replaces it.  Its
    store is the list of the calls that were made. *)
From Stdlib Require Import ZArith Lia String.
From stdpp Require Import base list numbers.
From coqutil Require Import Byte.
From S2P Require Import Prelude Python PyStr World Authd Vim Handle Numerals Vddk.

Definition VIX_OK : Z := 0.

Module Wrapper.

Definition VIX_SUPPORTED_COMPATIBILITY_MODES : list pystr :=
  [str "6.0"; str "6.5"; str "6.7"; str "7.0"; str "8.0"].

(** * Strings of VDDK *)

(** The first character of [b]: its length, and the code point that the bits
    give.  A byte that starts no character has length 1. *)
Definition utf8_head (b : bytes) : nat * Z :=
  let bits (i : nat) := Z.land (byte.unsigned (default Byte.x00 (b !! i))) 63 in
  match b with
  | [] => (1%nat, 0)
  | x :: _ =>
      let x := byte.unsigned x in
      if x <? 224 then
        if x <? 192 then (1%nat, x) else (2%nat, 64 * Z.land x 31 + bits 1%nat)
      else if x <? 240 then (3%nat, 4096 * Z.land x 15 + 64 * bits 1%nat + bits 2%nat)
      else (4%nat, 262144 * Z.land x 7 + 4096 * bits 1%nat + 64 * bits 2%nat + bits 3%nat)
  end.

(** [b.decode()]: every character must be written as [encode] writes it.  The
    class of the exception, [UnicodeDecodeError], is a [ValueError].  Every
    round takes at least one byte, so fuel [len b] is enough. *)
Fixpoint decode_loop (fuel : nat) (b : bytes) : outcome pystr :=
  match b with
  | [] => Ok []
  | _ =>
      match fuel with
      | O => OutOfFuel
      | S fuel' =>
          let '(n, c) := utf8_head b in
          if bool_decide (utf8_char c = Some (take n b)) then cons c <$> decode_loop fuel' (drop n b)
          else Raise EValueError
      end
  end.

Definition decode_utf8 (b : bytes) : outcome pystr := decode_loop (length b) b.

(** [text.decode()]; NULL is [None], which has no such method. *)
Definition decode_text (text : c_char_p) : outcome pystr :=
  match text with Some b => decode_utf8 b | None => Raise EExternal end.

(** [x.encode() if x else x]. *)
Definition encode_if (s : option pystr) : outcome c_char_p :=
  match truthy s with Some s => Some <$> encode_utf8 s | None => Ok None end.

(** ctypes cuts integers to the width of the parameter. *)
Definition uint32 (x : Z) : Z := x mod 2 ^ 32.
Definition uint64 (x : Z) : Z := x mod 2 ^ 64.

(** * The wrapper *)

Section Wrapper.
Context {V : Vddk} {U : Unicode}.

Abbreviation calls := (list vcall).

Definition call (c : vcall) : M calls unit := modify (fun h => h ++ [c]).

Definition _check_err (err : Z) : M calls unit :=
  if err =? VIX_OK then mret tt else
  call (GetErrorText err);;
  text ← gets vddk_text;
  _err_msg ← lift (decode_text text);
  call FreeErrorText;;
  raise ERuntimeError.

(** [self._check_err(self._vix_disklib.f(...))] *)
Definition checked_call (c : vcall) : M calls unit := call c;; err ← gets vddk_status; _check_err err.

(** [version.split(".")], and [int] of the two parts. *)
Definition parse_version (version : pystr) : outcome (Z * Z) :=
  match split_all 46 version with
  | [major; minor] => maj ← py_int major; min ← py_int minor; Ok (maj, min)
  | _ => Raise EValueError
  end.

(** The loop over the versions: the first that VDDK accepts. *)
Fixpoint try_versions (config : c_char_p) (versions : list pystr) : M calls pystr :=
  match versions with
  | [] => raise ERuntimeError
  | version :: versions' =>
      '(maj, min) ← lift (parse_version version);
      used ← try_except any_exception
        (checked_call (InitEx (uint32 maj) (uint32 min) None config);; mret true) (fun _ => mret false);
      if (used : bool) then mret version else try_versions config versions'
  end.

(** [VixDiskLibHandle.__init__]: the version that is used. *)
Definition init_handle (config_path version : option pystr) : M calls pystr :=
  raise_when load_error EOSError;;
  config ← lift (encode_if config_path);
  try_versions config
    (reverse (match truthy version with Some v => [v] | None => VIX_SUPPORTED_COMPATIBILITY_MODES end)).

Definition get_transport_modes : M calls (list pystr) :=
  call ListTransportModes;; text ← gets vddk_text; modes ← lift (decode_text text); mret (split_all 58 modes).

Definition get_transport_mode (disk : Z) : M calls pystr :=
  call (GetTransportMode disk);; text ← gets vddk_text; lift (decode_text text).

Definition disconnect (conn : Z) : M calls unit := checked_call (Disconnect conn).

Definition close (disk : Z) : M calls unit := checked_call (Close disk).

(** The structure, and the two strings that are passed beside it; the wrapper
    knows no [allow_untrusted].  An empty string is passed as it is, which
    ctypes refuses. *)
Definition connect_params (a : connect_args) : outcome (VixDiskLibConnectParams * c_char_p * c_char_p) :=
  server ← encode_utf8 (ca_server_name a);
  vmx ← encode_if (ca_vmx_spec a);
  thumb ← encode_if (ca_thumbprint a);
  user ← encode_utf8 (ca_username a);
  pwd ← encode_utf8 (ca_password a);
  modes ← encode_if (ca_transport_modes a);
  snapshot ← encode_if (ca_snapshot_ref a);
  if bool_decide (ca_transport_modes a = Some []) || bool_decide (ca_snapshot_ref a = Some [])
  then Raise EExternal
  else Ok ({|
    vmxSpec := vmx;
    serverName := Some server;
    thumbPrint := thumb;
    privateUse := 0;
    credType := VIXDISKLIB_CRED_UID;
    creds := uid (mkUidPasswdCreds (Some user) (Some pwd));
    port := uint32 (ca_port a);
    nfcHostPort := 0;
    vimApiVer := None
  |}, snapshot, modes).

(** [connect] and [open] are generator context managers: [body] is the block. *)
Definition connect {A} (a : connect_args) (body : Z -> M calls A) : M calls A :=
  '(params, snapshot, modes) ← lift (connect_params a);
  checked_call (ConnectEx params (ca_read_only a) snapshot modes);;
  conn ← gets vddk_handle;
  try_finally (body conn) (disconnect conn).

Definition open {A} (conn : Z) (disk_path : pystr) (flags : Z) (body : Z -> M calls A) : M calls A :=
  path ← lift (encode_utf8 disk_path);
  checked_call (Open conn path (uint32 flags));;
  disk ← gets vddk_handle;
  try_finally (body disk) (close disk).

(** VDDK stores into the caller's buffer. *)
Definition read (disk start_sector num_sectors : Z) : M (bytes * calls) unit := fun st =>
  let '(buf, h) := st in
  let h' := h ++ [Read disk (uint64 start_sector) (uint64 num_sectors) (len buf)] in
  let data := vddk_data h' in
  let '(o, h2) := _check_err (vddk_status h') h' in
  (o, (data ++ drop (length data) buf, h2)).

Definition write (disk start_sector num_sectors : Z) (buf : bytes) : M calls unit :=
  checked_call (Write disk (uint64 start_sector) (uint64 num_sectors) buf).

Definition exit : M calls unit := call Exit.
End Wrapper.
End Wrapper.

(** * Lemmas: the protocol *)

Section Protocol.
Context {V : Vddk} {U : Unicode}.

(** What [m] does to what is held, on every outcome: [Q] if it returns, [R] if
    it raises. *)
Definition within_phases {A} (P : phase -> Prop) (m : M (list vcall) A) (Q : A -> phase -> Prop)
    (R : phase -> Prop) : Prop :=
  forall h p, protocol h p -> P p ->
    let '(o, h') := m h in exists p', protocol h' p' /\
      match o with Ok a => Q a p' | Raise _ => R p' | OutOfFuel => False end.

Lemma wp_ret {A} (a : A) (Q : A -> phase -> Prop) R : within_phases (Q a) (mret a) Q R.
Proof. intros h p Hp HP. by exists p. Qed.

Lemma wp_raise {A} e (Q : A -> phase -> Prop) (R : phase -> Prop) : within_phases R (raise e) Q R.
Proof. intros h p Hp HP. by exists p. Qed.

Lemma wp_guard b e P : within_phases P (raise_when b e) (fun _ p => b = false /\ P p) P.
Proof. intros h p Hp HP. unfold raise_when. destruct b; by exists p. Qed.

Lemma wp_lift {A} (o : outcome A) P (Q : A -> phase -> Prop) (R : phase -> Prop) :
  TotalO o -> (forall p, P p -> R p) -> (forall a p, P p -> Q a p) -> within_phases P (lift o) Q R.
Proof. intros Ht HR HQ h p Hp HP. exists p. split; [done|]. destruct o; [auto|auto|by destruct Ht]. Qed.

Lemma wp_bind {A B} (m : M (list vcall) A) (k : A -> M (list vcall) B) P Q Q' R :
  within_phases P m Q R -> (forall a, within_phases (Q a) (k a) Q' R) -> within_phases P (m ≫= k) Q' R.
Proof.
  intros Hm Hk h p Hp HP. specialize (Hm h p Hp HP). unfold mbind, M_bind.
  destruct (m h) as [[a|e|] h1]; destruct Hm as (p1 & Hp1 & H); [by apply (Hk a h1 p1)|by exists p1|done].
Qed.

Lemma wp_weaken {A} (m : M (list vcall) A) P (Q Q' : A -> phase -> Prop) (R R' : phase -> Prop) :
  within_phases P m Q R -> (forall a p, Q a p -> Q' a p) -> (forall p, R p -> R' p) -> within_phases P m Q' R'.
Proof.
  intros Hm HQ HR h p Hp HP. specialize (Hm h p Hp HP).
  destruct (m h) as [[a|e|] h']; destruct Hm as (p' & Hp' & H); [exists p'; auto..|done].
Qed.

Lemma wp_local c p :
  is_local c -> within_phases (eq p) (Wrapper.call c) (fun _ => eq p) (eq p).
Proof. intros Hc h p1 Hp <-. exists p. split; [by apply protocol_local|done]. Qed.

Lemma wp_finally {A} (m : M (list vcall) A) fin P (Q : A -> phase -> Prop) (S R : phase -> Prop) :
  within_phases P m (fun _ => S) S -> within_phases S fin (fun _ => R) R ->
  (forall a p, R p -> Q a p) -> within_phases P (try_finally m fin) Q R.
Proof.
  intros Hm Hf HQ h p Hp HP. specialize (Hm h p Hp HP). unfold try_finally.
  destruct (m h) as [o h1]; destruct Hm as (p1 & Hp1 & H1).
  assert (o <> OutOfFuel -> S p1) as HS by by destruct o.
  destruct o as [a|e|]; [..|done]; specialize (Hf h1 p1 Hp1 (HS ltac:(done)));
    destruct (fin h1) as [[u|e2|] h2]; destruct Hf as (p2 & Hp2 & H2); try done; exists p2; auto.
Qed.

#[export] Instance decode_loop_total fuel b : (length b <= fuel)%nat -> TotalO (Wrapper.decode_loop fuel b).
Proof.
  unfold TotalO. revert b. induction fuel as [|fuel IH]; intros [|x b] Hl; try done; [cbn in Hl; lia|].
  cbn [Wrapper.decode_loop]. destruct (Wrapper.utf8_head (x :: b)) as [n c] eqn:Eh.
  case_bool_decide; [|done].
  assert (1 <= n)%nat.
  { unfold Wrapper.utf8_head in Eh. repeat (destruct (_ <? _) in Eh); injection Eh; lia. }
  specialize (IH (drop n (x :: b))). destruct (Wrapper.decode_loop fuel _); try done.
  exfalso. apply IH; [rewrite length_drop; cbn [length] in *; lia|done].
Qed.

#[export] Instance decode_text_total t : TotalO (Wrapper.decode_text t).
Proof. destruct t; [|done]. by apply decode_loop_total. Qed.

#[export] Instance encode_if_total s : TotalO (Wrapper.encode_if s).
Proof.
  unfold Wrapper.encode_if. destruct (truthy s) as [x|]; [|done].
  pose proof (encode_utf8_total x) as H. unfold TotalO in *. by destruct (encode_utf8 x).
Qed.

(** [_check_err] raises unless the status is that of success. *)
Lemma check_err_run h p :
  protocol h p -> let '(o, h') := Wrapper._check_err (vddk_status h) h in protocol h' p /\
    match o with Ok _ => vddk_status h = 0 /\ h' = h | Raise _ => vddk_status h <> 0 | OutOfFuel => False end.
Proof.
  intros Hp. unfold Wrapper._check_err, VIX_OK. destruct (Z.eqb_spec (vddk_status h) 0) as [->|Hne]; [done|].
  unfold mbind, M_bind, Wrapper.call, modify, gets, lift.
  assert (protocol (h ++ [GetErrorText (vddk_status h)]) p) as Hp1 by by apply protocol_local.
  pose proof (decode_text_total (vddk_text (h ++ [GetErrorText (vddk_status h)]))) as Ht.
  destruct (Wrapper.decode_text _); [|done|by destruct Ht]. split; [by apply protocol_local|done].
Qed.

(** A call that is checked leaves [S] if it succeeds and [R] if not. *)
Lemma wp_checked c (P : phase) (Q R : phase -> Prop) :
  (forall h, protocol h P -> exists p', protocol (h ++ [c]) p' /\
    (vddk_status (h ++ [c]) = 0 -> Q p') /\ (vddk_status (h ++ [c]) <> 0 -> R p')) ->
  within_phases (eq P) (Wrapper.checked_call c) (fun _ => Q) R.
Proof.
  intros Hc h p Hp <-. destruct (Hc h Hp) as (p' & Hp' & HQ & HR).
  unfold Wrapper.checked_call, Wrapper.call, modify, gets, mbind, M_bind.
  pose proof (check_err_run (h ++ [c]) p' Hp') as H.
  destruct (Wrapper._check_err _ _) as [[u|e|] h']; destruct H as [Hp2 H]; exists p'; [|auto|done].
  split; [done|]. apply HQ. by destruct H as [H ->].
Qed.

(** Nothing that is held depends on the status. *)
Lemma wp_unconditional c (P Q : phase) :
  (forall h, protocol h P -> protocol (h ++ [c]) Q) ->
  within_phases (eq P) (Wrapper.checked_call c) (fun _ => eq Q) (eq Q).
Proof. intros Hc. apply wp_checked. intros h Hp. exists Q. auto. Qed.

Lemma wp_close conn disk :
  within_phases (eq (Opened conn disk)) (Wrapper.close disk) (fun _ => eq (Connected conn)) (eq (Connected conn)).
Proof. apply wp_unconditional. intros h. apply protocol_close. Qed.

Lemma wp_disconnect conn :
  within_phases (eq (Connected conn)) (Wrapper.disconnect conn) (fun _ => eq Initialized) (eq Initialized).
Proof. apply wp_unconditional. intros h. apply protocol_disconnect. Qed.

Lemma wp_exit : within_phases (eq Initialized) Wrapper.exit (fun _ => eq Off) (eq Off).
Proof. intros h p Hp <-. exists Off. split; [by apply protocol_exit|done]. Qed.

(** The handle that a checked call stored. *)
Lemma wp_handle {A} c (P R : phase) (S : Z -> phase) (k : Z -> M (list vcall) A) Q :
  (forall h, protocol h P ->
    protocol (h ++ [c]) (if vddk_status (h ++ [c]) =? 0 then S (vddk_handle (h ++ [c])) else R)) ->
  (forall x, within_phases (eq (S x)) (k x) Q (eq R)) ->
  within_phases (eq P) (Wrapper.checked_call c;; x ← gets vddk_handle; k x) Q (eq R).
Proof.
  intros Hc Hk h p Hp <-. specialize (Hc h Hp).
  unfold Wrapper.checked_call, Wrapper.call, modify, gets, mbind, M_bind.
  pose proof (check_err_run (h ++ [c]) _ Hc) as H.
  destruct (Wrapper._check_err _ _) as [[u|e|] h']; destruct H as [Hp2 H]; [|by apply Z.eqb_neq in H; rewrite H in Hp2; exists R|done].
  destruct H as [Hs ->]. rewrite Hs in Hc. by apply (Hk _ _ _ Hc).
Qed.

(** A block over a connection, and one over a disk: what the block holds is
    given back on every outcome. *)
Lemma wp_open {A} conn path flags (body : Z -> M (list vcall) A) :
  (forall disk, within_phases (eq (Opened conn disk)) (body disk) (fun _ => eq (Opened conn disk))
    (eq (Opened conn disk))) ->
  within_phases (eq (Connected conn)) (Wrapper.open conn path flags body) (fun _ => eq (Connected conn))
    (eq (Connected conn)).
Proof.
  intros Hb. unfold Wrapper.open.
  eapply wp_bind; [apply (wp_lift _ _ (fun _ => eq (Connected conn))); [apply _|done|done]|]. intros p.
  apply (wp_handle _ _ _ (Opened conn)); [intros h Hp; by apply protocol_open|]. intros disk.
  eapply wp_finally; [apply Hb|apply wp_close|done].
Qed.

#[export] Instance connect_params_total a : TotalO (Wrapper.connect_params a).
Proof.
  unfold Wrapper.connect_params, TotalO.
  repeat (match goal with
    | |- context [encode_utf8 ?s] => pose proof (encode_utf8_total s); destruct (encode_utf8 s); try done
    | |- context [Wrapper.encode_if ?s] => pose proof (encode_if_total s); destruct (Wrapper.encode_if s); try done
    end; cbn [mbind outcome_bind]).
  by destruct (_ || _).
Qed.

Lemma wp_connect {A} a (body : Z -> M (list vcall) A) :
  (forall conn, within_phases (eq (Connected conn)) (body conn) (fun _ => eq (Connected conn))
    (eq (Connected conn))) ->
  within_phases (eq Initialized) (Wrapper.connect a body) (fun _ => eq Initialized) (eq Initialized).
Proof.
  intros Hb. unfold Wrapper.connect.
  eapply wp_bind; [apply (wp_lift _ _ (fun _ => eq Initialized)); [apply _|done|done]|]. intros [[ps sn] ms].
  apply (wp_handle _ _ _ Connected); [intros h Hp; by apply protocol_connect|]. intros conn.
  eapply wp_finally; [apply Hb|apply wp_disconnect|done].
Qed.

Lemma wp_get_transport_mode conn disk :
  within_phases (eq (Opened conn disk)) (Wrapper.get_transport_mode disk) (fun _ => eq (Opened conn disk))
    (eq (Opened conn disk)).
Proof.
  intros h p Hp <-. unfold Wrapper.get_transport_mode, Wrapper.call, modify, gets, lift, mbind, M_bind.
  exists (Opened conn disk). split; [by apply protocol_mode|].
  pose proof (decode_text_total (vddk_text (h ++ [GetTransportMode disk]))) as Ht.
  by destruct (Wrapper.decode_text _).
Qed.

(** A read into a buffer that is large enough. *)
Lemma wp_read {A} conn disk start n buf (k : unit * bytes -> M (list vcall) A) Q :
  0 <= n < 2 ^ 64 -> n * 512 <= len buf ->
  (forall r, within_phases (eq (Opened conn disk)) (k r) Q (eq (Opened conn disk))) ->
  within_phases (eq (Opened conn disk)) (with_local buf (Wrapper.read disk start n) ≫= k) Q
    (eq (Opened conn disk)).
Proof.
  intros Hn Hsz Hk h p Hp <-. unfold mbind, M_bind, with_local, Wrapper.read.
  set (h' := h ++ [Read _ _ _ _]).
  assert (protocol h' (Opened conn disk)) as Hp'.
  { apply protocol_read; [done|]. unfold Wrapper.uint64. by rewrite Z.mod_small by lia. }
  pose proof (check_err_run h' _ Hp') as H.
  destruct (Wrapper._check_err (vddk_status h') h') as [[u|e|] h2]; destruct H as [Hp2 H]; [|by eexists|done].
  by apply (Hk _ h2 (Opened conn disk)).
Qed.

(** A write from a buffer that is large enough. *)
Lemma wp_write conn disk start n buf :
  0 <= n < 2 ^ 64 -> n * 512 <= len buf ->
  within_phases (eq (Opened conn disk)) (Wrapper.write disk start n buf) (fun _ => eq (Opened conn disk))
    (eq (Opened conn disk)).
Proof.
  intros Hn Hl. apply wp_unconditional. intros h Hp. apply protocol_write; [done|].
  unfold Wrapper.uint64. by rewrite Z.mod_small by lia.
Qed.

#[export] Instance parse_version_total v : TotalO (Wrapper.parse_version v).
Proof.
  unfold TotalO, Wrapper.parse_version.
  assert (forall s, py_int s <> OutOfFuel) as Hi.
  { intros s. unfold py_int. destruct (take_sign _) as [sg ds]. destruct (_ <? _); [done|]. by destruct (int_unsigned ds). }
  destruct (split_all 46 v) as [|a [|b [|]]]; try done.
  specialize (Hi a) as Ha. destruct (py_int a); try done. cbn [mbind outcome_bind].
  specialize (Hi b). by destruct (py_int b).
Qed.

(** A version that VDDK accepts, or none of them. *)
Lemma wp_try_versions config versions :
  within_phases (eq Off) (Wrapper.try_versions config versions) (fun _ => eq Initialized) (eq Off).
Proof.
  induction versions as [|v versions IH]; cbn [Wrapper.try_versions]; [apply wp_raise|].
  eapply wp_bind; [apply (wp_lift _ _ (fun _ => eq Off)); [apply _|done|done]|]. intros [maj min].
  eapply (wp_bind _ _ _ (fun used p => p = if (used : bool) then Initialized else Off)).
  2: { intros [].
       - intros h p Hp ->. by exists Initialized.
       - intros h p Hp ->. exact (IH h Off Hp eq_refl). }
  intros h p Hp <-. pose proof (protocol_init h (Wrapper.uint32 maj) (Wrapper.uint32 min) None config Hp) as Hi.
  unfold try_except, Wrapper.checked_call, Wrapper.call, modify, gets, mbind, M_bind, mret, M_ret.
  pose proof (check_err_run _ _ Hi) as H.
  destruct (Wrapper._check_err _ _) as [[u|e|] h']; destruct H as [Hp2 H]; [| |done]; cbn [any_exception].
  - destruct H as [Hs _]. rewrite Hs in Hp2. by eexists.
  - apply Z.eqb_neq in H. rewrite H in Hp2. by eexists.
Qed.

Lemma wp_init config version :
  within_phases (eq Off) (Wrapper.init_handle config version) (fun _ => eq Initialized) (eq Off).
Proof.
  unfold Wrapper.init_handle. eapply (wp_bind _ _ _ (fun _ => eq Off)).
  { by eapply wp_weaken; [apply wp_guard|intros u p []|]. }
  intros []. eapply wp_bind; [apply (wp_lift _ _ (fun _ => eq Off)); [apply _|done|done]|].
  intros c. apply wp_try_versions.
Qed.
End Protocol.
