(* ===== verification/DropIn.v ===== *)
(** The interface that [openvixdisklib.py] shares with the VDDK wrapper of the
    tests, and why one can replace the other: a program over the interface gives
    the same results over both. *)
From Stdlib Require Import ZArith Lia String.
From stdpp Require Import base list numbers sets.
From coqutil Require Import Byte.
From S2P Require Import Prelude Python PyStr Socket Codec Fastlz Wire Disk DiskTheorems DiskRead ReadSpec ReadLoop ReadInto DiskWrite WriteSpec Server WriteTheorems BlockDevice OpenDisk NfcTypes World Thumbprint Lab Authd NfcSocket Vim Session Handle Scope HandleTheorems Run EndToEnd WholeSession DeviceSession TwoDisks Vddk Wrapper.

(** * The interface *)

(** The methods of [VixDiskLibHandle] that a program uses, over the store [W];
    the blocks of the context managers are arguments. *)
Class DiskLib (W : Type) := {
  dl_conn : Type;
  dl_disk : Type;
  dl_connect {A} : connect_args -> (dl_conn -> M W A) -> M W A;
  dl_open {A} : dl_conn -> pystr -> Z -> (dl_disk -> M W A) -> M W A;
  dl_read : dl_disk -> Z -> Z -> M (bytes * W) unit;
  dl_write : dl_disk -> Z -> Z -> bytes -> M W unit
}.

Section Client.
Context {W : Type} {L : DiskLib W}.

Definition lib_op (disk : dl_disk) (op : device_op) : M W (option bytes) :=
  match op with
  | DevWrite start n data => dl_write disk start n data;; mret None
  | DevRead start n =>
      buf ← lift (get_buffer (n * VIXDISKLIB_SECTOR_SIZE));
      r ← with_local buf (dl_read disk start n);
      mret (Some (snd r))
  end.

Fixpoint lib_program (ops : list device_op) (disk : dl_disk) : M W (list (option bytes)) :=
  match ops with
  | [] => mret []
  | op :: ops' => r ← lib_op disk op; rs ← lib_program ops' disk; mret (r :: rs)
  end.

(** [with handle.connect(...) as conn, handle.open(conn, path, flags) as disk: ...] *)
Definition lib_session (a : connect_args) (path : pystr) (flags : Z) (ops : list device_op) :
    M W (list (option bytes)) :=
  dl_connect a (fun conn => dl_open conn path flags (lib_program ops)).

(** What the interface promises: over a disk with the content [image] a session
    gets what the block device returns. *)
Definition lib_serves (a : connect_args) (path : pystr) (flags : Z) (image : bytes) (ops : list device_op)
    (w : W) : Prop :=
  fst (lib_session a path flags ops w) = Ok (snd (device_run VIXDISKLIB_SECTOR_SIZE image ops)).
End Client.

(** * The library *)

Definition open_lib {E : Env} {U : Unicode} {C : Codec} : DiskLib world := {|
  dl_conn := _Connection;
  dl_disk := _DiskHandle;
  dl_connect A := connect;
  dl_open A conn path flags := open conn path flags NFC_AIO_BUFFER_SIZE NFC_AIO_BUFFER_COUNT;
  dl_read disk start n := read_handle disk start n false false;; mret tt;
  dl_write := write_handle
|}.

Section Library.
Context {E : Env} {U : Unicode} {UOk : UnicodeOk U} {C : Codec} {COk : CodecOk C}.

Lemma open_lib_op h op w : lib_op (L := open_lib) h op w = handle_op h op w.
Proof.
  destruct op as [start n data|start n]; cbn [lib_op handle_op dl_write dl_read open_lib]; [done|].
  unfold lift, mbind, M_bind, mret, M_ret. destruct (get_buffer _) as [buf|e|]; [|done..].
  unfold with_local. destruct (read_handle h start n false false (buf, w)) as [[r|e|] [b w']]; done.
Qed.

Lemma open_lib_program ops h w : lib_program (L := open_lib) ops h w = handle_program ops h w.
Proof.
  revert w. induction ops as [|op ops IH]; intros w; [done|]. cbn [lib_program handle_program].
  unfold mbind, M_bind. rewrite open_lib_op. destruct (handle_op h op w) as [[r|e|] w1]; [|done..].
  by rewrite IH.
Qed.

(** The library keeps the promise over peers that answer. *)
Lemma open_lib_serves a si mode vm r ops w :
  _select_transport (ca_transport_modes a) = Ok mode -> _parse_vm_moref (ca_vmx_spec a) = Ok vm ->
  vcenter_login a si -> remote_serves a si mode vm r ops ->
  rm_bs r = NFC_AIO_BUFFER_SIZE -> rm_bc r = NFC_AIO_BUFFER_COUNT -> ready w ->
  lib_serves (L := open_lib) a (rm_path r) (rm_flags r) (rm_image r) ops w.
Proof.
  intros Hmode Hvm Hlogin [Hcmp Hro Hv Hx Ho Hk Hlen Hok Ha Han [Hg0 Hg1] Hs Hf] Hbs Hbc Hready.
  destruct (program_serves (rm_flags r) (rm_path r) (rm_bs r) (rm_bc r) (rm_compression r) (rm_path_b r)
    (rm_replies r) (rm_handle r) (rm_k r) ops (rm_reqs r) (rm_image r) (rm_final r) (rm_answer r)
    (rm_goodbye r).1 (rm_goodbye r).2 (rm_rest r) (x_nfc (rm_esx r))) as (results & Er & Hse); try done.
  destruct (whole_session_of a si mode vm (rm_path r) (rm_flags r) (rm_bs r) (rm_bc r) (rm_compression r)
    (rm_path_b r) (rm_esx r) (rm_ticket r) (rm_call r) (lib_program (L := open_lib) ops) _ results _ _ w
    Hmode Hvm Hcmp Hro Hlogin Hv Hx Hse) as (w' & _ & _ & _ & _ & E1 & _); [|done|].
  { intros h w1 Hw1. rewrite open_lib_program. by apply acts_program. }
  rewrite Hbs, Hbc in E1. unfold lib_serves. rewrite Er. change (fst (connect a (fun conn =>
    open conn (rm_path r) (rm_flags r) NFC_AIO_BUFFER_SIZE NFC_AIO_BUFFER_COUNT
      (lib_program (L := open_lib) ops)) w) = Ok results). by rewrite E1.
Qed.
End Library.

(** * The wrapper *)

Definition vddk_lib {V : Vddk} : DiskLib (list vcall) := {|
  dl_conn := Z;
  dl_disk := Z;
  dl_connect A := Wrapper.connect;
  dl_open A := Wrapper.open;
  dl_read := Wrapper.read;
  dl_write := Wrapper.write
|}.

(** The content of the disk after the calls. *)
Definition image_after (image : bytes) (h : list vcall) : bytes :=
  fold_left (fun im c => match c with
    | Write _ start n buf => splice (start * VIXDISKLIB_SECTOR_SIZE) (slice 0 (n * VIXDISKLIB_SECTOR_SIZE) buf) im
    | _ => im end) h image.

(** VDDK works on a disk with the content [image]: every call succeeds, and a
    read stores what the disk holds. *)
Record vddk_serves {V : Vddk} (image : bytes) : Prop := {
  vs_status h : vddk_status h = 0;
  vs_data h disk start n size : vddk_data (h ++ [Read disk start n size]) =
    slice (start * VIXDISKLIB_SECTOR_SIZE) ((start + n) * VIXDISKLIB_SECTOR_SIZE) (image_after image h)
}.

Section Vddk.
Context {V : Vddk} (image : bytes) (HV : vddk_serves image).

Lemma check_works h : Wrapper._check_err (vddk_status h) h = (Ok tt, h).
Proof. unfold Wrapper._check_err, VIX_OK. by rewrite (vs_status _ HV). Qed.

Lemma checked_call_works c h : Wrapper.checked_call c h = (Ok tt, h ++ [c]).
Proof.
  unfold Wrapper.checked_call, Wrapper.call, modify, gets, mbind, M_bind. apply check_works.
Qed.

Lemma uint64_sector start n :
  1 <= n -> 0 <= start -> (start + n) * VIXDISKLIB_SECTOR_SIZE <= 2 ^ 64 ->
  Wrapper.uint64 start = start /\ Wrapper.uint64 n = n.
Proof. intros. unfold Wrapper.uint64, VIXDISKLIB_SECTOR_SIZE in *. by rewrite !Z.mod_small by lia. Qed.

(** One operation, on sectors that the disk has. *)
Lemma vddk_lib_op disk op h :
  device_ok VIXDISKLIB_SECTOR_SIZE (len image) op -> len image <= 2 ^ 64 -> len (image_after image h) = len image ->
  exists h', lib_op (L := vddk_lib) disk op h =
      (Ok (snd (device_step VIXDISKLIB_SECTOR_SIZE (image_after image h) op)), h') /\
    image_after image h' = fst (device_step VIXDISKLIB_SECTOR_SIZE (image_after image h) op) /\
    len (image_after image h') = len image.
Proof.
  intros Hok Hsz Hl. destruct op as [start n data|start n].
  - destruct Hok as [(Hn & Ho & Hl32 & Hi) Hd]. unfold VIXDISKLIB_SECTOR_SIZE, fits64, fits32 in *.
    destruct (uint64_sector start n) as [Es En]; [lia|lia|unfold VIXDISKLIB_SECTOR_SIZE; lia|].
    cbn [lib_op device_step dl_write vddk_lib snd fst]. unfold Wrapper.write. rewrite Es, En.
    eexists. split; [by rewrite (bind_ok _ _ _ _ _ (checked_call_works _ h))|].
    assert (image_after image (h ++ [Write disk start n data]) = splice (start * 512) data (image_after image h)) as ->.
    { unfold image_after, VIXDISKLIB_SECTOR_SIZE. rewrite fold_left_app. cbn [fold_left]. by rewrite slice_full by lia. }
    split; [done|]. rewrite len_splice; lia.
  - destruct Hok as (Hn & Ho & Hl32 & Hi). unfold VIXDISKLIB_SECTOR_SIZE, fits64, fits32 in *.
    destruct (uint64_sector start n) as [Es En]; [lia|lia|unfold VIXDISKLIB_SECTOR_SIZE; lia|].
    cbn [lib_op device_step dl_read vddk_lib snd fst]. unfold VIXDISKLIB_SECTOR_SIZE.
    rewrite (lift_bind _ _ _ (zeros (n * 512))) by (unfold get_buffer; by rewrite (proj2 (Z.ltb_ge _ _)) by lia).
    unfold mbind, M_bind, with_local, Wrapper.read. rewrite Es, En, check_works, (vs_data _ HV).
    unfold VIXDISKLIB_SECTOR_SIZE. eexists. split.
    + rewrite drop_ge; [by rewrite app_nil_r|]. unfold zeros. rewrite length_replicate.
      pose proof (len_slice (start * 512) ((start + n) * 512) (image_after image h)). zlia.
    + unfold image_after. rewrite fold_left_app. cbn. done.
Qed.

Lemma vddk_lib_program ops disk h :
  Forall (device_ok VIXDISKLIB_SECTOR_SIZE (len image)) ops -> len image <= 2 ^ 64 ->
  len (image_after image h) = len image ->
  exists h', lib_program (L := vddk_lib) ops disk h =
    (Ok (snd (device_run VIXDISKLIB_SECTOR_SIZE (image_after image h) ops)), h').
Proof.
  intros Hok Hsz. revert h. induction Hok as [|op ops Hop _ IH]; intros h Hl; [by eexists|].
  cbn [lib_program device_run].
  destruct (vddk_lib_op disk op h Hop Hsz Hl) as (h1 & E1 & Hi & Hl1).
  destruct (IH h1 Hl1) as (h2 & E2). exists h2.
  rewrite (bind_ok _ _ _ _ _ E1), (bind_ok _ _ _ _ _ E2), Hi.
  destruct (device_step _ _ op) as [im r]. cbn [fst snd]. by destruct (device_run _ im ops) as [im' rs].
Qed.

(** The two blocks, if what is in them returns. *)
Lemma connect_works {U : Unicode} {A} a params (body : Z -> M (list vcall) A) h r :
  Wrapper.connect_params a = Ok params ->
  let '(ps, snapshot, modes) := params in
  let h1 := h ++ [ConnectEx ps (ca_read_only a) snapshot modes] in
  fst (body (vddk_handle h1) h1) = Ok r ->
  Wrapper.connect a body h =
    (Ok r, snd (body (vddk_handle h1) h1) ++ [Disconnect (vddk_handle h1)]).
Proof.
  intros Hp. destruct params as [[ps sn] ms]. intros h1 Hb. unfold Wrapper.connect.
  rewrite (lift_bind _ _ _ _ Hp), (bind_ok _ _ _ _ _ (checked_call_works _ h)). fold h1.
  unfold gets at 1, mbind at 1, M_bind at 1, try_finally, Wrapper.disconnect.
  destruct (body _ h1) as [o h2]. cbn in Hb. subst o. by rewrite checked_call_works.
Qed.

Lemma open_works {U : Unicode} {A} conn path path_b flags (body : Z -> M (list vcall) A) h r :
  encode_utf8 path = Ok path_b ->
  let h1 := h ++ [Open conn path_b (Wrapper.uint32 flags)] in
  fst (body (vddk_handle h1) h1) = Ok r ->
  Wrapper.open conn path flags body h = (Ok r, snd (body (vddk_handle h1) h1) ++ [Close (vddk_handle h1)]).
Proof.
  intros Hp h1 Hb. unfold Wrapper.open.
  rewrite (lift_bind _ _ _ _ Hp), (bind_ok _ _ _ _ _ (checked_call_works _ h)). fold h1.
  unfold gets at 1, mbind at 1, M_bind at 1, try_finally, Wrapper.close.
  destruct (body _ h1) as [o h2]. cbn in Hb. subst o. by rewrite checked_call_works.
Qed.

(** The wrapper keeps the promise over a VDDK that works, after anything that
    was done before and left the content that the session starts with. *)
Lemma vddk_lib_serves {U : Unicode} a path flags ops h params path_b :
  Wrapper.connect_params a = Ok params -> encode_utf8 path = Ok path_b ->
  Forall (device_ok VIXDISKLIB_SECTOR_SIZE (len image)) ops -> len image <= 2 ^ 64 ->
  len (image_after image h) = len image ->
  lib_serves (L := vddk_lib) a path flags (image_after image h) ops h.
Proof.
  intros Hp Hpath Hok Hsz Hl. unfold lib_serves, lib_session. cbn [dl_connect dl_open vddk_lib].
  set (rs := snd (device_run _ _ _)). pose proof (connect_works a params
    (fun conn => Wrapper.open conn path flags (lib_program (L := vddk_lib) ops)) h rs Hp) as Hc.
  destruct params as [[ps sn] ms]. set (h1 := h ++ [ConnectEx _ _ _ _]) in Hc.
  pose proof (open_works (vddk_handle h1) path path_b flags (lib_program (L := vddk_lib) ops) h1 rs Hpath) as Ho.
  set (h2 := h1 ++ [Open _ _ _]) in Ho.
  assert (image_after image h2 = image_after image h) as Hi.
  { unfold h2, h1, image_after. by rewrite !fold_left_app. }
  destruct (vddk_lib_program ops (vddk_handle h2) h2 Hok Hsz) as (h3 & E3); [by rewrite Hi|].
  rewrite Hi in E3. change (fst (Wrapper.connect a (fun conn =>
    Wrapper.open conn path flags (lib_program (L := vddk_lib) ops)) h) = Ok rs).
  rewrite Hc; [done|]. rewrite Ho; [done|]. by rewrite E3.
Qed.
End Vddk.

(** * The property *)

(** C6: [openvixdisklib.py] is a replacement of the VDDK wrapper: the same program,
    with the same arguments and over a disk with the same content, returns the
    same results through either of them, for any reads and writes inside the
    disk; the one over peers that answer, the other over a VDDK that works. *)
Theorem drop_in_replacement {E : Env} {U : Unicode} {UOk : UnicodeOk U} {C : Codec} {COk : CodecOk C}
    {V : Vddk} a si mode vm r ops w params h :
  _select_transport (ca_transport_modes a) = Ok mode -> _parse_vm_moref (ca_vmx_spec a) = Ok vm ->
  vcenter_login a si -> remote_serves a si mode vm r ops ->
  rm_bs r = NFC_AIO_BUFFER_SIZE -> rm_bc r = NFC_AIO_BUFFER_COUNT -> ready w ->
  vddk_serves (rm_image r) -> Wrapper.connect_params a = Ok params -> len (rm_image r) <= 2 ^ 64 ->
  image_after (rm_image r) h = rm_image r ->
  fst (lib_session (L := open_lib) a (rm_path r) (rm_flags r) ops w) =
    fst (lib_session (L := vddk_lib) a (rm_path r) (rm_flags r) ops h) /\
  lib_serves (L := open_lib) a (rm_path r) (rm_flags r) (rm_image r) ops w.
Proof.
  intros Hmode Hvm Hlogin Hr Hbs Hbc Hready HV Hp Hsz Hi.
  pose proof (open_lib_serves a si mode vm r ops w Hmode Hvm Hlogin Hr Hbs Hbc Hready) as Ho.
  split; [|exact Ho]. destruct Hr as [_ _ _ _ Hop _ _ Hok _ _ _ _ _].
  destruct Hop as (? & ? & ? & ? & ? & ? & ? & Hpath & _). unfold lib_serves in Ho. rewrite Ho. symmetry.
  pose proof (vddk_lib_serves (rm_image r) HV a (rm_path r) (rm_flags r) ops h params (rm_path_b r) Hp Hpath Hok
    Hsz) as Hv. rewrite Hi in Hv. by apply Hv.
Qed.

(** * Witness *)

(** A VDDK over a disk in memory: the first disk of [duo_ops]. *)
Definition memory_vddk (image : bytes) : Vddk := {|
  vddk_status _ := 0;
  vddk_handle h := len h;
  vddk_data h := match last h with
    | Some (Read _ start n _) =>
        slice (start * VIXDISKLIB_SECTOR_SIZE) ((start + n) * VIXDISKLIB_SECTOR_SIZE)
          (image_after image (take (length h - 1) h))
    | _ => [] end;
  vddk_text _ := None;
  file_error _ := false;
  load_error := false
|}.

Lemma memory_vddk_serves image : @vddk_serves (memory_vddk image) image.
Proof.
  split; [done|]. intros h disk start n size. cbn [vddk_data memory_vddk]. rewrite last_snoc.
  replace (length (h ++ [Read disk start n size]) - 1)%nat with (length h) by (rewrite length_app; cbn; lia).
  by rewrite take_app_length.
Qed.

Example drop_in_replacement_witness :
  fst (lib_session (L := @open_lib duo_env ascii_unicode lab_codec) full_connect (str "[ds] b.vmdk") 32
    (ops_on true duo_ops) world0) =
  fst (lib_session (L := @vddk_lib (memory_vddk full_image)) full_connect (str "[ds] b.vmdk") 32
    (ops_on true duo_ops) []) /\
  lib_serves (L := @open_lib duo_env ascii_unicode lab_codec) full_connect (str "[ds] b.vmdk") 32 full_image
    (ops_on true duo_ops) world0.
Proof.
  assert (exists params, Wrapper.connect_params full_connect = Ok params) as [params Hp]
    by (eexists; vm_compute; reflexivity).
  apply (@drop_in_replacement duo_env ascii_unicode ascii_unicode_ok lab_codec lab_codec_ok
    (memory_vddk full_image) full_connect 1 (str "nbdssl") (str "vm-7") duo1 (ops_on true duo_ops) world0
    params []).
  - vm_compute. reflexivity.
  - vm_compute. reflexivity.
  - exact duo_login.
  - exact duo_first.
  - reflexivity.
  - reflexivity.
  - intros H. discriminate H.
  - apply memory_vddk_serves.
  - exact Hp.
  - by vm_compute.
  - reflexivity.
Defined.
