(* ===== verification/ProbeVddk.v ===== *)
(** The VDDK drivers of the protocol study,
    [docs/probing_samples/vddk_open_trace.py] and [vddk_read_trace.py]: they
    load the proprietary VDDK library through ctypes, open a disk and read from
    it, while a tracer outside watches.  VDDK is a parameter; what the scripts
    do with it is a list of calls. *)
From Stdlib Require Import ZArith Lia String.
From stdpp Require Import base list numbers.
From coqutil Require Import Byte.
From S2P Require Import Prelude Python PyStr World Lab Numerals Vddk.

(** * Constants *)

Definition VIXDISKLIB_CRED_UID : Z := 1.
Definition VIXDISKLIB_FLAG_OPEN_READ_ONLY : Z := 4.
Definition SECTOR : Z := 512.

(** What ends a script early. *)
Inductive stopped :=
  | OSError
  | SystemExit (what : pystr) (err : Z) (text : c_char_p).

(** A computation over the list of what was done. *)
Definition T (A : Type) : Type := list vcall -> (stopped + A) * list vcall.

#[export] Instance T_ret : MRet T := fun A a h => (inr a, h).
#[export] Instance T_bind : MBind T := fun A B f m h =>
  match m h with
  | (inr a, h') => f a h'
  | (inl e, h') => (inl e, h')
  end.

Definition stop {A} (e : stopped) : T A := fun h => (inl e, h).
Definition emit_call (c : vcall) : T unit := fun h => (inr tt, h ++ [c]).
Definition ask {A} (f : list vcall -> A) : T A := fun h => (inr (f h), h).

Section Drivers.
Context {V : Vddk}.

Definition file_call (c : vcall) : T unit :=
  emit_call c;; bad ← ask file_error; if (bad : bool) then stop OSError else mret tt.

Definition status_of (c : vcall) : T Z := emit_call c;; ask vddk_status.

Definition check (err : Z) (what : pystr) : T unit :=
  if err =? 0 then mret tt else
  emit_call (GetErrorText err);; text ← ask vddk_text; emit_call FreeErrorText;;
  stop (SystemExit what err text).

(** [check(lib.f(...), what)] *)
Definition checked (c : vcall) (what : pystr) : T unit := err ← status_of c; check err what.

(** The handle that the call stored. *)
Definition handle_of (c : vcall) (what : string) : T Z := checked c (str what);; ask vddk_handle.

(** * The scripts *)

Definition VDDK_DIR : pystr := str "/home/ubuntu/workspace/vmware_nbd_tests/vddk".

Definition sanitized : c_char_p := Some (ascii "<sanitized>").

(** [s.encode()]; all of it is ASCII here. *)
Definition encode (s : pystr) : bytes := byte.of_Z <$> s.

Definition config_lines (dir : pystr) : list pystr :=
  [str "tmpDirectory=" ++ dir; str "log.fileName=" ++ dir ++ str "/vddk.log"; str "log.fileLevel=verbose";
   str "vixDiskLib.nfc.LogLevel=4"; str "vixDiskLib.transport.LogLevel=4"].

Definition connect_params : VixDiskLibConnectParams := {|
  vmxSpec := sanitized;
  serverName := sanitized;
  thumbPrint := sanitized;
  privateUse := 0;
  credType := VIXDISKLIB_CRED_UID;
  creds := uid (mkUidPasswdCreds sanitized sanitized);
  port := 443;
  nfcHostPort := 0;
  vimApiVer := None
|}.

Definition disk_path : bytes :=
  ascii "[datastore0] test-coriolis-jenkins-rocky9/test-coriolis-jenkins-rocky9-000007.vmdk".

(** From the start of [main] to the open disk: the connection and the disk. *)
Definition open_traced (dir : pystr) : T (Z * Z) :=
  let config_path := dir ++ str "/vddk.config" in
  file_call (MakeDirs dir);;
  file_call (WriteFile config_path (config_lines dir));;
  checked (InitEx 8 0 (Some (encode VDDK_DIR)) (Some (encode config_path))) (str "InitEx");;
  conn ← handle_of (ConnectEx connect_params true (Some (ascii "snapshot-13442")) (Some (ascii "nbd"))) "ConnectEx";
  emit_call (Print ConnectOk);;
  disk ← handle_of (Open conn disk_path VIXDISKLIB_FLAG_OPEN_READ_ONLY) "Open";
  emit_call (Print OpenOk);;
  mret (conn, disk).

(** [buf = create_string_buffer(n * SECTOR)] and the read into it. *)
Definition read_checked (disk start n : Z) (what : pystr) : T bytes :=
  let size := n * SECTOR in
  checked (Read disk start n size) what;;
  data ← ask vddk_data;
  mret (data ++ drop (length data) (zeros size)).

(** The end of [main]; the status of neither call is looked at. *)
Definition close_traced (conn disk : Z) : T unit :=
  emit_call (Close disk);; emit_call (Disconnect conn);; emit_call Exit.

Definition nonzero_bytes (buf : bytes) : Z := len (filter (fun b => b <> Byte.x00) buf).

End Drivers.

Module OpenTrace.
Section Main.
Context {V : Vddk}.

(** [main] of vddk_open_trace.py *)
Definition main : T unit :=
  '(conn, disk) ← open_traced (str "/tmp/vddk-open-trace");
  buf ← read_checked disk 0 1 (str "Read");
  emit_call (Print (ReadOk (take 16 buf)));;
  close_traced conn disk.
End Main.
End OpenTrace.

Module ReadTrace.
Section Main.
Context {V : Vddk}.

Definition reads : list (Z * Z) := [(0, 1); (0, 2); (1, 1); (8, 8); (0, 128); (0, 129); (256, 64)].

Fixpoint read_all (disk : Z) (rs : list (Z * Z)) : T unit :=
  match rs with
  | [] => mret tt
  | (start, n) :: rs' =>
      buf ← read_checked disk start n (str "Read " ++ str_int start ++ 43 :: str_int n);
      emit_call (Print (ReadAt start n (take 16 buf) (nonzero_bytes buf)));;
      read_all disk rs'
  end.

(** [main] of vddk_read_trace.py *)
Definition main : T unit :=
  '(conn, disk) ← open_traced (str "/tmp/vddk-read-trace");
  read_all disk reads;;
  close_traced conn disk.
End Main.
End ReadTrace.

(** * Specification *)

Section Protocol.
Context {V : Vddk}.

(** How a script may stop: a file cannot be made before VDDK is started, or a
    call failed, was reported, and nothing was done after it. *)
Definition stops (e : stopped) (h : list vcall) (p : phase) : Prop :=
  match e with
  | OSError => p = Off
  | SystemExit _ err text => exists h0, h = h0 ++ [GetErrorText err; FreeErrorText] /\
      vddk_status h0 = err /\ err <> 0 /\ text = vddk_text (h0 ++ [GetErrorText err])
  end.

(** A triple over what is held. *)
Definition holds {A} (P : phase -> Prop) (m : T A) (Q : A -> phase -> Prop) : Prop :=
  forall h p, protocol h p -> P p ->
    let '(r, h') := m h in exists p', protocol h' p' /\
      match r with inr a => Q a p' | inl e => stops e h' p' end.

(** * Lemmas: triples *)

Lemma holds_ret {A} (a : A) (P : phase -> Prop) : holds P (mret a) (fun b p => b = a /\ P p).
Proof. intros h p Hp HP. by exists p. Qed.

Lemma holds_bind {A B} (m : T A) (k : A -> T B) P Q R :
  holds P m Q -> (forall a, holds (Q a) (k a) R) -> holds P (m ≫= k) R.
Proof.
  intros Hm Hk h p Hp HP. specialize (Hm h p Hp HP). unfold mbind, T_bind.
  destruct (m h) as [[e|a] h1]; [done|]. destruct Hm as (p1 & Hp1 & HQ). by apply (Hk a h1 p1).
Qed.

Lemma holds_local c (P : phase -> Prop) : is_local c -> holds P (emit_call c) (fun _ => P).
Proof. intros Hc h p Hp HP. exists p. split; [by apply protocol_local|done]. Qed.

Lemma holds_file c : is_local c -> holds (eq Off) (file_call c) (fun _ => eq Off).
Proof.
  intros Hc h p Hp <-. unfold file_call, ask, mbind, T_bind, emit_call, stop. cbn.
  assert (protocol (h ++ [c]) Off) by by apply protocol_local.
  destruct (file_error (h ++ [c])); by exists Off.
Qed.

(** [check] after a call whose status it is given. *)
Lemma check_stops h p what :
  protocol h p -> let '(r, h') := check (vddk_status h) what h in
  match r with
  | inr _ => vddk_status h = 0 /\ h' = h
  | inl e => vddk_status h <> 0 /\ stops e h' p /\ protocol h' p
  end.
Proof.
  intros Hp. unfold check. destruct (Z.eqb_spec (vddk_status h) 0) as [->|Hne]; [done|].
  unfold mbind, T_bind, emit_call, ask, stop. rewrite <- app_assoc. cbn.
  split; [done|]. split; [by exists h|].
  change ([GetErrorText (vddk_status h); FreeErrorText]) with ([GetErrorText (vddk_status h)] ++ [FreeErrorText]).
  rewrite app_assoc. apply protocol_local; [by apply protocol_local|done].
Qed.

Lemma checked_run c what h p :
  protocol (h ++ [c]) p ->
  let '(r, h') := checked c what h in
  match r with
  | inr _ => h' = h ++ [c] /\ vddk_status h' = 0
  | inl e => stops e h' p /\ protocol h' p
  end.
Proof.
  intros Hp. unfold checked, status_of, ask, mbind, T_bind, emit_call.
  pose proof (check_stops (h ++ [c]) p what Hp) as H.
  destruct (check _ _ _) as [[e|[]] h']; [tauto|]. by destruct H as [H0 ->].
Qed.

Ltac checked_call rule :=
  intros h p Hp <-; unfold handle_of, ask, mbind, T_bind, mret, T_ret;
  match goal with |- context [checked ?c ?w h] =>
    let H := fresh "H" in
    pose proof (checked_run c w h _ (rule h Hp)) as H;
    destruct (checked c w h) as [[e|u] h']; [by destruct H; eexists|];
    let Hs := fresh "Hs" in
    destruct H as [-> Hs]; pose proof (rule h Hp) as H; cbn zeta in H; rewrite ?Hs in H
  end.

Lemma holds_init maj min l c what :
  holds (eq Off) (checked (InitEx maj min l c) what) (fun _ => eq Initialized).
Proof. checked_call (fun h => protocol_init h maj min l c). by eexists. Qed.

Lemma holds_connect ps ro sn ms what :
  holds (eq Initialized) (handle_of (ConnectEx ps ro sn ms) what) (fun conn => eq (Connected conn)).
Proof. checked_call (fun h => protocol_connect h ps ro sn ms). by eexists. Qed.

Lemma holds_open conn path flags what :
  holds (eq (Connected conn)) (handle_of (Open conn path flags) what) (fun disk => eq (Opened conn disk)).
Proof. checked_call (fun h => protocol_open h conn path flags). by eexists. Qed.

Lemma holds_read conn disk start n what :
  holds (eq (Opened conn disk)) (read_checked disk start n what) (fun _ => eq (Opened conn disk)).
Proof.
  unfold read_checked.
  checked_call (fun h Hp => protocol_read h conn disk start n (n * SECTOR) Hp (Z.le_refl _)). by eexists.
Qed.

(** * Lemmas: the scripts *)

Ltac then_holds tac := eapply holds_bind; [tac|cbv beta].

Lemma holds_open_traced dir :
  holds (eq Off) (open_traced dir) (fun hs => eq (Opened (fst hs) (snd hs))).
Proof.
  unfold open_traced. then_holds ltac:(by apply holds_file). intros _.
  then_holds ltac:(by apply holds_file). intros _.
  then_holds ltac:(apply holds_init). intros _.
  then_holds ltac:(apply holds_connect). intros conn.
  then_holds ltac:(by apply holds_local). intros _.
  then_holds ltac:(apply holds_open). intros disk.
  then_holds ltac:(by apply holds_local). intros _ h p Hp <-. by eexists.
Qed.

Lemma holds_close_traced conn disk :
  holds (eq (Opened conn disk)) (close_traced conn disk) (fun _ => eq Off).
Proof.
  intros h p Hp <-. cbn. exists Off. split; [|done].
  apply protocol_exit, (protocol_disconnect _ conn), protocol_close, Hp.
Qed.

Lemma holds_read_all conn disk rs :
  holds (eq (Opened conn disk)) (ReadTrace.read_all disk rs) (fun _ => eq (Opened conn disk)).
Proof.
  induction rs as [|[start n] rs IH]; cbn [ReadTrace.read_all].
  - intros h p Hp <-. by eexists.
  - then_holds ltac:(by apply holds_read). intros buf.
    then_holds ltac:(by apply holds_local). intros _. exact IH.
Qed.

Lemma holds_open_main : holds (eq Off) OpenTrace.main (fun _ => eq Off).
Proof.
  then_holds ltac:(apply holds_open_traced). intros [conn disk].
  then_holds ltac:(by apply holds_read). intros buf.
  then_holds ltac:(by apply holds_local). intros _. apply holds_close_traced.
Qed.

Lemma holds_read_main : holds (eq Off) ReadTrace.main (fun _ => eq Off).
Proof.
  then_holds ltac:(apply holds_open_traced). intros [conn disk].
  then_holds ltac:(apply holds_read_all). intros _. apply holds_close_traced.
Qed.
End Protocol.

(** * Specification: a VDDK that works *)

(** Every call succeeds and a read stores the sectors of [image]. *)
Record serves_image {V : Vddk} (image : bytes) : Prop := {
  si_status h : vddk_status h = 0;
  si_files h : file_error h = false;
  si_data h disk start n size : vddk_data (h ++ [Read disk start n size]) =
    slice (start * SECTOR) ((start + n) * SECTOR) image
}.

(** The lines of the standard output, in order. *)
Definition printed (h : list vcall) : list line :=
  omap (fun c => match c with Print l => Some l | _ => None end) h.

Definition report (image : bytes) (r : Z * Z) : line :=
  let content := slice (fst r * SECTOR) ((fst r + snd r) * SECTOR) image in
  ReadAt (fst r) (snd r) (take 16 content) (nonzero_bytes content).

(** * Lemmas: what is printed *)

Section Works.
Context {V : Vddk} (image : bytes) (HV : serves_image image).

(** [m] returns something with [P] and prints [ls]. *)
Definition says {A} (m : T A) (P : A -> Prop) (ls : list line) : Prop :=
  forall h, exists a h', m h = (inr a, h') /\ P a /\ printed h' = printed h ++ ls.

Lemma says_ret {A} (a : A) (P : A -> Prop) : P a -> says (mret a) P [].
Proof. intros Ha h. exists a, h. by rewrite app_nil_r. Qed.

Lemma says_bind {A B} (m : T A) (k : A -> T B) P Q l1 l2 :
  says m P l1 -> (forall a, P a -> says (k a) Q l2) -> says (m ≫= k) Q (l1 ++ l2).
Proof.
  intros Hm Hk h. destruct (Hm h) as (a & h1 & E1 & Ha & P1). destruct (Hk a Ha h1) as (b & h2 & E2 & Hb & P2).
  exists b, h2. unfold mbind, T_bind. rewrite E1. split; [done|]. split; [done|].
  by rewrite P2, P1, <- app_assoc.
Qed.

Lemma says_print l : says (emit_call (Print l)) (fun _ => True) [l].
Proof. intros h. eexists _, _. split; [done|]. split; [done|]. unfold printed. by rewrite omap_app. Qed.

Lemma checked_works c what h : checked c what h = (inr tt, h ++ [c]).
Proof. unfold checked, status_of, ask, mbind, T_bind, emit_call, check. by rewrite (si_status _ HV). Qed.

Lemma says_quiet {A} (m : T A) c (a : list vcall -> A) (P : A -> Prop) :
  (forall h, m h = (inr (a h), h ++ [c])) -> (forall h, P (a h)) -> printed [c] = [] -> says m P [].
Proof.
  intros Hm Ha Hc h. exists (a h), (h ++ [c]). split; [done|]. split; [done|].
  unfold printed in *. by rewrite omap_app, Hc.
Qed.

Lemma says_file c : printed [c] = [] -> says (file_call c) (fun _ => True) [].
Proof.
  intros Hc. apply (says_quiet _ c (fun _ => tt)); [|done..]. intros h.
  unfold file_call, ask, mbind, T_bind, emit_call. by rewrite (si_files _ HV).
Qed.

Lemma says_checked c what : printed [c] = [] -> says (checked c what) (fun _ => True) [].
Proof. intros Hc. apply (says_quiet _ c (fun _ => tt)); [|done..]. apply checked_works. Qed.

Lemma says_handle c what : printed [c] = [] -> says (handle_of c what) (fun _ => True) [].
Proof.
  intros Hc. apply (says_quiet _ c (fun h => vddk_handle (h ++ [c]))); [|done..]. intros h.
  unfold handle_of, mbind, T_bind. by rewrite checked_works.
Qed.

Lemma says_read disk start n what :
  0 <= start -> 1 <= n -> (start + n) * SECTOR <= len image ->
  says (read_checked disk start n what)
    (fun buf => buf = slice (start * SECTOR) ((start + n) * SECTOR) image) [].
Proof.
  intros Hs Hn Hi.
  apply (says_quiet _ (Read disk start n (n * SECTOR))
    (fun _ => slice (start * SECTOR) ((start + n) * SECTOR) image)); [|done..].
  intros h. unfold read_checked, mbind, T_bind. rewrite checked_works. unfold ask, mret, T_ret.
  rewrite (si_data _ HV), drop_ge; [by rewrite app_nil_r|].
  unfold SECTOR, zeros in *. rewrite length_replicate.
  pose proof (len_slice (start * 512) ((start + n) * 512) image) as Hl. zlia.
Qed.

Lemma says_open_traced dir : says (open_traced dir) (fun _ => True) [ConnectOk; OpenOk].
Proof.
  unfold open_traced. change [ConnectOk; OpenOk] with ([] ++ [] ++ [] ++ [] ++ [ConnectOk] ++ [] ++ [OpenOk] ++ []).
  eapply says_bind; [by apply says_file|]. intros _ _. eapply says_bind; [by apply says_file|]. intros _ _.
  eapply says_bind; [by apply says_checked|]. intros _ _. eapply says_bind; [by apply says_handle|]. intros conn _.
  eapply says_bind; [apply says_print|]. intros _ _. eapply says_bind; [by apply says_handle|]. intros disk _.
  eapply says_bind; [apply says_print|]. intros _ _. by apply says_ret.
Qed.

Lemma says_read_all disk rs :
  Forall (fun r => 0 <= fst r /\ 1 <= snd r /\ (fst r + snd r) * SECTOR <= len image) rs ->
  says (ReadTrace.read_all disk rs) (fun _ => True) (report image <$> rs).
Proof.
  induction 1 as [|[start n] rs (Hs & Hn & Hi) _ IH]; cbn [ReadTrace.read_all]; [by apply says_ret|].
  change (report image <$> (start, n) :: rs) with ([] ++ [report image (start, n)] ++ (report image <$> rs)).
  eapply says_bind; [by apply says_read|]. intros buf ->.
  eapply says_bind; [apply says_print|]. intros _ _. exact IH.
Qed.

Lemma says_close_traced conn disk : says (close_traced conn disk) (fun _ => True) [].
Proof. intros h. eexists _, _. split; [done|]. split; [done|]. unfold printed. by rewrite !omap_app, !app_nil_r. Qed.
End Works.

(** * Properties *)

(** C29: the VDDK drivers keep to the protocol of the library, whatever it and the
    file system answer: calls come in order, on the handles that ConnectEx and
    Open gave, and every read is given a buffer of the size it fills.
    A driver that returns has released everything; one that stops has reported
    the call that failed, and does nothing after it. *)
Theorem vddk_protocol {V : Vddk} (script : T unit) :
  script ∈ [OpenTrace.main; ReadTrace.main] ->
  let '(r, h) := script [] in exists p, protocol h p /\
    match r with inr _ => p = Off | inl e => stops e h p end.
Proof.
  intros Hs. assert (holds (eq Off) script (fun _ => eq Off)) as H.
  { apply elem_of_cons in Hs as [->|Hs]; [apply holds_open_main|].
    apply list_elem_of_singleton in Hs as ->. apply holds_read_main. }
  specialize (H [] Off protocol_start eq_refl). destruct (script []) as [[e|u] h]; [done|].
  destruct H as (p & Hp & <-). by exists Off.
Qed.

(** The read driver, over a VDDK that works on a disk of at least 320 sectors,
    reports exactly the seven places it reads: the first 16 bytes of each, and
    how many of its bytes are not zero. *)
Theorem read_trace_reports {V : Vddk} image :
  serves_image image -> 320 * SECTOR <= len image ->
  exists h, ReadTrace.main [] = (inr tt, h) /\
    printed h = [ConnectOk; OpenOk] ++ (report image <$> ReadTrace.reads).
Proof.
  intros HV Hi. assert (says ReadTrace.main (fun _ => True)
    ([ConnectOk; OpenOk] ++ (report image <$> ReadTrace.reads) ++ [])) as H.
  { eapply says_bind; [by apply (says_open_traced image)|]. intros [conn disk] _.
    eapply says_bind; [apply (says_read_all image HV); repeat constructor; cbn; unfold SECTOR in *; lia|].
    intros _ _. apply says_close_traced. }
  destruct (H []) as ([] & h & E & _ & Hp). exists h. split; [done|]. by rewrite Hp, app_nil_r.
Qed.

(** * Witnesses *)

(** A disk of 320 sectors of equal bytes; the handles count the calls. *)
Definition bench_image : bytes := replicate (Z.to_nat (320 * 512)) Byte.x41.

Definition bench : Vddk := {|
  vddk_status _ := 0;
  vddk_handle h := len h;
  vddk_data h := match last h with
    | Some (Read _ start n _) => slice (start * SECTOR) ((start + n) * SECTOR) bench_image
    | _ => [] end;
  vddk_text _ := None;
  file_error _ := false;
  load_error := false
|}.

(** The same, but reads fail. *)
Definition bad_bench : Vddk := {|
  vddk_status h := match last h with Some (Read _ _ _ _) => 1 | _ => 0 end;
  vddk_handle h := len h;
  vddk_data _ := [];
  vddk_text _ := Some (ascii "failed");
  file_error _ := false;
  load_error := false
|}.

Example vddk_protocol_witness :
  let '(r, h) := @OpenTrace.main bad_bench [] in
  r = inl (SystemExit (str "Read") 1 (Some (ascii "failed"))) /\
  exists p, @protocol bad_bench h p /\ @stops bad_bench (SystemExit (str "Read") 1 (Some (ascii "failed"))) h p.
Proof.
  pose proof (@vddk_protocol bad_bench OpenTrace.main ltac:(by left)) as H.
  assert (fst (@OpenTrace.main bad_bench []) = inl (SystemExit (str "Read") 1 (Some (ascii "failed")))) as Er
    by (vm_compute; reflexivity).
  destruct (@OpenTrace.main bad_bench []) as [r h]. cbn [fst] in Er. subst r. by split.
Defined.

Example read_trace_reports_witness :
  exists h, @ReadTrace.main bench [] = (inr tt, h) /\
    printed h = [ConnectOk; OpenOk] ++ (report bench_image <$> ReadTrace.reads).
Proof.
  apply (@read_trace_reports bench bench_image).
  - split; [done|done|]. intros h disk start n size. cbn [vddk_data bench]. by rewrite last_snoc.
  - vm_compute. by intros.
Defined.
