(* ===== verification/ProbeWrite.v ===== *)
(** The write probe of the protocol study,
    [docs/probing_samples/nfc_write_probe.py]: its own reader [recvn], its copy
    [open_rw] of [open_disk], and [try_io], one raw IO message.  They are
    compared with the functions of the library that came out of the study. *)
From Stdlib Require Import ZArith Lia String.
From stdpp Require Import base list numbers sets.
From coqutil Require Import Byte Word.LittleEndianList.
Import LittleEndianList.
From S2P Require Import Prelude Python PyStr Socket Codec Fastlz Wire Disk DiskRead ReadLoop DiskWrite WriteSpec WriteTheorems OpenDisk World Lab NfcSocket.

(** * [recvn] *)

(** [while len(buf) < size: ...]; every round receives at least one byte, so
    fuel [size] is enough. *)
Fixpoint probe_recvn_loop (fuel : nat) (size : Z) (buf : bytes) : M sock bytes :=
  if len buf <? size then
    match fuel with
    | O => out_of_fuel
    | S fuel' =>
        chunk ← recv (size - len buf);
        raise_when (len chunk =? 0) ERuntimeError;;
        probe_recvn_loop fuel' size (buf ++ chunk)
    end
  else mret buf.

Definition recvn (size : Z) : M sock bytes := probe_recvn_loop (Z.to_nat size) size [].

(** * [open_rw] *)

(** From the handshake on, on the socket; [echoed] is printed only. *)
Definition probe_open_file (disk_path : pystr) (oflag : Z) : M (NfcDisk * sock) unit :=
  path_b ← lift (encode_utf8 disk_path);
  open_body ← lift (struct_pack "<IIIIII" [len path_b; 0; 0; 0; NFC_DISK; oflag]);
  reply ← _aio_roundtrip NFC_AIO_MSG_OPEN_FILE (ljust0 60 open_body) path_b 0;
  '(handle, sector_size) ← lift (_parse_open_reply reply);
  zoom (modify (set_opened handle sector_size));;
  _echoed ← lift (unpack1 (struct_unpack_from "<I" reply 20));
  mret tt.

Definition probe_session (disk_path : pystr) (oflag : Z) : M sock NfcDisk :=
  _handshake (str "vddk") (str "nbdmode") NFC_PROTOCOL_VERSION;;
  r ← with_local
        (init_disk disk_path 0 NFC_SECTOR_SIZE NFC_COMPRESSION_NONE NFC_AIO_BUFFER_SIZE
           NFC_AIO_BUFFER_COUNT)
        (_aio_prepare;; probe_open_file disk_path oflag);
  mret (snd r).

Definition open_rw {E : Env} (session : NfcAuthSession) (disk_path : pystr) (oflag : Z) : M world nat :=
  sock ← takeover_authd_socket (s_authd_sock session);
  disk ← on_sock sock (probe_session disk_path oflag);
  new_disk disk sock.

(** * [try_io] *)

Definition try_io (opcode flags_field : Z) (data : bytes) (send_extra : bool) :
    M (NfcDisk * sock) (Z * Z * bytes * bytes) :=
  let length := len data in
  d ← gets fst;
  payload ← lift (struct_pack "<QQQQIII"
    [handle d; opcode; 0; length; length; length; flags_field]);
  op_id ← zoom _next_op_id;
  hdr ← lift (_pack_aio_hdr NFC_AIO_MSG_IO (len payload) op_id);
  zoom (sendall (hdr ++ payload));;
  (if send_extra then zoom (sendall data) else mret tt);;
  rhdr ← zoom (recvn 16);
  '(magic, rtype, rsize, rop) ← lift (unpack4 (struct_unpack_from "<IIII" rhdr 0));
  body ← (if rsize =? 0 then mret [] else zoom (recvn rsize));
  extra ← (if (rtype =? NFC_AIO_MSG_IO) && (36 <=? rsize) then
             chunk_len ← lift (unpack1 (struct_unpack_from "<I" body 32));
             if (0 <? chunk_len) && (chunk_len <=? 65536) then zoom (recvn chunk_len) else mret []
           else mret []);
  mret (rtype, rsize, body, extra).

(** * Specification *)

(** The outcome of the library's reader, with the exception that the probe
    raises at the end of the stream. *)
Definition probe_outcome (o : outcome bytes) : outcome bytes :=
  match o with Raise ENfcProtocolError => Raise ERuntimeError | _ => o end.

(** * Lemmas: [recvn] *)

Definition pull_probe (o : outcome unit) (got : bytes) : outcome bytes :=
  probe_outcome ((fun _ => got) <$> o).

Lemma probe_recvn_loop_spec fuel size buf s :
  closed s = false -> len buf <= size -> size - len buf <= Z.of_nat fuel ->
  exists o got r rx',
    pull (Z.to_nat (size - len buf)) (flat (rx s)) = (o, got, r) /\ flat rx' = r /\
    probe_recvn_loop fuel size buf s = (pull_probe o (buf ++ got), set_rx rx' s).
Proof.
  revert buf s. induction fuel as [|fuel IH]; intros buf s Hc Hb Hf; cbn [probe_recvn_loop];
    destruct (Z.ltb_spec (len buf) size) as [Hlt|Hge];
    [lia|exists (Ok tt), [], (flat (rx s)), (rx s);
      replace (size - len buf) with 0 by lia; rewrite app_nil_r; by repeat split; destruct s
    | |exists (Ok tt), [], (flat (rx s)), (rx s);
      replace (size - len buf) with 0 by lia; rewrite app_nil_r; by repeat split; destruct s].
  unfold mbind, M_bind. rewrite recv_run by done.
  pose proof (rx_take_spec (Z.to_nat (size - len buf)) (rx s)) as Hrx.
  destruct (rx_take _ (rx s)) as [[[|b got]|e|] r]; [| | |by destruct Hrx; lia].
  - destruct Hrx as [-> Hr]; [lia|]. exists (Raise ENfcProtocolError), [], [], r.
    by destruct (Z.to_nat (size - len buf)) eqn:En; [lia|].
  - destruct Hrx as [Hrx Hg]; [lia|]. set (g := b :: got) in *.
    assert (0 < len g) by (unfold g; rewrite len_cons; pose proof (len_nonneg got); lia).
    assert (len g <= size - len buf) by zlia.
    unfold raise_when. rewrite (proj2 (Z.eqb_neq (len g) 0)) by lia. cbn [mret M_ret].
    destruct (IH (buf ++ g) (set_rx r s)) as (o & got' & r' & rx' & Hp & Hr' & Hrun);
      rewrite ?len_app; try done; try lia.
    exists o, (g ++ got'), r', rx'. split; [|split; [done|]].
    + rewrite Hrx. rewrite len_app in Hp. cbn [rx set_rx] in Hp.
      replace (Z.to_nat (size - len buf)) with
        (length g + Z.to_nat (size - (len buf + len g)))%nat by zlia.
      by rewrite pull_app, Hp.
    + by rewrite Hrun, set_rx_set_rx, <- app_assoc.
  - destruct Hrx as [-> Hr]; [lia|]. exists (Raise EOSError), [], (flat r), r.
    rewrite Hr. by destruct (Z.to_nat (size - len buf)) eqn:En; [lia|].
Qed.

Lemma recvn_spec size s :
  closed s = false -> 0 <= size ->
  exists o got r rx',
    pull (Z.to_nat size) (flat (rx s)) = (o, got, r) /\ flat rx' = r /\
    recvn size s = (pull_probe o got, set_rx rx' s).
Proof.
  intros Hc Hn. destruct (probe_recvn_loop_spec (Z.to_nat size) size [] s) as
    (o & got & r & rx' & Hp & Hr & H); rewrite ?len_nil; try done; try lia.
  rewrite len_nil, Z.sub_0_r in Hp. by exists o, got, r, rx'.
Qed.

Lemma exch_probe_recvn n bs : n = len bs -> exch (recvn n) bs bs [].
Proof.
  intros -> s r Hc Hp Hf. destruct (recvn_spec (len bs) s Hc (len_nonneg bs))
    as (o & got & r' & rx' & Hpl & Hr & E).
  rewrite Hf, pull_all in Hpl by zlia. simplify_eq. exists (set_rx rx' s).
  split; [exact E|]. split; [|done]. by apply set_rx_talk.
Qed.

(** * Lemmas: [open_rw] *)

(** The arguments of [open_disk] that the probe's open stands for. *)
Definition probe_args (disk_path : pystr) (read_only : bool) : open_args :=
  mkOpenArgs disk_path (str "vddk") (str "nbdmode") NFC_PROTOCOL_VERSION read_only
    NFC_COMPRESSION_NONE NFC_AIO_BUFFER_SIZE NFC_AIO_BUFFER_COUNT.

(** The fields printed are in every reply that is accepted. *)
Lemma probe_open_file_eq disk_path ro st :
  probe_open_file disk_path (open_flags ro) st = open_file disk_path ro st.
Proof.
  unfold probe_open_file, open_file, open_flags.
  apply bind_ext; [done|]. intros path_b s1 _. apply bind_ext; [done|]. intros b s2 _.
  apply bind_ext; [done|]. intros reply s3 _. apply bind_ext; [done|].
  intros [h z] s4 Hz%lift_inv_ok. destruct Hz as [Ep ->].
  assert (40 <= len reply) as Hl.
  { unfold _parse_open_reply in Ep. by destruct (Z.ltb_spec (len reply) 40). }
  unfold mbind, M_bind. destruct (zoom _ s3) as [[u|e|] s5]; [|done..].
  rewrite unpack_I by lia. by destruct u.
Qed.

Lemma probe_session_eq disk_path ro s :
  probe_session disk_path (open_flags ro) s = open_session (probe_args disk_path ro) s.
Proof.
  unfold probe_session, open_session. apply bind_ext; [done|]. intros _ s1 _.
  apply bind_ext; [|done]. unfold with_local. set (d0 := init_disk disk_path _ _ _ _ _).
  change (init_disk (oa_disk_path _) _ _ _ _ _) with d0.
  rewrite (bind_ext _ _aio_prepare _ (fun _ => open_file disk_path ro)); [done|done|].
  intros _ st _. apply probe_open_file_eq.
Qed.

(** * Lemmas: [try_io] *)

(** Seven fields of the probe are the eight of an IO message: its eight-byte
    length is the length and the offset of the fragment. *)
Lemma probe_payload h opcode L flags :
  fits64 h -> fits64 opcode -> fits32 L -> fits32 flags ->
  struct_pack "<QQQQIII" [h; opcode; 0; L; L; L; flags] =
    Ok (le_split 8 h ++ le_split 8 opcode ++ le_split 8 0 ++ le_split 8 L ++ le_split 4 L ++
        le_split 4 L ++ le_split 4 flags).
Proof.
  intros Hh Ho HL Hf. assert (fits64 L) by (unfold fits32, fits64 in *; lia).
  rewrite pack_ok; compute_codes.
  - cbn [fields code_size]. by rewrite app_nil_r.
  - repeat constructor; auto with wire.
Qed.

Lemma le_split_8_low L : fits32 L -> le_split 8 L = le_split 4 L ++ le_split 4 0.
Proof.
  intros HL. change (le_split 8 L) with
    (le_split 4 L ++ le_split 4 (Z.shiftr (Z.shiftr (Z.shiftr (Z.shiftr L 8) 8) 8) 8)).
  do 2 f_equal. rewrite !Z.shiftr_shiftr by lia. rewrite Z.shiftr_div_pow2 by lia.
  by apply Z.div_small.
Qed.

Lemma io_body_probe h opcode L :
  fits32 L ->
  le_split 8 h ++ le_split 8 opcode ++ le_split 8 0 ++ le_split 8 L ++ le_split 4 L ++
    le_split 4 L ++ le_split 4 0 = io_body h opcode 0 L 0 L L.
Proof.
  intros HL. rewrite (le_split_8_low L) by done. unfold io_body. cbn [fields code_size].
  by rewrite app_nil_r, <- !app_assoc.
Qed.

(** A round of [try_io] with the peer's message [t, body] and no extra. *)
Lemma sess_try_io d opcode data send t op body :
  fits64 (handle d) -> fits64 opcode -> fits32 (len data) -> fits32 (_op_id d) ->
  fits32 t -> fits32 op -> fits32 (len body) ->
  (t = NFC_AIO_MSG_IO -> 36 <= len body -> u32_at 32 body = 0) ->
  sess (try_io opcode 0 data send) d (aio_msg t op body) (t, len body, body, [])
    (set_op_id (_op_id d + 1) d)
    ((aio_hdr NFC_AIO_MSG_IO 44 (_op_id d) ++ io_body (handle d) opcode 0 (len data) 0 (len data) (len data))
       :: (if send then [data] else [])).
Proof.
  intros Hh Ho HL Hop Ht Hr Hb Hx. unfold try_io.
  eapply sess_bind; [apply (sess_gets _ _ d); by intros| |done..].
  eapply sess_bind; [by apply sess_lift, probe_payload| |done..].
  rewrite io_body_probe by done. rewrite len_io_body.
  eapply sess_bind; [apply sess_next_op_id| |done..].
  eapply sess_bind; [by apply sess_lift, pack_aio_hdr_ok| |done..].
  eapply sess_bind; [by apply sess_sock, exch_sendall| |by rewrite app_nil_l|done].
  eapply (sess_bind _ _ _ _ _ [] _ _ (if send then [data] else []) []).
  { destruct send; [apply sess_sock, exch_sendall|apply sess_ret]. }
  2: by rewrite app_nil_l. 2: by rewrite app_nil_r.
  unfold aio_msg. eapply sess_bind; [apply sess_sock, exch_probe_recvn; by rewrite len_aio_hdr| |done|done].
  eapply sess_bind; [by apply sess_lift, unpack_hdr_words| |done..]. cbv beta iota.
  eapply (sess_bind _ _ _ _ _ body []).
  { destruct (Z.eqb_spec (len body) 0) as [H0|H0].
    - rewrite (len_nil_inv body) by lia. apply sess_ret.
    - by apply sess_sock, exch_probe_recvn. }
  2: by rewrite app_nil_r. 2: done.
  eapply (sess_bind _ _ _ _ _ [] [] _ [] []); [|apply sess_ret|done|done].
  destruct (Z.eqb_spec t NFC_AIO_MSG_IO) as [Hti|]; [|apply sess_ret]. cbn [andb].
  destruct (Z.leb_spec 36 (len body)) as [Hl|]; [|apply sess_ret].
  eapply sess_bind; [apply sess_lift; rewrite unpack_I by lia; done| |done|done].
  rewrite Hx by done. apply sess_ret.
Qed.

(** * Properties *)

(** The probe's reader is the library's: on every socket and every stream it
    takes the same bytes and gives the same result, up to the class of the
    exception at the end of the stream. *)
Theorem recvn_is_recvn size s :
  0 <= size ->
  let '(o1, s1) := _recvn size s in let '(o2, s2) := recvn size s in
  o2 = probe_outcome o1 /\ seg_eq s1 s2.
Proof.
  intros Hn. destruct (closed s) eqn:Hc.
  - rewrite _recvn_closed by done. unfold recvn.
    destruct (Z.ltb_spec 0 size) as [Hlt|Hge].
    + destruct (Z.to_nat size) eqn:En; [lia|]. cbn [probe_recvn_loop].
      rewrite len_nil, (proj2 (Z.ltb_lt _ _)) by done. unfold mbind, M_bind, recv. by rewrite Hc.
    + replace size with 0 by lia. done.
  - destruct (_recvn_spec size s Hc Hn) as (o & got & r & rx1 & Hp & Hr & ->).
    destruct (recvn_spec size s Hc Hn) as (o' & got' & r' & rx2 & Hp' & Hr' & ->).
    rewrite Hp in Hp'. simplify_eq. split; [done|]. by repeat split.
Qed.

(** The probe's open is the library's: with the flags of a read-only or a
    writable open it makes the same disk object over the same new socket and
    leaves the same world whenever either of them succeeds, over plain NFC. *)
Theorem open_rw_is_open_disk {E : Env} session disk_path ro k w w' :
  s_nfc_ssl session = false ->
  open_rw session disk_path (open_flags ro) w = (Ok k, w') <->
  open_disk session (probe_args disk_path ro) w = (Ok k, w').
Proof.
  intros Hs. unfold open_rw, open_disk, nfc_socket. rewrite Hs.
  rewrite (lift_bind (open_disk_checks (probe_args disk_path ro)) _ _ tt) by done.
  destruct (takeover_authd_socket (s_authd_sock session) w) as [[i|e|] w1] eqn:E1.
  2: { rewrite !(bind_raise _ _ _ _ _ E1). by split. }
  2: { unfold mbind, M_bind. rewrite E1. by split. }
  rewrite !(bind_ok _ _ _ _ _ E1). unfold mbind, M_bind, closing_on_error, try_except.
  rewrite !on_sock_run, probe_session_eq.
  destruct (open_session (probe_args disk_path ro) (sock_at i w1)) as [[d|e|] s]; [done| |by split]. cbn [any_exception].
  split; [done|]. unfold mbind, M_bind. by destruct (on_sock i sock_close _) as [[u|e1|] w2].
Qed.

(** C24: the probe's raw IO message is the library's write: with the opcode of a
    write it sends, in two pieces, byte for byte what [NfcDisk.write] sends in one
    for data at sector 0 that fits the session's buffer, under the same op id,
    and both consume the acknowledgement. *)
Theorem try_io_is_write {C : Codec} d n data ack s rest :
  compression d = NFC_COMPRESSION_NONE -> write_ranges d 0 n -> 1 <= n ->
  len data = n * sector_size d -> 1 <= len data <= aio_buffer_size d -> fits32 (len ack) ->
  (36 <= len ack -> u32_at 32 ack = 0) -> healthy s ->
  flat (rx s) = (Some <$> aio_msg NFC_AIO_MSG_IO (_op_id d) ack) ++ rest ->
  exists s1 s2 out1 out2,
    try_io NFC_AIO_IO_WRITE 0 data true (d, s) =
      (Ok (NFC_AIO_MSG_IO, len ack, ack, []), (set_op_id (_op_id d + 1) d, s1)) /\
    write 0 n data (d, s) = (Ok tt, (set_op_id (_op_id d + 1) d, s2)) /\
    tx s1 = tx s ++ out1 /\ tx s2 = tx s ++ out2 /\ out1 ≫= id = out2 ≫= id /\
    flat (rx s1) = rest /\ flat (rx s2) = rest.
Proof.
  intros Hcmp Hw Hn Hlen Hk Hack Hx Hs Hf. pose proof Hw as (Hh & Ho & HL & Hop & Hk1).
  rewrite <- Hlen in HL. pose proof Hs as [Hc Hp].
  destruct (sess_try_io d NFC_AIO_IO_WRITE data true NFC_AIO_MSG_IO (_op_id d) ack Hh ltac:(done) HL
    Hop ltac:(done) Hop Hack (fun _ => Hx) s rest Hc Hp Hf) as (s1 & E1 & T1 & F1).
  assert (write_chunks d data = [data]) as Hch.
  { unfold write_chunks. destruct data as [|b r] eqn:Ed; [rewrite len_nil in Hk; lia|]. rewrite <- Ed in *.
    assert (length data = S (length r)) as -> by by rewrite Ed.
    rewrite chunks_of_step by by rewrite Ed.
    assert (slice 0 (aio_buffer_size d) data = data) as ->.
    { unfold slice. rewrite drop_0, take_ge by zlia. done. }
    rewrite drop_ge by zlia. by rewrite chunks_of_nil. }
  assert (write_frames d (n * sector_size d) (0 * sector_size d) (_op_id d) 0 (write_chunks d data)
    [write_frame d (n * sector_size d) 0 (_op_id d) 0 data data NFC_COMPRESSION_NONE]) as Hfr.
  { rewrite Hch. apply frames_cons; [|apply frames_nil]. unfold choose_extra. by rewrite Hcmp. }
  destruct (write_ok d 0 n data s _ ack rest Hw Hn Hlen Hfr Hack Hs Hf) as (s2 & E2 & T2 & F2).
  eexists s1, s2, _, _. split; [exact E1|]. split; [exact E2|].
  split; [apply T1|]. split; [apply T2|]. split; [|done].
  rewrite !bind_cons. cbn [mbind list_bind id]. rewrite !app_nil_r.
  unfold write_frame. rewrite <- Hlen. by rewrite <- app_assoc.
Qed.

(** * Witnesses *)

Lemma recvn_is_recvn_witness :
  let '(o1, s1) := _recvn 3 (Sock [RxData [Byte.x01]] [] [] false false) in
  let '(o2, s2) := recvn 3 (Sock [RxData [Byte.x01]] [] [] false false) in
  o2 = probe_outcome o1 /\ seg_eq s1 s2.
Proof. apply (recvn_is_recvn 3 (Sock [RxData [Byte.x01]] [] [] false false)). lia. Defined.

Definition probe_disk : NfcDisk := init_disk (str "vm.vmdk") 7 2 NFC_COMPRESSION_NONE 16 1.

Definition probe_sock : sock := Sock [RxData (aio_msg NFC_AIO_MSG_IO 0 [])] [] [] false false.

Lemma open_rw_is_open_disk_witness :
  @open_rw lab_env (mkNfcAuthSession 1 lab_ticket 0 false) (str "d") (open_flags false) world1 =
    @open_disk lab_env (mkNfcAuthSession 1 lab_ticket 0 false) (probe_args (str "d") false) world1 /\
  @open_rw lab_env (mkNfcAuthSession 1 lab_ticket 0 false) (str "d") (open_flags false) world1 =
    (Ok 0%nat, snd (@open_disk lab_env (mkNfcAuthSession 1 lab_ticket 0 false)
      (probe_args (str "d") false) world1)).
Proof.
  assert (@open_rw lab_env (mkNfcAuthSession 1 lab_ticket 0 false) (str "d") (open_flags false)
    world1 = (Ok 0%nat, snd (@open_disk lab_env (mkNfcAuthSession 1 lab_ticket 0 false)
      (probe_args (str "d") false) world1))) as H.
  { apply (@open_rw_is_open_disk lab_env (mkNfcAuthSession 1 lab_ticket 0 false) (str "d") false 0
      world1); [reflexivity|vm_compute; reflexivity]. }
  split; [|exact H]. rewrite H. vm_compute. reflexivity.
Defined.

Lemma try_io_is_write_witness :
  exists s1 s2 out1 out2,
    try_io NFC_AIO_IO_WRITE 0 [Byte.x41; Byte.x42] true (probe_disk, probe_sock) =
      (Ok (NFC_AIO_MSG_IO, 0, [], []), (set_op_id 1 probe_disk, s1)) /\
    @write lab_codec 0 1 [Byte.x41; Byte.x42] (probe_disk, probe_sock) =
      (Ok tt, (set_op_id 1 probe_disk, s2)) /\
    tx s1 = [] ++ out1 /\ tx s2 = [] ++ out2 /\ out1 ≫= id = out2 ≫= id /\
    flat (rx s1) = [] /\ flat (rx s2) = [].
Proof.
  apply (@try_io_is_write lab_codec probe_disk 1 [Byte.x41; Byte.x42] [] probe_sock []).
  - reflexivity.
  - split_and!; vm_compute; try (split; by intros); by intros.
  - lia.
  - reflexivity.
  - vm_compute. split; by intros.
  - vm_compute. split; by intros.
  - intros H. vm_compute in H. by destruct H.
  - by split; [|constructor].
  - vm_compute. reflexivity.
Defined.
