(* ===== verification/ProbeSearch.v ===== *)
(** The search of the write probe, [Probe.test_probe] of
    [docs/probing_samples/nfc_write_probe.py]: one session after another, it
    tries the candidates for the open flags and for the opcode of a write, until
    a read gives the data back.  The class that it extends is not in the
    repository: its [authenticate], [DISK_PATH] and the data are parameters. *)
From Stdlib Require Import ZArith Lia String.
From stdpp Require Import base list numbers sets.
From coqutil Require Import Byte.
From S2P Require Import Prelude Python PyStr Socket Codec Fastlz Wire Disk DiskTheorems DiskRead ReadSpec ReadLoop ReadInto OpenDisk World Lab NfcSocket Vim Session AuthTheorems Scope HandleTheorems ProbeWrite.

(** * The search *)

Section Search.
Context {E : Env} {C : Codec}.
Variable authenticate : M world NfcAuthSession.
Variable DISK_PATH : pystr.
Variable data : bytes.

(** [with self.authenticate() as session: ...] *)
Definition with_authenticate {A} (body : NfcAuthSession -> M world A) : M world A :=
  session ← authenticate; with_session session body.

(** [got = disk.read(0, 1)]; the search ends if it is the data. *)
Definition accept (disk : nat) : M world bool :=
  got ← on_disk disk (read 0 1);
  if bool_decide (got = data) then on_disk disk close;; mret true else mret false.

(** [try: disk.close() except Exception: disk._sock.close()] *)
Definition drop_disk (disk : nat) : M world unit :=
  try_except any_exception (on_disk disk close) (fun _ => on_disk disk (zoom sock_close)).

(** A round of the first loop: opcode 2 under the flags. *)
Definition flags_round (oflag : Z) : M world bool :=
  with_authenticate (fun session =>
    r ← try_except any_exception (disk ← open_rw session DISK_PATH oflag; mret (Some disk))
          (fun _ => mret None);
    match r with
    | None => mret false
    | Some disk =>
        '(rtype, rsize, body, extra) ← on_disk disk (try_io 2 0 data true);
        found ← (if rtype =? NFC_AIO_MSG_IO then accept disk else mret false);
        if (found : bool) then mret true else drop_disk disk;; mret false
    end).

(** A round of the second: the opcode and the flags of the IO message. *)
Definition opcode_round (oflag : Z) (candidate : Z * Z * bool) : M world bool :=
  let '(opcode, ioflags, send_extra) := candidate in
  with_authenticate (fun session =>
    disk ← open_rw session DISK_PATH oflag;
    '(rtype, rsize, body, extra) ← on_disk disk (try_io opcode ioflags data send_extra);
    found ← (if rtype =? NFC_AIO_MSG_IO then
               try_except any_exception (accept disk) (fun _ => mret false)
             else mret false);
    if (found : bool) then mret true else drop_disk disk;; mret false).

Definition open_flags_tried : list Z :=
  [0x1C; 0x00; 0x1F; 0x0E; 0x0C; 0x04; 0x06; 0x02;
   0x3E; 0x5E; 0x16; 0x1A; 0x1D; 0x0A; 0x08; 0x20;
   0x3C; 0x7E; 0xFE; 0x100; 0x1E; 0x0F; 0x18].

Definition candidates : list (Z * Z * bool) :=
  [(1, 1, true); (1, 2, true); (2, 1, true); (4, 0, true); (5, 0, true); (8, 0, true); (2, 0, true)].

(** The rounds, in order. *)
Definition rounds : list (M world bool) :=
  (flags_round <$> open_flags_tried) ++
  (oflag ← [0x1C; 0x00; 0x0E]; candidate ← candidates; [opcode_round oflag candidate]).

(** [return] out of the first round that succeeds. *)
Fixpoint first_success (rs : list (M world bool)) : M world bool :=
  match rs with
  | [] => mret false
  | r :: rs' => found ← r; if (found : bool) then mret true else first_success rs'
  end.

(** True if it printed [SUCCESS], false if [NO SUCCESS]. *)
Definition test_probe : M world bool := first_success rounds.
End Search.

(** * Specification *)

(** What is logged by sessions one after another, each logged out before the
    next: the sum of them. *)
Inductive in_turn : nat -> list event -> Prop :=
  | in_turn_none : in_turn 0 []
  | in_turn_one n si calls evs :
      Forall is_ticket_call calls -> in_turn n evs ->
      in_turn (S n) (Login si :: calls ++ Logout si :: evs).

(** The open flags and the IO message of each round. *)
Definition attempts : list (Z * (Z * Z * bool)) :=
  ((fun oflag => (oflag, (2, 0, true))) <$> open_flags_tried) ++
  (oflag ← [0x1C; 0x00; 0x0E]; candidate ← candidates; [(oflag, candidate)]).

(** A round that found the opcode, from [w] to [w']: the session was made, the
    disk opened under the flags, the message answered with an IO reply, and a
    read of the same disk right after gave the data; then the disk and the
    session were closed without an error. *)
Definition gave_back {E : Env} {C : Codec} (auth : M world NfcAuthSession) (path : pystr)
    (data : bytes) (x : Z * (Z * Z * bool)) (w w' : world) : Prop :=
  let '(oflag, (opcode, ioflags, send_extra)) := x in
  exists session disk rsize body extra w1 w2 w3 w4 w5,
    auth w = (Ok session, w1) /\ open_rw session path oflag w1 = (Ok disk, w2) /\
    on_disk disk (try_io opcode ioflags data send_extra) w2 =
      (Ok (NFC_AIO_MSG_IO, rsize, body, extra), w3) /\
    on_disk disk (read 0 1) w3 = (Ok data, w4) /\ on_disk disk close w4 = (Ok tt, w5) /\
    session_close session w5 = (Ok tt, w').

(** * Lemmas: the log *)

Lemma in_turn_single si calls : Forall is_ticket_call calls -> in_turn 1 (Login si :: calls ++ [Logout si]).
Proof. intros H. apply in_turn_one; [done|constructor]. Qed.

Lemma in_turn_app n m l1 l2 : in_turn n l1 -> in_turn m l2 -> in_turn (n + m) (l1 ++ l2).
Proof.
  intros H1 H2. induction H1 as [|n si calls evs Hc _ IH]; [done|]. cbn [app Nat.add].
  rewrite <- app_assoc. cbn [app]. by apply in_turn_one.
Qed.

(** Nobody stays logged in. *)
Lemma in_turn_live n evs : in_turn n evs -> live_sessions evs = [].
Proof.
  induction 1 as [|n si calls evs Hc _ IH]; [done|]. cbn [live_sessions].
  rewrite bool_decide_true by (apply elem_of_app; right; by left).
  by rewrite live_sessions_tickets.
Qed.

(** * Lemmas: a round *)

(** The log stays, sockets are only added. *)
Definition silent : relation world := fun w w' =>
  log w' = log w /\ (length (socks w) <= length (socks w'))%nat.

#[export] Instance silent_preorder : PreOrder silent.
Proof. split; [done|]. intros w1 w2 w3 [L1 S1] [L2 S2]. split; [congruence|lia]. Qed.

#[export] Instance silent_on_sock {A} i (m : M sock A) : Frame silent (on_sock i m).
Proof. intros w. destruct (frame_on_sock i m w) as [L _ _ G]. split; [done|lia]. Qed.

#[export] Instance silent_on_disk {A} i (m : M (NfcDisk * sock) A) : Frame silent (on_disk i m).
Proof.
  intros w. unfold on_disk, zoom. destruct (m _) as [o [d s]]. split; [done|]. cbn. by rewrite length_insert.
Qed.

#[export] Instance silent_sys {A} (f : nat -> exn + A) : Frame silent (sys f).
Proof. by intros w. Qed.

#[export] Instance silent_new_sock s : Frame silent (new_sock s).
Proof. intros w. split; [done|]. cbn. rewrite length_app. lia. Qed.

#[export] Instance silent_new_disk d i : Frame silent (new_disk d i).
Proof. intros w. by split. Qed.

Section Rounds.
Context {E : Env} {U : Unicode} {C : Codec} {COk : CodecOk C}.

#[export] Instance silent_open_rw session path oflag : Frame silent (open_rw session path oflag).
Proof. unfold open_rw, takeover_authd_socket, _enable_tcp_nodelay. frames. Qed.

#[export] Instance total_probe_recvn n : Total (recvn n).
Proof.
  intros s. destruct (closed s) eqn:Hc.
  - unfold recvn. destruct (Z.to_nat n) eqn:En; cbn [probe_recvn_loop]; rewrite len_nil;
      destruct (Z.ltb_spec 0 n); try done; [lia|].
    unfold mbind, M_bind, recv. by rewrite Hc.
  - destruct (Z.le_gt_cases 0 n) as [Hn|Hn].
    + destruct (recvn_spec n s Hc Hn) as (o & got & r & rx' & Hp & _ & ->).
      cbn [fst]. unfold pull_probe, probe_outcome. destruct o as [|[]|]; try done. by apply pull_fuel in Hp.
    + unfold recvn. replace (Z.to_nat n) with 0%nat by lia. cbn [probe_recvn_loop]. rewrite len_nil.
      by destruct (Z.ltb_spec 0 n); [lia|].
Qed.

#[export] Instance total_try_io opcode flags data send : Total (try_io opcode flags data send).
Proof. unfold try_io. total. Qed.

#[export] Instance total_probe_open_file path oflag : Total (probe_open_file path oflag).
Proof.
  unfold probe_open_file. do 3 (apply total_bind; [apply _|intros]).
  apply total_bind; [apply _|]. intros [h z]. apply total_bind; [apply _|intros].
  apply total_bind; intros; apply _.
Qed.

#[export] Instance total_probe_session path oflag : Total (probe_session path oflag).
Proof.
  unfold probe_session. apply total_bind; [apply _|]. intros [].
  apply total_bind; [|intros; apply _]. intros s. unfold with_local.
  match goal with |- context [init_disk ?a ?b ?c ?d ?e ?f] => set (d0 := init_disk a b c d e f) end.
  pose proof (_ : Total (_aio_prepare;; probe_open_file path oflag)) as H. specialize (H (d0, s)).
  by destruct ((_aio_prepare;; probe_open_file path oflag) (d0, s)) as [[] []].
Qed.

#[export] Instance total_open_rw session path oflag : Total (open_rw session path oflag).
Proof. unfold open_rw, takeover_authd_socket, _enable_tcp_nodelay. total. Qed.

#[export] Instance total_close : Total close.
Proof.
  intros [d s]. destruct (_closed d) eqn:Hd; [by rewrite close_unfold, Hd|].
  by destruct (close_run d s Hd) as (o & d' & s' & -> & Ho & _).
Qed.

Context (data : bytes).

#[export] Instance silent_accept disk : Frame silent (accept data disk).
Proof. unfold accept. frames. Qed.

#[export] Instance total_accept disk : Total (accept data disk).
Proof. unfold accept. total. Qed.

#[export] Instance silent_drop_disk disk : Frame silent (drop_disk disk).
Proof. unfold drop_disk. frames. Qed.

#[export] Instance total_drop_disk disk : Total (drop_disk disk).
Proof. unfold drop_disk. total. Qed.

(** What a body may do, and what must have happened when it says that the data
    came back. *)
Definition honest (P : world -> world -> Prop) (m : M world bool) : Prop :=
  Frame silent m /\ Total m /\ forall w w', m w = (Ok true, w') -> P w w'.

(** The read of [accept], and the [close]. *)
Definition accepted (disk : nat) (w w' : world) : Prop :=
  exists w1, on_disk disk (read 0 1) w = (Ok data, w1) /\ on_disk disk close w1 = (Ok tt, w').

Lemma accept_honest disk : honest (accepted disk) (accept data disk).
Proof.
  split; [apply _|]. split; [apply _|]. intros w w' H. unfold accept in H.
  apply bind_inv_ok in H as (got & w1 & Er & H). destruct (bool_decide_reflect (got = data)) as [->|]; [|done].
  apply bind_inv_ok in H as ([] & w2 & Ec & [_ ->]%ret_inv_ok). by exists w1.
Qed.

Lemma no_honest P : honest P (mret false).
Proof. by split; [apply _|split; [apply _|]]. Qed.

Lemma except_honest P m : honest P m -> honest P (try_except any_exception m (fun _ => mret false)).
Proof.
  intros (F & T & H). split; [apply _|]. split; [apply _|]. intros w w' E1. unfold try_except in E1.
  destruct (m w) as [[[]|e|] w1] eqn:Em; simplify_eq; eauto.
Qed.

(** What follows in the round: the disk is dropped if nothing was found. *)
Lemma found_honest P disk m :
  honest P m -> honest P (found ← m; if (found : bool) then mret true else drop_disk disk;; mret false).
Proof.
  intros (F & T & H). split; [frames|]. split; [total|]. intros w w' E1.
  apply bind_inv_ok in E1 as ([] & w1 & Em & E1).
  - apply ret_inv_ok in E1 as [_ ->]. eauto.
  - apply bind_inv_ok in E1 as (u & w2 & _ & [? _]%ret_inv_ok). done.
Qed.

Lemma bind_honest {A} (P : A -> world -> world -> Prop) (m : M world A) k :
  Frame silent m -> Total m -> (forall a, honest (P a) (k a)) ->
  honest (fun w w' => exists a w1, m w = (Ok a, w1) /\ P a w1 w') (m ≫= k).
Proof.
  intros F T H. split; [apply frame_bind; [done|apply H]|].
  split; [apply total_bind; [done|apply H]|].
  intros w w' (a & w1 & E0 & E1)%bind_inv_ok. exists a, w1. split; [done|]. by apply (H a).
Qed.

Lemma honest_weaken (P Q : world -> world -> Prop) m :
  (forall w w', P w w' -> Q w w') -> honest P m -> honest Q m.
Proof. intros HPQ (F & T & H). split_and!; try done. eauto. Qed.

(** The IO message of a round on an open disk, and what [accept] found. *)
Definition answered (opcode ioflags : Z) (send_extra : bool) (disk : nat) (w w' : world) : Prop :=
  exists rsize body extra w1,
    on_disk disk (try_io opcode ioflags data send_extra) w =
      (Ok (NFC_AIO_MSG_IO, rsize, body, extra), w1) /\ accepted disk w1 w'.

Lemma answered_honest (guard : M world bool -> M world bool) opcode ioflags send disk :
  (forall P m, honest P m -> honest P (guard m)) ->
  honest (answered opcode ioflags send disk)
    ('(rtype, rsize, body, extra) ← on_disk disk (try_io opcode ioflags data send);
     found ← (if rtype =? NFC_AIO_MSG_IO then guard (accept data disk) else mret false);
     if (found : bool) then mret true else drop_disk disk;; mret false).
Proof.
  intros Hg. apply (honest_weaken (fun w w' => exists (r : Z * Z * bytes * bytes) w1,
    on_disk disk (try_io opcode ioflags data send) w = (Ok r, w1) /\
    (let '(rtype, _, _, _) := r in rtype = NFC_AIO_MSG_IO /\ accepted disk w1 w'))).
  { intros w w' ([[[rtype rsize] body] extra] & w1 & Eio & -> & Ha). by exists rsize, body, extra, w1. }
  apply (bind_honest (fun r w1 w' => let '(rtype, _, _, _) := r in
    rtype = NFC_AIO_MSG_IO /\ accepted disk w1 w')); [apply _..|].
  intros [[[rtype rsize] body] extra]. apply found_honest.
  destruct (Z.eqb_spec rtype NFC_AIO_MSG_IO) as [->|]; [|apply no_honest].
  apply Hg. eapply honest_weaken; [|apply accept_honest]. done.
Qed.

(** The contract of [authenticate]. *)
Definition signs_in (m : M world NfcAuthSession) : Prop := forall w o w', m w = (o, w') ->
  match o with
  | Ok s => (s_authd_sock s < length (socks w'))%nat /\
      exists calls, log w' = log w ++ Login (s_si s) :: calls /\ Forall is_ticket_call calls
  | Raise _ => exists n evs, (n <= 1)%nat /\ in_turn n evs /\ log w' = log w ++ evs
  | OutOfFuel => False
  end.

Lemma authenticate_signs_in a : signs_in (authenticate a).
Proof.
  intros w o w' (_ & _ & evs & G & Hm)%authenticate_run. destruct o as [s|e|]; [| |done].
  - destruct Hm as ((calls & -> & Hc) & _ & Hi). split; [lia|]. by exists calls.
  - destruct Hm as ([->|(si & calls & -> & Hc)] & _).
    + exists 0%nat, []. split; [lia|]. split; [constructor|done].
    + exists 1%nat, (Login si :: calls ++ [Logout si]). split; [lia|]. split; [by apply in_turn_single|done].
Qed.

(** A round makes one session at most, and exactly one if it returns. *)
Definition is_round (Q : world -> world -> Prop) (r : M world bool) : Prop :=
  forall w o w', r w = (o, w') ->
  o <> OutOfFuel /\ exists n evs, (n <= 1)%nat /\ in_turn n evs /\ log w' = log w ++ evs /\
    forall b, o = Ok b -> n = 1%nat /\ (b = true -> Q w w').

Lemma with_authenticate_round auth body P :
  signs_in auth -> (forall s, honest (P s) (body s)) ->
  is_round (fun w w' => exists s w1 w2, auth w = (Ok s, w1) /\ P s w1 w2 /\
    session_close s w2 = (Ok tt, w')) (with_authenticate auth body).
Proof.
  intros Ha Hb w o w' H. unfold with_authenticate in H.
  apply bind_inv in H as [(s & w1 & E1 & H)|[(e & E1 & ->)|[E1 ->]]]; pose proof (Ha _ _ _ E1) as Hs;
    [| |done].
  2: { destruct Hs as (n & evs & ? & ? & ?). split; [done|]. by exists n, evs. }
  destruct Hs as (Hi & calls & G & Hc). destruct (Hb s) as (F & T & Hh).
  pose proof (F w1) as [G2 L2].
  pose proof (session_block_releases s body w1 Hi T L2) as Hrel. rewrite H in Hrel.
  destruct Hrel as (Ho & _ & G3). rewrite G2, G, <- app_assoc in G3. cbn [app] in G3.
  split; [done|]. exists 1%nat, (Login (s_si s) :: calls ++ [Logout (s_si s)]).
  split; [lia|]. split; [by apply in_turn_single|]. split; [done|]. intros b ->. split; [done|]. intros ->.
  unfold with_session in H. apply try_finally_inv_ok in H as (w2 & Eb & Ec).
  exists s, w1, w2. eauto.
Qed.

Lemma flags_round_ok auth path oflag :
  signs_in auth ->
  is_round (gave_back auth path data (oflag, (2, 0, true))) (flags_round auth path data oflag).
Proof.
  intros Ha w o w' H. apply (with_authenticate_round auth _ (fun s w1 w2 => exists r w3,
      try_except any_exception (disk ← open_rw s path oflag; mret (Some disk)) (fun _ => mret None) w1 =
        (Ok r, w3) /\ match r with Some disk => answered 2 0 true disk w3 w2 | None => False end)
    Ha) in H as (Ho & n & evs & Hn & Ht & G & Hb).
  - split; [done|]. exists n, evs. split_and!; try done. intros b Eo. destruct (Hb b Eo) as [Hn1 Hr].
    split; [done|]. intros Et. destruct (Hr Et) as (s & w1 & w2 & E1 & ([disk|] & w3 & E3 & Hans) & Ec); [|done].
    unfold try_except in E3. destruct ((disk ← open_rw s path oflag; mret (Some disk)) w1) as [[d|e|] w4] eqn:E4;
      simplify_eq/=.
    apply bind_inv_ok in E4 as (disk' & w5 & E4 & [[= ->] ->]%ret_inv_ok).
    destruct Hans as (rsize & body & extra & w6 & Eio & w7 & Er & Ecl).
    by exists s, disk', rsize, body, extra, w1, w5, w6, w7, w2.
  - intros s. apply (bind_honest (fun (r : option nat) w3 w2 => match r with
      Some disk => answered 2 0 true disk w3 w2 | None => False end)); [frames|total|].
    intros [disk|]; [|apply no_honest]. by apply (answered_honest id).
Qed.

Lemma opcode_round_ok auth path oflag c :
  signs_in auth ->
  is_round (gave_back auth path data (oflag, c)) (opcode_round auth path data oflag c).
Proof.
  intros Ha w o w' H. destruct c as [[opcode ioflags] send].
  apply (with_authenticate_round auth _ (fun s w1 w2 => exists disk w3,
      open_rw s path oflag w1 = (Ok disk, w3) /\ answered opcode ioflags send disk w3 w2) Ha)
    in H as (Ho & n & evs & Hn & Ht & G & Hb).
  - split; [done|]. exists n, evs. split_and!; try done. intros b Eo. destruct (Hb b Eo) as [Hn1 Hr].
    split; [done|]. intros Et. destruct (Hr Et) as (s & w1 & w2 & E1 & (disk & w3 & E3 & Hans) & Ec).
    destruct Hans as (rsize & body & extra & w6 & Eio & w7 & Er & Ecl).
    by exists s, disk, rsize, body, extra, w1, w3, w6, w7, w2.
  - intros s. apply (bind_honest (fun disk => answered opcode ioflags send disk)); [apply _..|].
    intros disk. by apply (answered_honest (fun m => try_except any_exception m (fun _ => mret false))),
      except_honest.
Qed.

Lemma first_success_ok {X} (Q : X -> world -> world -> Prop) xs rs w o w' :
  Forall2 (fun x => is_round (Q x)) xs rs -> first_success rs w = (o, w') ->
  o <> OutOfFuel /\ exists n evs, (n <= length rs)%nat /\ in_turn n evs /\ log w' = log w ++ evs /\
    (o = Ok false -> n = length rs) /\
    (o = Ok true -> exists i x wi, n = S i /\ xs !! i = Some x /\
       first_success (take i rs) w = (Ok false, wi) /\ Q x wi w').
Proof.
  intros Hrs. revert w. induction Hrs as [|x r xs rs Hr _ IH]; intros w H.
  - injection H as <- <-. split; [done|]. exists 0%nat, []. rewrite app_nil_r. by repeat constructor.
  - cbn [first_success] in H. apply bind_inv in H as [(b & w1 & E1 & H)|[(e & E1 & ->)|[E1 ->]]];
      pose proof (Hr _ _ _ E1) as (Ho & n & evs & Hn & Ht & G & Hb); [| |done].
    2: { split; [done|]. exists n, evs. cbn [length]. split; [lia|]. by split_and!. }
    destruct (Hb b eq_refl) as [-> Hg]. destruct b.
    + injection H as <- <-. split; [done|]. exists 1%nat, evs. cbn [length].
      split; [lia|]. split; [done|]. split; [done|]. split; [done|]. intros _.
      exists 0%nat, x, w. split_and!; auto.
    + destruct (IH w1 H) as (Ho1 & n1 & evs1 & Hn1 & Ht1 & G1 & Hf & Hs). split; [done|].
      exists (S n1), (evs ++ evs1). cbn [length]. split; [lia|].
      split; [by apply (in_turn_app 1 n1)|]. split; [by rewrite G1, G, <- app_assoc|].
      split; [intros E2; by rewrite (Hf E2)|]. intros E2.
      destruct (Hs E2) as (i & x' & wi & -> & Hx & Hfs & Hq). exists (S i), x', wi.
      split_and!; try done. cbn [take first_success]. by rewrite (bind_ok _ _ _ _ _ E1).
Qed.

Lemma rounds_ok auth path :
  signs_in auth ->
  Forall2 (fun x => is_round (gave_back auth path data x)) attempts (rounds auth path data).
Proof.
  intros Ha. apply Forall2_app.
  - apply Forall2_fmap, Forall_Forall2_diag, Forall_true. intros oflag. by apply flags_round_ok.
  - cbn [mbind list_bind candidates app]. repeat (apply Forall2_cons_2; [by apply opcode_round_ok|]).
    apply Forall2_nil_2.
Qed.
End Rounds.

(** * Properties *)

(** C25: the search, with the library's [authenticate], makes at most one session at
    a time and 44 in all, and each is logged out before the next, whatever the
    servers answer and whatever fails; it always ends.  It gives up after all 44
    only.  It says that it found the opcode only in this way: the rounds before
    the last found nothing, and in the last one, of the attempt at its place
    in the list, the message was answered with an IO reply on the disk opened
    under the attempt's flags, the read of that disk after it gave exactly the
    data, and the disk and the session were closed without an error. *)
Theorem probe_sessions_in_turn {E : Env} {U : Unicode} {C : Codec} {COk : CodecOk C} a path data w :
  let '(o, w') := test_probe (authenticate a) path data w in
  o <> OutOfFuel /\ exists n evs, (n <= 44)%nat /\ log w' = log w ++ evs /\ in_turn n evs /\
    live_sessions evs = [] /\ (o = Ok false -> n = 44%nat) /\
    (o = Ok true -> exists i x wi, n = S i /\ attempts !! i = Some x /\
       first_success (take i (rounds (authenticate a) path data)) w = (Ok false, wi) /\
       gave_back (authenticate a) path data x wi w').
Proof.
  destruct (test_probe (authenticate a) path data w) as [o w'] eqn:H.
  eapply first_success_ok in H as (Ho & n & evs & Hn & Ht & G & Hf & Hs);
    [|apply rounds_ok, authenticate_signs_in].
  split; [done|]. exists n, evs. split_and!; try done. by eapply in_turn_live.
Qed.

(** The opcode of a write, 0, is not among the candidates. *)
Lemma write_opcode_not_tried :
  NFC_AIO_IO_WRITE <> 2 /\ Forall (fun '(opcode, _, _) => opcode <> NFC_AIO_IO_WRITE) candidates.
Proof. split; [done|]. by repeat constructor. Qed.

(** * Witness *)

Definition probe_auth : auth_args :=
  mkAuthArgs (str "vc") (str "u") (str "p") (str "vm-7") 443 None true None None true false.

(** A server that answers up to OPEN_FILE's reply and then ends the stream: the
    first IO message raises out of the search, and the one session is logged
    out. *)
Example probe_sessions_in_turn_witness :
  let '(o, w') := @test_probe lab_env lab_codec (@authenticate lab_env ascii_unicode probe_auth)
    (str "[ds] b.vmdk") (zeros 512) world0 in
  o = Raise ERuntimeError /\ log w' = [Login 1; TicketCall (GetVmFiles (str "vm-7")); Logout 1] /\
  exists n, (n <= 44)%nat /\ in_turn n (log w').
Proof.
  pose proof (@probe_sessions_in_turn lab_env ascii_unicode lab_codec lab_codec_ok probe_auth
    (str "[ds] b.vmdk") (zeros 512) world0) as H.
  assert ((let '(o, w') := @test_probe lab_env lab_codec (@authenticate lab_env ascii_unicode probe_auth)
    (str "[ds] b.vmdk") (zeros 512) world0 in (o, log w')) =
    (Raise ERuntimeError, [Login 1; TicketCall (GetVmFiles (str "vm-7")); Logout 1])) as Eq
    by (vm_compute; reflexivity).
  destruct (test_probe _ _ _ _) as [o w']. injection Eq as -> G.
  destruct H as (_ & n & evs & Hn & Gl & Ht & _).
  split; [done|]. split; [done|]. exists n. by rewrite Gl.
Defined.
