(* ===== verification/ProbeTrace.v ===== *)
(** The trace reader of the protocol study,
    [docs/probing_samples/vddk_aio_bufsize_probe.py]: it takes the bytes of
    each descriptor out of the output of [strace -x -s 96], as far as they can
    be seen there, and finds the AIO messages in them.  The files it reads are lists of lines, the result of a text-mode
    [open]. *)
From Stdlib Require Import ZArith Lia String.
From stdpp Require Import base list numbers sets.
From coqutil Require Import Byte Word.LittleEndianList.
Import LittleEndianList.
From S2P Require Import Prelude Python PyStr Socket Wire Disk ReadSpec DiskRead OpenDisk.

(** * Constants *)

Definition _AIO_MAGIC : Z := 0xA100DA7A.
Definition _AIO_HDR : Z := 16.
Definition _NFC_AIO_MSG_OPEN_SESSION : Z := 2.
Definition _NFC_AIO_MSG_IO : Z := 7.
Definition _NFC_AIO_IO_READ : Z := 1.

(** * Strings of strace *)

(** [[0-9a-fA-F]], and its value. *)
Definition hex_value (c : Z) : option Z :=
  if (48 <=? c) && (c <=? 57) then Some (c - 48)
  else if (97 <=? c) && (c <=? 102) then Some (c - 87)
  else if (65 <=? c) && (c <=? 70) then Some (c - 55)
  else None.

(** The two digits of [\\x([0-9a-fA-F]{2})] at the head of [s], and the rest. *)
Definition hex_escape (s : pystr) : option (Z * pystr) :=
  match s with
  | b :: x :: h :: l :: s' =>
      if (b =? 92) && (x =? 120) then
        v ← hex_value h; w ← hex_value l; Some (16 * v + w, s')
      else None
  | _ => None
  end.

(** [bytes(int(part, 16) for part in re.findall(..., quoted))]; every round
    drops at least one character, so fuel [len(quoted)] is enough. *)
Fixpoint decode_loop (fuel : nat) (s : pystr) : bytes :=
  match fuel, s with
  | S fuel', _ :: s' =>
      match hex_escape s with
      | Some (v, rest) => byte.of_Z v :: decode_loop fuel' rest
      | None => decode_loop fuel' s'
      end
  | _, _ => []
  end.

Definition _decode_strace_hex (quoted : pystr) : bytes := decode_loop (length quoted) quoted.

(** * Lines of strace *)

(** [dict[int, bytearray]], in the order of insertion. *)
Abbreviation buckets := (list (Z * bytes)).

Section Lines.
Context {U : Unicode}.

Definition is_digit (c : Z) : bool := bool_decide (is_Some (digit_value c)).

(** The longest prefix in [f], and the rest. *)
Fixpoint span (f : Z -> bool) (s : pystr) : pystr * pystr :=
  match s with
  | c :: s' => if f c then let '(a, b) := span f s' in (c :: a, b) else ([], s)
  | [] => ([], [])
  end.

(** What [(.*?)] and a quote take: up to the first quote, on one line. *)
Fixpoint up_to_quote (s : pystr) : option pystr :=
  match s with
  | [] => None
  | c :: s' => if c =? 34 then Some [] else if c =? 10 then None else cons c <$> up_to_quote s'
  end.

(** [r'(read|write|recv|send)\((\d+),\s*"(.*?)"'] at the head of [s].  None of
    the names is a prefix of another, what follows the digits is no digit and
    what follows the white space is none, so the match is unique. *)
Definition syscalls : list pystr := [str "read"; str "write"; str "recv"; str "send"].

Definition match_call (op s : pystr) : option (pystr * pystr * pystr) :=
  if startswith s (op ++ [40]) then
    let '(fd, s1) := span is_digit (drop (length op + 1) s) in
    if bool_decide (fd = []) then None else
    match s1 with
    | 44 :: s2 =>
        match drop_while is_space s2 with
        | 34 :: s3 => quoted ← up_to_quote s3; Some (op, fd, quoted)
        | _ => None
        end
    | _ => None
    end
  else None.

Definition match_at (s : pystr) : option (pystr * pystr * pystr) :=
  match filter is_Some ((fun op => match_call op s) <$> syscalls) with
  | m :: _ => m
  | [] => None
  end.

(** [syscall_re.search(line)] *)
Fixpoint search (s : pystr) : option (pystr * pystr * pystr) :=
  match match_at s with
  | Some m => Some m
  | None => match s with [] => None | _ :: s' => search s' end
  end.

(** The number that digits stand for. *)
Definition digits_value (digits : pystr) : Z :=
  fold_left (fun n c => 10 * n + default 0 (digit_value c)) digits 0.

(** [int(fd_s)] of digits; more than 4300 of them are refused. *)
Definition int_of (digits : pystr) : outcome Z :=
  if 4300 <? len digits then Raise EValueError else Ok (digits_value digits).

(** * Buckets *)

(** [bucket.setdefault(fd, bytearray()).extend(buf)] *)
Fixpoint extend (fd : Z) (buf : bytes) (b : buckets) : buckets :=
  match b with
  | [] => [(fd, buf)]
  | (fd', old) :: b' => if fd' =? fd then (fd', old ++ buf) :: b' else (fd', old) :: extend fd buf b'
  end.

(** One line of the loop: [writes] and [reads]. *)
Definition collect_line (line : pystr) (b : buckets * buckets) : outcome (buckets * buckets) :=
  match search line with
  | None => Ok b
  | Some (op, fd_s, quoted) =>
      let buf := _decode_strace_hex quoted in
      if bool_decide (buf = []) then Ok b else
      fd ← int_of fd_s;
      let '(writes, reads) := b in
      Ok (if bool_decide (op ∈ [str "write"; str "send"]) then (extend fd buf writes, reads)
          else (writes, extend fd buf reads))
  end.

Fixpoint collect_lines (lines : list pystr) (b : buckets * buckets) : outcome (buckets * buckets) :=
  match lines with
  | [] => Ok b
  | line :: lines' => b' ← collect_line line b; collect_lines lines' b'
  end.
End Lines.

(** * Messages *)

(** [open_sessions] and [io_reads]. *)
Abbreviation found := (list bytes * list (Z * Z * Z))%type.

(** What one message adds. *)
Definition note_message (collect_open collect_io : bool) (msg_type : Z) (payload : bytes) (f : found) :
    outcome found :=
  let '(open_sessions, io_reads) := f in
  let open_sessions' :=
    if collect_open && (msg_type =? _NFC_AIO_MSG_OPEN_SESSION) && (16 <=? len payload)
    then open_sessions ++ [py_slice 0 16 payload] else open_sessions in
  if collect_io && (msg_type =? _NFC_AIO_MSG_IO) && (40 <=? len payload) then
    opcode ← unpack1 (struct_unpack_from "<Q" payload 8);
    if Z.land opcode 0xFFFFFFFF =? _NFC_AIO_IO_READ then
      '(dest, chunk_len, extra_len) ← unpack3 (struct_unpack_from "<III" payload 28);
      Ok (open_sessions', io_reads ++ [(dest, chunk_len, extra_len)])
    else Ok (open_sessions', io_reads)
  else Ok (open_sessions', io_reads).

(** [walk]; every round moves [offset] forward, so fuel [len(buf)] is enough. *)
Fixpoint walk_loop (fuel : nat) (buf : bytes) (collect_open collect_io : bool) (offset : Z) (f : found) :
    outcome found :=
  if offset + _AIO_HDR <=? len buf then
    match fuel with
    | O => OutOfFuel
    | S fuel' =>
        '(magic, msg_type, size, _opid) ← unpack4 (struct_unpack_from "<IIII" buf offset);
        if negb (magic =? _AIO_MAGIC) then walk_loop fuel' buf collect_open collect_io (offset + 1) f
        else
          let payload := py_slice (offset + _AIO_HDR) (offset + _AIO_HDR + size) buf in
          f' ← note_message collect_open collect_io msg_type payload f;
          walk_loop fuel' buf collect_open collect_io (offset + (_AIO_HDR + size)) f'
    end
  else Ok f.

Definition walk (buf : bytes) (collect_open collect_io : bool) (f : found) : outcome found :=
  walk_loop (length buf) buf collect_open collect_io 0 f.

Fixpoint walk_all (bufs : list bytes) (collect_open collect_io : bool) (f : found) : outcome found :=
  match bufs with
  | [] => Ok f
  | buf :: bufs' => f' ← walk buf collect_open collect_io f; walk_all bufs' collect_open collect_io f'
  end.

Definition parse_strace {U : Unicode} (lines : list pystr) : outcome found :=
  '(writes, reads) ← collect_lines lines ([], []);
  f ← walk_all (snd <$> writes) true false ([], []);
  walk_all (snd <$> reads) false true f.

(** * The other files of the probe *)

(** [key in line] *)
Fixpoint contains (key line : pystr) : bool :=
  startswith line key || match line with [] => false | _ :: line' => contains key line' end.

(** [line.rstrip()] *)
Definition rstrip {U : Unicode} (s : pystr) : pystr := reverse (drop_while is_space (reverse s)).

Definition log_keys : list pystr :=
  [str "Buffer Size"; str "BufCount"; str "BufSize"; str "AIO session"; str "Aio Session";
   str "maximum session"; str "Req. buffer"].

(** [None] is a log that is not there. *)
Definition _interesting_log_lines {U : Unicode} (log : option (list pystr)) : list pystr :=
  match log with
  | None => []
  | Some lines => rstrip <$> filter (fun line => existsb (fun key => contains key line) log_keys = true) lines
  end.

(** * Specification: what strace prints *)

Definition hex_lower (d : Z) : Z := if d <? 10 then 48 + d else 87 + d.

(** Under [-x] a string is printed as text when all of it is printable ASCII or
    white space, and every byte of it in hexadecimal otherwise. *)
Definition text_byte (b : byte) : bool :=
  let c := byte.unsigned b in (32 <=? c) && (c <=? 126) || (9 <=? c) && (c <=? 13).

Definition is_text (bs : bytes) : bool := forallb text_byte bs.

Definition escape (b : byte) : pystr :=
  [92; 120; hex_lower (byte.unsigned b / 16); hex_lower (byte.unsigned b mod 16)].

Definition escaped (bs : bytes) : pystr := bs ≫= escape.

(** A character of a text: quotes, backslashes and white space are escaped. *)
Definition text_char (c : Z) : pystr :=
  if c =? 34 then [92; 34] else if c =? 92 then [92; 92]
  else if c =? 9 then [92; 116] else if c =? 10 then [92; 110] else if c =? 11 then [92; 118]
  else if c =? 12 then [92; 102] else if c =? 13 then [92; 114] else [c].

Definition chars (bs : bytes) : pystr := byte.unsigned <$> bs.

Definition printed_text (bs : bytes) : pystr := chars bs ≫= text_char.

(** [-s 96]: the first 96 bytes are shown, and dots if there are more. *)
Definition shown (data : bytes) : bytes := take 96 data.

Definition quoted (data : bytes) : pystr :=
  if is_text (shown data) then printed_text (shown data) else escaped (shown data).

Definition dots (data : bytes) : pystr := if 96 <? len data then [46; 46; 46] else [].

(** A call in the trace: the process id and what else stands before it, the
    name, the descriptor as it is printed, the data that is shown (for a sending
    call what it was given, for a receiving one what it returned), and the rest
    of the line. *)
Record call := mkCall {
  cl_prefix : pystr;
  cl_op : pystr;
  cl_fd : pystr;
  cl_data : bytes;
  cl_suffix : pystr
}.

Definition call_line (c : call) : pystr :=
  cl_prefix c ++ cl_op c ++ 40 :: cl_fd c ++
    [44; 32; 34] ++ quoted (cl_data c) ++ 34 :: dots (cl_data c) ++ cl_suffix c.

(** A text up to its first double quote. *)
Fixpoint before_quote (s : pystr) : pystr :=
  match s with
  | [] => []
  | c :: s' => if c =? 34 then [] else c :: before_quote s'
  end.

(** What of a call's data the reader can take from its line: the shown bytes,
    when they are in hexadecimal; of a text only what the text itself spells in
    hexadecimal escapes, which mostly is nothing. *)
Definition visible (c : call) : bytes :=
  if is_text (shown (cl_data c)) then _decode_strace_hex (before_quote (chars (shown (cl_data c))))
  else shown (cl_data c).

(** Whether the call sends. *)
Definition sends (c : call) : bool := bool_decide (cl_op c ∈ [str "write"; str "send"]).

Section Trace.
Context {U : Unicode}.

Record call_ok (c : call) : Prop := {
  call_prefix : 40 ∉ cl_prefix c;
  call_op : cl_op c ∈ syscalls;
  call_fd : cl_fd c <> [];
  call_digits : Forall (fun x => is_digit x = true) (cl_fd c);
  call_short : len (cl_fd c) <= 4300
}.

(** A line of the trace: a call with its string, or something else that the
    pattern does not match: other calls, signals, a call that failed (it has an
    address for a string), and both halves of a [read] that [-f] found
    unfinished, [read(5,  <unfinished ...>] and
    [<... read resumed>"...", 16) = 16]. *)
Inductive trace_line : option call -> pystr -> Prop :=
  | line_call c : call_ok c -> trace_line (Some c) (call_line c)
  | line_other l : search l = None -> trace_line None l.

Definition fd_of (c : call) : Z := digits_value (cl_fd c).

(** The descriptors with visible bytes in one direction, in the order of their
    first use. *)
Definition first_seen (seen : list Z) (fd : Z) : list Z :=
  if bool_decide (fd ∈ seen) then seen else seen ++ [fd].

Definition fds (dir : bool) (calls : list call) : list Z :=
  fold_left first_seen (fd_of <$> filter (fun c => sends c = dir /\ visible c <> []) calls) [].

(** The visible bytes of the descriptor [fd] in one direction, in order. *)
Definition stream_of (dir : bool) (fd : Z) (calls : list call) : bytes :=
  filter (fun c => sends c = dir /\ fd_of c = fd) calls ≫= visible.

Definition streams (dir : bool) (calls : list call) : buckets :=
  (fun fd => (fd, stream_of dir fd calls)) <$> fds dir calls.
End Trace.

(** * Specification: messages in a stream *)

(** No message starts in [g] when [rest] follows. *)
Definition silent (g rest : bytes) : Prop :=
  forall i, 0 <= i < len g -> i + 16 <= len (g ++ rest) -> u32_at i (g ++ rest) <> NFC_AIO_MAGIC.

(** A message, after a gap. *)
Record message := mkMessage { ms_gap : bytes; ms_type : Z; ms_op : Z; ms_payload : bytes }.

Fixpoint stream (ms : list message) (tail : bytes) : bytes :=
  match ms with
  | [] => tail
  | m :: ms' => ms_gap m ++ aio_msg (ms_type m) (ms_op m) (ms_payload m) ++ stream ms' tail
  end.

Fixpoint stream_ok (ms : list message) (tail : bytes) : Prop :=
  match ms with
  | [] => silent tail []
  | m :: ms' => fits32 (ms_type m) /\ fits32 (ms_op m) /\ fits32 (len (ms_payload m)) /\
      silent (ms_gap m) (aio_msg (ms_type m) (ms_op m) (ms_payload m) ++ stream ms' tail) /\
      stream_ok ms' tail
  end.

Definition open_payloads (ms : list message) : list bytes :=
  take 16 ∘ ms_payload <$>
    filter (fun m => ms_type m = NFC_AIO_MSG_OPEN_SESSION /\ 16 <= len (ms_payload m)) ms.

(** A message of a fragment that was read. *)
Definition read_message (m : message) : Prop :=
  ms_type m = NFC_AIO_MSG_IO /\ 40 <= len (ms_payload m) /\
  u64_at 8 (ms_payload m) mod 2 ^ 32 = NFC_AIO_IO_READ.

#[export] Instance read_message_dec m : Decision (read_message m).
Proof. unfold read_message. apply _. Defined.

Definition read_chunks (ms : list message) : list (Z * Z * Z) :=
  (fun m => (u32_at 28 (ms_payload m), u32_at 32 (ms_payload m), u32_at 36 (ms_payload m))) <$>
    filter read_message ms.

(** * Lemmas: escapes *)

Lemma hex_lower_value d : 0 <= d < 16 -> hex_value (hex_lower d) = Some d.
Proof.
  intros Hd. unfold hex_lower, hex_value. destruct (Z.ltb_spec d 10).
  - rewrite (proj2 (Z.leb_le 48 _)), (proj2 (Z.leb_le _ 57)) by lia. cbn. f_equal. lia.
  - rewrite (proj2 (Z.leb_gt _ 57)), andb_false_r by lia.
    rewrite (proj2 (Z.leb_le 97 _)), (proj2 (Z.leb_le _ 102)) by lia. cbn. f_equal. lia.
Qed.

Lemma hex_escape_escape b s : hex_escape (escape b ++ s) = Some (byte.unsigned b, s).
Proof.
  pose proof (byte.unsigned_range b) as Hb. unfold escape. cbn [app hex_escape].
  assert (0 <= byte.unsigned b / 16 < 16) as Hd
    by (split; [apply Z.div_pos|apply Z.div_lt_upper_bound]; lia).
  pose proof (Z.mod_pos_bound (byte.unsigned b) 16 ltac:(lia)) as Hm.
  cbn [Z.eqb Pos.eqb andb]. rewrite !hex_lower_value by done. cbn.
  do 2 f_equal. symmetry. apply Z.div_mod. lia.
Qed.

Lemma hex_escape_shorter s v rest : hex_escape s = Some (v, rest) -> (length rest < length s)%nat.
Proof.
  destruct s as [|b [|x [|h [|l s]]]]; try done. cbn [hex_escape]. destruct (_ && _); [|done].
  destruct (hex_value h) as [u|]; [|done]. destruct (hex_value l) as [u'|]; [|done].
  intros [= _ <-]. simpl. lia.
Qed.

Lemma decode_loop_fuel s fuel fuel' :
  (length s <= fuel)%nat -> (length s <= fuel')%nat -> decode_loop fuel s = decode_loop fuel' s.
Proof.
  revert s fuel'. induction fuel as [|fuel IH]; intros [|c s] [|fuel'] H H'; simpl in H, H'; try (done || lia).
  cbn [decode_loop]. destruct (hex_escape (c :: s)) as [[v rest]|] eqn:E.
  - apply hex_escape_shorter in E. simpl in E. f_equal. apply IH; lia.
  - apply IH; lia.
Qed.

Lemma decode_cons c s :
  _decode_strace_hex (c :: s) =
  match hex_escape (c :: s) with
  | Some (v, rest) => byte.of_Z v :: _decode_strace_hex rest
  | None => _decode_strace_hex s
  end.
Proof.
  unfold _decode_strace_hex at 1. cbn [length decode_loop].
  destruct (hex_escape (c :: s)) as [[v rest]|] eqn:E; [|done].
  apply hex_escape_shorter in E. simpl in E. f_equal. by apply decode_loop_fuel; [lia|].
Qed.

Lemma decode_escaped bs : _decode_strace_hex (escaped bs) = bs.
Proof.
  induction bs as [|b bs IH]; [done|]. unfold escaped in *. rewrite bind_cons.
  pose proof (hex_escape_escape b (bs ≫= escape)) as E. destruct (escape b) as [|c r] eqn:Eb; [done|].
  cbn [app] in *. rewrite decode_cons, E, IH, byte.of_Z_unsigned. done.
Qed.

Lemma hex_escape_other c s : c <> 92 -> hex_escape (c :: s) = None.
Proof.
  intros Hc. destruct s as [|x [|h [|l s]]]; try done. cbn [hex_escape].
  by rewrite (proj2 (Z.eqb_neq c 92)).
Qed.

Lemma decode_no_backslash s : 92 ∉ s -> _decode_strace_hex s = [].
Proof.
  induction s as [|c s IH]; [done|]. intros [Hc Hs]%not_elem_of_cons.
  by rewrite decode_cons, hex_escape_other, IH.
Qed.

(** Printing a text keeps what it spells in hexadecimal escapes. *)
Lemma text_char_cases c :
  (c = 92 /\ text_char c = [92; 92]) \/ (c <> 92 /\ exists k, k <> 120 /\ k <> 92 /\ text_char c = [92; k]) \/
  (c <> 92 /\ text_char c = [c]).
Proof.
  unfold text_char. destruct (Z.eqb_spec c 34); [right; left; split; [lia|by exists 34]|].
  destruct (Z.eqb_spec c 92); [by left|].
  destruct (Z.eqb_spec c 9); [right; left; split; [lia|by exists 116]|].
  destruct (Z.eqb_spec c 10); [right; left; split; [lia|by exists 110]|].
  destruct (Z.eqb_spec c 11); [right; left; split; [lia|by exists 118]|].
  destruct (Z.eqb_spec c 12); [right; left; split; [lia|by exists 102]|].
  destruct (Z.eqb_spec c 13); [right; left; split; [lia|by exists 114]|]. by right; right.
Qed.

Lemma hex_escape_not_x k s : k <> 120 -> hex_escape (92 :: k :: s) = None.
Proof.
  intros Hk. destruct s as [|h [|l s]]; try done. cbn [hex_escape]. by rewrite (proj2 (Z.eqb_neq k 120)).
Qed.

(** A digit stands for itself, and nothing else begins with one. *)
Lemma text_char_hex c s : exists d r, text_char c ++ s = d :: r /\
  (hex_value c = None -> hex_value d = None) /\ (is_Some (hex_value c) -> d = c /\ r = s) /\
  (c <> 120 -> d <> 120) /\ (c = 120 -> d = 120 /\ r = s).
Proof.
  destruct (text_char_cases c) as [[-> ->]|[(Hc & k & Hk & _ & E)|[Hc ->]]].
  - exists 92, (92 :: s). split_and!; done || by intros [].
  - rewrite E. exists 92, (k :: s). split_and!; try done.
    + intros [v Hv]. exfalso. revert E. unfold text_char, hex_value in *.
      destruct (Z.eqb_spec c 34) as [->|]; [done|]. destruct (Z.eqb_spec c 92); [done|].
      repeat match goal with |- context [c =? ?n] => destruct (Z.eqb_spec c n) as [->|]; [done|] end. done.
    + intros ->. done.
  - by exists c, s.
Qed.

Lemma hex_escape_printed t e :
  e = [] \/ e = [92] -> hex_escape (92 :: t) = None -> hex_escape (92 :: (t ≫= text_char) ++ e) = None.
Proof.
  intros He H. destruct t as [|x t]; [by destruct He as [-> | ->]|]. rewrite bind_cons, <- app_assoc.
  destruct (text_char_hex x ((t ≫= text_char) ++ e)) as (d & r & -> & _ & _ & Hn & Hy).
  destruct (decide (x = 120)) as [->|Hx]; [|by apply hex_escape_not_x; auto].
  destruct (Hy eq_refl) as [-> ->]. clear Hn Hy.
  destruct t as [|h t]; [by destruct He as [-> | ->]|]. rewrite bind_cons, <- app_assoc.
  destruct (text_char_hex h ((t ≫= text_char) ++ e)) as (d & r & -> & Hn & Hy & _).
  destruct (hex_value h) as [v|] eqn:Ev.
  2: { destruct r as [|l r]; [done|]. cbn [hex_escape]. rewrite Hn by done. done. }
  destruct (Hy ltac:(done)) as [-> ->]. clear Hn Hy.
  destruct t as [|l t]; [by destruct He as [-> | ->]; [|cbn; rewrite Ev]|]. rewrite bind_cons, <- app_assoc.
  destruct (text_char_hex l ((t ≫= text_char) ++ e)) as (d & r & -> & Hn & _).
  cbn [hex_escape Z.eqb Pos.eqb andb] in *. rewrite Ev in *. cbn in *.
  destruct (hex_value l); [done|]. by rewrite Hn.
Qed.

Lemma decode_printed t e :
  e = [] \/ e = [92] -> _decode_strace_hex ((t ≫= text_char) ++ e) = _decode_strace_hex t.
Proof.
  intros He. remember (length t) as n eqn:Hn. revert t Hn.
  induction (lt_wf n) as [n _ IH]. intros [|c t] ->; [by destruct He as [-> | ->]|].
  assert (_decode_strace_hex ((t ≫= text_char) ++ e) = _decode_strace_hex t) as IHt
    by (by apply (IH (length t)); [simpl; lia|]).
  rewrite bind_cons, <- app_assoc, (decode_cons c t).
  destruct (text_char_cases c) as [[-> ->]|[(Hc & k & Hk & Hb & ->)|[Hc ->]]]; cbn [app].
  - rewrite decode_cons, hex_escape_not_x by done.
    destruct (hex_escape (92 :: t)) as [[v rest]|] eqn:E.
    + destruct t as [|x [|h [|l t]]]; try done. cbn [hex_escape Z.eqb Pos.eqb andb] in E.
      destruct (Z.eqb_spec x 120) as [->|]; [|done].
      destruct (hex_value h) as [a|] eqn:Eh; [|done]. destruct (hex_value l) as [b|] eqn:El; [|done].
      cbn in E. injection E as <- <-. rewrite !bind_cons.
      assert (forall d, is_Some (hex_value d) -> text_char d = [d]) as Hd.
      { intros d Hd. destruct (text_char_hex d []) as (d' & r & E1 & _ & H1 & _).
        destruct (H1 Hd) as [-> ->]. by rewrite app_nil_r in E1. }
      rewrite (Hd h), (Hd l) by by rewrite ?Eh, ?El. cbn [app]. change (text_char 120) with [120]. cbn [app].
      rewrite decode_cons. cbn [hex_escape Z.eqb Pos.eqb andb]. rewrite Eh, El. cbn [mbind option_bind].
      f_equal. apply (IH (length t)); [simpl; lia|done].
    + by rewrite decode_cons, hex_escape_printed.
  - rewrite decode_cons, hex_escape_not_x, decode_cons, !hex_escape_other by done. done.
  - by rewrite decode_cons, !hex_escape_other by done.
Qed.

(** * Lemmas: the pattern *)

Lemma escape_plain b : (34 ∉ escape b) /\ (10 ∉ escape b).
Proof.
  pose proof (byte.unsigned_range b) as Hb. unfold escape, hex_lower.
  assert (0 <= byte.unsigned b / 16 < 16) as Hd
    by (split; [apply Z.div_pos|apply Z.div_lt_upper_bound]; lia).
  pose proof (Z.mod_pos_bound (byte.unsigned b) 16 ltac:(lia)) as Hm.
  destruct (Z.ltb_spec (byte.unsigned b / 16) 10), (Z.ltb_spec (byte.unsigned b mod 16) 10);
    rewrite !elem_of_cons, !elem_of_nil; lia.
Qed.

Lemma up_to_quote_app a s : 34 ∉ a -> 10 ∉ a -> up_to_quote (a ++ 34 :: s) = Some a.
Proof.
  induction a as [|c a IH]; [done|]. rewrite !not_elem_of_cons. intros [Hq Ha] [Hn Hb]. simpl.
  rewrite (proj2 (Z.eqb_neq c 34)), (proj2 (Z.eqb_neq c 10)) by lia. by rewrite IH.
Qed.

Lemma up_to_quote_escaped bs s : up_to_quote (escaped bs ++ 34 :: s) = Some (escaped bs).
Proof.
  apply up_to_quote_app; unfold escaped; rewrite list_elem_of_bind; intros (b & Hin & _);
    destruct (escape_plain b); tauto.
Qed.

(** A printed text ends for the pattern at the first quote in it. *)
Lemma up_to_quote_printed t s :
  exists e, (e = [] \/ e = [92]) /\
    up_to_quote ((t ≫= text_char) ++ 34 :: s) = Some ((before_quote t ≫= text_char) ++ e).
Proof.
  induction t as [|c t (e & He & IH)]; [by exists []; split; [left|]|].
  rewrite bind_cons, <- app_assoc. cbn [before_quote]. destruct (Z.eqb_spec c 34) as [->|Hc].
  - exists [92]. by split; [right|].
  - exists e. split; [done|]. rewrite bind_cons, <- app_assoc.
    assert ((34 ∉ text_char c) /\ (10 ∉ text_char c)) as [Hq Hn].
    { unfold text_char. rewrite (proj2 (Z.eqb_neq c 34)) by done.
      repeat match goal with |- context [c =? ?n] => destruct (Z.eqb_spec c n) as [->|] end;
        rewrite !elem_of_cons, !elem_of_nil; lia. }
    revert Hq Hn. generalize (text_char c). intros l. induction l as [|d l IHl]; intros Hq Hn; [done|].
    apply not_elem_of_cons in Hq as [Hd Hq], Hn as [Hd' Hn]. cbn [app up_to_quote].
    rewrite (proj2 (Z.eqb_neq d 34)), (proj2 (Z.eqb_neq d 10)) by lia. by rewrite IHl.
Qed.

(** What the reader makes of the string of a call. *)
Lemma up_to_quote_quoted data s :
  exists q, up_to_quote (quoted data ++ 34 :: s) = Some q /\
    forall w op fd su, _decode_strace_hex q = visible (mkCall w op fd data su).
Proof.
  unfold quoted, visible. cbn [cl_data]. destruct (is_text (shown data)).
  - unfold printed_text. destruct (up_to_quote_printed (chars (shown data)) s) as (e & He & ->).
    eexists. split; [done|]. intros _ _ _ _. by apply decode_printed.
  - eexists. split; [apply up_to_quote_escaped|]. intros _ _ _ _. apply decode_escaped.
Qed.

Lemma span_app f a c s : Forall (fun x => f x = true) a -> f c = false -> span f (a ++ c :: s) = (a, c :: s).
Proof.
  intros Ha Hc. induction Ha as [|x a Hx Ha IH]; simpl; [by rewrite Hc|]. by rewrite Hx, IH.
Qed.

(** A name and a parenthesis are found only where the name is what stands
    before the first parenthesis. *)
Lemma startswith_call u v s :
  40 ∉ u -> 40 ∉ v -> startswith (u ++ 40 :: s) (v ++ [40]) = bool_decide (u = v).
Proof.
  revert v. induction u as [|c u IH]; intros [|d v] Hu Hv; cbn [app startswith]; try done.
  - apply not_elem_of_cons in Hv as [Hd _]. destruct (Z.eqb_spec d 40); [lia|done].
  - apply not_elem_of_cons in Hu as [Hc _]. destruct (Z.eqb_spec 40 c); [lia|done].
  - apply not_elem_of_cons in Hu as [_ Hu], Hv as [_ Hv]. rewrite (IH v) by done.
    destruct (Z.eqb_spec d c) as [->|]; cbn [andb]; [|case_bool_decide; [congruence|done]].
    apply bool_decide_ext. split; congruence.
Qed.

Lemma syscall_cases op :
  op ∈ syscalls -> op = str "read" \/ op = str "write" \/ op = str "recv" \/ op = str "send".
Proof. unfold syscalls. rewrite !elem_of_cons, elem_of_nil. tauto. Qed.

Ltac syscall H := apply syscall_cases in H as [-> | [-> | [-> | ->]]].

Lemma syscall_plain op : op ∈ syscalls -> 40 ∉ op.
Proof. intros H. syscall H; match goal with |- ?P => exact (bool_decide_eq_true_1 P eq_refl) end. Qed.

(** No name ends in another. *)
Lemma syscall_suffix w op op' : op ∈ syscalls -> op' ∈ syscalls -> w ++ op = op' -> w = [].
Proof.
  intros H H' E. destruct w as [|c [|d w]]; [done|..]; exfalso; syscall H; syscall H'; try discriminate E;
    apply (f_equal length) in E; simpl in E; rewrite length_app in E; simpl in E; lia.
Qed.

(** * Lemmas: a line *)

Section CallLines.
Context {U : Unicode} {UO : UnicodeOk U}.

Lemma is_digit_comma : is_digit 44 = false.
Proof. unfold is_digit. by rewrite digit_value_ascii by lia. Qed.

Lemma match_call_other op u s :
  op ∈ syscalls -> 40 ∉ u -> op <> u -> match_call op (u ++ 40 :: s) = None.
Proof.
  intros Hop Hu Hne. unfold match_call. rewrite startswith_call by (done || by apply syscall_plain).
  by rewrite bool_decide_false by done.
Qed.

(** What the pattern finds at the name of a call. *)
Lemma match_call_here op fd q r s :
  op ∈ syscalls -> fd <> [] -> Forall (fun x => is_digit x = true) fd -> up_to_quote r = Some q ->
  s = op ++ 40 :: fd ++ [44; 32; 34] ++ r -> match_call op s = Some (op, fd, q).
Proof.
  intros Hop Hne Hfd Hq ->. unfold match_call. rewrite startswith_call by (by apply syscall_plain).
  rewrite bool_decide_true by done.
  rewrite (cons_middle 40), (app_assoc op), drop_app_length' by (rewrite length_app; done).
  cbn [app]. rewrite span_app by (done || apply is_digit_comma).
  rewrite bool_decide_false by done. cbn [drop_while].
  rewrite !is_space_ascii by lia. cbn [ascii_space Z.leb Z.compare Pos.compare Pos.compare_cont andb orb].
  by rewrite Hq.
Qed.

Lemma match_at_one (f : pystr -> option (pystr * pystr * pystr)) op m :
  op ∈ syscalls -> f op = Some m -> (forall op', op' ∈ syscalls -> op' <> op -> f op' = None) ->
  filter is_Some (f <$> syscalls) = [Some m].
Proof.
  intros Hop Hm Hother. unfold syscalls in *. cbn [fmap list_fmap].
  assert (forall op', op' ∈ syscalls -> f op' = if bool_decide (op' = op) then Some m else None) as Hf.
  { intros op' Hin. case_bool_decide as E; [by rewrite E|by apply Hother]. }
  rewrite !Hf by (unfold syscalls; rewrite !elem_of_cons; tauto).
  by syscall Hop.
Qed.

Lemma match_at_call op fd q r :
  op ∈ syscalls -> fd <> [] -> Forall (fun x => is_digit x = true) fd -> up_to_quote r = Some q ->
  match_at (op ++ 40 :: fd ++ [44; 32; 34] ++ r) = Some (op, fd, q).
Proof.
  intros Hop Hne Hfd Hq. unfold match_at.
  erewrite match_at_one; [done|exact Hop|by eapply match_call_here|].
  intros op' Hop' Hd. apply match_call_other; [done|by apply syscall_plain|done].
Qed.

Lemma match_at_prefix w op s :
  w <> [] -> 40 ∉ w -> op ∈ syscalls -> match_at (w ++ op ++ 40 :: s) = None.
Proof.
  intros Hne Hw Hop. unfold match_at. rewrite app_assoc.
  assert (forall op', op' ∈ syscalls -> match_call op' ((w ++ op) ++ 40 :: s) = None) as Hf.
  { intros op' Hop'. apply match_call_other; [done| |].
    - rewrite elem_of_app. pose proof (syscall_plain op Hop). tauto.
    - intros E. by apply Hne, (syscall_suffix w op op'). }
  unfold syscalls in *. cbn [fmap list_fmap]. by rewrite !Hf by (unfold syscalls; rewrite !elem_of_cons; tauto).
Qed.

Lemma search_call c :
  call_ok c -> exists q, search (call_line c) = Some (cl_op c, cl_fd c, q) /\
    _decode_strace_hex q = visible c.
Proof.
  intros [Hw Hop Hfd Hd _]. destruct c as [w op fd data su]. unfold call_line. cbn [cl_prefix cl_op cl_fd
    cl_data cl_suffix] in *.
  destruct (up_to_quote_quoted data (dots data ++ su)) as (q & Hq & Hv). exists q. split; [|apply Hv].
  set (r := quoted data ++ _) in *. clear Hv. induction w as [|x w' IH].
  - cbn [app]. pose proof (match_at_call _ _ _ _ Hop Hfd Hd Hq) as E. cbn [app] in E.
    destruct (op ++ _) eqn:El; cbn [search]; by rewrite E.
  - pose proof (match_at_prefix (x :: w') _ (fd ++ [44; 32; 34] ++ r) ltac:(done) Hw Hop) as E.
    cbn [app search] in *. rewrite E. apply IH. by apply not_elem_of_cons in Hw as [_ ?].
Qed.

(** What a call adds. *)
Lemma collect_call c b :
  call_ok c ->
  collect_line (call_line c) b =
  Ok (if bool_decide (visible c = []) then b
      else if sends c then (extend (fd_of c) (visible c) b.1, b.2)
      else (b.1, extend (fd_of c) (visible c) b.2)).
Proof.
  intros Hc. unfold collect_line. destruct (search_call c Hc) as (q & -> & ->).
  case_bool_decide; [done|]. unfold int_of.
  rewrite (proj2 (Z.ltb_ge _ _)) by apply Hc. by destruct b.
Qed.
End CallLines.

(** * Lemmas: buckets *)

Lemma extend_streams fd buf (g : Z -> bytes) l :
  NoDup l -> (fd ∉ l -> g fd = []) ->
  extend fd buf ((fun x => (x, g x)) <$> l) =
  (fun x => (x, if x =? fd then g x ++ buf else g x)) <$> first_seen l fd.
Proof.
  unfold first_seen. induction l as [|y l IH]; intros Hl Hg.
  - rewrite bool_decide_false by set_solver. cbn. by rewrite Z.eqb_refl, Hg by set_solver.
  - apply NoDup_cons in Hl as [Hy Hl]. rewrite fmap_cons. cbn [extend]. destruct (Z.eqb_spec y fd) as [->|Hne].
    + rewrite bool_decide_true by set_solver. cbn. rewrite Z.eqb_refl. f_equal.
      apply list_fmap_ext. intros i z Hz. apply list_elem_of_lookup_2 in Hz.
      destruct (Z.eqb_spec z fd) as [->|]; done.
    + rewrite IH by (done || set_solver).
      destruct (decide (fd ∈ l)).
      * rewrite !bool_decide_true by set_solver. cbn. by rewrite (proj2 (Z.eqb_neq y fd)).
      * rewrite !bool_decide_false by set_solver. cbn. by rewrite (proj2 (Z.eqb_neq y fd)).
Qed.

Lemma first_seen_nodup l seen : NoDup seen -> NoDup (fold_left first_seen l seen).
Proof.
  revert seen. induction l as [|x l IH]; intros seen H; [done|]. apply IH. unfold first_seen.
  case_bool_decide; [done|]. apply NoDup_app. split_and!; [done|set_solver|apply NoDup_singleton].
Qed.

Lemma first_seen_in x l seen : x ∈ fold_left first_seen l seen <-> x ∈ seen \/ x ∈ l.
Proof.
  revert seen. induction l as [|y l IH]; intros seen; cbn [fold_left]; [set_solver|].
  rewrite IH. unfold first_seen. case_bool_decide; set_solver.
Qed.

Section Streams.
Context {U : Unicode} {UO : UnicodeOk U}.

Lemma stream_of_snoc dir fd cs c :
  stream_of dir fd (cs ++ [c]) =
  stream_of dir fd cs ++ (if bool_decide (sends c = dir /\ fd_of c = fd) then visible c else []).
Proof.
  unfold stream_of. rewrite filter_app, bind_app. f_equal. cbn. case_bool_decide as E.
  - rewrite decide_True by done. cbn. apply app_nil_r.
  - by rewrite decide_False by done.
Qed.

Lemma fds_snoc dir cs c :
  fds dir (cs ++ [c]) =
  if bool_decide (sends c = dir /\ visible c <> []) then first_seen (fds dir cs) (fd_of c) else fds dir cs.
Proof.
  unfold fds. rewrite filter_app, fmap_app, fold_left_app. cbn. case_bool_decide as E.
  - by rewrite decide_True by done.
  - by rewrite decide_False by done.
Qed.

Lemma fds_nodup dir cs : NoDup (fds dir cs).
Proof. apply first_seen_nodup. constructor. Qed.

Lemma stream_of_unused dir fd cs : fd ∉ fds dir cs -> stream_of dir fd cs = [].
Proof.
  unfold fds. rewrite first_seen_in. intros H. unfold stream_of.
  assert (forall l, (forall c, c ∈ l -> visible c = []) -> l ≫= visible = []) as Hnil.
  { induction l as [|c l IH]; intros Hl; [done|]. rewrite bind_cons, Hl, IH by (set_solver). done. }
  apply Hnil. intros c [[Hd Hf] Hc]%list_elem_of_filter. destruct (decide (visible c = [])) as [|Hv]; [done|].
  destruct H. right. apply list_elem_of_fmap. exists c. by rewrite list_elem_of_filter.
Qed.

Lemma streams_snoc dir cs c :
  streams dir (cs ++ [c]) =
  if bool_decide (sends c = dir /\ visible c <> []) then extend (fd_of c) (visible c) (streams dir cs)
  else streams dir cs.
Proof.
  unfold streams. rewrite fds_snoc. case_bool_decide as E.
  - destruct E as [E Hv].
    rewrite (extend_streams _ _ (fun x => stream_of dir x cs)) by (apply fds_nodup || apply stream_of_unused).
    apply list_fmap_ext. intros i fd _. rewrite stream_of_snoc. f_equal.
    destruct (Z.eqb_spec fd (fd_of c)).
    + by rewrite bool_decide_true by done.
    + by rewrite bool_decide_false, app_nil_r by naive_solver.
  - apply list_fmap_ext. intros i fd _. rewrite stream_of_snoc. case_bool_decide as E2; [|by rewrite app_nil_r].
    destruct (decide (visible c = [])) as [->|]; [by rewrite app_nil_r|naive_solver].
Qed.

Lemma collect_lines_streams cs lines pre :
  Forall2 trace_line cs lines ->
  collect_lines lines (streams true pre, streams false pre) =
  Ok (streams true (pre ++ omap id cs), streams false (pre ++ omap id cs)).
Proof.
  intros H. revert pre. induction H as [|oc line cs lines Hl H IH]; intros pre; cbn [collect_lines].
  - by rewrite app_nil_r.
  - destruct Hl as [c Hc|l Hl].
    + rewrite collect_call by done. cbn [fst snd]. change (omap id (Some c :: cs)) with ([c] ++ omap id cs).
      specialize (IH (pre ++ [c])).
      rewrite !streams_snoc, <- app_assoc in IH. rewrite <- IH.
      destruct (sends c); repeat case_bool_decide; naive_solver.
    + unfold collect_line. rewrite Hl. apply IH.
Qed.
End Streams.

(** * Lemmas: messages *)

Lemma unpack_IIII_at off l :
  0 <= off -> off + 16 <= len l ->
  struct_unpack_from "<IIII" l off =
    Ok [u32_at off l; u32_at (off + 4) l; u32_at (off + 8) l; u32_at (off + 12) l].
Proof. solve_unpack. Qed.

Lemma unpack_III off l :
  0 <= off -> off + 12 <= len l ->
  struct_unpack_from "<III" l off = Ok [u32_at off l; u32_at (off + 4) l; u32_at (off + 8) l].
Proof. solve_unpack. Qed.

Lemma unpack_hdr_at pre t size op rest :
  fits32 t -> fits32 size -> fits32 op ->
  unpack4 (struct_unpack_from "<IIII" (pre ++ aio_hdr t size op ++ rest) (len pre)) =
  Ok (NFC_AIO_MAGIC, t, size, op).
Proof.
  intros. pose proof (len_nonneg pre). pose proof (len_nonneg rest).
  rewrite unpack_IIII_at by (rewrite ?len_app, ?len_aio_hdr; unfold NFC_AIO_HDR_SIZE; lia).
  rewrite (u32_at_skip (len pre)), (u32_at_skip (len pre + 4)), (u32_at_skip (len pre + 8)),
    (u32_at_skip (len pre + 12)) by lia. unfold aio_hdr. rewrite <- !app_assoc.
  replace (len pre - len pre) with 0 by lia. replace (len pre + 4 - len pre) with 4 by lia.
  replace (len pre + 8 - len pre) with 8 by lia. replace (len pre + 12 - len pre) with 12 by lia.
  replace (u32_at 0 _) with NFC_AIO_MAGIC by (symmetry; by apply u32_at_0).
  replace (u32_at 4 _) with t by (symmetry; by field).
  replace (u32_at 8 _) with size by (symmetry; by field).
  replace (u32_at 12 _) with op by (symmetry; by field). done.
Qed.

Section Walk.
Context (collect_open collect_io : bool).

(** What one message adds, in the words of the specification. *)
Lemma note_message_ok m f :
  note_message collect_open collect_io (ms_type m) (ms_payload m) f =
  Ok (f.1 ++ (if collect_open then open_payloads [m] else []),
      f.2 ++ (if collect_io then read_chunks [m] else [])).
Proof.
  destruct f as [os rs]. unfold note_message.
  assert ((if collect_open && (ms_type m =? _NFC_AIO_MSG_OPEN_SESSION) && (16 <=? len (ms_payload m))
           then os ++ [py_slice 0 16 (ms_payload m)] else os) =
          os ++ (if collect_open then open_payloads [m] else [])) as ->.
  { unfold open_payloads. destruct collect_open; [|by rewrite app_nil_r].
    destruct (Z.eqb_spec (ms_type m) _NFC_AIO_MSG_OPEN_SESSION) as [Et|Et],
      (Z.leb_spec 16 (len (ms_payload m))) as [El|El]; cbn;
      first [rewrite decide_True by done; done|rewrite decide_False by (intros [? ?]; lia || done)];
      by rewrite app_nil_r. }
  generalize (if collect_open then open_payloads [m] else []). intros o.
  unfold read_chunks. destruct collect_io; [|by rewrite app_nil_r].
  destruct (Z.eqb_spec (ms_type m) _NFC_AIO_MSG_IO) as [Et|Et], (Z.leb_spec 40 (len (ms_payload m))) as [El|El];
    cbn [andb fst snd filter list_filter];
    try (rewrite decide_False by (intros (? & ? & ?); lia || done); cbn; by rewrite app_nil_r).
  rewrite unpack_Q by lia. cbn. change (Z.land _ 0xFFFFFFFF) with (Z.land (u64_at 8 (ms_payload m)) (Z.ones 32)).
  rewrite Z.land_ones by lia. destruct (Z.eqb_spec (u64_at 8 (ms_payload m) mod 2 ^ 32) _NFC_AIO_IO_READ) as [Eo|Eo].
  - rewrite decide_True by by split_and!. rewrite unpack_III by lia. done.
  - rewrite decide_False by (intros (? & ? & ?); done). cbn. by rewrite app_nil_r.
Qed.

Lemma walk_gap_loop g pre rest fuel f :
  silent g rest -> 16 <= len rest -> (length g <= fuel)%nat ->
  walk_loop fuel (pre ++ g ++ rest) collect_open collect_io (len pre) f =
  walk_loop (fuel - length g) (pre ++ g ++ rest) collect_open collect_io (len (pre ++ g)) f.
Proof.
  revert pre fuel. induction g as [|b g IH]; intros pre fuel Hs Hr Hf.
  - by rewrite app_nil_r, Nat.sub_0_r.
  - destruct fuel as [|fuel]; [simpl in Hf; lia|]. pose proof (len_nonneg pre). pose proof (len_nonneg g).
    cbn [walk_loop]. rewrite (proj2 (Z.leb_le _ _)) by (rewrite !len_app, len_cons; unfold _AIO_HDR; lia).
    rewrite unpack_IIII_at by (rewrite ?len_app, ?len_cons, ?len_app; lia). cbn [unpack4 mbind outcome_bind].
    rewrite u32_at_skip, Z.sub_diag by lia.
    pose proof (Hs 0) as Hz. rewrite ?len_app, len_cons in Hz.
    rewrite (proj2 (Z.eqb_neq _ _)) by (apply Hz; lia). cbn [negb].
    specialize (IH (pre ++ [b]) fuel). rewrite <- !app_assoc in IH. cbn [app] in *.
    rewrite len_app, len_cons, len_nil in IH. rewrite Z.add_0_r in IH. cbn [length]. apply IH; [|done|simpl in Hf; lia].
    intros i Hi Hl Hm. apply (Hs (i + 1)); rewrite ?len_cons; [lia| |].
    + cbn [app]. rewrite len_cons. lia.
    + change ((b :: g) ++ rest) with ([b] ++ g ++ rest). rewrite u32_at_skip by (rewrite len_cons, len_nil; lia).
      rewrite <- Hm. f_equal. rewrite len_cons, len_nil. lia.
Qed.
(** Nothing is found behind the last message. *)
Lemma walk_tail_loop t pre fuel f :
  silent t [] -> (length t <= fuel)%nat ->
  walk_loop fuel (pre ++ t) collect_open collect_io (len pre) f = Ok f.
Proof.
  revert pre fuel. induction t as [|b t IH]; intros pre fuel Hs Hf; destruct fuel as [|fuel]; cbn [walk_loop];
    try (simpl in Hf; lia); try by rewrite app_nil_r, (proj2 (Z.leb_gt _ _)) by (unfold _AIO_HDR; lia).
  destruct (Z.leb_spec (len pre + _AIO_HDR) (len (pre ++ b :: t))) as [Hl|]; [|done].
  pose proof (len_nonneg pre). unfold _AIO_HDR in Hl.
  rewrite unpack_IIII_at by lia. cbn [unpack4 mbind outcome_bind].
  rewrite u32_at_skip, Z.sub_diag by lia. rewrite len_app, len_cons in Hl.
  pose proof (Hs 0) as Hz. pose proof (len_nonneg t). rewrite app_nil_r in Hz.
  rewrite (proj2 (Z.eqb_neq _ _)) by (apply Hz; rewrite ?len_cons; lia). cbn [negb].
  specialize (IH (pre ++ [b]) fuel). rewrite <- app_assoc, len_app, len_cons, len_nil, Z.add_0_r in IH.
  cbn [app] in IH. apply IH; [|simpl in Hf; lia].
  intros i Hi Hil Hm. rewrite app_nil_r in *. apply (Hs (i + 1)); rewrite ?app_nil_r, ?len_cons; [lia..|].
  change (b :: t) with ([b] ++ t). rewrite u32_at_skip by (rewrite len_cons, len_nil; lia).
  rewrite <- Hm. f_equal. rewrite len_cons, len_nil. lia.
Qed.

(** A message is taken whole. *)
Lemma walk_message_loop m pre rest fuel f :
  fits32 (ms_type m) -> fits32 (ms_op m) -> fits32 (len (ms_payload m)) ->
  let msg := aio_msg (ms_type m) (ms_op m) (ms_payload m) in
  walk_loop (S fuel) (pre ++ msg ++ rest) collect_open collect_io (len pre) f =
  walk_loop fuel (pre ++ msg ++ rest) collect_open collect_io (len (pre ++ msg))
    (f.1 ++ (if collect_open then open_payloads [m] else []), f.2 ++ (if collect_io then read_chunks [m] else [])).
Proof.
  intros Ht Ho Hp msg. pose proof (len_nonneg rest). pose proof (len_nonneg (ms_payload m)).
  assert (len msg = 16 + len (ms_payload m)) as Hm by apply len_aio_msg. cbn [walk_loop].
  rewrite (proj2 (Z.leb_le _ _)) by (rewrite !len_app, Hm; unfold _AIO_HDR; lia).
  assert (pre ++ msg ++ rest = pre ++ aio_hdr (ms_type m) (len (ms_payload m)) (ms_op m) ++ ms_payload m ++ rest) as E
    by (unfold msg, aio_msg; by rewrite <- app_assoc).
  rewrite E at 1. rewrite unpack_hdr_at by done. cbn [mbind outcome_bind]. rewrite Z.eqb_refl. cbn [negb].
  assert (py_slice (len pre + _AIO_HDR) (len pre + _AIO_HDR + len (ms_payload m)) (pre ++ msg ++ rest) =
          ms_payload m) as ->.
  { pose proof (len_nonneg pre). unfold py_slice, _AIO_HDR. rewrite (proj2 (Z.ltb_ge _ _)) by lia. rewrite E.
    rewrite slice_app_r by lia. rewrite slice_app_r by (rewrite len_aio_hdr; unfold NFC_AIO_HDR_SIZE; lia).
    rewrite len_aio_hdr. unfold NFC_AIO_HDR_SIZE. replace (_ - _ - _) with 0 by lia. by rewrite slice_prefix by lia. }
  rewrite note_message_ok. cbn [mbind outcome_bind]. by rewrite len_app, Hm.
Qed.

Lemma walk_stream_loop ms tail pre fuel f :
  stream_ok ms tail -> (length (stream ms tail) <= fuel)%nat ->
  walk_loop fuel (pre ++ stream ms tail) collect_open collect_io (len pre) f =
  Ok (f.1 ++ (if collect_open then open_payloads ms else []), f.2 ++ (if collect_io then read_chunks ms else [])).
Proof.
  revert pre fuel f. induction ms as [|m ms IH]; intros pre fuel f Hs Hf.
  - cbn [stream]. rewrite walk_tail_loop by done. destruct f, collect_open, collect_io; by rewrite ?app_nil_r.
  - destruct Hs as (Ht & Ho & Hp & Hg & Hs). cbn [stream] in *.
    pose proof (len_aio_msg (ms_type m) (ms_op m) (ms_payload m)) as Hm. unfold len in Hm.
    rewrite !length_app in Hf.
    rewrite walk_gap_loop by (done || zlia).
    rewrite (app_assoc pre).
    destruct (fuel - length (ms_gap m))%nat as [|fuel'] eqn:Ef; [lia|].
    rewrite walk_message_loop by done. rewrite (app_assoc (pre ++ ms_gap m)), IH by (done || lia).
    cbn [fst snd]. rewrite <- !app_assoc. unfold open_payloads, read_chunks.
    by destruct collect_open, collect_io; rewrite ?(filter_app _ [m] ms), ?fmap_app.
Qed.
End Walk.

(** The walk over a stream finds its messages. *)
Lemma walk_stream ms tail co ci f :
  stream_ok ms tail ->
  walk (stream ms tail) co ci f =
  Ok (f.1 ++ (if co then open_payloads ms else []), f.2 ++ (if ci then read_chunks ms else [])).
Proof. intros Hs. by apply (walk_stream_loop co ci ms tail []). Qed.

(** * Lemmas: every input *)

Lemma note_message_total co ci t payload f : exists f', note_message co ci t payload f = Ok f'.
Proof.
  unfold note_message. destruct f as [os rs].
  destruct (Z.leb_spec 40 (len payload)) as [Hl|]; [|rewrite andb_false_r; by eexists].
  destruct (ci && _); cbn [andb]; [|by eexists]. rewrite unpack_Q by lia. cbn [unpack1 mbind outcome_bind].
  destruct (Z.land _ _ =? _); [|by eexists]. rewrite unpack_III by lia. by eexists.
Qed.

Lemma walk_loop_total co ci buf fuel offset f :
  0 <= offset -> len buf - offset <= Z.of_nat fuel -> exists f', walk_loop fuel buf co ci offset f = Ok f'.
Proof.
  revert offset f. induction fuel as [|fuel IH]; intros offset f Ho Hf; cbn [walk_loop]; unfold _AIO_HDR in *.
  - rewrite (proj2 (Z.leb_gt _ _)) by lia. by eexists.
  - destruct (Z.leb_spec (offset + 16) (len buf)) as [Hl|]; [|by eexists].
    rewrite unpack_IIII_at by lia. cbn [unpack4 mbind outcome_bind]. destruct (negb _); [apply IH; lia|].
    destruct (note_message_total co ci (u32_at (offset + 4) buf)
      (py_slice (offset + 16) (offset + 16 + u32_at (offset + 8) buf) buf) f) as [f' ->].
    cbn [mbind outcome_bind]. pose proof (u32_at_bound (offset + 8) buf). apply IH; lia.
Qed.

Lemma walk_total buf co ci f : exists f', walk buf co ci f = Ok f'.
Proof. apply walk_loop_total; unfold len; lia. Qed.

Lemma walk_all_total bufs co ci f : exists f', walk_all bufs co ci f = Ok f'.
Proof.
  revert f. induction bufs as [|buf bufs IH]; intros f; [by eexists|]. cbn [walk_all].
  destruct (walk_total buf co ci f) as [f' ->]. apply IH.
Qed.

Lemma collect_lines_ends {U : Unicode} lines b :
  (exists b', collect_lines lines b = Ok b') \/ collect_lines lines b = Raise EValueError.
Proof.
  revert b. induction lines as [|line lines IH]; intros b; [left; by eexists|]. cbn [collect_lines].
  unfold collect_line. destruct (search line) as [[[op fd] quoted]|]; [|apply IH].
  case_bool_decide; [apply IH|]. unfold int_of. destruct (_ <? _); [by right|]. cbn [mbind outcome_bind].
  destruct b as [ws rs]. apply IH.
Qed.

Lemma walk_all_streams co ci l (ms : Z -> list message) (tail : Z -> bytes) (g : Z -> bytes) f :
  (forall fd, fd ∈ l -> g fd = stream (ms fd) (tail fd) /\ stream_ok (ms fd) (tail fd)) ->
  walk_all (g <$> l) co ci f =
  Ok (f.1 ++ (if co then l ≫= (fun fd => open_payloads (ms fd)) else []),
      f.2 ++ (if ci then l ≫= (fun fd => read_chunks (ms fd)) else [])).
Proof.
  revert f. induction l as [|fd l IH]; intros f H.
  - destruct f, co, ci; cbn; by rewrite ?app_nil_r.
  - rewrite fmap_cons. cbn [walk_all]. destruct (H fd) as [-> Hs]; [by left|].
    rewrite walk_stream by done. cbn [mbind outcome_bind]. rewrite IH by (intros; apply H; by right).
    cbn [fst snd]. rewrite <- !app_assoc. by destruct co, ci; rewrite ?bind_cons.
Qed.

(** * The reader *)

Section Reader.
Context {U : Unicode} {UO : UnicodeOk U}.

Lemma parse_strace_messages cs lines wms wtail rms rtail :
  Forall2 trace_line cs lines ->
  (forall fd, fd ∈ fds true (omap id cs) ->
    stream_of true fd (omap id cs) = stream (wms fd) (wtail fd) /\ stream_ok (wms fd) (wtail fd)) ->
  (forall fd, fd ∈ fds false (omap id cs) ->
    stream_of false fd (omap id cs) = stream (rms fd) (rtail fd) /\ stream_ok (rms fd) (rtail fd)) ->
  parse_strace lines =
  Ok (fds true (omap id cs) ≫= (fun fd => open_payloads (wms fd)),
      fds false (omap id cs) ≫= (fun fd => read_chunks (rms fd))).
Proof.
  intros Hl Hw Hr. unfold parse_strace.
  rewrite (collect_lines_streams cs lines [] Hl : collect_lines lines ([], []) = _). cbn [app mbind outcome_bind].
  unfold streams. rewrite <- !list_fmap_compose.
  rewrite (walk_all_streams true false _ wms wtail) by done. cbn [mbind outcome_bind].
  rewrite (walk_all_streams false true _ rms rtail) by done. cbn [fst snd]. by rewrite !app_nil_r.
Qed.


(** C31: a call whose shown bytes are all printable or white space is lost: under
    [-x] its string is printed as text, in which the reader finds no byte, so
    the file is read as if its line were not there, whatever the call sent and
    whatever is around it. *)
Theorem text_calls_not_seen c before after :
  call_ok c -> is_text (shown (cl_data c)) = true -> 92 ∉ chars (shown (cl_data c)) ->
  parse_strace (before ++ call_line c :: after) = parse_strace (before ++ after).
Proof.
  intros Hc Ht Hb. unfold parse_strace. f_equal. generalize (@nil (Z * bytes), @nil (Z * bytes)).
  assert (visible c = []) as Hv.
  { unfold visible. rewrite Ht. apply decode_no_backslash. intros Hin. apply Hb.
    revert Hin. generalize (chars (shown (cl_data c))). intros l. induction l as [|x l IH]; [done|].
    cbn [before_quote]. destruct (x =? 34); [set_solver|]. rewrite !elem_of_cons. tauto. }
  induction before as [|line before IH]; intros b; cbn [app collect_lines].
  - rewrite collect_call by done. by rewrite bool_decide_true.
  - destruct (collect_line line b) as [b'|e|]; [apply IH|done..].
Qed.

(** When what is visible of the bytes written to each descriptor, and read from
    it, is AIO messages with gaps in which no message starts, [parse_strace] returns
    exactly the first 16 bytes of the OPEN_SESSION payloads that were written
    and the placement words of the read fragments that were received, for
    every cut of the streams into calls. *)
Theorem parse_strace_finds_messages cs lines wms wtail rms rtail :
  Forall2 trace_line cs lines ->
  (forall fd, fd ∈ fds true (omap id cs) ->
    stream_of true fd (omap id cs) = stream (wms fd) (wtail fd) /\ stream_ok (wms fd) (wtail fd)) ->
  (forall fd, fd ∈ fds false (omap id cs) ->
    stream_of false fd (omap id cs) = stream (rms fd) (rtail fd) /\ stream_ok (rms fd) (rtail fd)) ->
  parse_strace lines =
  Ok (fds true (omap id cs) ≫= (fun fd => open_payloads (wms fd)),
      fds false (omap id cs) ≫= (fun fd => read_chunks (rms fd))).
Proof. apply parse_strace_messages. Qed.

(** [parse_strace] ends on every input, whatever the lines and the bytes in
    them, and the only exception is the [ValueError] of a descriptor of more
    than 4300 digits. *)
Theorem parse_strace_ends lines :
  (exists f, parse_strace lines = Ok f) \/ parse_strace lines = Raise EValueError.
Proof.
  unfold parse_strace. destruct (collect_lines_ends lines ([], [])) as [[[ws rs] ->]| ->]; [|by right].
  left. cbn [mbind outcome_bind]. destruct (walk_all_total (snd <$> ws) true false ([], [])) as [f ->].
  apply walk_all_total.
Qed.
End Reader.

(** * A trace *)

(** The session over descriptor 5: OPEN_SESSION behind one byte of something
    else, sent in two calls with a line of another process between them, and
    the answer to a read in two calls; the worker prints its transport between
    them, and another thread's [read] is resumed. *)
Definition demo_open : message := mkMessage [Byte.x00] NFC_AIO_MSG_OPEN_SESSION 0 (zeros 20).
Definition demo_reply : message :=
  mkMessage [] NFC_AIO_MSG_IO 1 (io_body 7 NFC_AIO_IO_READ 0 1024 512 512 512).

Definition demo_call (op : string) (data : bytes) : call :=
  mkCall (str "812   ") (str op) (str "5") data (str "..., 96) = 20").

Definition demo_print : call :=
  mkCall (str "812   ") (str "write") (str "1") (byte.of_Z <$> str "transport nbd" ++ [10]) (str ", 14) = 14").

Definition demo_trace : list (option call) :=
  [Some (demo_call "write" (take 10 (stream [demo_open] [])));
   None;
   Some (demo_call "write" (drop 10 (stream [demo_open] [])));
   Some demo_print;
   Some (demo_call "read" (take 16 (stream [demo_reply] [])));
   None;
   Some (demo_call "read" (drop 16 (stream [demo_reply] [])))].

Definition demo_others : list pystr :=
  [str "813   close(3)                = 0";
   str "813   <... read resumed>" ++ [34] ++ escaped [Byte.x00; Byte.x01] ++ [34] ++ str ", 2) = 2"].

(** The lines of the calls, and the other lines in their places. *)
Fixpoint trace_text (cs : list (option call)) (others : list pystr) : list pystr :=
  match cs, others with
  | Some c :: cs', _ => call_line c :: trace_text cs' others
  | None :: cs', l :: others' => l :: trace_text cs' others'
  | _, _ => []
  end.

Definition demo_lines : list pystr := trace_text demo_trace demo_others.

Lemma demo_trace_ok : Forall2 (trace_line (U := ascii_unicode)) demo_trace demo_lines.
Proof.
  repeat constructor; try (vm_compute; discriminate || done);
    match goal with |- ?P => exact (bool_decide_eq_true_1 P eq_refl) end.
Qed.


(** [write(1, "transport nbd\n", 14)] *)
Lemma text_calls_not_seen_witness :
  parse_strace (U := ascii_unicode) demo_lines =
  parse_strace (U := ascii_unicode) (take 3 demo_lines ++ drop 4 demo_lines).
Proof.
  refine (text_calls_not_seen (U := ascii_unicode) demo_print (take 3 demo_lines) (drop 4 demo_lines) _ _ _).
  - repeat constructor; try (vm_compute; discriminate || done);
      match goal with |- ?P => exact (bool_decide_eq_true_1 P eq_refl) end.
  - vm_compute. reflexivity.
  - match goal with |- ?P => exact (bool_decide_eq_true_1 P eq_refl) end.
Defined.

Lemma silent_lt g rest :
  Forall (fun i => u32_at (Z.of_nat i) (g ++ rest) <> NFC_AIO_MAGIC) (seq 0 (length g)) -> silent g rest.
Proof.
  intros H i Hi _. rewrite Forall_forall in H. rewrite <- (Z2Nat.id i) by lia.
  apply H, elem_of_seq. unfold len in Hi. lia.
Qed.

Lemma demo_open_ok : stream_ok [demo_open] [].
Proof.
  split_and!; try done; apply silent_lt; [|by constructor].
  match goal with |- ?P => exact (bool_decide_eq_true_1 P eq_refl) end.
Qed.

Lemma demo_reply_ok : stream_ok [demo_reply] [].
Proof. split_and!; try done; apply silent_lt; by constructor. Qed.

Lemma parse_strace_finds_messages_witness :
  parse_strace (U := ascii_unicode) demo_lines = Ok ([zeros 16], [(512, 512, 512)]).
Proof.
  refine (parse_strace_finds_messages (U := ascii_unicode) _ _
    (fun _ => [demo_open]) (fun _ => []) (fun _ => [demo_reply]) (fun _ => []) demo_trace_ok _ _);
    intros fd Hfd; (assert (fd = 5) as -> by by apply list_elem_of_singleton).
  - split; [vm_compute; reflexivity|exact demo_open_ok].
  - split; [vm_compute; reflexivity|exact demo_reply_ok].
Defined.

(** The calls that [_run_traced] has [strace] print besides are not read:
    their names are not in the pattern, so their bytes are lost. *)
Lemma other_calls_not_read :
  Forall (fun op => search (U := ascii_unicode) (call_line (demo_call op (zeros 4))) = None)
    ["readv"; "writev"; "sendto"; "recvfrom"]%string.
Proof. repeat constructor; vm_compute; reflexivity. Qed.
