(* ===== verification/ProbeWorker.v ===== *)
(** The worker of the strace probe, [_worker] of
    [docs/probing_samples/vddk_aio_bufsize_probe.py]: a session of native VDDK
    through the wrapper of the tests, with reads of two sizes. *)
From Stdlib Require Import ZArith Lia String.
From stdpp Require Import base list numbers.
From coqutil Require Import Byte.
From S2P Require Import Prelude Python PyStr World Authd Vim Handle Lab Numerals Vddk Wrapper.

(** [LabEnv] of the tests' [base.py]. *)
Record LabEnv := mkLabEnv {
  lab_host : pystr;
  lab_port : Z;
  lab_username : pystr;
  lab_password : pystr;
  lab_allow_untrusted : bool;
  lab_datacenter : pystr;
  lab_datastore : pystr;
  lab_thumbprint : pystr;
  lab_vm_moref : pystr;
  lab_vmx_spec : pystr;
  lab_disk_path : pystr
}.

(** 129 sectors are two fragments of 64 KiB, 4097 are 2 MiB and 512 bytes. *)
Definition _READS : list (Z * pystr) := [(129, str "129s"); (4097, str "2MiB+512")].

(** Any one. *)
Definition bench_lab : LabEnv := {|
  lab_host := str "vc";
  lab_port := 443;
  lab_username := str "u";
  lab_password := str "p";
  lab_allow_untrusted := true;
  lab_datacenter := str "dc";
  lab_datastore := str "ds";
  lab_thumbprint := str "AA:BB";
  lab_vm_moref := str "vm-7";
  lab_vmx_spec := str "moref=vm-7";
  lab_disk_path := str "[ds] vm.vmdk"
|}.

Section Worker.
Context {V : Vddk} {U : Unicode}.

(** A file that is written. *)
Definition write_file (path : pystr) (lines : list pystr) : M (list vcall) unit :=
  Wrapper.call (WriteFile path lines);; bad ← gets file_error; raise_when bad EOSError.

Definition _vddk_config (directory : pystr) (buf_size_in_64kb buf_count : Z) : M (list vcall) pystr :=
  let path := path_join directory (str "vddk.config") in
  let log := path_join directory (str "vddk.log") in
  write_file path
    [str "tmpDirectory=" ++ directory; str "log.fileName=" ++ log; str "log.fileLevel=verbose";
     str "vixDiskLib.nfc.LogLevel=4"; str "vixDiskLib.transport.LogLevel=4";
     str "vixDiskLib.nfcAio.Session.BufSizeIn64KB=" ++ str_int buf_size_in_64kb;
     str "vixDiskLib.nfcAio.Session.BufCount=" ++ str_int buf_count];;
  mret path.

Definition worker_connect_args (lab : LabEnv) : connect_args := {|
  ca_server_name := lab_host lab;
  ca_thumbprint := Some (lab_thumbprint lab);
  ca_username := lab_username lab;
  ca_password := lab_password lab;
  ca_vmx_spec := Some (lab_vmx_spec lab);
  ca_snapshot_ref := None;
  ca_read_only := true;
  ca_transport_modes := Some (str "nbd");
  ca_port := lab_port lab;
  ca_allow_untrusted := false
|}.

Fixpoint worker_reads (disk : Z) (reads : list (Z * pystr)) : M (list vcall) unit :=
  match reads with
  | [] => mret tt
  | (n_sectors, label) :: reads' =>
      buf ← lift (get_buffer (n_sectors * 512));
      with_local buf (Wrapper.read disk 0 n_sectors) ≫= fun _ =>
      Wrapper.call (Print (ReadDone label));;
      worker_reads disk reads'
  end.

(** [loaded] is what opening and reading the pickled file gives.  The library
    path is that of the process ([ensure_vddk_library_path] of [ProbeRun]). *)
Definition _worker (loaded : exn + LabEnv) (work_dir : pystr) (buf_size_in_64kb buf_count : Z) :
    M (list vcall) unit :=
  lab ← lift (match loaded with inl e => Raise e | inr lab => Ok lab end);
  config_path ← _vddk_config work_dir buf_size_in_64kb buf_count;
  Wrapper.init_handle (Some config_path) (Some (str "8.0"));;
  Wrapper.connect (worker_connect_args lab) (fun conn =>
    Wrapper.open conn (lab_disk_path lab) VIXDISKLIB_FLAG_OPEN_READ_ONLY (fun disk =>
      mode ← Wrapper.get_transport_mode disk;
      Wrapper.call (Print (Transport mode));;
      worker_reads disk _READS));;
  Wrapper.exit.

(** * Lemmas *)

Lemma wp_write_file path lines p :
  within_phases (eq p) (write_file path lines) (fun _ => eq p) (eq p).
Proof.
  unfold write_file. eapply wp_bind; [by apply wp_local|intros []].
  eapply (wp_bind _ _ _ (fun _ => eq p)); [intros h p1 Hp <-; by exists p|intros bad].
  by eapply wp_weaken; [apply wp_guard|intros u p1 []|].
Qed.

Lemma wp_config dir n c :
  within_phases (eq Off) (_vddk_config dir n c) (fun _ => eq Off) (eq Off).
Proof. unfold _vddk_config. eapply wp_bind; [apply wp_write_file|intros []]. apply (wp_ret _ (fun _ => eq Off)). Qed.

Lemma wp_worker_reads conn disk reads :
  Forall (fun r => 0 <= fst r < 2 ^ 64) reads ->
  within_phases (eq (Opened conn disk)) (worker_reads disk reads) (fun _ => eq (Opened conn disk))
    (eq (Opened conn disk)).
Proof.
  induction 1 as [|[n label] reads Hn _ IH]; [apply (wp_ret tt (fun _ => eq (Opened conn disk)))|].
  cbn [worker_reads fst] in *. unfold get_buffer. rewrite (proj2 (Z.ltb_ge _ _)) by lia.
  eapply (wp_bind _ _ _ (fun b p => b = zeros (n * 512) /\ Opened conn disk = p)).
  { intros h p1 Hp <-. by eexists. }
  intros b h p Hp [-> Heq]. revert h p Hp Heq. apply wp_read; [done|unfold zeros; zlia|].
  intros r. eapply wp_bind; [by apply wp_local|intros []]. exact IH.
Qed.

(** What the block of the two context managers does. *)
Lemma wp_worker_block conn disk :
  within_phases (eq (Opened conn disk))
    (mode ← Wrapper.get_transport_mode disk;
     Wrapper.call (Print (Transport mode));;
     worker_reads disk _READS) (fun _ => eq (Opened conn disk)) (eq (Opened conn disk)).
Proof.
  eapply wp_bind; [apply wp_get_transport_mode|intros mode].
  eapply wp_bind; [by apply wp_local|intros []]. apply wp_worker_reads. by repeat constructor.
Qed.

(** * Property *)

(** C18: whatever fails, the worker leaves neither a disk nor a connection open, and
    it keeps to the protocol of VDDK; if it returns, VDDK is shut down. *)
Theorem worker_releases loaded work_dir n c :
  let '(o, h) := _worker loaded work_dir n c [] in
  o <> OutOfFuel /\ exists p, protocol h p /\ (p = Off \/ p = Initialized) /\ (forall u, o = Ok u -> p = Off).
Proof.
  assert (within_phases (eq Off) (_worker loaded work_dir n c) (fun _ => eq Off)
    (fun p => p = Off \/ p = Initialized)) as H.
  { unfold _worker.
    eapply wp_bind; [apply (wp_lift _ _ (fun _ => eq Off)); [by destruct loaded|auto|done]|intros lab].
    eapply wp_bind; [eapply wp_weaken; [apply wp_config|done|auto]|intros config].
    eapply wp_bind; [eapply wp_weaken; [apply wp_init|done|auto]|intros version].
    eapply wp_bind; [eapply wp_weaken; [apply wp_connect|done|auto]|intros []].
    - intros conn. apply wp_open. intros disk. apply wp_worker_block.
    - eapply wp_weaken; [apply wp_exit|done|auto]. }
  specialize (H [] Off protocol_start eq_refl).
  destruct (_worker _ _ _ _ []) as [[u|e|] h]; destruct H as (p & Hp & H); [| |done];
    (split; [done|]); exists p; (split; [done|]); [subst p|by split]. auto.
Qed.
End Worker.
