(* ===== verification/ProbeVddkWrite.v ===== *)
(** The write driver of native VDDK, [docs/probing_samples/vddk_write_trace.py]:
    a test case over the VDDK wrapper of the tests.  Its base class, [TestBase],
    is not in the repository and is a parameter. *)
From Stdlib Require Import ZArith Lia String.
From stdpp Require Import base list numbers.
From coqutil Require Import Byte.
From S2P Require Import Prelude Python PyStr Wire Disk World Authd Vim Handle Numerals Vddk Wrapper DropIn ProbeWorker.

(** What the test case takes from its class. *)
Class TestBase := {
  require_vddk : outcome unit;
  setUpClass_super : outcome unit;
  SECTOR_SIZE : Z;
  DISK_PATH : pystr;
  vixdisklib_connect_kwargs : connect_args;
  base_pattern_bytes : Z -> bytes -> outcome bytes
}.

(** [pattern_bytes] of the tests' [base.py]: [length] bytes of repetitions of
    [seed]. *)
Definition pattern_bytes (length : Z) (seed : bytes) : outcome bytes :=
  match seed with
  | [] => Raise EValueError
  | _ => Ok (py_slice 0 length (mjoin (replicate (Z.to_nat (length / len seed + 1)) seed)))
  end.

(** [LabEnv.vixdisklib_connect_kwargs] without [extra]. *)
Definition lab_connect_kwargs (lab : LabEnv) : connect_args := {|
  ca_server_name := lab_host lab;
  ca_thumbprint := Some (lab_thumbprint lab);
  ca_username := lab_username lab;
  ca_password := lab_password lab;
  ca_vmx_spec := Some (lab_vmx_spec lab);
  ca_snapshot_ref := None;
  ca_read_only := false;
  ca_transport_modes := Some (str "nbdssl");
  ca_port := lab_port lab;
  ca_allow_untrusted := false
|}.

(** The class as the functions of today's [base.py] would make it. *)
Definition lab_base (lab : LabEnv) : TestBase := {|
  require_vddk := Ok tt;
  setUpClass_super := Ok tt;
  SECTOR_SIZE := 512;
  DISK_PATH := lab_disk_path lab;
  vixdisklib_connect_kwargs := lab_connect_kwargs lab;
  base_pattern_bytes := pattern_bytes
|}.

Section WriteTrace.
Context {V : Vddk} {U : Unicode} {T : TestBase}.

Definition setUpClass : outcome unit := _ ← require_vddk; setUpClass_super.

Definition trace_seed : bytes := byte.of_Z <$> str "TRACE-S0".

(** The block of the two context managers, with the caller's buffer. *)
Definition write_and_read (disk : Z) (buf : bytes) : M (list vcall) bytes :=
  Wrapper.write disk 0 1 buf;;
  r ← with_local buf (Wrapper.read disk 0 1);
  mret (snd r).

Definition test_write : M (list vcall) unit :=
  Wrapper.init_handle (Some (str "/tmp/vddk_nfc.conf")) (Some (str "8.0"));;
  buf ← lift (get_buffer SECTOR_SIZE);
  expected ← lift (base_pattern_bytes SECTOR_SIZE trace_seed);
  raise_when (negb (len expected =? len buf)) EValueError;;
  buf ← Wrapper.connect vixdisklib_connect_kwargs (fun conn =>
    Wrapper.open conn DISK_PATH 0 (fun disk => write_and_read disk expected));
  Wrapper.call (Print (WriteDone DISK_PATH (take 8 buf))).

(** The class as [unittest] runs it. *)
Definition write_trace : M (list vcall) unit := lift setUpClass;; test_write.

(** * Lemmas *)

Lemma wp_write_and_read conn disk buf :
  512 <= len buf ->
  within_phases (eq (Opened conn disk)) (write_and_read disk buf) (fun _ => eq (Opened conn disk))
    (eq (Opened conn disk)).
Proof.
  intros Hl. unfold write_and_read. eapply wp_bind; [apply wp_write; [done|lia]|intros []].
  apply wp_read; [done|lia|]. intros r. apply (wp_ret _ (fun _ => eq (Opened conn disk))).
Qed.

(** The test case leaves neither a disk nor a connection open; it never shuts
    VDDK down. *)
Lemma write_trace_releases :
  512 <= SECTOR_SIZE -> TotalO setUpClass -> TotalO (base_pattern_bytes SECTOR_SIZE trace_seed) ->
  let '(o, h) := write_trace [] in
  o <> OutOfFuel /\ exists p, protocol h p /\ (p = Off \/ p = Initialized) /\ (forall u, o = Ok u -> p = Initialized).
Proof.
  intros Hs Hu Ht.
  assert (within_phases (eq Off) write_trace (fun _ => eq Initialized) (fun p => p = Off \/ p = Initialized)) as H.
  { unfold write_trace, test_write.
    eapply wp_bind; [apply (wp_lift _ _ (fun _ => eq Off)); [done|auto|done]|intros []].
    eapply wp_bind; [eapply wp_weaken; [apply wp_init|done|auto]|intros version].
    unfold get_buffer. rewrite (proj2 (Z.ltb_ge _ _)) by lia.
    eapply (wp_bind _ _ _ (fun b p => b = zeros SECTOR_SIZE /\ Initialized = p)).
    { intros h p1 Hp <-. by eexists. }
    intros b h p Hp [-> Heq]. revert h p Hp Heq.
    eapply wp_bind; [apply (wp_lift _ _ (fun _ => eq Initialized)); [done|auto|done]|intros expected].
    eapply (wp_bind _ _ _ (fun _ p => len expected = len (zeros SECTOR_SIZE) /\ Initialized = p)).
    { eapply wp_weaken; [apply wp_guard|intros u p [E Hp]|auto]. split; [|done].
      by apply Z.eqb_eq, negb_false_iff. }
    intros u h p Hp [El Heq]. revert h p Hp Heq.
    eapply wp_bind; [eapply wp_weaken; [apply wp_connect|done|auto]|intros data].
    - intros conn. apply wp_open. intros disk. apply wp_write_and_read. rewrite El, len_zeros; lia.
    - eapply wp_weaken; [by apply wp_local|done|auto]. }
  specialize (H [] Off protocol_start eq_refl).
  destruct (write_trace []) as [[u|e|] h]; destruct H as (p & Hp & H); [| |done];
    (split; [done|]); exists p; (split; [done|]); [subst p|by split]. auto.
Qed.

(** The version that is asked for. *)
Lemma parse_8_0 {UOk : UnicodeOk U} : Wrapper.parse_version (str "8.0") = Ok (8, 0).
Proof.
  unfold Wrapper.parse_version. replace (split_all 46 (str "8.0")) with [str_int 8; str_int 0] by done.
  by rewrite !int_str.
Qed.

Lemma init_works {UOk : UnicodeOk U} image config config_b h :
  vddk_serves image -> load_error = false -> config <> [] -> encode_utf8 config = Ok config_b ->
  Wrapper.init_handle (Some config) (Some (str "8.0")) h = (Ok (str "8.0"), h ++ [InitEx 8 0 None (Some config_b)]).
Proof.
  intros HV Hld Hne He. unfold Wrapper.init_handle. rewrite Hld.
  rewrite (bind_ok _ _ _ tt h) by done.
  rewrite (lift_bind _ _ _ (Some config_b)) by (unfold Wrapper.encode_if; destruct config; [done|]; cbn [truthy]; by rewrite He).
  change (reverse _) with [str "8.0"]. cbn [Wrapper.try_versions]. rewrite (lift_bind _ _ _ _ parse_8_0).
  unfold try_except, mbind at 1, M_bind at 1. by rewrite (bind_ok _ _ _ _ _ (checked_call_works image HV _ h)).
Qed.

Lemma write_and_read_works image disk buf h :
  vddk_serves image -> len buf = 512 -> 512 <= len (image_after image h) ->
  exists h', write_and_read disk buf h = (Ok buf, h') /\
    image_after image h' = splice 0 buf (image_after image h).
Proof.
  intros HV Hl Hi. unfold write_and_read, Wrapper.write. change (Wrapper.uint64 0) with 0. change (Wrapper.uint64 1) with 1.
  rewrite (bind_ok _ _ _ _ _ (checked_call_works image HV _ h)). set (h1 := h ++ _).
  assert (image_after image h1 = splice 0 buf (image_after image h)) as Hi1.
  { unfold h1, image_after. rewrite fold_left_app. cbn [fold_left].
    change (1 * VIXDISKLIB_SECTOR_SIZE) with 512. by rewrite slice_full by lia. }
  unfold mbind, M_bind, with_local, Wrapper.read. rewrite (check_works image HV), (vs_data _ HV), Hi1.
  change (Wrapper.uint64 0 * VIXDISKLIB_SECTOR_SIZE) with 0.
  change ((Wrapper.uint64 0 + Wrapper.uint64 1) * VIXDISKLIB_SECTOR_SIZE) with 512.
  replace 512 with (0 + len buf) by lia. rewrite slice_splice_same by lia.
  rewrite drop_ge, app_nil_r by lia. eexists. split; [done|].
  unfold image_after at 1. rewrite fold_left_app. exact Hi1.
Qed.

(** Over a VDDK that works on a disk with at least one sector, what is printed
    is the start of the pattern: it was written and read back. *)
Lemma write_trace_echo {UOk : UnicodeOk U} image params path_b expected :
  vddk_serves image -> 512 <= len image -> load_error = false -> SECTOR_SIZE = 512 ->
  setUpClass = Ok tt -> base_pattern_bytes SECTOR_SIZE trace_seed = Ok expected -> len expected = 512 ->
  Wrapper.connect_params vixdisklib_connect_kwargs = Ok params -> encode_utf8 DISK_PATH = Ok path_b ->
  exists h, write_trace [] = (Ok tt, h ++ [Print (WriteDone DISK_PATH (take 8 expected))]) /\
    image_after image h = splice 0 expected image.
Proof.
  intros HV Hi Hld Hs Hu He Hl Hp Hpath. unfold write_trace, test_write. rewrite (lift_bind _ _ _ _ Hu).
  rewrite (bind_ok _ _ _ _ _ (init_works image (str "/tmp/vddk_nfc.conf") (byte.of_Z <$> str "/tmp/vddk_nfc.conf") []
    HV Hld ltac:(done) ltac:(done))).
  set (h0 := [] ++ [InitEx _ _ _ _]).
  rewrite (lift_bind _ _ _ (zeros SECTOR_SIZE)) by (unfold get_buffer; by rewrite Hs).
  rewrite (lift_bind _ _ _ _ He), Hl, Hs. rewrite (bind_ok _ _ _ tt h0) by done.
  pose proof (connect_works image HV vixdisklib_connect_kwargs params (fun conn =>
    Wrapper.open conn DISK_PATH 0 (fun disk => write_and_read disk expected)) h0 expected Hp) as Hc.
  destruct params as [[ps sn] ms]. set (h1 := h0 ++ [ConnectEx _ _ _ _]) in Hc.
  pose proof (open_works image HV (vddk_handle h1) DISK_PATH path_b 0 (fun disk => write_and_read disk expected)
    h1 expected Hpath) as Ho. set (h2 := h1 ++ [Open _ _ _]) in Ho.
  assert (exists h3, write_and_read (vddk_handle h2) expected h2 = (Ok expected, h3) /\
    image_after image h3 = splice 0 expected image) as (h3 & E3 & Him).
  { apply write_and_read_works; done. }
  cbv beta zeta in Ho, Hc. rewrite E3 in Ho. specialize (Ho eq_refl). rewrite Ho in Hc.
  rewrite (bind_ok _ _ _ _ _ (Hc eq_refl)). eexists. split; [unfold Wrapper.call, modify; cbn [snd]; reflexivity|].
  unfold image_after in *. by rewrite !fold_left_app.
Qed.
End WriteTrace.

(** * Examples *)

(** Over a disk of two sectors: the eight bytes of the seed are printed, and the
    disk holds 64 repetitions of them before the old second sector. *)
Example write_trace_on_disk :
  let image := zeros 1024 in
  let '(o, h) := @write_trace (memory_vddk image) ascii_unicode (lab_base bench_lab) [] in
  o = Ok tt /\ last h = Some (Print (WriteDone (str "[ds] vm.vmdk") trace_seed)) /\
  image_after image h = mjoin (replicate 64 trace_seed) ++ zeros 512.
Proof. vm_compute. auto. Qed.

(** A VDDK whose calls succeed and that reads zeros: the data is not compared
    with what was written, and the test case succeeds. *)
Definition forgetful_vddk : Vddk := {|
  vddk_status _ := 0;
  vddk_handle h := len h;
  vddk_data _ := zeros 512;
  vddk_text _ := None;
  file_error _ := false;
  load_error := false
|}.

Example write_trace_compares_nothing :
  fst (@write_trace forgetful_vddk ascii_unicode (lab_base bench_lab) []) = Ok tt.
Proof. vm_compute. reflexivity. Qed.
