(* ===== verification/ProbeRun.v ===== *)
(** The rest of [docs/probing_samples/vddk_aio_bufsize_probe.py]: the program
    that makes a lab VM, runs itself as a worker under [strace] for two buffer
    sizes, prints what [parse_strace] finds, and destroys the VM.  The VM, the
    operating system and the worker's process are parameters; what the worker
    does is [ProbeWorker]. *)
From Stdlib Require Import ZArith Lia String.
From stdpp Require Import base list numbers gmap.
From coqutil Require Import Byte Word.LittleEndianList.
Import LittleEndianList.
From S2P Require Import Prelude Python PyStr Socket Wire Disk ReadSpec DiskRead OpenDisk World Lab Numerals ProbeTrace ProbeWorker.

(** * The outside *)

Abbreviation environ := (gmap (list Z) (list Z)).

Record completed := mkCompleted { stdout : pystr; stderr : pystr; returncode : Z }.

(** What is printed. *)
Inductive line :=
  | LabLine (disk_path vm_moref : pystr)
  | Header (buf_size buf_count : Z)
  | WorkDir (dir : pystr)
  | Text (s : pystr)
  | ErrText (s : pystr)
  | WorkerExit (code : Z)
  | LogLine (s : pystr)
  | OpenSession (payload : bytes) (ints : list Z)
  | FragmentsHeader
  | Fragment (dest chunk_len extra_len : Z)
  | MaxChunk (n : Z).

Inductive step :=
  | CreateVm
  | DestroyVm (lab : LabEnv)
  | MakeTemp (prefix : pystr)
  | PickleLab (path : pystr) (lab : LabEnv)
  | RunCommand (cmd : list pystr) (env : environ)
  | ReadFile (path : pystr)
  | Worker (lab_pkl work_dir : pystr) (buf_size buf_count : Z)
  | Print (l : line).

(** The answer to the last step of the list. *)
Class Outside := {
  out_vm : list step -> exn + LabEnv;
  out_unit : list step -> exn + unit;
  out_dir : list step -> exn + pystr;
  out_process : list step -> exn + completed;
  (** the lines of a text file; [isfile] is false if there is none *)
  out_file : list step -> exn + list pystr;
  out_isfile : list step -> pystr -> bool;
  (** [sys.executable], [__file__] and the directory of the VDDK library *)
  python : pystr;
  this_file : pystr;
  _VDDK : pystr
}.

(** The steps so far, and [os.environ]. *)
Record program := mkProgram { steps : list step; os_environ : environ }.

Definition do_step {A} (f : list step -> exn + A) (c : step) : M program A := fun s =>
  let h := steps s ++ [c] in
  (match f h with inl e => Raise e | inr a => Ok a end, mkProgram h (os_environ s)).

Definition print (l : line) : M program unit := modify (fun s => mkProgram (steps s ++ [Print l]) (os_environ s)).

(** * The program *)

Definition LD_PRELOAD : pystr := str "LD_PRELOAD".
Definition LD_LIBRARY_PATH : pystr := str "LD_LIBRARY_PATH".

(** The value of the variable, or the empty string. *)
Definition get_env (k : pystr) (env : environ) : pystr := default [] (env !! k).

(** [x if not path else f"{x}:{path}"] *)
Definition prepend_path (x path : pystr) : pystr := if bool_decide (path = []) then x else x ++ 58 :: path.

Section Program.
Context {O : Outside} {U : Unicode}.

(** [ensure_vddk_library_path] of the tests' [base.py] *)
Definition ensure_vddk_library_path : M program unit :=
  modify (fun s =>
    let current := get_env LD_LIBRARY_PATH (os_environ s) in
    let parts := filter (fun p => p <> []) (split_all 58 current) in
    if bool_decide (_VDDK ∈ parts) then s
    else mkProgram (steps s) (<[LD_LIBRARY_PATH := prepend_path _VDDK current]> (os_environ s))).

Definition read_log (path : pystr) : M program (list pystr) :=
  s ← gets (fun s => out_isfile (steps s) path);
  if (s : bool) then
    lines ← do_step out_file (ReadFile path); mret (_interesting_log_lines (Some lines))
  else mret (_interesting_log_lines None).

Fixpoint print_all (ls : list line) : M program unit :=
  match ls with
  | [] => mret tt
  | l :: ls' => print l;; print_all ls'
  end.

(** [for payload in open_sessions: print(...)] *)
Fixpoint print_sessions (payloads : list bytes) : M program unit :=
  match payloads with
  | [] => mret tt
  | payload :: payloads' =>
      raise_when (negb (len payload =? 16)) EStructError;;
      ints ← lift (struct_unpack_from "<IIII" payload 0);
      print (OpenSession payload ints);;
      print_sessions payloads'
  end.

Definition chunk_of (r : Z * Z * Z) : Z := let '(_, chunk_len, _) := r in chunk_len.

(** [max(item[1] for item in io_reads)]; none of them is negative. *)
Definition max_chunk (io_reads : list (Z * Z * Z)) : Z := foldr Z.max 0 (chunk_of <$> io_reads).

(** The options of [strace], and the worker's command line behind them. *)
Definition strace_options (strace_path : pystr) : list pystr :=
  [str "strace"; str "-f"; str "-x"; str "-s"; str "96"; str "-e";
   str "trace=read,write,readv,writev,send,recv,sendto,recvfrom"; str "-o"; strace_path].

Definition worker_argv (lab_pkl work_dir : pystr) (buf_size buf_count : Z) : list pystr :=
  [this_file; str "--worker"; lab_pkl; work_dir; str_int buf_size; str_int buf_count].

(** The environment of the worker. *)
Definition worker_env (env : environ) : environ :=
  let env := delete LD_PRELOAD env in
  <[LD_LIBRARY_PATH := prepend_path _VDDK (get_env LD_LIBRARY_PATH env)]> env.

Definition _run_traced (lab_pkl : pystr) (buf_size_in_64kb buf_count : Z) : M program unit :=
  work_dir ← do_step out_dir
    (MakeTemp (str "vddk-aio-bufsize-" ++ str_int buf_size_in_64kb ++ str "-"));
  let strace_path := path_join work_dir (str "nfc.strace") in
  let cmd := strace_options strace_path ++
    python :: worker_argv lab_pkl work_dir buf_size_in_64kb buf_count in
  env ← gets (fun s => worker_env (os_environ s));
  print (Header buf_size_in_64kb buf_count);;
  print (WorkDir work_dir);;
  proc ← do_step out_process (RunCommand cmd env);
  print (Text (stdout proc));;
  print (ErrText (stderr proc));;
  print (WorkerExit (returncode proc));;
  log ← read_log (path_join work_dir (str "vddk.log"));
  print_all (LogLine <$> log);;
  lines ← do_step out_file (ReadFile strace_path);
  '(open_sessions, io_reads) ← lift (parse_strace lines);
  print_sessions open_sessions;;
  print FragmentsHeader;;
  print_all ((fun '(dest, chunk_len, extra_len) => Fragment dest chunk_len extra_len) <$> io_reads);;
  match io_reads with
  | [] => mret tt
  | _ => print (MaxChunk (max_chunk io_reads))
  end.

Fixpoint run_all (lab_pkl : pystr) (sizes : list (Z * Z)) : M program unit :=
  match sizes with
  | [] => mret tt
  | (buf_size, buf_count) :: sizes' =>
      _run_traced lab_pkl buf_size buf_count;; run_all lab_pkl sizes'
  end.

Definition lab_pkl_path : pystr := str "/tmp/vddk-aio-bufsize-lab.pkl".
Definition sizes_tried : list (Z * Z) := [(1, 1); (32, 1)].

(** [main]; [_worker] is a step. *)
Definition main (argv : list pystr) : M program unit :=
  if bool_decide (str "--worker" ∈ argv) then
    match tail argv with
    | [_; lab_pkl; work_dir; buf_size; buf_count] =>
        size ← lift (py_int buf_size);
        count ← lift (py_int buf_count);
        do_step out_unit (Worker lab_pkl work_dir size count)
    | _ => raise EValueError
    end
  else
    ensure_vddk_library_path;;
    lab ← do_step out_vm CreateVm;
    try_finally
      (do_step out_unit (PickleLab lab_pkl_path lab);;
       print (LabLine (lab_disk_path lab) (lab_vm_moref lab));;
       run_all lab_pkl_path sizes_tried)
      (do_step out_unit (DestroyVm lab)).
End Program.

(** * Specification *)

Definition is_run (c : step) : Prop := match c with RunCommand _ _ => True | _ => False end.
Definition is_vm (c : step) : Prop := match c with CreateVm | DestroyVm _ => True | _ => False end.

(** The lines of the standard output, in order. *)
Definition printed (h : list step) : list line :=
  omap (fun c => match c with Print l => Some l | _ => None end) h.

(** The worker has run in [dir], and left a log and a trace. *)
Record worker_ran {O : Outside} (dir : pystr) (proc : completed) (log lines : list pystr) : Prop := {
  wr_dir h : out_dir h = inr dir;
  wr_process h : out_process h = inr proc;
  wr_isfile h : out_isfile h (path_join dir (str "vddk.log")) = true;
  wr_log h : out_file (h ++ [ReadFile (path_join dir (str "vddk.log"))]) = inr log;
  wr_trace h : out_file (h ++ [ReadFile (path_join dir (str "nfc.strace"))]) = inr lines
}.

Definition session_line (payload : bytes) : line :=
  OpenSession payload [u32_at 0 payload; u32_at 4 payload; u32_at 8 payload; u32_at 12 payload].

(** What is printed of the messages that were found. *)
Definition found_lines (f : list bytes * list (Z * Z * Z)) : list line :=
  (session_line <$> f.1) ++ FragmentsHeader ::
  ((fun '(dest, chunk_len, extra_len) => Fragment dest chunk_len extra_len) <$> f.2) ++
  match f.2 with [] => [] | _ => [MaxChunk (max_chunk f.2)] end.

(** The entries of a search path; an empty one has none. *)
Definition path_entries (path : pystr) : list pystr :=
  if bool_decide (path = []) then [] else split_all 58 path.

(** * Lemmas: what a run adds *)

Lemma split_prepend x path :
  58 ∉ x -> split_all 58 (prepend_path x path) = x :: path_entries path.
Proof.
  intros Hx. unfold prepend_path, path_entries. case_bool_decide.
  - by apply split_all_none.
  - by apply split_all_app.
Qed.

(** The steps in [P] are added; the environment stays. *)
Definition adds (P : step -> Prop) : relation program := fun s s' =>
  os_environ s' = os_environ s /\ exists h, steps s' = steps s ++ h /\ Forall P h.

#[export] Instance adds_preorder P : PreOrder (adds P).
Proof.
  split.
  - intros s. split; [done|]. exists []. by rewrite app_nil_r.
  - intros s1 s2 s3 [E1 (h1 & S1 & F1)] [E2 (h2 & S2 & F2)]. split; [congruence|].
    exists (h1 ++ h2). rewrite S2, S1, app_assoc. split; [done|]. by apply Forall_app.
Qed.

Lemma adds_step {A} (P : step -> Prop) (f : list step -> exn + A) c : P c -> Frame (adds P) (do_step f c).
Proof. intros Hc s. split; [done|]. exists [c]. by repeat constructor. Qed.

#[export] Instance total_step {A} (f : list step -> exn + A) c : Total (do_step f c).
Proof. intros s. unfold do_step. by destruct (f _). Qed.

#[export] Instance total_print l : Total (print l).
Proof. done. Qed.

Section Runs.
Context {O : Outside} {U : Unicode}.

#[export] Instance total_print_all ls : Total (print_all ls).
Proof. induction ls as [|l ls IH]; cbn [print_all]; [apply _|]. by apply total_bind; [apply _|intros]. Qed.

#[export] Instance total_print_sessions ps : Total (print_sessions ps).
Proof.
  induction ps as [|p ps IH]; cbn [print_sessions]; [apply _|]. apply total_bind; [apply _|intros].
  apply total_bind; [apply _|intros]. by apply total_bind; [apply _|intros].
Qed.

#[export] Instance total_parse_strace lines : TotalO (parse_strace lines).
Proof.
  unfold TotalO, parse_strace. destruct (collect_lines_ends lines ([], [])) as [[[ws rs] ->]| ->]; [|done].
  cbn [mbind outcome_bind]. destruct (walk_all_total (snd <$> ws) true false ([], [])) as [f ->].
  cbn [mbind outcome_bind]. by destruct (walk_all_total (snd <$> rs) false true f) as [f' ->].
Qed.

#[export] Instance total_read_log path : Total (read_log path).
Proof. unfold read_log. total. Qed.

#[export] Instance total_run_traced pkl n c : Total (_run_traced pkl n c).
Proof. unfold _run_traced. total. Qed.

#[export] Instance total_run_all pkl sizes : Total (run_all pkl sizes).
Proof. induction sizes as [|[n c] sizes IH]; cbn [run_all]; total. Qed.

(** Everything but a few steps. *)
Context (P : step -> Prop).
Hypothesis P_print : forall l, P (Print l).
Hypothesis P_read : forall path, P (ReadFile path).
Hypothesis P_temp : forall prefix, P (MakeTemp prefix).

Lemma adds_print l : Frame (adds P) (print l).
Proof. intros s. split; [done|]. exists [Print l]. by repeat constructor. Qed.

Lemma adds_print_all ls : Frame (adds P) (print_all ls).
Proof.
  induction ls as [|l ls IH]; cbn [print_all]; [apply _|]. by apply frame_bind; [apply adds_print|intros].
Qed.

Lemma adds_print_sessions ps : Frame (adds P) (print_sessions ps).
Proof.
  induction ps as [|p ps IH]; cbn [print_sessions]; [apply _|]. apply frame_bind; [apply _|intros].
  apply frame_bind; [apply _|intros]. by apply frame_bind; [apply adds_print|intros].
Qed.

Lemma adds_read_log path : Frame (adds P) (read_log path).
Proof.
  unfold read_log. apply frame_bind; [apply _|]. intros []; [|apply _].
  apply frame_bind; [by apply adds_step|intros; apply _].
Qed.

(** What [_run_traced] does after the worker has run. *)
Definition after_run (work_dir : pystr) (proc : completed) : M program unit :=
  print (Text (stdout proc));;
  print (ErrText (stderr proc));;
  print (WorkerExit (returncode proc));;
  log ← read_log (path_join work_dir (str "vddk.log"));
  print_all (LogLine <$> log);;
  lines ← do_step out_file (ReadFile (path_join work_dir (str "nfc.strace")));
  '(open_sessions, io_reads) ← lift (parse_strace lines);
  print_sessions open_sessions;;
  print FragmentsHeader;;
  print_all ((fun '(dest, chunk_len, extra_len) => Fragment dest chunk_len extra_len) <$> io_reads);;
  match io_reads with
  | [] => mret tt
  | _ => print (MaxChunk (max_chunk io_reads))
  end.

Lemma adds_after_run work_dir proc : Frame (adds P) (after_run work_dir proc).
Proof.
  unfold after_run. do 3 (apply frame_bind; [apply adds_print|intros]).
  apply frame_bind; [apply adds_read_log|intros log]. apply frame_bind; [apply adds_print_all|intros].
  apply frame_bind; [by apply adds_step|intros lines]. apply frame_bind; [apply _|intros [os ios]].
  apply frame_bind; [apply adds_print_sessions|intros]. apply frame_bind; [apply adds_print|intros].
  apply frame_bind; [apply adds_print_all|intros]. destruct ios; [apply _|apply adds_print].
Qed.

Lemma adds_run_traced pkl n c : (forall cmd env, P (RunCommand cmd env)) -> Frame (adds P) (_run_traced pkl n c).
Proof.
  intros Hr. unfold _run_traced. apply frame_bind; [by apply adds_step|intros dir].
  apply frame_bind; [apply _|intros env]. do 2 (apply frame_bind; [apply adds_print|intros]).
  apply frame_bind; [by apply adds_step|intros proc]. apply adds_after_run.
Qed.

Lemma adds_run_all pkl sizes : (forall cmd env, P (RunCommand cmd env)) -> Frame (adds P) (run_all pkl sizes).
Proof.
  intros Hr. induction sizes as [|[n c] sizes IH]; cbn [run_all]; [apply _|].
  apply frame_bind; [by apply adds_run_traced|intros]. exact IH.
Qed.
End Runs.

(** The one command of a run. *)
Lemma run_traced_commands {O : Outside} {U : Unicode} pkl n c s cmd env :
  RunCommand cmd env ∈ drop (length (steps s)) (steps (snd (_run_traced pkl n c s))) ->
  exists dir, cmd = strace_options (path_join dir (str "nfc.strace")) ++ python :: worker_argv pkl dir n c /\
    env = worker_env (os_environ s).
Proof.
  intros Hin. unfold _run_traced in Hin. unfold mbind at 1, M_bind at 1, do_step at 1 in Hin.
  destruct (out_dir _) as [e|dir]; cbn [snd steps] in Hin.
  { rewrite drop_app_length in Hin. by apply list_elem_of_singleton in Hin. }
  match type of Hin with _ ∈ drop _ (steps (snd (?m ?s0))) =>
    change (m s0) with ((env ← gets (fun s => worker_env (os_environ s));
      print (Header n c);; print (WorkDir dir);;
      proc ← do_step out_process (RunCommand (strace_options (path_join dir (str "nfc.strace")) ++
        python :: worker_argv pkl dir n c) env);
      after_run dir proc) s0) in Hin end.
  unfold gets, print, modify, do_step, mbind, M_bind in Hin. cbn [steps os_environ] in Hin.
  set (cmd0 := strace_options _ ++ _) in Hin. rewrite <- !app_assoc in Hin. cbn [app] in Hin.
  set (h := [MakeTemp _; _; _; _]) in Hin. exists dir.
  assert (RunCommand cmd env ∈ h -> cmd = cmd0 /\ env = worker_env (os_environ s)) as Hh.
  { unfold h. rewrite !elem_of_cons, elem_of_nil.
    intros [H|[H|[H|[H|[]]]]]; by simplify_eq. }
  destruct (out_process _) as [e|proc]; cbn [snd steps] in Hin.
  - rewrite drop_app_length in Hin. by apply Hh.
  - assert (Frame (adds (fun c => ~ is_run c)) (after_run dir proc)) as Hf by (apply adds_after_run; tauto).
    destruct (Hf (mkProgram (steps s ++ h) (os_environ s))) as [_ (h2 & S & F)].
    rewrite S in Hin. cbn [steps] in Hin. rewrite <- app_assoc, drop_app_length in Hin.
    apply elem_of_app in Hin as [Hin|Hin]; [by apply Hh|].
    rewrite Forall_forall in F. by destruct (F _ Hin).
Qed.

(** * Lemmas: what a run prints *)

(** [m] returns something with [P] and prints [ls]. *)
Definition reports {A} (m : M program A) (P : A -> Prop) (ls : list line) : Prop :=
  forall s, exists a s', m s = (Ok a, s') /\ P a /\ printed (steps s') = printed (steps s) ++ ls.

Lemma reports_bind {A B} (m : M program A) (k : A -> M program B) P Q l1 l2 :
  reports m P l1 -> (forall a, P a -> reports (k a) Q l2) -> reports (m ≫= k) Q (l1 ++ l2).
Proof.
  intros Hm Hk s. destruct (Hm s) as (a & s1 & E1 & Ha & P1). destruct (Hk a Ha s1) as (b & s2 & E2 & Hb & P2).
  exists b, s2. rewrite (bind_ok _ _ _ _ _ E1). split; [done|]. split; [done|].
  by rewrite P2, P1, <- app_assoc.
Qed.

Lemma reports_ret {A} (a : A) (P : A -> Prop) : P a -> reports (mret a) P [].
Proof. intros Ha s. exists a, s. by rewrite app_nil_r. Qed.

Lemma reports_lift {A} (o : outcome A) a : o = Ok a -> reports (lift o) (eq a) [].
Proof. intros -> s. exists a, s. by rewrite app_nil_r. Qed.

Lemma reports_guard b e : b = false -> reports (raise_when b e) (fun _ => True) [].
Proof. intros -> s. exists tt, s. by rewrite app_nil_r. Qed.

Lemma reports_gets {A} (f : program -> A) P : (forall s, P (f s)) -> reports (gets f) P [].
Proof. intros HP s. exists (f s), s. by rewrite app_nil_r. Qed.

Lemma reports_step {A} (f : list step -> exn + A) c a :
  (forall h, f (h ++ [c]) = inr a) -> printed [c] = [] -> reports (do_step f c) (eq a) [].
Proof.
  intros Hf Hc s. unfold do_step. rewrite Hf. eexists _, _. split; [done|]. split; [done|].
  cbn [steps]. unfold printed in *. by rewrite omap_app, Hc.
Qed.

Lemma reports_print l : reports (print l) (fun _ => True) [l].
Proof. intros s. eexists _, _. split; [done|]. split; [done|]. cbn [steps]. unfold printed. by rewrite omap_app. Qed.

Lemma reports_print_all ls : reports (print_all ls) (fun _ => True) ls.
Proof.
  induction ls as [|l ls IH]; cbn [print_all]; [by apply reports_ret|].
  apply (reports_bind _ _ _ _ [l] ls (reports_print l)). by intros.
Qed.

Lemma reports_print_sessions ps :
  Forall (fun p => len p = 16) ps -> reports (print_sessions ps) (fun _ => True) (session_line <$> ps).
Proof.
  induction 1 as [|p ps Hp _ IH]; cbn [print_sessions]; [by apply reports_ret|].
  change (session_line <$> p :: ps) with ([] ++ [] ++ [session_line p] ++ (session_line <$> ps)).
  eapply reports_bind; [by apply reports_guard; rewrite Hp|intros _ _].
  eapply reports_bind; [by apply reports_lift, unpack_IIII; lia|intros _ <-].
  eapply reports_bind; [apply reports_print|intros _ _]. exact IH.
Qed.

Lemma open_payloads_16 l (wms : Z -> list message) : Forall (fun p => len p = 16) (l ≫= fun fd => open_payloads (wms fd)).
Proof.
  apply Forall_forall. intros p (fd & Hp & _)%list_elem_of_bind. unfold open_payloads in Hp.
  apply list_elem_of_fmap in Hp as (m & -> & [_ Hm]%list_elem_of_filter%proj1). cbn. zlia.
Qed.

Lemma reports_after_run {O : Outside} {U : Unicode} dir proc log lines f :
  worker_ran dir proc log lines -> parse_strace lines = Ok f -> Forall (fun p => len p = 16) f.1 ->
  reports (after_run dir proc) (fun _ => True)
    ([Text (stdout proc); ErrText (stderr proc); WorkerExit (returncode proc)] ++
     (LogLine <$> _interesting_log_lines (Some log)) ++ found_lines f).
Proof.
  intros [_ _ Hi Hl Ht] Hp Hf. destruct f as [os ios]. cbn [fst] in Hf. unfold after_run, found_lines. cbn [fst snd].
  do 3 (eapply (reports_bind _ _ _ _ [_]); [apply reports_print|intros _ _]).
  rewrite <- (app_nil_l (_ ++ _)). eapply (reports_bind _ _ (eq (_interesting_log_lines (Some log)))).
  { unfold read_log. rewrite <- (app_nil_l []).
    eapply (reports_bind _ _ (eq true)); [apply reports_gets; intros; by rewrite Hi|intros _ <-].
    rewrite <- (app_nil_l []). eapply reports_bind; [by apply reports_step|intros _ <-]. by apply reports_ret. }
  intros _ <-. eapply reports_bind; [apply reports_print_all|intros _ _].
  rewrite <- (app_nil_l (_ ++ _)). eapply reports_bind; [by apply reports_step|intros _ <-].
  rewrite <- (app_nil_l (_ ++ _)). eapply reports_bind; [by apply reports_lift|intros _ <-].
  eapply reports_bind; [by apply reports_print_sessions|intros _ _].
  eapply (reports_bind _ _ _ _ [_]); [apply reports_print|intros _ _].
  eapply reports_bind; [apply reports_print_all|intros _ _].
  destruct ios; [by apply reports_ret|apply reports_print].
Qed.

(** * Properties *)

(** C27: the lab VM is destroyed, once and last, if it was created, whatever fails
    in between; if its creation fails nothing else is done. *)
Theorem lab_vm_destroyed {O : Outside} {U : Unicode} argv s :
  str "--worker" ∉ argv ->
  let '(o, s') := main argv s in
  o <> OutOfFuel /\
  match out_vm (steps s ++ [CreateVm]) with
  | inl e => o = Raise e /\ steps s' = steps s ++ [CreateVm]
  | inr lab => exists mid, steps s' = steps s ++ CreateVm :: mid ++ [DestroyVm lab] /\
      Forall (fun c => ~ is_vm c) mid
  end.
Proof.
  intros Hw. unfold main. rewrite bool_decide_false by done.
  unfold mbind at 1, M_bind at 1. set (s0 := snd (ensure_vddk_library_path s)).
  assert (ensure_vddk_library_path s = (Ok tt, s0) /\ steps s0 = steps s) as [-> Hs0].
  { unfold s0, ensure_vddk_library_path, modify. cbn. by destruct (bool_decide _). }
  unfold mbind at 1, M_bind at 1, do_step at 1. rewrite Hs0.
  destruct (out_vm (steps s ++ [CreateVm])) as [e|lab]; [done|].
  set (s1 := mkProgram _ _). set (body := do_step out_unit (PickleLab _ lab);; _).
  assert (Frame (adds (fun c => ~ is_vm c)) body) as Hf.
  { unfold body. apply frame_bind; [apply adds_step; tauto|intros].
    apply frame_bind; [apply adds_print; tauto|intros]. apply adds_run_all; tauto. }
  assert (Total body) as Ht by (unfold body; total).
  destruct (Hf s1) as [_ (mid & S & F)]. specialize (Ht s1). clearbody body.
  unfold try_finally. destruct (body s1) as [ob s2]. cbn [fst snd] in *.
  unfold do_step. assert (steps s2 ++ [DestroyVm lab] = steps s ++ CreateVm :: mid ++ [DestroyVm lab]) as E
    by (rewrite S; unfold s1; cbn [steps]; by rewrite <- !app_assoc).
  destruct ob as [x|e|]; [..|done]; destruct (out_unit _); (split; [done|]); by exists mid.
Qed.

(** C28: the command that [_run_traced] gives to [strace] runs this program as the
    worker, with the arguments it was given: its command line makes [main] call
    [_worker] with the same lab file, the same two numbers and the new
    directory.  Its environment preloads nothing; the entries of its library
    path are the VDDK directory and then exactly those it had before (none, if
    it was empty or unset); every other variable is as it was. *)
Theorem worker_gets_arguments {O : Outside} {U : Unicode} {UOk : UnicodeOk U} pkl n c s cmd env :
  len (str_int n) <= 4300 -> len (str_int c) <= 4300 -> 58 ∉ _VDDK ->
  RunCommand cmd env ∈ drop (length (steps s)) (steps (snd (_run_traced pkl n c s))) ->
  exists dir argv, cmd = strace_options (path_join dir (str "nfc.strace")) ++ python :: argv /\
    (forall s0, main argv s0 = do_step out_unit (Worker pkl dir n c) s0) /\
    env !! LD_PRELOAD = None /\
    split_all 58 (get_env LD_LIBRARY_PATH env) =
      _VDDK :: path_entries (get_env LD_LIBRARY_PATH (os_environ s)) /\
    (forall k, k <> LD_PRELOAD -> k <> LD_LIBRARY_PATH -> env !! k = os_environ s !! k).
Proof.
  intros Hn Hc Hv Hin. apply run_traced_commands in Hin as (dir & -> & ->).
  exists dir, (worker_argv pkl dir n c). split; [done|]. split; [|split; [|split]].
  - intros s0. unfold main, worker_argv.
    rewrite bool_decide_true by (right; by left). cbn [tail].
    rewrite !int_str by done. done.
  - unfold worker_env. rewrite lookup_insert_ne by done. by apply lookup_delete_eq.
  - unfold worker_env, get_env. rewrite lookup_insert_eq, lookup_delete_ne by done. cbn [default].
    by apply split_prepend.
  - intros k Hp Hl. unfold worker_env. by rewrite lookup_insert_ne, lookup_delete_ne by done.
Qed.

(** C26: a worker whose traffic, as far as [strace -x -s 96] lets it be seen, is
    made of AIO messages is reported as it is: its output and exit code, the
    interesting lines of its log, the four words of every OPEN_SESSION seen in
    what it sent, and the place and lengths of every fragment seen in what it
    received with the longest of them, however the traffic was cut into calls
    and whatever it printed besides. *)
Theorem run_traced_reports {O : Outside} {U : Unicode} {UOk : UnicodeOk U} pkl n c s dir proc log lines
    cs wms wtail rms rtail :
  let chunks := fds false (omap id cs) ≫= (fun fd => read_chunks (rms fd)) in
  worker_ran dir proc log lines -> Forall2 trace_line cs lines ->
  (forall fd, fd ∈ fds true (omap id cs) ->
    stream_of true fd (omap id cs) = stream (wms fd) (wtail fd) /\ stream_ok (wms fd) (wtail fd)) ->
  (forall fd, fd ∈ fds false (omap id cs) ->
    stream_of false fd (omap id cs) = stream (rms fd) (rtail fd) /\ stream_ok (rms fd) (rtail fd)) ->
  exists s', _run_traced pkl n c s = (Ok tt, s') /\
    printed (steps s') = printed (steps s) ++
      [Header n c; WorkDir dir; Text (stdout proc); ErrText (stderr proc); WorkerExit (returncode proc)] ++
      (LogLine <$> _interesting_log_lines (Some log)) ++
      found_lines (fds true (omap id cs) ≫= (fun fd => open_payloads (wms fd)), chunks).
Proof.
  intros chunks Hw Hl Hs Hr. pose proof (parse_strace_messages cs lines wms wtail rms rtail Hl Hs Hr) as Hp.
  pose proof (reports_after_run dir proc log lines _ Hw Hp (open_payloads_16 _ wms)) as Ha.
  destruct Hw as [Hd Hpr _ _ _].
  assert (reports (_run_traced pkl n c) (fun _ => True)
    ([] ++ [] ++ [Header n c] ++ [WorkDir dir] ++ [] ++
     ([Text (stdout proc); ErrText (stderr proc); WorkerExit (returncode proc)] ++
     (LogLine <$> _interesting_log_lines (Some log)) ++
     found_lines (fds true (omap id cs) ≫= (fun fd => open_payloads (wms fd)), chunks)))) as H.
  { unfold _run_traced. eapply reports_bind; [by apply reports_step|intros _ <-].
    eapply (reports_bind _ _ (fun _ => True)); [by apply reports_gets|intros env _].
    eapply reports_bind; [apply reports_print|intros _ _]. eapply reports_bind; [apply reports_print|intros _ _].
    eapply reports_bind; [by apply reports_step|intros _ <-]. exact Ha. }
  destruct (H s) as ([] & s' & E & _ & P). by exists s'.
Qed.

(** * Witnesses *)

(** The trace of [demo_lines], and a log with one line of interest. *)
Definition bench_log : list pystr := [str "starting"; str "AIO session: Buffer Size 65536 "].

Definition bench (process : exn + completed) : Outside := {|
  out_vm _ := inr bench_lab;
  out_unit _ := inr tt;
  out_dir _ := inr (str "/tmp/w");
  out_process _ := process;
  out_file h := match last h with
    | Some (ReadFile path) => inr (if str_eqb path (str "/tmp/w/vddk.log") then bench_log else demo_lines)
    | _ => inl EOSError end;
  out_isfile _ _ := true;
  python := str "python3";
  this_file := str "probe.py";
  _VDDK := str "/vddk"
|}.

Definition no_steps : program := mkProgram [] (<[LD_LIBRARY_PATH := str "/usr/lib:/lib"]> ∅).

(** There is no [strace]: the VM is destroyed all the same. *)
Example lab_vm_destroyed_witness :
  let '(o, s') := @main (bench (inl EOSError)) ascii_unicode [str "probe.py"] no_steps in
  o <> OutOfFuel /\ exists mid, steps s' =
    CreateVm :: mid ++ [DestroyVm bench_lab] /\
    Forall (fun c => ~ is_vm c) mid.
Proof.
  refine (@lab_vm_destroyed (bench (inl EOSError)) ascii_unicode [str "probe.py"] no_steps _).
  by apply (bool_decide_unpack _).
Defined.

Definition bench_done : completed := mkCompleted (str "ok") [] 0.

Definition bench_run : outcome unit * program :=
  @_run_traced (bench (inr bench_done)) ascii_unicode (str "lab.pkl") 32 1 no_steps.

Example worker_gets_arguments_witness :
  exists cmd env dir argv, RunCommand cmd env ∈ steps (snd bench_run) /\
    cmd = strace_options (path_join dir (str "nfc.strace")) ++ str "python3" :: argv /\
    (forall s0, @main (bench (inr bench_done)) ascii_unicode argv s0 =
      do_step (@out_unit (bench (inr bench_done))) (Worker (str "lab.pkl") dir 32 1) s0) /\
    split_all 58 (get_env LD_LIBRARY_PATH env) = [str "/vddk"; str "/usr/lib"; str "/lib"].
Proof.
  assert (exists cmd env, steps (snd bench_run) !! 3%nat = Some (RunCommand cmd env)) as (cmd & env & Hr)
    by (eexists _, _; vm_compute; reflexivity).
  apply list_elem_of_lookup_2 in Hr.
  destruct (@worker_gets_arguments (bench (inr bench_done)) ascii_unicode ascii_unicode_ok (str "lab.pkl") 32 1
    no_steps cmd env ltac:(vm_compute; by intros) ltac:(vm_compute; by intros) ltac:(by apply (bool_decide_unpack _)) Hr)
    as (dir & argv & Hc & Hm & _ & Hp & _).
  by exists cmd, env, dir, argv.
Defined.

Example run_traced_reports_witness :
  exists s', bench_run = (Ok tt, s') /\ printed (steps s') =
    [Header 32 1; WorkDir (str "/tmp/w"); Text (str "ok"); ErrText []; WorkerExit 0;
     LogLine (str "AIO session: Buffer Size 65536"); session_line (zeros 16); FragmentsHeader;
     Fragment 512 512 512; MaxChunk 512].
Proof.
  refine (@run_traced_reports (bench (inr bench_done)) ascii_unicode ascii_unicode_ok (str "lab.pkl") 32 1
    no_steps (str "/tmp/w") bench_done bench_log demo_lines _
    (fun _ => [demo_open]) (fun _ => []) (fun _ => [demo_reply]) (fun _ => []) _ demo_trace_ok _ _).
  - split; try done.
    + intros h. cbn [out_file bench]. by rewrite last_snoc.
    + intros h. cbn [out_file bench]. by rewrite last_snoc.
  - intros fd Hfd; (assert (fd = 5) as -> by by apply list_elem_of_singleton).
    split; [vm_compute; reflexivity|exact demo_open_ok].
  - intros fd Hfd; (assert (fd = 5) as -> by by apply list_elem_of_singleton).
    split; [vm_compute; reflexivity|exact demo_reply_ok].
Defined.
